(* ===== verification/_CoqProject ===== *)
-Q . S2P
Prelude.v
ByteMem.v
LibString.v
Machine.v
Paging.v
Devices.v
Console.v
Screen.v
Filesystem.v
Kernel.v
Logic.v
FileTable.v
Process.v
Execute.v
Scheduling.v
Keyboard.v
Terminal.v
Syscall.v
Idt.v
System.v
Boot.v
Support.v
Programs.v
UserKernel.v
Syserr.v
Grep.v
Examples.v
