(* ===== verification/Prelude.v ===== *)
(** * Deadlocked: a verification development of the kernel and its programs

    Deadlocked is a small i386 kernel in C: paging, the 8259, PIT, RTC and keyboard
    drivers, a text console, a read-only file system, three terminals, and
    processes with ten system calls (src/student-distrib), with the programs that run
    on it (src/syscalls).  This library models the C code of the kernel and of most
    programs, and proves what the parts do, up to an invariant of the whole kernel
    and to programs followed from their main to the screen.

    ** The parts

    Bottom up, with what each file holds and the source it follows:

    - [Prelude]: C integers as [Z] with their casts ([u8], [s32], ...), the loops
      [while] and [for_range] with their rules, shared tactics and hints;
    - [ByteMem]: the interface [ByteMem] (class, laws [ByteMemOk]) between code that
      moves bytes and the memories it runs on; arrays and C strings in a memory;
    - [LibString] (lib.c): strlen to memmove over any [ByteMem], the inline
      assembly unrolled into its counters;
    - [Machine] (lib.h, wrappers.S): RAM, the i386 page walk, the interrupt flag and
      the trace of port traffic; the instance of [ByteMem] through the page tables;
    - [Paging] (paging.c), [Devices] (i8259.c, pit.c, rtc.c), [Console] (the output
      half of lib.c: putc, puts, printf), [Filesystem] (filesystem.c);
    - [Kernel]: the global variables as one record and the monad [C] of the handlers,
      whose outcomes are to return, to leave C for good (to a program by [iret], or
      to a saved stack), undefined behaviour, and waiting for ever;
    - [Logic]: a program logic for that monad, and the relation [same_space];
    - [FileTable] (the descriptors of syscall.c, file_read, directory_read),
      [Process] (parse_arg to createPCB, execute, halt, getargs, vidmap);
    - [Execute]: the specifications of execute and halt on the whole system;
    - [Scheduling] (scheduling.c, pit_handler): the three screens;
    - [Keyboard] (keyboard.c), [Terminal] (terminal.c, rtc_read, rtc_handler, the
      interrupt wrappers of wrappers.S), [Syscall] (read, write and syscall_link),
      [Idt] (idt.c, x86_desc.h);
    - [Screen]: what a terminal shows, as the abstract terminal of [Console];
    - [System]: the kernel as a transition system and its invariant;
    - [Boot] (kernel.c, multiboot.h): entry, down to the first shell;
    - [Support] (ece391support.c): the string routines of the user library;
    - [Programs] (ece391cat.c, ls, hello, testprint, counter, shell): the mains, over
      the class [Calls] of the system calls, and their loops over the class [Stream]
      of what reading and writing a descriptor promises;
    - [UserKernel] (ece391syscall.S): the kernel of [Syscall] as an instance of
      [Calls], open files and directories as instances of [Stream], and the programs
      on this kernel;
    - [Syserr] (ece391syserr.c): the error tests of the system calls; [Grep]
      (ece391grep.c);
    - [Examples]: one concrete kernel on which the programs run.

    A definition has the name of the C function or variable it models.  State is
    passed explicitly: lib.c on a memory or a [console], the drivers on a
    [machine], everything above on a [kernel].  Globals that pointers of the source
    reach (the line buffers, [filename], [arg], the video memory, the image, the
    user pages) are bytes of the RAM at the addresses of [Layout]; the other
    globals, the page tables and the PCBs are fields of records.

    ** What the theorems show

    - The routines of lib.c: memcpy, memmove and memset for every alignment and
      overlap, strncmp, itoa against the digits of the number.
    - The console: putc refines an abstract terminal of 2000 cells with a cursor
      that scrolls; printf draws the text that [format_text] gives its format.
    - The file system: the two lookups, read_data as a slice of the file, and
      reading a file to its end through a descriptor byte for byte.
    - Descriptors: open, close, and what the dispatch refuses.
    - Processes: parse_arg ends and splits a command; execute starts a program in a
      slot, page, PCB and stack of its own and changes nothing else; halt gives the
      process table back to its parent and leaves through the frame its PCB records;
      the two as a round trip when process1 is of the terminal in view, with what is
      lost on the way, and the frame that is not saved when it is not.
    - Terminals: a switch changes which terminal is in view and nothing of any
      terminal; terminal_read returns with the typed line whatever interrupts are
      mixed in; the keyboard handler draws the character of each key.
    - The interrupt table as the processor reads it, and the exceptions.
    - The system: [reachable_state_ok], an invariant of every state reached by
      system calls, exceptions and interrupts in any order, as long as each of them
      ends and the arguments of the calls are [arguments_safe]; under it halt of a
      child gives its parent back ([halt_restores_parent]).
    - The boot: which magic number and which flags make entry return, having only
      drawn on the screen, and the initial state of the invariant that it reaches
      otherwise.
    - The programs, on this kernel, from their main through the call gate, the jump
      table, the descriptors and the drivers to the cells of the screen: cat shows the
      file, ls the directory, hello greets with the line typed whatever interrupts are
      mixed in, a turn of the shell ends, goes on or runs its line, grep finds the lines
      of a file of any length whose lines fit its array, and syserr's tests of the
      refusals all pass.  The loops are proved against [Stream], which the descriptors
      of the kernel implement; that of grep, which reads behind what it has kept of the
      last line, against file_read itself.

    Several theorems state what the code does where that is not what it means to
    do: a line of 128 characters, a close past the table, a parse_arg that reads past
    its string, a file of three bytes that may pass for an executable, a lost exit
    status, a lost return frame, a counter that refuses every choice.

    ** Parameters and bounds

    - [Layout] and [LayoutOk]: where the linker puts the objects, page aligned,
      disjoint and in the kernel's page; [Handlers] and [Segments] likewise.
    - [Device]: what a device answers on a port, given all the traffic before; the
      theorems about typing ask for a keyboard that delivers given scancodes
      ([Types]), those about the boot for mask registers that hold what was written
      ([MaskLatch]).
    - [Literals]: where the compiler puts the string literals of a program.  A program
      has its arrays at given addresses; [UserKernel.placed] and [UserKernel.literal]
      keep them apart from what the kernel writes, and Examples.v shows such a state.
    - [Frames]: how far down its stack the compiler puts a call.
    - A C loop without a bound is a [while], with 2^32 turns of fuel: the loops run
      over strings of 32-bit addresses and end before.  A busy wait runs on the
      list of interrupts that arrive, and hangs when none is left.
    - What PCBs keep of [filename] is its text; a name of 32 characters or more
      would run over the PCB and is undefined in the model.

    ** Not modelled

    - pSwitch: its only call is commented out, so that no switch between processes
      happens outside execute and halt; [active] stays 1 for the same reason.
    - The translation lookaside buffer: the tables are read as they are;
      [tlb_dirty] tells when the processor might still use an old translation.  This
      matters in copyFromVideo, which copies through the window it has just remapped,
      before any flush: after a program has drawn through the page of vidmap the
      processor may hold the old entry of the window, and the copy then goes from the
      video memory to itself.
    - Page faults of the kernel: an address that no page maps has a cell of its own
      ([cell]), which keeps what is stored in it, where the processor faults.  No
      theorem concludes anything about such a cell.
    - Interrupts in the middle of a system call, other than while it waits: a step
      of [System] is a whole call or a whole interrupt.
    - Kernel variables kept in records are out of the reach of pointers, while the
      kernel checks no buffer of a program: [System] asks of a call that the buffers
      written through lie in the user page, that a count to read is not negative and
      that the words of a command fit [filename] and [arg] ([arguments_safe]).  A
      program that breaks this can overwrite the kernel's variables and page tables.
    - Calls that reach undefined behaviour (execute of a name of 32 characters or
      more, close of the descriptor 8): their outcome is [Undef], and [reachable]
      goes no further through them.
    - An execute of the shell that starts a program leaves the C code of the kernel
      for good, so that the run of the model ends there ([None]); what the kernel does
      then is [Execute].
    - What grep prints of a line longer than its array, which it searches in pieces:
      [do_one_file_correct] asks for lines of at most 1023 characters.
    - Of the programs: pingpong (which never ends), fish (which draws through the
      assembly of blink.S), sigtest (signals, which the kernel refuses) and emulate (a
      stand-in for the kernel under Linux).
    - The tools that build the image, boot.S and the assembly of wrappers.S beyond what the outcomes of [Kernel] and
      [syscall_link] say; the 16-bit and 32-bit port macros of lib.h, which nothing
      calls. *)
From Stdlib Require Import ZArith Lia.
From stdpp Require Import base list gmap numbers.

#[global] Open Scope Z_scope.

(** ** Machine integers

    The kernel is compiled for i386: [int] and pointers have 32 bits, [char] is
    signed.  A C integer is a [Z]; the conversions below are the C casts. *)
Definition u8 (z : Z) : Z := z mod 256.
Definition u16 (z : Z) : Z := z mod 65536.
Definition u32 (z : Z) : Z := z mod 4294967296.
Definition s8 (z : Z) : Z := (z + 128) mod 256 - 128.
Definition s32 (z : Z) : Z := (z + 2147483648) mod 4294967296 - 2147483648.

(** C's truth value of an integer. *)
Definition truth (z : Z) : bool := negb (z =? 0).

(** ** Loops

    [loop p f a] runs the loop body [f] at most [p] times from [a]; the body
    answers [inl] to go on and [inr] to leave the loop.  [p] is binary, so the
    2^32 turns of [while] cost nothing until they are taken. *)
Fixpoint loop {A B : Type} (p : positive) (f : A -> A + B) (a : A) : A + B :=
  match p with
  | xH => f a
  | xO q =>
      match loop q f a with
      | inl a' => loop q f a'
      | inr b => inr b
      end
  | xI q =>
      match f a with
      | inl a' =>
          match loop q f a' with
          | inl a'' => loop q f a''
          | inr b => inr b
          end
      | inr b => inr b
      end
  end.

Definition while_fuel : positive := 4294967296%positive.

Definition while {A B : Type} (f : A -> A + B) (a : A) : option B :=
  match loop while_fuel f a with
  | inr b => Some b
  | inl _ => None
  end.

(** The unary view of [loop], for proofs. *)
Fixpoint loopn {A B : Type} (n : nat) (f : A -> A + B) (a : A) : A + B :=
  match n with
  | O => inl a
  | S n' =>
      match f a with
      | inl a' => loopn n' f a'
      | inr b => inr b
      end
  end.

(** [for (i = lo; i < hi; i++) body] *)
Definition for_range {S : Type} (lo hi : Z) (body : Z -> S -> S) (s : S) : S :=
  foldl (fun s i => body i s) s (seqZ lo (hi - lo)).

(** [Z]-indexed reads of a constant C array; an index outside it has no value. *)
Definition lookupZ {A : Type} (l : list A) (i : Z) : option A :=
  if i <? 0 then None else l !! Z.to_nat i.


(** ** Automation *)

(** Linear arithmetic with divisions and remainders by constants. *)
Ltac dlia := Z.to_euclidean_division_equations; lia.

(** Split every test of the goal and of the hypotheses into its two cases. *)
Ltac split_tests :=
  repeat match goal with
  | |- context [if ?b then _ else _] => let E := fresh "E" in destruct b eqn:E
  | H : context [if ?b then _ else _] |- _ => let E := fresh "E" in destruct b eqn:E
  end.

Create HintDb ints.
Create Rewrite HintDb ints.
Create HintDb mem.

(** ** Facts about the machine integers *)

Lemma u8_range z : 0 <= u8 z < 256.
Proof. unfold u8. dlia. Qed.

Lemma u32_range z : 0 <= u32 z < 4294967296.
Proof. unfold u32. dlia. Qed.

Lemma s8_range z : -128 <= s8 z < 128.
Proof. unfold s8. dlia. Qed.

Lemma s32_range z : -2147483648 <= s32 z < 2147483648.
Proof. unfold s32. dlia. Qed.

Lemma u8_small z : 0 <= z < 256 -> u8 z = z.
Proof. intros. unfold u8. by rewrite Z.mod_small. Qed.

Lemma u32_small z : 0 <= z < 4294967296 -> u32 z = z.
Proof. intros. unfold u32. by rewrite Z.mod_small. Qed.

Lemma s32_small z : -2147483648 <= z < 2147483648 -> s32 z = z.
Proof. intros. unfold s32. rewrite Z.mod_small; lia. Qed.

Lemma u8_u8 z : u8 (u8 z) = u8 z.
Proof. apply u8_small, u8_range. Qed.

Lemma u32_u32 z : u32 (u32 z) = u32 z.
Proof. apply u32_small, u32_range. Qed.

Lemma s8_inj a b : 0 <= a < 256 -> 0 <= b < 256 -> s8 a = s8 b -> a = b.
Proof. unfold s8. intros. dlia. Qed.

(** Or-ing flags into an aligned address adds them. *)
Lemma lor_add k a b : 0 <= k -> a mod 2 ^ k = 0 -> 0 <= b < 2 ^ k -> Z.lor a b = a + b.
Proof.
  intros Hk Ha Hb. assert (Z.land a b = 0) as Hl.
  { apply Z.bits_inj'. intros i Hi. rewrite Z.land_spec, Z.bits_0.
    destruct (Z.ltb_spec i k).
    - rewrite <-(Z.mod_pow2_bits_low a k i), Ha, Z.bits_0 by lia. done.
    - rewrite <-(Z.mod_small b (2 ^ k)), Z.mod_pow2_bits_high by lia. apply andb_false_r. }
  rewrite Z.add_nocarry_lxor by done. by rewrite Z.lxor_lor.
Qed.

#[export] Hint Resolve u8_range u32_range s8_range s32_range : ints.
#[export] Hint Rewrite u8_u8 u32_u32 : ints.

(** ** Facts about loops *)

Section loops.
Context {A B : Type}.
Implicit Type f : A -> A + B.

Lemma loopn_add n k f a :
  loopn (n + k) f a =
  match loopn n f a with inl a' => loopn k f a' | inr b => inr b end.
Proof. revert a. induction n as [|n IH]; intros a; simpl; [done|]. by destruct (f a). Qed.

Lemma loop_loopn p f a : loop p f a = loopn (Pos.to_nat p) f a.
Proof.
  revert a. induction p as [p IH|p IH|]; intros a; simpl loop.
  - replace (Pos.to_nat p~1) with (S (Pos.to_nat p + Pos.to_nat p)) by lia.
    simpl. destruct (f a) as [a'|b]; [|done]. rewrite loopn_add, IH.
    by destruct (loopn _ f a').
  - replace (Pos.to_nat p~0) with (Pos.to_nat p + Pos.to_nat p)%nat by lia.
    rewrite loopn_add, IH. by destruct (loopn _ f a).
  - simpl. by destruct (f a).
Qed.

Lemma loopn_more n k f a b :
  loopn n f a = inr b -> (n <= k)%nat -> loopn k f a = inr b.
Proof.
  intros H Hle. replace k with (n + (k - n))%nat by lia.
  by rewrite loopn_add, H.
Qed.

Lemma while_loopn n f a b :
  loopn n f a = inr b -> Z.of_nat n <= 4294967296 -> while f a = Some b.
Proof.
  intros H Hn. unfold while. rewrite loop_loopn.
  rewrite (loopn_more n _ f a b); [done..|].
  unfold while_fuel. apply Nat2Z.inj_le. rewrite positive_nat_Z. lia.
Qed.

(** Total correctness of a loop: an invariant and a measure below the fuel. *)
Lemma while_total f (I : A -> Prop) (mu : A -> Z) (Q : B -> Prop) a :
  (forall x, I x -> match f x with
                    | inl y => I y /\ 0 <= mu y < mu x
                    | inr b => Q b
                    end) ->
  I a -> 0 <= mu a < 4294967296 -> exists b, while f a = Some b /\ Q b.
Proof.
  intros Hstep HI Hmu.
  assert (exists b, loopn (S (Z.to_nat (mu a))) f a = inr b /\ Q b) as (b & Hb & HQ).
  { remember (Z.to_nat (mu a)) as n eqn:Hn. assert (mu a = Z.of_nat n) as Hm by lia.
    clear Hn Hmu. revert a HI Hm. induction n as [n IH] using lt_wf_ind; intros a HI Hm.
    specialize (Hstep a HI). simpl. destruct (f a) as [y|b]; [|eauto].
    destruct Hstep as [HIy Hy].
    destruct (IH (Z.to_nat (mu y))) with (a := y) as (b & Hb & HQ); [lia|done|lia|].
    exists b; split; [|done]. eapply loopn_more; [exact Hb|lia]. }
  exists b; split; [|done]. eapply while_loopn; [exact Hb|lia].
Qed.

(** Partial correctness of a loop: what every turn preserves. *)
Lemma loop_closed p f (P : A -> Prop) (Q : B -> Prop) a :
  (forall x, P x -> match f x with inl y => P y | inr b => Q b end) ->
  P a -> match loop p f a with inl y => P y | inr b => Q b end.
Proof.
  intros Hstep. rewrite loop_loopn. generalize (Pos.to_nat p). intros n. revert a.
  induction n as [|n IH]; intros x Hx; simpl; [done|].
  specialize (Hstep x Hx). destruct (f x); [by apply IH|done].
Qed.

Lemma while_closed f (P : A -> Prop) (Q : B -> Prop) a b :
  (forall x, P x -> match f x with inl y => P y | inr b => Q b end) ->
  P a -> while f a = Some b -> Q b.
Proof.
  intros Hstep HP. unfold while. pose proof (loop_closed while_fuel f P Q a Hstep HP) as Hl.
  revert Hl. generalize (loop while_fuel f a). intros [y|c] Hl Hw; [discriminate|].
  injection Hw as <-. exact Hl.
Qed.

End loops.

(** ** Counted loops *)

Lemma for_range_nil {S} lo hi (body : Z -> S -> S) s : hi <= lo -> for_range lo hi body s = s.
Proof. intros Hle. unfold for_range. by rewrite seqZ_nil by lia. Qed.

Lemma for_range_step {S} lo hi (body : Z -> S -> S) s :
  lo < hi -> for_range lo hi body s = for_range (lo + 1) hi body (body lo s).
Proof.
  intros Hlt. unfold for_range. rewrite seqZ_cons by lia. simpl.
  by replace (Z.pred (hi - lo)) with (hi - (lo + 1)) by lia;
     replace (Z.succ lo) with (lo + 1) by lia.
Qed.

(** The rule of the counted loop: an invariant indexed by the counter. *)
Lemma for_range_ind {S} (P : Z -> S -> Prop) lo hi body s :
  lo <= hi -> P lo s ->
  (forall i s, lo <= i < hi -> P i s -> P (i + 1) (body i s)) ->
  P hi (for_range lo hi body s).
Proof.
  intros Hle HP Hstep. remember (Z.to_nat (hi - lo)) as n eqn:Hn.
  revert lo s Hle HP Hstep Hn. induction n as [|n IH]; intros lo s Hle HP Hstep Hn.
  - replace lo with hi in * by lia. by rewrite for_range_nil.
  - rewrite for_range_step by lia. apply IH; [lia|apply Hstep; [lia|done]| |lia].
    intros i s' Hi. apply Hstep. lia.
Qed.

#[global] Arguments for_range : simpl never.
#[global] Arguments while : simpl never.

(** ** Options *)

Lemma bind_some {A B} (x : option A) (f : A -> option B) a : x = Some a -> x ≫= f = f a.
Proof. by intros ->. Qed.

(** ** Lists *)

Lemma take_same {A} (a b : nat) (l : list A) :
  Nat.min a (length l) = Nat.min b (length l) -> take a l = take b l.
Proof.
  intros H. destruct (decide (a <= length l)%nat), (decide (b <= length l)%nat).
  - f_equal. lia.
  - rewrite (take_ge l b), (take_ge l a) by lia. done.
  - rewrite (take_ge l b), (take_ge l a) by lia. done.
  - rewrite (take_ge l b), (take_ge l a) by lia. done.
Qed.

Lemma lookupZ_nat {A} (l : list A) (i : nat) : lookupZ l (Z.of_nat i) = l !! i.
Proof. unfold lookupZ. destruct (Z.ltb_spec (Z.of_nat i) 0); [lia|]. by rewrite Nat2Z.id. Qed.

Lemma lookupZ_Some {A} (l : list A) i :
  0 <= i < Z.of_nat (length l) -> is_Some (lookupZ l i).
Proof.
  intros Hi. unfold lookupZ. destruct (Z.ltb_spec i 0); [lia|].
  apply lookup_lt_is_Some. lia.
Qed.
