(* ===== verification/ByteMem.v ===== *)
(** * Byte-addressed memory, as the C code sees it

    [ByteMem] is the interface between the code that moves bytes (lib.c, the
    file system, the console) and the memories it runs on: [ld] and [st] read
    and write one byte at a virtual address, and [cell] names the physical cell
    an address denotes, so that two addresses mapped to one frame alias.
    Pointers are unbounded [Z]: computing an address past the end of the 32-bit
    space is undefined in C and no theorem relies on it. *)
From Stdlib Require Import ZArith Lia.
From stdpp Require Import base list gmap numbers.
From S2P Require Import Prelude.

Class ByteMem (M : Type) := {
  ld : M -> Z -> Z;
  st : M -> Z -> Z -> M;
  cell : M -> Z -> Z;
}.

Class ByteMemOk (M : Type) `{ByteMem M} := {
  ld_range : forall m a, 0 <= ld m a < 256;
  ld_st : forall m a v b,
    ld (st m a v) b = if decide (cell m a = cell m b) then u8 v else ld m b;
  st_u8 : forall m a v, st m a (u8 v) = st m a v;
  ld_cell : forall m a b, cell m a = cell m b -> ld m a = ld m b;
  cell_st : forall m a v b, cell (st m a v) b = cell m b;
}.

(** A memory of its own with one cell per address: a C object that nothing else
    aliases, such as a local array.  A byte never written reads as 0. *)
Definition flat := gmap Z Z.

#[export] Instance flat_mem : ByteMem flat := {
  ld m a := u8 (default 0 (m !! a));
  st m a v := <[a := u8 v]> m;
  cell _ a := a;
}.

Create Rewrite HintDb mem.

Section defs.
Context {M : Type} `{ByteMem M}.

(** Little-endian words: the loads and stores of [uint16_t] and [uint32_t]. *)
Definition ld16 (m : M) (a : Z) : Z := ld m a + 256 * ld m (a + 1).

Definition ld32 (m : M) (a : Z) : Z :=
  ld m a + 256 * ld m (a + 1) + 65536 * ld m (a + 2) + 16777216 * ld m (a + 3).

Definition st16 (m : M) (a v : Z) : M := st (st m a v) (a + 1) (Z.shiftr v 8).

Definition st32 (m : M) (a v : Z) : M :=
  st (st (st (st m a v) (a + 1) (Z.shiftr v 8)) (a + 2) (Z.shiftr v 16))
     (a + 3) (Z.shiftr v 24).

(** The bytes of a range, and writing a list of bytes: the reference against
    which the copying routines are stated. *)
Fixpoint load_bytes (m : M) (a : Z) (n : nat) : list Z :=
  match n with
  | O => []
  | S n' => ld m a :: load_bytes m (a + 1) n'
  end.

Fixpoint store_bytes (m : M) (a : Z) (l : list Z) : M :=
  match l with
  | [] => m
  | b :: l' => store_bytes (st m a b) (a + 1) l'
  end.

Definition bytes_at (m : M) (a : Z) (l : list Z) : Prop :=
  forall i b, l !! i = Some b -> ld m (a + Z.of_nat i) = b.

(** A NUL-terminated C string. *)
Definition cstr (m : M) (a : Z) (l : list Z) : Prop :=
  bytes_at m a (l ++ [0]) /\ Forall (fun b => b <> 0) l.

(** No two addresses of the range denote one cell. *)
Definition inj_on (m : M) (a n : Z) : Prop :=
  forall i j, 0 <= i < n -> 0 <= j < n -> cell m (a + i) = cell m (a + j) -> i = j.

(** The address [x] denotes no cell of the range. *)
Definition outside (m : M) (a n x : Z) : Prop :=
  forall i, 0 <= i < n -> cell m (a + i) <> cell m x.

(** The two ranges share no cell. *)
Definition apart (m : M) (a n b k : Z) : Prop :=
  forall j, 0 <= j < k -> outside m a n (b + j).

(** Observational equality: the same bytes at every address, mapped alike. *)
Definition meq (m1 m2 : M) : Prop :=
  forall a, ld m1 a = ld m2 a /\ cell m1 a = cell m2 a.

End defs.

Section facts.
Context {M : Type} `{ByteMemOk M}.
Implicit Type m : M.

#[export] Instance meq_equivalence : Equivalence (meq (M := M)).
Proof.
  split.
  - intros m a. done.
  - intros m1 m2 Hm a. destruct (Hm a) as [-> ->]. done.
  - intros m1 m2 m3 H1 H2 a. destruct (H1 a) as [-> ->]. apply H2.
Qed.

#[export] Instance st_proper : Proper (meq ==> eq ==> eq ==> meq) (st (M := M)).
Proof.
  intros m1 m2 Hm a ? <- v ? <- b. rewrite !ld_st, !cell_st.
  destruct (Hm a) as [_ ->], (Hm b) as [-> ->]. done.
Qed.

#[export] Instance ld_proper : Proper (meq ==> eq ==> eq) (ld (M := M)).
Proof. intros m1 m2 Hm a ? <-. apply Hm. Qed.

#[export] Instance cell_proper : Proper (meq ==> eq ==> eq) (cell (M := M)).
Proof. intros m1 m2 Hm a ? <-. apply Hm. Qed.

#[export] Instance store_bytes_proper :
  Proper (meq ==> eq ==> eq ==> meq) (store_bytes (M := M)).
Proof.
  intros m1 m2 Hm a ? <- l ? <-. revert m1 m2 Hm a.
  induction l as [|b l IH]; intros m1 m2 Hm a; simpl; [done|].
  apply IH. by rewrite Hm.
Qed.

Lemma ld_st_same m a v : ld (st m a v) a = u8 v.
Proof. rewrite ld_st. by rewrite decide_True. Qed.

Lemma ld_st_other m a v b : cell m a <> cell m b -> ld (st m a v) b = ld m b.
Proof. intros. rewrite ld_st. by rewrite decide_False. Qed.

Lemma u8_ld m a : u8 (ld m a) = ld m a.
Proof. apply u8_small, ld_range. Qed.

Lemma load_bytes_length m a n : length (load_bytes m a n) = n.
Proof. revert a. induction n as [|n IH]; intros a; simpl; [done|]. by rewrite IH. Qed.

Lemma load_bytes_lookup m a n i :
  (i < n)%nat -> load_bytes m a n !! i = Some (ld m (a + Z.of_nat i)).
Proof.
  revert a i. induction n as [|n IH]; intros a i Hi; [lia|].
  destruct i as [|i]; simpl; [do 2 f_equal; lia|].
  rewrite IH by lia. do 2 f_equal. lia.
Qed.

Lemma load_bytes_app m a n k :
  load_bytes m a (n + k) = load_bytes m a n ++ load_bytes m (a + Z.of_nat n) k.
Proof.
  revert a. induction n as [|n IH]; intros a; simpl.
  - by rewrite Z.add_0_r.
  - rewrite IH. do 3 f_equal. lia.
Qed.

Lemma load_bytes_ext m m' a b n :
  (forall i, 0 <= i < Z.of_nat n -> ld m (a + i) = ld m' (b + i)) ->
  load_bytes m a n = load_bytes m' b n.
Proof.
  intros Heq. apply list_eq. intros i. destruct (decide (i < n)%nat).
  - rewrite !load_bytes_lookup by done. f_equal. apply Heq. lia.
  - rewrite !lookup_ge_None_2 by (rewrite load_bytes_length; lia). done.
Qed.

Lemma load_bytes_range m a n : Forall (fun b => 0 <= b < 256) (load_bytes m a n).
Proof.
  revert a. induction n as [|n IH]; intros a; simpl; constructor; auto using ld_range.
Qed.

Lemma bytes_at_load m a l : bytes_at m a l <-> load_bytes m a (length l) = l.
Proof.
  split.
  - intros Hb. apply list_eq. intros i. destruct (l !! i) as [b|] eqn:E.
    + pose proof (lookup_lt_Some _ _ _ E). rewrite load_bytes_lookup by done.
      f_equal. by apply Hb.
    + apply lookup_ge_None_2. rewrite load_bytes_length. by apply lookup_ge_None_1.
  - intros Heq i b Hi. pose proof (lookup_lt_Some _ _ _ Hi).
    rewrite <-Heq, load_bytes_lookup in Hi by done. congruence.
Qed.

Lemma bytes_at_app m a l k :
  bytes_at m a (l ++ k) <-> bytes_at m a l /\ bytes_at m (a + Z.of_nat (length l)) k.
Proof.
  rewrite !bytes_at_load, length_app, load_bytes_app. split.
  - intros Heq. apply app_inj_1 in Heq; [done|]. apply load_bytes_length.
  - intros [-> ->]. done.
Qed.

Lemma cell_store_bytes m a l x : cell (store_bytes m a l) x = cell m x.
Proof. revert m a. induction l as [|b l IH]; intros m a; simpl; [done|]. by rewrite IH, cell_st. Qed.

Lemma store_bytes_app m a l k :
  store_bytes m a (l ++ k) = store_bytes (store_bytes m a l) (a + Z.of_nat (length l)) k.
Proof.
  revert m a. induction l as [|b l IH]; intros m a; simpl.
  - by rewrite Z.add_0_r.
  - rewrite IH. f_equal. lia.
Qed.

Lemma outside_st m a v b n x : outside (st m a v) b n x <-> outside m b n x.
Proof. unfold outside. setoid_rewrite cell_st. done. Qed.

Lemma store_bytes_outside m a l x :
  outside m a (Z.of_nat (length l)) x -> ld (store_bytes m a l) x = ld m x.
Proof.
  revert m a. induction l as [|b l IH]; intros m a Hout; simpl; [done|].
  rewrite IH.
  - apply ld_st_other. specialize (Hout 0). rewrite Z.add_0_r in Hout. apply Hout. simpl. lia.
  - intros i Hi. rewrite !cell_st. replace (a + 1 + i) with (a + (1 + i)) by lia.
    apply Hout. simpl. lia.
Qed.

Lemma inj_on_sub m a n b k :
  inj_on m a n -> a <= b -> b + k <= a + n -> inj_on m b k.
Proof.
  intros Hinj Hab Hbk i j Hi Hj Hc.
  assert (b - a + i = b - a + j); [|lia].
  apply Hinj; [lia..|]. by replace (a + (b - a + i)) with (b + i) by lia;
    replace (a + (b - a + j)) with (b + j) by lia.
Qed.

Lemma store_bytes_inside m a l i b :
  inj_on m a (Z.of_nat (length l)) -> l !! i = Some b ->
  ld (store_bytes m a l) (a + Z.of_nat i) = u8 b.
Proof.
  revert m a i. induction l as [|c l IH]; intros m a i Hinj Hi; [done|].
  simpl length in Hinj. destruct i as [|i]; simpl in Hi |- *.
  - simplify_eq. rewrite store_bytes_outside, Z.add_0_r; [apply ld_st_same|].
    intros j Hj. rewrite !cell_st. intros Hc. cut (1 + j = 0); [lia|].
    apply Hinj; [lia..|]. rewrite Z.add_0_r in Hc |- *. by rewrite Z.add_assoc.
  - replace (a + Z.of_nat (S i)) with (a + 1 + Z.of_nat i) by lia.
    apply IH; [|done]. intros j k Hj Hk. rewrite !cell_st.
    apply (inj_on_sub m a _ (a + 1) (Z.of_nat (length l)) Hinj); lia.
Qed.

(** The reference write, in full: what is in the range and what is outside it. *)
Lemma store_bytes_load m a l :
  inj_on m a (Z.of_nat (length l)) ->
  load_bytes (store_bytes m a l) a (length l) = map u8 l.
Proof.
  intros Hinj. apply list_eq. intros i. rewrite list_lookup_fmap.
  destruct (l !! i) as [b|] eqn:E; simpl.
  - pose proof (lookup_lt_Some _ _ _ E). rewrite load_bytes_lookup by done.
    by erewrite store_bytes_inside.
  - apply lookup_ge_None_2. rewrite load_bytes_length. by apply lookup_ge_None_1.
Qed.

Lemma map_u8_id l : Forall (fun b => 0 <= b < 256) l -> map u8 l = l.
Proof. induction 1 as [|b l Hb Hl IH]; simpl; [done|]. by rewrite IH, u8_small. Qed.

Lemma apart_sym m a n b k : apart m a n b k -> apart m b k a n.
Proof. intros Hap j Hj i Hi Hc. by apply (Hap i Hi j Hj). Qed.

Lemma load_store_apart m a l b n :
  apart m a (Z.of_nat (length l)) b (Z.of_nat n) ->
  load_bytes (store_bytes m a l) b n = load_bytes m b n.
Proof.
  intros Hap. apply load_bytes_ext. intros i Hi. apply store_bytes_outside. by apply Hap.
Qed.

Lemma ld32_range m a : 0 <= ld32 m a < 4294967296.
Proof.
  unfold ld32. pose proof (ld_range m a). pose proof (ld_range m (a + 1)).
  pose proof (ld_range m (a + 2)). pose proof (ld_range m (a + 3)). lia.
Qed.

Lemma ld32_ext m m' a :
  (forall i, 0 <= i < 4 -> ld m' (a + i) = ld m (a + i)) -> ld32 m' a = ld32 m a.
Proof.
  intros Heq. unfold ld32. pose proof (Heq 0 ltac:(lia)) as H0'.
  rewrite !Z.add_0_r in H0'. rewrite H0', !Heq by lia. done.
Qed.

(** A 32-bit store is the store of its four bytes. *)
Lemma st32_store_bytes m a v :
  st32 m a v = store_bytes m a [v; Z.shiftr v 8; Z.shiftr v 16; Z.shiftr v 24].
Proof. unfold st32. simpl. by rewrite <-!Z.add_assoc. Qed.

Lemma st16_store_bytes m a v : st16 m a v = store_bytes m a [v; Z.shiftr v 8].
Proof. done. Qed.

Lemma store_bytes_u8 m a l : store_bytes m a (map u8 l) = store_bytes m a l.
Proof. revert m a. induction l as [|b l IH]; intros m a; simpl; [done|]. by rewrite st_u8, IH. Qed.

(** Moving a dword moves its four bytes. *)
Lemma st32_ld32 m m' a b :
  st32 m a (ld32 m' b) = store_bytes m a (load_bytes m' b 4).
Proof.
  rewrite st32_store_bytes, <-store_bytes_u8. f_equal. simpl. unfold ld32.
  rewrite !Z.shiftr_div_pow2 by lia. change (2 ^ 8) with 256.
  change (2 ^ 16) with 65536. change (2 ^ 24) with 16777216.
  replace (b + 1 + 1 + 1) with (b + 3) by lia. replace (b + 1 + 1) with (b + 2) by lia.
  pose proof (ld_range m' b). pose proof (ld_range m' (b + 1)).
  pose proof (ld_range m' (b + 2)). pose proof (ld_range m' (b + 3)).
  unfold u8. repeat f_equal; dlia.
Qed.

(** An address either denotes a cell of the range or lies outside it. *)
Lemma outside_or m a (n : nat) x :
  (exists i, (i < n)%nat /\ cell m (a + Z.of_nat i) = cell m x) \/
  outside m a (Z.of_nat n) x.
Proof.
  induction n as [|n IH]; [right; intros i Hi; lia|].
  destruct IH as [(i & Hi & Hc)|Hout]; [left; exists i; split; [lia|done]|].
  destruct (decide (cell m (a + Z.of_nat n) = cell m x)) as [Hc|Hc].
  - left. exists n. split; [lia|done].
  - right. intros i Hi. destruct (decide (i = Z.of_nat n)) as [->|]; [done|].
    apply Hout. lia.
Qed.

(** Observational characterisation of the reference write. *)
Lemma meq_store_bytes m m' a l :
  inj_on m a (Z.of_nat (length l)) ->
  (forall x, cell m' x = cell m x) ->
  (forall i b, l !! i = Some b -> ld m' (a + Z.of_nat i) = u8 b) ->
  (forall x, outside m a (Z.of_nat (length l)) x -> ld m' x = ld m x) ->
  meq m' (store_bytes m a l).
Proof.
  intros Hinj Hc Hin Hout x. rewrite cell_store_bytes. split; [|done].
  destruct (outside_or m a (length l) x) as [(i & Hi & Hcx)|Ho].
  - destruct (lookup_lt_is_Some_2 l i Hi) as [b Hb].
    rewrite (ld_cell m' x (a + Z.of_nat i)) by (by rewrite !Hc).
    rewrite (ld_cell _ x (a + Z.of_nat i)) by (by rewrite !cell_store_bytes).
    by rewrite (Hin i b), (store_bytes_inside m a l i b).
  - by rewrite Hout, store_bytes_outside.
Qed.

(** A range written twice holds what was written last. *)
Lemma store_bytes_twice m a l k :
  length l = length k -> inj_on m a (Z.of_nat (length l)) ->
  meq (store_bytes (store_bytes m a l) a k) (store_bytes m a k).
Proof.
  intros Hlen Hinj. apply meq_store_bytes.
  - by rewrite <-Hlen.
  - intros x. by rewrite !cell_store_bytes.
  - intros i b Hi. erewrite store_bytes_inside; [done| |exact Hi].
    intros x y Hx Hy. rewrite !cell_store_bytes. apply Hinj; lia.
  - intros x Ho. rewrite store_bytes_outside; [apply store_bytes_outside; by rewrite Hlen|].
    intros i Hi. rewrite !cell_store_bytes. by apply Ho.
Qed.

(** Writes to different cells commute. *)
Lemma st_store_bytes_comm m x v a l :
  outside m a (Z.of_nat (length l)) x ->
  meq (store_bytes (st m x v) a l) (st (store_bytes m a l) x v).
Proof.
  revert m a. induction l as [|b l IH]; intros m a Ho; simpl; [done|].
  assert (cell m a <> cell m x) as Hne.
  { specialize (Ho 0). rewrite Z.add_0_r in Ho. apply Ho. simpl. lia. }
  rewrite <-IH.
  - apply store_bytes_proper; [|done..]. intros y. rewrite !ld_st, !cell_st.
    split; [|done]. repeat case_decide; congruence.
  - intros i Hi. rewrite !cell_st. rewrite <-Z.add_assoc. apply Ho. simpl. lia.
Qed.

(** Storing a C string, and storing elsewhere. *)
Lemma cstr_store m a l :
  inj_on m a (Z.of_nat (length l + 1)) -> Forall (fun b => b <> 0 /\ 0 <= b < 256) l ->
  cstr (store_bytes m a (l ++ [0])) a l.
Proof.
  intros Hinj Hl. split.
  - apply bytes_at_load. rewrite store_bytes_load by by rewrite length_app.
    apply map_u8_id, Forall_app. split; [|by repeat constructor].
    eapply Forall_impl; [|exact Hl]. by intros b [_ ?].
  - eapply Forall_impl; [|exact Hl]. by intros b [? _].
Qed.

Lemma bytes_at_store_apart m a k p l :
  apart m a (Z.of_nat (length k)) p (Z.of_nat (length l)) -> bytes_at m p l ->
  bytes_at (store_bytes m a k) p l.
Proof.
  intros Hap Hb i b Hi. pose proof (lookup_lt_Some _ _ _ Hi).
  rewrite store_bytes_outside; [by apply Hb|]. apply Hap. lia.
Qed.

Lemma cstr_store_apart m a k p l :
  apart m a (Z.of_nat (length k)) p (Z.of_nat (length l + 1)) -> cstr m p l ->
  cstr (store_bytes m a k) p l.
Proof.
  intros Hap [Hb Hz]. split; [|done]. apply bytes_at_store_apart; [|done].
  by rewrite length_app.
Qed.

End facts.

#[export] Instance flat_mem_ok : ByteMemOk flat.
Proof.
  split; simpl.
  - intros. apply u8_range.
  - intros m a v b. case_decide as Hd.
    + subst. unfold flat. rewrite lookup_insert_eq. apply u8_u8.
    + unfold flat. by rewrite lookup_insert_ne.
  - intros. by rewrite u8_u8.
  - intros m a b ->. done.
  - done.
Qed.

Lemma flat_inj_on (m : flat) a n : inj_on m a n.
Proof. intros i j _ _ Hc. simpl in Hc. lia. Qed.

Lemma flat_apart (m : flat) a n b k : a + n <= b \/ b + k <= a -> apart m a n b k.
Proof. intros Hor j Hj i Hi Hc. simpl in Hc. lia. Qed.

#[export] Hint Resolve flat_inj_on flat_apart ld_range ld32_range : mem.
#[export] Hint Rewrite @cell_st @cell_store_bytes @load_bytes_length : mem.

#[global] Arguments ld : simpl never.
#[global] Arguments st : simpl never.
#[global] Arguments cell : simpl never.
