(* ===== verification/LibString.v ===== *)
(** * The string and memory routines of student-distrib/lib.c

    [strlen], [strcpy], [strncpy], [strncmp], [strrev], [itoa] and the inline
    assembly of [memset], [memset_word], [memset_dword], [memcpy] and [memmove],
    over any memory of the [ByteMem] interface.  An unbounded C loop is a
    [while] whose fuel is the 2^32 addresses of the machine and answers [None]
    when it is exhausted; a counted loop recurses on its counter.  The registers
    [ecx] and [edx] of the assembly are its unsigned counters, [edi] and [esi]
    its pointers. *)
From Stdlib Require Import ZArith Lia String Ascii.
From stdpp Require Import base list gmap numbers.
From S2P Require Import Prelude ByteMem.

(** The bytes of a C string literal, without its terminator. *)
Definition chars (s : string) : list Z :=
  map (fun a => Z.of_nat (nat_of_ascii a)) (list_ascii_of_string s).

(** The C string at the head of an array of bytes. *)
Fixpoint cprefix (l : list Z) : list Z :=
  match l with
  | [] => []
  | b :: l' => if b =? 0 then [] else b :: cprefix l'
  end.

Definition digit_lookup : list Z := chars "0123456789ABCDEFGHIJKLMNOPQRSTUVWXYZ".

Section lib.
Context {M : Type} `{ByteMem M}.

Definition strlen (m : M) (s : Z) : option Z :=
  while (fun len => if ld m (s + len) =? 0 then inr len else inl (u32 (len + 1))) 0.

Definition strcpy (m : M) (dest src : Z) : option M :=
  while (fun '(i, m) =>
    let c := ld m (src + i) in
    if c =? 0 then inr (st m (dest + i) 0)
    else inl (i + 1, st m (dest + i) c)) (0, m).

(** First loop of [strncpy]: [while (src[i] != '\0' && i < n)]. *)
Fixpoint strncpy_copy (k : nat) (m : M) (dest src i : Z) : nat * Z * M :=
  match k with
  | O => (O, i, m)
  | S k' =>
      if ld m (src + i) =? 0 then (k, i, m)
      else strncpy_copy k' (st m (dest + i) (ld m (src + i))) dest src (i + 1)
  end.

(** Second loop: [while (i < n) dest[i] = '\0']. *)
Fixpoint strncpy_pad (k : nat) (m : M) (dest i : Z) : M :=
  match k with
  | O => m
  | S k' => strncpy_pad k' (st m (dest + i) 0) dest (i + 1)
  end.

(** The counter [k] is [n - i], the turns the two loops have left. *)
Definition strncpy (m : M) (dest src n : Z) : M :=
  let '(k, i, m) := strncpy_copy (Z.to_nat n) m dest src 0 in
  strncpy_pad k m dest i.

Fixpoint strncmp_from (k : nat) (m : M) (s1 s2 i : Z) : Z :=
  match k with
  | O => 0
  | S k' =>
      let a := s8 (ld m (s1 + i)) in
      let b := s8 (ld m (s2 + i)) in
      if negb (a =? b) || (a =? 0) then a - b
      else strncmp_from k' m s1 s2 (i + 1)
  end.

Definition strncmp (m : M) (s1 s2 n : Z) : Z := strncmp_from (Z.to_nat n) m s1 s2 0.

Definition strrev (m : M) (s : Z) : option M :=
  match strlen m s with
  | None => None
  | Some len =>
      while (fun '(beg, end_, m) =>
        if beg <? end_ then
          let tmp := ld m (s + end_) in
          let m := st m (s + end_) (ld m (s + beg)) in
          let m := st m (s + beg) tmp in
          inl (beg + 1, end_ - 1, m)
        else inr m) (0, s32 (len - 1), m)
  end.

(** [None] also stands for the two undefined cases: a radix of 0 divides by
    zero, one above 36 can read past the digit table. *)
Definition itoa (m : M) (value buf radix : Z) : option M :=
  let radix := u32 radix in
  if value =? 0 then Some (st (st m buf 48) (buf + 1) 0)
  else if radix =? 0 then None
  else
    r ← while (fun '(newval, newbuf, m) =>
          if 0 <? newval then
            match lookupZ digit_lookup (newval mod radix) with
            | None => inr None
            | Some d => inl (newval / radix, newbuf + 1, st m newbuf d)
            end
          else inr (Some (newbuf, m))) (value, buf, m);
    '(newbuf, m) ← r;
    strrev (st m newbuf 0) buf.

(** The operand [c << 24 | c << 16 | c << 8 | c] that [memset] loads in [eax]. *)
Definition fill_eax (c : Z) : Z :=
  Z.lor (Z.lor (Z.lor (Z.shiftl c 24) (Z.shiftl c 16)) (Z.shiftl c 8)) c.

(** [rep stosl]: store [eax] in [ecx] dwords. *)
Fixpoint rep_stosl (ecx : nat) (m : M) (edi eax : Z) : M * Z :=
  match ecx with
  | O => (m, edi)
  | S ecx' => rep_stosl ecx' (st32 m edi eax) (edi + 4) eax
  end.

Fixpoint rep_stosw (ecx : nat) (m : M) (edi eax : Z) : M * Z :=
  match ecx with
  | O => (m, edi)
  | S ecx' => rep_stosw ecx' (st16 m edi eax) (edi + 2) eax
  end.

Fixpoint memset_bottom (edx : nat) (m : M) (edi eax : Z) : M :=
  match edx with
  | O => m
  | S edx' => memset_bottom edx' (st m edi eax) (edi + 1) eax
  end.

Definition memset_aligned (ecx : nat) (m : M) (edi eax : Z) : M :=
  let edx := Z.to_nat (Z.land (Z.of_nat ecx) 3) in
  let ecx := Z.to_nat (Z.shiftr (Z.of_nat ecx) 2) in
  let '(m, edi) := rep_stosl ecx m edi eax in
  memset_bottom edx m edi eax.

Fixpoint memset_top (ecx : nat) (m : M) (edi eax : Z) : M :=
  match ecx with
  | O => m
  | S ecx' =>
      if Z.land edi 3 =? 0 then memset_aligned ecx m edi eax
      else memset_top ecx' (st m edi eax) (edi + 1) eax
  end.

Definition memset (m : M) (s c n : Z) : M :=
  let c := Z.land c 255 in
  memset_top (Z.to_nat n) m s (fill_eax c).

Definition memset_word (m : M) (s c n : Z) : M := fst (rep_stosw (Z.to_nat n) m s c).

Definition memset_dword (m : M) (s c n : Z) : M := fst (rep_stosl (Z.to_nat n) m s c).

(** [rep movsl]: each turn loads a whole dword before it stores it. *)
Fixpoint rep_movsl (ecx : nat) (m : M) (edi esi : Z) : M * Z * Z :=
  match ecx with
  | O => (m, edi, esi)
  | S ecx' => rep_movsl ecx' (st32 m edi (ld32 m esi)) (edi + 4) (esi + 4)
  end.

Fixpoint memcpy_bottom (edx : nat) (m : M) (edi esi : Z) : M :=
  match edx with
  | O => m
  | S edx' => memcpy_bottom edx' (st m edi (ld m esi)) (edi + 1) (esi + 1)
  end.

Definition memcpy_aligned (ecx : nat) (m : M) (edi esi : Z) : M :=
  let edx := Z.to_nat (Z.land (Z.of_nat ecx) 3) in
  let ecx := Z.to_nat (Z.shiftr (Z.of_nat ecx) 2) in
  let '(m, edi, esi) := rep_movsl ecx m edi esi in
  memcpy_bottom edx m edi esi.

Fixpoint memcpy_top (ecx : nat) (m : M) (edi esi : Z) : M :=
  match ecx with
  | O => m
  | S ecx' =>
      if Z.land edi 3 =? 0 then memcpy_aligned ecx m edi esi
      else memcpy_top ecx' (st m edi (ld m esi)) (edi + 1) (esi + 1)
  end.

Definition memcpy (m : M) (dest src n : Z) : M := memcpy_top (Z.to_nat n) m dest src.

(** [rep movsb] with the direction flag clear (step 1) or set (step -1). *)
Fixpoint rep_movsb (ecx : nat) (m : M) (edi esi step : Z) : M :=
  match ecx with
  | O => m
  | S ecx' => rep_movsb ecx' (st m edi (ld m esi)) (edi + step) (esi + step) step
  end.

(** The memory after [memmove], and the direction flag it leaves behind: the
    backward copy sets it and nothing clears it again. *)
Definition memmove (m : M) (dest src n : Z) : M * bool :=
  if dest <=? src then (rep_movsb (Z.to_nat n) m dest src 1, false)
  else (rep_movsb (Z.to_nat n) m (dest + n - 1) (src + n - 1) (-1), true).

(** No byte of the source is overwritten by an ascending copy before it is read. *)
Definition fwd_ok (m : M) (dest src n : Z) : Prop :=
  forall i j, 0 <= i < j -> j < n -> cell m (dest + i) <> cell m (src + j).

(** The reference copy. *)
Definition copy_bytes (m : M) (dest src : Z) (n : nat) : M :=
  store_bytes m dest (load_bytes m src n).

End lib.

(** The digits of [value] in base [radix], most significant first. *)
Fixpoint digits_rev (fuel : nat) (radix value : Z) : list Z :=
  match fuel with
  | O => []
  | S f => if value =? 0 then [] else value mod radix :: digits_rev f radix (value / radix)
  end.

Definition digits (radix value : Z) : list Z :=
  if value =? 0 then [0] else reverse (digits_rev 32 radix value).

Definition digit_char (d : Z) : Z := if d <? 10 then 48 + d else 55 + d.

(** Reading digits back, most significant first. *)
Definition undigits (radix : Z) (l : list Z) : Z := fold_left (fun v d => v * radix + d) l 0.

Section copy_facts.
Context {M : Type} `{ByteMemOk M}.
Implicit Type m : M.

Lemma fwd_ok_outside m d s n i j :
  fwd_ok m d s n -> 0 <= i < j -> j < n -> outside m (d + i) 1 (s + j).
Proof. intros Hf Hi Hj k Hk. replace k with 0 by lia. rewrite Z.add_0_r. by apply Hf. Qed.

(** An ascending copy can be cut anywhere: the rest reads what was there. *)
Lemma copy_split m d s a b :
  fwd_ok m d s (Z.of_nat (a + b)) ->
  let m' := copy_bytes m d s a in
  copy_bytes m d s (a + b) = copy_bytes m' (d + Z.of_nat a) (s + Z.of_nat a) b
  /\ fwd_ok m' (d + Z.of_nat a) (s + Z.of_nat a) (Z.of_nat b).
Proof.
  intros Hf m'. unfold m', copy_bytes. split.
  - rewrite load_bytes_app, store_bytes_app, load_bytes_length. f_equal.
    symmetry. apply load_store_apart. intros j Hj i Hi.
    rewrite load_bytes_length in Hi. rewrite <-Z.add_assoc. apply Hf; lia.
  - intros i j Hi Hj. rewrite !cell_store_bytes, <-!Z.add_assoc. apply Hf; lia.
Qed.

Lemma copy_one m d s : copy_bytes m d s 1 = st m d (ld m s).
Proof. done. Qed.

Lemma rep_movsl_copy n m d s :
  fwd_ok m d s (Z.of_nat (4 * n)) ->
  rep_movsl n m d s = (copy_bytes m d s (4 * n), d + Z.of_nat (4 * n), s + Z.of_nat (4 * n)).
Proof.
  revert m d s. induction n as [|n IH]; intros m d s Hf; cbn [rep_movsl].
  - by rewrite !Z.add_0_r.
  - replace (4 * S n)%nat with (4 + 4 * n)%nat in * by lia.
    destruct (copy_split m d s 4 (4 * n) Hf) as [-> Hf'].
    rewrite st32_ld32. change (store_bytes m d (load_bytes m s 4)) with (copy_bytes m d s 4).
    change (Z.of_nat 4) with 4 in *. rewrite IH by done.
    f_equal; [f_equal|]; lia.
Qed.

Lemma memcpy_bottom_copy n m d s :
  fwd_ok m d s (Z.of_nat n) -> memcpy_bottom n m d s = copy_bytes m d s n.
Proof.
  revert m d s. induction n as [|n IH]; intros m d s Hf; [done|]. cbn [memcpy_bottom].
  destruct (copy_split m d s 1 n Hf) as [Heq Hf'].
  change (S n) with (1 + n)%nat. rewrite Heq, IH by done. done.
Qed.

Lemma shiftr2_land3 n :
  Z.to_nat (Z.shiftr (Z.of_nat n) 2) = (n / 4)%nat /\
  Z.to_nat (Z.land (Z.of_nat n) 3) = (n mod 4)%nat.
Proof.
  rewrite Z.shiftr_div_pow2 by lia. change 3 with (Z.ones 2).
  rewrite Z.land_ones by lia. change (2 ^ 2) with (Z.of_nat 4).
  by rewrite <-Nat2Z.inj_div, <-Nat2Z.inj_mod, !Nat2Z.id.
Qed.

Lemma memcpy_aligned_copy n m d s :
  fwd_ok m d s (Z.of_nat n) -> memcpy_aligned n m d s = copy_bytes m d s n.
Proof.
  intros Hf. unfold memcpy_aligned. destruct (shiftr2_land3 n) as [-> ->].
  pose proof (Nat.div_mod_eq n 4) as Hn. remember (n / 4)%nat as q. remember (n mod 4)%nat as r.
  subst n. destruct (copy_split m d s (4 * q) r Hf) as [-> Hf'].
  rewrite rep_movsl_copy, memcpy_bottom_copy; [done..|].
  intros i j Hi Hj. apply Hf; lia.
Qed.

Lemma memcpy_top_copy n m d s :
  fwd_ok m d s (Z.of_nat n) -> memcpy_top n m d s = copy_bytes m d s n.
Proof.
  revert m d s. induction n as [|n IH]; intros m d s Hf; [done|]. cbn [memcpy_top].
  destruct (Z.land d 3 =? 0); [by apply memcpy_aligned_copy|].
  destruct (copy_split m d s 1 n Hf) as [Heq Hf'].
  change (S n) with (1 + n)%nat. rewrite Heq, IH by done. done.
Qed.

Lemma memcpy_copy m d s n :
  fwd_ok m d s n -> memcpy m d s n = copy_bytes m d s (Z.to_nat n).
Proof.
  intros Hf. apply memcpy_top_copy. intros i j Hi Hj. apply Hf; lia.
Qed.

Lemma apart_fwd_ok m d s n : apart m d n s n -> fwd_ok m d s n.
Proof. intros Hap i j Hi Hj. apply Hap; lia. Qed.

(** The copy, byte by byte. *)
Lemma memcpy_ld m d s n j :
  fwd_ok m d s n -> inj_on m d n -> 0 <= j < n ->
  ld (memcpy m d s n) (d + j) = ld m (s + j).
Proof.
  intros Hf Hinj Hj. rewrite memcpy_copy by done. unfold copy_bytes.
  replace j with (Z.of_nat (Z.to_nat j)) by lia.
  erewrite store_bytes_inside; [apply u8_ld| |by rewrite load_bytes_lookup by lia].
  rewrite load_bytes_length, Z2Nat.id by lia. done.
Qed.

Lemma memcpy_ld_outside m d s n x :
  0 <= n -> fwd_ok m d s n -> outside m d n x -> ld (memcpy m d s n) x = ld m x.
Proof.
  intros Hn Hf Ho. rewrite memcpy_copy by done. apply store_bytes_outside.
  by rewrite load_bytes_length, Z2Nat.id.
Qed.

(** *** Filling *)

(** The four bytes of [c << 24 | c << 16 | c << 8 | c] are all [c]. *)
Lemma fill_bytes c : 0 <= c < 256 ->
  map u8 [fill_eax c; Z.shiftr (fill_eax c) 8; Z.shiftr (fill_eax c) 16;
          Z.shiftr (fill_eax c) 24] = replicate 4 c.
Proof.
  intros Hc.
  assert (forallb (fun k => bool_decide
    (map u8 [fill_eax k; Z.shiftr (fill_eax k) 8; Z.shiftr (fill_eax k) 16;
             Z.shiftr (fill_eax k) 24] = replicate 4 k)) (seqZ 0 256) = true) as Hall
    by (vm_compute; reflexivity).
  rewrite forallb_forall in Hall. specialize (Hall c).
  rewrite bool_decide_eq_true in Hall. apply Hall.
  apply list_elem_of_In, elem_of_seqZ. lia.
Qed.

Lemma st32_fill m a c : 0 <= c < 256 ->
  st32 m a (fill_eax c) = store_bytes m a (replicate 4 c).
Proof. intros Hc. by rewrite st32_store_bytes, <-store_bytes_u8, fill_bytes. Qed.

Lemma st_fill m a c : 0 <= c < 256 -> st m a (fill_eax c) = st m a c.
Proof.
  intros Hc. rewrite <-st_u8. pose proof (fill_bytes c Hc) as Hf. simpl in Hf. congruence.
Qed.

Lemma rep_stosl_fill n m a c : 0 <= c < 256 ->
  rep_stosl n m a (fill_eax c)
  = (store_bytes m a (replicate (4 * n) c), a + Z.of_nat (4 * n)).
Proof.
  intros Hc. revert m a. induction n as [|n IH]; intros m a; cbn [rep_stosl].
  - by rewrite Z.add_0_r.
  - replace (4 * S n)%nat with (4 + 4 * n)%nat by lia.
    rewrite IH, st32_fill, replicate_add, store_bytes_app, length_replicate by done.
    f_equal; lia.
Qed.

Lemma memset_bottom_fill n m a c : 0 <= c < 256 ->
  memset_bottom n m a (fill_eax c) = store_bytes m a (replicate n c).
Proof.
  intros Hc. revert m a. induction n as [|n IH]; intros m a; simpl; [done|].
  by rewrite st_fill, IH.
Qed.

Lemma memset_aligned_fill n m a c : 0 <= c < 256 ->
  memset_aligned n m a (fill_eax c) = store_bytes m a (replicate n c).
Proof.
  intros Hc. unfold memset_aligned. destruct (shiftr2_land3 n) as [-> ->].
  pose proof (Nat.div_mod_eq n 4) as Hn. remember (n / 4)%nat as q. remember (n mod 4)%nat as r.
  subst n. rewrite rep_stosl_fill, memset_bottom_fill by done.
  by rewrite replicate_add, store_bytes_app, length_replicate.
Qed.

Lemma memset_top_fill n m a c : 0 <= c < 256 ->
  memset_top n m a (fill_eax c) = store_bytes m a (replicate n c).
Proof.
  intros Hc. revert m a. induction n as [|n IH]; intros m a; [done|]. cbn [memset_top].
  destruct (Z.land a 3 =? 0); [by apply memset_aligned_fill|].
  by rewrite st_fill, IH.
Qed.

Lemma land_255 c : Z.land c 255 = u8 c.
Proof. change 255 with (Z.ones 8). by rewrite Z.land_ones by lia. Qed.

Lemma memset_fill m a c n :
  memset m a c n = store_bytes m a (replicate (Z.to_nat n) (u8 c)).
Proof. unfold memset. rewrite land_255. apply memset_top_fill, u8_range. Qed.

End copy_facts.

Section move_facts.
Context {M : Type} `{ByteMemOk M}.
Implicit Type m : M.

Lemma copy_snoc m d s n :
  copy_bytes m d s (n + 1)
  = st (copy_bytes m d s n) (d + Z.of_nat n) (ld m (s + Z.of_nat n)).
Proof. unfold copy_bytes. by rewrite load_bytes_app, store_bytes_app, load_bytes_length. Qed.

Lemma cell_copy_bytes m d s n x : cell (copy_bytes m d s n) x = cell m x.
Proof. apply cell_store_bytes. Qed.

Lemma rep_movsb_up n m d s :
  fwd_ok m d s (Z.of_nat n) -> rep_movsb n m d s 1 = copy_bytes m d s n.
Proof.
  revert m d s. induction n as [|n IH]; intros m d s Hf; [done|]. cbn [rep_movsb].
  destruct (copy_split m d s 1 n Hf) as [Heq Hf'].
  change (S n) with (1 + n)%nat. rewrite Heq, IH by done. done.
Qed.

(** A descending copy does not read what it has written. *)
Definition bwd_ok m (d s n : Z) : Prop :=
  forall i j, 0 <= j < i -> i < n ->
  cell m (d + i) <> cell m (s + j) /\ cell m (d + j) <> cell m (d + i).

Lemma rep_movsb_down n m d s :
  bwd_ok m d s (Z.of_nat n) ->
  meq (rep_movsb n m (d + Z.of_nat n - 1) (s + Z.of_nat n - 1) (-1)) (copy_bytes m d s n).
Proof.
  revert m. induction n as [|n IH]; intros m Hb; [done|]. cbn [rep_movsb].
  replace (d + Z.of_nat (S n) - 1) with (d + Z.of_nat n) by lia.
  replace (s + Z.of_nat (S n) - 1) with (s + Z.of_nat n) by lia.
  change (d + Z.of_nat n + -1) with (d + Z.of_nat n - 1).
  change (s + Z.of_nat n + -1) with (s + Z.of_nat n - 1).
  rewrite IH.
  2:{ intros i j Hj Hi. rewrite !cell_st. apply Hb; lia. }
  replace (S n) with (n + 1)%nat by lia. rewrite copy_snoc. unfold copy_bytes.
  rewrite (load_bytes_ext _ m s s).
  - apply st_store_bytes_comm. intros i Hi. rewrite load_bytes_length in Hi. apply Hb; lia.
  - intros i Hi. apply ld_st_other. apply Hb; lia.
Qed.

(** *** C strings *)

Lemma cstr_ld m s l i :
  cstr m s l -> (i < length l)%nat -> exists b, l !! i = Some b /\ ld m (s + Z.of_nat i) = b /\ b <> 0.
Proof.
  intros [Hb Hnz] Hi. destruct (lookup_lt_is_Some_2 l i Hi) as [b E].
  exists b. split_and!; [done| |exact (Forall_lookup_1 _ _ _ _ Hnz E)].
  apply Hb. by rewrite lookup_app_l.
Qed.

Lemma cstr_end m s l : cstr m s l -> ld m (s + Z.of_nat (length l)) = 0.
Proof. intros [Hb _]. apply Hb. by rewrite list_lookup_middle. Qed.

Lemma cstr_nil m s : cstr m s [] <-> ld m s = 0.
Proof.
  split.
  - intros Hs. pose proof (cstr_end _ _ _ Hs) as Hz. simpl in Hz. by rewrite Z.add_0_r in Hz.
  - intros Hz. split; [|constructor]. apply bytes_at_load. simpl. by rewrite Hz.
Qed.

Lemma cstr_cons m s b l : cstr m s (b :: l) <-> ld m s = b /\ b <> 0 /\ cstr m (s + 1) l.
Proof.
  unfold cstr. rewrite Forall_cons_iff, !bytes_at_load. cbn [app length load_bytes]. split.
  - intros [[= Hb Hl] [Hnz Hf]]. by rewrite Hb.
  - intros (-> & Hnz & Hl & Hf). by rewrite Hl.
Qed.

Lemma cstr_range m s l : cstr m s l -> Forall (fun b => 0 <= b < 256) l.
Proof.
  intros [Hb _]. apply bytes_at_app in Hb as [Hb _]. apply bytes_at_load in Hb.
  rewrite <-Hb. apply load_bytes_range.
Qed.

Lemma cprefix_app_0 l k : Forall (fun b => b <> 0) l -> cprefix (l ++ 0 :: k) = l.
Proof.
  induction 1 as [|b l Hb Hl IH]; simpl; [done|]. rewrite (proj2 (Z.eqb_neq b 0)) by done.
  by rewrite IH.
Qed.

Lemma cprefix_length l : (length (cprefix l) <= length l)%nat.
Proof. induction l as [|b l IH]; simpl; [done|]. destruct (b =? 0); simpl; lia. Qed.

Lemma cprefix_nz l : Forall (fun b => b <> 0) (cprefix l).
Proof.
  induction l as [|b l IH]; simpl; [constructor|].
  destruct (Z.eqb_spec b 0); constructor; done.
Qed.

Lemma cprefix_id l : Forall (fun b => b <> 0) l -> cprefix l = l.
Proof.
  induction 1 as [|b l Hb Hl IH]; simpl; [done|]. rewrite (proj2 (Z.eqb_neq b 0)) by done.
  by rewrite IH.
Qed.

(** A C string, seen through a window of [n] bytes. *)
Lemma cstr_cprefix m s l n :
  cstr m s l -> cprefix (load_bytes m s n) = take n l.
Proof.
  intros [Hb Hnz]. destruct (decide (n <= length l)%nat) as [Hle|Hgt].
  - replace l with (take n l ++ drop n l) in Hb by apply take_drop.
    rewrite <-app_assoc in Hb. apply bytes_at_app in Hb as [Hb _].
    apply bytes_at_load in Hb. rewrite length_take, Nat.min_l in Hb by done.
    rewrite Hb. apply cprefix_id. by apply Forall_take.
  - rewrite take_ge by lia. replace n with (length (l ++ [0%Z]) + (n - length l - 1))%nat
      by (rewrite length_app; simpl; lia).
    rewrite load_bytes_app. apply bytes_at_load in Hb. rewrite Hb, <-app_assoc.
    by apply cprefix_app_0.
Qed.

Lemma strlen_cstr m s l :
  cstr m s l -> Z.of_nat (length l) < 4294967295 -> strlen m s = Some (Z.of_nat (length l)).
Proof.
  intros Hs Hlen. unfold strlen.
  edestruct (while_total (A := Z) (B := Z)
    (fun len => if ld m (s + len) =? 0 then inr len else inl (u32 (len + 1)))
    (fun len => 0 <= len <= Z.of_nat (length l))
    (fun len => Z.of_nat (length l) - len)
    (fun b => b = Z.of_nat (length l)) 0) as (b & Hb & ->); [|lia..|exact Hb].
  intros len Hr. cbv beta. destruct (decide (len = Z.of_nat (length l))) as [->|Hne].
  - by rewrite (cstr_end m s l Hs).
  - destruct (cstr_ld m s l (Z.to_nat len) Hs) as (b & _ & Hb & Hnz); [lia|].
    rewrite Z2Nat.id in Hb by lia. rewrite Hb, (proj2 (Z.eqb_neq b 0)) by done.
    rewrite u32_small; lia.
Qed.

Lemma strcpy_cstr m d s l :
  cstr m s l -> fwd_ok m d s (Z.of_nat (length l + 1)) ->
  Z.of_nat (length l) < 4294967295 ->
  strcpy m d s = Some (store_bytes m d (l ++ [0])).
Proof.
  intros Hs Hf Hlen. unfold strcpy.
  assert (store_bytes m d (l ++ [0]) = copy_bytes m d s (length l + 1)) as ->.
  { unfold copy_bytes. f_equal. destruct Hs as [Hb _]. apply bytes_at_load in Hb.
    rewrite <-Hb. f_equal. by rewrite length_app. }
  edestruct (while_total (A := Z * M) (B := M)
    (fun '(i, m) => let c := ld m (s + i) in
      if c =? 0 then inr (st m (d + i) 0) else inl (i + 1, st m (d + i) c))
    (fun '(i, m') => 0 <= i <= Z.of_nat (length l) /\ m' = copy_bytes m d s (Z.to_nat i))
    (fun '(i, _) => Z.of_nat (length l) - i)
    (fun m' => m' = copy_bytes m d s (length l + 1)) (0, m)) as (m' & Hm' & ->);
    [|by split; [lia|]|simpl; lia|exact Hm'].
  intros [i m'] [Hi ->]. cbv beta iota zeta.
  assert (ld (copy_bytes m d s (Z.to_nat i)) (s + i) = ld m (s + i)) as ->.
  { apply store_bytes_outside. rewrite load_bytes_length. intros j Hj. apply Hf; lia. }
  destruct (decide (i = Z.of_nat (length l))) as [->|Hne].
  - pose proof (cstr_end m s l Hs) as H0'. rewrite H0'. simpl.
    rewrite Nat2Z.id, copy_snoc. by rewrite H0'.
  - destruct (cstr_ld m s l (Z.to_nat i) Hs) as (b & _ & Hb & Hnz); [lia|].
    rewrite Z2Nat.id in Hb by lia. rewrite (proj2 (Z.eqb_neq _ 0)) by congruence.
    split; [|lia]. split; [lia|]. replace (Z.to_nat (i + 1)) with (Z.to_nat i + 1)%nat by lia.
    rewrite copy_snoc, Z2Nat.id by lia. done.
Qed.

Lemma strncpy_copy_prefix k m d s i :
  fwd_ok m (d + i) (s + i) (Z.of_nat k) ->
  let l := cprefix (load_bytes m (s + i) k) in
  strncpy_copy k m d s i
  = ((k - length l)%nat, i + Z.of_nat (length l), store_bytes m (d + i) l).
Proof.
  revert m i. induction k as [|k IH]; intros m i Hf; cbn [strncpy_copy load_bytes cprefix].
  - by rewrite Z.add_0_r.
  - destruct (Z.eqb_spec (ld m (s + i)) 0) as [E|E]; [by rewrite Z.add_0_r|].
    destruct (copy_split m (d + i) (s + i) 1 k Hf) as [_ Hf'].
    rewrite copy_one in Hf'. change (Z.of_nat 1) with 1 in Hf'.
    rewrite <-!Z.add_assoc in Hf'.
    assert (load_bytes m (s + (i + 1)) k
            = load_bytes (st m (d + i) (ld m (s + i))) (s + (i + 1)) k) as Hl.
    { apply load_bytes_ext. intros j Hj. symmetry. apply ld_st_other.
      specialize (Hf 0 (1 + j) ltac:(lia) ltac:(lia)). rewrite Z.add_0_r in Hf.
      by replace (s + (i + 1) + j) with (s + i + (1 + j)) by lia. }
    replace (s + i + 1) with (s + (i + 1)) by lia. rewrite IH by done. rewrite Hl.
    cbn [length store_bytes]. replace (d + i + 1) with (d + (i + 1)) by lia.
    f_equal. f_equal; lia.
Qed.

Lemma strncpy_pad_zero k m d i :
  strncpy_pad k m d i = store_bytes m (d + i) (replicate k 0).
Proof.
  revert m i. induction k as [|k IH]; intros m i; simpl; [done|].
  by rewrite IH, Z.add_assoc.
Qed.

(** [strncpy] writes exactly [n] bytes: the string cut at [n], then NULs. *)
Lemma strncpy_bytes m d s n :
  fwd_ok m d s n ->
  strncpy m d s n
  = store_bytes m d (resize (Z.to_nat n) 0 (cprefix (load_bytes m s (Z.to_nat n)))).
Proof.
  intros Hf. unfold strncpy. rewrite strncpy_copy_prefix.
  - rewrite !Z.add_0_r, strncpy_pad_zero.
    pose proof (cprefix_length (load_bytes m s (Z.to_nat n))) as Hle.
    rewrite load_bytes_length in Hle.
    by rewrite resize_ge, store_bytes_app, Z.add_0_l by done.
  - rewrite !Z.add_0_r. intros i j Hi Hj. apply Hf; lia.
Qed.

Lemma strncmp_from_zero k m s1 s2 i :
  strncmp_from k m s1 s2 i = 0 <->
  cprefix (load_bytes m (s1 + i) k) = cprefix (load_bytes m (s2 + i) k).
Proof.
  revert i. induction k as [|k IH]; intros i; cbn [strncmp_from load_bytes cprefix]; [done|].
  pose proof (ld_range m (s1 + i)) as R1. pose proof (ld_range m (s2 + i)) as R2.
  destruct (Z.eqb_spec (s8 (ld m (s1 + i))) (s8 (ld m (s2 + i)))) as [E|E]; cbn [negb orb].
  - apply s8_inj in E; [|done..]. rewrite <-E.
    destruct (Z.eqb_spec (s8 (ld m (s1 + i))) 0) as [E0|E0];
      destruct (Z.eqb_spec (ld m (s1 + i)) 0) as [E1|E1].
    + split; intros _; [done|lia].
    + apply (s8_inj _ 0) in E0; lia.
    + by rewrite E1 in E0.
    + rewrite IH, <-!Z.add_assoc. split; [by intros ->|by injection 1].
  - split; [lia|]. intros Hp. exfalso. apply E. f_equal.
    destruct (Z.eqb_spec (ld m (s1 + i)) 0), (Z.eqb_spec (ld m (s2 + i)) 0);
      [congruence|done|done|congruence].
Qed.

Lemma strncmp_zero m s1 s2 n :
  strncmp m s1 s2 n = 0 <->
  cprefix (load_bytes m s1 (Z.to_nat n)) = cprefix (load_bytes m s2 (Z.to_nat n)).
Proof. unfold strncmp. by rewrite strncmp_from_zero, !Z.add_0_r. Qed.

End move_facts.

(** What every single store preserves, the routines preserve. *)
Section closed.
Context {M : Type} `{ByteMem M} (P : M -> Prop).
Hypothesis P_st : forall m a v, P m -> P (st m a v).

Lemma store_bytes_closed l m a : P m -> P (store_bytes m a l).
Proof. revert m a. induction l as [|b l IH]; intros m a Hm; simpl; auto. Qed.

Lemma st32_closed m a v : P m -> P (st32 m a v).
Proof. intros Hm. unfold st32. auto. Qed.

Lemma rep_movsl_closed n m d s : P m -> P (fst (fst (rep_movsl n m d s))).
Proof. revert m d s. induction n as [|n IH]; intros m d s Hm; simpl; auto using st32_closed. Qed.

Lemma memcpy_bottom_closed n m d s : P m -> P (memcpy_bottom n m d s).
Proof. revert m d s. induction n as [|n IH]; intros m d s Hm; simpl; auto. Qed.

Lemma memcpy_closed m d s n : P m -> P (memcpy m d s n).
Proof.
  unfold memcpy. revert m d s. induction (Z.to_nat n) as [|k IH]; intros m d s Hm; [done|].
  cbn [memcpy_top]. destruct (Z.land d 3 =? 0); [|by auto]. unfold memcpy_aligned.
  pose proof (rep_movsl_closed (Z.to_nat (Z.shiftr (Z.of_nat (S k)) 2)) m d s Hm) as Hr.
  destruct (rep_movsl _ m d s) as [[m' d'] s']. by apply memcpy_bottom_closed.
Qed.

Lemma strncpy_closed m d s n : P m -> P (strncpy m d s n).
Proof.
  assert (Hcopy : forall k m i, P m -> P (snd (strncpy_copy k m d s i))).
  { induction k as [|k IH]; intros m' i Hm; simpl; [done|].
    destruct (ld m' (s + i) =? 0); simpl; auto. }
  intros Hm. unfold strncpy. specialize (Hcopy (Z.to_nat n) m 0 Hm).
  destruct (strncpy_copy _ m d s 0) as [[k i] m']. simpl in Hcopy.
  revert m' i Hcopy. induction k as [|k IH]; intros m' i Hm'; simpl; auto.
Qed.

Lemma for_range_closed lo hi body m :
  (forall i m, P m -> P (body i m)) -> P m -> P (for_range lo hi body m).
Proof.
  intros Hb Hm. destruct (Z.le_gt_cases lo hi).
  - apply (for_range_ind (fun _ => P)); auto.
  - by rewrite for_range_nil by lia.
Qed.

End closed.

Section number_facts.
Context {M : Type} `{ByteMemOk M}.
Implicit Type m : M.

(** Invariant of the loop of [strrev] on a string of [n] bytes: the bytes outside
    [beg .. end_] are in their final place, those inside have not moved. *)
Definition strrev_inv m (s n : Z) : Z * Z * M -> Prop := fun '(beg, end_, m') =>
  beg + end_ = n - 1 /\ 0 <= beg <= end_ + 2 /\
  (forall x, cell m' x = cell m x) /\
  (forall i, 0 <= i < n ->
     ld m' (s + i) = if (beg <=? i) && (i <=? end_) then ld m (s + i)
                     else ld m (s + (n - 1 - i))) /\
  (forall x, outside m s n x -> ld m' x = ld m x).

Lemma strrev_swap m s n beg end_ m' :
  inj_on m s n -> strrev_inv m s n (beg, end_, m') -> beg < end_ ->
  strrev_inv m s n
    (beg + 1, end_ - 1,
     st (st m' (s + end_) (ld m' (s + beg))) (s + beg) (ld m' (s + end_))).
Proof.
  intros Hinj (Hsum & Hb & Hc & Hin & Hout) Hlt.
  assert (forall i j, 0 <= i < n -> 0 <= j < n -> i <> j -> cell m (s + i) <> cell m (s + j))
    as Hne by (intros i j Hi Hj Hij Heq; apply Hij, Hinj; done).
  assert (ld m' (s + beg) = ld m (s + beg)) as Eb.
  { rewrite Hin by lia. by rewrite !(proj2 (Z.leb_le _ _)) by lia. }
  assert (ld m' (s + end_) = ld m (s + end_)) as Ee.
  { rewrite Hin by lia. by rewrite !(proj2 (Z.leb_le _ _)) by lia. }
  split_and!; [lia..| | |].
  - intros x. by rewrite !cell_st.
  - intros i Hi. rewrite Eb, Ee. destruct (decide (i = beg)) as [->|Hib].
    { rewrite ld_st_same, u8_ld, (proj2 (Z.leb_gt _ _)) by lia. simpl.
      do 2 f_equal. lia. }
    rewrite ld_st_other by (rewrite !cell_st, !Hc; apply Hne; lia).
    destruct (decide (i = end_)) as [->|Hie].
    { rewrite ld_st_same, u8_ld, (proj2 (Z.leb_gt end_ _)), andb_false_r by lia.
      do 2 f_equal. lia. }
    rewrite ld_st_other, Hin by (rewrite ?Hc; try apply Hne; lia).
    destruct (Z.leb_spec beg i), (Z.leb_spec i end_), (Z.leb_spec (beg + 1) i),
      (Z.leb_spec i (end_ - 1)); simpl; done || lia.
  - intros x Ho. rewrite !ld_st_other; [by apply Hout|..]; rewrite ?cell_st, ?Hc; apply Ho; lia.
Qed.

Lemma strrev_cstr m s l :
  cstr m s l -> inj_on m s (Z.of_nat (length l)) -> Z.of_nat (length l) < 2147483648 ->
  exists m', strrev m s = Some m' /\ meq m' (store_bytes m s (reverse l)).
Proof.
  intros Hs Hinj Hlen. set (n := Z.of_nat (length l)) in *.
  unfold strrev. rewrite (strlen_cstr m s l Hs) by lia. fold n. rewrite s32_small by lia.
  edestruct (while_total (A := Z * Z * M) (B := M)
    (fun '(beg, end_, m) =>
        if beg <? end_ then
          let tmp := ld m (s + end_) in
          let m := st m (s + end_) (ld m (s + beg)) in
          let m := st m (s + beg) tmp in
          inl (beg + 1, end_ - 1, m)
        else inr m)
    (strrev_inv m s n) (fun '(beg, end_, _) => Z.max 0 (end_ - beg + 1))
    (fun m' => meq m' (store_bytes m s (reverse l))) (0, n - 1, m)) as (m' & Hm' & Hq);
    [| |lia|by exists m'].
  - intros [[beg end_] m'] Hi. cbv beta iota zeta. destruct (Z.ltb_spec beg end_).
    { split; [by apply strrev_swap|lia]. }
    destruct Hi as (Hsum & Hb & Hc & Hin & Hout). apply meq_store_bytes.
    + by rewrite length_reverse.
    + done.
    + intros i b Hib. pose proof (lookup_lt_Some _ _ _ Hib) as Hi. rewrite length_reverse in Hi.
      rewrite reverse_lookup in Hib by done.
      destruct (cstr_ld m s l (length l - S i) Hs) as (b' & Hb' & Hld & _); [lia|]. simplify_eq.
      rewrite Hin by lia.
      replace (Z.of_nat (length l - S i)) with (n - 1 - Z.of_nat i) by lia.
      rewrite u8_ld.
      destruct (Z.leb_spec beg (Z.of_nat i)), (Z.leb_spec (Z.of_nat i) end_); simpl; try done.
      do 2 f_equal. lia.
    + intros x. rewrite length_reverse. apply Hout.
  - split_and!; [lia..|done| |done]. intros i Hi. by rewrite !(proj2 (Z.leb_le _ _)) by lia.
Qed.

(** *** Numbers *)

Lemma digit_lookup_char d : 0 <= d < 36 -> lookupZ digit_lookup d = Some (digit_char d).
Proof.
  intros Hd.
  assert (forallb (fun k => bool_decide (lookupZ digit_lookup k = Some (digit_char k)))
            (seqZ 0 36) = true) as Hall by (vm_compute; reflexivity).
  rewrite forallb_forall in Hall. specialize (Hall d). rewrite bool_decide_eq_true in Hall.
  apply Hall, list_elem_of_In, elem_of_seqZ. lia.
Qed.

Lemma digits_rev_range f radix v : 0 < radix -> Forall (fun d => 0 <= d < radix) (digits_rev f radix v).
Proof.
  intros Hr. revert v. induction f as [|f IH]; intros v; simpl; [constructor|].
  destruct (v =? 0); constructor; [|done]. by apply Z.mod_pos_bound.
Qed.

Lemma digits_rev_value f radix v :
  1 < radix -> 0 <= v < radix ^ Z.of_nat f ->
  fold_right (fun d v => v * radix + d) 0 (digits_rev f radix v) = v.
Proof.
  intros Hr. revert v. induction f as [|f IH]; intros v Hv.
  - simpl in *. lia.
  - simpl. destruct (Z.eqb_spec v 0) as [->|Hnz]; [done|]. simpl. rewrite IH.
    + pose proof (Z.div_mod v radix). lia.
    + rewrite Nat2Z.inj_succ, Z.pow_succ_r in Hv by lia. split; [apply Z.div_pos; lia|].
      apply Z.div_lt_upper_bound; lia.
Qed.

Lemma pow_32 radix : 2 <= radix -> 4294967296 <= radix ^ Z.of_nat 32.
Proof. intros Hr. change 4294967296 with (2 ^ 32). apply Z.pow_le_mono_l. lia. Qed.

(** What the first loop of [itoa] leaves in the buffer: the digits, least first. *)
Lemma itoa_loop m value buf radix :
  2 <= radix <= 36 -> 0 <= value < 4294967296 ->
  while (fun '(newval, newbuf, m) =>
          if 0 <? newval then
            match lookupZ digit_lookup (newval mod radix) with
            | None => inr None
            | Some d => inl (newval / radix, newbuf + 1, st m newbuf d)
            end
          else inr (Some (newbuf, m))) (value, buf, m)
  = let l := map digit_char (digits_rev 32 radix value) in
    Some (Some (buf + Z.of_nat (length l), store_bytes m buf l)).
Proof.
  intros Hr Hv. cbv zeta. pose proof (pow_32 radix ltac:(lia)) as Hpow.
  remember 32%nat as k eqn:Hk. clear Hk.
  set (P := fun '(newval, newbuf, m') => exists f pre,
    0 <= newval < radix ^ Z.of_nat f /\ newval <= value /\
    pre ++ digits_rev f radix newval = digits_rev k radix value /\
    newbuf = buf + Z.of_nat (length pre) /\
    m' = store_bytes m buf (map digit_char pre)).
  edestruct (while_total (A := Z * Z * M) (B := option (Z * M))
    (fun '(newval, newbuf, m) =>
          if 0 <? newval then
            match lookupZ digit_lookup (newval mod radix) with
            | None => inr None
            | Some d => inl (newval / radix, newbuf + 1, st m newbuf d)
            end
          else inr (Some (newbuf, m)))
    P (fun '(newval, _, _) => newval)
    (fun b => let l := map digit_char (digits_rev k radix value) in
              b = Some (buf + Z.of_nat (length l), store_bytes m buf l))
    (value, buf, m)) as (b & Hb & ->); [| |lia|exact Hb].
  - intros [[v nb] m'] (f & pre & Hf & Hle & Hpre & -> & ->). cbv beta iota.
    destruct (Z.ltb_spec 0 v) as [Hpos|Hz].
    + destruct f as [|f]; [simpl in Hf; lia|]. simpl in Hpre.
      rewrite (proj2 (Z.eqb_neq v 0)) in Hpre by lia.
      rewrite digit_lookup_char
        by (pose proof (Z.mod_pos_bound v radix); lia).
      split; [|split; [apply Z.div_pos; lia|apply Z.div_lt; lia]].
      exists f, (pre ++ [v mod radix]). rewrite Nat2Z.inj_succ, Z.pow_succ_r in Hf by lia.
      split_and!.
      * apply Z.div_pos; lia.
      * apply Z.div_lt_upper_bound; lia.
      * transitivity v; [|done]. apply Z.lt_le_incl, Z.div_lt; lia.
      * by rewrite <-app_assoc.
      * rewrite length_app. simpl. lia.
      * rewrite map_app, store_bytes_app, length_map. done.
    + assert (v = 0) as -> by lia.
      assert (digits_rev f radix 0 = []) as Hd by (by destruct f).
      rewrite Hd, app_nil_r in Hpre. subst pre. cbv zeta. by rewrite length_map.
  - exists k, []. split_and!; [lia|lia|lia|done|simpl; lia|done].
Qed.

Lemma digit_chars_cstr m buf l :
  inj_on m buf (Z.of_nat (length l + 1)) -> Forall (fun d => 0 <= d < 36) l ->
  cstr (store_bytes m buf (map digit_char l ++ [0])) buf (map digit_char l).
Proof.
  intros Hinj Hl. split.
  - apply bytes_at_load. rewrite store_bytes_load.
    + apply map_u8_id, Forall_app. split; [|by repeat constructor].
      apply Forall_map. eapply Forall_impl; [|exact Hl]. intros d Hd. cbv beta in Hd |- *. unfold digit_char.
      destruct (Z.ltb_spec d 10); lia.
    + by rewrite length_app, length_map.
  - apply Forall_map. eapply Forall_impl; [|exact Hl]. intros d Hd. cbv beta in Hd |- *. unfold digit_char.
    destruct (Z.ltb_spec d 10); lia.
Qed.

Lemma digits_rev_length f radix v : (length (digits_rev f radix v) <= f)%nat.
Proof.
  revert v. induction f as [|f IH]; intros v; simpl; [lia|].
  destruct (v =? 0); simpl; [lia|]. specialize (IH (v / radix)). lia.
Qed.

Lemma itoa_digits m value buf radix :
  2 <= radix <= 36 -> 0 <= value < 4294967296 ->
  inj_on m buf (Z.of_nat (length (digits radix value) + 1)) ->
  exists m', itoa m value buf radix = Some m' /\
    meq m' (store_bytes m buf (map digit_char (digits radix value) ++ [0])).
Proof.
  intros Hr Hv Hinj. unfold itoa, digits in *. rewrite u32_small by lia.
  destruct (Z.eqb_spec value 0) as [->|Hnz]; [by eexists|].
  rewrite (proj2 (Z.eqb_neq radix 0)) by lia. rewrite itoa_loop by done.
  cbv zeta. cbn [mbind option_bind].
  set (l := digits_rev 32 radix value) in *. rewrite length_reverse in Hinj.
  rewrite length_map. set (m1 := st _ _ 0).
  assert (m1 = store_bytes m buf (map digit_char l ++ [0])) as Hm1
    by (unfold m1; by rewrite store_bytes_app, length_map).
  assert (Forall (fun d => 0 <= d < 36) l) as Hl.
  { eapply Forall_impl; [|apply digits_rev_range; lia]. simpl. lia. }
  pose proof (digits_rev_length 32 radix value) as Hlen. fold l in Hlen.
  destruct (strrev_cstr m1 buf (map digit_char l)) as (m' & Hm' & Heq).
  - rewrite Hm1. by apply digit_chars_cstr.
  - rewrite length_map, Hm1. intros i j Hi Hj. rewrite !cell_store_bytes. apply Hinj; lia.
  - rewrite length_map. lia.
  - exists m'. split; [done|]. rewrite Heq, Hm1, !store_bytes_app.
    set (k := map digit_char l).
    replace (map digit_char (reverse l)) with (reverse k)
      by (unfold k; symmetry; apply fmap_reverse).
    rewrite length_reverse. cbn [store_bytes].
    rewrite (st_store_bytes_comm _ _ 0 buf (reverse k)).
    + apply st_proper; [|done..]. apply store_bytes_twice; [by rewrite length_reverse|].
      intros i j Hi Hj. apply Hinj; unfold k in *; rewrite length_map in *; lia.
    + intros i Hi. rewrite !cell_store_bytes. intros Hc.
      rewrite length_reverse in Hi. unfold k in *. rewrite length_map in *.
      apply Hinj in Hc; lia.
Qed.

(** The digits denote the number. *)
Lemma undigits_digits radix v :
  2 <= radix -> 0 <= v < 4294967296 -> undigits radix (digits radix v) = v.
Proof.
  intros Hr Hv. unfold digits, undigits.
  destruct (Z.eqb_spec v 0) as [->|Hnz]; [done|].
  unfold reverse. rewrite <-List.rev_alt, <-fold_left_rev_right, rev_involutive.
  apply digits_rev_value; [lia|]. pose proof (pow_32 radix ltac:(lia)). lia.
Qed.

End number_facts.

(** ** The contract of the routines *)

Section contract.
Context {M : Type} `{ByteMemOk M}.
Implicit Type m : M.

(** C33: [memcpy], with its alignment prologue, its dword loop and its byte tail,
    copies [n] bytes and changes nothing else, for every alignment and length,
    whenever no source byte is overwritten before an ascending copy reads it
    (disjoint buffers, or a destination below the source). *)
Theorem memcpy_correct m dest src n :
  0 <= n -> fwd_ok m dest src n -> inj_on m dest n ->
  let m' := memcpy m dest src n in
  load_bytes m' dest (Z.to_nat n) = load_bytes m src (Z.to_nat n) /\
  (forall x, outside m dest n x -> ld m' x = ld m x) /\
  (forall x, cell m' x = cell m x).
Proof.
  intros Hn Hf Hinj m'. unfold m'. rewrite memcpy_copy by done.
  unfold copy_bytes. split_and!.
  - pose proof (store_bytes_load m dest (load_bytes m src (Z.to_nat n))) as Hl.
    rewrite load_bytes_length, Z2Nat.id in Hl by done.
    rewrite Hl by done. apply map_u8_id, load_bytes_range.
  - intros x Ho. apply store_bytes_outside. by rewrite load_bytes_length, Z2Nat.id.
  - intros x. apply cell_store_bytes.
Qed.

(** C34: [memmove] copies [n] bytes whatever the overlap of the two buffers, and
    leaves the direction flag set exactly when it copied backwards. *)
Theorem memmove_correct m dest src n :
  0 <= n ->
  (forall x y, (dest <= x < dest + n \/ src <= x < src + n) ->
               (dest <= y < dest + n \/ src <= y < src + n) ->
               cell m x = cell m y -> x = y) ->
  let '(m', df) := memmove m dest src n in
  load_bytes m' dest (Z.to_nat n) = load_bytes m src (Z.to_nat n) /\
  (forall x, outside m dest n x -> ld m' x = ld m x) /\
  df = (src <? dest).
Proof.
  intros Hn Hal.
  assert (meq (fst (memmove m dest src n)) (copy_bytes m dest src (Z.to_nat n)) /\
          snd (memmove m dest src n) = (src <? dest)) as [Heq Hdf].
  { unfold memmove. destruct (Z.leb_spec dest src); simpl; split.
    - rewrite rep_movsb_up; [done|]. intros i j Hi Hj Hc. apply Hal in Hc; lia.
    - symmetry. by apply Z.ltb_ge.
    - rewrite <-(Z2Nat.id n Hn) at 2 3. apply rep_movsb_down. intros i j Hj Hi.
      split; intros Hc; apply Hal in Hc; lia.
    - symmetry. by apply Z.ltb_lt. }
  destruct (memmove m dest src n) as [m' df]. simpl in Heq, Hdf. split_and!; [| |done].
  - rewrite (load_bytes_ext m' (copy_bytes m dest src (Z.to_nat n)) dest dest)
      by (intros; apply Heq).
    pose proof (store_bytes_load m dest (load_bytes m src (Z.to_nat n))) as Hl.
    rewrite load_bytes_length, Z2Nat.id in Hl by done. unfold copy_bytes. rewrite Hl.
    + apply map_u8_id, load_bytes_range.
    + intros i j Hi Hj Hc. apply Hal in Hc; lia.
  - intros x Ho. rewrite Heq. apply store_bytes_outside.
    by rewrite load_bytes_length, Z2Nat.id.
Qed.

(** C35: [memset] fills exactly [n] bytes with the low byte of [c], at any
    alignment; in particular the dword loop and the byte loops agree. *)
Theorem memset_correct m s c n :
  0 <= n -> inj_on m s n ->
  let m' := memset m s c n in
  load_bytes m' s (Z.to_nat n) = replicate (Z.to_nat n) (u8 c) /\
  (forall x, outside m s n x -> ld m' x = ld m x).
Proof.
  intros Hn Hinj m'. unfold m'. rewrite memset_fill. split.
  - pose proof (store_bytes_load m s (replicate (Z.to_nat n) (u8 c))) as Hl.
    rewrite length_replicate, Z2Nat.id in Hl by done. rewrite Hl by done.
    apply map_u8_id, Forall_replicate, u8_range.
  - intros x Ho. apply store_bytes_outside. by rewrite length_replicate, Z2Nat.id.
Qed.

(** [strncmp] answers 0 exactly when the two strings agree on their first [n]
    characters, a terminator ending both; bytes compared as signed [char] do not
    make different strings equal. *)
Theorem strncmp_correct m s1 s2 l1 l2 n :
  cstr m s1 l1 -> cstr m s2 l2 ->
  strncmp m s1 s2 n = 0 <-> take (Z.to_nat n) l1 = take (Z.to_nat n) l2.
Proof.
  intros H1 H2. rewrite strncmp_zero.
  by rewrite (cstr_cprefix m s1 l1), (cstr_cprefix m s2 l2).
Qed.

(** [strncpy] writes exactly [n] bytes: the string cut at [n] and padded with
    NULs, so that a name of [n] or more characters is left unterminated. *)
Lemma strncpy_correct m dest src l n :
  0 <= n -> cstr m src l -> fwd_ok m dest src n -> inj_on m dest n ->
  let m' := strncpy m dest src n in
  load_bytes m' dest (Z.to_nat n) = resize (Z.to_nat n) 0 l /\
  (forall x, outside m dest n x -> ld m' x = ld m x).
Proof.
  intros Hn Hs Hf Hinj m'. unfold m'. rewrite strncpy_bytes by done.
  rewrite (cstr_cprefix m src l) by done. rewrite resize_take_eq. split.
  - pose proof (store_bytes_load m dest (resize (Z.to_nat n) 0 l)) as Hl.
    rewrite length_resize, Z2Nat.id in Hl by done. rewrite Hl by done. apply map_u8_id.
    apply Forall_resize; [lia|]. by eapply cstr_range.
  - intros x Ho. apply store_bytes_outside. by rewrite length_resize, Z2Nat.id.
Qed.

(** C36: [itoa] terminates for every radix from 2 to 36 and leaves in the buffer the
    NUL-terminated digits of the value, which read back as that value. *)
Theorem itoa_correct m value buf radix :
  2 <= radix <= 36 -> 0 <= value < 4294967296 -> inj_on m buf 33 ->
  exists m',
    itoa m value buf radix = Some m' /\
    cstr m' buf (map digit_char (digits radix value)) /\
    undigits radix (digits radix value) = value /\
    (forall x, outside m buf 33 x -> ld m' x = ld m x).
Proof.
  intros Hr Hv Hinj.
  assert (length (digits radix value) <= 32)%nat as Hlen.
  { unfold digits. destruct (value =? 0); [simpl; lia|]. rewrite length_reverse.
    apply digits_rev_length. }
  assert (Forall (fun d => 0 <= d < 36) (digits radix value)) as Hd.
  { unfold digits. destruct (value =? 0); [by repeat constructor|].
    apply Forall_reverse. eapply Forall_impl; [|apply digits_rev_range; lia]. simpl. lia. }
  destruct (itoa_digits m value buf radix Hr Hv) as (m' & Hm' & Heq).
  { intros i j Hi Hj. apply Hinj; lia. }
  exists m'. split; [done|]. split; [|split; [apply undigits_digits; lia|]].
  - destruct (digit_chars_cstr m buf (digits radix value)) as [Hb Hz]; [|done|].
    { intros i j Hi Hj. apply Hinj; lia. }
    split; [|done]. intros i b Hi. rewrite Heq. by apply Hb.
  - intros x Ho. rewrite Heq. apply store_bytes_outside.
    rewrite length_app, length_map. simpl. intros i Hi. apply Ho. lia.
Qed.

End contract.

Lemma flat_fwd_ok (m : flat) d s n : d <= s \/ s + n <= d -> fwd_ok m d s n.
Proof. intros Hor i j Hi Hj Hc. unfold cell in Hc. simpl in Hc. lia. Qed.

(** A small memory for the examples: "hello" at 200. *)
Definition hello_mem : flat := store_bytes (∅ : flat) 200 (chars "hello, world" ++ [0]).

Lemma memcpy_correct_witness :
  load_bytes (memcpy hello_mem 198 200 11) 198 11 = chars "hello, worl".
Proof.
  destruct (memcpy_correct hello_mem 198 200 11) as [Hl _];
    [lia|apply flat_fwd_ok; lia|apply flat_inj_on|].
  etransitivity; [exact Hl|]. vm_compute. reflexivity.
Defined.

Lemma memmove_correct_witness :
  load_bytes (fst (memmove hello_mem 203 200 11)) 203 11 = chars "hello, worl".
Proof.
  pose proof (memmove_correct hello_mem 203 200 11 ltac:(lia)) as Hm.
  destruct (memmove hello_mem 203 200 11) as [m' df].
  destruct Hm as [Hl _]; [done|].
  etransitivity; [exact Hl|]. vm_compute. reflexivity.
Defined.

Lemma memset_correct_witness :
  load_bytes (memset hello_mem 201 321 7) 201 7 = replicate 7 65.
Proof.
  destruct (memset_correct hello_mem 201 321 7) as [Hl _]; [lia|apply flat_inj_on|].
  exact Hl.
Defined.

Lemma hello_cstr : cstr hello_mem 200 (chars "hello, world").
Proof.
  split.
  - apply bytes_at_load. vm_compute. reflexivity.
  - apply (bool_decide_unpack _). vm_compute. exact I.
Qed.

Lemma strncmp_correct_witness : strncmp hello_mem 200 200 5 = 0.
Proof.
  apply (strncmp_correct hello_mem 200 200 (chars "hello, world") (chars "hello, world") 5
           hello_cstr hello_cstr). reflexivity.
Defined.

Lemma itoa_correct_witness :
  exists m', itoa hello_mem 48879 300 16 = Some m' /\ cstr m' 300 (chars "BEEF").
Proof.
  destruct (itoa_correct hello_mem 48879 300 16) as (m' & Hm & Hs & _);
    [lia|lia|apply flat_inj_on|].
  exists m'. split; [exact Hm|exact Hs].
Defined.
