(* ===== verification/Machine.v ===== *)
(** * The machine under the kernel: physical memory, page walk, ports, flags

    The state the C code reaches through pointers, inline assembly and the
    routines of wrappers.S.  An access goes through the page tables as the i386
    does it (10 bits of directory index, then a 4 MB page when bit 7 of the
    entry is set, else 10 bits of table index); [cell] is the physical byte an
    address denotes.  An access to an unmapped address would fault: the model
    gives such an address a cell of its own (a negative one) and [mapped] says
    that an address is not one of those.  What the linker and the compiler
    choose (the addresses of the kernel's objects) is the parameter [Layout],
    and what a device answers on a port is the parameter [Device]. *)
From Stdlib Require Import ZArith Lia.
From stdpp Require Import base list gmap numbers.
From S2P Require Import Prelude ByteMem.

(** paging.h, syscall.h and scheduling.h *)
Definition KERNEL : Z := 0x400000.
Definition VIDEO : Z := 0xB8000.
Definition VIDEO_PAGE_OFF : Z := 0xB8.
Definition page_entries : Z := 1024.
Definition page_alignment : Z := 4096.

(** Addresses of the kernel's objects in the linked image. *)
Class Layout := {
  page_directory_at : Z;
  page_table_at : Z;
  page_table_2_at : Z;
  tbuffer_at : Z;        (* char tbuffer[129], terminal.c *)
  buffer_at : Z -> Z;    (* char buffer1[129] .. buffer3[129], scheduling.c *)
  filename_at : Z;       (* char filename[32], syscall.c *)
  arg_at : Z;            (* char arg[32], syscall.c *)
  check_buf_at : Z;      (* uint8_t buf[4], the local array of checkFile *)
  shell_at : Z;          (* the literal "shell" *)
}.

Definition in_kernel_page (a n : Z) : Prop := KERNEL <= a /\ a + n <= 2 * KERNEL.

(** What the kernel's build gives: 4096-aligned tables (the attribute of
    paging.c), objects linked from 0x400000 up (the Makefile's -Ttext) and
    disjoint from one another. *)
Class LayoutOk `{Layout} := {
  tables_aligned : page_table_at mod 4096 = 0 /\ page_table_2_at mod 4096 = 0 /\
                   page_directory_at mod 4096 = 0;
  tables_distinct : page_table_at <> page_table_2_at;
  tables_in_kernel : in_kernel_page page_table_at 4096 /\
                     in_kernel_page page_table_2_at 4096 /\
                     in_kernel_page page_directory_at 4096;
  tbuffer_in_kernel : in_kernel_page tbuffer_at 129;
  buffers_in_kernel : forall i, 1 <= i <= 3 -> in_kernel_page (buffer_at i) 129;
  buffers_disjoint : forall i j, 1 <= i <= 3 -> 1 <= j <= 3 -> i <> j ->
    buffer_at i + 129 <= buffer_at j \/ buffer_at j + 129 <= buffer_at i;
  tbuffer_buffers_disjoint : forall i, 1 <= i <= 3 ->
    buffer_at i + 129 <= tbuffer_at \/ tbuffer_at + 129 <= buffer_at i;
  names_in_kernel : in_kernel_page filename_at 32 /\ in_kernel_page arg_at 32 /\
    in_kernel_page check_buf_at 4 /\ in_kernel_page shell_at 6;
  names_disjoint :
    (filename_at + 32 <= arg_at \/ arg_at + 32 <= filename_at) /\
    (filename_at + 32 <= shell_at \/ shell_at + 6 <= filename_at) /\
    (arg_at + 32 <= shell_at \/ shell_at + 6 <= arg_at) /\
    (check_buf_at + 4 <= filename_at \/ filename_at + 32 <= check_buf_at) /\
    (check_buf_at + 4 <= arg_at \/ arg_at + 32 <= check_buf_at);
}.

Inductive ioev :=
  | Out (port data : Z)
  | In (port data : Z).

#[export] Instance ioev_eq_dec : EqDecision ioev.
Proof. solve_decision. Defined.

(** The byte a device puts on a port, given all the traffic so far. *)
Class Device := dev_in : list ioev -> Z -> Z.

Record machine := Machine {
  ram : gmap Z Z;
  page_directory : gmap Z Z;
  page_table : gmap Z Z;
  page_table_2 : gmap Z Z;
  paging : bool;       (* cr0.PG, set by enablePaging *)
  tlb_dirty : bool;    (* a paging structure changed since cr3 was last loaded *)
  if_flag : bool;      (* the interrupt flag of EFLAGS *)
  trace : list ioev;   (* port traffic, oldest first *)
}.

Definition set_ram m v := Machine v (page_directory m) (page_table m) (page_table_2 m)
  (paging m) (tlb_dirty m) (if_flag m) (trace m).
Definition set_page_directory m v := Machine (ram m) v (page_table m) (page_table_2 m)
  (paging m) true (if_flag m) (trace m).
Definition set_page_table m v := Machine (ram m) (page_directory m) v (page_table_2 m)
  (paging m) true (if_flag m) (trace m).
Definition set_page_table_2 m v := Machine (ram m) (page_directory m) (page_table m) v
  (paging m) true (if_flag m) (trace m).
Definition set_paging m v := Machine (ram m) (page_directory m) (page_table m) (page_table_2 m)
  v false (if_flag m) (trace m).
Definition set_if m v := Machine (ram m) (page_directory m) (page_table m) (page_table_2 m)
  (paging m) (tlb_dirty m) v (trace m).
Definition set_trace m v := Machine (ram m) (page_directory m) (page_table m) (page_table_2 m)
  (paging m) (tlb_dirty m) (if_flag m) v.

(** An array of [uint32_t] in the BSS: an element never written is 0. *)
Definition entry (t : gmap Z Z) (i : Z) : Z := default 0 (t !! i).

(** lib.h: port access and the interrupt flag; wrappers.S: [flushTLB]. *)
Definition outb (data port : Z) (m : machine) : machine :=
  set_trace m (trace m ++ [Out (u16 port) (u8 data)]).

Definition inb `{Device} (port : Z) (m : machine) : Z * machine :=
  let v := u8 (dev_in (trace m) (u16 port)) in
  (v, set_trace m (trace m ++ [In (u16 port) v])).

Definition cli (m : machine) : machine := set_if m false.
Definition sti (m : machine) : machine := set_if m true.

Definition flushTLB (m : machine) : machine :=
  Machine (ram m) (page_directory m) (page_table m) (page_table_2 m)
    (paging m) false (if_flag m) (trace m).

Section walk.
Context {L : Layout}.

(** The frame an entry of a page table designates, if its present bit is set. *)
Definition pte_frame (e : Z) : option Z :=
  if Z.odd e then Some (e / 4096 * 4096) else None.

(** The i386 page walk. *)
Definition translate (m : machine) (va : Z) : option Z :=
  if negb (paging m) then Some va
  else
    let pde := entry (page_directory m) (va / 4194304) in
    if negb (Z.odd pde) then None
    else if Z.testbit pde 7 then Some (pde / 4194304 * 4194304 + va mod 4194304)
    else
      let table := pde / 4096 * 4096 in
      let i := va / 4096 mod 1024 in
      let pte :=
        if table =? page_table_at then entry (page_table m) i
        else if table =? page_table_2_at then entry (page_table_2 m) i
        else 0 in
      f ← pte_frame pte; Some (f + va mod 4096).

Definition phys (m : machine) (va : Z) : Z :=
  default (-1 - u32 va) (translate m (u32 va)).

Definition mapped (m : machine) (va : Z) : Prop := is_Some (translate m (u32 va)).

#[export] Instance machine_mem : ByteMem machine := {
  ld m a := u8 (default 0 (ram m !! phys m a));
  st m a v := set_ram m (<[phys m a := u8 v]> (ram m));
  cell := phys;
}.

(** The part of the address space that is the same for every process. *)
Record kernel_mapped (m : machine) : Prop := {
  km_paging : paging m = true;
  km_low : entry (page_directory m) 0 = page_table_at + 1;
  km_kernel : entry (page_directory m) 1 = KERNEL + 0x83;
  km_video : entry (page_table m) VIDEO_PAGE_OFF = VIDEO + 1;
  km_vidmap : entry (page_directory m) 33 = page_table_2_at + 7;
  km_large : forall i, 0 <= i < 1024 -> i <> 0 -> i <> 33 ->
    Z.odd (entry (page_directory m) i) = false \/
    Z.testbit (entry (page_directory m) i) 7 = true;
}.

(** Two machines with the same address space. *)
Definition same_paging (m m' : machine) : Prop :=
  page_directory m' = page_directory m /\ page_table m' = page_table m /\
  page_table_2 m' = page_table_2 m /\ paging m' = paging m.

(** [m'] differs from [m] in the contents of the RAM only. *)
Definition ram_only (m m' : machine) : Prop := m' = set_ram m (ram m').

(** [m'] differs from [m] in memory at most on the physical bytes [R]. *)
Definition touches (R : Z -> Prop) (m m' : machine) : Prop :=
  same_paging m m' /\ forall a, ~ R (cell m a) -> ld m' a = ld m a.

End walk.

Section facts.
Context {L : Layout}.
Implicit Type m : machine.

Lemma phys_set_ram m v x : phys (set_ram m v) x = phys m x.
Proof. done. Qed.

#[export] Instance machine_mem_ok : ByteMemOk machine.
Proof.
  split; unfold ld, st, cell; simpl.
  - intros. apply u8_range.
  - intros m a v b. rewrite phys_set_ram. case_decide as Hd.
    + rewrite Hd, lookup_insert_eq. apply u8_u8.
    + by rewrite lookup_insert_ne.
  - intros. by rewrite u8_u8.
  - by intros m a b ->.
  - done.
Qed.

(** Stores reach the RAM and nothing else. *)
Lemma st_machine m a v :
  page_directory (st m a v) = page_directory m /\ page_table (st m a v) = page_table m /\
  page_table_2 (st m a v) = page_table_2 m /\ paging (st m a v) = paging m /\
  tlb_dirty (st m a v) = tlb_dirty m /\ if_flag (st m a v) = if_flag m /\
  trace (st m a v) = trace m.
Proof. done. Qed.

Lemma store_bytes_machine m a l : exists v, store_bytes m a l = set_ram m v.
Proof.
  revert m a. induction l as [|b l IH]; intros m a; simpl; [by exists (ram m); destruct m|].
  destruct (IH (st m a b) (a + 1)) as [v Hv]. exists v. rewrite Hv. done.
Qed.

(** The physical bytes [store_bytes] can change. *)
Lemma store_bytes_ram m a l p :
  (forall j, 0 <= j < Z.of_nat (length l) -> cell m (a + j) <> p) ->
  ram (store_bytes m a l) !! p = ram m !! p.
Proof.
  revert m a. induction l as [|b l IH]; intros m a Hp; [done|]. cbn [store_bytes].
  rewrite IH.
  - unfold st, machine_mem. cbn [ram set_ram]. apply lookup_insert_ne.
    specialize (Hp 0). rewrite Z.add_0_r in Hp. apply Hp. simpl. lia.
  - intros j Hj. rewrite cell_st. rewrite <-Z.add_assoc. apply Hp. simpl. lia.
Qed.

Lemma ram_only_refl m : ram_only m m.
Proof. by destruct m. Qed.

Lemma ram_only_st m m' a v : ram_only m m' -> ram_only m (st m' a v).
Proof. unfold ram_only. intros ->. done. Qed.

Lemma ram_only_trans m1 m2 m3 : ram_only m1 m2 -> ram_only m2 m3 -> ram_only m1 m3.
Proof. unfold ram_only. intros -> ->. done. Qed.

Lemma ram_only_fields m m' :
  ram_only m m' -> same_paging m m' /\ trace m' = trace m /\ if_flag m' = if_flag m /\
  tlb_dirty m' = tlb_dirty m.
Proof. intros ->. done. Qed.

Lemma kernel_mapped_st m a v : kernel_mapped (st m a v) <-> kernel_mapped m.
Proof. split; intros []; split; done. Qed.

Lemma kernel_mapped_set_ram m v : kernel_mapped (set_ram m v) <-> kernel_mapped m.
Proof. split; intros []; split; done. Qed.

Lemma odd_succ_even x : Z.odd (4096 * x + 1) = true.
Proof. rewrite Z.add_comm, Z.odd_add_mul_even; [done|by exists 2048]. Qed.

(** A present table entry: an aligned frame, bit 0 set, bits above bit 3 clear. *)
Lemma pte_frame_present f b :
  f mod 4096 = 0 -> b = 1 \/ b = 7 -> pte_frame (f + b) = Some f.
Proof.
  intros Hf Hb. unfold pte_frame.
  assert (f = 4096 * (f / 4096)) as Hdm by dlia.
  assert (Z.odd (f + b) = true) as ->.
  { rewrite Z.odd_spec. destruct Hb as [->| ->]; [exists (2048 * (f / 4096))|
      exists (2048 * (f / 4096) + 3)]; lia. }
  f_equal. destruct Hb as [->| ->]; dlia.
Qed.

Lemma phys_kernel m a :
  kernel_mapped m -> KERNEL <= a < 2 * KERNEL -> phys m a = a /\ mapped m a.
Proof.
  intros [Hp _ Hk _ _ _] Ha. unfold phys, mapped, translate. unfold KERNEL in *.
  rewrite (u32_small a), Hp by lia. replace (a / 4194304) with 1 by dlia. rewrite Hk. simpl.
  split; [|by eexists]. dlia.
Qed.

Lemma phys_video m a `{!LayoutOk} :
  kernel_mapped m -> VIDEO <= a < VIDEO + 4096 -> phys m a = a /\ mapped m a.
Proof.
  intros [Hp Hl _ Hv _ _] Ha. unfold phys, mapped, translate. unfold VIDEO in *.
  rewrite (u32_small a), Hp by lia. replace (a / 4194304) with 0 by dlia. rewrite Hl.
  destruct tables_aligned as (Hal & _).
  assert (page_table_at = 4096 * (page_table_at / 4096)) as Hdm by dlia.
  assert (Z.odd (page_table_at + 1) = true) as -> by (rewrite Hdm; apply odd_succ_even).
  assert (Z.testbit (page_table_at + 1) 7 = false) as ->.
  { rewrite Z.testbit_false by lia. rewrite Hdm. dlia. }
  simpl. replace ((page_table_at + 1) / 4096 * 4096) with page_table_at by dlia.
  rewrite Z.eqb_refl. replace (a / 4096 mod 1024) with 184 by dlia.
  unfold VIDEO_PAGE_OFF in Hv. rewrite Hv. rewrite pte_frame_present by (done || by left).
  simpl. split; [dlia|by eexists].
Qed.

Lemma phys_unmapped m a : ~ mapped m a -> 0 <= a < 4294967296 -> phys m a = -1 - a.
Proof.
  unfold mapped, phys. intros Hm Ha. rewrite u32_small in * by done.
  destruct (translate m a); [destruct Hm; by eexists|done].
Qed.

(** *** Address-space preservation and footprints *)

Lemma same_paging_cell m m' a : same_paging m m' -> cell m' a = cell m a.
Proof.
  intros (H1 & H2 & H3 & H4). unfold cell. simpl. unfold phys, translate.
  by rewrite H1, H2, H3, H4.
Qed.

Lemma same_paging_mapped m m' : same_paging m m' -> kernel_mapped m -> kernel_mapped m'.
Proof.
  intros (H1 & H2 & H3 & H4) [].
  split; rewrite ?H1, ?H2, ?H3, ?H4; done.
Qed.

Lemma touches_refl R m : touches R m m.
Proof. by split. Qed.

Lemma touches_trans R m1 m2 m3 : touches R m1 m2 -> touches R m2 m3 -> touches R m1 m3.
Proof.
  intros [(A1 & A2 & A3 & A4) HA] [HB' HB]. pose proof HB' as (B1 & B2 & B3 & B4).
  split; [unfold same_paging; rewrite B1, B2, B3, B4; by split|].
  intros a Ha. rewrite HB; [by apply HA|].
  by rewrite (same_paging_cell m1) by (by split).
Qed.

Lemma touches_mono (R R' : Z -> Prop) m m' :
  (forall a, R a -> R' a) -> touches R m m' -> touches R' m m'.
Proof. intros HR [Hs Ht]. split; [done|]. intros a Ha. apply Ht. auto. Qed.

Lemma touches_st (R : Z -> Prop) m m' a v :
  touches R m m' -> R (cell m a) -> touches R m (st m' a v).
Proof.
  intros Ht Ha. eapply touches_trans; [exact Ht|]. split; [by split|].
  intros b Hb. apply ld_st_other. intros Heq. apply Hb. rewrite <-Heq.
  by rewrite (same_paging_cell m) by apply Ht.
Qed.

Lemma touches_trace R m m' tr : touches R m m' -> touches R m (set_trace m' tr).
Proof. intros Ht. eapply touches_trans; [exact Ht|]. by split. Qed.

Lemma touches_store_bytes (R : Z -> Prop) m m' a l :
  touches R m m' -> (forall i, 0 <= i < Z.of_nat (length l) -> R (cell m (a + i))) ->
  touches R m (store_bytes m' a l).
Proof.
  revert m' a. induction l as [|b l IH]; intros m' a Ht HR; simpl; [done|].
  apply IH.
  - apply touches_st; [done|]. rewrite <-(Z.add_0_r a). apply HR. simpl. lia.
  - intros i Hi. rewrite <-Z.add_assoc. apply HR. simpl. lia.
Qed.

Lemma touches_kernel_mapped R m m' : touches R m m' -> kernel_mapped m -> kernel_mapped m'.
Proof. intros [Hs _]. by apply same_paging_mapped. Qed.

Lemma touches_cell R m m' a : touches R m m' -> cell m' a = cell m a.
Proof. intros [Hs _]. by apply same_paging_cell. Qed.

Lemma cell_kernel m a : kernel_mapped m -> KERNEL <= a < 2 * KERNEL -> cell m a = a.
Proof. intros Hm Ha. by apply phys_kernel. Qed.

Lemma cell_video m a `{!LayoutOk} : kernel_mapped m -> VIDEO <= a < VIDEO + 4096 -> cell m a = a.
Proof. intros Hm Ha. by apply phys_video. Qed.

(** Ranges of the kernel's page. *)
Lemma kernel_inj_on m a n :
  kernel_mapped m -> KERNEL <= a -> a + n <= 2 * KERNEL -> inj_on m a n.
Proof. intros Hm Ha Hn i j Hi Hj. rewrite !cell_kernel by (done || lia). lia. Qed.

Lemma kernel_apart m a n b k :
  kernel_mapped m -> KERNEL <= a -> a + n <= 2 * KERNEL -> KERNEL <= b -> b + k <= 2 * KERNEL ->
  a + n <= b \/ b + k <= a -> apart m a n b k.
Proof. intros Hm Ha Hn Hb Hk Hd i Hi j Hj. rewrite !cell_kernel by (done || lia). lia. Qed.

Lemma ld_set_trace m tr a : ld (set_trace m tr) a = ld m a.
Proof. done. Qed.

End facts.

#[export] Hint Resolve touches_refl touches_st touches_trace : mem.
#[export] Hint Rewrite @phys_set_ram @ld_set_trace : mem.

(** A concrete placement of the kernel's objects, for the examples. *)
Definition demo_layout : Layout := {|
  page_directory_at := 0x420000;
  page_table_at := 0x421000;
  page_table_2_at := 0x422000;
  tbuffer_at := 0x430000;
  buffer_at i := 0x430000 + 0x100 * i;
  filename_at := 0x431000;
  arg_at := 0x431020;
  check_buf_at := 0x7FFF00;
  shell_at := 0x410000;
|}.

Lemma demo_layout_ok : @LayoutOk demo_layout.
Proof.
  split; unfold in_kernel_page, KERNEL; simpl; intros; repeat split; try lia.
Qed.

(** The machine as the boot loader leaves it. *)
Definition blank_machine : machine := Machine ∅ ∅ ∅ ∅ false false false [].
