(* ===== verification/Paging.v ===== *)
(** * Paging: student-distrib/paging.c and the TLB routines of wrappers.S

    [initPaging] builds the boot-time page directory and its two tables,
    [setupPagingDirectory] installs a process's 4 MB page and
    [setupPagingDirectoryTable] a terminal's 4 KB window on video memory. *)
From Stdlib Require Import ZArith Lia.
From stdpp Require Import base list gmap numbers.
From S2P Require Import Prelude ByteMem Machine.

Section paging.
Context {L : Layout}.

Definition fill_table (m : machine) : machine :=
  let m := for_range 0 page_entries (fun i m =>
    let m := set_page_table m (<[i := u32 (i * 0x1000)]> (page_table m)) in
    set_page_table_2 m (<[i := u32 (i * 0x1000)]> (page_table_2 m))) m in
  set_page_table m (<[VIDEO_PAGE_OFF := Z.lor VIDEO 1]> (page_table m)).

Definition fill_directory (m : machine) : machine :=
  let m := set_page_directory m (<[0 := Z.lor page_table_at 1]> (page_directory m)) in
  let m := set_page_directory m (<[1 := Z.lor KERNEL 0x83]> (page_directory m)) in
  let m := for_range 2 page_entries (fun i m =>
    set_page_directory m (<[i := 0]> (page_directory m))) m in
  set_page_directory m (<[33 := Z.lor page_table_2_at 7]> (page_directory m)).

(** cr3 := page_directory, then cr4.PSE, then cr0.PG. *)
Definition enablePaging (m : machine) : machine := set_paging m true.

Definition initPaging (m : machine) : machine :=
  enablePaging (fill_directory (fill_table m)).

Definition setupPagingDirectory (rsrved addr idx : Z) (m : machine) : machine :=
  set_page_directory m (<[idx := u32 (Z.lor addr rsrved)]> (page_directory m)).

Definition setupPagingDirectoryTable (rsrved addr idx : Z) (m : machine) : machine :=
  set_page_table_2 m (<[VIDEO_PAGE_OFF + idx := u32 (Z.lor addr rsrved)]> (page_table_2 m)).

End paging.

(** The user page of process [p] (syscall.c's [KERNEL + TASK_SIZE * (pnum + 1)]). *)
Definition user_frame (p : Z) : Z := KERNEL + 4194304 * (p + 1).
Definition user_base : Z := 0x8000000.
Definition vidmap_base : Z := 0x8400000.

Section facts.
Context {L : Layout} {LOK : LayoutOk}.
Implicit Type m : machine.

Lemma entry_insert t i j v : entry (<[i := v]> t) j = if decide (i = j) then v else entry t j.
Proof.
  unfold entry. case_decide as Hd; [subst; by rewrite lookup_insert_eq|].
  by rewrite lookup_insert_ne.
Qed.

Lemma fill_table_entries m :
  (forall i, 0 <= i < 1024 ->
     entry (page_table (fill_table m)) i = if decide (i = VIDEO_PAGE_OFF) then VIDEO + 1
                                           else i * 4096) /\
  (forall i, 0 <= i < 1024 -> entry (page_table_2 (fill_table m)) i = i * 4096) /\
  page_directory (fill_table m) = page_directory m /\ ram (fill_table m) = ram m.
Proof.
  unfold fill_table.
  match goal with |- context [for_range 0 page_entries ?b m] =>
    pose proof (for_range_ind (fun k m' =>
      (forall i, 0 <= i < k -> entry (page_table m') i = i * 4096 /\
                               entry (page_table_2 m') i = i * 4096) /\
      page_directory m' = page_directory m /\ ram m' = ram m) 0 page_entries b m)
      as Hall; generalize dependent (for_range 0 page_entries b m)
  end. intros m1 Hall. destruct Hall as (Hall & Hd & Hr); [done|by split; [intros; lia|]| |].
  { intros i m' Hi (IH & Hd & Hr). split; [|done]. intros j Hj. simpl.
    rewrite !entry_insert. unfold page_entries in Hi. rewrite u32_small by lia.
    case_decide; [by subst|]. apply IH. lia. }
  simpl. split_and!; [| |done..].
  - intros i Hi. rewrite entry_insert. repeat case_decide; [done|congruence..|].
    by apply Hall.
  - intros i Hi. by apply Hall.
Qed.

Lemma fill_directory_entries m :
  (forall i, 0 <= i < 1024 ->
     entry (page_directory (fill_directory m)) i =
       if decide (i = 0) then page_table_at + 1
       else if decide (i = 1) then KERNEL + 0x83
       else if decide (i = 33) then page_table_2_at + 7 else 0) /\
  page_table (fill_directory m) = page_table m /\
  page_table_2 (fill_directory m) = page_table_2 m /\ ram (fill_directory m) = ram m.
Proof.
  unfold fill_directory.
  match goal with |- context [for_range 2 page_entries ?b ?m0] =>
    pose proof (for_range_ind (fun k m' =>
      (forall i, 0 <= i < k -> entry (page_directory m') i =
         if decide (i = 0) then Z.lor page_table_at 1
         else if decide (i = 1) then Z.lor KERNEL 0x83 else 0) /\
      page_table m' = page_table m /\ page_table_2 m' = page_table_2 m /\
      ram m' = ram m) 2 page_entries b m0)
      as Hall; generalize dependent (for_range 2 page_entries b m0)
  end. intros m1 Hall. destruct Hall as (Hall & Hd & Hr); [done| | |].
  { split; [|done]. intros i Hi. simpl. rewrite !entry_insert.
    repeat case_decide; subst; done || lia. }
  { intros i m' Hi (IH & Hr). split; [|done]. intros j Hj. simpl.
    rewrite entry_insert. case_decide; [subst; by rewrite !decide_False by lia|].
    apply IH. lia. }
  simpl. split; [|done]. intros i Hi. rewrite entry_insert.
  destruct tables_aligned as (H1 & H2 & _).
  destruct (decide (33 = i)) as [<-|].
  { apply (lor_add 12); done || lia. }
  rewrite Hall by done. rewrite (lor_add 12 page_table_at) by (done || lia).
  repeat case_decide; done || lia.
Qed.

#[global] Opaque fill_table fill_directory.

Lemma enablePaging_fields m :
  page_directory (enablePaging m) = page_directory m /\
  page_table (enablePaging m) = page_table m /\
  page_table_2 (enablePaging m) = page_table_2 m /\
  ram (enablePaging m) = ram m /\ paging (enablePaging m) = true /\
  tlb_dirty (enablePaging m) = false.
Proof. done. Qed.

(** The entries the boot-time tables hold. *)
Lemma initPaging_entries m :
  (forall i, 0 <= i < 1024 ->
     entry (page_directory (initPaging m)) i =
       (if decide (i = 0) then page_table_at + 1
        else if decide (i = 1) then KERNEL + 0x83
        else if decide (i = 33) then page_table_2_at + 7 else 0) /\
     entry (page_table (initPaging m)) i =
       (if decide (i = VIDEO_PAGE_OFF) then VIDEO + 1 else i * 4096) /\
     entry (page_table_2 (initPaging m)) i = i * 4096) /\
  paging (initPaging m) = true /\ tlb_dirty (initPaging m) = false.
Proof.
  destruct (fill_table_entries m) as (Ht & Ht2 & _).
  destruct (fill_directory_entries (fill_table m)) as (Hd & Ht' & Ht2' & _).
  unfold initPaging.
  destruct (enablePaging_fields (fill_directory (fill_table m))) as (E1 & E2 & E3 & _ & E4 & E5).
  rewrite E1, E2, E3, Ht', Ht2'. split; [|exact (conj E4 E5)]. intros i Hi.
  rewrite (Hd i Hi), (Ht i Hi), (Ht2 i Hi). split; [reflexivity|]. split; reflexivity.
Qed.

#[global] Opaque initPaging.

Lemma initPaging_kernel_mapped m : kernel_mapped (initPaging m).
Proof.
  destruct (initPaging_entries m) as (He & Hp & _). split; [done|..].
  - by destruct (He 0) as (-> & _).
  - by destruct (He 1) as (-> & _).
  - by destruct (He VIDEO_PAGE_OFF) as (_ & -> & _).
  - by destruct (He 33) as (-> & _).
  - intros i Hi H0 H33. destruct (He i Hi) as (-> & _).
    rewrite decide_False by done. destruct (decide (i = 1)); [by right|].
    rewrite decide_False by done. by left.
Qed.

Lemma pte_frame_even f : f mod 2 = 0 -> pte_frame f = None.
Proof. intros Hf. unfold pte_frame. by rewrite Zmod_odd in Hf; destruct (Z.odd f). Qed.

Lemma initPaging_translate m va :
  0 <= va < 4294967296 ->
  translate (initPaging m) va
  = (if decide (KERNEL <= va < 2 * KERNEL \/ VIDEO <= va < VIDEO + 4096)
     then Some va else None).
Proof.
  intros Hva. destruct (initPaging_entries m) as (He & Hpg & Htlb).
  pose proof (initPaging_kernel_mapped m) as Hkm.
  destruct (decide (KERNEL <= va < 2 * KERNEL)) as [Hk|Hk].
  { rewrite decide_True by by left. destruct (phys_kernel _ va Hkm Hk) as [Hp [pa Hm]].
    unfold phys in Hp. unfold KERNEL in Hk. rewrite u32_small in * by lia.
    rewrite Hm in Hp |- *. simpl in Hp. by subst. }
  destruct (decide (VIDEO <= va < VIDEO + 4096)) as [Hv|Hv].
  { rewrite decide_True by by right. destruct (phys_video _ va Hkm Hv) as [Hp [pa Hm]].
    unfold phys in Hp. unfold VIDEO in Hv. rewrite u32_small in * by lia.
    rewrite Hm in Hp |- *. simpl in Hp. by subst. }
  rewrite decide_False by tauto. unfold KERNEL, VIDEO in *.
  unfold translate. rewrite Hpg. cbn [negb].
  destruct (He (va / 4194304)) as (-> & _); [dlia|].
  destruct (He (va / 4096 mod 1024)) as (_ & -> & ->); [dlia|].
  destruct tables_aligned as (A1 & A2 & _). pose proof tables_distinct as Hne.
  destruct (decide (va / 4194304 = 0)); [|destruct (decide (va / 4194304 = 1));
    [|destruct (decide (va / 4194304 = 33))]].
  - destruct (negb _); [done|].
    assert (Z.testbit (page_table_at + 1) 7 = false) as ->.
    { rewrite Z.testbit_false by lia. dlia. }
    replace ((page_table_at + 1) / 4096 * 4096) with page_table_at by dlia.
    rewrite Z.eqb_refl. rewrite decide_False by (unfold VIDEO_PAGE_OFF; dlia).
    rewrite pte_frame_even by dlia. done.
  - exfalso. dlia.
  - destruct (negb _); [done|].
    assert (Z.testbit (page_table_2_at + 7) 7 = false) as ->.
    { rewrite Z.testbit_false by lia. dlia. }
    replace ((page_table_2_at + 7) / 4096 * 4096) with page_table_2_at by dlia.
    rewrite (proj2 (Z.eqb_neq _ _)) by congruence.
    rewrite Z.eqb_refl. rewrite pte_frame_even by dlia. done.
  - done.
Qed.

Lemma user_frame_entry p :
  0 <= p < 6 ->
  u32 (Z.lor (user_frame p) 0x87) = user_frame p + 0x87.
Proof.
  intros Hp. unfold user_frame, KERNEL. rewrite (lor_add 22); [|lia|dlia|lia].
  apply u32_small. lia.
Qed.

(** What installing the 4 MB page of process [p] does to the address space. *)
Lemma translate_user_page m p va :
  paging m = true -> 0 <= p < 6 -> 0 <= va < 4294967296 ->
  translate (setupPagingDirectory 0x87 (user_frame p) 32 m) va
  = if decide (user_base <= va < user_base + 4194304)
    then Some (user_frame p + (va - user_base)) else translate m va.
Proof.
  intros Hpg Hp Hva. unfold setupPagingDirectory, user_base in *.
  rewrite user_frame_entry by done. unfold user_frame, KERNEL in *.
  unfold translate. cbn [page_directory paging set_page_directory]. rewrite Hpg, entry_insert.
  cbn [negb].
  destruct (decide (32 = va / 4194304)) as [Hi|Hi]; case_decide; [|exfalso; dlia..|done].
  assert (Z.odd (4194304 + 4194304 * (p + 1) + 135) = true) as ->.
  { rewrite Z.odd_spec. exists (2097152 * (p + 2) + 67). lia. }
  assert (Z.testbit (4194304 + 4194304 * (p + 1) + 135) 7 = true) as ->.
  { rewrite Z.testbit_true by lia. dlia. }
  cbn [negb]. f_equal. dlia.
Qed.

(** What pointing window [idx] of [page_table_2] at a frame does to it. *)
Lemma translate_window m frame idx va :
  kernel_mapped m -> 0 <= idx < 4 -> frame mod 4096 = 0 -> 0 <= frame < 0xFFFFF000 ->
  0 <= va < 4294967296 ->
  translate (setupPagingDirectoryTable 7 frame idx m) va
  = if decide (vidmap_base + 4096 * (VIDEO_PAGE_OFF + idx) <= va
               < vidmap_base + 4096 * (VIDEO_PAGE_OFF + idx) + 4096)
    then Some (frame + va mod 4096) else translate m va.
Proof.
  intros [Hpg Hlow _ _ Hvm Hlarge] Hidx Hal Hfr Hva.
  unfold setupPagingDirectoryTable, vidmap_base, VIDEO_PAGE_OFF in *.
  rewrite (lor_add 12) by (done || lia). rewrite u32_small by lia.
  unfold translate.
  cbn [page_directory page_table page_table_2 paging set_page_table_2].
  rewrite Hpg, entry_insert. cbn [negb].
  destruct tables_aligned as (A1 & A2 & _). pose proof tables_distinct as Hne.
  destruct (decide (va / 4194304 = 33)) as [H33|H33].
  - rewrite H33, Hvm.
    assert (Z.odd (page_table_2_at + 7) = true) as ->.
    { rewrite Z.odd_spec. exists (page_table_2_at / 2 + 3). dlia. }
    assert (Z.testbit (page_table_2_at + 7) 7 = false) as ->.
    { rewrite Z.testbit_false by lia. dlia. }
    cbn [negb]. replace ((page_table_2_at + 7) / 4096 * 4096) with page_table_2_at by dlia.
    rewrite (proj2 (Z.eqb_neq _ _)) by congruence. rewrite Z.eqb_refl.
    destruct (decide (184 + idx = va / 4096 mod 1024)); case_decide; [|exfalso; dlia..|done].
    by rewrite pte_frame_present by (done || by right).
  - rewrite (decide_False (P := _ <= va < _)) by dlia.
    destruct (decide (va / 4194304 = 0)) as [H0|H0].
    + rewrite H0, Hlow. destruct (negb _); [done|]. destruct (Z.testbit _ 7); [done|].
      replace ((page_table_at + 1) / 4096 * 4096) with page_table_at by dlia.
      by rewrite Z.eqb_refl.
    + destruct (Hlarge (va / 4194304)) as [-> | ->]; [dlia|done..|].
      by destruct (negb _).
Qed.

(** Both keep the part of the address space every process shares. *)
Lemma user_page_kernel_mapped m p :
  kernel_mapped m -> 0 <= p < 6 ->
  kernel_mapped (setupPagingDirectory 0x87 (user_frame p) 32 m).
Proof.
  intros [Hpg Hlow Hk Hv Hvm Hlarge] Hp. unfold setupPagingDirectory.
  rewrite user_frame_entry by done.
  split; cbn [page_directory page_table page_table_2 paging set_page_directory];
    rewrite ?entry_insert; [done..|].
  intros i Hi H0 H33. rewrite entry_insert. case_decide; [|by apply Hlarge].
  right. rewrite Z.testbit_true by lia. unfold user_frame, KERNEL. dlia.
Qed.

Lemma window_kernel_mapped m rsrved frame idx :
  kernel_mapped m -> kernel_mapped (setupPagingDirectoryTable rsrved frame idx m).
Proof. by intros []; split. Qed.

(** C38: after [initPaging] the address space holds exactly the kernel's 4 MB page
    and the video page, both mapped to themselves: in particular the null page
    and the whole user area fault, and no stale translation is cached. *)
Theorem initPaging_correct m va :
  0 <= va < 4294967296 ->
  translate (initPaging m) va
  = (if decide (KERNEL <= va < 2 * KERNEL \/ VIDEO <= va < VIDEO + 4096)
     then Some va else None) /\
  tlb_dirty (initPaging m) = false.
Proof.
  intros Hva. split; [by apply initPaging_translate|]. apply initPaging_entries.
Qed.

End facts.

#[local] Existing Instance demo_layout.
#[local] Existing Instance demo_layout_ok.

Lemma initPaging_correct_witness :
  translate (initPaging blank_machine) 0 = None /\
  translate (initPaging blank_machine) 0x400010 = Some 0x400010.
Proof.
  split.
  - destruct (initPaging_correct blank_machine 0) as [H _]; [lia|exact H].
  - destruct (initPaging_correct blank_machine 0x400010) as [H _]; [lia|exact H].
Defined.
