(* ===== verification/Devices.v ===== *)
(** * The interrupt controller, the timer and the clock

    student-distrib/i8259.c, pit.c and rtc.c (rtc.h, i8259.h, pit.h): drivers
    that only talk to their ports.  Each operation maps a machine to a machine
    and is characterised by the port traffic it appends to the trace. *)
From Stdlib Require Import ZArith Lia.
From stdpp Require Import base list gmap numbers.
From S2P Require Import Prelude ByteMem Machine.

Module I8259.

Definition MASTER_8259_PORT : Z := 0x20.
Definition SLAVE_8259_PORT : Z := 0xA0.
Definition MASTER_8259_PORT_A : Z := 0x21.
Definition SLAVE_8259_PORT_A : Z := 0xA1.
Definition ICW1 : Z := 0x11.
Definition ICW2_MASTER : Z := 0x20.
Definition ICW2_SLAVE : Z := 0x28.
Definition ICW3_MASTER : Z := 0x04.
Definition ICW3_SLAVE : Z := 0x02.
Definition ICW4 : Z := 0x01.
Definition EOI : Z := 0x60.
Definition FULL_MASK : Z := 0xFF.
Definition SLAVE_IRQ_OFF : Z := 8.

Section i8259.
Context {D : Device}.

Definition enable_irq (irq_num : Z) (m : machine) : machine :=
  let '(port, irq_num) :=
    if irq_num <? 8 then (MASTER_8259_PORT_A, irq_num)
    else (SLAVE_8259_PORT_A, irq_num - 8) in
  let '(v, m) := inb port m in
  let value := u8 (Z.lxor v (Z.shiftl 1 irq_num)) in
  outb value port m.

(** The two arguments of the final [outb] are swapped in the source: the port
    number is written to the port named by the mask. *)
Definition disable_irq (irq_num : Z) (m : machine) : machine :=
  let '(port, irq_num) :=
    if irq_num <? SLAVE_IRQ_OFF then (MASTER_8259_PORT_A, irq_num)
    else (SLAVE_8259_PORT_A, irq_num - SLAVE_IRQ_OFF) in
  let '(v, m) := inb port m in
  let value := u8 (Z.lxor v (Z.lnot (Z.shiftl 1 irq_num))) in
  outb port value m.

Definition send_eoi (irq_num : Z) (m : machine) : machine :=
  if irq_num <? SLAVE_IRQ_OFF then outb (Z.lor EOI irq_num) MASTER_8259_PORT m
  else if irq_num <? 16 then
    let m := outb (Z.lor EOI (irq_num - SLAVE_IRQ_OFF)) SLAVE_8259_PORT m in
    outb (Z.lor EOI ICW3_SLAVE) MASTER_8259_PORT m
  else m.

Definition i8259_init (m : machine) : machine :=
  let m := outb ICW1 MASTER_8259_PORT m in
  let m := outb ICW2_MASTER MASTER_8259_PORT_A m in
  let m := outb ICW3_MASTER MASTER_8259_PORT_A m in
  let m := outb ICW4 MASTER_8259_PORT_A m in
  let m := outb ICW1 SLAVE_8259_PORT m in
  let m := outb ICW2_SLAVE SLAVE_8259_PORT_A m in
  let m := outb ICW3_SLAVE SLAVE_8259_PORT_A m in
  let m := outb ICW4 SLAVE_8259_PORT_A m in
  let m := outb FULL_MASK MASTER_8259_PORT_A m in
  let m := outb FULL_MASK SLAVE_8259_PORT_A m in
  enable_irq ICW3_SLAVE m.

End i8259.
End I8259.

Module Pit.

Definition MAXPIT : Z := 1193180.

Section pit.
Context {D : Device}.

Definition pit_init (m : machine) : machine := I8259.enable_irq 0 m.

(** [None]: a frequency of 0 divides by zero. *)
Definition pit_write (freq : Z) (m : machine) : option machine :=
  if freq =? 0 then None
  else
    let divisor := Z.quot MAXPIT freq in
    let m := outb 0x36 0x43 m in
    let m := outb (Z.land divisor 0xFF) 0x40 m in
    Some (outb (Z.shiftr divisor 8) 0x40 m).

End pit.
End Pit.

Module Rtc.

Definition RTC_PORT : Z := 0x70.
Definition CMOS_PORT : Z := 0x71.
Definition STATUS_REGISTER_A : Z := 0x8A.
Definition STATUS_REGISTER_B : Z := 0x8B.
Definition STATUS_REGISTER_C : Z := 0x0C.
Definition RTC_RATE_1024 : Z := 0x6.
Definition RTC_VEC : Z := 0x08.
Definition DEFAULT_RATE : Z := 0x0F.

Section rtc.
Context {L : Layout} {D : Device}.

(** The sequence common to [rtc_init], [rtc_open] and [rtc_write]: replace the
    rate in register A. *)
Definition set_rate (rate : Z) (m : machine) : machine :=
  let m := outb STATUS_REGISTER_A RTC_PORT m in
  let '(v, m) := inb CMOS_PORT m in
  let prev := s8 v in
  let m := outb STATUS_REGISTER_A RTC_PORT m in
  outb (Z.lor (Z.land prev 0xF0) rate) CMOS_PORT m.

Definition read_register_c (m : machine) : machine :=
  let m := outb STATUS_REGISTER_C RTC_PORT m in
  snd (inb CMOS_PORT m).

Definition rtc_init (m : machine) : machine :=
  let m := set_rate (Z.land RTC_RATE_1024 DEFAULT_RATE) m in
  let m := outb STATUS_REGISTER_B RTC_PORT m in
  let '(v, m) := inb CMOS_PORT m in
  let prev := s8 v in
  let m := outb STATUS_REGISTER_B RTC_PORT m in
  let m := outb (Z.lor prev 0x40) CMOS_PORT m in
  let m := read_register_c m in
  I8259.enable_irq RTC_VEC m.

Definition rtc_open (m : machine) : Z * machine :=
  (0, read_register_c (set_rate DEFAULT_RATE m)).

Definition rtc_close (fd : Z) : Z := 0.

(** The [switch] of [rtc_write]. *)
Definition rtc_rate (freq : Z) : option Z :=
  if freq =? 2 then Some DEFAULT_RATE
  else if freq =? 4 then Some 0x0E
  else if freq =? 8 then Some 0x0D
  else if freq =? 16 then Some 0x0C
  else if freq =? 32 then Some 0x0B
  else if freq =? 64 then Some 0x0A
  else if freq =? 128 then Some 0x09
  else if freq =? 256 then Some 0x08
  else if freq =? 512 then Some 0x07
  else if freq =? 1024 then Some 0x06
  else None.

Definition rtc_write (arg buf nbytes : Z) (m : machine) : Z * machine :=
  match rtc_rate (s32 (ld32 m buf)) with
  | None => (-1, m)
  | Some rate => (0, read_register_c (set_rate rate m))
  end.

(** The port side of [rtc_handler]; the flag it sets is in Kernel.v. *)
Definition rtc_ack (m : machine) : machine :=
  let m := outb 0x0C RTC_PORT m in
  let m := snd (inb CMOS_PORT m) in
  I8259.send_eoi RTC_VEC m.

End rtc.
End Rtc.

(** The last byte written to a port: what a latch such as the mask register of
    the interrupt controller answers when it is read. *)
Fixpoint last_out (tr : list ioev) (port : Z) (v : option Z) : option Z :=
  match tr with
  | [] => v
  | Out p d :: tr' => last_out tr' port (if p =? port then Some d else v)
  | In _ _ :: tr' => last_out tr' port v
  end.

(** The IRQ line's controller port and its bit in that controller's mask. *)
Definition irq_port (irq : Z) : Z :=
  if irq <? 8 then I8259.MASTER_8259_PORT_A else I8259.SLAVE_8259_PORT_A.
Definition irq_bit (irq : Z) : Z := if irq <? 8 then irq else irq - 8.

Section facts.
Context {L : Layout} {D : Device}.
Implicit Type m : machine.

Lemma trace_outb data port m : trace (outb data port m) = trace m ++ [Out (u16 port) (u8 data)].
Proof. done. Qed.

Lemma trace_inb port m :
  trace (snd (inb port m)) = trace m ++ [In (u16 port) (fst (inb port m))].
Proof. done. Qed.

Lemma last_out_app tr1 tr2 port v :
  last_out (tr1 ++ tr2) port v = last_out tr2 port (last_out tr1 port v).
Proof. revert v. induction tr1 as [|[p d|p d] tr1 IH]; intros v; simpl; auto. Qed.

(** Rewriting a bit of a mask byte by [xor]. *)
Lemma mask_bit v k i :
  0 <= v < 256 -> 0 <= k < 8 -> 0 <= i < 8 ->
  Z.testbit (u8 (Z.lxor v (Z.shiftl 1 k))) i
  = if i =? k then negb (Z.testbit v i) else Z.testbit v i.
Proof.
  intros Hv Hk Hi. unfold u8. change 256 with (2 ^ 8).
  rewrite Z.mod_pow2_bits_low by lia. rewrite Z.lxor_spec, Z.shiftl_spec by lia.
  destruct (Z.eqb_spec i k) as [->|Hne].
  - rewrite Z.sub_diag. simpl. by destruct (Z.testbit v k).
  - destruct (Z.ltb_spec i k).
    + rewrite (Z.testbit_neg_r 1) by lia. by destruct (Z.testbit v i).
    + rewrite (Z.bits_above_log2 1) by (simpl; lia). by destruct (Z.testbit v i).
Qed.

(** [enable_irq] reads the mask of the controller of its line and writes it
    back with the bit of that line flipped and no other bit touched; a line that
    was masked is thereby enabled, but one that was enabled is masked. *)
Theorem enable_irq_correct irq m :
  0 <= irq < 16 ->
  exists v w,
    trace (I8259.enable_irq irq m)
    = trace m ++ [In (irq_port irq) v; Out (irq_port irq) w] /\
    (forall i, 0 <= i < 8 ->
       Z.testbit w i = if i =? irq_bit irq then negb (Z.testbit v i) else Z.testbit v i) /\
    v = u8 (dev_in (trace m) (irq_port irq)) /\ ram (I8259.enable_irq irq m) = ram m.
Proof.
  intros Hirq. unfold I8259.enable_irq, irq_port, irq_bit.
  destruct (Z.ltb_spec irq 8); eexists _, _; (split; [simpl; rewrite <-app_assoc; simpl; rewrite u8_u8; reflexivity|]);
    (split; [|split; reflexivity]); intros i Hi; apply mask_bit; auto using u8_range; lia.
Qed.

(** [send_eoi] acknowledges a line at its own controller, and at the master's
    cascade line as well when the line belongs to the slave; a number that is no
    line sends nothing. *)
Lemma send_eoi_correct irq m :
  0 <= irq ->
  trace (I8259.send_eoi irq m) = trace m ++
    (if irq <? 8 then [Out 0x20 (0x60 + irq)]
     else if irq <? 16 then [Out 0xA0 (0x60 + (irq - 8)); Out 0x20 0x62]
     else []).
Proof.
  intros Hirq. unfold I8259.send_eoi, I8259.SLAVE_IRQ_OFF, I8259.EOI.
  destruct (Z.ltb_spec irq 8); [|destruct (Z.ltb_spec irq 16)].
  - rewrite trace_outb, (lor_add 3), u8_small by (done || lia). done.
  - rewrite !trace_outb, (lor_add 3), u8_small, <-app_assoc by (done || lia). done.
  - by rewrite app_nil_r.
Qed.

(** For every frequency whose divisor fits the 16-bit counter, [pit_write]
    selects channel 0 and sends the two halves of [MAXPIT / freq]. *)
Lemma pit_write_correct freq m :
  19 <= freq <= Pit.MAXPIT ->
  exists m' lo hi,
    Pit.pit_write freq m = Some m' /\
    trace m' = trace m ++ [Out 0x43 0x36; Out 0x40 lo; Out 0x40 hi] /\
    lo + 256 * hi = Pit.MAXPIT / freq /\ 0 < Pit.MAXPIT / freq < 65536.
Proof.
  intros Hf. unfold Pit.pit_write. rewrite (proj2 (Z.eqb_neq freq 0)) by lia.
  rewrite Z.quot_div_nonneg by (unfold Pit.MAXPIT; lia).
  assert (0 < Pit.MAXPIT / freq < 65536) as Hd.
  { unfold Pit.MAXPIT in *. split; [apply Z.div_str_pos; lia|].
    apply Z.div_lt_upper_bound; lia. }
  do 3 eexists. split; [reflexivity|]. rewrite !trace_outb, <-!app_assoc.
  split; [reflexivity|]. split; [|done].
  change 255 with (Z.ones 8). rewrite Z.land_ones, Z.shiftr_div_pow2 by lia.
  change (2 ^ 8) with 256. unfold u8. dlia.
Qed.

Lemma land_f0 v : Z.land (s8 v) 0xF0 = v mod 256 / 16 * 16.
Proof.
  change 240 with (Z.shiftl (Z.ones 4) 4). apply Z.bits_inj'. intros i Hi.
  rewrite Z.land_spec, Z.shiftl_spec by lia.
  replace (v mod 256 / 16 * 16) with (Z.shiftl (Z.shiftr (Z.land v (Z.ones 8)) 4) 4)
    by (rewrite Z.shiftl_mul_pow2, Z.shiftr_div_pow2, Z.land_ones by lia; done).
  rewrite Z.shiftl_spec by lia.
  destruct (Z.ltb_spec i 4).
  { rewrite !(Z.testbit_neg_r _ (i - 4)) by lia. apply andb_false_r. }
  rewrite Z.shiftr_spec by lia. replace (i - 4 + 4) with i by lia. rewrite Z.land_spec.
  destruct (Z.ltb_spec i 8).
  - rewrite !Z.ones_spec_low by lia. rewrite !andb_true_r.
    rewrite <-(Z.mod_pow2_bits_low (s8 v) 8), <-(Z.mod_pow2_bits_low v 8) by lia.
    f_equal. unfold s8. change (2 ^ 8) with 256. dlia.
  - rewrite !Z.ones_spec_high by lia. by rewrite !andb_false_r.
Qed.

Lemma new_rate v rate :
  0 <= v < 256 -> 0 <= rate < 16 ->
  u8 (Z.lor (Z.land (s8 v) 0xF0) rate) = v / 16 * 16 + rate.
Proof.
  intros Hv Hr. rewrite land_f0, (Z.mod_small v) by done.
  rewrite (lor_add 4); [apply u8_small; dlia|lia| |lia]. change (2 ^ 4) with 16. dlia.
Qed.

(** The port traffic of a change of rate. *)
Lemma set_rate_trace rate m :
  0 <= rate < 16 ->
  exists v,
    trace (Rtc.set_rate rate m) = trace m ++
      [Out 0x70 0x8A; In 0x71 v; Out 0x70 0x8A; Out 0x71 (v / 16 * 16 + rate)] /\
    0 <= v < 256 /\ v = u8 (dev_in (trace m ++ [Out 0x70 0x8A]) 0x71).
Proof.
  intros Hr. unfold Rtc.set_rate. eexists. split; [|split; [apply u8_range|reflexivity]].
  cbn [inb]. rewrite !trace_outb. simpl. rewrite <-!app_assoc. simpl.
  rewrite new_rate by (done || apply u8_range). reflexivity.
Qed.

(** [rtc_write] accepts exactly the powers of two from 2 to 1024.  For
    [2^k] it reprograms register A with the rate [16 - k], for which the clock
    ticks [32768 >> (rate - 1) = 2^k] times a second, keeps the upper half of the
    register, and answers 0; for anything else it answers -1 and touches no port. *)
Theorem rtc_write_correct arg buf nbytes m :
  let freq := s32 (ld32 m buf) in
  (exists k v c,
     1 <= k <= 10 /\ freq = 2 ^ k /\
     fst (Rtc.rtc_write arg buf nbytes m) = 0 /\
     trace (snd (Rtc.rtc_write arg buf nbytes m)) = trace m ++
       [Out 0x70 0x8A; In 0x71 v; Out 0x70 0x8A; Out 0x71 (v / 16 * 16 + (16 - k));
        Out 0x70 0x0C; In 0x71 c] /\
     Z.shiftr 32768 (16 - k - 1) = freq) \/
  ((forall k, 1 <= k <= 10 -> freq <> 2 ^ k) /\
   Rtc.rtc_write arg buf nbytes m = (-1, m)).
Proof.
  intros freq. unfold Rtc.rtc_write. fold freq.
  assert (Hok : forall k, 1 <= k <= 10 -> freq = 2 ^ k ->
    Rtc.rtc_rate freq = Some (16 - k) /\ Z.shiftr 32768 (16 - k - 1) = freq).
  { intros k Hk ->. assert (k = 1 \/ k = 2 \/ k = 3 \/ k = 4 \/ k = 5 \/ k = 6 \/ k = 7 \/
      k = 8 \/ k = 9 \/ k = 10) as Hc by lia.
    repeat (destruct Hc as [->|Hc]; [done|]). subst. done. }
  destruct (decide (Exists (fun k => freq = 2 ^ k) (seqZ 1 10))) as [He|Hn].
  - apply Exists_exists in He as (k & Hk & Hf). apply list_elem_of_In, elem_of_seqZ in Hk.
    destruct (Hok k ltac:(lia) Hf) as [-> Hs]. left.
    destruct (set_rate_trace (16 - k) m ltac:(lia)) as (v & Hv & _).
    eexists k, v, _. split_and!; [lia|lia|done|done| |done].
    unfold Rtc.read_register_c. cbn [snd]. rewrite trace_inb, trace_outb, Hv.
    rewrite <-!app_assoc. reflexivity.
  - right. assert (Hne : forall k, 1 <= k <= 10 -> freq <> 2 ^ k).
    { intros k Hk Hf. apply Hn, Exists_exists. exists k. split; [|done].
      apply list_elem_of_In, elem_of_seqZ. lia. }
    split; [done|].
    assert (Rtc.rtc_rate freq = None) as ->; [|done]. unfold Rtc.rtc_rate.
    pose proof (Hne 1 ltac:(lia)). pose proof (Hne 2 ltac:(lia)). pose proof (Hne 3 ltac:(lia)).
    pose proof (Hne 4 ltac:(lia)). pose proof (Hne 5 ltac:(lia)). pose proof (Hne 6 ltac:(lia)).
    pose proof (Hne 7 ltac:(lia)). pose proof (Hne 8 ltac:(lia)). pose proof (Hne 9 ltac:(lia)).
    pose proof (Hne 10 ltac:(lia)).
    by rewrite !(proj2 (Z.eqb_neq freq _)) by done.
Qed.

End facts.

(** Ports that answer with the byte last written to them, as the mask registers of
    the interrupt controllers do. *)
Definition latch_device : Device := fun tr port => default 0 (last_out tr port None).

#[local] Existing Instance demo_layout.
#[local] Existing Instance latch_device.

Lemma enable_irq_correct_witness :
  exists v w, trace (I8259.enable_irq 8 blank_machine) = [In 0xA1 v; Out 0xA1 w] /\
    Z.testbit w 0 = negb (Z.testbit v 0).
Proof.
  destruct (enable_irq_correct 8 blank_machine) as (v & w & Ht & Hb & _); [lia|].
  exists v, w. split; [exact Ht|]. exact (Hb 0 ltac:(lia)).
Defined.

