(* ===== verification/Console.v ===== *)
(** * The text console: the output half of student-distrib/lib.c

    [clear], [reset_screen], [update_cursor], [putc], [puts] and [printf], with
    the input line that [putc] feeds while a terminal read is waiting
    (terminal.c's [tbuffer], [tbuf] and [tflag]).  The screen is the video page
    of the machine's memory; the local arrays of [printf] are memories of their
    own. *)
From Stdlib Require Import ZArith Lia String.
From stdpp Require Import base list gmap numbers.
From S2P Require Import Prelude ByteMem LibString Machine Paging.

Definition NUM_COLS : Z := 80.
Definition NUM_ROWS : Z := 25.
Definition ATTRIB : Z := 0x7.
Definition ATTRIB_YELLOW : Z := 0xA.

(** The pointer [video_mem], initialised to VIDEO and never assigned. *)
Definition video_mem : Z := VIDEO.

Record console := Console {
  mach : machine;
  screen_x : Z;
  screen_y : Z;
  tbuf : Z;
  tflag : Z;
}.

Definition set_mach s v := Console v (screen_x s) (screen_y s) (tbuf s) (tflag s).
Definition set_x s v := Console (mach s) v (screen_y s) (tbuf s) (tflag s).
Definition set_y s v := Console (mach s) (screen_x s) v (tbuf s) (tflag s).
Definition set_tbuf s v := Console (mach s) (screen_x s) (screen_y s) v (tflag s).
Definition set_tflag s v := Console (mach s) (screen_x s) (screen_y s) (tbuf s) v.

Section console.
Context {L : Layout}.

Definition clear (s : console) : console :=
  set_mach s (for_range 0 (NUM_ROWS * NUM_COLS) (fun i m =>
    let m := st m (video_mem + Z.shiftl i 1) 32 in
    st m (video_mem + Z.shiftl i 1 + 1) ATTRIB) (mach s)).

Definition reset_screen (s : console) : console := set_y (set_x (clear s) 0) 0.

Definition update_cursor (row col : Z) (m : machine) : machine :=
  let pos := u32 (col * 80 + row) in
  let m := outb 14 0x3D4 m in
  let m := outb (Z.shiftr pos 8) 0x3D5 m in
  let m := outb 15 0x3D4 m in
  outb pos 0x3D5 m.

Definition show_cursor (s : console) : console :=
  set_mach s (update_cursor (screen_x s) (screen_y s) (mach s)).

(** The block that [putc] runs twice, when the cursor leaves the last row.  The
    second [for] of the source has no braces, so that its attribute store runs
    once, with [i] = [NUM_COLS]. *)
Definition scroll (s : console) : console :=
  let s := set_mach s (for_range 0 (NUM_ROWS - 1) (fun i m =>
    memcpy m (video_mem + NUM_COLS * i * 2) (video_mem + NUM_COLS * (i + 1) * 2)
      (NUM_COLS * 2)) (mach s)) in
  let s := set_y s (screen_y s - 1) in
  let s := set_mach s (for_range 0 NUM_COLS (fun i m =>
    st m (video_mem + Z.shiftl (NUM_COLS * screen_y s + i) 1) 32) (mach s)) in
  set_mach s (st (mach s)
    (video_mem + Z.shiftl (NUM_COLS * screen_y s + NUM_COLS) 1 + 1) ATTRIB_YELLOW).

Definition scroll_if_needed (s : console) : console :=
  if NUM_ROWS - 1 <? screen_y s then scroll s else s.

(** [putc] calls itself on the blank of a backspace; [depth] bounds that. *)
Fixpoint putc_rec (depth : nat) (c : Z) (s : console) : console :=
  match depth with
  | O => s
  | S depth =>
      if (c =? 10) || (c =? 13) then
        let s := set_tflag s 0 in
        let s := set_y s (screen_y s + 1) in
        let s := set_x s 0 in
        let s := scroll_if_needed s in
        show_cursor s
      else if (c =? 8) && (tbuf s =? 0) then s
      else if c =? 8 then
        let s :=
          if truth (screen_x s) then
            let s := set_x s (screen_x s - 1) in
            let s := putc_rec depth 32 s in
            set_x s (screen_x s - 1)
          else
            let s := set_x s NUM_COLS in
            let s := set_y s (screen_y s - 1) in
            let s := set_x s (screen_x s - 1) in
            let s := putc_rec depth 32 s in
            set_x s (screen_x s - 1) in
        let s :=
          if truth (tflag s) then
            if 1 <? tbuf s then set_tbuf s (tbuf s - 2) else s
          else s in
        show_cursor s
      else if tbuf s =? 128 then s
      else
        let s := set_mach s (st (mach s)
          (video_mem + Z.shiftl (NUM_COLS * screen_y s + screen_x s) 1) c) in
        let s := set_mach s (st (mach s)
          (video_mem + Z.shiftl (NUM_COLS * screen_y s + screen_x s) 1 + 1) ATTRIB_YELLOW) in
        let s := set_x s (screen_x s + 1) in
        let s :=
          if NUM_COLS <=? screen_x s then
            let s := set_y s (screen_y s + 1) in
            let s := set_x s 0 in
            scroll_if_needed s
          else s in
        let s := show_cursor s in
        let s := set_x s (Z.rem (screen_x s) NUM_COLS) in
        let s := set_y s (Z.rem (screen_y s + Z.quot (screen_x s) NUM_COLS) NUM_ROWS) in
        if truth (tflag s) then
          if tbuf s <? 128 then
            let s := set_mach s (st (mach s) (tbuffer_at + tbuf s) c) in
            set_tbuf s (tbuf s + 1)
          else s
        else s
  end.

Definition putc (c : Z) (s : console) : console := putc_rec 2 (u8 c) s.

(** [puts], over the bytes [rd] reads: the kernel's memory, which [putc] may
    change, or a local array. *)
Definition puts_with (rd : console -> Z -> Z) (s : console) : option (console * Z) :=
  while (fun '(s, index) =>
    if rd s index =? 0 then inr (s, index)
    else inl (putc (rd s index) s, index + 1)) (s, 0).

Definition puts (p : Z) (s : console) : option (console * Z) :=
  puts_with (fun s index => ld (mach s) (p + index)) s.

Definition puts_local (buf : flat) (p : Z) (s : console) : option console :=
  fst <$> puts_with (fun _ index => ld buf (p + index)) s.

(** [%x]: the digits; [%#x]: padded with zeros on the left to eight. *)
Definition print_hex (alternate : bool) (v : Z) (s : console) : option console :=
  if negb alternate then
    conv_buf ← itoa (∅ : flat) v 0 16;
    puts_local conv_buf 0 s
  else
    conv_buf ← itoa (∅ : flat) v 8 16;
    starting_index ← strlen conv_buf 8;
    let conv_buf := for_range starting_index 8 (fun i b => st b i 48) conv_buf in
    puts_local conv_buf starting_index s.

Definition print_unsigned (v : Z) (s : console) : option console :=
  conv_buf ← itoa (∅ : flat) v 0 10;
  puts_local conv_buf 0 s.

Definition print_signed (v : Z) (s : console) : option console :=
  let value := s32 v in
  conv_buf ←
    (if value <? 0 then itoa (st (∅ : flat) 0 45) (u32 (- value)) 1 10
     else itoa (∅ : flat) value 0 10);
  puts_local conv_buf 0 s.

(** [format_char_switch]: the [#] modifiers at [buf]. *)
Definition skip_alternate (m : machine) (buf : Z) : option (bool * Z) :=
  while (fun '(alternate, buf) =>
    if ld m buf =? 35 then inl (true, buf + 1) else inr (alternate, buf)) (false, buf).

(** One conversion.  [args] are the words above [format] on the stack: taking
    one that the caller did not push is undefined. *)
Definition conversion (alternate : bool) (c : Z) (args : list Z) (s : console)
    : option (list Z * console) :=
  if c =? 37 (* % *) then Some (args, putc 37 s)
  else if c =? 120 (* x *) then
    match args with
    | [] => None
    | v :: args => s ← print_hex alternate (u32 v) s; Some (args, s)
    end
  else if c =? 117 (* u *) then
    match args with
    | [] => None
    | v :: args => s ← print_unsigned (u32 v) s; Some (args, s)
    end
  else if c =? 100 (* d *) then
    match args with
    | [] => None
    | v :: args => s ← print_signed v s; Some (args, s)
    end
  else if c =? 99 (* c *) then
    match args with
    | [] => None
    | v :: args => Some (args, putc (u8 v) s)
    end
  else if c =? 115 (* s *) then
    match args with
    | [] => None
    | v :: args => '(s, _) ← puts (u32 v) s; Some (args, s)
    end
  else Some (args, s).

Definition printf (format : Z) (args : list Z) (s : console) : option (console * Z) :=
  r ← while (fun '(buf, args, s) =>
    if ld (mach s) buf =? 0 then inr (Some (s, buf - format))
    else if ld (mach s) buf =? 37 then
      match skip_alternate (mach s) (buf + 1) with
      | None => inr None
      | Some (alternate, buf) =>
          match conversion alternate (ld (mach s) buf) args s with
          | None => inr None
          | Some (args, s) => inl (buf + 1, args, s)
          end
      end
    else inl (buf + 1, args, putc (ld (mach s) buf) s)) (format, args, s);
  r.

Definition test_interrupts (s : console) : console :=
  set_mach s (for_range 0 (NUM_ROWS * NUM_COLS) (fun i m =>
    st m (video_mem + Z.shiftl i 1) (ld m (video_mem + Z.shiftl i 1) + 1)) (mach s)).

(** ** Views of the console used by the specifications *)

(** The cursor as an offset in the 2000 cells of the screen. *)
Definition cursor (s : console) : Z := 80 * screen_y s + screen_x s.

(** The characters on the screen. *)
Definition screen (s : console) : list Z :=
  map (fun k => ld (mach s) (VIDEO + 2 * k)) (seqZ 0 2000).

(** The line typed so far. *)
Definition line (s : console) : list Z :=
  load_bytes (mach s) tbuffer_at (Z.to_nat (tbuf s)).

(** The last byte the cursor controller was given for its two halves. *)
Definition cursor_regs (hi lo : Z) : list ioev :=
  [Out 0x3D4 14; Out 0x3D5 hi; Out 0x3D4 15; Out 0x3D5 lo].

Record con_ok (s : console) : Prop := {
  ok_mapped : kernel_mapped (mach s);
  ok_x : -80 <= screen_x s < 80;
  ok_y : 0 <= screen_y s < 25;
  ok_cursor : 0 <= cursor s;
  ok_tbuf : 0 <= tbuf s <= 128;
}.

(** The bytes [putc] may write: the visible page (one attribute byte more, the
    scroll's) and the line buffer. *)
Definition console_bytes (p : Z) : Prop :=
  VIDEO <= p < VIDEO + 4002 \/ tbuffer_at <= p < tbuffer_at + 128.

End console.

(** The abstract terminal: cells and a linear cursor that scrolls at the end. *)
Definition tty_scroll (cells : list Z) : list Z := drop 80 cells ++ replicate 80 32.

Definition tty_put (c : Z) (cells : list Z) (pos : Z) : list Z * Z :=
  let cells := <[Z.to_nat pos := c]> cells in
  if pos + 1 =? 2000 then (tty_scroll cells, 1920) else (cells, pos + 1).

Definition tty_newline (cells : list Z) (row : Z) : list Z * Z :=
  if row =? 24 then (tty_scroll cells, 1920) else (cells, 80 * (row + 1)).

(** ** The text a format stands for *)

(** Drawing a list of characters. *)
Definition putcs `{Layout} (l : list Z) (s : console) : console :=
  fold_left (fun s c => putc c s) l s.

Definition hex_text (alternate : bool) (v : Z) : list Z :=
  let l := map digit_char (digits 16 v) in
  if alternate then replicate (8 - length l) 48 ++ l else l.

Definition signed_text (v : Z) : list Z :=
  if s32 v <? 0 then 45 :: map digit_char (digits 10 (- s32 v))
  else map digit_char (digits 10 (s32 v)).

(** [str] gives the text of the C string at an address.  [mode] is [Some] inside
    a conversion, after its [%]; no text when an argument is missing or the
    format ends inside a conversion. *)
Fixpoint format_text (str : Z -> option (list Z)) (mode : option bool) (fmt args : list Z)
    : option (list Z) :=
  match fmt with
  | [] => match mode with None => Some [] | Some _ => None end
  | c :: fmt =>
      match mode with
      | None =>
          if c =? 37 then format_text str (Some false) fmt args
          else cons c <$> format_text str None fmt args
      | Some alternate =>
          if c =? 35 then format_text str (Some true) fmt args
          else if c =? 37 then cons 37 <$> format_text str None fmt args
          else if (c =? 120) || (c =? 117) || (c =? 100) || (c =? 99) || (c =? 115) then
            match args with
            | [] => None
            | v :: args =>
                text ←
                  (if c =? 120 then Some (hex_text alternate (u32 v))
                   else if c =? 117 then Some (map digit_char (digits 10 (u32 v)))
                   else if c =? 100 then Some (signed_text v)
                   else if c =? 99 then Some [u8 v]
                   else str (u32 v));
                app text <$> format_text str None fmt args
            end
          else format_text str None fmt args
      end
  end.

Section scroll_facts.
Context {L : Layout} {LOK : LayoutOk}.
Implicit Type m : machine.

Definition video_bytes (p : Z) : Prop := VIDEO <= p < VIDEO + 4002.

Lemma video_cell m b : kernel_mapped m -> 0 <= b < 4096 -> cell m (VIDEO + b) = VIDEO + b.
Proof. intros Hm Hb. assert (VIDEO <= VIDEO + b < VIDEO + 4096) by lia. by apply cell_video. Qed.

Lemma video_fwd_ok m d s n :
  kernel_mapped m -> 0 <= d -> d <= s -> s + n <= 4096 -> fwd_ok m (VIDEO + d) (VIDEO + s) n.
Proof.
  intros Hm Hd Hs Hn i j Hi Hj. rewrite <-!Z.add_assoc, !video_cell by (done || lia). lia.
Qed.

Lemma video_inj_on m d n :
  kernel_mapped m -> 0 <= d -> d + n <= 4096 -> inj_on m (VIDEO + d) n.
Proof.
  intros Hm Hd Hn i j Hi Hj. rewrite <-!Z.add_assoc, !video_cell by (done || lia). lia.
Qed.

(** A store in the video page, seen from the video page. *)
Lemma ld_st_video m b v k :
  kernel_mapped m -> 0 <= b < 4096 -> 0 <= k < 4096 ->
  ld (st m (VIDEO + b) v) (VIDEO + k) = if b =? k then u8 v else ld m (VIDEO + k).
Proof.
  intros Hm Hb Hk. rewrite ld_st, !video_cell by done.
  destruct (Z.eqb_spec b k); [by rewrite decide_True by lia|by rewrite decide_False by lia].
Qed.

Lemma touches_st_video m m' b v :
  kernel_mapped m -> touches video_bytes m m' -> 0 <= b < 4002 ->
  touches video_bytes m (st m' (VIDEO + b) v).
Proof.
  intros Hm Ht Hb. apply touches_st; [done|]. rewrite video_cell by (done || lia).
  unfold video_bytes. lia.
Qed.

(** Moving one row up. *)
Lemma memcpy_row m i b :
  kernel_mapped m -> 0 <= i < 24 -> 0 <= b < 4096 ->
  let m' := memcpy m (VIDEO + NUM_COLS * i * 2) (VIDEO + NUM_COLS * (i + 1) * 2) (NUM_COLS * 2) in
  touches video_bytes m m' /\
  ld m' (VIDEO + b) = if (160 * i <=? b) && (b <? 160 * (i + 1)) then ld m (VIDEO + 160 + b)
                      else ld m (VIDEO + b).
Proof.
  intros Hm Hi Hb. unfold NUM_COLS. cbv zeta.
  replace (80 * i * 2) with (160 * i) by lia. replace (80 * (i + 1) * 2) with (160 * i + 160) by lia.
  change (80 * 2) with 160. split.
  - rewrite memcpy_copy by (apply video_fwd_ok; done || lia).
    apply touches_store_bytes; [apply touches_refl|].
    rewrite load_bytes_length. intros j Hj. rewrite <-Z.add_assoc, video_cell by (done || lia).
    unfold video_bytes. lia.
  - destruct (Z.leb_spec (160 * i) b), (Z.ltb_spec b (160 * (i + 1))); cbn [andb].
    + replace (VIDEO + b) with (VIDEO + 160 * i + (b - 160 * i)) by lia.
      rewrite memcpy_ld; [f_equal; lia|apply video_fwd_ok; done || lia|
        apply video_inj_on; done || lia|lia].
    + rewrite memcpy_ld_outside; [done|lia|apply video_fwd_ok; done || lia|].
      intros j Hj. rewrite <-Z.add_assoc, !video_cell by (done || lia). lia.
    + rewrite memcpy_ld_outside; [done|lia|apply video_fwd_ok; done || lia|].
      intros j Hj. rewrite <-Z.add_assoc, !video_cell by (done || lia). lia.
    + rewrite memcpy_ld_outside; [done|lia|apply video_fwd_ok; done || lia|].
      intros j Hj. rewrite <-Z.add_assoc, !video_cell by (done || lia). lia.
Qed.

Lemma scroll_rows m :
  kernel_mapped m ->
  let m' := for_range 0 (NUM_ROWS - 1) (fun i m =>
    memcpy m (video_mem + NUM_COLS * i * 2) (video_mem + NUM_COLS * (i + 1) * 2)
      (NUM_COLS * 2)) m in
  touches video_bytes m m' /\
  forall b, 0 <= b < 4096 ->
    ld m' (VIDEO + b) = if b <? 3840 then ld m (VIDEO + 160 + b) else ld m (VIDEO + b).
Proof.
  intros Hm. cbv zeta. unfold video_mem.
  apply (for_range_ind (fun i m' => touches video_bytes m m' /\
    forall b, 0 <= b < 4096 ->
    ld m' (VIDEO + b) = if b <? 160 * i then ld m (VIDEO + 160 + b) else ld m (VIDEO + b))).
  - done.
  - split; [apply touches_refl|]. intros b Hb. by rewrite (proj2 (Z.ltb_ge _ _)) by lia.
  - intros i m' Hi [Ht Hl]. unfold NUM_ROWS in Hi.
    assert (kernel_mapped m') as Hm' by (by eapply touches_kernel_mapped).
    split.
    + eapply touches_trans; [exact Ht|]. by apply (memcpy_row m' i 0); [|lia..].
    + intros b Hb. destruct (memcpy_row m' i b) as [_ ->]; [done|lia|done|].
      destruct (Z.leb_spec (160 * i) b), (Z.ltb_spec b (160 * (i + 1))); cbn [andb];
        rewrite ?Hl by lia;
        rewrite <-?Z.add_assoc, ?Hl by lia;
        destruct (Z.ltb_spec b (160 * i)); try lia; try done.
      by rewrite (proj2 (Z.ltb_ge _ _)) by lia.
Qed.

(** The blanks written along the last row. *)
Lemma blank_row m :
  kernel_mapped m ->
  let m' := for_range 0 NUM_COLS (fun i m =>
    st m (video_mem + Z.shiftl (NUM_COLS * 24 + i) 1) 32) m in
  touches video_bytes m m' /\
  forall b, 0 <= b < 4096 ->
    ld m' (VIDEO + b) = if (3840 <=? b) && (b <? 4000) && Z.even b then 32 else ld m (VIDEO + b).
Proof.
  intros Hm. cbv zeta. unfold video_mem, NUM_COLS.
  pose proof (for_range_ind (fun i m' => touches video_bytes m m' /\
    forall b, 0 <= b < 4096 ->
    ld m' (VIDEO + b) = if (3840 <=? b) && (b <? 3840 + 2 * i) && Z.even b then 32
                        else ld m (VIDEO + b)) 0 80
    (fun i m => st m (VIDEO + Z.shiftl (80 * 24 + i) 1) 32) m) as Hind.
  apply Hind; [done| |].
  - split; [apply touches_refl|]. intros b Hb.
    destruct (Z.leb_spec 3840 b), (Z.ltb_spec b (3840 + 2 * 0)); try lia; done.
  - intros i m' Hi [Ht Hl].
    assert (kernel_mapped m') as Hm' by (by eapply touches_kernel_mapped).
    rewrite Z.shiftl_mul_pow2 by lia. change (2 ^ 1) with 2.
    split; [apply touches_st_video; done || lia|].
    intros b Hb. rewrite ld_st_video by (done || lia). rewrite Hl by done.
    destruct (Z.eqb_spec ((80 * 24 + i) * 2) b) as [<-|Hne].
    + rewrite (proj2 (Z.leb_le _ _)), (proj2 (Z.ltb_lt _ _)) by lia.
      rewrite Z.even_mul, orb_true_r. done.
    + destruct (Z.leb_spec 3840 b), (Z.ltb_spec b (3840 + 2 * i)),
        (Z.ltb_spec b (3840 + 2 * (i + 1))); try lia; try done. cbn [andb].
      destruct (Z.even b) eqn:Ev; [|done]. exfalso. apply Z.even_spec in Ev as [k Hk]. lia.
Qed.

(** A whole scroll, from the row below the screen. *)
Lemma scroll_correct s :
  kernel_mapped (mach s) -> screen_y s = 25 ->
  exists m', scroll s = Console m' (screen_x s) 24 (tbuf s) (tflag s) /\
    touches video_bytes (mach s) m' /\
    forall b, 0 <= b < 4002 -> ld m' (VIDEO + b) =
      if b <? 3840 then ld (mach s) (VIDEO + 160 + b)
      else if b =? 4001 then ATTRIB_YELLOW
      else if (b <? 4000) && Z.even b then 32 else ld (mach s) (VIDEO + b).
Proof.
  intros Hm Hy. destruct (scroll_rows (mach s) Hm) as [Ht1 Hl1].
  unfold scroll. cbn [mach set_mach set_y screen_y screen_x tbuf tflag]. rewrite Hy.
  change (25 - 1) with 24. cbv zeta in Ht1, Hl1.
  remember (for_range 0 (NUM_ROWS - 1) _ (mach s)) as m1 eqn:E1. clear E1.
  assert (kernel_mapped m1) as Hm1 by (by eapply touches_kernel_mapped).
  destruct (blank_row m1 Hm1) as [Ht2 Hl2]. cbv zeta in Ht2, Hl2.
  remember (for_range 0 NUM_COLS _ m1) as m2 eqn:E2. clear E2.
  assert (kernel_mapped m2) as Hm2 by (by eapply touches_kernel_mapped).
  eexists. split; [reflexivity|].
  change (video_mem + Z.shiftl (NUM_COLS * 24 + NUM_COLS) 1 + 1) with (VIDEO + 4001).
  split.
  - eapply touches_trans; [exact Ht1|]. apply touches_st_video; done || lia.
  - intros b Hb. rewrite ld_st_video by (done || lia). rewrite Z.eqb_sym.
    destruct (Z.eqb_spec b 4001) as [->|Hne]; [done|].
    rewrite Hl2 by lia. rewrite Hl1 by lia.
    destruct (Z.ltb_spec b 3840), (Z.leb_spec 3840 b); try lia; cbn [andb]; done.
Qed.

End scroll_facts.

Section putc_facts.
Context {L : Layout} {LOK : LayoutOk}.
Implicit Type m : machine.

Definition cells m : list Z := map (fun k => ld m (VIDEO + 2 * k)) (seqZ 0 2000).

Lemma cells_length m : length (cells m) = 2000%nat.
Proof. unfold cells. by rewrite length_map, length_seqZ. Qed.

Lemma cells_lookup m i :
  (i < 2000)%nat -> cells m !! i = Some (ld m (VIDEO + 2 * Z.of_nat i)).
Proof.
  intros Hi. unfold cells. rewrite list_lookup_fmap, lookup_seqZ_lt by lia. done.
Qed.

Lemma cells_ext m l :
  length l = 2000%nat ->
  (forall i, (i < 2000)%nat -> l !! i = Some (ld m (VIDEO + 2 * Z.of_nat i))) -> cells m = l.
Proof.
  intros Hl Hi. apply list_eq. intros i. destruct (decide (i < 2000)%nat).
  - by rewrite cells_lookup, Hi.
  - by rewrite !lookup_ge_None_2 by (rewrite ?cells_length, ?Hl; lia).
Qed.

Lemma cells_scroll m m' :
  (forall b, 0 <= b < 4002 -> ld m' (VIDEO + b) =
      if b <? 3840 then ld m (VIDEO + 160 + b)
      else if b =? 4001 then ATTRIB_YELLOW
      else if (b <? 4000) && Z.even b then 32 else ld m (VIDEO + b)) ->
  cells m' = tty_scroll (cells m).
Proof.
  intros Hb. unfold tty_scroll. apply cells_ext.
  - rewrite length_app, length_drop, length_replicate, cells_length. done.
  - intros i Hi. rewrite Hb by lia. destruct (Z.ltb_spec (2 * Z.of_nat i) 3840).
    + rewrite lookup_app_l by (rewrite length_drop, cells_length; lia).
      rewrite lookup_drop, cells_lookup by lia. do 2 f_equal. lia.
    + rewrite (proj2 (Z.eqb_neq _ _)), (proj2 (Z.ltb_lt _ _)) by lia.
      rewrite Z.even_mul. cbn [Z.even orb andb].
      rewrite lookup_app_r by (rewrite length_drop, cells_length; lia).
      rewrite length_drop, cells_length, lookup_replicate_2 by lia. done.
Qed.

Lemma cells_put m c k :
  kernel_mapped m -> 0 <= c < 256 -> 0 <= k < 2000 ->
  cells (st (st m (VIDEO + 2 * k) c) (VIDEO + (2 * k + 1)) ATTRIB_YELLOW)
  = <[Z.to_nat k := c]> (cells m).
Proof.
  intros Hm Hc Hk. apply cells_ext; [by rewrite length_insert, cells_length|].
  intros i Hi. rewrite !ld_st_video by (rewrite ?kernel_mapped_st; done || lia).
  rewrite (proj2 (Z.eqb_neq (2 * k + 1) _)) by lia.
  destruct (Z.eqb_spec (2 * k) (2 * Z.of_nat i)) as [E|E].
  - replace (Z.to_nat k) with i by lia.
    rewrite list_lookup_insert_eq by (rewrite cells_length; lia). by rewrite u8_small.
  - rewrite list_lookup_insert_ne by lia. by apply cells_lookup.
Qed.

(** The line buffer is in the kernel's page, away from the screen. *)
Lemma tbuffer_cell m i : kernel_mapped m -> 0 <= i < 129 -> cell m (tbuffer_at + i) = tbuffer_at + i.
Proof.
  intros Hm Hi. pose proof tbuffer_in_kernel as [H1 H2].
  assert (KERNEL <= tbuffer_at + i < 2 * KERNEL) by lia. by apply cell_kernel.
Qed.

Lemma tbuffer_video i b : 0 <= i < 129 -> b < 4096 -> VIDEO + b < tbuffer_at + i.
Proof.
  intros Hi Hb. pose proof tbuffer_in_kernel as [H1 H2]. unfold KERNEL, VIDEO in *. lia.
Qed.

Lemma cells_tbuffer m i v :
  kernel_mapped m -> 0 <= i < 129 -> cells (st m (tbuffer_at + i) v) = cells m.
Proof.
  intros Hm Hi. apply cells_ext; [apply cells_length|]. intros j Hj.
  rewrite cells_lookup by done. f_equal. symmetry. apply ld_st_other.
  rewrite tbuffer_cell, video_cell by (done || lia).
  pose proof (tbuffer_video i (2 * Z.of_nat j) Hi ltac:(lia)). lia.
Qed.

(** What is written in the video page leaves the line buffer alone. *)
Lemma line_video m m' n :
  kernel_mapped m -> touches video_bytes m m' -> (n <= 129)%nat ->
  load_bytes m' tbuffer_at n = load_bytes m tbuffer_at n.
Proof.
  intros Hm Ht Hn. apply load_bytes_ext. intros i Hi. apply Ht.
  rewrite tbuffer_cell by (done || lia). pose proof (tbuffer_video i 4002 ltac:(lia) ltac:(lia)).
  unfold video_bytes. lia.
Qed.

Lemma line_append m n c :
  kernel_mapped m -> 0 <= c < 256 -> 0 <= n < 128 ->
  load_bytes (st m (tbuffer_at + n) c) tbuffer_at (Z.to_nat (n + 1))
  = load_bytes m tbuffer_at (Z.to_nat n) ++ [c].
Proof.
  intros Hm Hc Hn. replace (Z.to_nat (n + 1)) with (Z.to_nat n + 1)%nat by lia.
  rewrite load_bytes_app. f_equal.
  - apply load_bytes_ext. intros i Hi. apply ld_st_other. rewrite !tbuffer_cell by (done || lia). lia.
  - simpl. rewrite Z2Nat.id by lia. by rewrite ld_st_same, u8_small.
Qed.

Lemma touches_video_console m m' : touches video_bytes m m' -> touches console_bytes m m'.
Proof. apply touches_mono. intros a. by left. Qed.

Lemma cursor_regs_pos pos :
  0 <= pos < 65536 -> u8 (Z.shiftr (u32 pos) 8) = pos / 256 /\ u8 (u32 pos) = pos mod 256.
Proof.
  intros Hp. rewrite u32_small by lia. rewrite Z.shiftr_div_pow2 by lia.
  change (2 ^ 8) with 256. split; [apply u8_small; dlia|done].
Qed.

Lemma show_cursor_trace s :
  0 <= cursor s < 65536 ->
  trace (mach (show_cursor s)) = trace (mach s) ++ cursor_regs (cursor s / 256) (cursor s mod 256).
Proof.
  intros Hc. unfold show_cursor, update_cursor, cursor in *. cbn [mach set_mach].
  replace (screen_y s * 80 + screen_x s) with (80 * screen_y s + screen_x s) by lia.
  destruct (cursor_regs_pos _ Hc) as [<- <-].
  unfold outb. simpl. rewrite <-!app_assoc. done.
Qed.

Lemma show_cursor_fields s :
  screen_x (show_cursor s) = screen_x s /\ screen_y (show_cursor s) = screen_y s /\
  tbuf (show_cursor s) = tbuf s /\ tflag (show_cursor s) = tflag s /\
  touches video_bytes (mach s) (mach (show_cursor s)) /\
  cells (mach (show_cursor s)) = cells (mach s).
Proof. split_and!; try done. Qed.

(** Neither the copies nor the stores of a scroll touch a port. *)
Lemma scroll_ram_only s : ram_only (mach s) (mach (scroll s)).
Proof.
  unfold scroll. cbn [mach set_mach set_y]. apply ram_only_st.
  apply (for_range_closed (ram_only (mach s))); [intros; by apply ram_only_st|].
  apply (for_range_closed (ram_only (mach s))); [|apply ram_only_refl].
  intros i m Hm. apply memcpy_closed; [|done]. intros; by apply ram_only_st.
Qed.

Lemma line_show_cursor s : line (show_cursor s) = line s.
Proof. unfold line. apply load_bytes_ext. intros i Hi. reflexivity. Qed.

(** Entering the row below the screen scrolls; any other row does not. *)
Lemma scroll_if_needed_facts s :
  kernel_mapped (mach s) -> 0 <= screen_y s <= 25 ->
  exists m' y', scroll_if_needed s = Console m' (screen_x s) y' (tbuf s) (tflag s) /\
    touches video_bytes (mach s) m' /\ trace m' = trace (mach s) /\ 0 <= y' < 25 /\
    (cells m', y') = if screen_y s =? 25 then (tty_scroll (cells (mach s)), 24)
                     else (cells (mach s), screen_y s).
Proof.
  intros Hm Hy. unfold scroll_if_needed. change (NUM_ROWS - 1) with 24.
  destruct (Z.ltb_spec 24 (screen_y s)).
  - destruct (scroll_correct s Hm ltac:(lia)) as (m' & Hs & Ht & Hb).
    exists m', 24. rewrite (proj2 (Z.eqb_eq _ _)) by lia.
    pose proof (ram_only_fields _ _ (scroll_ram_only s)) as (_ & Htr & _). rewrite Hs in Htr.
    split_and!; [done|done|done|lia|lia|]. by rewrite (cells_scroll _ _ Hb).
  - exists (mach s), (screen_y s). rewrite (proj2 (Z.eqb_neq _ _)) by lia.
    split_and!; [by destruct s|apply touches_refl|done|lia|lia|done].
Qed.

(** The wrap at the end of a row. *)
Definition advance (s : console) : console :=
  if NUM_COLS <=? screen_x s then
    let s := set_y s (screen_y s + 1) in
    let s := set_x s 0 in
    scroll_if_needed s
  else s.

Lemma advance_facts s :
  kernel_mapped (mach s) -> 0 <= screen_y s < 25 -> -79 <= screen_x s <= 80 ->
  exists m' x' y', advance s = Console m' x' y' (tbuf s) (tflag s) /\
    touches video_bytes (mach s) m' /\ trace m' = trace (mach s) /\
    0 <= y' < 25 /\ -79 <= x' < 80 /\
    (cells m', 80 * y' + x') = if cursor s =? 2000 then (tty_scroll (cells (mach s)), 1920)
                               else (cells (mach s), cursor s).
Proof.
  intros Hm Hy Hx. unfold advance, NUM_COLS, cursor. destruct (Z.leb_spec 80 (screen_x s)).
  - destruct (scroll_if_needed_facts (set_x (set_y s (screen_y s + 1)) 0)) as
      (m' & y' & Hs & Ht & Htr & Hy' & Hc); [done|simpl; lia|].
    exists m', 0, y'. cbn [screen_x screen_y mach tbuf tflag set_x set_y] in *.
    split_and!; [done|done|done|lia|lia|lia|lia|]. revert Hc.
    destruct (Z.eqb_spec (screen_y s + 1) 25), (Z.eqb_spec (80 * screen_y s + screen_x s) 2000);
      try lia; intros Hc; apply pair_equal_spec in Hc as [-> ->]; apply pair_equal_spec;
      (split; [done|lia]).
  - exists (mach s), (screen_x s), (screen_y s). rewrite (proj2 (Z.eqb_neq _ _)) by lia.
    split_and!; [by destruct s|apply touches_refl|done|lia..|done].
Qed.

(** A character that [putc] draws, seen as the two stores, the wrap at the end of
    a row, the cursor, the normalisation and the line buffer. *)
Definition plain (c : Z) : Prop := 0 <= c < 256 /\ c <> 8 /\ c <> 10 /\ c <> 13.

Definition draw (c : Z) (s : console) : console :=
  set_x (set_mach s (st (st (mach s) (VIDEO + 2 * cursor s) c)
                        (VIDEO + (2 * cursor s + 1)) ATTRIB_YELLOW)) (screen_x s + 1).

Definition wrap (s : console) : console :=
  let s := set_x s (Z.rem (screen_x s) NUM_COLS) in
  set_y s (Z.rem (screen_y s + Z.quot (screen_x s) NUM_COLS) NUM_ROWS).

Definition remember_char (c : Z) (s : console) : console :=
  if truth (tflag s) then
    if tbuf s <? 128 then
      set_tbuf (set_mach s (st (mach s) (tbuffer_at + tbuf s) c)) (tbuf s + 1)
    else s
  else s.

(** The drawing steps in the order of the code, before its address is simplified. *)
Definition draw_code (c : Z) (s : console) : console :=
  let s := set_mach s (st (mach s)
    (video_mem + Z.shiftl (NUM_COLS * screen_y s + screen_x s) 1) c) in
  let s := set_mach s (st (mach s)
    (video_mem + Z.shiftl (NUM_COLS * screen_y s + screen_x s) 1 + 1) ATTRIB_YELLOW) in
  set_x s (screen_x s + 1).

Lemma draw_code_eq c s : draw_code c s = draw c s.
Proof.
  assert (video_mem + Z.shiftl (NUM_COLS * screen_y s + screen_x s) 1 = VIDEO + 2 * cursor s) as E.
  { unfold cursor, video_mem, NUM_COLS. rewrite Z.shiftl_mul_pow2 by lia. lia. }
  unfold draw_code, draw. destruct s as [m x y b f].
  cbn [mach screen_x screen_y tbuf tflag set_mach set_x] in *.
  by rewrite E, <-Z.add_assoc.
Qed.

Lemma putc_rec_drawn d c s :
  plain c -> tbuf s <> 128 ->
  putc_rec (S d) c s = remember_char c (wrap (show_cursor (advance (draw_code c s)))).
Proof.
  intros (Hc & H8 & H10 & H13) Ht. cbn [putc_rec].
  rewrite !(proj2 (Z.eqb_neq c _)), (proj2 (Z.eqb_neq (tbuf s) 128)) by assumption.
  exact eq_refl.
Qed.

Lemma putc_plain d c s :
  plain c -> tbuf s <> 128 ->
  putc_rec (S d) c s = remember_char c (wrap (show_cursor (advance (draw c s)))).
Proof. intros Hp Ht. rewrite <-draw_code_eq. by apply putc_rec_drawn. Qed.

Lemma draw_facts c s :
  kernel_mapped (mach s) -> 0 <= c < 256 -> 0 <= cursor s < 2000 ->
  cells (mach (draw c s)) = <[Z.to_nat (cursor s) := c]> (cells (mach s)) /\
  cursor (draw c s) = cursor s + 1 /\ touches video_bytes (mach s) (mach (draw c s)) /\
  trace (mach (draw c s)) = trace (mach s).
Proof.
  intros Hm Hc Hk. split_and!; [by apply cells_put|unfold cursor, draw; cbn [screen_x screen_y set_x set_mach]; lia| |done].
  repeat (apply touches_st_video; [done| |lia]). apply touches_refl.
Qed.

(** Between column -79 and the last one, the normalisation does nothing. *)
Lemma wrap_facts s : -79 <= screen_x s < 80 -> 0 <= screen_y s < 25 -> wrap s = s.
Proof.
  intros Hx Hy. unfold wrap, NUM_COLS, NUM_ROWS.
  assert (Z.rem (screen_x s) 80 = screen_x s) as E1 by (apply Z.rem_small_iff; lia).
  cbn [screen_x screen_y set_x]. rewrite E1.
  assert (Z.quot (screen_x s) 80 = 0) as -> by (apply Z.quot_small_iff; lia).
  rewrite Z.add_0_r, Z.rem_small by lia. by destruct s.
Qed.

Lemma remember_char_facts c s :
  kernel_mapped (mach s) -> 0 <= c < 256 -> 0 <= tbuf s < 128 ->
  let s' := remember_char c s in
  line s' = (if truth (tflag s) then line s ++ [c] else line s) /\
  tbuf s' = (if truth (tflag s) then tbuf s + 1 else tbuf s) /\
  tflag s' = tflag s /\ screen_x s' = screen_x s /\ screen_y s' = screen_y s /\
  cells (mach s') = cells (mach s) /\ trace (mach s') = trace (mach s) /\
  touches console_bytes (mach s) (mach s').
Proof.
  intros Hm Hc Ht. unfold remember_char. rewrite (proj2 (Z.ltb_lt _ _)) by lia.
  destruct (truth (tflag s)); cbv zeta; [|split_and!; try done; apply touches_refl].
  unfold line. cbn [tbuf tflag screen_x screen_y mach set_tbuf set_mach].
  split_and!; try done.
  - by apply line_append.
  - apply cells_tbuffer; [done|lia].
  - apply touches_st; [apply touches_refl|]. rewrite tbuffer_cell by (done || lia).
    right. lia.
Qed.

(** The effect of a plain character, from any column but -80 and beyond. *)
Lemma putc_rec_plain d c s :
  kernel_mapped (mach s) -> plain c -> 0 <= tbuf s < 128 ->
  -80 <= screen_x s < 80 -> 0 <= screen_y s < 25 -> 0 <= cursor s ->
  let s' := putc_rec (S d) c s in
  (screen s', cursor s') = tty_put c (screen s) (cursor s) /\
  line s' = (if truth (tflag s) then line s ++ [c] else line s) /\
  tbuf s' = (if truth (tflag s) then tbuf s + 1 else tbuf s) /\
  tflag s' = tflag s /\ -79 <= screen_x s' < 80 /\ 0 <= screen_y s' < 25 /\
  touches console_bytes (mach s) (mach s') /\
  trace (mach s') = trace (mach s) ++ cursor_regs (cursor s' / 256) (cursor s' mod 256).
Proof.
  intros Hm Hp Ht Hx Hy Hc. rewrite putc_plain by (done || lia).
  assert (cursor s < 2000) as Hc2 by (unfold cursor; lia).
  destruct (draw_facts c s Hm (proj1 Hp) (conj Hc Hc2)) as (Dc & Dcur & Dt & Dtr).
  assert (kernel_mapped (mach (draw c s))) as Dm by (by eapply touches_kernel_mapped).
  destruct (advance_facts (draw c s) Dm) as (m1 & x1 & y1 & -> & At & Atr & Ay & Ax & Ac);
    [done|simpl; lia|].
  rewrite Dc, Dcur in Ac. rewrite Dtr in Atr.
  set (s1 := Console m1 x1 y1 (tbuf (draw c s)) (tflag (draw c s))) in *.
  assert (cursor s1 = 80 * y1 + x1) as Ec1 by done.
  assert (0 <= cursor s1 < 65536) as Hc1.
  { rewrite Ec1. split; [|lia]. destruct (cursor s + 1 =? 2000);
      apply pair_equal_spec in Ac as [_ ->]; lia. }
  rewrite wrap_facts by (simpl; lia).
  pose proof (show_cursor_trace s1 Hc1) as Htr.
  destruct (show_cursor_fields s1) as (_ & _ & _ & _ & St & Sc).
  assert (touches video_bytes (mach s) (mach (show_cursor s1))) as Hv.
  { eapply touches_trans; [exact Dt|]. eapply touches_trans; [exact At|exact St]. }
  assert (kernel_mapped (mach (show_cursor s1))) as Hm1 by (by eapply touches_kernel_mapped).
  destruct (remember_char_facts c (show_cursor s1) Hm1 (proj1 Hp)) as
    (Rl & Rb & Rf & Rx & Ry & Rc & Rtr & Rt); [done|]. cbv zeta.
  assert (line (show_cursor s1) = line s) as Hl.
  { apply (line_video (mach s)); [done|done|]. simpl. lia. }
  rewrite Hl in Rl. set (s' := remember_char c (show_cursor s1)) in *.
  assert (cursor s' = cursor s1) as Ec by (unfold cursor; rewrite Rx, Ry; done).
  split_and!; try assumption.
  - rewrite Ec, Ec1. unfold screen, tty_put. fold (cells (mach s')) (cells (mach s)).
    rewrite Rc, Sc. exact Ac.
  - rewrite Rx. apply Ax.
  - rewrite Rx. apply Ax.
  - rewrite Ry. apply Ay.
  - rewrite Ry. apply Ay.
  - eapply touches_trans; [by apply touches_video_console|done].
  - rewrite Rtr, Htr, Ec. change (mach s1) with m1. by rewrite Atr.
Qed.

Lemma putc_newline s c :
  con_ok s -> c = 10 \/ c = 13 ->
  let s' := putc c s in
  (screen s', cursor s') = tty_newline (screen s) (screen_y s) /\
  line s' = line s /\ tbuf s' = tbuf s /\ tflag s' = 0 /\ con_ok s' /\
  touches console_bytes (mach s) (mach s') /\
  trace (mach s') = trace (mach s) ++ cursor_regs (cursor s' / 256) (cursor s' mod 256).
Proof.
  intros [Hm Hx Hy Hc Ht] Hcr. set (s0 := set_x (set_y (set_tflag s 0) (screen_y s + 1)) 0).
  assert (putc c s = show_cursor (scroll_if_needed s0)) as -> by (destruct Hcr as [-> | ->]; done).
  destruct (scroll_if_needed_facts s0) as (m' & y' & -> & At & Atr & Ay & Ac); [done|simpl; lia|].
  set (s1 := Console m' (screen_x s0) y' (tbuf s0) (tflag s0)) in *. cbv zeta.
  assert (cursor s1 = 80 * y') as Ec by (unfold cursor; simpl; lia).
  pose proof (show_cursor_trace s1 ltac:(lia)) as Htr.
  destruct (show_cursor_fields s1) as (Sx & Sy & Sb & Sf & St & Sc).
  assert (cursor (show_cursor s1) = cursor s1) as Ec' by done.
  split_and!; try assumption; try (exact eq_refl).
  - rewrite Ec', Ec. unfold screen, tty_newline. fold (cells (mach s)) (cells (mach (show_cursor s1))).
    rewrite Sc. change (cells (mach s1)) with (cells m'). simpl in Ac.
    destruct (Z.eqb_spec (screen_y s + 1) 25), (Z.eqb_spec (screen_y s) 24); try lia;
      apply pair_equal_spec in Ac as [-> ->]; done.
  - apply (line_video (mach s)); [done|done|]. simpl. lia.
  - split; [eapply touches_kernel_mapped; [exact At|exact Hm]|by rewrite Sx|by rewrite Sy|rewrite Ec', Ec; lia|done].
  - by apply touches_video_console.
  - rewrite Htr, Ec'. change (mach s1) with m'. by rewrite Atr.
Qed.

(** With a full line every plain character is dropped. *)
Lemma putc_rec_full d c s : plain c -> tbuf s = 128 -> putc_rec (S d) c s = s.
Proof.
  intros (Hc & H8 & H10 & H13) Ht. cbn [putc_rec].
  rewrite !(proj2 (Z.eqb_neq c _)), (proj2 (Z.eqb_eq (tbuf s) 128)) by assumption.
  exact eq_refl.
Qed.

(** On an empty line a backspace is dropped. *)
Lemma putc_rec_empty d s : tbuf s = 0 -> putc_rec (S d) 8 s = s.
Proof.
  intros Ht. cbn [putc_rec]. rewrite (proj2 (Z.eqb_eq (tbuf s) 0)) by assumption.
  exact eq_refl.
Qed.

Lemma putc_plain_ok s c :
  con_ok s -> plain c -> con_ok (putc c s) /\ touches console_bytes (mach s) (mach (putc c s)).
Proof.
  intros [Hm Hx Hy Hc Ht] Hp. unfold putc. rewrite u8_small by apply Hp.
  destruct (decide (tbuf s = 128)) as [E|E].
  { rewrite putc_rec_full by done. split; [done|apply touches_refl]. }
  destruct (putc_rec_plain 1 c s Hm Hp) as (Hs & _ & Hb & _ & Hx' & Hy' & Ht' & _); try done; [lia|].
  split; [|done]. split; [by eapply touches_kernel_mapped|lia|done| |].
  - unfold tty_put in Hs. destruct (_ =? 2000); apply pair_equal_spec in Hs as [_ ->]; lia.
  - rewrite Hb. destruct (truth (tflag s)); lia.
Qed.

(** Nothing but a backspace can leave the console's bytes. *)
Lemma putc_ok s c :
  con_ok s -> 0 <= c < 256 -> c <> 8 ->
  con_ok (putc c s) /\ touches console_bytes (mach s) (mach (putc c s)).
Proof.
  intros Hs Hc H8. destruct (decide (c = 10 \/ c = 13)) as [Hn|Hn].
  - by destruct (putc_newline s c Hs Hn) as (_ & _ & _ & _ & Hok & Ht & _).
  - apply putc_plain_ok; [done|]. split_and!; [lia|lia|done| |]; intros ->; apply Hn; auto.
Qed.

(** The column and row [putc] moves to before it blanks the character. *)
Definition step_back (s : console) : console :=
  if truth (screen_x s) then set_x s (screen_x s - 1)
  else set_x (set_y (set_x s NUM_COLS) (screen_y s - 1)) (NUM_COLS - 1).

Definition unremember (s : console) : console :=
  if truth (tflag s) then if 1 <? tbuf s then set_tbuf s (tbuf s - 2) else s else s.

Definition erase (s : console) : console :=
  let s := putc_rec 1 32 (step_back s) in
  show_cursor (unremember (set_x s (screen_x s - 1))).

Lemma putc_rec_backspace d s :
  tbuf s <> 0 ->
  putc_rec (S d) 8 s =
  let s := putc_rec d 32 (step_back s) in
  show_cursor (unremember (set_x s (screen_x s - 1))).
Proof.
  intros Ht. unfold step_back. cbn [putc_rec].
  rewrite (proj2 (Z.eqb_neq (tbuf s) 0)) by done. cbn [Z.eqb orb andb Pos.eqb].
  by destruct (truth (screen_x s)).
Qed.

Lemma putc_backspace s : tbuf s <> 0 -> putc 8 s = erase s.
Proof. apply putc_rec_backspace. Qed.

Lemma step_back_facts s :
  -79 <= screen_x s < 80 -> 0 <= screen_y s < 25 -> 1 <= cursor s ->
  let s' := step_back s in
  -80 <= screen_x s' < 80 /\ 0 <= screen_y s' < 25 /\ cursor s' = cursor s - 1 /\
  mach s' = mach s /\ tbuf s' = tbuf s /\ tflag s' = tflag s.
Proof.
  intros Hx Hy Hc. unfold step_back, cursor, truth in *.
  destruct (Z.eqb_spec (screen_x s) 0); cbn -[Z.add Z.sub Z.mul]; unfold NUM_COLS;
    split_and!; try done; lia.
Qed.

Lemma load_bytes_removelast m a n :
  (0 < n)%nat -> load_bytes m a (n - 1) = removelast (load_bytes m a n).
Proof.
  intros Hn. replace n with (n - 1 + 1)%nat at 2 by lia. rewrite load_bytes_app. simpl.
  by rewrite removelast_last.
Qed.

Lemma step_back_tbuf s : tbuf (step_back s) = tbuf s.
Proof. unfold step_back. by destruct (truth (screen_x s)). Qed.

(** What is left of the line when its last character is erased. *)
Lemma unremember_facts s l c :
  line s = (if truth (tflag s) then l ++ [c] else l) ->
  (truth (tflag s) = true -> 2 <= tbuf s) ->
  tbuf (unremember s) = (if truth (tflag s) then tbuf s - 2 else tbuf s) /\
  line (unremember s) = (if truth (tflag s) then removelast l else l) /\
  screen_x (unremember s) = screen_x s /\ screen_y (unremember s) = screen_y s /\
  mach (unremember s) = mach s /\ tflag (unremember s) = tflag s.
Proof.
  intros Hl Ht. unfold unremember. destruct (truth (tflag s)); [|done].
  specialize (Ht eq_refl). rewrite (proj2 (Z.ltb_lt _ _)) by lia.
  split_and!; try done. unfold line in *. cbn [mach tbuf set_tbuf].
  replace (Z.to_nat (tbuf s - 2)) with (Z.to_nat (tbuf s) - 1 - 1)%nat by lia.
  rewrite !load_bytes_removelast, Hl by lia. by rewrite removelast_last.
Qed.

Lemma erase_facts s :
  con_ok s -> -79 <= screen_x s -> 0 < tbuf s < 128 -> 1 <= cursor s ->
  let s' := erase s in
  screen s' = <[Z.to_nat (cursor s - 1) := 32]> (screen s) /\ cursor s' = cursor s - 1 /\
  line s' = (if truth (tflag s) then removelast (line s) else line s) /\
  tbuf s' = (if truth (tflag s) then tbuf s - 1 else tbuf s) /\ tflag s' = tflag s /\
  con_ok s' /\ touches console_bytes (mach s) (mach s').
Proof.
  intros [Hm Hx Hy Hc _] Hx' Ht Hc1.
  destruct (step_back_facts s ltac:(lia) Hy Hc1) as (Bx & By & Bc & Bm & Bt & Bf).
  unfold erase. set (s0 := step_back s) in *.
  destruct (putc_rec_plain 0 32 s0) as (Ps & Pl & Pb & Pf & Px & Py & Pt & _);
    [by rewrite Bm|done|lia..|].
  assert (cursor s < 2000) as Hlt by (unfold cursor; lia).
  unfold tty_put in Ps. rewrite Bc, (proj2 (Z.eqb_neq _ _)) in Ps by lia.
  apply pair_equal_spec in Ps as [Ps Pc].
  assert (line s0 = line s) as Hl0 by (unfold line; by rewrite Bm, Bt).
  assert (screen s0 = screen s) as Hs0 by (unfold screen; by rewrite Bm).
  rewrite Hl0, Bf in Pl. rewrite Hs0 in Ps. rewrite Bt, Bf in Pb. rewrite Bm in Pt.
  set (s1 := putc_rec 1 32 s0) in *. set (s2 := set_x s1 (screen_x s1 - 1)).
  assert (tflag s2 = tflag s) as Ef by (simpl; congruence).
  destruct (unremember_facts s2 (line s) 32) as (Ub & Ul & Ux & Uy & Um & Uf).
  { by rewrite Ef. }
  { rewrite Ef. intros Htr. change (tbuf s2) with (tbuf s1). rewrite Pb, Htr. lia. }
  rewrite Ef in *. set (s3 := unremember s2) in *.
  assert (cursor s3 = cursor s - 1) as Ec3 by (unfold cursor in *; simpl in *; lia).
  assert (tbuf s3 = if truth (tflag s) then tbuf s - 1 else tbuf s) as Eb3.
  { rewrite Ub. change (tbuf s2) with (tbuf s1). rewrite Pb. destruct (truth (tflag s)); lia. }
  destruct (show_cursor_fields s3) as (_ & _ & _ & _ & St & _).
  assert (touches console_bytes (mach s) (mach (show_cursor s3))) as Ht3.
  { eapply touches_trans; [exact Pt|]. change (mach s1) with (mach s2). rewrite <-Um.
    by apply touches_video_console. }
  split_and!; try assumption; try (exact eq_refl).
  - unfold screen in *. fold (cells (mach (show_cursor s3))).
    change (cells (mach (show_cursor s3))) with (cells (mach s3)). by rewrite Um.
  - by rewrite line_show_cursor.
  - split; [|simpl in *; lia|simpl in *; lia|change (0 <= cursor s3); lia|].
    + by eapply touches_kernel_mapped.
    + change (0 <= tbuf s3 <= 128). rewrite Eb3. destruct (truth (tflag s)); lia.
Qed.

End putc_facts.

Section printf_facts.
Context {L : Layout} {LOK : LayoutOk}.
Implicit Type m : machine.

(** A range of memory that drawing does not change. *)
Definition steady m p (n : nat) : Prop :=
  forall i, 0 <= i < Z.of_nat n -> ~ console_bytes (cell m (p + i)).

Lemma steady_cstr m m' p l :
  cstr m p l -> steady m p (length l + 1) -> touches console_bytes m m' ->
  cstr m' p l /\ steady m' p (length l + 1).
Proof.
  intros [Hb Hz] Hs Ht. split; [split; [|done]|].
  - intros i b Hi. pose proof (lookup_lt_Some _ _ _ Hi) as Hlt. rewrite length_app in Hlt.
    rewrite <-(Hb i b Hi). apply Ht, Hs. simpl in Hlt. lia.
  - intros i Hi. rewrite (touches_cell console_bytes m) by done. by apply Hs.
Qed.

(** Text without backspaces. *)
Definition text_ok (l : list Z) : Prop := Forall (fun c => 0 <= c < 256 /\ c <> 8) l.

Lemma putcs_ok l s :
  con_ok s -> text_ok l ->
  con_ok (putcs l s) /\ touches console_bytes (mach s) (mach (putcs l s)).
Proof.
  intros Hs Hl. revert s Hs. induction Hl as [|c l [Hc H8] Hl IH]; intros s Hs; simpl.
  - split; [done|apply touches_refl].
  - destruct (putc_ok s c Hs Hc H8) as [Hs1 Ht1]. destruct (IH (putc c s) Hs1) as [Hs2 Ht2].
    split; [done|]. by eapply touches_trans.
Qed.

Lemma putcs_app l k s : putcs (l ++ k) s = putcs k (putcs l s).
Proof. apply fold_left_app. Qed.

(** The loop of [puts], over a string that stays where it is. *)
Lemma puts_with_text rd l s (P : console -> Prop) :
  P s -> (forall s c, P s -> c ∈ l -> P (putc c s)) ->
  (forall s i b, P s -> (l ++ [0]) !! i = Some b -> rd s (Z.of_nat i) = b) ->
  Forall (fun b => b <> 0) l -> Z.of_nat (length l) < 4294967295 ->
  puts_with rd s = Some (putcs l s, Z.of_nat (length l)).
Proof.
  intros HP Hputc Hrd Hnz Hlen. unfold puts_with.
  set (f := fun '(s0, index) => if rd s0 index =? 0 then inr (s0, index)
                               else inl (putc (rd s0 index) s0, index + 1)).
  destruct (while_total (A := console * Z) (B := console * Z) f
    (fun '(s', k) => 0 <= k <= Z.of_nat (length l) /\ P s' /\
        putcs (drop (Z.to_nat k) l) s' = putcs l s)
    (fun '(_, k) => Z.of_nat (length l) - k)
    (fun b => b = (putcs l s, Z.of_nat (length l))) (s, 0)) as (b & Hb & ->);
    [|by split_and!; [lia|lia|done|]|lia|done].
  intros [s' k] (Hk & HP' & Heq). unfold f. destruct (decide (k = Z.of_nat (length l))) as [->|Hne].
  - rewrite (Hrd s' (length l) 0) by (done || by rewrite list_lookup_middle). simpl.
    rewrite Nat2Z.id, drop_all in Heq. simpl in Heq. by rewrite Heq.
  - destruct (lookup_lt_is_Some_2 l (Z.to_nat k)) as [b Hb]; [lia|].
    pose proof (Hrd s' (Z.to_nat k) b HP') as Hr. rewrite Z2Nat.id in Hr by lia.
    rewrite Hr by (by apply lookup_app_l_Some).
    pose proof (Forall_lookup_1 _ _ _ _ Hnz Hb) as Hb0. cbv beta in Hb0.
    rewrite (proj2 (Z.eqb_neq b 0)) by done. split_and!; [lia..| | |lia|lia].
    + apply Hputc; [done|]. by eapply list_elem_of_lookup_2.
    + rewrite <-Heq. rewrite (drop_S l b (Z.to_nat k)) by done. cbn [putcs fold_left].
      by replace (Z.to_nat (k + 1)) with (S (Z.to_nat k)) by lia.
Qed.

Lemma text_ok_in l c : text_ok l -> c ∈ l -> 0 <= c < 256 /\ c <> 8.
Proof. intros Hl Hc. unfold text_ok in Hl. rewrite Forall_forall in Hl. apply Hl. by apply list_elem_of_In. Qed.

Lemma puts_text p l s :
  con_ok s -> cstr (mach s) p l -> steady (mach s) p (length l + 1) -> text_ok l ->
  Z.of_nat (length l) < 4294967295 ->
  puts p s = Some (putcs l s, Z.of_nat (length l)).
Proof.
  intros Hs Hc Hst Ht Hlen.
  apply (puts_with_text _ l s (fun s' => con_ok s' /\ cstr (mach s') p l /\
    steady (mach s') p (length l + 1))); [done| | |apply Hc|done].
  - intros s' c (Hs' & Hc' & Hst') Hin. destruct (text_ok_in l c Ht Hin) as [Hcr H8].
    destruct (putc_ok s' c Hs' Hcr H8) as [Hok Hto]. split; [done|].
    by apply (steady_cstr (mach s')).
  - intros s' i b (_ & [Hb _] & _) Hi. by apply Hb.
Qed.

Lemma puts_local_text (buf : flat) p l s :
  cstr buf p l -> Z.of_nat (length l) < 4294967295 -> puts_local buf p s = Some (putcs l s).
Proof.
  intros [Hb Hz] Hlen. unfold puts_local.
  rewrite (puts_with_text _ l s (fun _ => True)); try done. intros s' i b _ Hi. by apply Hb.
Qed.

(** *** The number conversions *)

Lemma digits_rev_short k f radix v :
  1 < radix -> 0 <= v < radix ^ Z.of_nat k -> (length (digits_rev f radix v) <= k)%nat.
Proof.
  intros Hr. revert f v. induction k as [|k IH]; intros f v Hv.
  - simpl in Hv. replace v with 0 by lia. by destruct f.
  - destruct f as [|f]; simpl; [lia|]. destruct (Z.eqb_spec v 0); simpl; [lia|].
    rewrite Nat2Z.inj_succ, Z.pow_succ_r in Hv by lia.
    specialize (IH f (v / radix)). apply le_n_S, IH. split; [apply Z.div_pos; lia|].
    apply Z.div_lt_upper_bound; lia.
Qed.

Lemma digits_short k radix v :
  1 < radix -> 0 <= v < radix ^ Z.of_nat k -> (0 < k)%nat ->
  (length (digits radix v) <= k)%nat.
Proof.
  intros Hr Hv Hk. unfold digits. destruct (v =? 0); [simpl; lia|].
  rewrite length_reverse. by apply digits_rev_short.
Qed.

Lemma digits_range radix v :
  2 <= radix <= 36 -> Forall (fun d => 0 <= d < 36) (digits radix v).
Proof.
  intros Hr. unfold digits. destruct (v =? 0); [repeat constructor; lia|].
  apply Forall_reverse. eapply Forall_impl; [|apply digits_rev_range; lia]. simpl. lia.
Qed.

Lemma cstr_meq (m m' : flat) p l : meq m m' -> cstr m' p l -> cstr m p l.
Proof.
  intros Heq [Hb Hz]. split; [|done]. intros i b Hi. rewrite (proj1 (Heq _)). by apply Hb.
Qed.

(** [itoa] in a local array: the digits, and everything before them as it was. *)
Lemma itoa_local (b : flat) v p radix :
  2 <= radix <= 36 -> 0 <= v < 4294967296 ->
  exists b', itoa b v p radix = Some b' /\ cstr b' p (map digit_char (digits radix v)) /\
    forall x, x < p -> ld b' x = ld b x.
Proof.
  intros Hr Hv.
  destruct (itoa_digits b v p radix Hr Hv (flat_inj_on _ _ _)) as (b' & Hb & Heq).
  exists b'. split; [done|]. split.
  - eapply cstr_meq; [exact Heq|]. apply digit_chars_cstr; [apply flat_inj_on|].
    by apply digits_range.
  - intros x Hx. rewrite (proj1 (Heq x)). apply store_bytes_outside. intros i Hi. unfold cell. simpl. lia.
Qed.

Lemma digits_length_small radix v :
  2 <= radix -> 0 <= v < 4294967296 -> Z.of_nat (length (map digit_char (digits radix v))) <= 32.
Proof.
  intros Hr Hv. rewrite length_map. pose proof (digits_short 32 radix v) as Hd.
  pose proof (pow_32 radix ltac:(lia)). lia.
Qed.

Lemma print_unsigned_text v s :
  0 <= v < 4294967296 ->
  print_unsigned v s = Some (putcs (map digit_char (digits 10 v)) s).
Proof.
  intros Hv. unfold print_unsigned.
  destruct (itoa_local ∅ v 0 10 ltac:(lia) Hv) as (b & -> & Hc & _). simpl.
  pose proof (digits_length_small 10 v ltac:(lia) Hv). apply puts_local_text; [done|lia].
Qed.

Lemma print_signed_text v s : print_signed v s = Some (putcs (signed_text v) s).
Proof.
  unfold print_signed, signed_text. pose proof (s32_range v) as Hv.
  destruct (Z.ltb_spec (s32 v) 0).
  - rewrite u32_small by lia.
    destruct (itoa_local (st (∅ : flat) 0 45) (- s32 v) 1 10 ltac:(lia) ltac:(lia))
      as (b & -> & [Hb Hz] & Hout). cbn [mbind option_bind].
    pose proof (digits_length_small 10 (- s32 v) ltac:(lia) ltac:(lia)).
    apply puts_local_text; [|simpl; lia]. split; [|by constructor].
    intros [|i] c Hi; simpl in Hi.
    + simplify_eq. by rewrite Hout by (simpl; lia).
    + rewrite <-(Hb i c Hi). f_equal. lia.
  - destruct (itoa_local ∅ (s32 v) 0 10 ltac:(lia) ltac:(lia)) as (b & -> & Hc & _). simpl.
    pose proof (digits_length_small 10 (s32 v) ltac:(lia) ltac:(lia)).
    apply puts_local_text; [done|lia].
Qed.

(** Filling from the number of digits up to 8 pads them to 8 characters. *)
Lemma pad_zeros (b : flat) (n : nat) l :
  (n <= 8)%nat -> cstr b 8 l ->
  cstr (for_range (Z.of_nat n) 8 (fun i b => st b i 48) b) (Z.of_nat n) (replicate (8 - n) 48 ++ l).
Proof.
  intros Hn [Hb Hz].
  pose proof (for_range_ind (fun k b' => (forall i, Z.of_nat n <= i < k -> ld b' i = 48) /\
    forall i, k <= i -> ld b' i = ld b i) (Z.of_nat n) 8 (fun i b => st b i 48) b) as Hind.
  destruct Hind as [Hlo Hhi]; [lia|by split; [intros; lia|]| |].
  - intros i b' Hi [Hlo Hhi]. split; intros j Hj.
    + destruct (decide (i = j)) as [->|]; [by rewrite ld_st_same|].
      rewrite ld_st_other by done. apply Hlo. lia.
    + rewrite ld_st_other by (unfold cell; simpl; lia). apply Hhi. lia.
  - split.
    + rewrite <-app_assoc. apply bytes_at_app. split.
      * intros i c [-> Hi]%lookup_replicate. apply Hlo. lia.
      * rewrite length_replicate. intros i c Hi.
        rewrite <-(Hb i c Hi). rewrite Hhi by lia. f_equal. lia.
    + apply Forall_app. split; [by apply Forall_replicate|done].
Qed.

Lemma print_hex_plain v s :
  0 <= v < 4294967296 -> print_hex false v s = Some (putcs (hex_text false v) s).
Proof.
  intros Hv. unfold print_hex, hex_text. cbn [negb].
  destruct (itoa_local ∅ v 0 16 ltac:(lia) Hv) as (b & Hi & Hc & _).
  rewrite (bind_some _ _ _ Hi).
  pose proof (digits_length_small 16 v ltac:(lia) Hv). apply puts_local_text; [done|lia].
Qed.

Lemma print_hex_padded v s :
  0 <= v < 4294967296 -> print_hex true v s = Some (putcs (hex_text true v) s).
Proof.
  intros Hv. unfold print_hex, hex_text. cbn [negb].
  destruct (itoa_local ∅ v 8 16 ltac:(lia) Hv) as (b & Hi & Hc & _).
  rewrite (bind_some _ _ _ Hi).
  assert (length (map digit_char (digits 16 v)) <= 8)%nat as Hlen.
  { rewrite length_map. apply digits_short; [lia|exact Hv|lia]. }
  set (l := map digit_char (digits 16 v)) in *.
  rewrite (bind_some _ _ _ (strlen_cstr b 8 l Hc ltac:(lia))).
  apply puts_local_text; [by apply pad_zeros|].
  rewrite length_app, length_replicate. lia.
Qed.

Lemma print_hex_text alternate v s :
  0 <= v < 4294967296 -> print_hex alternate v s = Some (putcs (hex_text alternate v) s).
Proof. destruct alternate; [apply print_hex_padded|apply print_hex_plain]. Qed.

(** *** [printf] *)

(** The strings that [%s] may be given: in memory that drawing does not change. *)
Definition strs_ok (str : Z -> option (list Z)) m : Prop :=
  forall p l, str p = Some l ->
    cstr m p l /\ steady m p (length l + 1) /\ Z.of_nat (length l) < 4294967295.

Lemma strs_ok_touches str m m' :
  strs_ok str m -> touches console_bytes m m' -> strs_ok str m'.
Proof.
  intros Hs Ht p l Hp. destruct (Hs p l Hp) as (Hc & Hst & Hlen).
  destruct (steady_cstr m m' p l Hc Hst Ht). done.
Qed.

Lemma skip_loop str m p fmt a args out :
  cstr m p fmt -> format_text str (Some a) fmt args = Some out ->
  exists a' j c fmt',
    loopn (S j) (fun '(alternate, buf) =>
      if ld m buf =? 35 then inl (true, buf + 1) else inr (alternate, buf)) (a, p)
    = inr (a', p + Z.of_nat j) /\
    drop j fmt = c :: fmt' /\ ld m (p + Z.of_nat j) = c /\ c <> 35 /\
    format_text str (Some a') (c :: fmt') args = Some out.
Proof.
  revert p a. induction fmt as [|c fmt IH]; intros p a Hc Hf; [done|].
  destruct (proj1 (cstr_cons m p c fmt) Hc) as (Hld & Hnz & Hc').
  destruct (decide (c = 35)) as [->|Hne].
  - cbn [format_text] in Hf. rewrite Z.eqb_refl in Hf.
    destruct (IH (p + 1) true Hc' Hf) as (a' & j & c & fmt' & Hl & Hd & Hldc & Hcne & Hf').
    exists a', (S j), c, fmt'. replace (p + Z.of_nat (S j)) with (p + 1 + Z.of_nat j) by lia.
    split_and!; try done. remember (S j) as n. cbn [loopn]. rewrite Hld. exact Hl.
  - exists a, O, c, fmt. rewrite Z.add_0_r. split_and!; try done. cbn [loopn].
    by rewrite Hld, (proj2 (Z.eqb_neq c 35)).
Qed.

Lemma skip_alternate_text str m p fmt args out :
  cstr m p fmt -> Z.of_nat (length fmt) < 4294967295 ->
  format_text str (Some false) fmt args = Some out ->
  exists a j c fmt', skip_alternate m p = Some (a, p + Z.of_nat j) /\
    drop j fmt = c :: fmt' /\ ld m (p + Z.of_nat j) = c /\ c <> 35 /\
    format_text str (Some a) (c :: fmt') args = Some out.
Proof.
  intros Hc Hlen Hf.
  destruct (skip_loop str m p fmt false args out Hc Hf) as (a & j & c & fmt' & Hl & Hd & Hr).
  exists a, j, c, fmt'. split; [|done]. unfold skip_alternate. eapply while_loopn; [exact Hl|].
  assert (j < length fmt)%nat; [|lia].
  destruct (decide (j < length fmt)%nat); [done|]. by rewrite drop_ge in Hd by lia.
Qed.

Lemma conversion_text str a c fmt args out s :
  con_ok s -> strs_ok str (mach s) -> text_ok out -> c <> 35 ->
  format_text str (Some a) (c :: fmt) args = Some out ->
  exists text args' out', conversion a c args s = Some (args', putcs text s) /\
    format_text str None fmt args' = Some out' /\ out = text ++ out'.
Proof.
  intros Hs Hstr Hok H35 Hf. cbn [format_text] in Hf. rewrite (proj2 (Z.eqb_neq c 35)) in Hf by done.
  unfold conversion.
  destruct (c =? 37).
  { apply fmap_Some in Hf as (out' & Ho & ->). by exists [37], args, out'. }
  destruct (c =? 120) eqn:Ex; [|destruct (c =? 117) eqn:Eu; [|destruct (c =? 100) eqn:Ed;
    [|destruct (c =? 99) eqn:Ec; [|destruct (c =? 115) eqn:Es]]]]; cbn [orb] in Hf;
    try (destruct args as [|v args]; [done|]; cbn [mbind option_bind] in Hf).
  - apply fmap_Some in Hf as (out' & Ho & ->).
    rewrite (bind_some _ _ _ (print_hex_text a (u32 v) s (u32_range v))). by do 3 eexists.
  - apply fmap_Some in Hf as (out' & Ho & ->).
    rewrite (bind_some _ _ _ (print_unsigned_text (u32 v) s (u32_range v))). by do 3 eexists.
  - apply fmap_Some in Hf as (out' & Ho & ->).
    rewrite (bind_some _ _ _ (print_signed_text v s)). by do 3 eexists.
  - apply fmap_Some in Hf as (out' & Ho & ->). by exists [u8 v], args, out'.
  - destruct (str (u32 v)) as [t|] eqn:Et; [|done]. cbn [mbind option_bind] in Hf.
    apply fmap_Some in Hf as (out' & Ho & ->). destruct (Hstr _ _ Et) as (Hc & Hst & Hlen).
    apply Forall_app in Hok as [Hokt _].
    rewrite (bind_some _ _ _ (puts_text _ _ s Hs Hc Hst Hokt Hlen)). by exists t, args, out'.
  - by exists [], args, out.
Qed.

(** The state of the loop of [printf] [k] characters into the format. *)
Definition printf_inv str (s0 : console) format fmt out : Z * list Z * console -> Prop :=
  fun '(buf, args, s) => exists k rest,
    (k <= length fmt)%nat /\ buf = format + Z.of_nat k /\ con_ok s /\
    touches console_bytes (mach s0) (mach s) /\
    format_text str None (drop k fmt) args = Some rest /\ text_ok rest /\
    putcs rest s = putcs out s0.

Definition printf_step format : Z * list Z * console ->
    (Z * list Z * console) + option (console * Z) :=
  fun '(buf, args, s) =>
    if ld (mach s) buf =? 0 then inr (Some (s, buf - format))
    else if ld (mach s) buf =? 37 then
      match skip_alternate (mach s) (buf + 1) with
      | None => inr None
      | Some (alternate, buf) =>
          match conversion alternate (ld (mach s) buf) args s with
          | None => inr None
          | Some (args, s) => inl (buf + 1, args, s)
          end
      end
    else inl (buf + 1, args, putc (ld (mach s) buf) s).

Lemma cstr_drop m p l k :
  (k <= length l)%nat -> cstr m p l -> cstr m (p + Z.of_nat k) (drop k l).
Proof.
  intros Hk [Hb Hz]. split; [|by apply Forall_drop].
  rewrite <-(take_drop k l), <-app_assoc in Hb. apply bytes_at_app in Hb as [_ Hb].
  by rewrite length_take, Nat.min_l in Hb.
Qed.

Lemma printf_step_ok str s0 format fmt out :
  cstr (mach s0) format fmt -> steady (mach s0) format (length fmt + 1) ->
  Z.of_nat (length fmt) < 4294967295 -> strs_ok str (mach s0) ->
  forall x, printf_inv str s0 format fmt out x ->
  match printf_step format x with
  | inl y => printf_inv str s0 format fmt out y /\
      0 <= format + Z.of_nat (length fmt) - y.1.1 < format + Z.of_nat (length fmt) - x.1.1
  | inr b => b = Some (putcs out s0, Z.of_nat (length fmt))
  end.
Proof.
  intros Hc Hst Hlen Hstr [[buf args] s] (k & rest & Hk & -> & Hok & Ht & Hf & Hrest & Heq).
  destruct (steady_cstr _ _ _ _ Hc Hst Ht) as [Hcs _]. apply (cstr_drop _ _ _ k Hk) in Hcs.
  cbn [printf_step fst]. assert (length (drop k fmt) = length fmt - k)%nat as Hdl by apply length_drop.
  assert (forall n, drop n (drop k fmt) = drop (k + n) fmt) as Hdd by (intros; apply drop_drop).
  destruct (drop k fmt) as [|c fmt'] eqn:Ed.
  - apply cstr_end in Hcs. rewrite Z.add_0_r in Hcs. rewrite Hcs. cbn [Z.eqb].
    simpl in Hf, Hdl. simplify_eq. rewrite <-Heq. do 2 f_equal. lia.
  - destruct (proj1 (cstr_cons _ _ _ _) Hcs) as (-> & Hnz & Hcs').
    simpl in Hdl. rewrite (proj2 (Z.eqb_neq c 0)) by done. cbn [format_text] in Hf.
    destruct (c =? 37) eqn:Ep.
    + destruct (skip_alternate_text _ _ _ _ _ _ Hcs' ltac:(lia) Hf)
        as (a & j & d & fmt2 & -> & Hd & -> & Hd35 & Hf2).
      destruct (conversion_text _ _ _ _ _ _ s Hok ltac:(by eapply strs_ok_touches) Hrest Hd35 Hf2)
        as (text & args' & out' & -> & Ho & ->).
      apply Forall_app in Hrest as [Htext Hrest]. destruct (putcs_ok text s Hok Htext) as [Hok' Ht'].
      assert (length (drop j fmt') = length fmt' - j)%nat as Hl2 by apply length_drop.
      rewrite Hd in Hl2. simpl in Hl2. cbn [fst]. split; [|lia].
      exists (k + (1 + (j + 1)))%nat, out'.
      split_and!; [lia|lia|done|by eapply touches_trans| |done|by rewrite <-putcs_app].
      rewrite <-Hdd. change (drop (1 + (j + 1)) (c :: fmt')) with (drop (j + 1) fmt').
      by rewrite <-drop_drop, Hd.
    + apply fmap_Some in Hf as (out' & Ho & ->). inversion Hrest as [|? ? [Hcr H8] Hrest']; subst.
      destruct (putc_ok s c Hok Hcr H8) as [Hok' Ht']. cbn [fst]. split; [|lia].
      exists (k + 1)%nat, out'.
      split_and!; [lia|lia|done|by eapply touches_trans|by rewrite <-Hdd|exact Hrest'|done].
Qed.

Lemma printf_text str format fmt args out s :
  con_ok s -> cstr (mach s) format fmt -> steady (mach s) format (length fmt + 1) ->
  Z.of_nat (length fmt) < 4294967295 -> strs_ok str (mach s) ->
  format_text str None fmt args = Some out -> text_ok out ->
  printf format args s = Some (putcs out s, Z.of_nat (length fmt)).
Proof.
  intros Hok Hc Hst Hlen Hstr Hf Ho.
  destruct (while_total (printf_step format) (printf_inv str s format fmt out)
    (fun x => format + Z.of_nat (length fmt) - x.1.1)
    (fun b => b = Some (putcs out s, Z.of_nat (length fmt))) (format, args, s))
    as (b & Hb & ->).
  - intros x Hx. apply (printf_step_ok str s format fmt out Hc Hst Hlen Hstr x Hx).
  - exists O, out. split_and!; [lia|lia|done|apply touches_refl|done|done|done].
  - simpl. lia.
  - unfold printf. change (while _ (format, args, s)) with (while (printf_step format) (format, args, s)).
    by rewrite (bind_some _ _ _ Hb).
Qed.

End printf_facts.

(** ** Clearing the screen *)

Section clear_facts.
Context {L : Layout} {LOK : LayoutOk}.

Lemma clear_facts s :
  kernel_mapped (mach s) ->
  cells (mach (clear s)) = replicate 2000 32 /\ touches video_bytes (mach s) (mach (clear s)) /\
  ram_only (mach s) (mach (clear s)).
Proof.
  intros Hm. unfold clear. cbn [mach set_mach]. change (NUM_ROWS * NUM_COLS) with 2000.
  match goal with |- context [for_range 0 2000 ?f ?m] =>
    pose proof (for_range_ind (fun k m' => touches video_bytes m m' /\ ram_only m m' /\
      forall j, 0 <= j < k -> ld m' (VIDEO + 2 * j) = 32) 0 2000 f m) as Hind;
    generalize dependent (for_range 0 2000 f m)
  end.
  intros m1 Hind. destruct Hind as (Ht & Hr & Hl).
  - done.
  - split; [apply touches_refl|]. split; [apply ram_only_refl|intros; lia].
  - intros i m' Hi (Ht & Hr & Hl). cbv zeta. unfold video_mem. rewrite Z.shiftl_mul_pow2 by lia.
    change (2 ^ 1) with 2. rewrite (Z.mul_comm i), <-Z.add_assoc.
    assert (kernel_mapped m') as Hm' by (by eapply touches_kernel_mapped). split_and!.
    + repeat (apply touches_st_video; [done| |lia]). done.
    + by do 2 apply ram_only_st.
    + intros j Hj. rewrite !ld_st_video by (rewrite ?kernel_mapped_st; done || lia).
      rewrite (proj2 (Z.eqb_neq (2 * i + 1) _)) by lia.
      destruct (Z.eqb_spec (2 * i) (2 * j)); [done|]. apply Hl. lia.
  - split; [|done]. apply cells_ext; [by rewrite length_replicate|].
    intros k Hk. rewrite lookup_replicate_2 by done. by rewrite Hl by lia.
Qed.

Lemma reset_screen_facts s :
  con_ok s ->
  screen (reset_screen s) = replicate 2000 32 /\ con_ok (reset_screen s) /\
  touches console_bytes (mach s) (mach (reset_screen s)) /\ line (reset_screen s) = line s /\
  trace (mach (reset_screen s)) = trace (mach s).
Proof.
  intros [Hm Hx Hy Hc Ht]. destruct (clear_facts s Hm) as (Hcl & Hto & Hr).
  destruct (ram_only_fields _ _ Hr) as (_ & Htr & _).
  assert (tbuf (reset_screen s) = tbuf s) as Etb by reflexivity.
  unfold screen, line. fold (cells (mach (reset_screen s))). rewrite Etb.
  assert (screen_x (reset_screen s) = 0 /\ screen_y (reset_screen s) = 0) as [Ex Ey] by (split; reflexivity).
  assert (mach (reset_screen s) = mach (clear s)) as Em by reflexivity.
  remember (reset_screen s) as s' eqn:E. clear E. rewrite Em.
  pose proof (touches_kernel_mapped _ _ _ Hto Hm) as Hm'.
  split_and!; [done| |by apply touches_video_console|apply line_video; [done|done|lia]|done].
  split; rewrite ?Em; [done|lia|lia|unfold cursor; lia|lia].
Qed.

End clear_facts.

(** ** The contract of [putc], [puts] and [printf] *)

Section contract.
Context {L : Layout} {LOK : LayoutOk}.

(** C25: a plain character goes into the cell under the cursor, the cursor moves
    on, the screen scrolls by a row exactly when the last cell is filled, the
    hardware cursor is sent the new position, and, when a read is waiting, the
    character is appended to its line; nothing but the video page and the line
    buffer is written, and the console stays well formed. *)
Theorem putc_print_correct s c :
  con_ok s -> plain c -> tbuf s < 128 ->
  let s' := putc c s in
  (screen s', cursor s') = tty_put c (screen s) (cursor s) /\
  line s' = (if truth (tflag s) then line s ++ [c] else line s) /\
  tflag s' = tflag s /\ con_ok s' /\ touches console_bytes (mach s) (mach s') /\
  trace (mach s') = trace (mach s) ++ cursor_regs (cursor s' / 256) (cursor s' mod 256).
Proof.
  intros Hok Hp Hlt. destruct (putc_plain_ok s c Hok Hp) as [Hok' _].
  pose proof Hok as [Hm Hx Hy Hc Ht]. unfold putc in *. rewrite u8_small in * by apply Hp.
  destruct (putc_rec_plain 1 c s Hm Hp) as (Hs & Hl & _ & Hf & _ & _ & Hto & Htr); try done; lia.
Qed.

(** C26: a newline or a carriage return ends the line being read, moves to the
    start of the next row and scrolls from the last one. *)
Theorem putc_newline_correct s c :
  con_ok s -> c = 10 \/ c = 13 ->
  let s' := putc c s in
  (screen s', cursor s') = tty_newline (screen s) (screen_y s) /\
  line s' = line s /\ tbuf s' = tbuf s /\ tflag s' = 0 /\ con_ok s' /\
  touches console_bytes (mach s) (mach s') /\
  trace (mach s') = trace (mach s) ++ cursor_regs (cursor s' / 256) (cursor s' mod 256).
Proof. apply putc_newline. Qed.

(** A backspace on an empty line does nothing; on a line with room it blanks
    the cell before the cursor, moves the cursor back onto it, across the start
    of a row as well, and drops the last character of the line being read. *)
Theorem putc_backspace_correct s :
  con_ok s ->
  let s' := putc 8 s in
  (tbuf s = 0 -> s' = s) /\
  (0 < tbuf s < 128 -> 1 <= cursor s -> -79 <= screen_x s ->
     screen s' = <[Z.to_nat (cursor s - 1) := 32]> (screen s) /\ cursor s' = cursor s - 1 /\
     line s' = (if truth (tflag s) then removelast (line s) else line s) /\
     tbuf s' = (if truth (tflag s) then tbuf s - 1 else tbuf s) /\ tflag s' = tflag s /\
     con_ok s' /\ touches console_bytes (mach s) (mach s')).
Proof.
  intros Hok. split.
  - exact (putc_rec_empty 1 s).
  - intros Ht Hc Hx. rewrite putc_backspace by lia. by apply erase_facts.
Qed.

(** C39: a full line of 128 characters drops every further plain character, and
    then a backspace, whose blank is dropped too, moves the cursor back by two
    cells, blanks none and removes two characters from the line. *)
Theorem putc_full_line s :
  con_ok s -> tbuf s = 128 -> 1 <= screen_x s ->
  (forall c, plain c -> putc c s = s) /\
  screen (putc 8 s) = screen s /\ cursor (putc 8 s) = cursor s - 2 /\
  tbuf (putc 8 s) = (if truth (tflag s) then 126 else 128).
Proof.
  intros Hok Ht Hx. split_and!.
  - intros c Hp. unfold putc. rewrite u8_small by apply Hp. by apply putc_rec_full.
  - rewrite putc_backspace by lia. unfold erase, step_back, unremember.
    assert (truth (screen_x s) = true) as -> by (unfold truth; by rewrite (proj2 (Z.eqb_neq _ _)) by lia).
    rewrite putc_rec_full by (done || by split_and!). simpl. rewrite Ht.
    unfold screen. by destruct (truth (tflag s)).
  - rewrite putc_backspace by lia. unfold erase, step_back, unremember, cursor.
    assert (truth (screen_x s) = true) as -> by (unfold truth; by rewrite (proj2 (Z.eqb_neq _ _)) by lia).
    rewrite putc_rec_full by (done || by split_and!). simpl. rewrite Ht.
    destruct (truth (tflag s)); simpl; lia.
  - rewrite putc_backspace by lia. unfold erase, step_back, unremember.
    assert (truth (screen_x s) = true) as -> by (unfold truth; by rewrite (proj2 (Z.eqb_neq _ _)) by lia).
    rewrite putc_rec_full by (done || by split_and!). simpl. rewrite Ht.
    by destruct (truth (tflag s)).
Qed.

(** C27: [printf] draws exactly the text its format stands for, with [%d], [%u],
    [%x], [%#x] (eight digits), [%c], [%s] and [%%] each on the next argument,
    terminates, and answers the length of the format; its strings only have to
    lie outside the bytes that drawing writes. *)
Theorem printf_correct str format fmt args out s :
  con_ok s -> cstr (mach s) format fmt -> steady (mach s) format (length fmt + 1) ->
  Z.of_nat (length fmt) < 4294967295 -> strs_ok str (mach s) ->
  format_text str None fmt args = Some out -> text_ok out ->
  printf format args s = Some (putcs out s, Z.of_nat (length fmt)).
Proof. apply printf_text. Qed.

(** [reset_screen] blanks every cell and puts the cursor at the top left
    corner, but keeps the line being typed and does not move the hardware cursor. *)
Theorem reset_screen_correct s :
  con_ok s ->
  let s' := reset_screen s in
  screen s' = replicate 2000 32 /\ cursor s' = 0 /\ line s' = line s /\
  tbuf s' = tbuf s /\ trace (mach s') = trace (mach s) /\ con_ok s'.
Proof.
  intros Hok. destruct (reset_screen_facts s Hok) as (Hs & Hok' & _ & Hl & Htr).
  by split_and!.
Qed.

End contract.

(** ** Examples *)

#[local] Existing Instance demo_layout.
#[local] Existing Instance demo_layout_ok.

(** The console of a machine that has just turned paging on. *)
Definition boot_console : console := Console (initPaging blank_machine) 0 0 0 0.

Lemma home_ok m : kernel_mapped m -> con_ok (Console m 0 0 0 0).
Proof. by split. Qed.

Lemma boot_console_ok : con_ok boot_console.
Proof. apply home_ok, initPaging_kernel_mapped. Qed.

Lemma putc_print_correct_witness :
  con_ok boot_console /\ screen (putc 65 boot_console) !! 0%nat = Some 65.
Proof.
  split; [exact boot_console_ok|].
  destruct (putc_print_correct boot_console 65) as (Hs & _); [exact boot_console_ok|by split_and!|done|].
  apply pair_equal_spec in Hs as [Hs _]. rewrite Hs. change (Z.to_nat (cursor boot_console)) with 0%nat.
  apply list_lookup_insert_eq. unfold screen. rewrite length_map, length_seqZ. lia.
Defined.

Lemma putc_newline_correct_witness : cursor (putc 10 boot_console) = 80.
Proof.
  destruct (putc_newline_correct boot_console 10) as (Hs & _); [exact boot_console_ok|by left|].
  apply pair_equal_spec in Hs as [_ Hs]. exact Hs.
Defined.

(** A console with the cursor at [(x, y)] and a line of [n] characters being read. *)
Definition typing_console (x y n : Z) : console := Console (initPaging blank_machine) x y n 1.

Lemma typing_console_ok x y n :
  -80 <= x < 80 -> 0 <= y < 25 -> 0 <= 80 * y + x -> 0 <= n <= 128 -> con_ok (typing_console x y n).
Proof. split; [apply initPaging_kernel_mapped|done..]. Qed.

Lemma putc_backspace_correct_witness :
  cursor (putc 8 (typing_console 0 3 9)) = 239 /\ tbuf (putc 8 (typing_console 0 3 9)) = 8.
Proof.
  destruct (putc_backspace_correct (typing_console 0 3 9)) as [_ H];
    [apply typing_console_ok; lia|].
  destruct H as (_ & Hc & _ & Hb & _); [simpl; lia|unfold cursor; simpl; lia|simpl; lia|].
  split; [exact Hc|exact Hb].
Defined.

Lemma putc_full_line_witness : tbuf (putc 8 (typing_console 5 3 128)) = 126.
Proof.
  destruct (putc_full_line (typing_console 5 3 128)) as (_ & _ & _ & H);
    [apply typing_console_ok; lia|done|simpl; lia|exact H].
Defined.

Definition count_format : list Z := chars "%d of %#x"%string ++ [10].

Definition format_console : console :=
  Console (store_bytes (initPaging blank_machine) 0x440000 (count_format ++ [0])) 0 0 0 0.

Lemma format_console_mapped : kernel_mapped (mach format_console).
Proof.
  unfold format_console. cbn [mach].
  destruct (store_bytes_machine (initPaging blank_machine) 0x440000 (count_format ++ [0])) as [v ->].
  apply kernel_mapped_set_ram, initPaging_kernel_mapped.
Qed.

Lemma steady_kernel m p n :
  kernel_mapped m -> KERNEL <= p -> p + Z.of_nat n <= 2 * KERNEL ->
  tbuffer_at + 128 <= p \/ p + Z.of_nat n <= tbuffer_at -> steady m p n.
Proof.
  intros Hm Hp Hn Ht i Hi Hc. rewrite cell_kernel in Hc by (done || lia).
  unfold console_bytes, VIDEO, KERNEL in *. lia.
Qed.

Lemma printf_correct_witness :
  printf 0x440000 [-7; 48879] format_console
  = Some (putcs (chars "-7 of 0000BEEF"%string ++ [10]) format_console, 10).
Proof.
  pose proof format_console_mapped as Hm.
  apply (printf_correct (fun _ => None) 0x440000 count_format [-7; 48879]).
  - apply home_ok, Hm.
  - apply cstr_store; [|apply (bool_decide_unpack _); vm_compute; exact I].
    apply kernel_inj_on; [apply initPaging_kernel_mapped|unfold KERNEL; lia|unfold KERNEL; simpl; lia].
  - apply steady_kernel; [exact Hm|unfold KERNEL; lia|unfold KERNEL; simpl; lia|left; simpl; lia].
  - simpl. lia.
  - intros p l Hp. discriminate Hp.
  - vm_compute. reflexivity.
  - apply (bool_decide_unpack _). vm_compute. exact I.
Defined.

Lemma reset_screen_correct_witness : screen (reset_screen boot_console) = replicate 2000 32.
Proof. apply (reset_screen_correct boot_console boot_console_ok). Defined.
