(* ===== verification/Screen.v ===== *)
(** * Text on an abstract screen

    [tty_print] is the reference for what characters do to a terminal: a list of
    2000 cells and a position, where a character is put and a newline or carriage
    return goes to the next row.  A [putc] of anything but a backspace refines its
    step, whether a line is being read or not. *)
From Stdlib Require Import ZArith Lia.
From stdpp Require Import base list gmap numbers.
From S2P Require Import Prelude ByteMem LibString Machine Console.

Definition tty_char (t : list Z * Z) (c : Z) : list Z * Z :=
  if (c =? 10) || (c =? 13) then tty_newline (fst t) (snd t / 80) else tty_put c (fst t) (snd t).

Definition tty_print (l : list Z) (t : list Z * Z) : list Z * Z := fold_left tty_char l t.

(** The characters of a text: all but the backspace. *)
Definition printable (c : Z) : Prop := 0 <= c < 256 /\ c <> 8.

#[export] Instance printable_dec c : Decision (printable c).
Proof. unfold printable. apply _. Defined.

Lemma tty_print_app l l' t : tty_print (l ++ l') t = tty_print l' (tty_print l t).
Proof. unfold tty_print. apply fold_left_app. Qed.

Lemma tty_print_concat ls t : tty_print (concat ls) t = fold_left (fun t l => tty_print l t) ls t.
Proof. revert t. induction ls as [|l ls IH]; intros t; [done|]. cbn [concat fold_left]. by rewrite tty_print_app, IH. Qed.

Section screen.
Context {L : Layout} {LOK : LayoutOk}.
Implicit Types (m : machine) (s : console).

Definition on_screen s : list Z * Z := (Console.screen s, cursor s).

(** The cursor is inside its row: no backspace has taken it past the left edge. *)
Record inside s : Prop := {
  in_mapped : kernel_mapped (mach s);
  in_x : 0 <= screen_x s < 80;
  in_y : 0 <= screen_y s < 25;
}.

(** A console that no program is reading from, with room in its line. *)
Record at_ease s : Prop := {
  ease_inside : inside s;
  ease_tbuf : 0 <= tbuf s < 128;
  ease_tflag : tflag s = 0;
}.

Lemma inside_ok s : inside s -> 0 <= tbuf s <= 128 -> con_ok s.
Proof. intros [Hm Hx Hy] Ht. split; [done|lia|lia|unfold cursor; lia|lia]. Qed.

Lemma screen_same m' s :
  (forall a, VIDEO <= a < VIDEO + 4000 -> ld m' a = ld (mach s) a) ->
  Console.screen (set_mach s m') = Console.screen s.
Proof.
  intros Hl. unfold Console.screen. apply map_ext_in. intros x Hx%list_elem_of_In%elem_of_seqZ.
  cbn [mach set_mach]. apply Hl. lia.
Qed.

Lemma advance_x s :
  kernel_mapped (mach s) -> 0 <= screen_y s < 25 -> 0 <= screen_x s <= 80 -> 0 <= screen_x (advance s) < 80.
Proof.
  intros Hm Hy Hx. unfold advance, NUM_COLS. destruct (Z.leb_spec 80 (screen_x s)); [|lia].
  destruct (scroll_if_needed_facts (set_x (set_y s (screen_y s + 1)) 0)) as (m' & y' & -> & _);
    [done|simpl; lia|]. cbn [screen_x set_x]. lia.
Qed.

Lemma remember_char_x c s : screen_x (remember_char c s) = screen_x s.
Proof. unfold remember_char. destruct (truth _); [|done]. by destruct (_ <? _). Qed.

Lemma putc_x s c :
  inside s -> 0 <= tbuf s < 128 -> plain c -> 0 <= screen_x (putc_rec 2 c s).
Proof.
  intros [Hm Hx Hy] Ht Hp. rewrite putc_plain by (assumption || lia).
  rewrite remember_char_x. change (screen_x (wrap ?x)) with (Z.rem (screen_x x) NUM_COLS).
  assert (0 <= cursor s < 2000) as Hcur by (unfold cursor; lia).
  destruct (draw_facts c s Hm (proj1 Hp) Hcur) as (_ & _ & Dt & _).
  pose proof (advance_x (draw c s)) as Hax.
  change (screen_x (show_cursor ?x)) with (screen_x x). apply Z.rem_nonneg; [done|].
  apply Hax; [by eapply touches_kernel_mapped|done|]. change (screen_x (draw c s)) with (screen_x s + 1). lia.
Qed.

Lemma row_of_cursor s : 0 <= screen_x s < 80 -> cursor s / 80 = screen_y s.
Proof. intros Hx. unfold cursor. dlia. Qed.

Lemma newline_x s c :
  kernel_mapped (mach s) -> 0 <= screen_y s < 25 -> c = 10 \/ c = 13 -> screen_x (putc c s) = 0.
Proof.
  intros Hm Hy Hc. set (s0 := set_x (set_y (set_tflag s 0) (screen_y s + 1)) 0).
  assert (putc c s = show_cursor (scroll_if_needed s0)) as -> by (destruct Hc as [->| ->]; exact eq_refl).
  change (screen_x (show_cursor ?x)) with (screen_x x).
  by destruct (scroll_if_needed_facts s0) as (m' & y' & -> & _); [done|simpl; lia|].
Qed.

(** One character. *)
Lemma putc_tty s c :
  inside s -> 0 <= tbuf s < 128 -> printable c ->
  inside (putc c s) /\ on_screen (putc c s) = tty_char (on_screen s) c /\
  touches console_bytes (mach s) (mach (putc c s)) /\
  (tflag s = 0 -> tbuf (putc c s) = tbuf s /\ tflag (putc c s) = 0).
Proof.
  intros He Ht [Hc H8]. pose proof (inside_ok s He ltac:(lia)) as Hok. pose proof He as [Hm Hx Hy].
  unfold tty_char, on_screen at 2 3 4 5. cbn [fst snd]. rewrite row_of_cursor by done.
  destruct ((c =? 10) || (c =? 13)) eqn:E.
  - assert (c = 10 \/ c = 13) as Hcr by lia.
    destruct (putc_newline s c Hok Hcr) as (Hs & _ & Hb & Hfl & [Km Kx Ky Kc Kt] & Hto & _).
    split; [|split; [exact Hs|split; [exact Hto|done]]].
    pose proof (newline_x s c Hm Hy Hcr) as E0. split; [exact Km|rewrite E0; lia|exact Ky].
  - assert (plain c) as Hp by (unfold plain; lia).
    pose proof (putc_x s c He Ht Hp) as Hx0. unfold putc. rewrite u8_small by lia.
    destruct (putc_rec_plain 1 c s Hm Hp) as (Hs & _ & Hb & Hfl & Hx' & Hy' & Hto & _);
      [lia|lia|lia|unfold cursor; lia|].
    split; [|split; [exact Hs|split; [exact Hto|]]].
    + split; [by eapply touches_kernel_mapped|lia|exact Hy'].
    + intros Hf. rewrite Hf in Hb, Hfl. by split.
Qed.

Lemma putc_ease s c :
  at_ease s -> printable c ->
  at_ease (putc c s) /\ on_screen (putc c s) = tty_char (on_screen s) c /\
  touches console_bytes (mach s) (mach (putc c s)).
Proof.
  intros [Hi Ht Hf] Hp. destruct (putc_tty s c Hi Ht Hp) as (K1 & K2 & K3 & K4).
  destruct (K4 Hf) as [Kb Kf]. split; [|by split]. split; [done|by rewrite Kb|done].
Qed.

(** A loop of [putc] over bytes that drawing does not change. *)
Lemma print_loop s buf l :
  at_ease s -> bytes_at (mach s) buf l -> steady (mach s) buf (length l) -> Forall printable l ->
  let s' := for_range 0 (Z.of_nat (length l)) (fun i s => putc (ld (mach s) (buf + i)) s) s in
  at_ease s' /\ on_screen s' = tty_print l (on_screen s) /\ touches console_bytes (mach s) (mach s').
Proof.
  intros He Hb Hst Hp.
  pose proof (for_range_ind (fun i s' => at_ease s' /\
      on_screen s' = tty_print (take (Z.to_nat i) l) (on_screen s) /\ touches console_bytes (mach s) (mach s'))
    0 (Z.of_nat (length l)) (fun i s => putc (ld (mach s) (buf + i)) s) s) as Hind.
  cbv beta in Hind. rewrite Nat2Z.id, firstn_all in Hind. apply Hind; clear Hind; [lia| |].
  - split; [exact He|split; [done|apply touches_refl]].
  - intros i s' Hi (He' & Hs & Ht).
    destruct (lookup_lt_is_Some_2 l (Z.to_nat i)) as [c Hc]; [lia|].
    assert (ld (mach s') (buf + i) = c) as ->.
    { destruct Ht as [_ Ht]. rewrite Ht by (apply Hst; lia).
      replace i with (Z.of_nat (Z.to_nat i)) by lia. by apply Hb. }
    destruct (putc_ease s' c He' (Forall_lookup_1 _ _ _ _ Hp Hc)) as (K1 & K2 & K3).
    split; [exact K1|split; [|eapply touches_trans; [exact Ht|exact K3]]].
    rewrite K2, Hs. replace (Z.to_nat (i + 1)) with (S (Z.to_nat i)) by lia.
    unfold tty_print. by rewrite (take_S_r _ _ _ Hc), fold_left_app.
Qed.

End screen.
