(* ===== verification/Filesystem.v ===== *)
(** * The read-only file system: student-distrib/filesystem.c

    The image is the boot module at [FSYSTEM]: one 4096-byte boot block (the
    counters, then 63 directory entries of 64 bytes), then one block per inode
    (a length and the numbers of its data blocks), then the data blocks.  The
    structures boot_t, d2entry_t, inode_t and block_t of filesystem.h are the
    offsets below.  The two routines that read through a file descriptor,
    [file_read] and [directory_read], are in FileTable.v with the table. *)
From Stdlib Require Import ZArith Lia String.
From stdpp Require Import base list gmap numbers.
From S2P Require Import Prelude ByteMem LibString.

(** dentry_t: [name] is a pointer into the image. *)
Record dentry_t := Dentry {
  name : Z;
  ftype : Z;
  inode : Z;
}.

Definition sizeof_boot_t : Z := 4096.
Definition sizeof_inode_t : Z := 4096.
Definition sizeof_block_t : Z := 4096.

Section filesystem.
Context {M : Type} `{ByteMem M} (FSYSTEM : Z).

(** bb->inodes *)
Definition boot_inodes (m : M) : Z := ld32 m (FSYSTEM + 4).

(** file.inodes[inode] and file.blocks *)
Definition inode_at (inode : Z) : Z := FSYSTEM + sizeof_boot_t + sizeof_inode_t * inode.
Definition blocks_at (m : M) : Z := inode_at (boot_inodes m).

(** [dir + 64*i] *)
Definition dentry_at (i : Z) : Z := FSYSTEM + 64 + 64 * i.

(** What the two lookups store in the caller's dentry: one byte for the type and
    one byte for the inode number, though both fields have four. *)
Definition fill_dentry (m : M) (curDir : Z) : dentry_t :=
  Dentry curDir (ld m (curDir + 32)) (ld m (curDir + 36)).

(** [for (i = 0; i < entry_no; i++) if (test) { flag = 1; ...; break; }], with
    [k] turns left. *)
Fixpoint find_dentry (k : nat) (i : Z) (test : Z -> bool) : option Z :=
  match k with
  | O => None
  | S k' => if test i then Some i else find_dentry k' (i + 1) test
  end.

(** The copy of the name in the local array [tname] is not read again: only its
    effect on the memory, none, is kept. *)
Definition read_dentry_by_name (fname : Z) (dentry : dentry_t) (m : M) : Z * dentry_t :=
  if fname =? 0 then (-1, dentry)
  else
    let entry_no := s32 (ld32 m FSYSTEM) in
    match find_dentry (Z.to_nat entry_no) 0 (fun i => strncmp m (dentry_at i) fname 32 =? 0) with
    | Some i => (0, fill_dentry m (dentry_at i))
    | None => (-1, dentry)
    end.

(** The bound is compared as unsigned. *)
Definition read_dentry_by_index (index : Z) (dentry : dentry_t) (m : M) : Z * dentry_t :=
  let entry_no := s32 (ld32 m FSYSTEM) in
  if u32 entry_no <? index then (-1, dentry)
  else
    match find_dentry (Z.to_nat entry_no) 0 (fun i => index =? u32 i) with
    | Some i => (0, fill_dentry m (dentry_at i))
    | None => (-1, dentry)
    end.

(** The byte at [offset] of a file, through the block list of its inode and the
    data blocks at [blocks]. *)
Definition block_byte (m : M) (blocks inode offset : Z) : Z :=
  let blockoff := offset / sizeof_block_t in
  let dataoff := offset mod sizeof_block_t in
  ld m (blocks + sizeof_block_t * ld32 m (inode_at inode + 4 + 4 * blockoff) + dataoff).

(** The copying loop, with [k] turns left: every turn reads the block list again,
    and the address of the blocks is the one taken before the loop. *)
Fixpoint read_bytes (k : nat) (blocks inode offset buf : Z) (m : M) : M :=
  match k with
  | O => m
  | S k' => read_bytes k' blocks inode (offset + 1) (buf + 1) (st m buf (block_byte m blocks inode offset))
  end.

Definition read_data (inode offset buf length : Z) (m : M) : Z * M :=
  if (boot_inodes m <? inode) || (buf =? 0) then (-1, m)
  else if ld32 m (inode_at inode) <=? offset then (0, m)
  else
    let bytesread :=
      if u32 (ld32 m (inode_at inode) - offset) <? length
      then u32 (ld32 m (inode_at inode) - offset) else length in
    (s32 bytesread, read_bytes (Z.to_nat bytesread) (blocks_at m) inode offset buf m).

(** file_open, file_close and file_write do nothing. *)
Definition file_write (fdr buf n : Z) : Z := 0.
Definition file_open (filename : Z) : Z := 0.
Definition file_close (fdr : Z) : Z := 0.

(** ** The image, abstractly *)

(** The contents of the file of an inode. *)
Definition file_byte (m : M) (inode offset : Z) : Z := block_byte m (blocks_at m) inode offset.
Definition file_size (m : M) (inode : Z) : Z := ld32 m (inode_at inode).
Definition file_content (m : M) (inode : Z) : list Z :=
  map (file_byte m inode) (seqZ 0 (file_size m inode)).

(** The name of directory entry [i]: at most 32 characters, NUL-padded. *)
Definition dentry_name (m : M) (i : Z) : list Z := cprefix (load_bytes m (dentry_at i) 32).

Definition num_dentries (m : M) : Z := s32 (ld32 m FSYSTEM).

(** [size] bytes from [FSYSTEM] hold the image: the boot block, the inodes, and
    every block a file byte is read from. *)
Record image_within (m : M) (size : Z) : Prop := {
  iw_dentries : 0 <= num_dentries m <= 63;
  iw_inodes : sizeof_boot_t + sizeof_inode_t * boot_inodes m <= size;
  iw_blocks : forall inode k, 0 <= inode < boot_inodes m -> 0 <= k < file_size m inode ->
    k / 4096 < 1023 /\
    blocks_at m + 4096 * ld32 m (inode_at inode + 4 + 4 * (k / 4096)) + 4096 <= FSYSTEM + size;
}.

(** A write that stays away from the image. *)
Definition off_image (m : M) (size a n : Z) : Prop := apart m a n FSYSTEM size.

End filesystem.

Section facts.
Context {M : Type} `{ByteMemOk M} (FSYSTEM : Z).
Implicit Type m : M.

(** *** The directory *)

Lemma find_dentry_spec k i test :
  match find_dentry k i test with
  | Some j => i <= j < i + Z.of_nat k /\ test j = true /\ forall x, i <= x < j -> test x = false
  | None => forall x, i <= x < i + Z.of_nat k -> test x = false
  end.
Proof.
  revert i. induction k as [|k IH]; intros i; simpl; [lia|].
  destruct (test i) eqn:Et; [split_and!; [lia|lia|done|lia]|].
  specialize (IH (i + 1)). destruct (find_dentry k (i + 1) test) as [j|].
  - destruct IH as (Hj & Htj & Hlt). split_and!; [lia|lia|done|]. intros x Hx.
    destruct (decide (x = i)) as [->|]; [done|]. apply Hlt. lia.
  - intros x Hx. destruct (decide (x = i)) as [->|]; [done|]. apply IH. lia.
Qed.

Lemma dentry_matches m i fname l :
  cstr m fname l ->
  strncmp m (dentry_at FSYSTEM i) fname 32 = 0 <-> dentry_name FSYSTEM m i = take 32 l.
Proof. intros Hl. rewrite strncmp_zero. by rewrite (cstr_cprefix m fname l). Qed.

(** What a lookup by name answers: the first entry with that name. *)
Definition found (m : M) (nm : list Z) (d d' : dentry_t) (r : Z) : Prop :=
  (r = 0 /\ exists i, 0 <= i < num_dentries FSYSTEM m /\ dentry_name FSYSTEM m i = nm /\
     (forall j, 0 <= j < i -> dentry_name FSYSTEM m j <> nm) /\
     d' = fill_dentry m (dentry_at FSYSTEM i)) \/
  (r = -1 /\ d' = d /\ forall i, 0 <= i < num_dentries FSYSTEM m -> dentry_name FSYSTEM m i <> nm).

(** There is one answer. *)
Lemma found_unique m nm d d1 d2 r1 r2 :
  found m nm d d1 r1 -> found m nm d d2 r2 -> r1 = r2 /\ d1 = d2.
Proof.
  intros [(-> & i & Hi & Hn & Hlt & ->)|(-> & -> & Hno)]
    [(-> & j & Hj & Hnj & Hltj & ->)|(-> & -> & Hno2)].
  - split; [reflexivity|].
    destruct (Z.lt_trichotomy i j) as [H'|[H'|H']].
    + exfalso. refine (Hltj i _ Hn). lia.
    + by rewrite H'.
    + exfalso. refine (Hlt j _ Hnj). lia.
  - exfalso. exact (Hno2 i Hi Hn).
  - exfalso. exact (Hno j Hj Hnj).
  - by split.
Qed.

Lemma read_dentry_by_name_found m fname l d :
  cstr m fname l -> fname <> 0 ->
  let '(r, d') := read_dentry_by_name FSYSTEM fname d m in found m (take 32 l) d d' r.
Proof.
  intros Hl Hf. unfold read_dentry_by_name. rewrite (proj2 (Z.eqb_neq fname 0)) by done.
  change (s32 (ld32 m FSYSTEM)) with (num_dentries FSYSTEM m).
  set (test := fun i => strncmp m (dentry_at FSYSTEM i) fname 32 =? 0).
  assert (forall i, test i = true <-> dentry_name FSYSTEM m i = take 32 l) as Htest.
  { intros i. unfold test. rewrite Z.eqb_eq. by apply dentry_matches. }
  pose proof (find_dentry_spec (Z.to_nat (num_dentries FSYSTEM m)) 0 test) as Hs.
  destruct (find_dentry _ 0 test) as [i|].
  - left. destruct Hs as (Hi & Ht & Hlt). split; [done|]. exists i.
    split_and!; [lia|lia|by apply Htest| |done].
    intros j Hj Hn. apply Htest in Hn. rewrite Hlt in Hn; [done|lia].
  - right. split_and!; [done..|]. intros i Hi Hn. apply Htest in Hn.
    rewrite Hs in Hn; [done|lia].
Qed.

Lemma read_dentry_by_index_entry m index d :
  0 <= num_dentries FSYSTEM m -> 0 <= index < 4294967296 ->
  read_dentry_by_index FSYSTEM index d m
  = if index <? num_dentries FSYSTEM m then (0, fill_dentry m (dentry_at FSYSTEM index))
    else (-1, d).
Proof.
  intros Hn Hi. unfold read_dentry_by_index. change (s32 (ld32 m FSYSTEM)) with (num_dentries FSYSTEM m).
  pose proof (s32_range (ld32 m FSYSTEM)) as Hr. change (s32 (ld32 m FSYSTEM)) with (num_dentries FSYSTEM m) in Hr.
  rewrite u32_small by lia.
  destruct (Z.ltb_spec (num_dentries FSYSTEM m) index);
    [by rewrite (proj2 (Z.ltb_ge index _)) by lia|].
  set (test := fun i => index =? u32 i).
  pose proof (find_dentry_spec (Z.to_nat (num_dentries FSYSTEM m)) 0 test) as Hs.
  destruct (find_dentry _ 0 test) as [i|].
  - destruct Hs as (Hi' & Ht & _). unfold test in Ht. rewrite u32_small in Ht by lia.
    apply Z.eqb_eq in Ht. subst i. by rewrite (proj2 (Z.ltb_lt index _)) by lia.
  - destruct (Z.ltb_spec index (num_dentries FSYSTEM m)); [|done].
    specialize (Hs index ltac:(lia)). unfold test in Hs.
    rewrite u32_small, Z.eqb_refl in Hs by lia. done.
Qed.

(** *** File data *)

(** The image holds the same bytes in both memories. *)
Definition image_same m m' size : Prop :=
  forall a, FSYSTEM <= a < FSYSTEM + size -> ld m' a = ld m a.

Lemma image_same_ld32 m m' size a :
  image_same m m' size -> FSYSTEM <= a -> a + 4 <= FSYSTEM + size -> ld32 m' a = ld32 m a.
Proof. intros Hs Ha Hb. apply ld32_ext. intros i Hi. apply Hs. lia. Qed.

Lemma image_same_inodes m m' size :
  image_same m m' size -> sizeof_boot_t <= size -> boot_inodes FSYSTEM m' = boot_inodes FSYSTEM m.
Proof. unfold sizeof_boot_t. intros Hs Hz. apply (image_same_ld32 m m' size); [done|lia..]. Qed.

Lemma boot_inodes_range m : 0 <= boot_inodes FSYSTEM m < 4294967296.
Proof. apply ld32_range. Qed.

Section image.
Context m (size : Z) (Hiw : image_within FSYSTEM m size).

Lemma image_same_size m' ino :
  image_same m m' size -> 0 <= ino < boot_inodes FSYSTEM m ->
  file_size FSYSTEM m' ino = file_size FSYSTEM m ino.
Proof using H0 Hiw.
  intros Hs Hi. pose proof (iw_inodes _ _ _ Hiw) as Hz.
  unfold sizeof_boot_t, sizeof_inode_t in *.
  apply (image_same_ld32 m m' size); unfold inode_at, sizeof_boot_t, sizeof_inode_t; [done|lia..].
Qed.

Lemma image_same_byte m' ino k :
  image_same m m' size -> 0 <= ino < boot_inodes FSYSTEM m -> 0 <= k < file_size FSYSTEM m ino ->
  file_byte FSYSTEM m' ino k = file_byte FSYSTEM m ino k.
Proof using H0 Hiw.
  intros Hs Hi Hk. pose proof (iw_inodes _ _ _ Hiw) as Hz.
  destruct (iw_blocks _ _ _ Hiw ino k Hi Hk) as [Hq Hb].
  pose proof (boot_inodes_range m).
  unfold file_byte, block_byte, blocks_at, sizeof_block_t in *.
  unfold sizeof_boot_t, sizeof_inode_t in Hz.
  rewrite (image_same_inodes m m' size) by (done || unfold sizeof_boot_t; lia).
  assert (ld32 m' (inode_at FSYSTEM ino + 4 + 4 * (k / 4096))
          = ld32 m (inode_at FSYSTEM ino + 4 + 4 * (k / 4096))) as ->.
  { apply (image_same_ld32 m m' size); unfold inode_at, sizeof_boot_t, sizeof_inode_t; [done|dlia..]. }
  pose proof (ld32_range m (inode_at FSYSTEM ino + 4 + 4 * (k / 4096))).
  apply Hs. unfold inode_at, sizeof_boot_t, sizeof_inode_t in *. dlia.
Qed.

Lemma image_same_within m' : image_same m m' size -> image_within FSYSTEM m' size.
Proof using H0 Hiw.
  intros Hs. pose proof Hiw as [Hd Hz Hb]. pose proof (boot_inodes_range m).
  assert (boot_inodes FSYSTEM m' = boot_inodes FSYSTEM m) as Hbi.
  { apply (image_same_inodes m m' size); [done|]. unfold sizeof_boot_t, sizeof_inode_t in *. lia. }
  split.
  - unfold num_dentries in *. rewrite (image_same_ld32 m m' size); [done|done|lia|].
    unfold sizeof_boot_t, sizeof_inode_t in *. lia.
  - by rewrite Hbi.
  - intros ino k Hi Hk. rewrite Hbi in Hi. rewrite image_same_size in Hk by done.
    unfold blocks_at. rewrite Hbi. destruct (Hb ino k Hi Hk) as [Hq Hb'].
    rewrite (image_same_ld32 m m' size); [done|done|..];
      unfold inode_at, sizeof_boot_t, sizeof_inode_t in *; dlia.
Qed.

Lemma image_same_content m' ino :
  image_same m m' size -> 0 <= ino < boot_inodes FSYSTEM m ->
  file_content FSYSTEM m' ino = file_content FSYSTEM m ino.
Proof using H0 Hiw.
  intros Hs Hi. unfold file_content. rewrite image_same_size by done.
  apply map_ext_in. intros x Hx%list_elem_of_In%elem_of_seqZ.
  apply image_same_byte; [done|done|lia].
Qed.

(** The directory is read from the boot block. *)
Lemma image_size_boot : sizeof_boot_t <= size.
Proof using H0 Hiw.
  pose proof (iw_inodes _ _ _ Hiw). pose proof (boot_inodes_range m).
  unfold sizeof_boot_t, sizeof_inode_t in *. lia.
Qed.

Lemma image_same_dentries m' :
  image_same m m' size -> num_dentries FSYSTEM m' = num_dentries FSYSTEM m.
Proof using H0 Hiw.
  intros Hs. pose proof image_size_boot as Hz. unfold sizeof_boot_t in Hz.
  unfold num_dentries. rewrite (image_same_ld32 m m' size) by (done || lia). done.
Qed.

Lemma image_same_dentry m' i :
  image_same m m' size -> 0 <= i < 63 ->
  dentry_name FSYSTEM m' i = dentry_name FSYSTEM m i /\
  fill_dentry m' (dentry_at FSYSTEM i) = fill_dentry m (dentry_at FSYSTEM i).
Proof using H0 Hiw.
  intros Hs Hi. pose proof image_size_boot as Hz. unfold sizeof_boot_t in Hz.
  unfold dentry_name, fill_dentry, dentry_at. split.
  - rewrite (load_bytes_ext m' m _ (FSYSTEM + 64 + 64 * i)); [done|]. intros j Hj. apply Hs. lia.
  - by rewrite !Hs by lia.
Qed.

Lemma image_same_found m' nm d d' r :
  image_same m m' size -> found m nm d d' r -> found m' nm d d' r.
Proof using H0 Hiw.
  intros Hs Hf. pose proof (iw_dentries _ _ _ Hiw) as Hn.
  unfold found. rewrite image_same_dentries by done.
  destruct Hf as [(-> & i & Hi & Hnm & Hlt & ->)|(-> & -> & Hno)].
  - left. split; [done|]. exists i. destruct (image_same_dentry m' i Hs) as [En Ed]; [lia|].
    rewrite En, Ed. split_and!; [lia|lia|done| |done]. intros j Hj.
    destruct (image_same_dentry m' j Hs) as [-> _]; [lia|by apply Hlt].
  - right. split_and!; [done..|]. intros i Hi.
    destruct (image_same_dentry m' i Hs) as [-> _]; [lia|by apply Hno].
Qed.

End image.

Lemma image_same_refl m size : image_same m m size.
Proof. by intros a Ha. Qed.

Lemma image_same_trans m1 m2 m3 size :
  image_same m1 m2 size -> image_same m2 m3 size -> image_same m1 m3 size.
Proof. intros H1 H2 a Ha. rewrite H2, H1 by done. done. Qed.

(** Bytes written away from the image leave it as it was. *)
Lemma image_same_store m size buf l :
  off_image FSYSTEM m size buf (Z.of_nat (length l)) ->
  image_same m (store_bytes m buf l) size.
Proof.
  intros Hoff a Ha. apply store_bytes_outside. intros i Hi.
  replace a with (FSYSTEM + (a - FSYSTEM)) by lia. apply Hoff; lia.
Qed.

Lemma image_same_st m size a v :
  off_image FSYSTEM m size a 1 -> image_same m (st m a v) size.
Proof.
  intros Hoff x Hx. apply ld_st_other. replace x with (FSYSTEM + (x - FSYSTEM)) by lia.
  rewrite <-(Z.add_0_r a). apply Hoff; lia.
Qed.

Lemma off_image_sub m m' size a n b k :
  (forall x, cell m' x = cell m x) -> off_image FSYSTEM m size a n -> a <= b -> b + k <= a + n ->
  off_image FSYSTEM m' size b k.
Proof.
  intros Hc Hoff Hab Hbk j Hj i Hi. rewrite !Hc.
  replace (b + i) with (a + (b - a + i)) by lia. apply Hoff; lia.
Qed.

(** The copying loop writes the slice of the file. *)
Lemma read_bytes_slice k ino off buf m size :
  image_within FSYSTEM m size -> off_image FSYSTEM m size buf (Z.of_nat k) ->
  0 <= ino < boot_inodes FSYSTEM m -> 0 <= off -> off + Z.of_nat k <= file_size FSYSTEM m ino ->
  read_bytes FSYSTEM k (blocks_at FSYSTEM m) ino off buf m
  = store_bytes m buf (map (file_byte FSYSTEM m ino) (seqZ off (Z.of_nat k))).
Proof.
  revert m off buf. induction k as [|k IH]; intros m off buf Hiw Hoff Hi Ho Hk; [done|].
  cbn [read_bytes]. fold (file_byte FSYSTEM m ino off).
  rewrite seqZ_cons by lia. cbn [map store_bytes].
  assert (image_same m (st m buf (file_byte FSYSTEM m ino off)) size) as Hs.
  { apply image_same_st. eapply off_image_sub; [done|exact Hoff|lia|lia]. }
  pose proof (boot_inodes_range m) as Hr.
  pose proof (iw_inodes _ _ _ Hiw) as Hz. unfold sizeof_boot_t, sizeof_inode_t in Hz.
  assert (blocks_at FSYSTEM m = blocks_at FSYSTEM (st m buf (file_byte FSYSTEM m ino off))) as Hbl
    by (unfold blocks_at; rewrite (image_same_inodes m _ size Hs); [done|unfold sizeof_boot_t; lia]).
  rewrite Hbl, IH.
  - f_equal. replace (Z.pred (Z.of_nat (S k))) with (Z.of_nat k) by lia.
    apply map_ext_in. intros x Hx%list_elem_of_In%elem_of_seqZ.
    apply (image_same_byte m size Hiw); [done|done|lia].
  - by eapply image_same_within.
  - eapply off_image_sub; [intros; apply cell_st|exact Hoff|lia|lia].
  - rewrite (image_same_inodes m _ size); [done|done|unfold sizeof_boot_t; lia].
  - lia.
  - rewrite (image_same_size m size Hiw) by done. lia.
Qed.

Lemma file_content_slice m ino off k :
  0 <= off -> off + Z.of_nat k <= file_size FSYSTEM m ino ->
  map (file_byte FSYSTEM m ino) (seqZ off (Z.of_nat k))
  = take k (drop (Z.to_nat off) (file_content FSYSTEM m ino)).
Proof.
  intros Ho Hk. unfold file_content. apply list_eq. intros i.
  destruct (decide (i < k)%nat).
  - rewrite lookup_take, decide_True by done. rewrite lookup_drop, !list_lookup_fmap.
    rewrite !lookup_seqZ_lt by lia. simpl. do 2 f_equal. lia.
  - rewrite !lookup_ge_None_2; [done|rewrite length_take; lia|].
    rewrite length_map, length_seqZ. lia.
Qed.

(** [read_data] within the image: the number of bytes and the slice written. *)
Lemma read_data_slice m size ino offset buf length :
  let n := Z.max 0 (Z.min length (file_size FSYSTEM m ino - offset)) in
  image_within FSYSTEM m size -> 0 <= ino < boot_inodes FSYSTEM m -> buf <> 0 ->
  0 <= offset -> 0 <= length < 2147483648 -> off_image FSYSTEM m size buf n ->
  read_data FSYSTEM ino offset buf length m
  = (n, store_bytes m buf (take (Z.to_nat n) (drop (Z.to_nat offset) (file_content FSYSTEM m ino)))).
Proof.
  intros n Hiw Hi Hb Ho Hl Hoff. unfold read_data.
  rewrite (proj2 (Z.ltb_ge _ _)), (proj2 (Z.eqb_neq _ _)) by (done || lia). cbn [orb].
  change (ld32 m (inode_at FSYSTEM ino)) with (file_size FSYSTEM m ino).
  pose proof (ld32_range m (inode_at FSYSTEM ino)) as Hsz.
  change (ld32 m (inode_at FSYSTEM ino)) with (file_size FSYSTEM m ino) in Hsz.
  destruct (Z.leb_spec (file_size FSYSTEM m ino) offset) as [Hend|Hin].
  { replace n with 0 by lia. done. }
  rewrite u32_small by lia.
  assert ((if file_size FSYSTEM m ino - offset <? length
           then file_size FSYSTEM m ino - offset else length) = n) as ->.
  { destruct (Z.ltb_spec (file_size FSYSTEM m ino - offset) length); lia. }
  assert (0 <= n <= length) as Hn by lia.
  rewrite s32_small by lia. f_equal.
  rewrite (read_bytes_slice _ _ _ _ m size);
    [|done|eapply off_image_sub; [done|exact Hoff|lia|lia]|done|done|lia].
  by rewrite file_content_slice by lia.
Qed.

Lemma file_content_length m ino : List.length (file_content FSYSTEM m ino) = Z.to_nat (file_size FSYSTEM m ino).
Proof. unfold file_content. by rewrite length_map, length_seqZ. Qed.

Lemma file_content_bytes m ino : Forall (fun b => 0 <= b < 256) (file_content FSYSTEM m ino).
Proof. unfold file_content. apply Forall_map, Forall_true. intros k. apply ld_range. Qed.

End facts.

Section contract.
Context {M : Type} `{ByteMemOk M} (FSYSTEM : Z).
Implicit Type m : M.

(** A lookup by name answers the first directory entry whose 32-byte name
    equals the first 32 characters of the name asked for, or -1, leaving the
    caller's entry alone, when there is none. *)
Theorem read_dentry_by_name_correct m fname l d :
  cstr m fname l -> fname <> 0 ->
  let '(r, d') := read_dentry_by_name FSYSTEM fname d m in found FSYSTEM m (take 32 l) d d' r.
Proof. apply read_dentry_by_name_found. Qed.

(** A lookup by index answers the entry of that index below the count in the
    boot block and -1 for every other unsigned index, the count itself and
    0xFFFFFFFF included. *)
Theorem read_dentry_by_index_correct m index d :
  0 <= num_dentries FSYSTEM m -> 0 <= index < 4294967296 ->
  read_dentry_by_index FSYSTEM index d m
  = if index <? num_dentries FSYSTEM m then (0, fill_dentry m (dentry_at FSYSTEM index))
    else (-1, d).
Proof. apply read_dentry_by_index_entry. Qed.

(** C10: [read_data] copies into the buffer exactly the bytes of the file from
    [offset], as many as asked for or as the file has left, across block
    boundaries; answers how many; and changes nothing outside the buffer. *)
Theorem read_data_correct m size ino offset buf length :
  image_within FSYSTEM m size -> 0 <= ino < boot_inodes FSYSTEM m -> buf <> 0 ->
  0 <= offset -> 0 <= length < 2147483648 ->
  off_image FSYSTEM m size buf length -> inj_on m buf length ->
  let n := Z.max 0 (Z.min length (file_size FSYSTEM m ino - offset)) in
  let '(r, m') := read_data FSYSTEM ino offset buf length m in
  r = n /\
  load_bytes m' buf (Z.to_nat n)
  = take (Z.to_nat n) (drop (Z.to_nat offset) (file_content FSYSTEM m ino)) /\
  (forall x, outside m buf n x -> ld m' x = ld m x) /\
  (forall x, cell m' x = cell m x).
Proof.
  intros Hiw Hi Hb Ho Hl Hoff Hinj n.
  pose proof (ld32_range m (inode_at FSYSTEM ino)) as Hsz.
  change (ld32 m (inode_at FSYSTEM ino)) with (file_size FSYSTEM m ino) in Hsz.
  rewrite (read_data_slice FSYSTEM m size);
    [|done..|eapply off_image_sub; [done|exact Hoff|lia|lia]]. fold n.
  set (l := take _ _). assert (List.length l = Z.to_nat n) as Hlen.
  { unfold l. rewrite length_take, length_drop, file_content_length. lia. }
  assert (0 <= n <= length) as Hn by lia.
  split_and!; [done| | |].
  - pose proof (store_bytes_load m buf l) as Hs. rewrite Hlen in Hs. rewrite Hs.
    + apply map_u8_id. unfold l. apply Forall_take, Forall_drop, file_content_bytes.
    + eapply inj_on_sub; [exact Hinj|lia|lia].
  - intros x Hx. apply store_bytes_outside. rewrite Hlen, Z2Nat.id by lia. done.
  - intros x. apply cell_store_bytes.
Qed.

(** C32: [read_data] fails exactly for an inode number above the count of inodes
    and for a null buffer.  The count itself is not rejected: the first word of
    the first data block is then taken for the length of a file. *)
Theorem read_data_errors m ino offset buf length :
  (boot_inodes FSYSTEM m < ino \/ buf = 0 -> read_data FSYSTEM ino offset buf length m = (-1, m)) /\
  (ino = boot_inodes FSYSTEM m -> buf <> 0 ->
     file_size FSYSTEM m ino = ld32 m (blocks_at FSYSTEM m) /\
     (file_size FSYSTEM m ino <= offset -> read_data FSYSTEM ino offset buf length m = (0, m)) /\
     (offset < file_size FSYSTEM m ino -> 0 <= offset -> 0 < length < 2147483648 ->
        0 < fst (read_data FSYSTEM ino offset buf length m))).
Proof.
  unfold read_data. split.
  - intros [Hi| ->]; [by rewrite (proj2 (Z.ltb_lt _ _))|by rewrite orb_true_r].
  - intros -> Hb. rewrite Z.ltb_irrefl, (proj2 (Z.eqb_neq buf 0)) by done. cbn [orb].
    split; [done|]. unfold file_size. split; intros Hle.
    + by rewrite (proj2 (Z.leb_le _ _)).
    + intros Ho Hl. rewrite (proj2 (Z.leb_gt _ _)) by done. cbn [fst].
      pose proof (ld32_range m (inode_at FSYSTEM (boot_inodes FSYSTEM m))) as Hr.
      rewrite u32_small by lia.
      destruct (Z.ltb_spec (ld32 m (inode_at FSYSTEM (boot_inodes FSYSTEM m)) - offset) length);
        rewrite s32_small; lia.
Qed.

End contract.

(** ** Example: an image of three blocks of data at 0x10000 *)

Definition demo_fs : Z := 0x10000.

(** Two entries; inode 1 has 4100 bytes, in blocks 1 and 0. *)
Definition demo_image : flat :=
  let m := st32 (∅ : flat) demo_fs 2 in
  let m := st32 m (demo_fs + 4) 2 in
  let m := store_bytes m (demo_fs + 64) [46] in
  let m := st32 m (demo_fs + 64 + 32) 1 in
  let m := store_bytes m (demo_fs + 128) (chars "frame0.txt"%string) in
  let m := st32 m (demo_fs + 128 + 32) 2 in
  let m := st32 m (demo_fs + 128 + 36) 1 in
  let m := st32 m (demo_fs + 4096 + 4096) 4100 in
  let m := st32 m (demo_fs + 4096 + 4096 + 4) 1 in
  let m := store_bytes m (demo_fs + 3 * 4096) (chars "fish"%string) in
  store_bytes m (demo_fs + 5 * 4096 - 6) (chars "Hello "%string).

(** The bounds of the image, in whatever memory [m] holds it. *)
Ltac check_demo_image m :=
  assert (boot_inodes demo_fs m = 2) as Hb by (vm_compute; reflexivity);
  split;
  [ vm_compute; split; discriminate
  | rewrite Hb; done
  | intros ino k Hi Hk; rewrite Hb in Hi; unfold blocks_at; rewrite Hb;
    destruct (decide (ino = 0)) as [->|];
    [ assert (file_size demo_fs m 0 = 0) as Hs by (vm_compute; reflexivity); lia
    | assert (ino = 1) as -> by lia;
      assert (file_size demo_fs m 1 = 4100) as Hs by (vm_compute; reflexivity);
      assert (k / 4096 = 0 \/ k / 4096 = 1) as [-> | ->] by dlia; vm_compute;
      (split; [reflexivity|discriminate]) ] ].

Lemma demo_image_within : image_within demo_fs demo_image (6 * 4096).
Proof. check_demo_image demo_image. Qed.

(** The name asked for, in a memory that also holds the image. *)
Definition asking_image : flat := store_bytes demo_image 0x100 (chars "frame0.txt"%string ++ [0]).

Lemma read_dentry_by_name_correct_witness :
  fst (read_dentry_by_name demo_fs 0x100 (Dentry 0 0 0) asking_image) = 0.
Proof.
  pose proof (read_dentry_by_name_correct demo_fs asking_image 0x100 (chars "frame0.txt"%string)
    (Dentry 0 0 0)) as Hr.
  destruct (read_dentry_by_name demo_fs 0x100 (Dentry 0 0 0) asking_image) as [r d'].
  destruct Hr as [[Hr _]|(_ & _ & Hn)]; [|done|exact Hr|].
  - split; [apply bytes_at_load; vm_compute; reflexivity|].
    apply (bool_decide_unpack _). vm_compute. exact I.
  - exfalso. apply (Hn 1); [vm_compute; split; [discriminate|reflexivity]|vm_compute; reflexivity].
Defined.

Lemma read_dentry_by_index_correct_witness :
  read_dentry_by_index demo_fs 1 (Dentry 0 0 0) demo_image = (0, Dentry (demo_fs + 128) 2 1) /\
  read_dentry_by_index demo_fs 2 (Dentry 0 0 0) demo_image = (-1, Dentry 0 0 0).
Proof.
  split.
  - rewrite (read_dentry_by_index_correct demo_fs demo_image 1); [vm_compute; reflexivity| |lia].
    vm_compute. discriminate.
  - rewrite (read_dentry_by_index_correct demo_fs demo_image 2); [vm_compute; reflexivity| |lia].
    vm_compute. discriminate.
Defined.

Lemma read_data_correct_witness :
  load_bytes (snd (read_data demo_fs 1 4090 0x200 100 demo_image)) 0x200 10 = chars "Hello fish"%string.
Proof.
  pose proof (read_data_correct demo_fs demo_image (6 * 4096) 1 4090 0x200 100
    demo_image_within) as Hr.
  assert (file_size demo_fs demo_image 1 = 4100) as Hs by (vm_compute; reflexivity).
  rewrite Hs in Hr.
  destruct (read_data demo_fs 1 4090 0x200 100 demo_image) as [r m'].
  destruct Hr as (_ & Hl & _); [vm_compute; split; [discriminate|reflexivity]|done|done|done| | |].
  - apply flat_apart. unfold demo_fs. lia.
  - apply flat_inj_on.
  - etransitivity; [exact Hl|]. vm_compute. reflexivity.
Defined.

Lemma read_data_errors_witness :
  read_data demo_fs 3 0 0x200 100 demo_image = (-1, demo_image) /\
  file_size demo_fs demo_image 2 = 0x68736966.
Proof.
  split.
  - apply (read_data_errors demo_fs demo_image 3 0 0x200 100). left. vm_compute. reflexivity.
  - destruct (read_data_errors demo_fs demo_image 2 0 0x200 100) as [_ H].
    destruct H as [H _]; [vm_compute; reflexivity|done|]. rewrite H. vm_compute. reflexivity.
Defined.
