(* ===== verification/Kernel.v ===== *)
(** * The kernel's state and the monad its handlers run in

    The global variables of syscall.c, scheduling.c, keyboard.c, rtc.c and pit.c,
    the PCBs on the kernel stacks, and the two ways a handler ends: it returns,
    or it leaves C for good, through the [iret] of contextSwitch or by loading a
    saved stack in retToPar. *)
From Stdlib Require Import ZArith Lia.
From stdpp Require Import base list gmap numbers.
From S2P Require Import Prelude ByteMem Machine Console Filesystem.

(** ** Files (syscall.h) *)

(** The functions the file operation tables point to; [fn_null] is NULL. *)
Inductive cfun :=
  | fn_null
  | fn_terminal_open | fn_terminal_read | fn_terminal_write | fn_terminal_close
  | fn_terminal_invalid_read | fn_terminal_invalid_write
  | fn_rtc_open | fn_rtc_read | fn_rtc_write | fn_rtc_close
  | fn_file_open | fn_file_read | fn_file_write | fn_file_close
  | fn_directory_read.

#[export] Instance cfun_eq_dec : EqDecision cfun.
Proof. solve_decision. Defined.

Record fops_t := Fops {
  f_open : cfun;
  f_read : cfun;
  f_write : cfun;
  f_close : cfun;
}.

#[export] Instance fops_eq_dec : EqDecision fops_t.
Proof. solve_decision. Defined.

Record file_t := File {
  fotp : fops_t;
  f_inode : Z;
  fposition : Z;
  flags : Z;
}.

#[export] Instance file_eq_dec : EqDecision file_t.
Proof. solve_decision. Defined.

(** The zeroes of the BSS. *)
Definition null_fops : fops_t := Fops fn_null fn_null fn_null fn_null.
Definition null_file : file_t := File null_fops 0 0 0.

(** ** Processes (syscall.h, scheduling.h) *)

(** [pcb_filename] holds the characters of the name, without the terminator. *)
Record pcb_t := Pcb {
  pcb_fd : list file_t;
  pid : Z;
  pcb_filename : list Z;
  stack : Z;
  parent : Z;
  oldebp : Z;
  oldesp : Z;
  haltebp : Z;
  haltesp : Z;
}.

Definition null_pcb : pcb_t := Pcb (replicate 8 null_file) 0 [] 0 0 0 0 0 0.

(** [next] is 0 for NULL and 1, 2, 3 for process1, process2, process3. *)
Record process_t := Process {
  pcb : Z;
  pscreen : Z;
  pebp : Z;
  pesp : Z;
  next : Z;
}.

Definition null_process : process_t := Process 0 0 0 0 0.

(** The variables screen1x, screen1y and tbuf1 of a terminal, and its fts flag. *)
Record saved_t := Saved {
  saved_x : Z;
  saved_y : Z;
  saved_tbuf : Z;
  fts : Z;
}.

(** ** The state *)

Record files := Files {
  fd : list file_t;
  dt : dentry_t;
  trfotp : fops_t;
  twfotp : fops_t;
  rfotp : fops_t;
  dfotp : fops_t;
  ffotp : fops_t;
}.

Record procs := Procs {
  pnum : Z;
  pnumarr : list Z;
  curr_pcb : Z;
  dentry : dentry_t;
  addrPage : Z;
  pcbs : gmap Z pcb_t;
  esp0 : Z;                    (* tss.esp0 *)
}.

Record sched := Sched {
  indicator : Z;
  active : Z;
  terminals : list saved_t;    (* of the terminals 1, 2, 3 *)
  head : Z;
  ring : list process_t;       (* process1, process2, process3 *)
}.

Record keys := Keys {
  shift_flag : Z;
  ctrl_flag : Z;
  alt_flag : Z;
  caps_lock : Z;
}.

Record kernel := Kernel {
  con : console;
  FSYSTEM : Z;
  kfiles : files;
  kprocs : procs;
  ksched : sched;
  kkeys : keys;
  read_flag : Z;
  quantum : Z;
}.

Definition set_con k v := Kernel v (FSYSTEM k) (kfiles k) (kprocs k) (ksched k) (kkeys k) (read_flag k) (quantum k).
Definition set_FSYSTEM k v := Kernel (con k) v (kfiles k) (kprocs k) (ksched k) (kkeys k) (read_flag k) (quantum k).
Definition set_kfiles k v := Kernel (con k) (FSYSTEM k) v (kprocs k) (ksched k) (kkeys k) (read_flag k) (quantum k).
Definition set_kprocs k v := Kernel (con k) (FSYSTEM k) (kfiles k) v (ksched k) (kkeys k) (read_flag k) (quantum k).
Definition set_ksched k v := Kernel (con k) (FSYSTEM k) (kfiles k) (kprocs k) v (kkeys k) (read_flag k) (quantum k).
Definition set_kkeys k v := Kernel (con k) (FSYSTEM k) (kfiles k) (kprocs k) (ksched k) v (read_flag k) (quantum k).
Definition set_read_flag k v := Kernel (con k) (FSYSTEM k) (kfiles k) (kprocs k) (ksched k) (kkeys k) v (quantum k).
Definition set_quantum k v := Kernel (con k) (FSYSTEM k) (kfiles k) (kprocs k) (ksched k) (kkeys k) (read_flag k) v.

Definition kmach (k : kernel) : machine := mach (con k).
Definition set_kmach k m := set_con k (set_mach (con k) m).

Definition set_fd k v :=
  let f := kfiles k in set_kfiles k (Files v (dt f) (trfotp f) (twfotp f) (rfotp f) (dfotp f) (ffotp f)).
Definition set_dt k v :=
  let f := kfiles k in set_kfiles k (Files (fd f) v (trfotp f) (twfotp f) (rfotp f) (dfotp f) (ffotp f)).

Definition set_pnum k v :=
  let p := kprocs k in set_kprocs k (Procs v (pnumarr p) (curr_pcb p) (dentry p) (addrPage p) (pcbs p) (esp0 p)).
Definition set_pnumarr k v :=
  let p := kprocs k in set_kprocs k (Procs (pnum p) v (curr_pcb p) (dentry p) (addrPage p) (pcbs p) (esp0 p)).
Definition set_curr_pcb k v :=
  let p := kprocs k in set_kprocs k (Procs (pnum p) (pnumarr p) v (dentry p) (addrPage p) (pcbs p) (esp0 p)).
Definition set_dentry k v :=
  let p := kprocs k in set_kprocs k (Procs (pnum p) (pnumarr p) (curr_pcb p) v (addrPage p) (pcbs p) (esp0 p)).
Definition set_addrPage k v :=
  let p := kprocs k in set_kprocs k (Procs (pnum p) (pnumarr p) (curr_pcb p) (dentry p) v (pcbs p) (esp0 p)).
Definition set_pcbs k v :=
  let p := kprocs k in set_kprocs k (Procs (pnum p) (pnumarr p) (curr_pcb p) (dentry p) (addrPage p) v (esp0 p)).
Definition set_esp0 k v :=
  let p := kprocs k in set_kprocs k (Procs (pnum p) (pnumarr p) (curr_pcb p) (dentry p) (addrPage p) (pcbs p) v).

Definition set_indicator k v :=
  let s := ksched k in set_ksched k (Sched v (active s) (terminals s) (head s) (ring s)).
Definition set_terminals k v :=
  let s := ksched k in set_ksched k (Sched (indicator s) (active s) v (head s) (ring s)).
Definition set_head k v :=
  let s := ksched k in set_ksched k (Sched (indicator s) (active s) (terminals s) v (ring s)).
Definition set_ring k v :=
  let s := ksched k in set_ksched k (Sched (indicator s) (active s) (terminals s) (head s) v).

(** A PCB that was never written reads as whatever the stack holds: no value. *)
Definition get_pcb (k : kernel) (a : Z) : option pcb_t := pcbs (kprocs k) !! a.
Definition put_pcb (k : kernel) (a : Z) (p : pcb_t) : kernel := set_pcbs k (<[a := p]> (pcbs (kprocs k))).

(** process1, process2, process3 through a [process_t] pointer. *)
Definition get_process (k : kernel) (p : Z) : option process_t := lookupZ (ring (ksched k)) (p - 1).
Definition put_process (k : kernel) (p : Z) (v : process_t) : kernel :=
  set_ring k (<[Z.to_nat (p - 1) := v]> (ring (ksched k))).

(** ** Outcomes *)

(** How control leaves C: [iret] to the entry point of a user program, or a
    return through the stack saved at [esp] and [ebp] with [eax] set. *)
Inductive leave :=
  | ToUser (entry : Z)
  | ToFrame (esp ebp eax : Z).

(** [Undef] is undefined behaviour (an access outside an array, a NULL or an
    uninitialised pointer); [Hang] a wait that the given interrupts do not end. *)
Inductive outcome (A : Type) :=
  | Ret (a : A) (k : kernel)
  | Leave (l : leave) (k : kernel)
  | Undef
  | Hang.
Arguments Ret {A} a k.
Arguments Leave {A} l k.
Arguments Undef {A}.
Arguments Hang {A}.

Definition C (A : Type) : Type := kernel -> outcome A.

Definition c_ret {A} (a : A) : C A := fun k => Ret a k.

Definition c_bind {A B} (x : C A) (f : A -> C B) : C B := fun k =>
  match x k with
  | Ret a k' => f a k'
  | Leave l k' => Leave l k'
  | Undef => Undef
  | Hang => Hang
  end.

Declare Scope c_scope.
Delimit Scope c_scope with c.
Notation "x <- e ;; f" := (c_bind e (fun x => f)) (at level 100, e at next level, right associativity) : c_scope.
Notation "e ;;; f" := (c_bind e (fun _ => f)) (at level 100, right associativity) : c_scope.

(** Reading and changing the state; [c_some] stops on what has no value. *)
Definition c_get {A} (f : kernel -> A) : C A := fun k => Ret (f k) k.
Definition c_mod (f : kernel -> kernel) : C unit := fun k => Ret tt (f k).
Definition c_mach (f : machine -> machine) : C unit := c_mod (fun k => set_kmach k (f (kmach k))).
Definition c_some {A} (x : option A) : C A := fun k => match x with Some a => Ret a k | None => Undef end.
Definition c_leave {A} (l : leave) : C A := fun k => Leave l k.
Definition c_undef {A} : C A := fun _ => Undef.
Definition c_hang {A} : C A := fun _ => Hang.

(** The console routines of lib.c, inside the kernel. *)
Definition c_console `{Layout} (f : console -> console) : C unit := c_mod (fun k => set_con k (f (con k))).

(** ** Stack frames

    What the compiler chooses: how far down the stack the calls of createPCB are
    made.  [base] is the stack pointer with which [execute] or [halt] is called. *)
Class Frames := {
  syscall_esp : Z -> Z;   (* esp at the call of a handler, entered with esp = tss.esp0 *)
  halt_esp : Z -> Z;      (* esp at the call of execute inside halt *)
  save_esp : Z -> Z;      (* esp and ebp stored by Save *)
  save_ebp : Z -> Z;
  switch_esp : Z -> Z;    (* esp and ebp stored by contextSwitch *)
  switch_ebp : Z -> Z;
}.

(** The stack grows down. *)
Class FramesOk `{Frames} := {
  syscall_below : forall esp, syscall_esp esp < esp;
  halt_below : forall base, halt_esp base < base;
  save_below : forall base, save_esp base < base;
  switch_below : forall base, switch_esp base < base;
}.

(** ** Rules of the monad *)

Lemma c_bind_ret {A B} (x : C A) (f : A -> C B) k a k' :
  x k = Ret a k' -> c_bind x f k = f a k'.
Proof. unfold c_bind. by intros ->. Qed.

Lemma c_bind_leave {A B} (x : C A) (f : A -> C B) k l k' :
  x k = Leave l k' -> c_bind x f k = Leave l k'.
Proof. unfold c_bind. by intros ->. Qed.

Lemma c_bind_mod {B} f (g : unit -> C B) k : c_bind (c_mod f) g k = g tt (f k).
Proof. done. Qed.

Lemma c_bind_mach {B} f (g : unit -> C B) k m :
  c_bind (c_mach f) g (set_kmach k m) = g tt (set_kmach k (f m)).
Proof. done. Qed.

Lemma c_bind_assoc {A B D} (x : C A) (f : A -> C B) (g : B -> C D) k :
  c_bind (c_bind x f) g k = c_bind x (fun a => c_bind (f a) g) k.
Proof. unfold c_bind. by destruct (x k). Qed.
