(* ===== verification/Logic.v ===== *)
(** * A program logic for the kernel's monad

    [hoare P x Q R]: started in a state of [P], [x] returns in [Q] or leaves C in
    [R], should it do either; undefined behaviour and endless waits satisfy it.
    [keeps I x] is the special case of an invariant.  The rules are in the hint
    database [keeps]. *)
From Stdlib Require Import ZArith Lia.
From stdpp Require Import base list gmap numbers.
From S2P Require Import Prelude ByteMem LibString Machine Console Filesystem Kernel.

Section logic.
Implicit Types (P I : kernel -> Prop) (k : kernel).

Definition hoare {A} P (x : C A) (Q : A -> kernel -> Prop) (R : kernel -> Prop) : Prop :=
  forall k, P k ->
    match x k with
    | Ret a k' => Q a k'
    | Leave _ k' => R k'
    | Undef | Hang => True
    end.

Definition keeps I {A} (x : C A) : Prop := hoare I x (fun _ => I) I.

Lemma hoare_ret {A} P (a : A) (Q : A -> kernel -> Prop) R :
  (forall k, P k -> Q a k) -> hoare P (c_ret a) Q R.
Proof. intros H k. apply H. Qed.

Lemma hoare_bind {A B} P (x : C A) (f : A -> C B) Q' Q R :
  hoare P x Q' R -> (forall a, hoare (Q' a) (f a) Q R) -> hoare P (c_bind x f) Q R.
Proof.
  intros Hx Hf k Hk. unfold c_bind. specialize (Hx k Hk).
  destruct (x k); [by apply Hf|done..].
Qed.

Lemma hoare_mono {A} (P P' : kernel -> Prop) (x : C A) (Q Q' : A -> kernel -> Prop) (R R' : kernel -> Prop) :
  hoare P' x Q' R' -> (forall k, P k -> P' k) -> (forall a k, Q' a k -> Q a k) ->
  (forall k, R' k -> R k) -> hoare P x Q R.
Proof.
  intros Hx HP HQ HR k Hk. specialize (Hx k (HP k Hk)). destruct (x k); auto.
Qed.

Lemma hoare_mod P f (Q : unit -> kernel -> Prop) R :
  (forall k, P k -> Q tt (f k)) -> hoare P (c_mod f) Q R.
Proof. intros H k. apply H. Qed.

Lemma hoare_get {A} P (f : kernel -> A) (Q : A -> kernel -> Prop) R :
  (forall k, P k -> Q (f k) k) -> hoare P (c_get f) Q R.
Proof. intros H k. apply H. Qed.

Lemma hoare_some {A} P (x : option A) (Q : A -> kernel -> Prop) R :
  (forall a k, x = Some a -> P k -> Q a k) -> hoare P (c_some x) Q R.
Proof. intros H k Hk. unfold c_some. destruct x; auto. Qed.

Lemma hoare_leave {A} P l (Q : A -> kernel -> Prop) (R : kernel -> Prop) :
  (forall k, P k -> R k) -> hoare P (c_leave l) Q R.
Proof. intros H k. apply H. Qed.

Lemma hoare_undef {A} P (Q : A -> kernel -> Prop) R : hoare P c_undef Q R.
Proof. done. Qed.

(** ** Invariants *)

Lemma keeps_ret {A} I (a : A) : keeps I (c_ret a).
Proof. by intros k Hk. Qed.

Lemma keeps_bind {A B} I (x : C A) (f : A -> C B) :
  keeps I x -> (forall a, keeps I (f a)) -> keeps I (c_bind x f).
Proof. apply hoare_bind. Qed.

Lemma keeps_mod I f : (forall k, I k -> I (f k)) -> keeps I (c_mod f).
Proof. intros H k Hk. by apply H. Qed.

Lemma keeps_get {A} I (f : kernel -> A) : keeps I (c_get f).
Proof. by intros k Hk. Qed.

Lemma keeps_some {A} I (x : option A) : keeps I (c_some x).
Proof. intros k Hk. by destruct x. Qed.

Lemma keeps_some_at {A} I (f : kernel -> option A) : keeps I (fun k => c_some (f k) k).
Proof. intros k Hk. unfold c_some. by destruct (f k). Qed.

Lemma keeps_undef {A} I : keeps (A := A) I c_undef.
Proof. done. Qed.

Lemma keeps_hang {A} I : keeps (A := A) I c_hang.
Proof. done. Qed.

Lemma keeps_leave {A} I l : keeps (A := A) I (c_leave l).
Proof. by intros k Hk. Qed.

(** A pure step that also answers. *)
Lemma keeps_pair {A} I (f : kernel -> A * kernel) :
  (forall k, I k -> I (snd (f k))) -> keeps I (fun k => let '(a, k') := f k in Ret a k').
Proof. intros H k Hk. specialize (H k Hk). by destruct (f k). Qed.

End logic.

Create HintDb keeps.
#[export] Hint Resolve keeps_ret keeps_get keeps_some keeps_some_at keeps_undef keeps_hang keeps_leave : keeps.

(** Splits a handler into its steps and closes those the hints know. *)
Ltac keeps_step :=
  match goal with
  | |- keeps _ (c_bind _ _) => apply keeps_bind; [|intros ?]
  | |- keeps _ (if ?b then _ else _) => destruct b
  | |- keeps _ (match ?x with _ => _ end) => destruct x
  | |- keeps _ (let '(_, _) := ?x in _) => destruct x
  | |- keeps _ _ => solve [auto with keeps]
  end.
Ltac keeps := repeat keeps_step.

(** ** The address space

    What the kernel's routines leave alone: everything of the paging but the
    second page table, where the windows of the terminals are. *)
Definition same_space (m m' : machine) : Prop :=
  paging m' = paging m /\ page_directory m' = page_directory m /\ page_table m' = page_table m.

Lemma same_space_refl m : same_space m m.
Proof. done. Qed.

Lemma same_space_trans m1 m2 m3 : same_space m1 m2 -> same_space m2 m3 -> same_space m1 m3.
Proof. intros (A1 & A2 & A3) (B1 & B2 & B3). unfold same_space. by rewrite B1, B2, B3. Qed.

#[export] Instance same_space_preorder : PreOrder same_space.
Proof. split; [exact same_space_refl|exact same_space_trans]. Qed.

Create HintDb space.
#[export] Hint Resolve same_space_refl : space.

Section space.
Context {L : Layout}.
Implicit Type m : machine.

Lemma same_space_mapped m m' : same_space m m' -> kernel_mapped m -> kernel_mapped m'.
Proof. intros (H1 & H2 & H3) []. split; rewrite ?H1, ?H2, ?H3; done. Qed.

Lemma same_space_ram m m' : ram_only m m' -> same_space m m'.
Proof. by intros ->. Qed.

Lemma same_space_paging m m' : same_paging m m' -> same_space m m'.
Proof. by intros (? & ? & ? & ?). Qed.

(** What the stores and the cursor registers preserve, a character preserves: [putc]
    is a tree of field updates, stores and tests. *)
Section putc_closed.
Variable P : machine -> Prop.
Hypothesis P_ram : forall m m', ram_only m m' -> P m -> P m'.
Hypothesis P_cursor : forall m r c, P m -> P (update_cursor r c m).

Lemma scroll_if_needed_closed s : P (mach s) -> P (mach (scroll_if_needed s)).
Proof using P_ram.
  intros Hs. unfold scroll_if_needed. destruct (_ <? _); [|done].
  eapply P_ram; [apply scroll_ram_only|exact Hs].
Qed.

Lemma putc_rec_closed d c s : P (mach s) -> P (mach (putc_rec d c s)).
Proof using P_ram P_cursor.
  assert (forall m a v, P m -> P (st m a v)) as P_st
    by (intros m a v; apply P_ram, ram_only_st, ram_only_refl).
  revert c s. induction d as [|d IH]; intros c s Hs; [done|]. cbn [putc_rec].
  destruct ((c =? 10) || (c =? 13)).
  { apply P_cursor, scroll_if_needed_closed. exact Hs. }
  destruct ((c =? 8) && (tbuf s =? 0)); [done|].
  destruct (c =? 8).
  { apply P_cursor.
    assert (forall s', P (mach s') ->
      P (mach (if truth (tflag s') then if 1 <? tbuf s' then set_tbuf s' (tbuf s' - 2) else s' else s')))
      as Hif by (intros s' Hs'; destruct (truth _); [destruct (_ <? _)|]; exact Hs').
    apply Hif. destruct (truth (screen_x s)); apply IH; exact Hs. }
  destruct (tbuf s =? 128); [done|].
  set (s1 := set_mach _ (st (mach (set_mach s _)) _ _)).
  assert (P (mach s1)) as H1 by (by do 2 apply P_st).
  clearbody s1. set (s2 := if NUM_COLS <=? _ then _ else _).
  assert (P (mach s2)) as H2
    by (unfold s2; destruct (_ <=? _); [apply scroll_if_needed_closed|]; exact H1).
  clearbody s2. destruct (truth _); [destruct (_ <? _)|];
    [apply P_st, P_cursor|apply P_cursor|apply P_cursor]; exact H2.
Qed.

Lemma putc_closed c s : P (mach s) -> P (mach (putc c s)).
Proof using P_ram P_cursor. apply putc_rec_closed. Qed.

Lemma for_putc_closed lo hi f s :
  P (mach s) -> P (mach (for_range lo hi (fun i s => putc (f i s) s) s)).
Proof using P_ram P_cursor.
  intros Hs. destruct (Z.le_gt_cases lo hi).
  - apply (for_range_ind (fun _ s => P (mach s))); [done|done|]. intros i s' _. apply putc_closed.
  - by rewrite for_range_nil by lia.
Qed.
End putc_closed.

(** The routines of lib.c, with [m0] the memory before. *)
Section closed.
Variable m0 : machine.

Lemma space_st m a v : same_space m0 m -> same_space m0 (st m a v).
Proof. done. Qed.

Lemma space_trace m tr : same_space m0 m -> same_space m0 (set_trace m tr).
Proof. done. Qed.

Lemma space_memcpy m d s n : same_space m0 m -> same_space m0 (memcpy m d s n).
Proof. apply memcpy_closed, space_st. Qed.

Lemma space_store_bytes m a l : same_space m0 m -> same_space m0 (store_bytes m a l).
Proof. apply store_bytes_closed, space_st. Qed.

Lemma space_strncpy m d s n : same_space m0 m -> same_space m0 (strncpy m d s n).
Proof. apply strncpy_closed, space_st. Qed.

Lemma space_st32 m a v : same_space m0 m -> same_space m0 (st32 m a v).
Proof. apply st32_closed, space_st. Qed.

Lemma space_for lo hi body m :
  (forall i m, same_space m0 m -> same_space m0 (body i m)) ->
  same_space m0 m -> same_space m0 (for_range lo hi body m).
Proof. apply for_range_closed. Qed.

Lemma space_outb m d p : same_space m0 m -> same_space m0 (outb d p m).
Proof. done. Qed.

Lemma space_update_cursor m r c : same_space m0 m -> same_space m0 (update_cursor r c m).
Proof. done. Qed.

(** The console, through its fields. *)
Lemma space_for_console lo hi (body : Z -> console -> console) s :
  (forall i s, same_space m0 (mach s) -> same_space m0 (mach (body i s))) ->
  same_space m0 (mach s) -> same_space m0 (mach (for_range lo hi body s)).
Proof.
  intros Hb Hs. destruct (Z.le_gt_cases lo hi).
  - apply (for_range_ind (fun _ s => same_space m0 (mach s))); auto.
  - by rewrite for_range_nil by lia.
Qed.

Lemma space_clear s : same_space m0 (mach s) -> same_space m0 (mach (clear s)).
Proof. intros Hs. unfold clear. cbn [mach set_mach]. apply space_for; [|done]. intros. by do 2 apply space_st. Qed.

Lemma space_reset_screen s : same_space m0 (mach s) -> same_space m0 (mach (reset_screen s)).
Proof. intros Hs. unfold reset_screen. cbn [mach set_x set_y]. by apply space_clear. Qed.

Lemma space_ram_only m m' : ram_only m m' -> same_space m0 m -> same_space m0 m'.
Proof. intros Hr Hm. eapply same_space_trans; [exact Hm|by apply same_space_ram]. Qed.

Lemma space_putc c s : same_space m0 (mach s) -> same_space m0 (mach (putc c s)).
Proof. apply putc_closed; [exact space_ram_only|exact space_update_cursor]. Qed.

Lemma space_putcs l s : same_space m0 (mach s) -> same_space m0 (mach (putcs l s)).
Proof. revert s. induction l as [|c l IH]; intros s Hs; [done|]. by apply IH, space_putc. Qed.

Lemma space_read_data fs i o b n m : same_space m0 m -> same_space m0 (snd (read_data fs i o b n m)).
Proof.
  assert (forall k bl i o b m, same_space m0 m -> same_space m0 (read_bytes fs k bl i o b m)) as Hb.
  { induction k as [|k IH]; intros bl i' o' b' m' Hm; [done|]. by apply IH, space_st. }
  intros Hm. unfold read_data. destruct (_ || _); [done|]. destruct (_ <=? _); [done|]. by apply Hb.
Qed.

Lemma space_strcpy m d s m' : strcpy m d s = Some m' -> same_space m0 m -> same_space m0 m'.
Proof.
  unfold strcpy. intros Hw Hm. revert Hw.
  match goal with |- context [while ?f ?a] => pose proof (while_closed f
    (fun '(_, m) => same_space m0 m) (same_space m0) a) as Hc end.
  destruct (while _ _) as [m1|]; [|done]. intros [= <-].
  eapply Hc; [|exact Hm|reflexivity]. intros [i m2] H2. by destruct (_ =? _).
Qed.
End closed.

End space.

#[export] Hint Resolve space_st space_trace space_memcpy space_store_bytes space_strncpy space_st32
  space_outb space_update_cursor space_clear space_reset_screen space_putc space_putcs : space.
