(* ===== verification/FileTable.v ===== *)
(** * File descriptors: the file half of syscall.c, and the readers of filesystem.c

    The table [fd] of eight descriptors, [initFOTP], [createFD], [open], [close],
    and [file_read] and [directory_read], which read through a descriptor.  The
    dispatch of read and write is in Syscall.v, with the drivers. *)
From Stdlib Require Import ZArith Lia String.
From stdpp Require Import base list gmap numbers.
From S2P Require Import Prelude ByteMem LibString Machine Devices Console Filesystem Kernel.

#[local] Open Scope c_scope.

Section files.
Context {L : Layout}.

(** The constant functions of terminal.c. *)
Definition terminal_invalid_read (fd buf n : Z) : Z := -1.
Definition terminal_invalid_write (fd buf n : Z) : Z := -1.
Definition terminal_open (filename : Z) : Z := -1.
Definition terminal_close (fd : Z) : Z := -1.

(** The tables [initFOTP] fills in. *)
Definition stdin_fops := Fops fn_terminal_open fn_terminal_read fn_terminal_invalid_write fn_terminal_close.
Definition stdout_fops := Fops fn_terminal_open fn_terminal_invalid_read fn_terminal_write fn_terminal_close.
Definition rtc_fops := Fops fn_rtc_open fn_rtc_read fn_rtc_write fn_rtc_close.
Definition directory_fops := Fops fn_file_open fn_directory_read fn_file_write fn_file_close.
Definition file_fops := Fops fn_file_open fn_file_read fn_file_write fn_file_close.

Definition initFOTP : C unit := c_mod (fun k =>
  let f := kfiles k in
  let fds := <[0%nat := File stdin_fops 0 0 1]> (fd f) in
  let fds := <[1%nat := File stdout_fops 0 1 1]> fds in
  set_kfiles k (Files fds (dt f) stdin_fops stdout_fops rtc_fops directory_fops file_fops)).

(** [fd[i]]: an index outside the array is outside the model. *)
Definition get_fd (i : Z) : C file_t := fun k => c_some (lookupZ (fd (kfiles k)) i) k.
Definition put_fd (i : Z) (f : file_t) : C unit :=
  c_mod (fun k => set_fd k (<[Z.to_nat i := f]> (fd (kfiles k)))).

(** The loop of [createFD]: [for (i = 2; i < 8; i++)]. *)
Fixpoint createFD_from (n : nat) (i : Z) (d : Z) (fotp : fops_t) : C Z :=
  match n with
  | O => c_ret (-1)
  | S n' =>
      (f <- get_fd i ;;
       if flags f =? 0 then
         dentry <- c_get (fun k => dt (kfiles k)) ;;
         put_fd i (File fotp (if d =? 2 then inode dentry else 0) 0 1) ;;;
         c_ret i
       else createFD_from n' (i + 1) d fotp)
  end.

Definition createFD (d : Z) : C Z :=
  files <- c_get kfiles ;;
  createFD_from 6 2 d
    (if d =? 0 then rfotp files else if d =? 1 then dfotp files else ffotp files).

(** [read_dentry_by_name(fname, &dt)] *)
Definition lookup_dt (fname : Z) : C Z := fun k =>
  let '(r, d) := read_dentry_by_name (FSYSTEM k) fname (dt (kfiles k)) (kmach k) in
  Ret r (set_dt k d).

Definition open (fname : Z) : C Z :=
  r <- lookup_dt fname ;;
  if r =? -1 then c_ret (-1)
  else
    ftype <- c_get (fun k => ftype (dt (kfiles k))) ;;
    createFD ftype.

(** [fotp.close(fdr)]: calling NULL is undefined, as is calling a function that
    is not a close. *)
Definition call_close (f : cfun) (fdr : Z) : C Z :=
  match f with
  | fn_terminal_close => c_ret (terminal_close fdr)
  | fn_rtc_close => c_ret (Rtc.rtc_close fdr)
  | fn_file_close => c_ret (file_close fdr)
  | _ => c_undef
  end.

(** The bound of the source lets 8 through, one past the end of the table. *)
Definition close (fdr : Z) : C Z :=
  if (2 <=? fdr) && (fdr <=? 8) then
    f <- get_fd fdr ;;
    if flags f =? 0 then c_ret (-1)
    else
      put_fd fdr (File (fotp f) (f_inode f) (fposition f) 0) ;;;
      call_close (f_close (fotp f)) fdr
  else c_ret (-1).

Definition add_position (fdr tmp : Z) : C unit :=
  f <- get_fd fdr ;;
  put_fd fdr (File (fotp f) (f_inode f) (u32 (fposition f + tmp)) (flags f)).

(** A failed read, too, is added to the position. *)
Definition file_read (fdr buf n : Z) : C Z :=
  f <- get_fd fdr ;;
  tmp <- (fun k =>
    let '(r, m) := read_data (FSYSTEM k) (f_inode f) (fposition f) buf (u32 n) (kmach k) in
    Ret r (set_kmach k m)) ;;
  add_position fdr tmp ;;;
  c_ret tmp.

(** [cur] is an uninitialised local that a failed lookup leaves alone. *)
Definition directory_read (fdr buf n : Z) : C Z :=
  f <- get_fd fdr ;;
  k <- c_get (fun k => k) ;;
  let '(r, cur) := read_dentry_by_index (FSYSTEM k) (fposition f) (Dentry 0 0 0) (kmach k) in
  if truth r then c_ret 0
  else
    let len := 32 in
    c_mach (fun m => strncpy m buf (name cur) len) ;;;
    add_position fdr 1 ;;;
    c_ret len.

(** ** The table as an invariant *)

(** What a descriptor in use holds. *)
Definition fd_entry_ok (i : nat) (f : file_t) : Prop :=
  (flags f = 0 \/ flags f = 1) /\
  (flags f = 1 -> (2 <= i)%nat ->
     fotp f = rtc_fops \/ fotp f = directory_fops \/ fotp f = file_fops).

Record files_ok (f : files) : Prop := {
  fd_length : length (fd f) = 8%nat;
  fd_entries : forall i e, fd f !! i = Some e -> fd_entry_ok i e;
  fd_tables : rfotp f = rtc_fops /\ dfotp f = directory_fops /\ ffotp f = file_fops;
}.

(** The first free descriptor from [i] on. *)
Definition first_free (l : list file_t) (i : nat) : Prop :=
  (exists f, l !! i = Some f /\ flags f = 0) /\ (2 <= i)%nat /\
  forall j f, (2 <= j < i)%nat -> l !! j = Some f -> flags f <> 0.

(** Reading a file to its end, [n] bytes at a time: what a client of [file_read]
    sees in its buffer, call after call. *)
Fixpoint read_to_end (turns : nat) (fdr buf n : Z) : C (list Z) :=
  match turns with
  | O => c_hang
  | S turns' =>
      (r <- file_read fdr buf n ;;
       if r =? 0 then c_ret []
       else
         chunk <- c_get (fun k => load_bytes (kmach k) buf (Z.to_nat r)) ;;
         rest <- read_to_end turns' fdr buf n ;;
         c_ret (chunk ++ rest))
  end.

End files.

Section facts.
Context {L : Layout}.

Lemma get_fd_some k i f :
  fd (kfiles k) !! i = Some f -> get_fd (Z.of_nat i) k = Ret f k.
Proof. intros Hi. unfold get_fd. by rewrite lookupZ_nat, Hi. Qed.

Lemma createFD_from_spec n i d fops k :
  files_ok (kfiles k) -> (i + n = 8)%nat -> (2 <= i)%nat ->
  (forall j f, (2 <= j < i)%nat -> fd (kfiles k) !! j = Some f -> flags f <> 0) ->
  (exists j, first_free (fd (kfiles k)) j /\
     createFD_from n (Z.of_nat i) d fops k
     = Ret (Z.of_nat j) (set_fd k (<[j := File fops (if d =? 2 then inode (dt (kfiles k)) else 0) 0 1]>
                                     (fd (kfiles k))))) \/
  (createFD_from n (Z.of_nat i) d fops k = Ret (-1) k /\
   forall j f, (2 <= j)%nat -> fd (kfiles k) !! j = Some f -> flags f <> 0).
Proof.
  intros Hok. revert i. induction n as [|n IH]; intros i Hin Hi Hbefore.
  - right. split; [done|]. intros j f Hj Hf. apply (Hbefore j f); [|done].
    apply lookup_lt_Some in Hf. rewrite (fd_length _ Hok) in Hf. lia.
  - destruct (lookup_lt_is_Some_2 (fd (kfiles k)) i) as [f Hf];
      [rewrite (fd_length _ Hok); lia|].
    cbn [createFD_from]. rewrite (c_bind_ret _ _ _ _ _ (get_fd_some _ _ _ Hf)).
    destruct (Z.eqb_spec (flags f) 0) as [E|E].
    + left. exists i. split; [split_and!; [by exists f|done|done]|].
      unfold put_fd, c_bind, c_get, c_mod, c_ret. by rewrite Nat2Z.id.
    + replace (Z.of_nat i + 1) with (Z.of_nat (S i)) by lia. apply IH; [lia|lia|].
      intros j g Hj Hg. destruct (decide (j = i)) as [->|]; [congruence|].
      apply (Hbefore j g); [lia|done].
Qed.

Lemma files_ok_put f i e :
  files_ok f -> fd_entry_ok i e ->
  files_ok (Files (<[i := e]> (fd f)) (dt f) (trfotp f) (twfotp f) (rfotp f) (dfotp f) (ffotp f)).
Proof.
  intros [Hl He Ht] Hi. split; [by rewrite <-Hl; apply length_insert| |done].
  intros j g Hg. cbn [fd] in Hg. destruct (decide (i = j)) as [->|Hne].
  - apply lookup_lt_Some in Hg as Hlt. rewrite length_insert in Hlt.
    rewrite list_lookup_insert_eq in Hg by done. by simplify_eq.
  - rewrite list_lookup_insert_ne in Hg by done. by apply He.
Qed.

Lemma files_ok_set_dt k d : files_ok (kfiles k) -> files_ok (kfiles (set_dt k d)).
Proof. by intros []; split. Qed.

(** The descriptor [createFD] gives out. *)
Definition new_file (f : files) (d : Z) : file_t :=
  File (if d =? 0 then rfotp f else if d =? 1 then dfotp f else ffotp f)
       (if d =? 2 then inode (dt f) else 0) 0 1.

Lemma createFD_spec d k :
  files_ok (kfiles k) ->
  (exists j, first_free (fd (kfiles k)) j /\
     createFD d k = Ret (Z.of_nat j) (set_fd k (<[j := new_file (kfiles k) d]> (fd (kfiles k))))) \/
  (createFD d k = Ret (-1) k /\
   forall j f, (2 <= j)%nat -> fd (kfiles k) !! j = Some f -> flags f <> 0).
Proof.
  intros Hok. unfold createFD, new_file. unfold c_bind at 1, c_get.
  apply (createFD_from_spec 6 2); [done|done|lia|]. intros j f Hj. lia.
Qed.

Lemma new_file_ok f d i : files_ok f -> fd_entry_ok i (new_file f d).
Proof.
  intros [_ _ (Hr & Hd & Hf)]. split; [by right|]. intros _ _. simpl. rewrite Hr, Hd, Hf.
  destruct (d =? 0); [by left|]. destruct (d =? 1); [by right; left|by right; right].
Qed.

Lemma open_spec fname l k :
  files_ok (kfiles k) -> cstr (kmach k) fname l -> fname <> 0 ->
  exists r k', open fname k = Ret r k' /\ files_ok (kfiles k') /\ kmach k' = kmach k /\
    ((r = -1 /\ fd (kfiles k') = fd (kfiles k) /\
      forall i, 0 <= i < num_dentries (FSYSTEM k) (kmach k) ->
        dentry_name (FSYSTEM k) (kmach k) i <> take 32 l) \/
     (exists d, found (FSYSTEM k) (kmach k) (take 32 l) (dt (kfiles k)) d 0 /\
        ((exists j, r = Z.of_nat j /\ first_free (fd (kfiles k)) j /\
            fd (kfiles k') = <[j := new_file (kfiles (set_dt k d)) (ftype d)]> (fd (kfiles k))) \/
         (r = -1 /\ fd (kfiles k') = fd (kfiles k) /\
            forall j f, (2 <= j)%nat -> fd (kfiles k) !! j = Some f -> flags f <> 0)))).
Proof.
  intros Hok Hl Hf. unfold open.
  pose proof (read_dentry_by_name_found (FSYSTEM k) (kmach k) fname l (dt (kfiles k)) Hl Hf) as Hr.
  destruct (read_dentry_by_name _ fname _ (kmach k)) as [r d] eqn:Er.
  assert (lookup_dt fname k = Ret r (set_dt k d)) as El by (unfold lookup_dt; by rewrite Er).
  rewrite (c_bind_ret _ _ _ _ _ El).
  destruct Hr as [[-> Hd]|(-> & -> & Hn)]; cbn [Z.eqb Pos.eqb].
  - unfold c_bind, c_get. change (dt (kfiles (set_dt k d))) with d.
    assert (files_ok (kfiles (set_dt k d))) as Hok' by by apply files_ok_set_dt.
    destruct (createFD_spec (ftype d) (set_dt k d) Hok') as [(j & Hj & ->)|[-> Hfull]].
    + do 2 eexists. split; [reflexivity|]. split_and!; [|done|].
      * apply (files_ok_put (kfiles (set_dt k d))); [done|by apply new_file_ok].
      * right. exists d. split; [left; split; [done|exact Hd]|]. left. by exists j.
    + do 2 eexists. split; [reflexivity|]. split_and!; [done|done|].
      right. exists d. split; [left; split; [done|exact Hd]|]. by right.
  - do 2 eexists. split; [reflexivity|].
    split_and!; [by apply files_ok_set_dt|done|]. left. done.
Qed.

Lemma close_spec i f k :
  files_ok (kfiles k) -> (2 <= i < 8)%nat -> fd (kfiles k) !! i = Some f ->
  close (Z.of_nat i) k
  = if flags f =? 0 then Ret (-1) k
    else Ret 0 (set_fd k (<[i := File (fotp f) (f_inode f) (fposition f) 0]> (fd (kfiles k)))).
Proof.
  intros Hok Hi Hf. unfold close. rewrite !(proj2 (Z.leb_le _ _)) by lia. cbn [andb].
  rewrite (c_bind_ret _ _ _ _ _ (get_fd_some _ _ _ Hf)).
  destruct (Z.eqb_spec (flags f) 0) as [E|E]; [done|].
  destruct (fd_entries _ Hok i f Hf) as [Hfl Ht].
  destruct Ht as [Ht|[Ht|Ht]]; [lia|lia|..];
    unfold put_fd, c_bind, c_mod; rewrite Nat2Z.id, Ht; done.
Qed.

(** *** Reading through a descriptor *)

Lemma file_read_spec i f buf n size k :
  fd (kfiles k) !! i = Some f ->
  image_within (FSYSTEM k) (kmach k) size ->
  0 <= f_inode f < boot_inodes (FSYSTEM k) (kmach k) -> buf <> 0 ->
  0 <= fposition f -> 0 <= n < 2147483648 ->
  off_image (FSYSTEM k) (kmach k) size buf n -> inj_on (kmach k) buf n ->
  let sz := file_size (FSYSTEM k) (kmach k) (f_inode f) in
  let r := Z.max 0 (Z.min n (sz - fposition f)) in
  exists m',
    file_read (Z.of_nat i) buf n k
    = Ret r (set_fd (set_kmach k m')
        (<[i := File (fotp f) (f_inode f) (u32 (fposition f + r)) (flags f)]> (fd (kfiles k)))) /\
    m' = store_bytes (kmach k) buf
           (take (Z.to_nat r) (drop (Z.to_nat (fposition f))
              (file_content (FSYSTEM k) (kmach k) (f_inode f)))).
Proof.
  intros Hf Hiw Hi Hb Hp Hn Hoff Hinj sz r. unfold file_read.
  rewrite (c_bind_ret _ _ _ _ _ (get_fd_some _ _ _ Hf)).
  rewrite u32_small by lia. unfold c_bind at 1.
  rewrite (read_data_slice (FSYSTEM k) (kmach k) size (f_inode f) (fposition f) buf n);
    [|done..|eapply off_image_sub; [done|exact Hoff|lia|lia]].
  fold sz r. eexists. split; [|reflexivity].
  unfold add_position, c_bind, c_ret.
  rewrite (get_fd_some _ i f) by done. unfold put_fd, c_mod. rewrite Nat2Z.id. done.
Qed.

(** A kernel state whose descriptor [i] reads the file of inode [ino] from [p] on,
    with a buffer away from the image. *)
Record reading (k : kernel) (i : nat) (ino p buf n size : Z) : Prop := {
  rd_fd : exists f, fd (kfiles k) !! i = Some f /\ f_inode f = ino /\ fposition f = p;
  rd_image : image_within (FSYSTEM k) (kmach k) size;
  rd_inode : 0 <= ino < boot_inodes (FSYSTEM k) (kmach k);
  rd_off : off_image (FSYSTEM k) (kmach k) size buf n;
  rd_inj : inj_on (kmach k) buf n;
}.

(** One read: the next slice in the buffer, and the position after it. *)
Lemma file_read_step k i ino p buf n size :
  reading k i ino p buf n size -> buf <> 0 -> 0 <= p -> 0 <= n < 2147483648 ->
  let content := file_content (FSYSTEM k) (kmach k) ino in
  let r := Z.max 0 (Z.min n (Z.of_nat (length content) - p)) in
  exists k', file_read (Z.of_nat i) buf n k = Ret r k' /\
    load_bytes (kmach k') buf (Z.to_nat r) = take (Z.to_nat r) (drop (Z.to_nat p) content) /\
    reading k' i ino (u32 (p + r)) buf n size /\ FSYSTEM k' = FSYSTEM k /\
    file_content (FSYSTEM k) (kmach k') ino = content.
Proof.
  intros [(f & Hf & <- & <-) Hiw Hi Hoff Hinj] Hb Hp Hn content r.
  destruct (file_read_spec i f buf n size k Hf Hiw Hi Hb Hp Hn Hoff Hinj) as (m' & Hr & Hm').
  assert (Z.of_nat (length content) = file_size (FSYSTEM k) (kmach k) (f_inode f)) as Hlen.
  { unfold content. rewrite file_content_length. pose proof (ld32_range (kmach k) (inode_at (FSYSTEM k) (f_inode f))).
    unfold file_size. lia. }
  set (r' := Z.max 0 (Z.min n (file_size (FSYSTEM k) (kmach k) (f_inode f) - fposition f))) in *.
  assert (r = r') as -> by (unfold r; by rewrite Hlen).
  assert (0 <= r' <= n) as Hr' by lia.
  set (l := take _ _) in Hm'.
  assert (length l = Z.to_nat r') as Hll.
  { unfold l. fold content. rewrite length_take, length_drop. unfold r'. rewrite <-Hlen. lia. }
  assert (image_same (FSYSTEM k) (kmach k) m' size) as Hs.
  { subst m'. apply image_same_store. eapply off_image_sub; [done|exact Hoff|lia|lia]. }
  assert (boot_inodes (FSYSTEM k) m' = boot_inodes (FSYSTEM k) (kmach k)) as Hbi.
  { eapply image_same_inodes; [exact Hs|]. pose proof (iw_inodes _ _ _ Hiw).
    unfold sizeof_boot_t, sizeof_inode_t in *. lia. }
  eexists. split; [exact Hr|]. cbn [kmach con set_fd set_kmach set_con set_kfiles mach set_mach].
  split_and!; [| |done|].
  - transitivity l; [|done]. subst m'. rewrite <-Hll. rewrite store_bytes_load.
    + apply map_u8_id. unfold l. apply Forall_take, Forall_drop, file_content_bytes.
    + eapply inj_on_sub; [exact Hinj|lia|lia].
  - split; cbn [kmach con set_fd set_kmach set_con set_kfiles mach set_mach kfiles fd FSYSTEM].
    + eexists. split; [apply list_lookup_insert_eq; by eapply lookup_lt_Some|by split].
    + by eapply image_same_within.
    + by rewrite Hbi.
    + eapply off_image_sub; [|exact Hoff|lia|lia]. intros x. subst m'. apply cell_store_bytes.
    + intros x y Hx Hy. subst m'. rewrite !cell_store_bytes. by apply Hinj.
  - by apply (image_same_content (FSYSTEM k) (kmach k) size).
Qed.

Lemma read_to_end_from turns k i ino p buf n size :
  reading k i ino p buf n size -> buf <> 0 -> 0 < n < 2147483648 ->
  let content := file_content (FSYSTEM k) (kmach k) ino in
  0 <= p <= Z.of_nat (length content) ->
  Z.of_nat (length content) - p < Z.of_nat turns ->
  exists k', read_to_end turns (Z.of_nat i) buf n k = Ret (drop (Z.to_nat p) content) k'.
Proof.
  revert k p. induction turns as [|turns IH]; intros k p Hrd Hb Hn content Hp Ht; [lia|].
  destruct (file_read_step k i ino p buf n size Hrd Hb ltac:(lia) ltac:(lia))
    as (k' & Hr & Hl & Hrd' & Hfs & Hc). fold content in Hr, Hl, Hc. set (r := Z.max 0 _) in *.
  cbn [read_to_end]. rewrite (c_bind_ret _ _ _ _ _ Hr).
  destruct (Z.eqb_spec r 0) as [E|E].
  - exists k'. rewrite drop_ge by lia. done.
  - pose proof (file_content_length (FSYSTEM k) (kmach k) ino) as Hfl. fold content in Hfl.
    pose proof (ld32_range (kmach k) (inode_at (FSYSTEM k) ino)) as Hsz.
    change (ld32 (kmach k) (inode_at (FSYSTEM k) ino)) with (file_size (FSYSTEM k) (kmach k) ino) in Hsz.
    rewrite u32_small in Hrd' by lia.
    destruct (IH k' (p + r) Hrd' Hb Hn) as (k2 & Hk2); rewrite ?Hfs, ?Hc; [lia|lia|].
    rewrite Hfs, Hc in Hk2. exists k2. unfold c_bind, c_get, c_ret. rewrite Hk2, Hl.
    f_equal. rewrite <-(take_drop (Z.to_nat r) (drop (Z.to_nat p) content)) at 2.
    f_equal. rewrite drop_drop. f_equal. lia.
Qed.

End facts.

Section contract.
Context {L : Layout}.

(** C13: [open] answers the lowest free descriptor from 2 up, set to position 0
    with the operations and, for a file, the inode of the first directory entry
    of that name; -1 with the table unchanged when no entry has the name or no
    descriptor is free; the table stays well formed and memory is not touched. *)
Theorem open_correct fname l k :
  files_ok (kfiles k) -> cstr (kmach k) fname l -> fname <> 0 ->
  exists r k', open fname k = Ret r k' /\ files_ok (kfiles k') /\ kmach k' = kmach k /\
    ((r = -1 /\ fd (kfiles k') = fd (kfiles k) /\
      forall i, 0 <= i < num_dentries (FSYSTEM k) (kmach k) ->
        dentry_name (FSYSTEM k) (kmach k) i <> take 32 l) \/
     (exists d, found (FSYSTEM k) (kmach k) (take 32 l) (dt (kfiles k)) d 0 /\
        ((exists j, r = Z.of_nat j /\ first_free (fd (kfiles k)) j /\
            fd (kfiles k') = <[j := new_file (kfiles (set_dt k d)) (ftype d)]> (fd (kfiles k))) \/
         (r = -1 /\ fd (kfiles k') = fd (kfiles k) /\
            forall j f, (2 <= j)%nat -> fd (kfiles k) !! j = Some f -> flags f <> 0)))).
Proof. apply open_spec. Qed.

(** C31: [close] frees a descriptor in use between 2 and 7 and answers 0, answers
    -1 and changes nothing for one that is free and for every number outside 2 to
    8, and reads past the end of the table for 8; the table stays well formed. *)
Theorem close_correct fdr k :
  files_ok (kfiles k) ->
  (2 <= fdr < 8 -> exists f, fd (kfiles k) !! Z.to_nat fdr = Some f /\
     ((flags f = 0 /\ close fdr k = Ret (-1) k) \/
      (flags f = 1 /\ exists k', close fdr k = Ret 0 k' /\ files_ok (kfiles k') /\
         fd (kfiles k') = <[Z.to_nat fdr := File (fotp f) (f_inode f) (fposition f) 0]> (fd (kfiles k))))) /\
  (fdr < 2 \/ 8 < fdr -> close fdr k = Ret (-1) k) /\
  (fdr = 8 -> close fdr k = Undef).
Proof.
  intros Hok. split_and!.
  - intros Hf. assert (fdr = Z.of_nat (Z.to_nat fdr)) as Ei by lia.
    remember (Z.to_nat fdr) as i eqn:E. clear E. subst fdr.
    destruct (lookup_lt_is_Some_2 (fd (kfiles k)) i) as [f Hl];
      [rewrite (fd_length _ Hok); lia|].
    exists f. split; [done|]. destruct (fd_entries _ Hok _ _ Hl) as [[Hfl|Hfl] _].
    + left. split; [done|]. rewrite (close_spec _ f k Hok) by (done || lia). by rewrite Hfl.
    + right. split; [done|]. rewrite (close_spec _ f k Hok) by (done || lia). rewrite Hfl.
      eexists. split; [reflexivity|]. split; [|done].
      apply files_ok_put; [done|]. split; [by left|done].
  - intros [Hf|Hf]; unfold close.
    + by rewrite (proj2 (Z.leb_gt 2 _)) by lia.
    + by rewrite (proj2 (Z.leb_gt fdr 8)), andb_false_r by lia.
  - intros ->. unfold close. cbn [Z.leb Z.compare andb Pos.compare Pos.compare_cont].
    unfold c_bind at 1, get_fd, c_some. unfold lookupZ. cbn [Z.ltb Z.compare].
    rewrite lookup_ge_None_2; [done|]. rewrite (fd_length _ Hok). done.
Qed.

(** C11: reading a file through its descriptor, [n] bytes at a time until a read
    answers 0, delivers the rest of the file from the current position, byte for
    byte and whatever the chunk size, and terminates. *)
Theorem file_read_to_end turns k i ino p buf n size :
  reading k i ino p buf n size -> buf <> 0 -> 0 < n < 2147483648 ->
  let content := file_content (FSYSTEM k) (kmach k) ino in
  0 <= p <= Z.of_nat (length content) ->
  Z.of_nat (length content) - p < Z.of_nat turns ->
  exists k', read_to_end turns (Z.of_nat i) buf n k = Ret (drop (Z.to_nat p) content) k'.
Proof. apply read_to_end_from. Qed.

End contract.

(** ** Example: a kernel that has started, with the example image loaded *)

#[local] Existing Instance demo_layout.
#[local] Existing Instance demo_layout_ok.

Definition started_files : files :=
  Files ([File stdin_fops 0 0 1; File stdout_fops 0 1 1] ++ replicate 6 null_file) (Dentry 0 0 0)
    stdin_fops stdout_fops rtc_fops directory_fops file_fops.

Definition blank_procs : procs := Procs 0 (replicate 6 0) 0 (Dentry 0 0 0) 0 ∅ 0x800000.
Definition blank_sched : sched :=
  Sched 1 1 (replicate 3 (Saved 0 0 0 0)) 0 (replicate 3 null_process).

(** [m] is the memory: the example image at [demo_fs], read without paging. *)
Definition demo_kernel (m : flat) (f : files) : kernel :=
  Kernel (Console (Machine m ∅ ∅ ∅ false false true []) 0 0 0 0) demo_fs f blank_procs
    blank_sched (Keys 0 0 0 0) 0 0.

Lemma started_files_ok : files_ok started_files.
Proof.
  split; [done| |done]. intros i e Hi.
  do 8 (destruct i as [|i]; [simplify_eq/=; split; [by (left + right)|simpl; lia]|]). done.
Qed.

Lemma open_correct_witness :
  exists r k', open 0x100 (demo_kernel asking_image started_files) = Ret r k' /\ files_ok (kfiles k').
Proof.
  destruct (open_correct 0x100 (chars "frame0.txt"%string) (demo_kernel asking_image started_files))
    as (r & k' & Ho & Hok & _); [exact started_files_ok| |done|exists r, k'; split; [exact Ho|exact Hok]].
  split; [apply bytes_at_load; vm_compute; reflexivity|].
  apply (bool_decide_unpack _). vm_compute. exact I.
Defined.

Lemma close_correct_witness :
  close 4 (demo_kernel demo_image started_files) = Ret (-1) (demo_kernel demo_image started_files) /\
  close 8 (demo_kernel demo_image started_files) = Undef.
Proof.
  destruct (close_correct 4 (demo_kernel demo_image started_files) started_files_ok) as (H & _ & _).
  destruct (close_correct 8 (demo_kernel demo_image started_files) started_files_ok) as (_ & _ & H8).
  split; [|exact (H8 eq_refl)].
  destruct (H ltac:(lia)) as (f & Hf & [[_ Hc]|[Hc _]]); [exact Hc|].
  vm_compute in Hf. injection Hf as <-. discriminate Hc.
Defined.

(** Descriptor 2 is the file of inode 1. *)
Definition reading_files : files :=
  Files (<[2%nat := File file_fops 1 0 1]> (fd started_files)) (Dentry 0 0 0)
    stdin_fops stdout_fops rtc_fops directory_fops file_fops.

Lemma demo_machine_image :
  image_within demo_fs (kmach (demo_kernel demo_image reading_files)) (6 * 4096).
Proof. check_demo_image (kmach (demo_kernel demo_image reading_files)). Qed.

Lemma demo_cell m f a :
  0 <= a < 4294967296 -> cell (kmach (demo_kernel m f)) a = a.
Proof. intros Ha. unfold cell. simpl. unfold phys, translate. by rewrite u32_small. Qed.

Lemma demo_reading : reading (demo_kernel demo_image reading_files) 2 1 0 0x200 1000 (6 * 4096).
Proof.
  split; [by eexists|exact demo_machine_image|vm_compute; split; [discriminate|reflexivity]|..].
  - intros j Hj i Hi. change (FSYSTEM (demo_kernel demo_image reading_files)) with 0x10000.
    rewrite !demo_cell by lia. lia.
  - intros i j Hi Hj. rewrite !demo_cell by lia. lia.
Qed.

Lemma file_read_to_end_witness :
  exists l k', read_to_end 5000 2 0x200 1000 (demo_kernel demo_image reading_files) = Ret l k' /\
    length l = 4100%nat /\ drop 4090 l = chars "Hello fish"%string.
Proof.
  destruct (file_read_to_end 5000 _ 2 1 0 0x200 1000 (6 * 4096) demo_reading) as (k' & Hr);
    [done|lia|rewrite file_content_length; vm_compute; split; discriminate|
     rewrite file_content_length; vm_compute; reflexivity|].
  eexists _, k'. split; [exact Hr|]. split; vm_compute; reflexivity.
Defined.
