(* ===== verification/Process.v ===== *)
(** * Processes: execute and halt (student-distrib/syscall.c, wrappers.S)

    [parse_arg], [checkFile], [setPnum], [setupPage], [loadFile], [createPCB],
    [execute], [halt] and the system calls that only look at the process:
    [getargs], [vidmap], [set_handler] and [sigreturn].  A PCB is a record kept
    under its address, the bottom of the 32 KB kernel stack of its process; the
    names [filename] and [arg] are arrays in memory. *)
From Stdlib Require Import ZArith Lia String.
From stdpp Require Import base list gmap numbers.
From S2P Require Import Prelude ByteMem LibString Machine Paging Devices Console Filesystem Kernel FileTable.

#[local] Open Scope c_scope.

Definition KERNELBOT : Z := 0x800000.
Definition STACKSIZE : Z := 0x8000.
Definition EXEC_LOCATION : Z := 0x08048000.
Definition TASK_SIZE : Z := 1024 * 4096.
Definition RESERV_CODE : Z := 0x87.
Definition CONTEXTSWITCH_OFF : Z := 24.
Definition VM_VIRTUAL_OFF : Z := 32.
Definition USER_VIDEO : Z := 0x084B8000.

(** The bytes of the C string at [p]. *)
Definition read_cstr `{Layout} (m : machine) (p : Z) : option (list Z) :=
  n ← strlen m p; Some (load_bytes m p (Z.to_nat n)).

Section process.
Context {L : Layout} {FR : Frames}.

(** ** The arguments of execute *)

(** The inner loop of [parse_arg]: [while (buf[c] != '\0' && buf[c] != ' ')]. *)
Definition copy_word (buf curr i c : Z) (m : machine) : option (Z * Z * machine) :=
  while (fun '(i, c, m) =>
    let b := ld m (buf + c) in
    if (b =? 0) || (b =? 32) then inr (i, c, m)
    else inl (i + 1, c + 1, st m (curr + i) b)) (i, c, m).

(** One turn of the outer loop.  The end of the argument does not end the loop:
    only [i] reaching 32, or the end of the string in the program's name, does. *)
Definition parse_step (buf : Z) : Z * Z * Z * machine -> (Z * Z * Z * machine) + option machine :=
  fun '(i, c, curr, m) =>
    if i <? 32 then
      match copy_word buf curr i c m with
      | None => inr None
      | Some (i, c, m) =>
          let m := st m (curr + i) 0 in
          if ld m (buf + c) =? 32 then inl (-1 + 1, c + 1, arg_at, m)
          else if curr =? filename_at then inr (Some (st m arg_at 0))
          else inl (i + 1, c + 1, curr, m)
      end
    else inr (Some m).

Definition parse_arg (buf : Z) (m : machine) : option machine :=
  r ← while (parse_step buf) (0, 0, filename_at, m);
  r.

(** ** The steps of execute *)

(** [buf] is a local array: a file of less than four bytes leaves in it what the
    stack held. *)
Definition checkFile (fname : Z) : C Z := fun k =>
  let '(r, d) := read_dentry_by_name (FSYSTEM k) fname (dentry (kprocs k)) (kmach k) in
  let k := set_dentry k d in
  if truth r then Ret (-1) k
  else
    let buf := check_buf_at in
    let '(_, m) := read_data (FSYSTEM k) (inode d) 0 buf 4 (kmach k) in
    let k := set_kmach k m in
    if (ld m buf =? 0x7f) && (ld m (buf + 1) =? 0x45) && (ld m (buf + 2) =? 0x4c)
       && (ld m (buf + 3) =? 0x46) then Ret 0 k
    else Ret (-1) k.

Definition take_slot (i : Z) (k : kernel) : kernel :=
  set_pnum (set_pnumarr k (<[Z.to_nat i := 1]> (pnumarr (kprocs k)))) i.

Definition slot_free (i : Z) (k : kernel) : bool :=
  match lookupZ (pnumarr (kprocs k)) i with Some v => v =? 0 | None => false end.

(** [for (i = 3; i < 6; i++)] *)
Fixpoint shared_slot (n : nat) (i : Z) (k : kernel) : Z * kernel :=
  match n with
  | O => (-1, k)
  | S n' => if slot_free i k then (0, take_slot i k) else shared_slot n' (i + 1) k
  end.

Definition setPnum (k : kernel) : Z * kernel :=
  let indicator := indicator (ksched k) in
  if (indicator =? 1) && slot_free 0 k then (0, take_slot 0 k)
  else if (indicator =? 2) && slot_free 1 k then (0, take_slot 1 k)
  else if (indicator =? 3) && slot_free 2 k then (0, take_slot 2 k)
  else shared_slot 3 3 k.

Definition setupPage (k : kernel) : kernel :=
  let k := set_addrPage k (KERNEL + TASK_SIZE * (pnum (kprocs k) + 1)) in
  let k := set_kmach k (setupPagingDirectory RESERV_CODE (addrPage (kprocs k)) VM_VIRTUAL_OFF (kmach k)) in
  set_kmach k (flushTLB (kmach k)).

Definition parentPage (k : kernel) : kernel :=
  let k := set_addrPage k (KERNEL + TASK_SIZE * (pnum (kprocs k) + 1)) in
  let k := set_kmach k (setupPagingDirectory RESERV_CODE (addrPage (kprocs k)) VM_VIRTUAL_OFF (kmach k)) in
  set_kmach k (flushTLB (kmach k)).

Definition loadFile (k : kernel) : kernel :=
  set_kmach k (snd (read_data (FSYSTEM k) (inode (dentry (kprocs k))) 0 EXEC_LOCATION TASK_SIZE (kmach k))).

(** [while (i < 3 && head != NULL) { if (curr->screen == indicator) ... }] *)
Fixpoint find_screen (n : nat) (curr : Z) : C (option Z) :=
  match n with
  | O => c_ret None
  | S n' =>
      (ind <- c_get (fun k => indicator (ksched k)) ;;
       p <- (fun k => c_some (get_process k curr) k) ;;
       if pscreen p =? ind then c_ret (Some curr) else find_screen n' (next p))
  end.

Definition screen_process : C (option Z) :=
  h <- c_get (fun k => head (ksched k)) ;;
  if h =? 0 then c_ret None else find_screen 3 h.

Definition pcb_at (pnum : Z) : Z := KERNELBOT - STACKSIZE * (pnum + 1).
Definition stack_top (pnum : Z) : Z := KERNELBOT - STACKSIZE * pnum - 1.

(** The PCB at the bottom of the process's kernel stack; the fields it does not
    assign keep what was there. *)
Definition fill_pcb : C Z :=
  k <- c_get (fun k => k) ;;
  let pnum := pnum (kprocs k) in
  let a := pcb_at pnum in
  name <- c_some (read_cstr (kmach k) filename_at) ;;
  (if 32 <=? Z.of_nat (List.length name) then c_undef
   else
     let old := default null_pcb (get_pcb k a) in
     c_mod (fun k => put_pcb k a
       (Pcb (fd (kfiles k)) pnum name (stack_top pnum) (curr_pcb (kprocs k))
            (oldebp old) (oldesp old) (haltebp old) (haltesp old))) ;;;
     c_ret a).

(** [process_i.pcb = curr_pcb; ...] for a terminal that has no process yet. *)
Definition new_process (p next : Z) : C unit := c_mod (fun k =>
  let top := stack_top (pnum (kprocs k)) in
  put_process k p (Process (curr_pcb (kprocs k)) (indicator (ksched k)) top top next)).

Definition set_next (p n : Z) : C unit := fun k =>
  match get_process k p with
  | None => Undef
  | Some q => Ret tt (put_process k p (Process (pcb q) (pscreen q) (pebp q) (pesp q) n))
  end.

(** The two branches on [found]; the answer is the local variable [save]. *)
Definition enter_ring (found : option Z) : C Z :=
  match found with
  | None =>
      active <- c_get (fun k => active (ksched k)) ;;
      if active =? 1 then
        new_process 1 1 ;;;
        c_mod (fun k => set_head k 1) ;;;
        c_ret 1
      else if active =? 2 then
        new_process 2 1 ;;;
        set_next 1 2 ;;;
        c_mod (fun k => set_head k 2) ;;;
        c_ret 1
      else if active =? 3 then
        new_process 3 1 ;;;
        set_next 2 3 ;;;
        save <- c_get (fun k => head (ksched k)) ;;
        c_mod (fun k => set_head k 3) ;;;
        c_ret save
      else c_undef
  | Some curr =>
      q <- (fun k => c_some (get_process k curr) k) ;;
      c_mod (fun k =>
        let top := stack_top (pnum (kprocs k)) in
        put_process k curr (Process (curr_pcb (kprocs k)) (pscreen q) top top (next q))) ;;;
      c_mod (fun k => set_head k curr) ;;;
      c_ret curr
  end.

(** Save and the stores of contextSwitch, through [save->pcb]. *)
Definition update_pcb (save : Z) (f : pcb_t -> pcb_t) : C unit := fun k =>
  match get_process k save with
  | None => Undef
  | Some q =>
      match get_pcb k (pcb q) with
      | None => Undef
      | Some p => Ret tt (put_pcb k (pcb q) (f p))
      end
  end.

Definition set_old (esp ebp : Z) (p : pcb_t) : pcb_t :=
  Pcb (pcb_fd p) (pid p) (pcb_filename p) (stack p) (parent p) ebp esp (haltebp p) (haltesp p).
Definition set_halt (esp ebp : Z) (p : pcb_t) : pcb_t :=
  Pcb (pcb_fd p) (pid p) (pcb_filename p) (stack p) (parent p) (oldebp p) (oldesp p) ebp esp.

Definition createPCB (base : Z) : C Z :=
  a <- fill_pcb ;;
  c_mod (fun k => set_curr_pcb k a) ;;;
  c_mod (fun k => set_esp0 k (stack_top (pnum (kprocs k)))) ;;;
  found <- screen_process ;;
  save <- enter_ring found ;;
  entry <- c_get (fun k => ld32 (kmach k) (EXEC_LOCATION + CONTEXTSWITCH_OFF)) ;;
  match found with
  | None =>
      update_pcb save (set_old (switch_esp base) (switch_ebp base)) ;;;
      c_leave (ToUser entry)
  | Some _ =>
      update_pcb save (set_old (save_esp base) (save_ebp base)) ;;;
      update_pcb save (set_halt (switch_esp base) (switch_ebp base)) ;;;
      c_leave (ToUser entry)
  end.

(** What createPCB and execute still do when retToPar returns into them. *)
Definition resume_execute (eax : Z) : C Z := c_ret 0.

(** A message of the kernel: [printf] of a literal without conversions. *)
Definition print (s : string) : C unit := c_console (putcs (chars s)).

Definition execute (base buf : Z) : C Z :=
  m <- (fun k => c_some (parse_arg buf (kmach k)) k) ;;
  c_mod (fun k => set_kmach k m) ;;;
  r <- checkFile filename_at ;;
  if truth r then c_ret (-1)
  else
    r <- (fun k => let '(r, k) := setPnum k in Ret r k) ;;
    if truth r then
      print "Too many processes. Execute exit!" ;;;
      c_console (putcs [10]) ;;;
      c_ret 0
    else
      c_mod setupPage ;;;
      c_mod loadFile ;;;
      initFOTP ;;;
      createPCB base.

(** ** halt *)

(** [for (j = 2; j < 8; j++) close(j);] *)
Fixpoint close_from (n : nat) (j : Z) : C unit :=
  match n with
  | O => c_ret tt
  | S n' => (_ <- close j ;; close_from n' (j + 1))
  end.

(** The ring when a process ends. *)
Definition leave_ring (found : option Z) : C unit :=
  match found with
  | None =>
      active <- c_get (fun k => active (ksched k)) ;;
      if active =? 2 then set_next 2 1
      else if active =? 1 then set_next 1 1
      else if active =? 0 then set_next 1 0 ;;; c_mod (fun k => set_head k 0)
      else c_ret tt
  | Some curr => fun k =>
      match get_process k curr with
      | None => Undef
      | Some q => Ret tt (put_process k curr
          (Process (curr_pcb (kprocs k)) (pscreen q) (pebp q) (pesp q) (next q)))
      end
  end.

Definition current_pcb : C pcb_t := fun k => c_some (get_pcb k (curr_pcb (kprocs k))) k.

Definition halt (base status : Z) : C Z :=
  c_mod (fun k => set_pnumarr k (<[Z.to_nat (pnum (kprocs k)) := 0]> (pnumarr (kprocs k)))) ;;;
  pnum <- c_get (fun k => pnum (kprocs k)) ;;
  (if pnum <? 3 then _ <- execute (halt_esp base) shell_at ;; c_ret tt else c_ret tt) ;;;
  child <- current_pcb ;;
  c_mod (fun k => set_esp0 k (oldesp child)) ;;;
  close_from 6 2 ;;;
  c_mod (fun k => set_curr_pcb k (parent child)) ;;;
  p <- current_pcb ;;
  c_mod (fun k => set_pnum k (pid p)) ;;;
  c_mod (fun k => set_fd k (pcb_fd p)) ;;;
  c_mach (fun m => store_bytes m filename_at (pcb_filename p ++ [0])) ;;;
  c_mod parentPage ;;;
  found <- screen_process ;;
  leave_ring found ;;;
  c_leave (ToFrame (haltesp child) (haltebp child) (u8 status)).

(** ** The calls that only look at the process *)

(** [while (arg[i] != '\0') { buf[i] = arg[i]; i++; }], then the terminator. *)
Definition copy_arg (buf : Z) (m : machine) : option machine := strcpy m buf arg_at.

(** The bound is compared as unsigned: a negative [nbytes] is a large one. *)
Definition getargs (buf nbytes : Z) : C Z := fun k =>
  if (u32 nbytes <=? 32) || (ld (kmach k) arg_at =? 0) then Ret (-1) k
  else
    match copy_arg buf (kmach k) with
    | None => Undef
    | Some m => Ret 0 (set_kmach k m)
    end.

Definition vidmap (screen_start : Z) : C Z := fun k =>
  if (screen_start =? 0) || (screen_start <? Z.quot EXEC_LOCATION 4) || (USER_VIDEO <=? screen_start)
  then Ret (-1) k
  else
    let k := set_addrPage k VIDEO in
    Ret 0 (set_kmach k (st32 (kmach k) screen_start
      (USER_VIDEO + indicator (ksched k) * 4096))).

Definition set_handler (signum handler_address : Z) : C Z := c_ret (-1).
Definition sigreturn : C Z := c_ret (-1).

End process.

(** ** The arguments *)

Section parse_facts.
Context {L : Layout} {LOK : LayoutOk}.
Implicit Type m : machine.

(** A byte of a word: not NUL and not a space. *)
Definition word_byte (b : Z) : Prop := b <> 0 /\ b <> 32 /\ 0 <= b < 256.

#[export] Instance word_byte_dec b : Decision (word_byte b).
Proof. apply _. Defined.

(** The bytes from [buf] on are [l], in cells away from the names. *)
Definition names_bytes (p : Z) : Prop :=
  filename_at <= p < filename_at + 32 \/ arg_at <= p < arg_at + 32.

Record command m (buf : Z) (l : list Z) : Prop := {
  cmd_bytes : bytes_at m buf l;
  cmd_off : forall j, 0 <= j < Z.of_nat (List.length l) -> ~ names_bytes (cell m (buf + j));
}.

Lemma names_cell m p : kernel_mapped m -> names_bytes p -> cell m p = p.
Proof.
  intros Hm Hp. destruct names_in_kernel as ([A1 A2] & [B1 B2] & _).
  apply cell_kernel; [done|]. destruct Hp; lia.
Qed.

Lemma command_st m buf l p v :
  kernel_mapped m -> names_bytes p -> command m buf l -> command (st m p v) buf l.
Proof.
  intros Hm Hp [Hb Ho]. split; [|exact Ho].
  intros i b Hi. rewrite ld_st_other; [by apply Hb|].
  rewrite (names_cell m p) by done. intros Hc. apply lookup_lt_Some in Hi.
  apply (Ho (Z.of_nat i)); [lia|]. by rewrite <-Hc.
Qed.

Lemma command_drop m buf l k :
  (k <= List.length l)%nat -> command m buf l -> command m (buf + Z.of_nat k) (drop k l).
Proof.
  intros Hk [Hb Ho]. split.
  - intros i b Hi. rewrite lookup_drop in Hi. rewrite <-(Hb _ _ Hi). f_equal. lia.
  - intros j Hj. rewrite length_drop in Hj. rewrite <-Z.add_assoc. apply Ho. lia.
Qed.

Lemma command_head m buf b l : command m buf (b :: l) -> ld m buf = b.
Proof. intros [Hb _]. rewrite <-(Z.add_0_r buf). by apply (Hb 0%nat). Qed.

Lemma copy_word_spec buf curr w d l i c m :
  kernel_mapped m -> command m (buf + c) (w ++ d :: l) -> Forall word_byte w -> d = 0 \/ d = 32 ->
  (forall j, 0 <= j < Z.of_nat (List.length w) -> names_bytes (curr + (i + j))) ->
  Z.of_nat (List.length w) < 4294967295 ->
  copy_word buf curr i c m
  = Some (i + Z.of_nat (List.length w), c + Z.of_nat (List.length w), store_bytes m (curr + i) w).
Proof.
  intros Hm Hc Hw Hd Hn Hlen. unfold copy_word. eapply (while_loopn (S (List.length w))); [|lia].
  clear Hlen. revert i c m Hm Hc Hn. induction Hw as [|b w (H0 & H32 & Hb) Hw IH]; intros i c m Hm Hc Hn.
  - cbn [loopn List.length store_bytes]. rewrite (command_head _ _ _ _ Hc).
    assert ((d =? 0) || (d =? 32) = true) as -> by (destruct Hd as [-> | ->]; done).
    by rewrite !Z.add_0_r.
  - change (List.length (b :: w)) with (S (List.length w)) at 1.
    remember (S (List.length w)) as n eqn:En. cbn [loopn].
    rewrite (command_head _ _ _ _ Hc).
    rewrite (proj2 (Z.eqb_neq b 0)), (proj2 (Z.eqb_neq b 32)) by done. cbn [orb].
    assert (names_bytes (curr + i)) as Hni.
    { replace (curr + i) with (curr + (i + 0)) by lia. apply Hn. cbn [List.length]. lia. }
    subst n. rewrite IH.
    + cbn [List.length store_bytes]. replace (curr + (i + 1)) with (curr + i + 1) by lia.
      do 3 f_equal; lia.
    + by apply kernel_mapped_st.
    + replace (buf + (c + 1)) with (buf + c + Z.of_nat 1) by lia.
      apply command_st; [done|done|]. apply (command_drop _ _ (b :: w ++ d :: l) 1); [simpl; lia|done].
    + intros j Hj. replace (curr + (i + 1 + j)) with (curr + (i + (1 + j))) by lia. apply Hn.
      cbn [List.length]. lia.
Qed.

Lemma command_store m buf l a k :
  kernel_mapped m -> (forall j, 0 <= j < Z.of_nat (List.length k) -> names_bytes (a + j)) ->
  command m buf l -> kernel_mapped (store_bytes m a k) /\ command (store_bytes m a k) buf l.
Proof.
  revert m a. induction k as [|b k IH]; intros m a Hm Hn Hc; [done|].
  assert (names_bytes a) as Ha.
  { rewrite <-(Z.add_0_r a). apply Hn. cbn [List.length]. lia. }
  apply IH; [by apply kernel_mapped_st| |by apply command_st].
  intros j Hj. rewrite <-Z.add_assoc. apply Hn. cbn [List.length]. lia.
Qed.

(** One turn of the outer loop over the word [w] and its delimiter [d]. *)
Lemma parse_step_word buf curr w d l i c m :
  kernel_mapped m -> command m (buf + c) (w ++ d :: l) -> Forall word_byte w -> d = 0 \/ d = 32 ->
  0 <= i -> i + Z.of_nat (List.length w) < 32 -> curr = filename_at \/ curr = arg_at ->
  let n := Z.of_nat (List.length w) in
  let m' := store_bytes m (curr + i) (w ++ [0]) in
  parse_step buf (i, c, curr, m)
  = (if d =? 32 then inl (0, c + n + 1, arg_at, m')
     else if curr =? filename_at then inr (Some (st m' arg_at 0))
     else inl (i + n + 1, c + n + 1, curr, m')) /\
  kernel_mapped m' /\ command m' (buf + (c + n + 1)) l.
Proof.
  intros Hm Hc Hw Hd Hi Hin Hcurr n m'.
  assert (forall j, 0 <= j < Z.of_nat (List.length (w ++ [0])) -> names_bytes (curr + i + j)) as Hn.
  { intros j Hj. rewrite length_app in Hj. simpl in Hj.
    destruct Hcurr as [-> | ->]; [left|right]; lia. }
  destruct (command_store m (buf + c) (w ++ d :: l) (curr + i) (w ++ [0]) Hm Hn Hc) as [Hm' Hc'].
  assert (command m' (buf + (c + n)) (d :: l)) as Hcd.
  { replace (buf + (c + n)) with (buf + c + Z.of_nat (List.length w)) by lia.
    pose proof (command_drop m' (buf + c) (w ++ d :: l) (List.length w) ltac:(rewrite length_app; lia) Hc') as Hx.
    by rewrite drop_app_length in Hx. }
  split; [|split; [exact Hm'|]].
  - unfold parse_step. rewrite (proj2 (Z.ltb_lt i 32)) by lia.
    assert (Z.of_nat (List.length w) < 4294967295) as Hlen by lia.
    rewrite (copy_word_spec buf curr w d l i c m); [|done|done|done|done| |done].
    + assert (st (store_bytes m (curr + i) w) (curr + (i + Z.of_nat (List.length w))) 0 = m') as ->.
      { unfold m'. rewrite store_bytes_app. cbn [store_bytes]. f_equal. lia. }
      fold n. rewrite (command_head _ _ _ _ Hcd). done.
    + intros j Hj. rewrite Z.add_assoc. apply Hn. rewrite length_app. lia.
  - replace (buf + (c + n + 1)) with (buf + (c + n) + Z.of_nat 1) by lia.
    apply (command_drop _ _ (d :: l) 1); [simpl; lia|done].
Qed.

(** After the argument's terminator the loop goes on over what follows it; NULs
    there only add terminators. *)
Lemma parse_tail buf k l i c m :
  kernel_mapped m -> (Z.of_nat k = 32 - i) -> 0 <= i ->
  command m (buf + c) (replicate k 0 ++ l) -> 
  loopn (S k) (parse_step buf) (i, c, arg_at, m)
  = inr (Some (store_bytes m (arg_at + i) (replicate k 0))).
Proof.
  revert i c m. induction k as [|k IH]; intros i c m Hm Hk Hi Hc.
  - cbn [loopn]. unfold parse_step. rewrite (proj2 (Z.ltb_ge i 32)) by lia. done.
  - remember (S k) as n eqn:En. cbn [loopn]. subst n.
    destruct (parse_step_word buf arg_at [] 0 (replicate k 0 ++ l) i c m Hm Hc) as (-> & Hm' & Hc');
      [constructor|by left|done|simpl; lia|by right|].
    cbn [Z.eqb]. destruct (Z.eqb_spec arg_at filename_at) as [E|E].
    { destruct names_disjoint as ([?|?] & _); lia. }
    cbn [List.length] in *. change (Z.of_nat 0) with 0 in *. rewrite !Z.add_0_r in *.
    rewrite IH by (done || lia). cbn [app store_bytes replicate]. do 2 f_equal. f_equal. lia.
Qed.

Lemma word_cstr m a w :
  kernel_mapped m -> in_kernel_page a 32 -> Z.of_nat (List.length w) < 32 -> Forall word_byte w ->
  cstr (store_bytes m a (w ++ [0])) a w.
Proof.
  intros Hm [Ha1 Ha2] Hl Hw. apply cstr_store.
  - apply kernel_inj_on; [done|done|lia].
  - eapply Forall_impl; [|exact Hw]. by intros b (? & _ & ?).
Qed.

(** Writing after the terminator of [arg], or in [arg], keeps the other strings. *)
Lemma cstr_store_names m a k p l :
  kernel_mapped m -> cstr m p l -> KERNEL <= a -> a + Z.of_nat (List.length k) <= 2 * KERNEL ->
  KERNEL <= p -> p + Z.of_nat (List.length l + 1) <= 2 * KERNEL ->
  a + Z.of_nat (List.length k) <= p \/ p + Z.of_nat (List.length l + 1) <= a ->
  cstr (store_bytes m a k) p l.
Proof. intros Hm Hc H1 H2 H3 H4 H5. apply cstr_store_apart; [|done]. by apply kernel_apart. Qed.

(** A write in the names leaves every other cell alone. *)
Lemma names_frame m a k x :
  kernel_mapped m -> (forall j, 0 <= j < Z.of_nat (List.length k) -> names_bytes (a + j)) ->
  ~ names_bytes x -> ram (store_bytes m a k) !! x = ram m !! x.
Proof.
  intros Hm Hn Hx. apply store_bytes_ram. intros i Hi Hc. apply Hx.
  rewrite <-Hc, (names_cell m) by (done || by apply Hn). by apply Hn.
Qed.

Lemma arg_bytes_at j : 0 <= j < 32 -> names_bytes (arg_at + j).
Proof. right. lia. Qed.

Lemma filename_bytes_at j : 0 <= j < 32 -> names_bytes (filename_at + j).
Proof. left. lia. Qed.

(** A command of one word. *)
Lemma parse_arg_word m buf w rest :
  kernel_mapped m -> Forall word_byte w -> Z.of_nat (List.length w) < 32 ->
  command m buf (w ++ 0 :: rest) ->
  parse_arg buf m = Some (st (store_bytes m filename_at (w ++ [0])) arg_at 0).
Proof.
  intros Hm Hw Hl Hc. unfold parse_arg.
  assert (command m (buf + 0) (w ++ 0 :: rest)) as Hc0 by by rewrite Z.add_0_r.
  destruct (parse_step_word buf filename_at w 0 rest 0 0 m Hm Hc0 Hw) as (Hs & _ & _);
    [by left|done|lia|by left|].
  rewrite Z.eqb_refl in Hs. cbn [Z.eqb] in Hs. rewrite !Z.add_0_r in Hs.
  apply (bind_some _ (fun r => r) (Some _)). apply (while_loopn 1); [|done].
  cbn [loopn]. by rewrite Hs.
Qed.

(** The memory after a command of two words. *)
Definition parsed m (w a : list Z) : machine :=
  store_bytes (store_bytes (store_bytes m filename_at (w ++ [0])) arg_at (a ++ [0]))
    (arg_at + Z.of_nat (List.length a) + 1) (replicate (31 - List.length a) 0).

Lemma parse_arg_two_words m buf w a rest :
  kernel_mapped m -> Forall word_byte w -> Forall word_byte a ->
  Z.of_nat (List.length w) < 32 -> Z.of_nat (List.length a) < 32 ->
  command m buf (w ++ 32 :: a ++ 0 :: replicate (31 - List.length a) 0 ++ rest) ->
  parse_arg buf m = Some (parsed m w a).
Proof.
  intros Hm Hw Ha Hlw Hla Hc. unfold parse_arg.
  set (k := (31 - List.length a)%nat) in *.
  assert (command m (buf + 0) (w ++ 32 :: a ++ 0 :: replicate k 0 ++ rest)) as Hc0 by by rewrite Z.add_0_r.
  destruct (parse_step_word buf filename_at w 32 _ 0 0 m Hm Hc0 Hw) as (Hs1 & Hm1 & Hc1);
    [by right|done|lia|by left|].
  rewrite !Z.add_0_r in *. cbn [Z.eqb Pos.eqb] in Hs1.
  set (m1 := store_bytes m filename_at (w ++ [0])) in *.
  destruct (parse_step_word buf arg_at a 0 _ 0 _ m1 Hm1 Hc1 Ha) as (Hs2 & Hm2 & Hc2);
    [by left|done|lia|by right|].
  destruct (Z.eqb_spec arg_at filename_at) as [E|E].
  { destruct names_disjoint as ([?|?] & _); lia. }
  cbn [Z.eqb] in Hs2. rewrite !Z.add_0_r in *.
  set (m2 := store_bytes m1 arg_at (a ++ [0])) in *.
  apply (bind_some _ (fun r => r) (Some _)). apply (while_loopn (S (S (S k)))); [|lia].
  remember (S k) as n eqn:En. cbn [loopn]. rewrite Hs1. cbn [loopn]. rewrite Hs2. subst n.
  rewrite (parse_tail _ k rest); [|done|lia|lia|exact Hc2].
  unfold parsed. fold m1. fold m2. fold k. do 3 f_equal; lia.
Qed.

Lemma store_ram_only m a l : ram_only m (store_bytes m a l).
Proof. apply store_bytes_closed; [intros; by apply ram_only_st|apply ram_only_refl]. Qed.

Lemma ram_only_mapped m m' : ram_only m m' -> kernel_mapped m -> kernel_mapped m'.
Proof. intros [Hs _]%ram_only_fields. by apply same_paging_mapped. Qed.

(** What a parser of arguments leaves: the two names, and nothing else changed. *)
Record names_hold m m' (w a : list Z) : Prop := {
  nh_filename : cstr m' filename_at w;
  nh_arg : cstr m' arg_at a;
  nh_ram : ram_only m m';
  nh_phys : forall p, ~ names_bytes p -> ram m' !! p = ram m !! p;
}.

Lemma nh_frame m m' w a x : names_hold m m' w a -> ~ names_bytes (cell m x) -> ld m' x = ld m x.
Proof.
  intros Hn Hx. pose proof (nh_phys _ _ _ _ Hn _ Hx) as Hp. rewrite (nh_ram _ _ _ _ Hn).
  unfold ld, cell, machine_mem in *. by rewrite phys_set_ram, <-Hp.
Qed.

Lemma names_hold_mapped m m' w a : names_hold m m' w a -> kernel_mapped m -> kernel_mapped m'.
Proof. intros Hn. apply ram_only_mapped, Hn. Qed.

Lemma one_word_names m w :
  kernel_mapped m -> Forall word_byte w -> Z.of_nat (List.length w) < 32 ->
  names_hold m (st (store_bytes m filename_at (w ++ [0])) arg_at 0) w [].
Proof.
  intros Hm Hw Hl. destruct names_in_kernel as ([F1 F2] & [A1 A2] & _).
  destruct names_disjoint as (Hd & _).
  change (st (store_bytes m filename_at (w ++ [0])) arg_at 0)
    with (store_bytes (store_bytes m filename_at (w ++ [0])) arg_at ([] ++ [0])).
  pose proof (store_ram_only m filename_at (w ++ [0])) as Hr1.
  pose proof (ram_only_mapped _ _ Hr1 Hm) as Hm1.
  pose proof (word_cstr m filename_at w Hm (conj F1 F2) Hl Hw) as Hc.
  split.
  - apply cstr_store_names; simpl; done || lia.
  - apply word_cstr; [done|done|simpl; lia|constructor].
  - eapply ram_only_trans; [exact Hr1|apply store_ram_only].
  - intros x Hx. rewrite names_frame.
    + apply names_frame; [done| |done]. intros j Hj. rewrite length_app in Hj. simpl in Hj.
      apply filename_bytes_at. lia.
    + done.
    + intros j Hj. simpl in Hj. apply arg_bytes_at. lia.
    + done.
Qed.

Lemma two_words_names m w a :
  kernel_mapped m -> Forall word_byte w -> Forall word_byte a ->
  Z.of_nat (List.length w) < 32 -> Z.of_nat (List.length a) < 32 ->
  names_hold m (parsed m w a) w a.
Proof.
  intros Hm Hw Ha Hlw Hla. destruct names_in_kernel as ([F1 F2] & [A1 A2] & _).
  destruct names_disjoint as (Hd & _). unfold parsed.
  pose proof (store_ram_only m filename_at (w ++ [0])) as Hr1.
  pose proof (ram_only_mapped _ _ Hr1 Hm) as Hm1.
  pose proof (word_cstr m filename_at w Hm (conj F1 F2) Hlw Hw) as Hc1.
  set (m1 := store_bytes m filename_at (w ++ [0])) in *.
  pose proof (store_ram_only m1 arg_at (a ++ [0])) as Hr2.
  pose proof (ram_only_mapped _ _ Hr2 Hm1) as Hm2.
  pose proof (word_cstr m1 arg_at a Hm1 (conj A1 A2) Hla Ha) as Hca.
  assert (List.length (a ++ [0]) = S (List.length a)) as La by (rewrite length_app; simpl; lia).
  assert (List.length (replicate (31 - List.length a) 0) = (31 - List.length a)%nat) as Lr
    by apply length_replicate.
  split.
  - apply cstr_store_names; rewrite ?Lr; [done| |lia..].
    apply cstr_store_names; rewrite ?La; done || lia.
  - apply cstr_store_names; rewrite ?Lr; done || lia.
  - eapply ram_only_trans; [exact Hr1|]. eapply ram_only_trans; [exact Hr2|apply store_ram_only].
  - intros x Hx. rewrite names_frame; [|done| |done].
    + rewrite names_frame; [|done| |done].
      * apply names_frame; [done| |done]. intros j Hj. rewrite length_app in Hj. simpl in Hj.
        apply filename_bytes_at. lia.
      * intros j Hj. apply arg_bytes_at. lia.
    + intros j Hj. rewrite Lr in Hj.
      replace (arg_at + Z.of_nat (List.length a) + 1 + j)
        with (arg_at + (Z.of_nat (List.length a) + 1 + j)) by lia.
      apply arg_bytes_at. lia.
Qed.

End parse_facts.

(** ** The contract of the arguments *)

Section arguments.
Context {L : Layout} {LOK : LayoutOk}.
Implicit Type m : machine.

(** C24: on a command of one word of at most 31 characters [parse_arg] leaves the
    word in [filename] and an empty [arg]; on a command of two such words whose
    terminator is followed by [31 - length a] more NULs, [a] the second word, it
    leaves the two words in [filename] and [arg]; it terminates and writes nothing
    else.  The NULs are needed: see [parse_arg_past_end]. *)
Theorem parse_arg_correct m buf w a rest :
  kernel_mapped m -> Forall word_byte w -> Forall word_byte a ->
  Z.of_nat (List.length w) < 32 -> Z.of_nat (List.length a) < 32 ->
  (command m buf (w ++ 0 :: rest) ->
     exists m', parse_arg buf m = Some m' /\ names_hold m m' w []) /\
  (command m buf (w ++ 32 :: a ++ 0 :: replicate (31 - List.length a) 0 ++ rest) ->
     exists m', parse_arg buf m = Some m' /\ names_hold m m' w a).
Proof.
  intros Hm Hw Ha Hlw Hla. split; intros Hc.
  - eexists. split; [exact (parse_arg_word m buf w rest Hm Hw Hlw Hc)|by apply one_word_names].
  - eexists. split; [exact (parse_arg_two_words m buf w a rest Hm Hw Ha Hlw Hla Hc)|by apply two_words_names].
Qed.

(** The end of the argument does not stop [parse_arg]: whatever follows the
    terminator in the caller's buffer is parsed too, so that after
    [w a NUL b NUL] with a space before [b] the argument is [b], not [a]. *)
Theorem parse_arg_past_end m buf w a b rest :
  kernel_mapped m -> Forall word_byte w -> Forall word_byte a -> Forall word_byte b ->
  Z.of_nat (List.length w) < 32 -> Z.of_nat (List.length a) < 31 -> Z.of_nat (List.length b) < 32 ->
  command m buf (w ++ 32 :: a ++ 0 :: 32 :: b ++ 0 :: replicate (31 - List.length b) 0 ++ rest) ->
  exists m', parse_arg buf m = Some m' /\ cstr m' arg_at b.
Proof.
  intros Hm Hw Ha Hb Hlw Hla Hlb Hc. unfold parse_arg. set (k := (31 - List.length b)%nat) in *.
  rewrite <-(Z.add_0_r buf) in Hc.
  destruct (parse_step_word buf filename_at w 32 _ 0 0 m Hm Hc Hw) as (Hs1 & Hm1 & Hc1);
    [by right|done|lia|by left|].
  destruct (parse_step_word buf arg_at a 0 _ 0 _ _ Hm1 Hc1 Ha) as (Hs2 & Hm2 & Hc2);
    [by left|done|lia|by right|].
  destruct (parse_step_word buf arg_at [] 32 _ (0 + Z.of_nat (List.length a) + 1) _ _ Hm2 Hc2) as (Hs3 & Hm3 & Hc3);
    [constructor|by right|lia|simpl; lia|by right|].
  destruct (parse_step_word buf arg_at b 0 _ 0 _ _ Hm3 Hc3 Hb) as (Hs4 & Hm4 & Hc4);
    [by left|done|lia|by right|].
  destruct (Z.eqb_spec arg_at filename_at) as [E|E].
  { destruct names_disjoint as ([?|?] & _); lia. }
  cbn [Z.eqb Pos.eqb] in *.
  eexists. split.
  - apply (bind_some _ (fun r => r) (Some _)). apply (while_loopn (4 + S k)); [|lia].
    rewrite loopn_add. remember (S k) as n eqn:En. cbn [loopn].
    rewrite Hs1. cbn [loopn]. rewrite Hs2. cbn [loopn]. rewrite Hs3. cbn [loopn]. rewrite Hs4. subst n.
    rewrite (parse_tail _ k rest); [reflexivity|exact Hm4|lia|lia|exact Hc4].
  - rewrite !Z.add_0_r in *. destruct names_in_kernel as (_ & [A1 A2] & _).
    apply cstr_store_names; rewrite ?length_replicate; [exact Hm4| |lia..].
    apply word_cstr; [exact Hm3|split; lia|done|done].
Qed.

End arguments.

(** *** Examples *)

#[local] Existing Instance demo_layout.
#[local] Existing Instance demo_layout_ok.

(** A user buffer at 0x440000 that holds [l], then zeros. *)
Definition command_machine (l : list Z) : machine :=
  store_bytes (initPaging blank_machine) 0x440000 l.

Lemma command_machine_mapped l : kernel_mapped (command_machine l).
Proof. apply (ram_only_mapped (initPaging blank_machine)); [apply store_ram_only|apply initPaging_kernel_mapped]. Qed.

Lemma command_machine_holds l :
  Forall (fun b => 0 <= b < 256) l -> Z.of_nat (List.length l) < 1000 ->
  command (command_machine l) 0x440000 l.
Proof.
  intros Hb Hl. pose proof (initPaging_kernel_mapped blank_machine) as Hm. split.
  - apply bytes_at_load. unfold command_machine. rewrite store_bytes_load; [by apply map_u8_id|].
    apply kernel_inj_on; [done|unfold KERNEL; lia|unfold KERNEL; lia].
  - intros j Hj. unfold command_machine. rewrite cell_store_bytes.
    rewrite cell_kernel by (done || unfold KERNEL; lia).
    unfold names_bytes, filename_at, arg_at, demo_layout. lia.
Qed.

Lemma parse_arg_correct_witness :
  exists m', parse_arg 0x440000 (command_machine (chars "cat frame0.txt"%string ++ replicate 40 0)) = Some m' /\
    cstr m' filename_at (chars "cat"%string) /\ cstr m' arg_at (chars "frame0.txt"%string).
Proof.
  destruct (parse_arg_correct (command_machine (chars "cat frame0.txt"%string ++ replicate 40 0)) 0x440000
    (chars "cat"%string) (chars "frame0.txt"%string) (replicate 18 0)) as [_ H2];
    [apply command_machine_mapped|apply (bool_decide_unpack _); vm_compute; exact I..|simpl; lia|simpl; lia|].
  destruct H2 as (m' & Hp & Hn).
  - apply command_machine_holds; [apply (bool_decide_unpack _); vm_compute; exact I|simpl; lia].
  - exists m'. split; [exact Hp|]. split; apply Hn.
Defined.

Lemma parse_arg_past_end_witness :
  exists m', parse_arg 0x440000 (command_machine (chars "cat a"%string ++ 0 :: chars " x"%string ++ replicate 40 0)) = Some m' /\
    cstr m' arg_at (chars "x"%string).
Proof.
  apply (parse_arg_past_end (command_machine (chars "cat a"%string ++ 0 :: chars " x"%string ++ replicate 40 0)) 0x440000
    (chars "cat"%string) (chars "a"%string) (chars "x"%string) (replicate 9 0));
    [apply command_machine_mapped|apply (bool_decide_unpack _); vm_compute; exact I..|simpl; lia|simpl; lia|simpl; lia|].
  apply command_machine_holds; [apply (bool_decide_unpack _); vm_compute; exact I|simpl; lia].
Defined.
