(* ===== verification/Execute.v ===== *)
(** * The life of a process: what execute and halt do to the whole system

    The invariant of the system between two system calls, the specification of
    each step of execute, the launch of a process (its slot, page, code, PCB and
    stack), the refusals, the end of a process, the round trip of the two, and the
    start whose return frame is not saved. *)
From Stdlib Require Import ZArith Lia String.
From stdpp Require Import base list gmap numbers.
From S2P Require Import Prelude ByteMem LibString Machine Paging Devices Console Filesystem Kernel FileTable Process.

(** ** The invariant *)

(** [active] never changes from 1, so that only process1 is ever in the ring. *)
Record ring_ok (s : sched) : Prop := {
  ring_active : active s = 1;
  ring_length : length (ring s) = 3%nat;
  ring_head : head s = 0 \/ (head s = 1 /\ exists q, ring s !! 0%nat = Some q /\ next q = 1);
  ring_indicator : 1 <= indicator s <= 3;
}.

Section defs.
Context {L : Layout}.

Definition clear_of (a n b k : Z) : Prop := a + n <= b \/ b + k <= a.

(** The image is in the kernel's page, apart from what the kernel writes. *)
Record image_placed (fs size : Z) : Prop := {
  ip_page : in_kernel_page fs size;
  ip_filename : clear_of filename_at 32 fs size;
  ip_arg : clear_of arg_at 32 fs size;
  ip_check : clear_of check_buf_at 4 fs size;
  ip_tbuffer : clear_of tbuffer_at 129 fs size;
}.

Record system_ok (k : kernel) (size : Z) : Prop := {
  so_mapped : kernel_mapped (kmach k);
  so_files : files_ok (kfiles k);
  so_image : image_within (FSYSTEM k) (kmach k) size;
  so_placed : image_placed (FSYSTEM k) size;
  so_ring : ring_ok (ksched k);
  so_slots : length (pnumarr (kprocs k)) = 6%nat;
}.

(** Slot [i] is free or used; the slot of the terminal in view. *)
Definition own_slot (k : kernel) : Z := indicator (ksched k) - 1.

(** process1 belongs to the terminal in view. *)
Definition running (k : kernel) : Prop :=
  head (ksched k) = 1 /\
  exists q, ring (ksched k) !! 0%nat = Some q /\ pscreen q = indicator (ksched k).

#[export] Instance running_dec k : Decision (running k).
Proof.
  unfold running. destruct (decide (head (ksched k) = 1)); [|right; by intros [? _]].
  destruct (ring (ksched k) !! 0%nat) as [q|]; [|right; by intros (_ & q & ? & _)].
  destruct (decide (pscreen q = indicator (ksched k))); [left; eauto|right].
  intros (_ & q' & Hq & ?). by simplify_eq.
Defined.

(** The files of a process as it starts. *)
Definition started (f : files) : files :=
  Files (<[1%nat := File stdout_fops 0 1 1]> (<[0%nat := File stdin_fops 0 0 1]> (fd f)))
    (dt f) stdin_fops stdout_fops rtc_fops directory_fops file_fops.

(** The bytes of the names and of checkFile's buffer. *)
Definition exec_bytes (p : Z) : Prop :=
  names_bytes p \/ check_buf_at <= p < check_buf_at + 4.

(** What makes a file a program. *)
Definition elf_magic : list Z := [0x7f; 0x45; 0x4c; 0x46].

End defs.

Section steps.
Context {L : Layout} {LOK : LayoutOk} {FR : Frames}.
Implicit Type k : kernel.

(** ** setPnum *)

Lemma slot_free_range i k : slot_free i k = true -> 0 <= i.
Proof.
  unfold slot_free, lookupZ. destruct (Z.ltb_spec i 0); [done|]. lia.
Qed.

Lemma shared_slot_spec n i k :
  (exists j, i <= j < i + Z.of_nat n /\ slot_free j k = true /\
     (forall x, i <= x < j -> slot_free x k = false) /\ shared_slot n i k = (0, take_slot j k)) \/
  ((forall x, i <= x < i + Z.of_nat n -> slot_free x k = false) /\ shared_slot n i k = (-1, k)).
Proof.
  revert i. induction n as [|n IH]; intros i; simpl; [right; split; [lia|done]|].
  destruct (slot_free i k) eqn:Ef.
  - left. exists i. split_and!; [lia|lia|done|lia|done].
  - destruct (IH (i + 1)) as [(j & Hj & Hf & Hlt & Heq)|[Hall Heq]].
    + left. exists j. split_and!; [lia|lia|done| |done].
      intros x Hx. destruct (decide (x = i)) as [->|]; [done|]. apply Hlt. lia.
    + right. split; [|done]. intros x Hx. destruct (decide (x = i)) as [->|]; [done|].
      apply Hall. lia.
Qed.

(** The slot given out: the terminal's own, else the first free one of 3 to 5. *)
Definition slot_given (k : kernel) (i : Z) : Prop :=
  slot_free i k = true /\
  (i = own_slot k \/
   (slot_free (own_slot k) k = false /\ 3 <= i < 6 /\ forall x, 3 <= x < i -> slot_free x k = false)).

Lemma setPnum_spec k :
  1 <= indicator (ksched k) <= 3 ->
  (exists i, slot_given k i /\ setPnum k = (0, take_slot i k)) \/
  (slot_free (own_slot k) k = false /\ (forall x, 3 <= x < 6 -> slot_free x k = false) /\
   setPnum k = (-1, k)).
Proof.
  intros Hi. unfold setPnum, slot_given, own_slot.
  assert (Hshared : slot_free (indicator (ksched k) - 1) k = false ->
    (exists i, (slot_free i k = true /\ (i = indicator (ksched k) - 1 \/
       (slot_free (indicator (ksched k) - 1) k = false /\ 3 <= i < 6 /\
        forall x, 3 <= x < i -> slot_free x k = false))) /\ shared_slot 3 3 k = (0, take_slot i k)) \/
    (slot_free (indicator (ksched k) - 1) k = false /\
     (forall x, 3 <= x < 6 -> slot_free x k = false) /\ shared_slot 3 3 k = (-1, k))).
  { intros Hown. destruct (shared_slot_spec 3 3 k) as [(j & Hj & Hf & Hlt & ->)|[Hall ->]].
    - left. exists j. split; [|done]. split; [done|]. right. split_and!; [done|lia|lia|done].
    - right. split_and!; [done|done|done]. }
  assert (indicator (ksched k) = 1 \/ indicator (ksched k) = 2 \/ indicator (ksched k) = 3)
    as [E|[E|E]] by lia; rewrite E in *; cbn [Z.eqb Pos.eqb andb Z.sub Z.add Z.opp Z.pos_sub Pos.pred_double] in *.
  - destruct (slot_free 0 k) eqn:Ef; [|by apply Hshared].
    left. exists 0. split; [|done]. split; [done|by left].
  - destruct (slot_free 1 k) eqn:Ef; [|by apply Hshared].
    left. exists 1. split; [|done]. split; [done|by left].
  - destruct (slot_free 2 k) eqn:Ef; [|by apply Hshared].
    left. exists 2. split; [|done]. split; [done|by left].
Qed.

Lemma slot_given_range k i : 1 <= indicator (ksched k) <= 3 -> slot_given k i -> 0 <= i < 6.
Proof. unfold slot_given, own_slot. intros Hi [_ [->|(_ & H & _)]]; lia. Qed.

Lemma slot_given_unique k i j : slot_given k i -> slot_given k j -> i = j.
Proof.
  intros [Hi [->|(Ho & Hr & Hl)]] [Hj [->|(Ho' & Hr' & Hl')]]; [done|congruence|congruence|].
  destruct (Z.lt_trichotomy i j) as [H|[H|H]]; [|done|].
  - rewrite Hl' in Hi by lia. done.
  - rewrite Hl in Hj by lia. done.
Qed.

Lemma setPnum_given k i :
  1 <= indicator (ksched k) <= 3 -> slot_given k i -> setPnum k = (0, take_slot i k).
Proof.
  intros Hk Hi. destruct (setPnum_spec k Hk) as [(j & Hj & ->)|(Ho & Hall & _)].
  - by rewrite (slot_given_unique k i j).
  - destruct Hi as [Hf [->|(_ & Hr & _)]]; [congruence|]. rewrite Hall in Hf by lia. done.
Qed.

(** ** The ring *)

Lemma screen_process_spec k :
  ring_ok (ksched k) -> screen_process k = Ret (if decide (running k) then Some 1 else None) k.
Proof.
  intros [_ Hl Hh _]. unfold screen_process, c_bind, c_get.
  destruct Hh as [Hh|(Hh & q & Hq & Hn)].
  - rewrite Hh. cbn [Z.eqb]. rewrite decide_False by (unfold running; rewrite Hh; by intros [? _]). done.
  - rewrite Hh. cbn [Z.eqb find_screen].
    assert (get_process k 1 = Some q) as Hg by (unfold get_process; simpl; by rewrite <-Hq).
    unfold c_bind, c_get, c_some. rewrite Hg, Hn.
    destruct (Z.eqb_spec (pscreen q) (indicator (ksched k))) as [E|E].
    + rewrite decide_True; [done|]. split; [done|by exists q].
    + rewrite Hg, Hn, (proj2 (Z.eqb_neq _ _)) by done. rewrite Hg, (proj2 (Z.eqb_neq _ _)) by done.
      rewrite decide_False; [done|]. intros (_ & q' & Hq' & Hs). by simplify_eq.
Qed.

(** ** checkFile *)

Lemma filename_nonzero : filename_at <> 0.
Proof. destruct names_in_kernel as ([H _] & _). unfold KERNEL in H. lia. Qed.

Lemma check_buf_nonzero : check_buf_at <> 0.
Proof. destruct names_in_kernel as (_ & _ & [H _] & _). unfold KERNEL in H. lia. Qed.

Lemma set_dentry_same k : set_dentry k (dentry (kprocs k)) = k.
Proof. by destruct k as [? ? ? []]. Qed.

(** The four bytes [checkFile] compares: the first ones of the file, and behind the
    end of a shorter file what its buffer held before. *)
Definition tested (m : machine) (content : list Z) : list Z :=
  take 4 (content ++ drop (length content) (load_bytes m check_buf_at 4)).

Lemma tested_long (m : machine) content : (4 <= length content)%nat -> tested m content = take 4 content.
Proof. intros Hl. unfold tested. by rewrite take_app_le. Qed.

Lemma tested_bytes (m : machine) content :
  kernel_mapped m -> Forall (fun b => 0 <= b < 256) content ->
  load_bytes (store_bytes m check_buf_at (take 4 content)) check_buf_at 4 = tested m content.
Proof.
  intros Hm Hb. destruct names_in_kernel as (_ & _ & [H1 H2] & _). apply list_eq. intros i.
  assert (inj_on m check_buf_at 4) as Hinj by (by apply kernel_inj_on).
  assert (length (take 4 content) <= 4)%nat as Hl by (rewrite length_take; lia).
  unfold tested. destruct (decide (i < 4)%nat) as [Hi|Hi].
  - rewrite load_bytes_lookup, lookup_take, decide_True by done.
    destruct (decide (i < length content)%nat) as [Hc|Hc].
    + destruct (lookup_lt_is_Some_2 content i Hc) as [c Ec]. rewrite lookup_app_l, Ec by done. f_equal.
      rewrite (store_bytes_inside m check_buf_at (take 4 content) i c).
      * apply u8_small. by apply (proj1 (Forall_lookup _ _) Hb i).
      * intros x y Hx Hy. apply Hinj; lia.
      * by rewrite lookup_take, decide_True.
    + rewrite lookup_app_r, lookup_drop by lia.
      replace (length content + (i - length content))%nat with i by lia.
      rewrite load_bytes_lookup by done. f_equal. apply store_bytes_outside. intros j Hj Heq.
      rewrite length_take in Hj. apply Hinj in Heq; lia.
  - rewrite !lookup_ge_None_2; [done|rewrite length_take; lia|by rewrite load_bytes_length; lia].
Qed.

Lemma magic_test (m : machine) :
  (ld m check_buf_at =? 0x7f) && (ld m (check_buf_at + 1) =? 0x45)
    && (ld m (check_buf_at + 2) =? 0x4c) && (ld m (check_buf_at + 3) =? 0x46)
  = bool_decide (load_bytes m check_buf_at 4 = elf_magic).
Proof.
  cbn [load_bytes]. replace (check_buf_at + 1 + 1) with (check_buf_at + 2) by lia.
  replace (check_buf_at + 2 + 1) with (check_buf_at + 3) by lia. unfold elf_magic.
  destruct (Z.eqb_spec (ld m check_buf_at) 0x7f), (Z.eqb_spec (ld m (check_buf_at + 1)) 0x45),
    (Z.eqb_spec (ld m (check_buf_at + 2)) 0x4c), (Z.eqb_spec (ld m (check_buf_at + 3)) 0x46);
    cbn [andb]; symmetry; (apply bool_decide_eq_true; congruence) || (apply bool_decide_eq_false; congruence).
Qed.

(** The image stays away from [checkFile]'s buffer. *)
Lemma off_image_check m fs size :
  kernel_mapped m -> image_placed fs size -> off_image fs m size check_buf_at 4.
Proof.
  intros Hm [[P1 P2] _ _ Hc _]. destruct names_in_kernel as (_ & _ & [H1 H2] & _).
  apply kernel_apart; [done|done|done|done|lia|exact Hc].
Qed.

Lemma off_image_sub_n (m : machine) fs size a n j :
  off_image fs m size a n -> j <= n -> off_image fs m size a j.
Proof. intros Ho Hj. eapply off_image_sub; [done|exact Ho|lia|lia]. Qed.

Lemma checkFile_spec k w d size :
  kernel_mapped (kmach k) -> image_within (FSYSTEM k) (kmach k) size ->
  image_placed (FSYSTEM k) size -> cstr (kmach k) filename_at w ->
  let content := file_content (FSYSTEM k) (kmach k) (inode d) in
  found (FSYSTEM k) (kmach k) (take 32 w) (dentry (kprocs k)) d 0 ->
  0 <= inode d < boot_inodes (FSYSTEM k) (kmach k) ->
  checkFile filename_at k
  = Ret (if bool_decide (tested (kmach k) content = elf_magic) then 0 else -1)
      (set_kmach (set_dentry k d) (store_bytes (kmach k) check_buf_at (take 4 content))).
Proof.
  intros Hm Hiw Hip Hc content Hf Hi. unfold checkFile.
  pose proof (read_dentry_by_name_found (FSYSTEM k) (kmach k) filename_at w (dentry (kprocs k)) Hc
    filename_nonzero) as Hr.
  assert (read_dentry_by_name (FSYSTEM k) filename_at (dentry (kprocs k)) (kmach k) = (0, d)) as ->.
  { destruct (read_dentry_by_name _ _ _ _) as [r d']. by destruct (found_unique _ _ _ _ _ _ _ _ Hf Hr) as [<- <-]. }
  cbn [truth Z.eqb negb]. change (FSYSTEM (set_dentry k d)) with (FSYSTEM k).
  change (kmach (set_dentry k d)) with (kmach k).
  pose proof (file_content_length (FSYSTEM k) (kmach k) (inode d)) as Hsz. fold content in Hsz.
  rewrite (read_data_slice (FSYSTEM k) (kmach k) size);
    [|done|done|apply check_buf_nonzero|lia|lia|].
  2:{ eapply off_image_sub_n; [by apply off_image_check|lia]. }
  change (drop (Z.to_nat 0) ?l) with l. fold content.
  assert (take (Z.to_nat (Z.max 0 (Z.min 4 (file_size (FSYSTEM k) (kmach k) (inode d) - 0)))) content
          = take 4 content) as ->.
  { rewrite Z.sub_0_r. apply take_same. lia. }
  rewrite magic_test, tested_bytes by (done || apply file_content_bytes).
  by destruct (bool_decide _).
Qed.

Lemma checkFile_missing k w :
  cstr (kmach k) filename_at w ->
  (forall i, 0 <= i < num_dentries (FSYSTEM k) (kmach k) ->
     dentry_name (FSYSTEM k) (kmach k) i <> take 32 w) ->
  checkFile filename_at k = Ret (-1) k.
Proof.
  intros Hc Hn. unfold checkFile.
  pose proof (read_dentry_by_name_found (FSYSTEM k) (kmach k) filename_at w (dentry (kprocs k)) Hc
    filename_nonzero) as Hr.
  destruct (read_dentry_by_name _ _ _ _) as [r d'].
  destruct Hr as [(-> & i & Hi & Hnm & _)|(-> & -> & _)]; [by apply Hn in Hnm|].
  cbn [truth Z.eqb negb]. by rewrite set_dentry_same.
Qed.

End steps.

Section launch.
Context {L : Layout} {LOK : LayoutOk} {FR : Frames}.
Implicit Types (k : kernel) (m : machine).

(** ** The names and the image *)

Lemma names_image m m' w a fs size :
  kernel_mapped m -> image_placed fs size -> names_hold m m' w a -> image_same fs m m' size.
Proof.
  intros Hm [[P1 P2] Hf Ha _ _] Hn x Hx. apply (nh_frame m m' w a); [done|].
  rewrite cell_kernel by (done || lia). unfold names_bytes, clear_of in *. lia.
Qed.

Lemma check_image fs m size l :
  kernel_mapped m -> image_placed fs size -> (length l <= 4)%nat ->
  image_same fs m (store_bytes m check_buf_at l) size.
Proof.
  intros Hm Hp Hl. apply image_same_store. eapply off_image_sub_n; [by apply off_image_check|lia].
Qed.

Lemma check_names m w a l :
  kernel_mapped m -> (length l <= 4)%nat -> cstr m filename_at w -> Z.of_nat (length w) < 32 ->
  cstr m arg_at a -> Z.of_nat (length a) < 32 ->
  cstr (store_bytes m check_buf_at l) filename_at w /\ cstr (store_bytes m check_buf_at l) arg_at a.
Proof.
  intros Hm Hl Hw Lw Ha La. destruct names_in_kernel as ([F1 F2] & [A1 A2] & [C1 C2] & _).
  destruct names_disjoint as (_ & _ & _ & Hd & Hd').
  split; (apply cstr_store_names; [done|done|lia..]).
Qed.

(** ** setupPage *)

(** The machine once the page of process [i] is installed. *)
Definition user_page m (i : Z) : machine :=
  flushTLB (setupPagingDirectory RESERV_CODE (user_frame i) VM_VIRTUAL_OFF m).

Lemma setupPage_spec k i :
  pnum (kprocs k) = i ->
  setupPage k = set_kmach (set_addrPage k (user_frame i)) (user_page (kmach k) i).
Proof. by intros <-. Qed.

Lemma parentPage_setupPage k : parentPage k = setupPage k.
Proof. done. Qed.

Lemma user_page_mapped m i : kernel_mapped m -> 0 <= i < 6 -> kernel_mapped (user_page m i).
Proof. intros Hm Hi. by destruct (user_page_kernel_mapped m i Hm Hi). Qed.

Lemma user_page_translate m i va :
  kernel_mapped m -> 0 <= i < 6 -> 0 <= va < 4294967296 ->
  translate (user_page m i) va
  = if decide (user_base <= va < user_base + 4194304)
    then Some (user_frame i + (va - user_base)) else translate m va.
Proof. intros Hm Hi Hva. by apply translate_user_page; [apply Hm| |]. Qed.

Lemma user_page_ld m i x :
  kernel_mapped m -> 0 <= i < 6 -> KERNEL <= x < 2 * KERNEL -> ld (user_page m i) x = ld m x.
Proof.
  intros Hm Hi Hx. pose proof (cell_kernel m x Hm Hx) as H1.
  pose proof (cell_kernel _ x (user_page_mapped m i Hm Hi) Hx) as H2.
  unfold cell, ld in *. cbn [machine_mem] in *. by rewrite H1, H2.
Qed.

Lemma user_page_cell m i j :
  kernel_mapped m -> 0 <= i < 6 -> 0 <= j < 4194304 ->
  cell (user_page m i) (user_base + j) = user_frame i + j.
Proof.
  intros Hm Hi Hj. unfold cell, machine_mem, phys. unfold user_base in *.
  rewrite u32_small by lia. rewrite user_page_translate by (done || lia).
  rewrite decide_True by (unfold user_base; lia). unfold user_base. simpl. lia.
Qed.

(** ** loadFile *)

(** The program's bytes in the page of process [i]. *)
Definition loaded m (i : Z) (content : list Z) : machine :=
  store_bytes (user_page m i) EXEC_LOCATION content.

Definition code_fits (content : list Z) : Prop :=
  28 <= Z.of_nat (length content) <= user_base + 4194304 - EXEC_LOCATION.

Lemma code_cell m i j :
  kernel_mapped m -> 0 <= i < 6 -> 0 <= j < user_base + 4194304 - EXEC_LOCATION ->
  cell (user_page m i) (EXEC_LOCATION + j) = user_frame i + 0x48000 + j.
Proof.
  intros Hm Hi Hj. unfold user_base, EXEC_LOCATION in *.
  replace (0x08048000 + j) with (user_base + (0x48000 + j)) by (unfold user_base; lia).
  rewrite user_page_cell by (done || lia). lia.
Qed.

Lemma loadFile_spec k m i size :
  kernel_mapped m -> 0 <= i < 6 -> kmach k = user_page m i ->
  image_within (FSYSTEM k) m size -> in_kernel_page (FSYSTEM k) size ->
  let ino := inode (dentry (kprocs k)) in
  let content := file_content (FSYSTEM k) m ino in
  0 <= ino < boot_inodes (FSYSTEM k) m -> code_fits content ->
  loadFile k = set_kmach k (loaded m i content).
Proof.
  intros Hm Hi Hk Hiw [P1 P2] ino content Hino [Hc1 Hc2]. unfold loadFile. rewrite Hk.
  assert (image_same (FSYSTEM k) m (user_page m i) size) as Hs.
  { intros x Hx. apply user_page_ld; [done|done|lia]. }
  pose proof (image_same_content _ _ _ Hiw _ ino Hs Hino) as Hcon.
  pose proof (file_content_length (FSYSTEM k) m ino) as Hlen. fold content in Hlen.
  assert (file_size (FSYSTEM k) (user_page m i) ino = Z.of_nat (length content)) as Hsz.
  { rewrite (image_same_size _ _ _ Hiw _ ino Hs Hino). lia. }
  unfold user_base, EXEC_LOCATION in Hc2.
  assert (Z.max 0 (Z.min TASK_SIZE (Z.of_nat (length content) - 0)) = Z.of_nat (length content)) as Hn
    by (unfold TASK_SIZE; lia).
  rewrite (read_data_slice (FSYSTEM k) _ size); fold ino.
  - rewrite Hsz, Hn, Hcon. fold content. cbn [snd]. rewrite Nat2Z.id.
    change (drop (Z.to_nat 0) content) with content. rewrite take_ge by lia. done.
  - exact (image_same_within _ _ _ Hiw _ Hs).
  - rewrite (image_same_inodes _ m _ size); [done|exact Hs|exact (image_size_boot _ _ _ Hiw)].
  - unfold EXEC_LOCATION. lia.
  - lia.
  - unfold TASK_SIZE. lia.
  - rewrite Hsz, Hn. intros j Hj x Hx. rewrite code_cell by (done || unfold user_base, EXEC_LOCATION; lia).
    rewrite (cell_kernel (user_page m i)); [|by apply user_page_mapped|lia].
    unfold user_frame, KERNEL in *. lia.
Qed.

Lemma loaded_mapped m i l : kernel_mapped m -> 0 <= i < 6 -> kernel_mapped (loaded m i l).
Proof.
  intros Hm Hi. eapply ram_only_mapped; [apply store_ram_only|by apply user_page_mapped].
Qed.

(** What [loaded] leaves of the rest of the memory. *)
Lemma loaded_ld m i l x :
  kernel_mapped m -> 0 <= i < 6 -> code_fits l -> KERNEL <= x < 2 * KERNEL ->
  ld (loaded m i l) x = ld m x.
Proof.
  intros Hm Hi [Hl1 Hl2] Hx. unfold loaded. rewrite store_bytes_outside; [by apply user_page_ld|].
  intros j Hj. rewrite code_cell by (done || lia).
  rewrite (cell_kernel (user_page m i)); [|by apply user_page_mapped|done].
  unfold user_frame, KERNEL in *. lia.
Qed.

Lemma loaded_code m i l :
  kernel_mapped m -> 0 <= i < 6 -> code_fits l -> Forall (fun b => 0 <= b < 256) l ->
  load_bytes (loaded m i l) EXEC_LOCATION (length l) = l.
Proof.
  intros Hm Hi [Hl1 Hl2] Hb. unfold loaded. etrans; [apply store_bytes_load|by apply map_u8_id].
  intros j j' Hj Hj'. rewrite !code_cell by (done || lia). lia.
Qed.

(** *** createPCB *)

Lemma cstr_read m p w :
  cstr m p w -> Z.of_nat (length w) < 4294967295 -> read_cstr m p = Some w.
Proof.
  intros Hc Hl. unfold read_cstr. rewrite (strlen_cstr m p w Hc Hl). cbn [mbind option_bind].
  rewrite Nat2Z.id. f_equal. apply bytes_at_load. destruct Hc as [Hb _].
  by apply bytes_at_app in Hb as [Hb _].
Qed.

(** The PCB of a process as it starts. *)
Definition launch_pcb k (base i : Z) (w : list Z) : pcb_t :=
  let old := default null_pcb (get_pcb k (pcb_at i)) in
  let p := Pcb (fd (kfiles k)) i w (stack_top i) (curr_pcb (kprocs k))
             (oldebp old) (oldesp old) (haltebp old) (haltesp old) in
  if decide (running k)
  then set_halt (switch_esp base) (switch_ebp base) (set_old (save_esp base) (save_ebp base) p)
  else set_old (switch_esp base) (switch_ebp base) p.

(** The kernel as the process starts. *)
Definition launch_state k (base i : Z) (w : list Z) : kernel :=
  let top := stack_top i in
  let k := put_pcb k (pcb_at i) (launch_pcb k base i w) in
  let k := set_esp0 (set_curr_pcb k (pcb_at i)) top in
  set_head (put_process k 1 (Process (pcb_at i) (indicator (ksched k)) top top 1)) 1.

Lemma fill_pcb_spec k i w :
  pnum (kprocs k) = i -> cstr (kmach k) filename_at w -> Z.of_nat (length w) < 32 ->
  fill_pcb k = Ret (pcb_at i) (put_pcb k (pcb_at i)
    (let old := default null_pcb (get_pcb k (pcb_at i)) in
     Pcb (fd (kfiles k)) i w (stack_top i) (curr_pcb (kprocs k))
       (oldebp old) (oldesp old) (haltebp old) (haltesp old))).
Proof.
  intros <- Hw Hl. unfold fill_pcb, c_bind, c_get, c_some, c_mod.
  rewrite (cstr_read _ _ _ Hw) by lia. rewrite (proj2 (Z.leb_gt 32 _)) by done. done.
Qed.

Lemma get_process_put k v :
  length (ring (ksched k)) = 3%nat -> get_process (put_process k 1 v) 1 = Some v.
Proof.
  intros Hl. unfold get_process, put_process, lookupZ. cbn [ring ksched set_ring set_ksched].
  apply list_lookup_insert_eq. rewrite Hl. change (Z.to_nat (1 - 1)) with 0%nat. lia.
Qed.

Lemma get_put_pcb k a p : get_pcb (put_pcb k a p) a = Some p.
Proof. unfold get_pcb, put_pcb. cbn. apply lookup_insert_eq. Qed.

Lemma put_put_pcb k a p p' : put_pcb (put_pcb k a p) a p' = put_pcb k a p'.
Proof. unfold put_pcb, set_pcbs, set_kprocs. cbn. by rewrite insert_insert_eq. Qed.

Lemma running_sched k k' : ksched k' = ksched k -> running k' <-> running k.
Proof. unfold running. by intros ->. Qed.

Lemma enter_ring_spec k :
  ring_ok (ksched k) ->
  enter_ring (if decide (running k) then Some 1 else None) k
  = let top := stack_top (pnum (kprocs k)) in
    Ret 1 (set_head (put_process k 1 (Process (curr_pcb (kprocs k)) (indicator (ksched k)) top top 1)) 1).
Proof.
  intros Hr. unfold enter_ring. destruct (decide (running k)) as [(Hh & q & Hq & Hs)|_].
  - destruct (ring_head _ Hr) as [Hh'|(_ & q' & Hq' & Hn)]; [congruence|].
    assert (q' = q) as -> by congruence.
    assert (get_process k 1 = Some q) as Hgq by exact Hq.
    unfold c_bind, c_some, c_mod, c_ret. rewrite Hgq, Hs, Hn. done.
  - unfold c_bind, c_get. rewrite (ring_active _ Hr). done.
Qed.

Lemma update_pcb_spec k save q p f :
  get_process k save = Some q -> get_pcb k (pcb q) = Some p ->
  update_pcb save f k = Ret tt (put_pcb k (pcb q) (f p)).
Proof. unfold update_pcb. by intros -> ->. Qed.

Lemma createPCB_spec k base i w :
  ring_ok (ksched k) -> pnum (kprocs k) = i ->
  cstr (kmach k) filename_at w -> Z.of_nat (length w) < 32 ->
  createPCB base k
  = Leave (ToUser (ld32 (kmach k) (EXEC_LOCATION + CONTEXTSWITCH_OFF))) (launch_state k base i w).
Proof.
  intros Hr Hp Hw Hl. unfold createPCB, launch_state, launch_pcb.
  erewrite c_bind_ret by (by apply fill_pcb_spec).
  set (p := Pcb _ _ _ _ _ _ _ _ _). set (k1 := put_pcb k (pcb_at i) p).
  erewrite c_bind_ret by reflexivity. erewrite c_bind_ret by reflexivity.
  change (pnum (kprocs (set_curr_pcb k1 (pcb_at i)))) with (pnum (kprocs k)). rewrite Hp.
  set (k2 := set_esp0 (set_curr_pcb k1 (pcb_at i)) (stack_top i)).
  erewrite c_bind_ret by (by apply screen_process_spec).
  erewrite c_bind_ret by (by apply enter_ring_spec).
  change (pnum (kprocs k2)) with (pnum (kprocs k)). rewrite Hp.
  change (curr_pcb (kprocs k2)) with (pcb_at i). change (indicator (ksched k2)) with (indicator (ksched k)).
  set (Q := Process _ _ _ _ _). set (k3 := set_head (put_process k2 1 Q) 1).
  assert (get_process k3 1 = Some Q) as HQ by (by apply (get_process_put k2 Q), Hr).
  assert (get_pcb k3 (pcb Q) = Some p) as HP by apply (get_put_pcb k).
  erewrite c_bind_ret by reflexivity.
  assert (running k2 <-> running k) as Hrun by done.
  rewrite (decide_ext (running k2) (running k)) by done.
  destruct (decide (running k)).
  - erewrite c_bind_ret by (by apply (update_pcb_spec k3 1 Q p)).
    change (pcb Q) with (pcb_at i) in *.
    erewrite c_bind_ret by (eapply (update_pcb_spec _ 1 Q); [exact HQ|apply get_put_pcb]).
    change (pcb Q) with (pcb_at i). rewrite put_put_pcb. unfold c_leave. f_equal.
    unfold put_pcb, set_pcbs, set_kprocs, k3, k2, k1, put_pcb. cbn. by rewrite insert_insert_eq.
  - erewrite c_bind_ret by (by apply (update_pcb_spec k3 1 Q p)).
    unfold c_leave. f_equal.
    unfold put_pcb, set_pcbs, set_kprocs, k3, k2, k1, put_pcb. cbn. by rewrite insert_insert_eq.
Qed.

(** *** execute *)

(** What a program starts with: its slot, its PCB, the saved frame its end
    returns to, its files, its names, its code in its own page and nothing else
    of the memory changed. *)
Record launched k (base i : Z) (w a : list Z) (content : list Z) k' : Prop := {
  ln_slot : pnum (kprocs k') = i /\ pnumarr (kprocs k') = <[Z.to_nat i := 1]> (pnumarr (kprocs k));
  ln_current : curr_pcb (kprocs k') = pcb_at i /\ esp0 (kprocs k') = stack_top i;
  ln_pcb : exists p, get_pcb k' (pcb_at i) = Some p /\ pid p = i /\
    parent p = curr_pcb (kprocs k) /\ pcb_filename p = w /\ pcb_fd p = fd (started (kfiles k)) /\
    (running k -> oldesp p = save_esp base /\ haltesp p = switch_esp base /\ haltebp p = switch_ebp base);
  ln_others : forall x, x <> pcb_at i -> get_pcb k' x = get_pcb k x;
  ln_files : kfiles k' = started (kfiles k);
  ln_names : cstr (kmach k') filename_at w /\ cstr (kmach k') arg_at a;
  ln_code : load_bytes (kmach k') EXEC_LOCATION (length content) = content;
  ln_space : forall va, 0 <= va < 4294967296 -> translate (kmach k') va
    = if decide (user_base <= va < user_base + 4194304)
      then Some (user_frame i + (va - user_base)) else translate (kmach k) va;
  ln_tlb : tlb_dirty (kmach k') = false;
  ln_memory : forall p, ~ exec_bytes p -> ~ (user_frame i <= p < user_frame i + 4194304) ->
    ram (kmach k') !! p = ram (kmach k) !! p;
  ln_ring : ring_ok (ksched k') /\ running k' /\ indicator (ksched k') = indicator (ksched k) /\
    FSYSTEM k' = FSYSTEM k;
}.

(** What a call that launches a program starts from: the command names the
    executable of entry [d], and slot [i] is the one given out. *)
Record launchable k size buf (w a : list Z) (d : dentry_t) (i : Z) m1 : Prop := {
  la_system : system_ok k size;
  la_parse : parse_arg buf (kmach k) = Some m1;
  la_names : names_hold (kmach k) m1 w a;
  la_short : Z.of_nat (length w) < 32 /\ Z.of_nat (length a) < 32;
  la_found : found (FSYSTEM k) (kmach k) (take 32 w) (dentry (kprocs k)) d 0;
  la_inode : 0 <= inode d < boot_inodes (FSYSTEM k) (kmach k);
  la_elf : take 4 (file_content (FSYSTEM k) (kmach k) (inode d)) = elf_magic;
  la_fits : code_fits (file_content (FSYSTEM k) (kmach k) (inode d));
  la_slot : slot_given k i;
}.

(** The machine and the kernel once the program is in memory. *)
Definition checked m1 (content : list Z) : machine := store_bytes m1 check_buf_at (take 4 content).

Definition program_state k m1 (d : dentry_t) (i : Z) (content : list Z) : kernel :=
  let k := take_slot i (set_dentry (set_kmach k m1) d) in
  let k := set_kmach (set_addrPage k (user_frame i)) (loaded (checked m1 content) i content) in
  set_kfiles k (started (kfiles k)).

Section call.
Context k size buf w a d i m1 (La : launchable k size buf w a d i m1).
Let content := file_content (FSYSTEM k) (kmach k) (inode d).

Lemma launch_image : image_same (FSYSTEM k) (kmach k) m1 size.
Proof using LOK La.
  destruct La as [[] _ Hn _ _ _ _ _ _]. by apply (names_image _ _ w a).
Qed.

Lemma launch_mapped : kernel_mapped m1.
Proof using LOK La. destruct La as [[] _ Hn _ _ _ _ _ _]. by apply (names_hold_mapped _ _ _ _ Hn). Qed.

Lemma launch_slot : 0 <= i < 6.
Proof using LOK La. destruct La as [[] _ _ _ _ _ _ _ Hs]. eapply slot_given_range; [by apply so_ring0|exact Hs]. Qed.

Lemma launch_content : file_content (FSYSTEM k) m1 (inode d) = content.
Proof using LOK La.
  pose proof launch_image as Hi. destruct La as [[] _ _ _ _ Hd _ _ _].
  by apply (image_same_content _ _ size).
Qed.

Lemma launch_inode : 0 <= inode d < boot_inodes (FSYSTEM k) m1.
Proof using LOK La.
  pose proof launch_image as Hi. destruct La as [[] _ _ _ _ Hd _ _ _].
  rewrite (image_same_inodes _ (kmach k) _ size); [done|done|]. exact (image_size_boot _ (kmach k) _ so_image0).
Qed.

Lemma launch_check :
  checkFile filename_at (set_kmach k m1)
  = Ret 0 (set_kmach (set_dentry (set_kmach k m1) d) (checked m1 content)).
Proof using LOK La.
  pose proof launch_image as Hs. pose proof launch_mapped as Hm. pose proof launch_content as Hc.
  pose proof launch_inode as Hino.
  destruct La as [[] _ Hn [Hlw _] Hf _ He [Hl _] _].
  rewrite (checkFile_spec (set_kmach k m1) w d size).
  - change (FSYSTEM (set_kmach k m1)) with (FSYSTEM k). change (kmach (set_kmach k m1)) with m1.
    rewrite Hc, tested_long by (unfold content in *; lia). by rewrite bool_decide_true.
  - exact Hm.
  - exact (image_same_within _ (kmach k) _ so_image0 _ Hs).
  - exact so_placed0.
  - apply Hn.
  - exact (image_same_found _ (kmach k) _ so_image0 _ _ _ _ _ Hs Hf).
  - exact Hino.
Qed.

Lemma checked_image : image_same (FSYSTEM k) (kmach k) (checked m1 content) size.
Proof using LOK La.
  eapply image_same_trans; [exact launch_image|]. destruct La as [[] _ _ _ _ _ _ _ _].
  apply check_image; [exact launch_mapped|done|]. rewrite length_take. lia.
Qed.

Lemma checked_mapped : kernel_mapped (checked m1 content).
Proof using LOK La. eapply ram_only_mapped; [apply store_ram_only|exact launch_mapped]. Qed.

Lemma checked_names : cstr (checked m1 content) filename_at w /\ cstr (checked m1 content) arg_at a.
Proof using LOK La.
  destruct La as [_ _ Hn [Hw Ha] _ _ _ _ _].
  apply check_names; [exact launch_mapped|rewrite length_take; lia|apply Hn|done|apply Hn|done].
Qed.

Lemma loaded_name p l :
  KERNEL <= p -> p + Z.of_nat (length l + 1) <= 2 * KERNEL ->
  cstr (checked m1 content) p l -> cstr (loaded (checked m1 content) i content) p l.
Proof using LOK La.
  intros H1 H2 [Hb Hl]. split; [|done]. intros j b Hj. rewrite <-(Hb j b Hj).
  apply lookup_lt_Some in Hj. rewrite length_app in Hj. cbn [length] in Hj.
  apply loaded_ld; [exact checked_mapped|exact launch_slot|apply La|lia].
Qed.

Lemma program_loaded :
  loadFile (setupPage (take_slot i (set_kmach (set_dentry (set_kmach k m1) d) (checked m1 content))))
  = set_kmach (set_addrPage (take_slot i (set_dentry (set_kmach k m1) d)) (user_frame i))
      (loaded (checked m1 content) i content).
Proof using LOK La.
  pose proof checked_image as Hs. pose proof checked_mapped as Hm. pose proof launch_slot as Hi.
  destruct La as [[] _ _ _ _ Hd _ Hf _].
  rewrite (setupPage_spec _ i) by done.
  rewrite (loadFile_spec _ (checked m1 content) i size); [|exact Hm|exact Hi|done| |apply so_placed0|..].
  - transitivity (set_kmach (set_addrPage (take_slot i (set_dentry (set_kmach k m1) d)) (user_frame i))
      (loaded (checked m1 content) i (file_content (FSYSTEM k) (checked m1 content) (inode d))));
      [reflexivity|by rewrite (image_same_content _ (kmach k) _ so_image0 _ _ Hs Hd)].
  - exact (image_same_within _ (kmach k) _ so_image0 _ Hs).
  - rewrite (image_same_inodes _ (kmach k) _ size);
      [exact Hd|exact Hs|exact (image_size_boot _ (kmach k) _ so_image0)].
  - change (code_fits (file_content (FSYSTEM k) (checked m1 content) (inode d))).
    rewrite (image_same_content _ (kmach k) _ so_image0 _ _ Hs Hd). exact Hf.
Qed.

Lemma execute_spec base :
  let k' := program_state k m1 d i content in
  execute base buf k
  = Leave (ToUser (ld32 (kmach k') (EXEC_LOCATION + CONTEXTSWITCH_OFF))) (launch_state k' base i w).
Proof using LOK La.
  intros k'. pose proof checked_names as [Hw _]. pose proof launch_slot as Hi.
  unfold execute.
  erewrite c_bind_ret by (unfold c_some; by rewrite (la_parse _ _ _ _ _ _ _ _ La)).
  erewrite c_bind_ret by reflexivity. erewrite c_bind_ret by exact launch_check.
  cbn [truth Z.eqb negb].
  set (k1 := set_kmach (set_dentry (set_kmach k m1) d) (checked m1 content)).
  assert (setPnum k1 = (0, take_slot i k1)) as Hs.
  { apply setPnum_given; [apply La|exact (la_slot _ _ _ _ _ _ _ _ La)]. }
  unfold c_bind at 1. rewrite Hs. cbn [truth Z.eqb negb].
  erewrite c_bind_ret by reflexivity. erewrite c_bind_ret by reflexivity.
  unfold k1. rewrite program_loaded. erewrite c_bind_ret by reflexivity.
  apply (createPCB_spec k' base i w); [apply La|done| |apply La].
  destruct names_in_kernel as ([F1 F2] & _). destruct (la_short _ _ _ _ _ _ _ _ La) as [Hl _].
  apply loaded_name; [exact F1|lia|exact Hw].
Qed.

Lemma launch_ring base k' : ksched k' = ksched k ->
  ring_ok (ksched (launch_state k' base i w)) /\ running (launch_state k' base i w).
Proof using LOK La.
  intros Hk. pose proof (so_ring _ _ (la_system _ _ _ _ _ _ _ _ La)) as [Ha Hl Hh Hi].
  set (Q := Process (pcb_at i) (indicator (ksched k)) (stack_top i) (stack_top i) 1).
  assert (ksched (launch_state k' base i w)
    = Sched (indicator (ksched k)) (active (ksched k)) (terminals (ksched k)) 1
        (<[0%nat := Q]> (ring (ksched k)))) as Hs by (unfold Q; rewrite <-Hk; done).
  assert (<[0%nat := Q]> (ring (ksched k)) !! 0%nat = Some Q) as HQ
    by (apply list_lookup_insert_eq; rewrite Hl; lia).
  unfold running. rewrite Hs. cbn [ring head indicator]. split.
  - split; cbn; [done|by rewrite length_insert| |done]. right. split; [done|]. by exists Q.
  - split; [done|]. by exists Q.
Qed.

Lemma launch_space va :
  0 <= va < 4294967296 ->
  translate (loaded (checked m1 content) i content) va
  = if decide (user_base <= va < user_base + 4194304)
    then Some (user_frame i + (va - user_base)) else translate (kmach k) va.
Proof using LOK La.
  intros Hva. unfold loaded.
  destruct (store_bytes_machine (user_page (checked m1 content) i) EXEC_LOCATION content) as [v ->].
  change (translate (set_ram ?m v) va) with (translate m va).
  rewrite user_page_translate by (done || exact checked_mapped || exact launch_slot).
  case_decide; [done|]. unfold checked.
  destruct (store_bytes_machine m1 check_buf_at (take 4 content)) as [v' ->].
  change (translate (set_ram ?m v') va) with (translate m va).
  rewrite (nh_ram _ _ _ _ (la_names _ _ _ _ _ _ _ _ La)). done.
Qed.

Lemma launch_memory p :
  ~ exec_bytes p -> ~ (user_frame i <= p < user_frame i + 4194304) ->
  ram (loaded (checked m1 content) i content) !! p = ram (kmach k) !! p.
Proof using LOK La.
  intros He Hu. unfold loaded. destruct (la_fits _ _ _ _ _ _ _ _ La) as [_ Hf]. fold content in Hf.
  rewrite store_bytes_ram.
  - change (ram (user_page ?m i)) with (ram m). unfold checked. rewrite store_bytes_ram.
    + apply (nh_phys _ _ _ _ (la_names _ _ _ _ _ _ _ _ La)). intros Hn. apply He. by left.
    + intros j Hj. rewrite length_take in Hj. destruct names_in_kernel as (_ & _ & [C1 C2] & _).
      rewrite cell_kernel by (exact launch_mapped || lia). intros <-. apply He. right. lia.
  - intros j Hj. rewrite code_cell; [|exact checked_mapped|exact launch_slot|lia].
    unfold user_base, EXEC_LOCATION in Hf. lia.
Qed.

Lemma execute_launched base :
  launched k base i w a content (launch_state (program_state k m1 d i content) base i w).
Proof using LOK La.
  pose proof checked_names as [Hw Ha]. destruct (la_short _ _ _ _ _ _ _ _ La) as [Lw Lna].
  destruct names_in_kernel as ([F1 F2] & [A1 A2] & _).
  set (k1 := program_state k m1 d i content).
  assert (ksched k1 = ksched k) as Hk1 by done.
  split.
  - done.
  - done.
  - eexists. split; [apply get_put_pcb|]. unfold launch_pcb.
    rewrite (decide_ext (running k1) (running k)) by done. destruct (decide (running k)); done.
  - intros x Hx. change (get_pcb (put_pcb k1 (pcb_at i) (launch_pcb k1 base i w)) x = get_pcb k x).
    unfold get_pcb, put_pcb. cbn. by rewrite lookup_insert_ne.
  - done.
  - split; apply loaded_name; done || lia.
  - apply (loaded_code (checked m1 content)); [exact checked_mapped|exact launch_slot|apply La|].
    apply file_content_bytes.
  - exact launch_space.
  - unfold launch_state. change (tlb_dirty (loaded (checked m1 content) i content) = false).
    unfold loaded. by destruct (store_bytes_machine (user_page (checked m1 content) i) EXEC_LOCATION content) as [v ->].
  - exact launch_memory.
  - destruct (launch_ring base k1 Hk1) as [H1 H2]. by split_and!.
Qed.

End call.
End launch.

Section end_of_process.
Context {L : Layout} {LOK : LayoutOk} {FR : Frames}.
Implicit Types (k : kernel) (m : machine).

(** ** halt *)

Lemma close_from_spec n i k :
  files_ok (kfiles k) -> (i + n = 8)%nat -> (2 <= i)%nat ->
  exists l, close_from n (Z.of_nat i) k = Ret tt (set_fd k l).
Proof.
  revert i k. induction n as [|n IH]; intros i k Hok Hin Hi.
  - exists (fd (kfiles k)). cbn [close_from]. unfold c_ret. f_equal. by destruct k as [? ? [] ? ? ? ? ?].
  - destruct (lookup_lt_is_Some_2 (fd (kfiles k)) i) as [f Hf]; [rewrite (fd_length _ Hok); lia|].
    cbn [close_from]. unfold c_bind. rewrite (close_spec i f k Hok) by (done || lia).
    replace (Z.of_nat i + 1) with (Z.of_nat (S i)) by lia.
    destruct (flags f =? 0); [apply IH; [done|lia|lia]|].
    edestruct (IH (S i)) as [l ->]; [|lia|lia|by exists l].
    apply (files_ok_put (kfiles k)); [done|]. split; [by left|done].
Qed.

(** The ring once the process [c] has ended. *)
Definition left_ring k : list process_t :=
  match ring (ksched k) with
  | q :: l =>
      (if decide (running k) then Process (curr_pcb (kprocs k)) (pscreen q) (pebp q) (pesp q) (next q)
       else Process (pcb q) (pscreen q) (pebp q) (pesp q) 1) :: l
  | [] => []
  end.

Lemma leave_ring_spec k :
  ring_ok (ksched k) ->
  leave_ring (if decide (running k) then Some 1 else None) k = Ret tt (set_ring k (left_ring k)).
Proof.
  intros Hr. pose proof (ring_length _ Hr) as Hl. unfold leave_ring, left_ring.
  destruct (ring (ksched k)) as [|q l] eqn:Eq; [done|].
  assert (get_process k 1 = Some q) as Hg by (unfold get_process; simpl; by rewrite Eq).
  destruct (decide (running k)) as [Hrun|_].
  - rewrite Hg. unfold put_process. by rewrite Eq.
  - unfold c_bind, c_get. rewrite (ring_active _ Hr). cbn [Z.eqb Pos.eqb].
    unfold set_next. rewrite Hg. unfold put_process. by rewrite Eq.
Qed.

(** The kernel when control is back in the parent [p] of the process [c]. *)
Definition halt_state k (c p : pcb_t) : kernel :=
  let k := set_pnumarr k (<[Z.to_nat (pnum (kprocs k)) := 0]> (pnumarr (kprocs k))) in
  let k := set_fd (set_pnum (set_curr_pcb (set_esp0 k (oldesp c)) (parent c)) (pid p)) (pcb_fd p) in
  let k := set_kmach (set_addrPage k (user_frame (pid p)))
    (user_page (store_bytes (kmach k) filename_at (pcb_filename p ++ [0])) (pid p)) in
  set_ring k (left_ring k).

(** What a process that may end starts from: it is not the first of a terminal. *)
Record ending k (c p : pcb_t) : Prop := {
  eg_shared : 3 <= pnum (kprocs k);
  eg_files : files_ok (kfiles k);
  eg_ring : ring_ok (ksched k);
  eg_child : get_pcb k (curr_pcb (kprocs k)) = Some c;
  eg_parent : get_pcb k (parent c) = Some p;
}.

Lemma halt_spec k c p base status :
  ending k c p -> halt base status k = Leave (ToFrame (haltesp c) (haltebp c) (u8 status)) (halt_state k c p).
Proof.
  intros [Hn Hf Hr Hc Hp]. unfold halt.
  erewrite c_bind_ret by reflexivity. erewrite c_bind_ret by reflexivity.
  set (k1 := set_pnumarr k _). change (pnum (kprocs k1)) with (pnum (kprocs k)).
  rewrite (proj2 (Z.ltb_ge _ _)) by done. erewrite c_bind_ret by reflexivity.
  assert (current_pcb k1 = Ret c k1) as E by (change (current_pcb k1) with (c_some (get_pcb k (curr_pcb (kprocs k))) k1); by rewrite Hc).
  rewrite (c_bind_ret _ _ _ _ _ E). erewrite c_bind_ret by reflexivity.
  destruct (close_from_spec 6 2 (set_esp0 k1 (oldesp c)) Hf eq_refl ltac:(lia)) as [l El].
  rewrite (c_bind_ret _ _ _ _ _ El). erewrite c_bind_ret by reflexivity.
  set (k2 := set_curr_pcb _ _).
  assert (current_pcb k2 = Ret p k2) as E2 by (change (current_pcb k2) with (c_some (get_pcb k (parent c)) k2); by rewrite Hp).
  rewrite (c_bind_ret _ _ _ _ _ E2).
  do 4 erewrite c_bind_ret by reflexivity.
  set (k3 := parentPage _).
  erewrite c_bind_ret by (by apply screen_process_spec).
  erewrite c_bind_ret by (by apply leave_ring_spec).
  done.
Qed.

(** What the end of a process restores: everything the parent had but its open
    files, which are those of its start, and the top of its kernel stack. *)
Record ended k (c p : pcb_t) k' : Prop := {
  en_slot : pnum (kprocs k') = pid p /\
    pnumarr (kprocs k') = <[Z.to_nat (pnum (kprocs k)) := 0]> (pnumarr (kprocs k));
  en_current : curr_pcb (kprocs k') = parent c /\ esp0 (kprocs k') = oldesp c;
  en_pcbs : forall x, get_pcb k' x = get_pcb k x;
  en_files : fd (kfiles k') = pcb_fd p;
  en_name : cstr (kmach k') filename_at (pcb_filename p);
  en_space : forall va, 0 <= va < 4294967296 -> translate (kmach k') va
    = if decide (user_base <= va < user_base + 4194304)
      then Some (user_frame (pid p) + (va - user_base)) else translate (kmach k) va;
  en_tlb : tlb_dirty (kmach k') = false;
  en_memory : forall a, ~ names_bytes a -> ram (kmach k') !! a = ram (kmach k) !! a;
  en_ring : ring_ok (ksched k') /\ indicator (ksched k') = indicator (ksched k);
}.

Lemma left_ring_ok k : ring_ok (ksched k) -> ring_ok (ksched (set_ring k (left_ring k))).
Proof.
  intros [Ha Hl Hh Hi]. unfold left_ring.
  destruct (ring (ksched k)) as [|q l] eqn:Eq; [done|].
  assert (length l = 2%nat) as Hl' by (simpl in Hl; lia).
  split; cbn [active ring head indicator ksched set_ring set_ksched]; [done|simpl; lia| |done].
  destruct Hh as [Hh|(Hh & q' & Hq' & Hn)]; [by left|right]. simpl in Hq'. injection Hq' as <-.
  split; [done|]. eexists. split; [reflexivity|]. by destruct (decide (running k)).
Qed.

Lemma halt_ended k c p :
  ending k c p -> kernel_mapped (kmach k) -> 0 <= pid p < 6 ->
  Forall word_byte (pcb_filename p) -> Z.of_nat (length (pcb_filename p)) < 32 ->
  ended k c p (halt_state k c p).
Proof.
  intros [Hn Hf Hr Hc Hp] Hm Hid Hw Hl. destruct names_in_kernel as ([F1 F2] & _).
  set (m1 := store_bytes (kmach k) filename_at (pcb_filename p ++ [0])).
  assert (kernel_mapped m1) as Hm1 by (eapply ram_only_mapped; [apply store_ram_only|done]).
  split; [done|done|done|done| | |done| |].
  - change (kmach (halt_state k c p)) with (user_page m1 (pid p)).
    destruct (word_cstr (kmach k) filename_at _ Hm (conj F1 F2) Hl Hw) as [Hb H0]. split; [|done].
    intros j b Hj. rewrite <-(Hb j b Hj). apply lookup_lt_Some in Hj. rewrite length_app in Hj.
    cbn [length] in Hj. apply user_page_ld; [done|done|lia].
  - intros va Hva. change (kmach (halt_state k c p)) with (user_page m1 (pid p)).
    rewrite user_page_translate by done. case_decide; [done|]. unfold m1.
    by destruct (store_bytes_machine (kmach k) filename_at (pcb_filename p ++ [0])) as [v ->].
  - intros a Ha. change (ram (kmach (halt_state k c p))) with (ram m1). unfold m1.
    apply store_bytes_ram. intros j Hj. rewrite length_app in Hj. cbn [length] in Hj.
    rewrite cell_kernel by (done || lia). intros <-. apply Ha. left. lia.
  - split; [|done]. by apply left_ring_ok.
Qed.

End end_of_process.

(** ** The contract *)

Section contract.
Context {L : Layout} {LOK : LayoutOk} {FR : Frames}.
Implicit Types (k : kernel) (m : machine).

(** The little-endian word at the head of [l]. *)
Definition le_word (l : list Z) : Z :=
  default 0 (l !! 0%nat) + 256 * default 0 (l !! 1%nat) + 65536 * default 0 (l !! 2%nat)
  + 16777216 * default 0 (l !! 3%nat).

Lemma load_bytes_ld m a l i b :
  load_bytes m a (length l) = l -> l !! i = Some b -> ld m (a + Z.of_nat i) = b.
Proof. intros Hl. by apply bytes_at_load. Qed.

Lemma entry_word m l :
  28 <= Z.of_nat (length l) -> load_bytes m EXEC_LOCATION (length l) = l ->
  ld32 m (EXEC_LOCATION + CONTEXTSWITCH_OFF) = le_word (drop 24 l).
Proof.
  intros Hl Hb. unfold ld32, le_word. rewrite !lookup_drop.
  assert (forall i, (i < 4)%nat -> ld m (EXEC_LOCATION + CONTEXTSWITCH_OFF + Z.of_nat i) = default 0 (l !! (24 + i)%nat)) as Hi.
  { intros i Hi. destruct (lookup_lt_is_Some_2 l (24 + i)) as [b Hlb]; [lia|]. rewrite Hlb.
    change (default 0 (Some b)) with b.
    rewrite <-(load_bytes_ld m EXEC_LOCATION l (24 + i) b Hb Hlb). f_equal. unfold CONTEXTSWITCH_OFF. lia. }
  pose proof (Hi 0%nat ltac:(lia)) as E0. pose proof (Hi 1%nat ltac:(lia)) as E1.
  pose proof (Hi 2%nat ltac:(lia)) as E2. pose proof (Hi 3%nat ltac:(lia)) as E3.
  change (Z.of_nat 0) with 0 in E0. change (Z.of_nat 1) with 1 in E1.
  change (Z.of_nat 2) with 2 in E2. change (Z.of_nat 3) with 3 in E3.
  rewrite Z.add_0_r in E0. by rewrite E0, E1, E2, E3.
Qed.

Lemma started_ok f : files_ok f -> files_ok (started f).
Proof.
  intros Hf. pose proof (files_ok_put f 0 (File stdin_fops 0 0 1) Hf) as H0.
  specialize (H0 ltac:(split; [by right|intros _ ?; lia])).
  pose proof (files_ok_put _ 1 (File stdout_fops 0 1 1) H0) as H1.
  specialize (H1 ltac:(split; [by right|intros _ ?; lia])). by destruct H1.
Qed.

(** A launch keeps the invariant of the system. *)
Lemma launched_system k size buf w a d i m1 base k' :
  launchable k size buf w a d i m1 ->
  k' = launch_state (program_state k m1 d i (file_content (FSYSTEM k) (kmach k) (inode d))) base i w ->
  system_ok k' size.
Proof.
  intros La ->. set (content := file_content _ _ _).
  pose proof (checked_mapped _ _ _ _ _ _ _ _ La) as Hm. fold content in Hm.
  pose proof (launch_slot _ _ _ _ _ _ _ _ La) as Hi.
  pose proof (checked_image _ _ _ _ _ _ _ _ La) as Hs. fold content in Hs.
  pose proof (execute_launched _ _ _ _ _ _ _ _ La base) as [_ _ _ _ Hfi _ _ _ _ _ [Hr _]].
  fold content in Hr, Hfi. pose proof (la_fits _ _ _ _ _ _ _ _ La) as Hc. fold content in Hc.
  destruct (la_system _ _ _ _ _ _ _ _ La) as [M F I P R S].
  split.
  - change (kernel_mapped (loaded (checked m1 content) i content)). by apply loaded_mapped.
  - rewrite Hfi. by apply started_ok.
  - change (image_within (FSYSTEM k) (loaded (checked m1 content) i content) size).
    apply (image_same_within _ (kmach k) _ I). eapply image_same_trans; [exact Hs|].
    intros x Hx. destruct P as [[P1 P2] _ _ _ _]. apply loaded_ld; [done|done|done|lia].
  - exact P.
  - exact Hr.
  - change (length (<[Z.to_nat i := 1]> (pnumarr (kprocs k))) = 6%nat). by rewrite length_insert.
Qed.

(** [execute] after a refusal of [checkFile]. *)
Lemma execute_refused base buf k m1 r k' :
  parse_arg buf (kmach k) = Some m1 -> checkFile filename_at (set_kmach k m1) = Ret r k' -> r <> 0 ->
  execute base buf k = Ret (-1) k'.
Proof.
  intros Hp Hc Hr. unfold execute. erewrite c_bind_ret by (unfold c_some; by rewrite Hp).
  erewrite c_bind_ret by reflexivity. rewrite (c_bind_ret _ _ _ _ _ Hc).
  unfold truth. by rewrite (proj2 (Z.eqb_neq r 0)).
Qed.

Lemma execute_no_slot base buf k m1 k' :
  parse_arg buf (kmach k) = Some m1 -> checkFile filename_at (set_kmach k m1) = Ret 0 k' ->
  setPnum k' = (-1, k') ->
  execute base buf k = Ret 0 (set_con k' (putcs (chars "Too many processes. Execute exit!" ++ [10]) (con k'))).
Proof.
  intros Hp Hc Hs. unfold execute. erewrite c_bind_ret by (unfold c_some; by rewrite Hp).
  erewrite c_bind_ret by reflexivity. rewrite (c_bind_ret _ _ _ _ _ Hc). cbn [truth Z.eqb negb].
  unfold c_bind at 1. rewrite Hs. cbn [truth Z.eqb negb]. rewrite putcs_app. done.
Qed.

Lemma setPnum_none k :
  1 <= indicator (ksched k) <= 3 -> slot_free (own_slot k) k = false ->
  (forall x, 3 <= x < 6 -> slot_free x k = false) -> setPnum k = (-1, k).
Proof.
  intros Hi Ho Hall. destruct (setPnum_spec k Hi) as [(i & [Hf Hg] & _)|(_ & _ & H)]; [|done].
  destruct Hg as [->|(_ & Hr & _)]; [congruence|]. rewrite Hall in Hf by done. done.
Qed.

(** C21: [setPnum] gives the terminal in view its own slot when it is free, else
    the first free one of the three shared slots, marks it used and answers 0;
    when there is none it answers -1 and changes nothing. *)
Theorem setPnum_correct k :
  1 <= indicator (ksched k) <= 3 -> length (pnumarr (kprocs k)) = 6%nat ->
  (exists i, slot_given k i /\ 0 <= i < 6 /\ setPnum k = (0, take_slot i k) /\
     slot_free i (snd (setPnum k)) = false) \/
  (slot_free (own_slot k) k = false /\ (forall x, 3 <= x < 6 -> slot_free x k = false) /\
   setPnum k = (-1, k)).
Proof.
  intros Hi Hl. destruct (setPnum_spec k Hi) as [(i & Hg & Hs)|Hn]; [left|by right].
  pose proof (slot_given_range k i Hi Hg) as Hr. exists i. split_and!; [done|lia|lia|done|].
  rewrite Hs. cbn [snd]. unfold slot_free, take_slot, lookupZ. rewrite (proj2 (Z.ltb_ge i 0)) by lia.
  cbn [pnumarr kprocs set_pnum set_pnumarr set_kprocs].
  by rewrite list_lookup_insert_eq by lia.
Qed.

(** C2: [execute] of an executable that fits the user page starts it: control
    goes to the entry point in the file's header, in a slot of its own, with the
    file's bytes in its own page, its names, its PCB linked to the caller's and
    the top of its kernel stack in the TSS; nothing else of the memory changes,
    and the invariant of the system holds again. *)
Theorem execute_correct k size buf w a d i m1 base :
  launchable k size buf w a d i m1 ->
  let content := file_content (FSYSTEM k) (kmach k) (inode d) in
  exists k', execute base buf k = Leave (ToUser (le_word (drop 24 content))) k' /\
    launched k base i w a content k' /\ system_ok k' size.
Proof.
  intros La content. eexists. split; [|split].
  - rewrite (execute_spec _ _ _ _ _ _ _ _ La). f_equal. f_equal.
    apply entry_word; [apply La|]. apply (ln_code _ _ _ _ _ _ _ (execute_launched _ _ _ _ _ _ _ _ La base)).
  - by eapply execute_launched.
  - by eapply launched_system.
Qed.

(** C20: [execute] answers -1 when no file has the name and when the four bytes it
    tests are not the ELF magic, and 0, after a message, when they are and no slot is
    free; no process starts.  The bytes tested are the first four of the file; for a
    file of fewer than four, the missing ones are what [checkFile]'s buffer held
    before, so that a short file is refused only if they do not complete the magic. *)
Theorem execute_errors k size base buf w a m1 :
  system_ok k size -> parse_arg buf (kmach k) = Some m1 -> names_hold (kmach k) m1 w a ->
  Z.of_nat (length w) < 32 ->
  ((forall x, 0 <= x < num_dentries (FSYSTEM k) (kmach k) ->
      dentry_name (FSYSTEM k) (kmach k) x <> take 32 w) ->
   execute base buf k = Ret (-1) (set_kmach k m1)) /\
  (forall d, found (FSYSTEM k) (kmach k) (take 32 w) (dentry (kprocs k)) d 0 ->
     0 <= inode d < boot_inodes (FSYSTEM k) (kmach k) ->
     let content := file_content (FSYSTEM k) (kmach k) (inode d) in
     let k' := set_kmach (set_dentry k d) (checked m1 content) in
     let bytes := take 4 (content ++ drop (length content) (load_bytes m1 check_buf_at 4)) in
     (bytes <> elf_magic -> execute base buf k = Ret (-1) k') /\
     (bytes = elf_magic -> slot_free (own_slot k) k = false ->
      (forall x, 3 <= x < 6 -> slot_free x k = false) ->
      execute base buf k
      = Ret 0 (set_con k' (putcs (chars "Too many processes. Execute exit!" ++ [10]) (con k'))))).
Proof.
  intros [M F I P R S] Hp Hn Hl.
  pose proof (names_image _ _ _ _ _ _ M P Hn) as Hs.
  pose proof (names_hold_mapped _ _ _ _ Hn M) as Hm.
  pose proof (nh_filename _ _ _ _ Hn) as Hw. split.
  - intros Hno. apply (execute_refused base buf k m1 (-1)); [done| |done].
    apply (checkFile_missing (set_kmach k m1) w Hw).
    destruct (image_same_found _ (kmach k) _ I m1 (take 32 w) (dentry (kprocs k)) (dentry (kprocs k)) (-1) Hs)
      as [[Hr _]|(_ & _ & H)]; [right; split_and!; [reflexivity|reflexivity|exact Hno]|discriminate Hr|exact H].
  - intros d Hf Hi content k' bytes.
    pose proof (image_same_content _ (kmach k) _ I _ _ Hs Hi) as Hcon. fold content in Hcon.
    assert (checkFile filename_at (set_kmach k m1)
            = Ret (if bool_decide (bytes = elf_magic) then 0 else -1) k') as Hc.
    { rewrite (checkFile_spec (set_kmach k m1) w d size); [|exact Hm| |exact P|exact Hw| |].
      - change (kmach (set_kmach k m1)) with m1. change (FSYSTEM (set_kmach k m1)) with (FSYSTEM k).
        by rewrite Hcon.
      - exact (image_same_within _ (kmach k) _ I _ Hs).
      - exact (image_same_found _ (kmach k) _ I _ _ _ _ _ Hs Hf).
      - change (0 <= inode d < boot_inodes (FSYSTEM k) m1).
        rewrite (image_same_inodes _ (kmach k) _ size);
          [done|done|exact (image_size_boot _ (kmach k) _ I)]. }
    split; intros He; [|intros Ho Hall].
    + rewrite bool_decide_false in Hc by done. by apply (execute_refused base buf k m1 (-1)).
    + rewrite bool_decide_true in Hc by done. apply (execute_no_slot base buf k m1); [done|done|].
      apply (setPnum_none k'); [apply R|exact Ho|exact Hall].
Qed.

(** C19: [halt] of a process in a shared slot frees the slot and returns control
    to the frame that its PCB records with the status in eax, with the parent as
    the current process: its slot, its page, its name, and its descriptors as
    they were when the parent itself was started. *)
Theorem halt_correct k c p base status :
  ending k c p -> kernel_mapped (kmach k) -> 0 <= pid p < 6 ->
  Forall word_byte (pcb_filename p) -> Z.of_nat (length (pcb_filename p)) < 32 ->
  exists k', halt base status k = Leave (ToFrame (haltesp c) (haltebp c) (u8 status)) k' /\
    ended k c p k'.
Proof.
  intros He Hm Hid Hw Hl. eexists. split; [by apply halt_spec|by apply halt_ended].
Qed.

(** C22: [halt] of a terminal's first process, when its terminal is the one in view
    ([indicator = pnum + 1]), does not return to its caller: its slot is given at once
    to a new shell, which starts in it.  With another terminal in view the slot asked
    for is that terminal's, so nothing is claimed there. *)
Theorem halt_restarts_shell k size w a d i m1 base status :
  let k0 := set_pnumarr k (<[Z.to_nat (pnum (kprocs k)) := 0]> (pnumarr (kprocs k))) in
  0 <= pnum (kprocs k) < 3 -> indicator (ksched k) = pnum (kprocs k) + 1 ->
  launchable k0 size shell_at w a d i m1 ->
  exists entry k', halt base status k = Leave (ToUser entry) k' /\
    launched k0 (halt_esp base) (pnum (kprocs k)) w a (file_content (FSYSTEM k) (kmach k) (inode d)) k'.
Proof.
  intros k0 Hp Hi La.
  assert (i = pnum (kprocs k)) as ->.
  { apply (slot_given_unique k0); [by apply La|]. split.
    - pose proof (so_slots _ _ (la_system _ _ _ _ _ _ _ _ La)) as Hl.
      unfold slot_free, lookupZ. rewrite (proj2 (Z.ltb_ge _ _)) by lia. unfold k0 in *.
      cbn [pnumarr kprocs set_pnumarr set_kprocs] in *. rewrite length_insert in Hl.
      by rewrite list_lookup_insert_eq by lia.
    - left. unfold own_slot. change (ksched k0) with (ksched k). lia. }
  eexists _, _. split; [|exact (execute_launched _ _ _ _ _ _ _ _ La (halt_esp base))].
  unfold halt. erewrite c_bind_ret by reflexivity. erewrite c_bind_ret by reflexivity.
  change (pnum (kprocs (set_pnumarr k _))) with (pnum (kprocs k)).
  rewrite (proj2 (Z.ltb_lt _ _)) by lia. fold k0.
  apply c_bind_leave, c_bind_leave. exact (execute_spec _ _ _ _ _ _ _ _ La (halt_esp base)).
Qed.

(** C3: the round trip of [execute] and [halt].  Whatever a child does to the
    memory and to its files, its end gives the parent control at the frame of
    its [execute] call, with its slot table, its number, its PCB and its page as
    before the call; the status it passed is lost, since [execute] answers 0
    there; and tss.esp0 is left below where the call was made, so that each
    program run lowers the top of the parent's kernel stack. *)
Theorem execute_halt_roundtrip k size buf w a d i m1 base base2 status p k1 k2 `{!FramesOk} :
  launchable k size buf w a d i m1 -> 3 <= i -> running k ->
  get_pcb k (curr_pcb (kprocs k)) = Some p -> curr_pcb (kprocs k) <> pcb_at i ->
  pid p = pnum (kprocs k) -> 0 <= pnum (kprocs k) < 6 ->
  Forall word_byte (pcb_filename p) -> Z.of_nat (length (pcb_filename p)) < 32 ->
  launched k base i w a (file_content (FSYSTEM k) (kmach k) (inode d)) k1 ->
  kprocs k2 = kprocs k1 -> ksched k2 = ksched k1 -> kernel_mapped (kmach k2) -> files_ok (kfiles k2) ->
  exists k3, halt base2 status k2 = Leave (ToFrame (switch_esp base) (switch_ebp base) (u8 status)) k3 /\
    resume_execute (u8 status) k3 = Ret 0 k3 /\
    pnum (kprocs k3) = pnum (kprocs k) /\ pnumarr (kprocs k3) = pnumarr (kprocs k) /\
    curr_pcb (kprocs k3) = curr_pcb (kprocs k) /\ fd (kfiles k3) = pcb_fd p /\
    (forall va, user_base <= va < user_base + 4194304 ->
       translate (kmach k3) va = Some (user_frame (pnum (kprocs k)) + (va - user_base))) /\
    (base = syscall_esp (esp0 (kprocs k)) -> esp0 (kprocs k3) < esp0 (kprocs k)).
Proof.
  intros La Hi3 Hrun Hpar Hne Hpid Hpn Hw Hl Hk1 Ekp Eks Hm Hf.
  destruct Hk1 as [[E1 E2] [E3 E4] (c & Hc & _ & Ecp & _ & _ & Ehalt) Hoth _ _ _ _ _ _ (Hr & _ & _ & _)].
  destruct (Ehalt Hrun) as (Eo & Eh & Eb).
  assert (forall x, get_pcb k2 x = get_pcb k1 x) as Eg by (intros x; unfold get_pcb; by rewrite Ekp).
  assert (ending k2 c p) as He.
  { split; [rewrite Ekp, E1; lia|done|by rewrite Eks|by rewrite Eg, Ekp, E3|].
    rewrite Eg, Ecp, Hoth; done. }
  rewrite <-Hpid in Hpn.
  pose proof (halt_ended k2 c p He Hm Hpn Hw Hl) as [[P1 P2] [P3 P4] _ P5 _ P6 _ _ _].
  exists (halt_state k2 c p). split_and!.
  - rewrite (halt_spec k2 c p) by done. by rewrite Eh, Eb.
  - done.
  - congruence.
  - rewrite P2, Ekp, E1, E2. destruct (la_slot _ _ _ _ _ _ _ _ La) as [Hfree _].
    unfold slot_free, lookupZ in Hfree. rewrite (proj2 (Z.ltb_ge i 0)) in Hfree by lia.
    destruct (pnumarr (kprocs k) !! Z.to_nat i) as [v|] eqn:Ev; [|done].
    apply Z.eqb_eq in Hfree as ->. rewrite list_insert_insert_eq. by apply list_insert_id.
  - congruence.
  - done.
  - intros va Hva. rewrite P6 by (unfold user_base in *; lia). rewrite decide_True by done. by rewrite Hpid.
  - intros ->. rewrite P4, Eo. pose proof (syscall_below (esp0 (kprocs k))).
    pose proof (save_below (syscall_esp (esp0 (kprocs k)))). lia.
Qed.

(** C40: [execute] while process1 is of another terminal than the one in view, in a
    shared slot that has had a program before.  The program starts as always, but
    [createPCB] saves its return point in [oldesp] and [oldebp] alone: whatever the
    program does to memory and files, its [halt] leaves to the frame that the
    previous program of the slot recorded, not to the caller of this [execute]. *)
Theorem execute_loses_halt_frame k size buf w a d i m1 base old p :
  launchable k size buf w a d i m1 -> 3 <= i -> ~ running k ->
  get_pcb k (pcb_at i) = Some old ->
  get_pcb k (curr_pcb (kprocs k)) = Some p -> curr_pcb (kprocs k) <> pcb_at i ->
  exists entry k1, execute base buf k = Leave (ToUser entry) k1 /\
    launched k base i w a (file_content (FSYSTEM k) (kmach k) (inode d)) k1 /\
    forall k2 base2 status,
      kprocs k2 = kprocs k1 -> ksched k2 = ksched k1 -> files_ok (kfiles k2) ->
      exists k3, halt base2 status k2 = Leave (ToFrame (haltesp old) (haltebp old) (u8 status)) k3.
Proof.
  intros La Hi Hrun Hold Hp Hne. pose proof (execute_launched _ _ _ _ _ _ _ _ La base) as Hk1.
  eexists _, _. split; [exact (execute_spec _ _ _ _ _ _ _ _ La base)|]. split; [exact Hk1|].
  destruct Hk1 as [[E1 _] [E3 _] _ Hoth _ _ _ _ _ _ (Hr & _)].
  set (k0 := program_state _ _ _ _ _) in *. set (k1 := launch_state _ _ _ _) in *.
  intros k2 base2 status Ekp Eks Hf.
  assert (forall x, get_pcb k2 x = get_pcb k1 x) as Eg by (intros x; unfold get_pcb; by rewrite Ekp).
  set (c := launch_pcb k0 base i w).
  assert (get_pcb k1 (pcb_at i) = Some c) as Hc by apply get_put_pcb.
  assert (haltesp c = haltesp old /\ haltebp c = haltebp old /\ parent c = curr_pcb (kprocs k)) as (<- & <- & Hpar).
  { unfold c, launch_pcb. change (get_pcb k0 (pcb_at i)) with (get_pcb k (pcb_at i)). rewrite Hold.
    rewrite decide_False by exact Hrun. done. }
  eexists. apply (halt_spec k2 c p). split; [rewrite Ekp, E1; lia|done|by rewrite Eks| |].
  - by rewrite Eg, Ekp, E3.
  - by rewrite Eg, Hpar, Hoth.
Qed.

End contract.

(** ** Example: a system with one program, the shell, running in slot 0 *)

#[local] Existing Instance demo_layout.
#[local] Existing Instance demo_layout_ok.

Definition demo_frames : Frames := {|
  syscall_esp e := e - 100;
  halt_esp b := b - 20;
  save_esp b := b - 50;
  save_ebp b := b - 40;
  switch_esp b := b - 60;
  switch_ebp b := b - 40;
|}.

Lemma demo_frames_ok : @FramesOk demo_frames.
Proof. split; intros x; unfold syscall_esp, halt_esp, save_esp, switch_esp, demo_frames; lia. Qed.

#[local] Existing Instance demo_frames.
#[local] Existing Instance demo_frames_ok.

Definition shell_fs : Z := 0x450000.

(** The header of an executable whose entry point is 0x08048400. *)
Definition shell_program : list Z := elf_magic ++ replicate 20 0 ++ [0; 0x84; 4; 8] ++ replicate 4 0.

(** One directory entry, one inode, one block; two commands at [shell_at] and
    0x440000. *)
Definition shell_machine : machine :=
  let m := initPaging blank_machine in
  let m := st32 m shell_fs 1 in
  let m := st32 m (shell_fs + 4) 1 in
  let m := store_bytes m (shell_fs + 64) (chars "shell"%string) in
  let m := st32 m (shell_fs + 64 + 32) 2 in
  let m := st32 m (shell_fs + 4096) 32 in
  let m := store_bytes m (shell_fs + 8192) shell_program in
  let m := store_bytes m 0x440000 (chars "nope"%string ++ [0]) in
  store_bytes m shell_at (chars "shell"%string ++ [0]).

Definition shell_pcb (parent haltesp : Z) : pcb_t :=
  Pcb (fd started_files) 0 (chars "shell"%string) (stack_top 0) parent 0 0 0 haltesp.

(** With terminal [v] in view. *)
Definition shell_system_in (v : Z) (pcbs : gmap Z pcb_t) (arr : list Z) : kernel :=
  Kernel (Console shell_machine 0 0 0 0) shell_fs started_files
    (Procs 0 arr (pcb_at 0) (Dentry 0 0 0) 0 pcbs (stack_top 0))
    (Sched v 1 (replicate 3 (Saved 0 0 0 0)) 1
       [Process (pcb_at 0) 1 (stack_top 0) (stack_top 0) 1; null_process; null_process])
    (Keys 0 0 0 0) 0 0.

Definition shell_system (arr : list Z) : kernel := shell_system_in 1 {[pcb_at 0 := shell_pcb 0 0]} arr.

Definition shell_dentry : dentry_t := Dentry (shell_fs + 64) 2 0.

Lemma shell_mapped : kernel_mapped shell_machine.
Proof.
  apply (ram_only_mapped (initPaging blank_machine)); [|apply initPaging_kernel_mapped].
  unfold shell_machine. do 3 (eapply ram_only_trans; [|apply store_ram_only]).
  unfold st32. do 8 apply ram_only_st. eapply ram_only_trans; [|apply store_ram_only].
  do 8 apply ram_only_st. apply ram_only_refl.
Qed.

Lemma shell_image : image_within shell_fs shell_machine 12288.
Proof.
  assert (boot_inodes shell_fs shell_machine = 1) as Hb by (vm_compute; reflexivity).
  assert (file_size shell_fs shell_machine 0 = 32) as Hs by (vm_compute; reflexivity).
  split.
  - vm_compute. split; discriminate.
  - rewrite Hb. done.
  - intros ino k Hi Hk. rewrite Hb in Hi. assert (ino = 0) as -> by lia. rewrite Hs in Hk.
    unfold blocks_at. rewrite Hb. assert (k / 4096 = 0) as -> by dlia.
    vm_compute. split; [reflexivity|discriminate].
Qed.

Lemma shell_system_in_ok v pcbs arr :
  1 <= v <= 3 -> length arr = 6%nat -> system_ok (shell_system_in v pcbs arr) 12288.
Proof.
  intros Hv Ha. split; [exact shell_mapped|exact started_files_ok|exact shell_image| | |exact Ha].
  - split; unfold in_kernel_page, clear_of, KERNEL, filename_at, arg_at, check_buf_at, tbuffer_at,
      demo_layout; change (FSYSTEM (shell_system_in v pcbs arr)) with 0x450000; lia.
  - split; cbn; [done|done| |lia]. right. split; [done|]. by eexists.
Qed.

Lemma shell_system_ok arr : length arr = 6%nat -> system_ok (shell_system arr) 12288.
Proof. intros Ha. by apply shell_system_in_ok; [lia|]. Qed.

Lemma shell_bytes p l :
  KERNEL <= p -> p + Z.of_nat (length l) <= 2 * KERNEL ->
  p + Z.of_nat (length l) <= filename_at \/ arg_at + 32 <= p ->
  load_bytes shell_machine p (length l) = l -> command shell_machine p l.
Proof.
  intros H1 H2 H3 Hl. split; [by apply bytes_at_load|]. intros j Hj.
  rewrite cell_kernel by (exact shell_mapped || lia).
  unfold names_bytes, filename_at, arg_at, demo_layout in *. lia.
Qed.

Lemma shell_parse w p :
  Forall word_byte w -> Z.of_nat (length w) < 32 -> command shell_machine p (w ++ [0]) ->
  exists m1, parse_arg p shell_machine = Some m1 /\ names_hold shell_machine m1 w [].
Proof.
  intros Hw Hl Hc. eexists.
  split; [exact (parse_arg_word _ p w [] shell_mapped Hw Hl Hc)|by apply one_word_names; [exact shell_mapped| |]].
Qed.

Lemma shell_launchable_in v pcbs arr i :
  1 <= v <= 3 -> length arr = 6%nat -> slot_given (shell_system_in v pcbs arr) i ->
  exists m1, launchable (shell_system_in v pcbs arr) 12288 shell_at (chars "shell"%string) [] shell_dentry i m1.
Proof.
  intros Hv Ha Hi.
  assert (Forall word_byte (chars "shell"%string)) as Hw by (apply (bool_decide_unpack _); vm_compute; exact I).
  destruct (shell_parse (chars "shell"%string) shell_at Hw) as (m1 & Hp & Hn); [simpl; lia| |].
  { apply shell_bytes; [unfold KERNEL; simpl; lia..|left; simpl; lia|vm_compute; reflexivity]. }
  exists m1. split; [by apply shell_system_in_ok|exact Hp|exact Hn|simpl; lia| | | | |exact Hi].
  - left. split; [done|]. exists 0. split_and!; [lia|vm_compute; reflexivity|vm_compute; reflexivity|lia|].
    vm_compute. reflexivity.
  - vm_compute. split; [discriminate|reflexivity].
  - vm_compute. reflexivity.
  - split; rewrite file_content_length; vm_compute; discriminate.
Qed.

Lemma shell_launchable arr i :
  length arr = 6%nat -> slot_given (shell_system arr) i ->
  exists m1, launchable (shell_system arr) 12288 shell_at (chars "shell"%string) [] shell_dentry i m1.
Proof. intros Ha Hi. by apply shell_launchable_in; [lia| |]. Qed.

Lemma shell_slot_3 : slot_given (shell_system [1; 0; 0; 0; 0; 0]) 3.
Proof. split; [done|]. right. split_and!; [done|lia|lia|lia]. Qed.

Lemma setPnum_correct_witness :
  setPnum (shell_system [1; 0; 0; 1; 0; 0]) = (0, take_slot 4 (shell_system [1; 0; 0; 1; 0; 0])).
Proof.
  destruct (setPnum_correct (shell_system [1; 0; 0; 1; 0; 0])) as [(i & Hg & _ & Hs & _)|(_ & Hall & _)];
    [simpl; lia|done| |].
  - rewrite Hs. do 2 f_equal. apply (slot_given_unique _ _ _ Hg). split; [done|]. right.
    split_and!; [done|lia|lia|]. intros x Hx. by assert (x = 3) as -> by lia.
  - by specialize (Hall 4 ltac:(lia)).
Defined.

Lemma execute_correct_witness :
  exists k', execute 0x7FFF00 shell_at (shell_system [1; 0; 0; 0; 0; 0]) = Leave (ToUser 0x08048400) k' /\
    pnum (kprocs k') = 3 /\ curr_pcb (kprocs k') = pcb_at 3.
Proof.
  destruct (shell_launchable [1; 0; 0; 0; 0; 0] 3 eq_refl shell_slot_3) as (m1 & La).
  destruct (execute_correct _ _ _ _ _ _ _ _ 0x7FFF00 La) as (k' & He & [[Hp _] [Hc _] _ _ _ _ _ _ _ _ _] & _).
  exists k'. split; [|by split]. rewrite He. do 2 f_equal.
Defined.

Lemma execute_errors_witness :
  exists k', execute 0x7FFF00 0x440000 (shell_system [1; 0; 0; 0; 0; 0]) = Ret (-1) k'.
Proof.
  assert (Forall word_byte (chars "nope"%string)) as Hw by (apply (bool_decide_unpack _); vm_compute; exact I).
  destruct (shell_parse (chars "nope"%string) 0x440000 Hw) as (m1 & Hp & Hn); [simpl; lia| |].
  { apply shell_bytes; [unfold KERNEL; simpl; lia..|right; simpl; lia|vm_compute; reflexivity]. }
  destruct (execute_errors (shell_system [1; 0; 0; 0; 0; 0]) 12288 0x7FFF00 0x440000 (chars "nope"%string) [] m1)
    as [H1 _]; [by apply shell_system_ok|exact Hp|exact Hn|simpl; lia|].
  eexists. apply H1. intros x Hx.
  assert (num_dentries (FSYSTEM (shell_system [1; 0; 0; 0; 0; 0])) (kmach (shell_system [1; 0; 0; 0; 0; 0])) = 1)
    as Hn1 by (vm_compute; reflexivity).
  rewrite Hn1 in Hx. assert (x = 0) as -> by lia. vm_compute. discriminate.
Defined.

(** A child of the shell in slot 3. *)
Definition child_pcb : pcb_t := Pcb (fd started_files) 3 [] (stack_top 3) (pcb_at 0) 0 0x7FF000 0x7FEF40 0x7FEF00.
Definition child_system : kernel :=
  let k := shell_system [1; 0; 0; 1; 0; 0] in
  set_pnum (set_curr_pcb (put_pcb k (pcb_at 3) child_pcb) (pcb_at 3)) 3.

Lemma halt_correct_witness :
  exists k', halt 0 7 child_system = Leave (ToFrame 0x7FEF00 0x7FEF40 7) k' /\
    pnumarr (kprocs k') = [1; 0; 0; 0; 0; 0] /\ curr_pcb (kprocs k') = pcb_at 0.
Proof.
  destruct (halt_correct child_system child_pcb (shell_pcb 0 0) 0 7) as (k' & Hh & [[_ Ha] [Hc _] _ _ _ _ _ _ _]).
  - split; [done|exact started_files_ok| |done|done].
    apply (so_ring _ _ (shell_system_ok [1; 0; 0; 1; 0; 0] eq_refl)).
  - exact shell_mapped.
  - simpl. lia.
  - apply (bool_decide_unpack _). vm_compute. exact I.
  - simpl. lia.
  - exists k'. split; [exact Hh|]. by split.
Defined.

Lemma halt_restarts_shell_witness :
  exists entry k', halt 0x7FFF00 0 (shell_system [1; 0; 0; 0; 0; 0]) = Leave (ToUser entry) k' /\
    pnum (kprocs k') = 0 /\ parent (default null_pcb (get_pcb k' (pcb_at 0))) = pcb_at 0.
Proof.
  destruct (shell_launchable [0; 0; 0; 0; 0; 0] 0 eq_refl) as (m1 & La); [split; [done|by left]|].
  destruct (halt_restarts_shell (shell_system [1; 0; 0; 0; 0; 0]) 12288 (chars "shell"%string) [] shell_dentry 0 m1
    0x7FFF00 0) as (entry & k' & Hh & [[Hp _] _ (p & Hg & _ & Hpar & _) _ _ _ _ _ _ _ _]);
    [simpl; lia|done|exact La|].
  exists entry, k'. split; [exact Hh|]. split; [exact Hp|].
  change (pcb_at (pnum (kprocs (shell_system [1; 0; 0; 0; 0; 0])))) with (pcb_at 0) in Hg.
  rewrite Hg. exact Hpar.
Defined.

Lemma execute_halt_roundtrip_witness :
  exists k1 k3, halt 0 7 k1 = Leave (ToFrame (switch_esp 0x7FFF9B) (switch_ebp 0x7FFF9B) 7) k3 /\
    curr_pcb (kprocs k3) = pcb_at 0 /\ esp0 (kprocs k3) < stack_top 0.
Proof.
  destruct (shell_launchable [1; 0; 0; 0; 0; 0] 3 eq_refl shell_slot_3) as (m1 & La).
  pose proof (execute_launched _ _ _ _ _ _ _ _ La 0x7FFF9B) as Hk1.
  pose proof (launched_system _ _ _ _ _ _ _ _ 0x7FFF9B _ La eq_refl) as [Hm Hf _ _ _ _].
  set (k1 := launch_state _ _ _ _) in *.
  destruct (execute_halt_roundtrip _ _ _ _ _ _ _ _ 0x7FFF9B 0 7 (shell_pcb 0 0) k1 k1 La) as (k3 & Hh & _ & _ & _ & Hc & _ & _ & Hlt);
    [lia|split; [done|by eexists]|done|done|done|simpl; lia|
     apply (bool_decide_unpack _); vm_compute; exact I|simpl; lia|exact Hk1|done|done|exact Hm|exact Hf|].
  exists k1, k3. split; [exact Hh|]. split; [exact Hc|]. by apply Hlt.
Defined.

(** Terminal 2 is in view, and slot 3 has had a program before: a new one started in
    it from terminal 1 ends through the frame of the previous one. *)
Lemma execute_loses_halt_frame_witness :
  exists entry k1 k3, execute 0x7FFF9B shell_at
      (shell_system_in 2 {[pcb_at 0 := shell_pcb 0 0; pcb_at 3 := child_pcb]} [1; 1; 0; 0; 0; 0]) = Leave (ToUser entry) k1 /\
    halt 0 7 k1 = Leave (ToFrame 0x7FEF00 0x7FEF40 7) k3 /\ switch_esp 0x7FFF9B <> 0x7FEF00.
Proof.
  set (ps := {[pcb_at 0 := shell_pcb 0 0; pcb_at 3 := child_pcb]} : gmap Z pcb_t).
  assert (slot_given (shell_system_in 2 ps [1; 1; 0; 0; 0; 0]) 3) as Hs
    by (split; [done|]; right; split_and!; [done|lia|lia|lia]).
  destruct (shell_launchable_in 2 ps [1; 1; 0; 0; 0; 0] 3 ltac:(lia) eq_refl Hs) as (m1 & La).
  destruct (execute_loses_halt_frame _ _ _ _ _ _ _ _ 0x7FFF9B child_pcb (shell_pcb 0 0) La)
    as (entry & k1 & He & Hk1 & Hh); [lia| |done|done|done|].
  - intros (_ & q & Hq & Hv). injection Hq as <-. discriminate Hv.
  - destruct (Hh k1 0 7) as (k3 & Hk3); [done|done| |].
    + rewrite (ln_files _ _ _ _ _ _ _ Hk1). apply started_ok, started_files_ok.
    + exists entry, k1, k3. split; [exact He|]. split; [exact Hk3|done].
Defined.
