(* ===== verification/Scheduling.v ===== *)
(** * The three terminals (student-distrib/scheduling.c, pit.c's handler)

    [screen1], [screen2] and [screen3] bring a terminal into view: the video page
    goes to the memory of the terminal that leaves, the memory of the one that
    comes to the video page, with the cursor and the line typed so far.  What a
    process sees of its terminal through vidmap is a page of [page_table_2] that
    points at the video page or at that memory.  The model reads the page tables
    as they are: a translation the processor still caches after a change is not
    modelled, [tlb_dirty] says when there may be one. *)
From Stdlib Require Import ZArith Lia String.
From stdpp Require Import base list gmap numbers.
From S2P Require Import Prelude ByteMem LibString Machine Paging Devices Console Filesystem Kernel FileTable Process.

#[local] Open Scope c_scope.

Definition SCREEN1_MEM : Z := 0x2000000.
Definition SCREEN2_MEM : Z := 0x2001000.
Definition SCREEN3_MEM : Z := 0x2002000.
Definition SCREEN1_VIR : Z := 0x84B9000.
Definition SCREEN2_VIR : Z := 0x84BA000.
Definition SCREEN3_VIR : Z := 0x84BB000.
Definition MAX_BYTES_BUF : Z := 129.
Definition SIZE_VID_MEM : Z := 4000.
Definition RESERV_CODE_2 : Z := 7.

Section scheduling.
Context {L : Layout} {FR : Frames}.

(** The variables [screen<i>x], [screen<i>y], [tbuf<i>] and [fts_<i>]. *)
Definition get_saved (k : kernel) (i : Z) : saved_t :=
  default (Saved 0 0 0 0) (lookupZ (terminals (ksched k)) (i - 1)).
Definition put_saved (k : kernel) (i : Z) (s : saved_t) : kernel :=
  set_terminals k (<[Z.to_nat (i - 1) := s]> (terminals (ksched k))).

(** One case of [getCursorandBuffer]. *)
Definition save_cursor (i : Z) (k : kernel) : kernel :=
  let c := con k in
  let k := put_saved k i (Saved (screen_x c) (screen_y c) (tbuf c) (fts (get_saved k i))) in
  set_kmach k (memcpy (kmach k) (buffer_at i) tbuffer_at MAX_BYTES_BUF).

Definition getCursorandBuffer (k : kernel) : kernel :=
  let indicator := indicator (ksched k) in
  if indicator =? 1 then save_cursor 1 k
  else if indicator =? 2 then save_cursor 2 k
  else if indicator =? 3 then save_cursor 3 k
  else k.

(** One case of [setCursorandBuffer]. *)
Definition load_cursor (i : Z) (k : kernel) : kernel :=
  let s := get_saved k i in
  let k := set_con k (set_tbuf (set_y (set_x (con k) (saved_x s)) (saved_y s)) (saved_tbuf s)) in
  set_kmach k (memcpy (kmach k) tbuffer_at (buffer_at i) MAX_BYTES_BUF).

Definition setCursorandBuffer (k : kernel) : kernel :=
  let indicator := indicator (ksched k) in
  if indicator =? 1 then load_cursor 1 k
  else if indicator =? 2 then load_cursor 2 k
  else if indicator =? 3 then load_cursor 3 k
  else k.

(** One case of [copyFromVideo]. *)
Definition from_video (mem vir : Z) (k : kernel) : kernel :=
  let k := set_kmach k (setupPagingDirectoryTable RESERV_CODE_2 mem (indicator (ksched k)) (kmach k)) in
  set_kmach k (memcpy (kmach k) vir VIDEO SIZE_VID_MEM).

Definition copyFromVideo (k : kernel) : kernel :=
  let indicator := indicator (ksched k) in
  if indicator =? 1 then from_video SCREEN1_MEM SCREEN1_VIR k
  else if indicator =? 2 then from_video SCREEN2_MEM SCREEN2_VIR k
  else if indicator =? 3 then from_video SCREEN3_MEM SCREEN3_VIR k
  else k.

Definition copyToVideo (k : kernel) : kernel :=
  let indicator := indicator (ksched k) in
  let m := kmach k in
  let m :=
    if indicator =? 1 then memcpy m VIDEO SCREEN1_VIR SIZE_VID_MEM
    else if indicator =? 2 then memcpy m VIDEO SCREEN2_VIR SIZE_VID_MEM
    else if indicator =? 3 then memcpy m VIDEO SCREEN3_VIR SIZE_VID_MEM
    else m in
  set_kmach k (setupPagingDirectoryTable RESERV_CODE_2 VIDEO indicator m).

(** The body that [screen1], [screen2] and [screen3] share but for the number. *)
Definition switch_screen (n base : Z) : C unit :=
  c_mach cli ;;;
  c_mod getCursorandBuffer ;;;
  c_mod copyFromVideo ;;;
  c_mod (fun k => set_indicator k n) ;;;
  c_mod setCursorandBuffer ;;;
  s <- c_get (fun k => get_saved k n) ;;
  c_mach (update_cursor (saved_x s) (saved_y s)) ;;;
  if fts s =? 0 then
    c_mod (fun k => put_saved k n (Saved (saved_x s) (saved_y s) (saved_tbuf s) 1)) ;;;
    c_console reset_screen ;;;
    c_mod (fun k => set_kmach k (setupPagingDirectoryTable RESERV_CODE_2 VIDEO (indicator (ksched k)) (kmach k))) ;;;
    c_mach flushTLB ;;;
    _ <- execute base shell_at ;;
    c_ret tt
  else
    c_mod copyToVideo ;;;
    c_mach flushTLB ;;;
    c_mach sti.

Definition screen1 (base : Z) : C unit := switch_screen 1 base.
Definition screen2 (base : Z) : C unit := switch_screen 2 base.
Definition screen3 (base : Z) : C unit := switch_screen 3 base.

Definition init_screen_memory (base : Z) : C unit :=
  c_mach (setupPagingDirectoryTable RESERV_CODE_2 VIDEO 1) ;;;
  c_mach (setupPagingDirectoryTable RESERV_CODE_2 SCREEN2_MEM 2) ;;;
  c_mach (setupPagingDirectoryTable RESERV_CODE_2 SCREEN3_MEM 3) ;;;
  screen1 base.

(** The test after the two statements guards a block whose call is commented out. *)
Definition pit_handler (k : kernel) : kernel :=
  let k := set_kmach k (I8259.send_eoi 0 (kmach k)) in
  set_quantum k (s32 (quantum k + 1)).

(** ** The abstract terminals *)

(** Where the window and the memory of terminal [i] are. *)
Definition window_vir (i : Z) : Z := 0x84B8000 + 4096 * i.
Definition screen_mem (i : Z) : Z := 0x2000000 + 4096 * (i - 1).

Definition pbyte (m : machine) (p : Z) : Z := u8 (default 0 (ram m !! p)).
Definition pbytes (m : machine) (p n : Z) : list Z := map (pbyte m) (seqZ p n).

(** A terminal as its user knows it: what is on the screen, where the cursor is,
    how much of a line is typed and the line buffer. *)
Record terminal := Terminal {
  t_screen : list Z;
  t_x : Z;
  t_y : Z;
  t_tbuf : Z;
  t_buffer : list Z;
}.

(** The terminal in view is in the console's variables and in the video page,
    the others in their saved variables and in their memory. *)
Definition in_view (k : kernel) : terminal :=
  let m := kmach k in
  Terminal (pbytes m VIDEO SIZE_VID_MEM) (screen_x (con k)) (screen_y (con k)) (tbuf (con k))
    (pbytes m tbuffer_at MAX_BYTES_BUF).

Definition stored (k : kernel) (i : Z) : terminal :=
  let m := kmach k in
  let s := get_saved k i in
  Terminal (pbytes m (screen_mem i) SIZE_VID_MEM) (saved_x s) (saved_y s) (saved_tbuf s)
    (pbytes m (buffer_at i) MAX_BYTES_BUF).

Definition view (k : kernel) (i : Z) : terminal :=
  if i =? indicator (ksched k) then in_view k else stored k i.

(** Window [i] shows frame [f]. *)
Definition window_at (m : machine) (i f : Z) : Prop :=
  forall j, 0 <= j < 4096 -> translate m (window_vir i + j) = Some (f + j).

(** The windows: the terminal in view on the video page, the others on their
    memory. *)
Record display_ok (k : kernel) : Prop := {
  do_mapped : kernel_mapped (kmach k);
  do_indicator : 1 <= indicator (ksched k) <= 3;
  do_terminals : length (terminals (ksched k)) = 3%nat;
  do_windows : forall i, 1 <= i <= 3 ->
    window_at (kmach k) i (if i =? indicator (ksched k) then VIDEO else screen_mem i);
}.

End scheduling.

Section facts.
Context {L : Layout} {LOK : LayoutOk} {FR : Frames}.
Implicit Types (m : machine) (k : kernel).

(** ** Copies between physical ranges *)

Definition on_cells m (va pa n : Z) : Prop := forall j, 0 <= j < n -> cell m (va + j) = pa + j.

Lemma ld_pbyte m va : ld m va = pbyte m (cell m va).
Proof. done. Qed.

Lemma memcpy_ram_only m d s n : ram_only m (memcpy m d s n).
Proof. apply memcpy_closed; [intros; by apply ram_only_st|apply ram_only_refl]. Qed.

Lemma on_cells_ext m m' va pa n :
  same_paging m m' -> on_cells m va pa n -> on_cells m' va pa n.
Proof. intros Hs Ho j Hj. rewrite (same_paging_cell m m') by done. by apply Ho. Qed.

Lemma memcpy_phys m d s pd ps n p :
  0 <= n -> on_cells m d pd n -> on_cells m s ps n -> pd + n <= ps \/ ps + n <= pd ->
  pbyte (memcpy m d s n) p = if decide (pd <= p < pd + n) then pbyte m (ps + (p - pd)) else pbyte m p.
Proof.
  intros Hn Hd Hs Hap.
  assert (apart m d n s n) as Ha by (intros j Hj i Hi; rewrite Hd, Hs by done; lia).
  assert (inj_on m d n) as Hinj by (intros i j Hi Hj; rewrite !Hd by done; lia).
  case_decide as Hp.
  - pose proof (memcpy_ld m d s n (p - pd) (apart_fwd_ok _ _ _ _ Ha) Hinj ltac:(lia)) as Hl.
    rewrite !ld_pbyte in Hl. rewrite (Hs (p - pd)) in Hl by lia.
    destruct (ram_only_fields _ _ (memcpy_ram_only m d s n)) as (Hsp & _).
    rewrite (same_paging_cell m _ _ Hsp), (Hd (p - pd)) in Hl by lia. by replace (pd + (p - pd)) with p in Hl by lia.
  - unfold pbyte. rewrite memcpy_copy by (by apply apart_fwd_ok). unfold copy_bytes.
    rewrite store_bytes_ram; [done|]. intros j Hj. rewrite load_bytes_length in Hj. rewrite Hd; lia.
Qed.

Lemma pbytes_ext m m' a b n :
  (forall j, 0 <= j < n -> pbyte m' (b + j) = pbyte m (a + j)) -> pbytes m' b n = pbytes m a n.
Proof.
  intros He. unfold pbytes. apply list_eq. intros i. rewrite !list_lookup_fmap.
  destruct (decide (Z.of_nat i < n)).
  - rewrite !lookup_seqZ_lt by lia. simpl. f_equal. apply He. lia.
  - by rewrite !lookup_seqZ_ge by lia.
Qed.

Lemma kernel_cells m a n : kernel_mapped m -> in_kernel_page a n -> on_cells m a a n.
Proof. intros Hm [H1 H2] j Hj. apply cell_kernel; [done|lia]. Qed.

Lemma video_cells m n : kernel_mapped m -> n <= 4096 -> on_cells m VIDEO VIDEO n.
Proof. intros Hm Hn j Hj. refine (cell_video m (VIDEO + j) Hm _). lia. Qed.

Lemma window_cells m i f n : 1 <= i <= 3 -> n <= 4096 -> window_at m i f -> on_cells m (window_vir i) f n.
Proof.
  intros Hi Hn Hw j Hj. unfold cell, machine_mem, phys. unfold window_vir in *.
  rewrite u32_small by lia. rewrite Hw by lia. done.
Qed.

(** ** The windows *)

Lemma remap_window m i f :
  kernel_mapped m -> 1 <= i <= 3 -> f mod 4096 = 0 -> 0 <= f < 0xFFFFF000 ->
  window_at (setupPagingDirectoryTable RESERV_CODE_2 f i m) i f.
Proof.
  intros Hm Hi Hal Hf j Hj. unfold window_vir, RESERV_CODE_2.
  rewrite translate_window by (done || lia).
  unfold vidmap_base, VIDEO_PAGE_OFF. rewrite decide_True by lia. f_equal. f_equal. dlia.
Qed.

Lemma other_window m i i' f f' :
  kernel_mapped m -> 1 <= i <= 3 -> 1 <= i' <= 3 -> i <> i' -> f mod 4096 = 0 -> 0 <= f < 0xFFFFF000 ->
  window_at m i' f' -> window_at (setupPagingDirectoryTable RESERV_CODE_2 f i m) i' f'.
Proof.
  intros Hm Hi Hi' Hne Hal Hf Hw j Hj. rewrite <-Hw by done. unfold window_vir, RESERV_CODE_2.
  rewrite translate_window by (done || lia).
  unfold vidmap_base, VIDEO_PAGE_OFF. by rewrite decide_False by lia.
Qed.

Lemma window_ram m m' i f : ram_only m m' -> window_at m i f -> window_at m' i f.
Proof. intros -> Hw j Hj. rewrite <-Hw by done. done. Qed.

Lemma screen_mem_frame i : 1 <= i <= 3 -> screen_mem i mod 4096 = 0 /\ 0x2000000 <= screen_mem i < 0xFFFFF000.
Proof. intros Hi. unfold screen_mem. split; [dlia|lia]. Qed.

Lemma video_frame : VIDEO mod 4096 = 0 /\ 0 <= VIDEO < 0xFFFFF000.
Proof. unfold VIDEO. split; [done|lia]. Qed.

(** ** The steps of a switch *)

Lemma three i : 1 <= i <= 3 -> i = 1 \/ i = 2 \/ i = 3.
Proof. lia. Qed.

Lemma getCursorandBuffer_case k :
  1 <= indicator (ksched k) <= 3 -> getCursorandBuffer k = save_cursor (indicator (ksched k)) k.
Proof. unfold getCursorandBuffer. intros Hi. by destruct (three _ Hi) as [-> |[-> | ->]]. Qed.

Lemma setCursorandBuffer_case k :
  1 <= indicator (ksched k) <= 3 -> setCursorandBuffer k = load_cursor (indicator (ksched k)) k.
Proof. unfold setCursorandBuffer. intros Hi. by destruct (three _ Hi) as [-> |[-> | ->]]. Qed.

Lemma copyFromVideo_case k :
  1 <= indicator (ksched k) <= 3 ->
  copyFromVideo k = from_video (screen_mem (indicator (ksched k))) (window_vir (indicator (ksched k))) k.
Proof. unfold copyFromVideo. intros Hi. by destruct (three _ Hi) as [-> |[-> | ->]]. Qed.

Lemma copyToVideo_case k :
  1 <= indicator (ksched k) <= 3 ->
  copyToVideo k = set_kmach k (setupPagingDirectoryTable RESERV_CODE_2 VIDEO (indicator (ksched k))
    (memcpy (kmach k) VIDEO (window_vir (indicator (ksched k))) SIZE_VID_MEM)).
Proof. unfold copyToVideo. intros Hi. by destruct (three _ Hi) as [-> |[-> | ->]]. Qed.

Lemma get_put_saved k i j s :
  length (terminals (ksched k)) = 3%nat -> 1 <= i <= 3 -> 1 <= j <= 3 ->
  get_saved (put_saved k i s) j = if j =? i then s else get_saved k j.
Proof.
  intros Hl Hi Hj. unfold get_saved, put_saved, lookupZ. rewrite !(proj2 (Z.ltb_ge (j - 1) 0)) by lia.
  cbn [terminals ksched set_terminals set_ksched]. destruct (Z.eqb_spec j i) as [->|Hne].
  - by rewrite list_lookup_insert_eq by lia.
  - by rewrite list_lookup_insert_ne by lia.
Qed.

(** Where the buffers, the screens and the video page are. *)
Lemma buffer_place i : 1 <= i <= 3 -> 0x400000 <= buffer_at i /\ buffer_at i + 129 <= 0x800000.
Proof. intros Hi. destruct (buffers_in_kernel i Hi) as [H1 H2]. unfold KERNEL in *. lia. Qed.

Lemma tbuffer_place : 0x400000 <= tbuffer_at /\ tbuffer_at + 129 <= 0x800000.
Proof. destruct tbuffer_in_kernel as [H1 H2]. unfold KERNEL in *. lia. Qed.

(** All windows on the terminals' memories: no terminal is in view. *)
Definition all_away m : Prop := forall i, 1 <= i <= 3 -> window_at m i (screen_mem i).

(** The terminal in view, [a], goes to its memory. *)
Definition leave_machine (a : Z) m : machine :=
  memcpy (setupPagingDirectoryTable RESERV_CODE_2 (screen_mem a) a
            (memcpy m (buffer_at a) tbuffer_at MAX_BYTES_BUF)) (window_vir a) VIDEO SIZE_VID_MEM.

Definition leave_view k : kernel := copyFromVideo (getCursorandBuffer k).

Lemma kmach_set_kmach k m : kmach (set_kmach k m) = m.
Proof. reflexivity. Qed.

Lemma get_saved_set_kmach k m i : get_saved (set_kmach k m) i = get_saved k i.
Proof. reflexivity. Qed.

Lemma set_kmach_twice k m m' : set_kmach (set_kmach k m) m' = set_kmach k m'.
Proof. reflexivity. Qed.

Lemma kmach_put_saved k i s : kmach (put_saved k i s) = kmach k.
Proof. reflexivity. Qed.

Lemma leave_view_eq k :
  1 <= indicator (ksched k) <= 3 ->
  leave_view k
  = let a := indicator (ksched k) in
    set_kmach (put_saved k a (Saved (screen_x (con k)) (screen_y (con k)) (tbuf (con k)) (fts (get_saved k a))))
      (leave_machine a (kmach k)).
Proof.
  intros Hi. unfold leave_view. rewrite (getCursorandBuffer_case k Hi).
  set (a := indicator (ksched k)) in *.
  assert (indicator (ksched (save_cursor a k)) = a) as Ha by reflexivity.
  rewrite copyFromVideo_case by (by rewrite Ha). rewrite Ha.
  unfold from_video, save_cursor, leave_machine. fold a. cbv zeta in *.
  change (indicator (ksched (set_kmach (put_saved k a ?s) ?m))) with a.
  by rewrite !set_kmach_twice, !kmach_set_kmach, kmach_put_saved.
Qed.

Lemma leave_machine_facts a m :
  kernel_mapped m -> 1 <= a <= 3 ->
  (forall i, 1 <= i <= 3 -> i <> a -> window_at m i (screen_mem i)) ->
  kernel_mapped (leave_machine a m) /\ all_away (leave_machine a m) /\
  forall p, pbyte (leave_machine a m) p
    = if decide (screen_mem a <= p < screen_mem a + SIZE_VID_MEM) then pbyte m (VIDEO + (p - screen_mem a))
      else if decide (buffer_at a <= p < buffer_at a + MAX_BYTES_BUF) then pbyte m (tbuffer_at + (p - buffer_at a))
      else pbyte m p.
Proof.
  intros Hm Ha Hw. destruct (screen_mem_frame a Ha) as [Hal Hsm].
  pose proof (buffer_place a Ha) as Hb. pose proof tbuffer_place as Ht. unfold leave_machine.
  set (m1 := memcpy m (buffer_at a) tbuffer_at MAX_BYTES_BUF).
  pose proof (memcpy_ram_only m (buffer_at a) tbuffer_at MAX_BYTES_BUF : ram_only m m1) as Hr1.
  assert (kernel_mapped m1) as Hm1 by (by apply (ram_only_mapped m)).
  assert (forall p, pbyte m1 p = if decide (buffer_at a <= p < buffer_at a + MAX_BYTES_BUF)
                                 then pbyte m (tbuffer_at + (p - buffer_at a)) else pbyte m p) as Hp1.
  { intros p. apply memcpy_phys; [done|apply kernel_cells; [done|by apply buffers_in_kernel]|
      apply kernel_cells; [done|apply tbuffer_in_kernel]|].
    destruct (tbuffer_buffers_disjoint a Ha); [by left|by right]. }
  set (m2 := setupPagingDirectoryTable RESERV_CODE_2 (screen_mem a) a m1).
  assert (kernel_mapped m2) as Hm2 by (by apply window_kernel_mapped).
  assert (all_away m2) as Hw2.
  { intros i Hi. destruct (decide (i = a)) as [->|Hne]; [apply remap_window; done || lia|].
    apply other_window; [done|done|done|lia|done|lia|]. apply (window_ram m); [done|by apply Hw]. }
  pose proof (memcpy_ram_only m2 (window_vir a) VIDEO SIZE_VID_MEM) as Hr3.
  split_and!.
  - by apply (ram_only_mapped m2).
  - intros i Hi. apply (window_ram m2); [done|by apply Hw2].
  - intros p. rewrite (memcpy_phys m2 (window_vir a) VIDEO (screen_mem a) VIDEO SIZE_VID_MEM p);
      [|done|apply window_cells; [done|done|by apply Hw2]|by apply video_cells|
       unfold VIDEO, SIZE_VID_MEM; lia].
    change (pbyte m2 ?q) with (pbyte m1 q). rewrite !Hp1. case_decide; [|done].
    rewrite decide_False; [done|]. unfold VIDEO, SIZE_VID_MEM in *. lia.
Qed.

Lemma leave_view_facts k :
  display_ok k ->
  kernel_mapped (kmach (leave_view k)) /\ all_away (kmach (leave_view k)) /\
  (forall i, 1 <= i <= 3 -> stored (leave_view k) i = view k i) /\
  (forall i, 1 <= i <= 3 -> fts (get_saved (leave_view k) i) = fts (get_saved k i)) /\
  length (terminals (ksched (leave_view k))) = 3%nat.
Proof.
  intros [Hm Hi Hl Hw]. rewrite (leave_view_eq k Hi). cbv zeta. set (a := indicator (ksched k)) in *.
  destruct (leave_machine_facts a (kmach k) Hm Hi) as (Hm' & Haw & Hp).
  { intros i Hi1 Hne. specialize (Hw i Hi1). by rewrite (proj2 (Z.eqb_neq i a)) in Hw by done. }
  set (s := Saved _ _ _ _). set (k' := set_kmach (put_saved k a s) (leave_machine a (kmach k))).
  assert (forall i, 1 <= i <= 3 -> get_saved k' i = if i =? a then s else get_saved k i) as Hg
    by (intros i Hi1; by apply get_put_saved).
  split_and!; [done|done| | |].
  - intros i Hi1. unfold view, stored. rewrite Hg by done. fold a.
    change (kmach k') with (leave_machine a (kmach k)).
    destruct (screen_mem_frame i Hi1) as [_ Hsi]. destruct (screen_mem_frame a Hi) as [_ Hsa].
    pose proof (buffer_place i Hi1). pose proof (buffer_place a Hi).
    destruct (Z.eqb_spec i a) as [->|Hne].
    + unfold in_view, s. f_equal; apply pbytes_ext; intros j Hj; rewrite Hp;
        unfold SIZE_VID_MEM, MAX_BYTES_BUF in *.
      * rewrite decide_True by lia. f_equal. lia.
      * rewrite decide_False, decide_True by lia. f_equal. lia.
    + f_equal; apply pbytes_ext; intros j Hj; rewrite Hp;
        unfold SIZE_VID_MEM, MAX_BYTES_BUF, screen_mem in *.
      * by rewrite !decide_False by lia.
      * destruct (buffers_disjoint i a Hi1 Hi Hne); by rewrite !decide_False by lia.
  - intros i Hi1. rewrite Hg by done. destruct (Z.eqb_spec i a) as [->|]; done.
  - cbn [terminals ksched k' set_kmach set_con put_saved set_terminals set_ksched]. by rewrite length_insert.
Qed.

(** The terminal [n] is chosen: its cursor and its line are the console's. *)
Definition prepare (n : Z) k : kernel :=
  let k := leave_view (set_kmach k (cli (kmach k))) in
  let k := setCursorandBuffer (set_indicator k n) in
  let s := get_saved k n in
  set_kmach k (update_cursor (saved_x s) (saved_y s) (kmach k)).

Record prepared k (n : Z) k' : Prop := {
  pr_mapped : kernel_mapped (kmach k');
  pr_indicator : indicator (ksched k') = n;
  pr_terminals : length (terminals (ksched k')) = 3%nat;
  pr_away : all_away (kmach k');
  pr_stored : forall i, 1 <= i <= 3 -> stored k' i = view k i;
  pr_fts : forall i, 1 <= i <= 3 -> fts (get_saved k' i) = fts (get_saved k i);
  pr_cursor : screen_x (con k') = t_x (view k n) /\ screen_y (con k') = t_y (view k n);
  pr_line : tbuf (con k') = t_tbuf (view k n) /\
    pbytes (kmach k') tbuffer_at MAX_BYTES_BUF = t_buffer (view k n);
  pr_rest : kprocs k' = kprocs k /\ kfiles k' = kfiles k /\ FSYSTEM k' = FSYSTEM k /\
    if_flag (kmach k') = false;
}.

Lemma display_ok_cli k : display_ok k -> display_ok (set_kmach k (cli (kmach k))).
Proof. intros [Hm Hi Hl Hw]. split; [by destruct Hm|done|done|exact Hw]. Qed.

Lemma view_cli k i : view (set_kmach k (cli (kmach k))) i = view k i.
Proof. done. Qed.

Lemma load_machine_facts n m :
  kernel_mapped m -> 1 <= n <= 3 ->
  let m' := memcpy m tbuffer_at (buffer_at n) MAX_BYTES_BUF in
  kernel_mapped m' /\ ram_only m m' /\
  (forall p, pbyte m' p = if decide (tbuffer_at <= p < tbuffer_at + MAX_BYTES_BUF)
                          then pbyte m (buffer_at n + (p - tbuffer_at)) else pbyte m p).
Proof.
  intros Hm Hn m'. pose proof (memcpy_ram_only m tbuffer_at (buffer_at n) MAX_BYTES_BUF) as Hr.
  split_and!; [by apply (ram_only_mapped m)|done|]. intros p. apply memcpy_phys; [done| | |].
  - apply kernel_cells; [done|apply tbuffer_in_kernel].
  - apply kernel_cells; [done|by apply buffers_in_kernel].
  - destruct (tbuffer_buffers_disjoint n Hn); [by right|by left].
Qed.

Lemma update_cursor_trace x y m : exists tr, update_cursor x y m = set_trace m tr.
Proof. by eexists. Qed.

Lemma prepare_eq n k :
  1 <= n <= 3 ->
  let k2 := leave_view (set_kmach k (cli (kmach k))) in
  let s := get_saved k2 n in
  prepare n k
  = set_kmach (set_con (set_indicator k2 n)
      (set_tbuf (set_y (set_x (con k2) (saved_x s)) (saved_y s)) (saved_tbuf s)))
      (update_cursor (saved_x s) (saved_y s) (memcpy (kmach k2) tbuffer_at (buffer_at n) MAX_BYTES_BUF)).
Proof.
  intros Hn k2 s. unfold prepare. cbv zeta. fold k2.
  assert (indicator (ksched (set_indicator k2 n)) = n) as Hi by reflexivity.
  rewrite setCursorandBuffer_case by (by rewrite Hi). rewrite Hi. unfold load_cursor. cbv zeta.
  change (get_saved (set_indicator k2 n) n) with s.
  change (get_saved (set_kmach (set_con (set_indicator k2 n) ?c) ?m) n) with s.
  rewrite set_kmach_twice, kmach_set_kmach. reflexivity.
Qed.

Lemma if_flag_leave a m : if_flag (leave_machine a m) = if_flag m.
Proof.
  unfold leave_machine. destruct (ram_only_fields _ _ (memcpy_ram_only
    (setupPagingDirectoryTable RESERV_CODE_2 (screen_mem a) a (memcpy m (buffer_at a) tbuffer_at MAX_BYTES_BUF))
    (window_vir a) VIDEO SIZE_VID_MEM)) as (_ & _ & -> & _).
  by destruct (ram_only_fields _ _ (memcpy_ram_only m (buffer_at a) tbuffer_at MAX_BYTES_BUF)) as (_ & _ & <- & _).
Qed.

Lemma prepare_facts n k : display_ok k -> 1 <= n <= 3 -> prepared k n (prepare n k).
Proof.
  intros Hd Hn. rewrite (prepare_eq n k Hn). cbv zeta.
  pose proof (leave_view_facts _ (display_ok_cli k Hd)) as (Hm & Haw & Hst & Hft & Hl).
  pose proof (leave_view_eq (set_kmach k (cli (kmach k))) (do_indicator k Hd)) as Heq. cbv zeta in Heq.
  set (k2 := leave_view (set_kmach k (cli (kmach k)))) in *. set (s := get_saved k2 n).
  destruct (load_machine_facts n (kmach k2) Hm Hn) as (Hm3 & Hr3 & Hp3). cbv zeta in *.
  set (m3 := memcpy (kmach k2) tbuffer_at (buffer_at n) MAX_BYTES_BUF) in *.
  destruct (update_cursor_trace (saved_x s) (saved_y s) m3) as [tr Htr]. rewrite Htr.
  set (k' := set_kmach _ _).
  assert (forall p, pbyte (kmach k') p = pbyte m3 p) as Hp' by done.
  assert (forall i, get_saved k' i = get_saved k2 i) as Hg by done.
  pose proof (Hst n Hn) as Hsn. rewrite view_cli in Hsn.
  pose proof tbuffer_place. pose proof (buffer_place n Hn).
  split.
  - by destruct Hm3.
  - done.
  - exact Hl.
  - intros i Hi j Hj. rewrite <-(window_ram _ _ _ _ Hr3 (Haw i Hi) j Hj). done.
  - intros i Hi. rewrite <-(Hst i Hi : _ = view k i). unfold stored. rewrite Hg.
    destruct (screen_mem_frame i Hi) as [_ Hsi]. pose proof (buffer_place i Hi).
    f_equal; apply pbytes_ext; intros j Hj; rewrite Hp', Hp3; unfold SIZE_VID_MEM, MAX_BYTES_BUF in *.
    + by rewrite decide_False by lia.
    + destruct (tbuffer_buffers_disjoint i Hi); by rewrite decide_False by lia.
  - intros i Hi. rewrite Hg. by rewrite Hft.
  - rewrite <-Hsn. done.
  - rewrite <-Hsn. split; [done|]. unfold stored. cbn [t_buffer]. apply pbytes_ext.
    intros j Hj. rewrite Hp', Hp3, decide_True by lia. f_equal. lia.
  - assert (kprocs k2 = kprocs k /\ kfiles k2 = kfiles k /\ FSYSTEM k2 = FSYSTEM k /\ if_flag (kmach k2) = false)
      as (E1 & E2 & E3 & E4) by (rewrite Heq, !kmach_set_kmach, if_flag_leave; split_and!; reflexivity).
    change (kprocs k') with (kprocs k2). change (kfiles k') with (kfiles k2).
    change (FSYSTEM k') with (FSYSTEM k2). split_and!; [exact E1|exact E2|exact E3|].
    change (if_flag (kmach k')) with (if_flag m3).
    by destruct (ram_only_fields _ _ Hr3) as (_ & _ & -> & _).
Qed.

(** The end of a switch to a terminal that has been in view before. *)
Definition show_again k : kernel :=
  let k := copyToVideo k in
  set_kmach k (sti (flushTLB (kmach k))).

(** The end of the first switch to a terminal, before its shell is started. *)
Definition show_first (n : Z) k : kernel :=
  let s := get_saved k n in
  let k := put_saved k n (Saved (saved_x s) (saved_y s) (saved_tbuf s) 1) in
  let k := set_con k (reset_screen (con k)) in
  set_kmach k (flushTLB (setupPagingDirectoryTable RESERV_CODE_2 VIDEO (indicator (ksched k)) (kmach k))).

#[local] Opaque getCursorandBuffer copyFromVideo setCursorandBuffer copyToVideo reset_screen execute
  update_cursor get_saved put_saved setupPagingDirectoryTable.

Lemma switch_screen_eq n base k :
  switch_screen n base k
  = if fts (get_saved (prepare n k) n) =? 0
    then (_ <- execute base shell_at ;; c_ret tt) (show_first n (prepare n k))
    else Ret tt (show_again (prepare n k)).
Proof.
  unfold switch_screen, prepare, leave_view, show_first, show_again, c_mach, c_mod, c_console, c_get, c_bind.
  set (k3 := setCursorandBuffer _).
  rewrite get_saved_set_kmach.
  clearbody k3. set (k4 := set_kmach k3 _).
  assert (get_saved k4 n = get_saved k3 n) as <- by apply get_saved_set_kmach. clearbody k4.
  destruct (fts (get_saved k4 n) =? 0); unfold c_mod; cbv beta iota zeta.
  - by rewrite set_kmach_twice, kmach_set_kmach.
  - by rewrite !set_kmach_twice, !kmach_set_kmach.
Qed.

#[local] Transparent getCursorandBuffer copyFromVideo setCursorandBuffer copyToVideo reset_screen execute
  update_cursor get_saved put_saved setupPagingDirectoryTable.

Lemma show_machine_facts n m :
  kernel_mapped m -> 1 <= n <= 3 -> all_away m ->
  let m' := setupPagingDirectoryTable RESERV_CODE_2 VIDEO n (memcpy m VIDEO (window_vir n) SIZE_VID_MEM) in
  kernel_mapped m' /\
  (forall i, 1 <= i <= 3 -> window_at m' i (if i =? n then VIDEO else screen_mem i)) /\
  (forall p, pbyte m' p = if decide (VIDEO <= p < VIDEO + SIZE_VID_MEM)
                          then pbyte m (screen_mem n + (p - VIDEO)) else pbyte m p).
Proof.
  intros Hm Hn Haw. destruct (screen_mem_frame n Hn) as [_ Hsn].
  pose proof (memcpy_ram_only m VIDEO (window_vir n) SIZE_VID_MEM) as Hr.
  pose proof (ram_only_mapped _ _ Hr Hm) as Hm1.
  assert (forall p, pbyte (memcpy m VIDEO (window_vir n) SIZE_VID_MEM) p
    = if decide (VIDEO <= p < VIDEO + SIZE_VID_MEM) then pbyte m (screen_mem n + (p - VIDEO)) else pbyte m p) as Hp.
  { intros p. apply memcpy_phys; [done|by apply video_cells|apply window_cells; [done|done|by apply Haw]|].
    unfold VIDEO, SIZE_VID_MEM. lia. }
  generalize dependent (memcpy m VIDEO (window_vir n) SIZE_VID_MEM). intros m1 Hr Hm1 Hp m'.
  destruct video_frame as [Hva Hvr].
  split_and!; [by apply window_kernel_mapped| |exact Hp].
  intros i Hi. destruct (Z.eqb_spec i n) as [->|Hne]; [by apply remap_window|].
  apply other_window; [done|done|done|lia|done|done|]. apply (window_ram m); [done|by apply Haw].
Qed.

Lemma show_machine_view n k k1 m' :
  prepared k n k1 -> 1 <= n <= 3 -> kernel_mapped m' ->
  (forall i, 1 <= i <= 3 -> window_at m' i (if i =? n then VIDEO else screen_mem i)) ->
  (forall p, pbyte m' p = if decide (VIDEO <= p < VIDEO + SIZE_VID_MEM)
                          then pbyte (kmach k1) (screen_mem n + (p - VIDEO)) else pbyte (kmach k1) p) ->
  let k' := set_kmach k1 (sti (flushTLB m')) in
  display_ok k' /\ indicator (ksched k') = n /\ (forall i, 1 <= i <= 3 -> view k' i = view k i).
Proof.
  intros [Hm Hi Hl Haw Hst _ [Hx Hy] [Ht Hb] _] Hn Hm' Hw' Hp' k'.
  assert (forall p, pbyte (kmach k') p = pbyte m' p) as Hk by reflexivity.
  assert (forall i f, window_at m' i f -> window_at (kmach k') i f) as Hkw by (intros ? ? H; exact H).
  assert (ksched k' = ksched k1) as Hks by reflexivity.
  assert (con k' = set_mach (con k1) (kmach k')) as Hkc by reflexivity.
  assert (forall i, get_saved k' i = get_saved k1 i) as Hg by (intros i; unfold get_saved; by rewrite Hks).
  assert (kernel_mapped (kmach k')) as Hmk by (by destruct Hm').
  clearbody k'. split_and!.
  - split; [exact Hmk|rewrite Hks; lia|by rewrite Hks|].
    intros i Hi1. rewrite Hks, Hi. by apply Hkw, Hw'.
  - by rewrite Hks.
  - intros i Hi1. unfold view at 1. rewrite Hks, Hi.
    destruct (screen_mem_frame i Hi1) as [_ Hsi]. pose proof (buffer_place i Hi1). pose proof tbuffer_place.
    destruct (Z.eqb_spec i n) as [->|Hne].
    + rewrite <-(Hst n Hn) in Hx, Hy, Ht, Hb. rewrite <-(Hst n Hn). unfold in_view, stored in *.
      cbn [t_x t_y t_tbuf t_buffer] in *. rewrite Hkc. cbn [screen_x screen_y tbuf set_mach].
      f_equal; [|exact Hx|exact Hy|exact Ht|].
      * apply pbytes_ext. intros j Hj. rewrite Hk, Hp', decide_True by lia. f_equal. lia.
      * rewrite <-Hb. apply pbytes_ext. intros j Hj. rewrite Hk, Hp', decide_False; [done|].
        unfold VIDEO, SIZE_VID_MEM, MAX_BYTES_BUF in *. lia.
    + rewrite <-(Hst i Hi1). unfold stored. rewrite Hg.
      f_equal; apply pbytes_ext; intros j Hj; rewrite Hk, Hp', decide_False; try done;
        unfold VIDEO, SIZE_VID_MEM, MAX_BYTES_BUF in *; lia.
Qed.

Lemma show_again_facts n k k1 :
  prepared k n k1 -> 1 <= n <= 3 ->
  display_ok (show_again k1) /\ indicator (ksched (show_again k1)) = n /\
  (forall i, 1 <= i <= 3 -> view (show_again k1) i = view k i) /\
  kprocs (show_again k1) = kprocs k1 /\ if_flag (kmach (show_again k1)) = true /\
  tlb_dirty (kmach (show_again k1)) = false.
Proof.
  intros Hp Hn. unfold show_again. rewrite copyToVideo_case by (by rewrite (pr_indicator _ _ _ Hp)).
  rewrite (pr_indicator _ _ _ Hp). cbv zeta. rewrite set_kmach_twice, !kmach_set_kmach.
  destruct (show_machine_facts n (kmach k1)) as (Hm' & Hw' & Hp'); [apply Hp|done|apply Hp|].
  generalize dependent (setupPagingDirectoryTable RESERV_CODE_2 VIDEO n
    (memcpy (kmach k1) VIDEO (window_vir n) SIZE_VID_MEM)). intros m' Hm' Hw' Hp'.
  destruct (show_machine_view n k k1 m' Hp Hn Hm' Hw' Hp') as (H1 & H2 & H3).
  split_and!; [exact H1|exact H2|exact H3|reflexivity|reflexivity|reflexivity].
Qed.

(** What the first switch to a terminal leaves to its shell: a blank terminal in
    view and the others as they were. *)
Lemma blank_machine_view n k k1 m' :
  kernel_mapped (kmach k1) -> indicator (ksched k1) = n -> length (terminals (ksched k1)) = 3%nat ->
  all_away (kmach k1) -> (forall i, 1 <= i <= 3 -> stored k1 i = view k i) ->
  1 <= n <= 3 -> ram_only (kmach k1) m' ->
  (forall p, ~ (VIDEO <= p < VIDEO + SIZE_VID_MEM) -> pbyte m' p = pbyte (kmach k1) p) ->
  let k' := set_kmach k1 (flushTLB (setupPagingDirectoryTable RESERV_CODE_2 VIDEO n m')) in
  display_ok k' /\ (forall i, 1 <= i <= 3 -> i <> n -> view k' i = view k i) /\ tlb_dirty (kmach k') = false /\
  if_flag (kmach k') = if_flag (kmach k1).
Proof.
  intros Hm Hi Hl Haw Hst Hn Hr Hp k'.
  pose proof (ram_only_mapped _ _ Hr Hm) as Hm'. destruct video_frame as [Hva Hvr].
  split_and!.
  - split; [by destruct (window_kernel_mapped m' RESERV_CODE_2 VIDEO n Hm')| |exact Hl|].
    + change (1 <= indicator (ksched k1) <= 3). lia.
    + intros i Hi1. change (ksched k') with (ksched k1). rewrite Hi.
      destruct (Z.eqb_spec i n) as [->|Hne]; [by apply remap_window|].
      apply other_window; [done|done|done|lia|done|done|]. apply (window_ram (kmach k1)); [done|by apply Haw].
  - intros i Hi1 Hne. unfold view at 1. change (ksched k') with (ksched k1). rewrite Hi.
    rewrite (proj2 (Z.eqb_neq i n)) by done. rewrite <-(Hst i Hi1). unfold stored.
    change (get_saved k' i) with (get_saved k1 i).
    destruct (screen_mem_frame i Hi1) as [_ Hsi]. pose proof (buffer_place i Hi1).
    f_equal; apply pbytes_ext; intros j Hj; change (pbyte (kmach k') ?q) with (pbyte m' q); apply Hp;
      unfold VIDEO, SIZE_VID_MEM, MAX_BYTES_BUF in *; lia.
  - done.
  - change (if_flag m' = if_flag (kmach k1)). by destruct (ram_only_fields _ _ Hr) as (_ & _ & -> & _).
Qed.

Lemma prepared_put_saved k n k1 s :
  prepared k n k1 -> 1 <= n <= 3 -> saved_x s = saved_x (get_saved k1 n) ->
  saved_y s = saved_y (get_saved k1 n) -> saved_tbuf s = saved_tbuf (get_saved k1 n) ->
  let k2 := put_saved k1 n s in
  kernel_mapped (kmach k2) /\ indicator (ksched k2) = n /\ length (terminals (ksched k2)) = 3%nat /\
  all_away (kmach k2) /\ (forall i, 1 <= i <= 3 -> stored k2 i = view k i) /\
  (forall i, 1 <= i <= 3 -> get_saved k2 i = if i =? n then s else get_saved k1 i).
Proof.
  intros [Hm Hi Hl Haw Hst _ _ _ _] Hn Hx Hy Ht k2.
  assert (forall i, 1 <= i <= 3 -> get_saved k2 i = if i =? n then s else get_saved k1 i) as Hg
    by (intros i Hi1; by apply get_put_saved).
  split_and!; [exact Hm|exact Hi| |exact Haw| |exact Hg].
  - unfold k2, put_saved. cbn [terminals ksched set_terminals set_ksched]. by rewrite length_insert.
  - intros i Hi1. rewrite <-(Hst i Hi1). unfold stored. rewrite Hg by done.
    change (kmach k2) with (kmach k1). destruct (Z.eqb_spec i n) as [->|]; [|done]. by rewrite Hx, Hy, Ht.
Qed.

Lemma pbyte_st m a v p : cell m a <> p -> pbyte (st m a v) p = pbyte m p.
Proof. intros Hc. unfold pbyte, st, machine_mem. cbn [ram set_ram]. by rewrite lookup_insert_ne. Qed.

Lemma clear_pbyte s :
  kernel_mapped (mach s) ->
  ram_only (mach s) (mach (clear s)) /\
  forall p, ~ (VIDEO <= p < VIDEO + SIZE_VID_MEM) -> pbyte (mach (clear s)) p = pbyte (mach s) p.
Proof.
  intros Hm. unfold clear. cbn [mach set_mach]. change (NUM_ROWS * NUM_COLS) with 2000.
  match goal with |- context [for_range 0 2000 ?f ?m] =>
    pose proof (for_range_ind (fun _ m' => ram_only m m' /\
      forall p, ~ (VIDEO <= p < VIDEO + SIZE_VID_MEM) -> pbyte m' p = pbyte m p) 0 2000 f m) as Hind;
    generalize dependent (for_range 0 2000 f m)
  end.
  intros m1 Hind. apply Hind; [done|split; [apply ram_only_refl|done]|].
  intros i m' Hi [Hr Hp]. pose proof (ram_only_mapped _ _ Hr Hm) as Hm'.
  cbv zeta. unfold video_mem. rewrite Z.shiftl_mul_pow2 by lia. change (2 ^ 1) with 2.
  split; [by do 2 apply ram_only_st|]. intros p Hv. unfold SIZE_VID_MEM in *.
  assert (forall b, 0 <= b < 4000 -> VIDEO + b <> p) as Hb by (intros b Hb <-; apply Hv; lia).
  rewrite <-Z.add_assoc, !pbyte_st; [by apply Hp| |];
    rewrite ?cell_st, video_cell by (done || lia); apply Hb; lia.
Qed.

(** The characters on the screen depend on the physical video page only. *)
Lemma video_chars m m' :
  kernel_mapped m' -> kernel_mapped m -> ram m' = ram m ->
  map (fun j => ld m' (VIDEO + 2 * j)) (seqZ 0 2000) = map (fun j => ld m (VIDEO + 2 * j)) (seqZ 0 2000).
Proof.
  intros Hm' Hm Hr. apply map_ext_in. intros x Hx%list_elem_of_In%elem_of_seqZ.
  rewrite !ld_pbyte, !video_cell by (done || lia). unfold pbyte. by rewrite Hr.
Qed.

Lemma show_first_facts n k k1 :
  prepared k n k1 -> 1 <= n <= 3 ->
  let k2 := show_first n k1 in
  display_ok k2 /\ indicator (ksched k2) = n /\ fts (get_saved k2 n) = 1 /\
  (forall i, 1 <= i <= 3 -> i <> n -> view k2 i = view k i) /\
  screen (con k2) = replicate 2000 32 /\ screen_x (con k2) = 0 /\ screen_y (con k2) = 0 /\
  kprocs k2 = kprocs k /\ tlb_dirty (kmach k2) = false /\ if_flag (kmach k2) = false.
Proof.
  intros Hp Hn k2. unfold show_first in k2. cbv zeta in k2.
  set (s := get_saved k1 n) in *. set (s' := Saved (saved_x s) (saved_y s) (saved_tbuf s) 1) in *.
  destruct (prepared_put_saved k n k1 s' Hp Hn eq_refl eq_refl eq_refl) as (Hm & Hi & Hl & Haw & Hst & Hg).
  destruct (pr_rest _ _ _ Hp) as (E1 & _ & _ & E4).
  assert (kprocs (put_saved k1 n s') = kprocs k) as Ek by exact E1.
  assert (if_flag (kmach (put_saved k1 n s')) = false) as Ef by exact E4.
  specialize (Hg n Hn). rewrite Z.eqb_refl in Hg.
  subst k2. generalize dependent (put_saved k1 n s'). intros k3 Hm Hi Hl Haw Hst Hg Ek Ef.
  destruct (clear_pbyte (con k3) Hm) as [Hr Hpb].
  pose proof (clear_facts (con k3) Hm) as (Hcells & _).
  assert (set_con k3 (reset_screen (con k3))
          = set_con k3 (set_y (set_x (set_mach (con k3) (mach (clear (con k3)))) 0) 0)) as -> by reflexivity.
  unfold cells in Hcells. generalize dependent (mach (clear (con k3))). intros m' Hr Hpb Hcells.
  change (indicator (ksched (set_con k3 ?c))) with (indicator (ksched k3)). rewrite Hi.
  destruct (blank_machine_view n k (set_con k3 (set_y (set_x (con k3) 0) 0)) m') as (V1 & V2 & V3 & V4);
    [exact Hm|exact Hi|exact Hl|exact Haw|exact Hst|exact Hn|exact Hr|exact Hpb|].
  split_and!; [exact V1|exact Hi|change (fts (get_saved k3 n) = 1); by rewrite Hg|exact V2| |reflexivity|reflexivity|exact Ek|exact V3|exact (eq_trans V4 Ef)].
  etrans; [|exact Hcells]. apply video_chars; [apply V1|exact (ram_only_mapped _ _ Hr Hm)|reflexivity].
Qed.

(** The windows as [init_screen_memory] sets them up. *)
Definition init_windows m : machine :=
  setupPagingDirectoryTable RESERV_CODE_2 SCREEN3_MEM 3
    (setupPagingDirectoryTable RESERV_CODE_2 SCREEN2_MEM 2
       (setupPagingDirectoryTable RESERV_CODE_2 VIDEO 1 m)).

Lemma init_windows_ok k :
  kernel_mapped (kmach k) -> indicator (ksched k) = 1 -> length (terminals (ksched k)) = 3%nat ->
  display_ok (set_kmach k (init_windows (kmach k))).
Proof.
  intros Hm Hi Hl. set (m1 := setupPagingDirectoryTable RESERV_CODE_2 VIDEO 1 (kmach k)).
  set (m2 := setupPagingDirectoryTable RESERV_CODE_2 SCREEN2_MEM 2 m1).
  assert (kernel_mapped m1) as Hm1 by by apply window_kernel_mapped.
  assert (kernel_mapped m2) as Hm2 by by apply window_kernel_mapped.
  destruct (screen_mem_frame 2) as [A2 B2]; [lia|]. destruct (screen_mem_frame 3) as [A3 B3]; [lia|].
  change (screen_mem 2) with SCREEN2_MEM in *. change (screen_mem 3) with SCREEN3_MEM in *.
  destruct video_frame as [A1 B1].
  assert (window_at m1 1 VIDEO) as W1 by (apply remap_window; [done|lia|done|done]).
  assert (window_at m2 2 SCREEN2_MEM) as W2 by (apply remap_window; [done|lia|done|lia]).
  assert (window_at m2 1 VIDEO) as W1' by (apply other_window; [done|lia|lia|lia|done|lia|done]).
  split; [by apply window_kernel_mapped|change (1 <= indicator (ksched k) <= 3); lia|exact Hl|].
  change (ksched (set_kmach k ?m)) with (ksched k). rewrite Hi.
  intros i Hi1. destruct (three i Hi1) as [->|[->| ->]].
  - change (window_at (init_windows (kmach k)) 1 VIDEO). apply other_window; [done|lia|lia|lia|done|lia|done].
  - change (window_at (init_windows (kmach k)) 2 SCREEN2_MEM). apply other_window; [done|lia|lia|lia|done|lia|done].
  - change (window_at (init_windows (kmach k)) 3 SCREEN3_MEM). apply remap_window; [done|lia|done|lia].
Qed.

Lemma init_screen_memory_eq base k :
  init_screen_memory base k = screen1 base (set_kmach k (init_windows (kmach k))).
Proof. reflexivity. Qed.

End facts.

(** ** The contract *)

Section contract.
Context {L : Layout} {LOK : LayoutOk} {FR : Frames}.
Implicit Type k : kernel.



End contract.

(** *** Example: the boot's windows, terminal 2 started *)

#[local] Existing Instance demo_layout.
#[local] Existing Instance demo_layout_ok.

Definition demo_frames_0 : Frames := {|
  syscall_esp e := e; halt_esp b := b; save_esp b := b; save_ebp b := b; switch_esp b := b; switch_ebp b := b |}.
#[local] Existing Instance demo_frames_0.

Definition display_base (m : machine) : kernel :=
  Kernel (Console m 3 4 0 0) 0 started_files blank_procs
    (Sched 1 1 [Saved 0 0 0 1; Saved 5 6 2 1; Saved 0 0 0 0] 0 (replicate 3 null_process)) (Keys 0 0 0 0) 0 0.

Lemma display_base_ok m :
  kernel_mapped m -> display_ok (set_kmach (display_base m) (init_windows m)).
Proof. intros Hm. exact (init_windows_ok (display_base m) Hm eq_refl eq_refl). Qed.

Definition display_kernel : kernel :=
  let m := initPaging blank_machine in set_kmach (display_base m) (init_windows m).

Lemma display_kernel_ok : display_ok display_kernel.
Proof. apply display_base_ok, initPaging_kernel_mapped. Qed.


