(* ===== verification/Keyboard.v ===== *)
(** * The keyboard (student-distrib/keyboard.c)

    The scancode tables, the modifier flags and [keyboard_handler] whole: the
    characters it draws, the screens it brings into view, the process it ends.
    [base] is the stack pointer with which the handler would call execute or
    halt. *)
From Stdlib Require Import ZArith Lia String.
From stdpp Require Import base list gmap numbers.
From S2P Require Import Prelude ByteMem LibString Machine Devices Console Filesystem Kernel FileTable Process Scheduling.

#[local] Open Scope c_scope.

Definition keyboard_port : Z := 0x60.

(** The initialisers, then the zeroes of the elements they leave out. *)
Definition array_of_char : list Z :=
  [0; 27] ++ chars "1234567890-=" ++ [8; 9] ++ chars "qwertyuiop[]" ++ [10; 0]
  ++ chars "asdfghjkl;" ++ [39; 96; 0; 92] ++ chars "zxcvbnm,./" ++ [0; 42; 0; 32; 0; 0]
  ++ replicate 8 0 ++ [0; 0; 0; 0; 0; 0; 45; 0; 0; 0; 43] ++ replicate 49 0.

Definition shift_char : list Z :=
  [0; 27] ++ chars "!@#$%^&*()_+" ++ [8; 9] ++ chars "QWERTYUIOP{}" ++ [10; 0]
  ++ chars "ASDFGHJKL:" ++ [39; 126; 0; 92] ++ chars "ZXCVBNM<>?" ++ [0; 42; 0; 32; 0; 0]
  ++ replicate 8 0 ++ [0; 0; 0; 0; 0; 0; 45; 0; 0; 0; 43] ++ replicate 49 0.

Definition set_shift_flag k v :=
  let s := kkeys k in set_kkeys k (Keys v (ctrl_flag s) (alt_flag s) (caps_lock s)).
Definition set_ctrl_flag k v :=
  let s := kkeys k in set_kkeys k (Keys (shift_flag s) v (alt_flag s) (caps_lock s)).
Definition set_alt_flag k v :=
  let s := kkeys k in set_kkeys k (Keys (shift_flag s) (ctrl_flag s) v (caps_lock s)).
Definition set_caps_lock k v :=
  let s := kkeys k in set_kkeys k (Keys (shift_flag s) (ctrl_flag s) (alt_flag s) v).

Section keyboard.
Context {L : Layout} {D : Device} {FR : Frames}.

Definition keyboard_init (k : kernel) : kernel :=
  let k := set_kmach k (I8259.enable_irq 1 (kmach k)) in
  let k := set_shift_flag k 0 in
  let k := set_ctrl_flag k 0 in
  let k := set_alt_flag k 0 in
  set_caps_lock k 0.

(** A [char]: the byte of the port as a signed value. *)
Definition getScancode : C Z := fun k =>
  let '(v, m) := inb keyboard_port (kmach k) in
  Ret (s8 v) (set_kmach k m).

Definition getchar : C Z :=
  z <- getScancode ;;
  c_some (lookupZ array_of_char z).

(** The keys the handler looks at. *)
Definition key_accepted (z : Z) : bool :=
  ((2 <=? z) && (z <=? 53)) || (z =? 55) || (z =? 56) || (z =? 57) || (z =? 58) || (z =? 74)
  || (z =? 78) || (z =? 59) || (z =? 60) || (z =? 61) || (z =? 62).

Definition caps_key (z : Z) : bool :=
  ((15 <? z) && (z <? 26)) || ((29 <? z) && (z <? 39)) || ((43 <? z) && (z <? 51)).

(** [putc(table[(int)z])] *)
Definition putc_table (table : list Z) (z : Z) : C unit :=
  c <- c_some (lookupZ table z) ;;
  c_console (putc c).

(** The branch of a key going up. *)
Definition key_up (z : Z) : C unit :=
  (if (z =? -86) || (z =? -74) then c_mod (fun k => set_shift_flag k 0) else c_ret tt) ;;;
  (if z =? -99 then c_mod (fun k => set_ctrl_flag k 0) else c_ret tt) ;;;
  (if z =? -72 then c_mod (fun k => set_alt_flag k 0) else c_ret tt).

(** The last choice: which table the key is looked up in. *)
Definition key_char (z : Z) : C unit :=
  f <- c_get kkeys ;;
  if truth (caps_lock f) && caps_key z then putc_table shift_char z
  else if truth (shift_flag f) && (1 <? z) && (z <? 54) then putc_table shift_char z
  else putc_table array_of_char z.

(** The branch of a key going down, one [if] of the source after the other; the
    halt of Ctrl-C goes on with the rest should it return. *)
Definition key_down (base z : Z) : C unit :=
  f <- c_get kkeys ;;
  if (z =? 42) || (z =? 54) then c_mod (fun k => set_shift_flag k 1)
  else if z =? 29 then c_mod (fun k => set_ctrl_flag k 1)
  else if z =? 56 then c_mod (fun k => set_alt_flag k 1)
  else if z =? 58 then c_mod (fun k => set_caps_lock k (if 0 <? caps_lock f then 0 else 1))
  else if truth (ctrl_flag f) && (z =? 38) then c_console reset_screen
  else
    (if truth (ctrl_flag f) && (z =? 46) then _ <- halt base 0 ;; c_ret tt else c_ret tt) ;;;
    f <- c_get kkeys ;;
    if truth (alt_flag f) && (z =? 59) then screen1 base
    else if truth (alt_flag f) && (z =? 60) then screen2 base
    else if truth (alt_flag f) && (z =? 61) then screen3 base
    else if negb (truth (alt_flag f)) && (z =? 59) then c_ret tt
    else if negb (truth (alt_flag f)) && (z =? 60) then c_ret tt
    else if negb (truth (alt_flag f)) && (z =? 61) then c_ret tt
    else key_char z.

Definition keyboard_handler (base : Z) : C unit :=
  z <- getScancode ;;
  c_mach (I8259.send_eoi 1) ;;;
  if truth (Z.land z 0x80) then key_up z
  else if key_accepted z then key_down base z
  else c_ret tt.

End keyboard.

(** ** The layout *)

Definition is_letter (c : Z) : bool := (97 <=? c) && (c <=? 122).

(** What a key should type: a letter is upper case with shift or with caps lock,
    every other key has its second meaning with shift. *)
Definition key_spec (shift caps : bool) (z : Z) : Z :=
  let c := default 0 (lookupZ array_of_char z) in
  if is_letter c then if shift || caps then c - 32 else c
  else if shift then default 0 (lookupZ shift_char z) else c.

(** The keys that type a character: none of the modifiers, none of F1 to F4. *)
Definition char_key (z : Z) : bool :=
  key_accepted z && negb ((z =? 29) || (z =? 42) || (z =? 56) || (z =? 58) || (z =? 59) || (z =? 60)
    || (z =? 61) || (z =? 62)).

(** Reads of the keyboard's port in the traffic so far. *)
Definition key_read (e : ioev) : bool :=
  match e with In p _ => p =? keyboard_port | Out _ _ => false end.
Definition key_reads (tr : list ioev) : nat := List.length (List.filter key_read tr).

(** A keyboard that delivers the scancodes [zs], one per read. *)
Class Types `{Device} (zs : list Z) :=
  types : forall tr, dev_in tr keyboard_port = nth (key_reads tr) zs 0.

Section facts.
Context {L : Layout} {D : Device} {FR : Frames}.
Implicit Type k : kernel.

Lemma char_key_range z : char_key z = true -> 2 <= z <= 78.
Proof.
  unfold char_key, key_accepted. intros [H _]%andb_prop.
  repeat (apply orb_prop in H as [H|H]; [|rewrite ?Z.eqb_eq in H; lia]).
  apply andb_prop in H as [H1 H2]. lia.
Qed.

Lemma table_lengths : List.length array_of_char = 128%nat /\ List.length shift_char = 128%nat.
Proof. split; reflexivity. Qed.

(** The choice of the table, key by key. *)
Lemma table_choice (shift caps : bool) z :
  0 <= z < 128 ->
  (if caps && caps_key z then lookupZ shift_char z
   else if shift && (1 <? z) && (z <? 54) then lookupZ shift_char z else lookupZ array_of_char z)
  = Some (key_spec shift caps z).
Proof.
  intros Hz.
  assert (forallb (fun z => forallb (fun shift => forallb (fun caps =>
    bool_decide ((if caps && caps_key z then lookupZ shift_char z
      else if shift && (1 <? z) && (z <? 54) then lookupZ shift_char z else lookupZ array_of_char z)
      = Some (key_spec shift caps z))) [true; false]) [true; false]) (seqZ 0 128) = true) as Hall
    by (vm_compute; reflexivity).
  rewrite forallb_forall in Hall. specialize (Hall z).
  rewrite <-list_elem_of_In, elem_of_seqZ in Hall. specialize (Hall ltac:(lia)).
  rewrite forallb_forall in Hall. specialize (Hall shift ltac:(destruct shift; simpl; auto)).
  rewrite forallb_forall in Hall. specialize (Hall caps ltac:(destruct caps; simpl; auto)).
  by apply bool_decide_eq_true in Hall.
Qed.

Lemma key_char_spec z k :
  0 <= z < 128 ->
  key_char z k
  = Ret tt (set_con k (putc (key_spec (truth (shift_flag (kkeys k))) (truth (caps_lock (kkeys k))) z) (con k))).
Proof.
  intros Hz. pose proof (table_choice (truth (shift_flag (kkeys k))) (truth (caps_lock (kkeys k))) z Hz) as Ht.
  unfold key_char, putc_table, c_bind, c_get, c_console, c_mod.
  destruct (truth (caps_lock (kkeys k)) && caps_key z); [by rewrite Ht|].
  destruct (truth (shift_flag (kkeys k)) && (1 <? z) && (z <? 54)); by rewrite Ht.
Qed.

(** The state once the scancode is read and the interrupt acknowledged. *)
Definition acknowledged k : kernel :=
  set_kmach k (I8259.send_eoi 1 (snd (inb keyboard_port (kmach k)))).

Lemma keyboard_handler_eq base k :
  let z := s8 (fst (inb keyboard_port (kmach k))) in
  keyboard_handler base k
  = (if truth (Z.land z 0x80) then key_up z (acknowledged k)
     else if key_accepted z then key_down base z (acknowledged k) else Ret tt (acknowledged k)).
Proof.
  unfold keyboard_handler, getScancode, c_bind. destruct (inb keyboard_port (kmach k)) as [v m] eqn:E.
  cbn [fst snd]. unfold acknowledged. rewrite E. cbn [snd]. unfold c_mach, c_mod.
  destruct (truth (Z.land (s8 v) 0x80)); [done|]. by destruct (key_accepted (s8 v)).
Qed.

(** A key that goes down: the sign bit of its scancode is clear. *)
Lemma down_test z : 0 <= z < 128 -> truth (Z.land z 0x80) = false.
Proof.
  intros Hz. unfold truth. replace (Z.land z 0x80) with 0; [done|].
  symmetry. apply Z.bits_inj'. intros i Hi. rewrite Z.land_spec, Z.bits_0.
  destruct (decide (i = 7)) as [->|].
  - replace (Z.testbit z 7) with false; [done|].
    rewrite Z.testbit_odd, Z.shiftr_div_pow2 by lia. change (2 ^ 7) with 128. by rewrite Z.div_small.
  - change 0x80 with (2 ^ 7). rewrite Z.pow2_bits_eqb by lia.
    destruct (Z.eqb_spec 7 i); [lia|]. apply andb_false_r.
Qed.

Lemma key_down_char base z k :
  char_key z = true -> truth (ctrl_flag (kkeys k)) = false \/ (z <> 38 /\ z <> 46) ->
  key_down base z k = key_char z k.
Proof.
  intros Hz Hc. unfold char_key in Hz. apply andb_prop in Hz as [Ha Hn].
  rewrite negb_true_iff in Hn.
  repeat (apply orb_false_elim in Hn as [Hn ?]).
  assert (z <> 54) as H54.
  { intros ->. vm_compute in Ha. done. }
  unfold key_down, c_bind, c_get. rewrite (proj2 (Z.eqb_neq z 54)) by done.
  repeat match goal with H : (z =? _) = false |- _ => rewrite H; clear H end. cbn [orb].
  assert (truth (ctrl_flag (kkeys k)) && (z =? 38) = false) as ->.
  { destruct Hc as [-> |[Hc _]]; [done|]. rewrite (proj2 (Z.eqb_neq _ _)) by done. apply andb_false_r. }
  assert (truth (ctrl_flag (kkeys k)) && (z =? 46) = false) as ->.
  { destruct Hc as [-> |[_ Hc]]; [done|]. rewrite (proj2 (Z.eqb_neq _ _)) by done. apply andb_false_r. }
  cbv beta iota. unfold c_ret. rewrite !andb_false_r. done.
Qed.

End facts.

Section contract.
Context {L : Layout} {D : Device} {FR : Frames}.
Implicit Type k : kernel.

(** The flags after a key goes up. *)
Definition released (v : Z) (f : keys) : keys :=
  Keys (if (v =? 0xAA) || (v =? 0xB6) then 0 else shift_flag f)
    (if v =? 0x9D then 0 else ctrl_flag f) (if v =? 0xB8 then 0 else alt_flag f) (caps_lock f).

Lemma up_test v : 128 <= v < 256 -> truth (Z.land (s8 v) 0x80) = true.
Proof.
  intros Hv. unfold truth.
  assert (Z.testbit (Z.land (s8 v) 0x80) 7 = true) as Hb.
  { rewrite Z.land_spec, andb_true_iff. split; [|reflexivity].
    unfold s8. replace ((v + 128) mod 256 - 128) with (v - 256) by dlia.
    rewrite Z.testbit_odd, Z.shiftr_div_pow2 by lia. change (2 ^ 7) with 128.
    replace ((v - 256) / 128) with (-1) by dlia. done. }
  destruct (Z.eqb_spec (Z.land (s8 v) 0x80) 0) as [E|]; [|done]. rewrite E in Hb. done.
Qed.

Lemma key_up_spec v k :
  128 <= v < 256 -> key_up (s8 v) k = Ret tt (set_kkeys k (released v (kkeys k))).
Proof.
  intros Hv. unfold key_up, released.
  assert (forall b, -128 <= b < 0 -> (s8 v =? b) = (v =? b + 256)) as Hs.
  { intros b Hb. unfold s8. destruct (Z.eqb_spec v (b + 256)); apply Z.eqb_eq || apply Z.eqb_neq; dlia. }
  rewrite !Hs by lia. change (-86 + 256) with 0xAA. change (-74 + 256) with 0xB6.
  change (-99 + 256) with 0x9D. change (-72 + 256) with 0xB8.
  destruct k as [? ? ? ? ? [? ? ? ?] ? ?].
  by destruct ((v =? 0xAA) || (v =? 0xB6)), (v =? 0x9D), (v =? 0xB8).
Qed.

Lemma key_accepted_fn n : 1 <= n <= 3 -> key_accepted (58 + n) = true.
Proof. intros Hn. by destruct (three n Hn) as [->|[->| ->]]. Qed.

Lemma key_down_screen base n k :
  1 <= n <= 3 -> truth (alt_flag (kkeys k)) = true -> key_down base (58 + n) k = switch_screen n base k.
Proof.
  intros Hn Ha. unfold key_down. erewrite c_bind_ret by reflexivity.
  destruct (three n Hn) as [->|[->| ->]];
    match goal with |- context [(?x =? 42)] => let y := eval cbv in x in change x with y end;
    cbn [Z.eqb Pos.eqb orb]; rewrite !andb_false_r;
    (erewrite c_bind_ret by reflexivity); (erewrite c_bind_ret by reflexivity); by rewrite Ha.
Qed.

(** C12: what a key does.  A character key is drawn as the layout says: letters in
    upper case with shift or caps lock, the others in their second meaning with
    shift; the left shift, control and alt keys and caps lock change their flag,
    and going up clears it; the right shift key going down does nothing; Ctrl-L
    clears the screen and Alt-F1 to Alt-F3 bring a terminal into view. *)
Theorem keyboard_handler_correct base k :
  let v := u8 (dev_in (trace (kmach k)) keyboard_port) in
  let f := kkeys k in
  let k1 := acknowledged k in
  (v < 128 -> char_key v = true -> truth (ctrl_flag f) = false \/ (v <> 38 /\ v <> 46) ->
     keyboard_handler base k
     = Ret tt (set_con k1 (putc (key_spec (truth (shift_flag f)) (truth (caps_lock f)) v) (con k1)))) /\
  (128 <= v -> keyboard_handler base k = Ret tt (set_kkeys k1 (released v f))) /\
  (v = 42 -> keyboard_handler base k = Ret tt (set_shift_flag k1 1)) /\
  (v = 29 -> keyboard_handler base k = Ret tt (set_ctrl_flag k1 1)) /\
  (v = 56 -> keyboard_handler base k = Ret tt (set_alt_flag k1 1)) /\
  (v = 58 -> keyboard_handler base k = Ret tt (set_caps_lock k1 (if 0 <? caps_lock f then 0 else 1))) /\
  (v = 54 -> keyboard_handler base k = Ret tt k1) /\
  (v = 38 -> truth (ctrl_flag f) = true -> keyboard_handler base k = Ret tt (set_con k1 (reset_screen (con k1)))) /\
  (forall n, 1 <= n <= 3 -> v = 58 + n -> truth (alt_flag f) = true ->
     keyboard_handler base k = switch_screen n base k1).
Proof.
  intros v f k1. pose proof (u8_range (dev_in (trace (kmach k)) keyboard_port)) as Hv. fold v in Hv.
  pose proof (keyboard_handler_eq base k) as Heq. cbv zeta in Heq.
  change (fst (inb keyboard_port (kmach k))) with v in Heq. fold k1 in Heq.
  assert (v < 128 -> keyboard_handler base k = if key_accepted v then key_down base v k1 else Ret tt k1) as Hdown.
  { intros Hlt. rewrite Heq. assert (s8 v = v) as -> by (unfold s8; dlia). by rewrite down_test by lia. }
  assert (kkeys k1 = f) as Hf by reflexivity.
  split_and!.
  - intros Hlt Hc Hctrl. rewrite Hdown by done. pose proof Hc as Ha. unfold char_key in Ha.
    apply andb_prop in Ha as [-> _]. rewrite key_down_char by (by rewrite ?Hf). rewrite key_char_spec by lia.
    by rewrite Hf.
  - intros Hge. rewrite Heq, up_test, key_up_spec by lia. by rewrite Hf.
  - intros E. rewrite Hdown by lia. by rewrite E.
  - intros E. rewrite Hdown by lia. by rewrite E.
  - intros E. rewrite Hdown by lia. by rewrite E.
  - intros E. rewrite Hdown by lia. rewrite E. by rewrite <-Hf.
  - intros E. rewrite Hdown by lia. by rewrite E.
  - intros E Hc. rewrite Hdown by lia. rewrite E. cbn [key_accepted Z.leb Z.eqb Pos.eqb Z.compare Pos.compare Pos.compare_cont andb orb].
    unfold key_down, c_bind, c_get. rewrite Hf, Hc. done.
  - intros n Hn E Ha. rewrite Hdown by lia.
    rewrite E. rewrite (key_accepted_fn n Hn), (key_down_screen base n k1 Hn) by (by rewrite Hf). done.
Qed.

End contract.

(** *** Example: the A key, held with the left shift *)

#[local] Existing Instance demo_layout.
#[local] Existing Instance demo_frames_0.

Definition key_a_device : Device := fun _ port => if port =? keyboard_port then 30 else 0.
#[local] Existing Instance key_a_device.

Definition shifted_kernel : kernel := set_shift_flag display_kernel 1.

Lemma keyboard_handler_correct_witness :
  keyboard_handler 0 shifted_kernel
  = Ret tt (set_con (acknowledged shifted_kernel) (putc 65 (con (acknowledged shifted_kernel)))).
Proof.
  pose proof (keyboard_handler_correct 0 shifted_kernel) as (H & _).
  rewrite H; [reflexivity|reflexivity|reflexivity|left; reflexivity].
Defined.
