(* ===== verification/Terminal.v ===== *)
(** * Waiting for devices: terminal.c, rtc.c's reading half, the interrupts

    A busy wait of the kernel ends when an interrupt handler changes the variable
    it tests.  Here a wait runs on a list of interrupts, in the order they arrive:
    it takes one after the other while it waits and answers the ones left over;
    it hangs when the list is used up or interrupts are off.  [base] is the stack
    pointer with which a handler would call execute or halt. *)
From Stdlib Require Import ZArith Lia String.
From stdpp Require Import base list gmap numbers.
From S2P Require Import Prelude ByteMem LibString Machine Paging Devices Console Screen Filesystem Kernel Logic FileTable Process Scheduling Keyboard.

#[local] Open Scope c_scope.

(** The three vectors the boot enables: 0x20, 0x21 and 0x28. *)
Inductive irq := irq_pit | irq_keyboard | irq_rtc.

Section terminal.
Context {L : Layout} {D : Device} {FR : Frames}.

Definition rtc_handler (k : kernel) : kernel :=
  let k := set_kmach k (outb 0x0C Rtc.RTC_PORT (kmach k)) in
  let k := set_kmach k (snd (inb Rtc.CMOS_PORT (kmach k))) in
  let k := set_kmach k (I8259.send_eoi Rtc.RTC_VEC (kmach k)) in
  set_read_flag k 1.

Definition handler (base : Z) (i : irq) : C unit :=
  match i with
  | irq_pit => c_mod pit_handler
  | irq_keyboard => keyboard_handler base
  | irq_rtc => c_mod rtc_handler
  end.

(** pit_wrapper, keyboard_wrapper, rtc_wrapper: the interrupt gates clear the
    flag, the [iret] brings it back. *)
Definition interrupt (base : Z) (i : irq) : C unit :=
  f <- c_get (fun k => if_flag (kmach k)) ;;
  c_mach cli ;;;
  handler base i ;;;
  c_mach (fun m => set_if m f).

(** [while (test) {}] *)
Fixpoint wait_while (base : Z) (test : kernel -> option bool) (irqs : list irq) : C (list irq) :=
  b <- (fun k => c_some (test k) k) ;;
  if negb b then c_ret irqs
  else
    match irqs with
    | [] => c_hang
    | i :: irqs =>
        f <- c_get (fun k => if_flag (kmach k)) ;;
        if negb f then c_hang
        else (interrupt base i ;;; wait_while base test irqs)
    end.

(** The line is copied to the caller whatever the size [n] it gives: 129 bytes of
    its buffer are cleared first. *)
Definition copy_line (buf n : Z) (k : kernel) : Z * kernel :=
  let k := set_kmach k (for_range 0 129 (fun i m => st m (buf + i) 0) (kmach k)) in
  let k :=
    if tbuf (con k) <? 128 then set_kmach k (st (kmach k) (tbuffer_at + tbuf (con k)) 10)
    else
      let k := set_kmach k (st (kmach k) (tbuffer_at + 128) 10) in
      set_con k (set_tbuf (con k) 127) in
  let tbuf := tbuf (con k) in
  if n <? tbuf then
    let m := for_range 0 n (fun i m => st m (buf + i) (ld m (tbuffer_at + i))) (kmach k) in
    (n, set_kmach k (st m (buf + n) 10))
  else
    let m := for_range 0 tbuf (fun i m => st m (buf + i) (ld m (tbuffer_at + i))) (kmach k) in
    (tbuf + 1, set_kmach k (st m (buf + tbuf) 10)).

Definition terminal_read (base : Z) (irqs : list irq) (fd buffer n : Z) : C (Z * list irq) :=
  c_console (fun s => set_tflag (set_tbuf s 0) 1) ;;;
  irqs <- wait_while base (fun k => Some (truth (tflag (con k)))) irqs ;;
  r <- (fun k => let '(r, k) := copy_line buffer n k in Ret r k) ;;
  c_ret (r, irqs).

(** [indicator != head->screen]; a NULL [head] faults. *)
Definition not_in_view (k : kernel) : option bool :=
  p ← get_process k (head (ksched k));
  Some (negb (indicator (ksched k) =? pscreen p)).

Definition terminal_write (base : Z) (irqs : list irq) (fd buffer n : Z) : C (Z * list irq) :=
  irqs <- wait_while base not_in_view irqs ;;
  c_console (for_range 0 n (fun i s => putc (ld (mach s) (buffer + i)) s)) ;;;
  c_ret (0, irqs).

Definition rtc_read (base : Z) (irqs : list irq) (fdr buf nbytes : Z) : C (Z * list irq) :=
  c_mod (fun k => set_read_flag k 0) ;;;
  c_mach sti ;;;
  irqs <- wait_while base (fun k => Some (negb (truth (read_flag k)))) irqs ;;
  c_mach cli ;;;
  c_ret (0, irqs).

End terminal.

(** What a read of the terminal leaves alone. *)
Definition same_rest (k0 k : kernel) : Prop :=
  kfiles k = kfiles k0 /\ ksched k = ksched k0 /\ kprocs k = kprocs k0 /\ FSYSTEM k = FSYSTEM k0.

(** ** Copying the line *)

Section copy_facts.
Context {L : Layout} {LOK : LayoutOk}.
Implicit Type m : machine.

Lemma zero_loop m buf (n : nat) :
  for_range 0 (Z.of_nat n) (fun i m => st m (buf + i) 0) m = store_bytes m buf (replicate n 0).
Proof.
  pose proof (for_range_ind (fun i m' => m' = store_bytes m buf (replicate (Z.to_nat i) 0))
    0 (Z.of_nat n) (fun i m => st m (buf + i) 0) m) as Hind.
  rewrite Hind; [by rewrite Nat2Z.id|lia|done|].
  intros i m' Hi ->. replace (Z.to_nat (i + 1)) with (Z.to_nat i + 1)%nat by lia.
  rewrite replicate_add, store_bytes_app, length_replicate. simpl. by rewrite Z2Nat.id by lia.
Qed.

Lemma copy_loop m d s (n : nat) :
  apart m d (Z.of_nat n) s (Z.of_nat n) ->
  for_range 0 (Z.of_nat n) (fun i m => st m (d + i) (ld m (s + i))) m = copy_bytes m d s n.
Proof.
  intros Hap.
  pose proof (for_range_ind (fun i m' => m' = copy_bytes m d s (Z.to_nat i))
    0 (Z.of_nat n) (fun i m => st m (d + i) (ld m (s + i))) m) as Hind.
  rewrite Hind; [by rewrite Nat2Z.id|lia|done|].
  intros i m' Hi ->. replace (Z.to_nat (i + 1)) with (Z.to_nat i + 1)%nat by lia.
  rewrite copy_snoc, Z2Nat.id by lia. f_equal. unfold copy_bytes. apply store_bytes_outside.
  intros j Hj. rewrite load_bytes_length in Hj. apply Hap; lia.
Qed.

(** Writing at the start of a range. *)
Lemma load_store_prefix m a l (n : nat) :
  inj_on m a (Z.of_nat n) -> (length l <= n)%nat -> Forall (fun b => 0 <= b < 256) l ->
  load_bytes (store_bytes m a l) a n = l ++ drop (length l) (load_bytes m a n).
Proof.
  intros Hinj Hl Hb. replace n with (length l + (n - length l))%nat at 1 by lia.
  rewrite load_bytes_app. f_equal.
  - etrans; [apply store_bytes_load|by apply map_u8_id].
    intros i j Hi Hj. apply Hinj; lia.
  - replace n with (length l + (n - length l))%nat at 2 by lia. rewrite load_bytes_app.
    rewrite drop_app_length' by (by rewrite load_bytes_length).
    apply load_bytes_ext. intros i Hi. apply store_bytes_outside. intros j Hj Hc.
    rewrite <-Z.add_assoc in Hc. apply Hinj in Hc; lia.
Qed.

(** The bytes the caller of a read gets. *)
Definition delivered (n : Z) (l : list Z) : list Z := take (Z.to_nat n) (take 127 l) ++ [10].

Definition read_length (n : Z) (l : list Z) : Z :=
  if n <? Z.of_nat (length (take 127 l)) then n else Z.of_nat (length (take 127 l)) + 1.

Lemma delivered_length n l : (length (delivered n l) <= 128)%nat.
Proof. unfold delivered. rewrite length_app, !length_take. cbn [length]. lia. Qed.

Lemma put_delivered m buf (c : nat) tb :
  kernel_mapped m -> (c <= 127)%nat -> 0 <= tb <= 128 ->
  inj_on m buf 129 -> apart m buf 129 tbuffer_at 129 ->
  (forall i, (i < c)%nat -> tb <> Z.of_nat i) ->
  let m0 := store_bytes m buf (replicate 129 0) in
  let m1 := st m0 (tbuffer_at + tb) 10 in
  let m2 := for_range 0 (Z.of_nat c) (fun i m => st m (buf + i) (ld m (tbuffer_at + i))) m1 in
  let m3 := st m2 (buf + Z.of_nat c) 10 in
  ram_only m m3 /\
  load_bytes m3 buf 129 = load_bytes m tbuffer_at c ++ [10] ++ replicate (128 - c) 0 /\
  (forall a, outside m buf 129 a -> cell m (tbuffer_at + tb) <> cell m a -> ld m3 a = ld m a).
Proof.
  intros Hm Hc Htb Hinj Hap Hne m0 m1 m2 m3.
  pose proof (store_ram_only m buf (replicate 129 0)) as Hr0.
  assert (ram_only m m1) as Hr1 by (by apply ram_only_st).
  destruct (ram_only_fields _ _ Hr1) as (Hs1 & _).
  assert (inj_on m1 buf 129) as Hinj1.
  { intros i j Hi Hj. rewrite !(same_paging_cell m) by done. by apply Hinj. }
  assert (apart m1 buf 129 tbuffer_at 129) as Hap1.
  { intros j Hj i Hi. rewrite !(same_paging_cell m) by done. by apply Hap. }
  assert (m2 = store_bytes m1 buf (load_bytes m1 tbuffer_at c)) as Em2.
  { unfold m2. rewrite copy_loop; [done|]. intros j Hj i Hi. apply Hap1; lia. }
  assert (load_bytes m1 tbuffer_at c = load_bytes m tbuffer_at c) as El.
  { apply load_bytes_ext. intros i Hi. unfold m1. rewrite ld_st_other.
    - apply store_bytes_outside. intros j Hj. rewrite length_replicate in Hj. apply Hap; lia.
    - unfold m0. rewrite !cell_store_bytes. pose proof tbuffer_place. intros Hcell.
      rewrite !cell_kernel in Hcell by (done || unfold KERNEL; lia).
      apply (Hne (Z.to_nat i)); lia. }
  assert (m3 = store_bytes m1 buf (load_bytes m tbuffer_at c ++ [10])) as Em3.
  { unfold m3. rewrite Em2, El, store_bytes_app, load_bytes_length. done. }
  clearbody m3. rewrite Em3. split; [|split].
  - eapply ram_only_trans; [exact Hr1|apply store_ram_only].
  - assert (length (load_bytes m tbuffer_at c ++ [10]) = S c) as Hlen
      by (rewrite length_app, load_bytes_length; simpl; lia).
    rewrite load_store_prefix; [|done|lia|].
    + rewrite Hlen, <-app_assoc. f_equal. cbn [app]. f_equal.
      assert (load_bytes m1 buf 129 = replicate 129 0) as ->.
      { etrans; [|transitivity (load_bytes m0 buf 129); [|]].
        - apply load_bytes_ext. intros i Hi. unfold m1. apply ld_st_other.
          unfold m0. rewrite !cell_store_bytes. intros Hcell. symmetry in Hcell. revert Hcell. apply Hap; lia.
        - reflexivity.
        - pose proof (store_bytes_load m buf (replicate 129 0)) as Hz. rewrite length_replicate in Hz.
          etrans; [by apply Hz|]. apply map_u8_id. apply Forall_replicate. lia. }
      by rewrite drop_replicate.
    + apply Forall_app. split; [apply load_bytes_range|]. constructor; [lia|constructor].
  - intros a Ha Htba. rewrite store_bytes_outside.
    + unfold m1. rewrite ld_st_other by (unfold m0; by rewrite !cell_store_bytes).
      apply store_bytes_outside. rewrite length_replicate. exact Ha.
    + intros i Hi. rewrite !(same_paging_cell m) by done. apply Ha.
      rewrite length_app, load_bytes_length in Hi. simpl in Hi. lia.
Qed.

Lemma load_bytes_take m a (n c : nat) :
  (c <= n)%nat -> load_bytes m a c = take c (load_bytes m a n).
Proof.
  intros Hc. replace n with (c + (n - c))%nat by lia. rewrite load_bytes_app.
  by rewrite take_app_length' by (by rewrite load_bytes_length).
Qed.

(** The machine [copy_line] leaves, in its two cases for [tb] and its two for [c]. *)
Definition put_line m (buf tb c : Z) : machine :=
  let m0 := for_range 0 129 (fun i m => st m (buf + i) 0) m in
  let m1 := st m0 (tbuffer_at + tb) 10 in
  st (for_range 0 c (fun i m => st m (buf + i) (ld m (tbuffer_at + i))) m1) (buf + c) 10.

Lemma copy_line_eq buf n k :
  0 <= tbuf (con k) <= 128 ->
  let T := Z.min 127 (tbuf (con k)) in
  let c := if n <? T then n else T in
  exists s, copy_line buf n k
    = (if n <? T then n else T + 1, set_kmach (set_con k s) (put_line (kmach k) buf (tbuf (con k)) c)) /\
    screen_x s = screen_x (con k) /\ screen_y s = screen_y (con k) /\ tflag s = tflag (con k) /\ 0 <= tbuf s < 128.
Proof.
  intros Ht T c. unfold copy_line, put_line. generalize (for_range 0 129 (fun i m => st m (buf + i) 0) (kmach k)).
  intros m0. cbv zeta. change (con (set_kmach k m0)) with (set_mach (con k) m0).
  cbn [tbuf set_mach]. unfold c. destruct (Z.ltb_spec (tbuf (con k)) 128) as [Hlt|Hge].
  - exists (set_mach (con k) m0). change (tbuf (con (set_kmach (set_kmach k m0) ?m))) with (tbuf (con k)).
    assert (T = tbuf (con k)) as -> by lia. split; [by destruct (n <? tbuf (con k))|].
    cbn [screen_x screen_y tflag tbuf set_mach]. split_and!; done || lia.
  - exists (set_tbuf (con k) 127). assert (T = 127) as -> by lia.
    assert (tbuf (con k) = 128) as -> by lia. cbn [con set_con tbuf set_tbuf set_kmach].
    split; [by destruct (n <? 127)|]. cbn [screen_x screen_y tflag tbuf set_tbuf]. split_and!; done || lia.
Qed.

Lemma delivered_bytes (n : Z) (c : nat) k :
  0 <= tbuf (con k) <= 128 -> 0 <= n -> Z.of_nat c = Z.min n (Z.min 127 (tbuf (con k))) ->
  delivered n (line (con k)) = load_bytes (kmach k) tbuffer_at c ++ [10].
Proof.
  intros Ht Hn Hc. unfold delivered. f_equal.
  rewrite (load_bytes_take _ _ (Z.to_nat (tbuf (con k))) c) by lia.
  change (load_bytes (kmach k) tbuffer_at (Z.to_nat (tbuf (con k)))) with (line (con k)).
  assert (length (line (con k)) = Z.to_nat (tbuf (con k))) as Hl by apply load_bytes_length.
  rewrite take_take. apply take_same. rewrite Hl. lia.
Qed.

Lemma copy_line_spec buf n k :
  con_ok (con k) -> 0 <= n -> inj_on (kmach k) buf 129 -> apart (kmach k) buf 129 tbuffer_at 129 ->
  exists k', copy_line buf n k = (read_length n (line (con k)), k') /\
    load_bytes (kmach k') buf 129
    = delivered n (line (con k)) ++ replicate (129 - length (delivered n (line (con k)))) 0 /\
    ram_only (kmach k) (kmach k') /\ same_rest k k' /\
    (forall a, outside (kmach k) buf 129 a -> cell (kmach k) (tbuffer_at + tbuf (con k)) <> cell (kmach k) a ->
       ld (kmach k') a = ld (kmach k) a) /\
    screen_x (con k') = screen_x (con k) /\ screen_y (con k') = screen_y (con k) /\
    tflag (con k') = tflag (con k) /\ 0 <= tbuf (con k') < 128.
Proof.
  intros Hok Hn Hinj Hap. pose proof (ok_mapped _ Hok) as Hm. pose proof (ok_tbuf _ Hok) as Ht.
  destruct (copy_line_eq buf n k Ht) as (s & Heq & Hs). cbv zeta in Heq.
  set (T := Z.min 127 (tbuf (con k))) in *. set (c := if n <? T then n else T) in *.
  assert (c = Z.min n T) as Hc by (unfold c; destruct (Z.ltb_spec n T); lia).
  assert (Z.of_nat (length (take 127 (line (con k)))) = T) as HT.
  { rewrite length_take. unfold line. rewrite load_bytes_length. lia. }
  assert (c = Z.of_nat (Z.to_nat c)) as Ec by lia.
  assert ((Z.to_nat c <= 127)%nat) as Hc127 by lia.
  destruct (put_delivered (kmach k) buf (Z.to_nat c) (tbuf (con k)) Hm Hc127 Ht Hinj Hap) as (Hr & Hb & Hout); [lia|].
  rewrite <-Ec in Hr, Hb, Hout.
  pose proof (zero_loop (kmach k) buf 129) as Hz. change (Z.of_nat 129) with 129 in Hz.
  rewrite <-Hz in Hr, Hb, Hout.
  pose proof (delivered_bytes n (Z.to_nat c) k Ht Hn ltac:(lia)) as Hd.
  exists (set_kmach (set_con k s) (put_line (kmach k) buf (tbuf (con k)) c)). split_and!.
  - rewrite Heq. unfold read_length. by rewrite HT.
  - rewrite Hd, length_app, load_bytes_length, <-app_assoc. rewrite kmach_set_kmach.
    replace (129 - (Z.to_nat c + length [10%Z]))%nat with (128 - Z.to_nat c)%nat by (simpl; lia).
    exact Hb.
  - exact Hr.
  - by split_and!.
  - exact Hout.
  - apply Hs.
  - apply Hs.
  - apply Hs.
  - apply Hs.
  - apply Hs.
Qed.

End copy_facts.

(** ** Typing a line *)

Section typing_facts.
Context {L : Layout} {LOK : LayoutOk} {D : Device} {FR : Frames}.
Implicit Types (m : machine) (k : kernel).

(** [l] was typed since [k0], [r] is the number of scancodes read so far. *)
Record typing k0 (l : list Z) (r : nat) k : Prop := {
  ty_con : con_ok (con k);
  ty_line : line (con k) = take 128 l;
  ty_tflag : tflag (con k) = 1;
  ty_keys : kkeys k = kkeys k0;
  ty_reads : key_reads (trace (kmach k)) = r;
  ty_touches : touches console_bytes (kmach k0) (kmach k);
  ty_rest : same_rest k0 k;
  ty_echo : inside (con k0) -> inside (con k) /\
    ((length l <= 128)%nat -> on_screen (con k) = tty_print l (on_screen (con k0)));
}.

(** The line is ended. *)
Record entered k0 (l : list Z) k : Prop := {
  et_con : con_ok (con k);
  et_line : line (con k) = take 128 l;
  et_tflag : tflag (con k) = 0;
  et_touches : touches console_bytes (kmach k0) (kmach k);
  et_rest : same_rest k0 k;
  et_echo : inside (con k0) -> inside (con k) /\
    ((length l <= 128)%nat -> on_screen (con k) = tty_print (l ++ [10]) (on_screen (con k0)));
}.

(** A change of the machine that reads [d] scancodes and leaves memory alone. *)
Definition quiet (d : nat) m m' : Prop :=
  same_paging m m' /\ ram m' = ram m /\ key_reads (trace m') = (key_reads (trace m) + d)%nat.

Lemma key_reads_app tr tr' : key_reads (tr ++ tr') = (key_reads tr + key_reads tr')%nat.
Proof. unfold key_reads. by rewrite List.filter_app, length_app. Qed.

Lemma quiet_trans d d' m1 m2 m3 : quiet d m1 m2 -> quiet d' m2 m3 -> quiet (d + d') m1 m3.
Proof.
  intros ((A1 & A2 & A3 & A4) & A5 & A6) ((B1 & B2 & B3 & B4) & B5 & B6).
  split; [unfold same_paging; split_and!; congruence|]. split; [congruence|]. lia.
Qed.

Lemma quiet_outb m data port : quiet 0 m (outb data port m).
Proof.
  split; [by split_and!|]. split; [done|]. unfold outb. cbn [trace set_trace].
  rewrite key_reads_app. by rewrite !Nat.add_0_r.
Qed.

Lemma quiet_inb m port :
  quiet (if u16 port =? keyboard_port then 1 else 0) m (snd (inb port m)).
Proof.
  split; [by split_and!|]. split; [done|]. unfold inb. cbn [snd trace set_trace].
  rewrite key_reads_app. f_equal. unfold key_reads. cbn [List.filter key_read].
  by destruct (u16 port =? keyboard_port).
Qed.

Lemma quiet_set_if m f : quiet 0 m (set_if m f).
Proof. split; [by split_and!|]. split; [done|]. by rewrite Nat.add_0_r. Qed.

Lemma quiet_send_eoi i m : quiet 0 m (I8259.send_eoi i m).
Proof.
  unfold I8259.send_eoi. destruct (i <? I8259.SLAVE_IRQ_OFF); [apply quiet_outb|].
  destruct (i <? 16); [|split; [by split_and!|]; split; [done|by rewrite Nat.add_0_r]].
  change 0%nat with (0 + 0)%nat. eapply quiet_trans; apply quiet_outb.
Qed.

Lemma quiet_touches d m m' : quiet d m m' -> touches console_bytes m m'.
Proof.
  intros (Hs & Hr & _). split; [done|]. intros a _.
  pose proof (same_paging_cell m m' a Hs) as Hc. unfold ld, cell, machine_mem in *. by rewrite Hr, Hc.
Qed.

Lemma quiet_line d m' s : quiet d (mach s) m' -> line (set_mach s m') = line s.
Proof.
  intros (Hs & Hr & _). unfold line. cbn [mach set_mach tbuf]. apply load_bytes_ext. intros i Hi.
  pose proof (same_paging_cell (mach s) m' (tbuffer_at + i) Hs) as Hc.
  unfold ld, cell, machine_mem in *. by rewrite Hr, Hc.
Qed.

Lemma quiet_inside d m' s :
  quiet d (mach s) m' -> inside s -> inside (set_mach s m') /\ on_screen (set_mach s m') = on_screen s.
Proof.
  intros (Hs & Hr & _) [Hm Hx Hy]. split; [split; try done; by apply (same_paging_mapped (mach s))|].
  unfold on_screen. f_equal. apply screen_same. intros a _.
  pose proof (same_paging_cell (mach s) m' a Hs) as Hc. unfold ld, cell, machine_mem in *. by rewrite Hr, Hc.
Qed.

Lemma quiet_con_ok d m' s : quiet d (mach s) m' -> con_ok s -> con_ok (set_mach s m').
Proof. intros (Hs & _ & _) [Hm Hx Hy Hc Ht]. split; try done. by apply (same_paging_mapped (mach s)). Qed.

Lemma typing_quiet d k0 l r k m' :
  typing k0 l r k -> quiet d (kmach k) m' -> typing k0 l (r + d) (set_kmach k m').
Proof.
  intros [Hc Hl Hf Hk Hr Ht Hrest Hecho] Hq.
  split; [by eapply quiet_con_ok| |done|done| | |exact Hrest|].
  - rewrite <-Hl. by eapply quiet_line.
  - rewrite kmach_set_kmach. destruct Hq as (_ & _ & ->). by rewrite Hr.
  - rewrite kmach_set_kmach. eapply touches_trans; [done|by eapply quiet_touches].
  - intros H0. destruct (Hecho H0) as [Hin He]. destruct (quiet_inside d m' (con k) Hq Hin) as [Hin' Hsc].
    split; [exact Hin'|]. intros Hlen. rewrite <-He by done. exact Hsc.
Qed.

Lemma typing_tbuf k0 l r k : typing k0 l r k -> tbuf (con k) = Z.of_nat (length (take 128 l)).
Proof.
  intros [Hc Hl _ _ _ _ _ _]. rewrite <-Hl. unfold line. rewrite load_bytes_length.
  pose proof (ok_tbuf _ Hc). lia.
Qed.

Lemma set_con_same k : set_con k (con k) = k.
Proof. by destruct k. Qed.

(** A typed character goes into the line until it is full. *)
Lemma typing_putc k0 l r k c :
  typing k0 l r k -> plain c -> typing k0 (l ++ [c]) r (set_con k (putc c (con k))).
Proof.
  intros Ht Hp. pose proof (typing_tbuf _ _ _ _ Ht) as Hb. destruct Ht as [Hc Hl Hf Hk Hr Hto Hrest Hecho].
  destruct (putc_plain_ok (con k) c Hc Hp) as [Hc' Hto'].
  pose proof Hc as [Hm Hx Hy Hcu Htb].
  assert (inside (con k) -> 0 <= tbuf (con k) < 128 -> inside (putc c (con k)) /\
    on_screen (putc c (con k)) = tty_char (on_screen (con k)) c) as Hput.
  { intros Hin Htb'. destruct (putc_tty (con k) c Hin Htb') as (K1 & K2 & _); [|by split].
    destruct Hp as (Hp1 & Hp2 & _). by split. }
  unfold putc in *. rewrite u8_small in * by apply Hp.
  destruct (decide (tbuf (con k) = 128)) as [E|E].
  - rewrite putc_rec_full in * by done. rewrite set_con_same. rewrite length_take in Hb.
    split; try done.
    + rewrite Hl. rewrite take_app_le; [done|]. lia.
    + intros H0. split; [by apply Hecho|]. rewrite length_app. cbn [length]. lia.
  - destruct (putc_rec_plain 1 c (con k) Hm Hp) as (_ & Hl' & _ & Hf' & _ & _ & _ & Htr); try done; [lia|].
    assert ((length l < 128)%nat) as Hlen by (rewrite length_take in Hb; lia).
    split; cbn [con set_con kkeys]; try done.
    + rewrite Hl', Hf, Hl. cbn [truth]. rewrite !take_ge by (rewrite ?length_app; cbn [length]; lia). done.
    + by rewrite Hf'.
    + change (kmach (set_con k ?s)) with (mach s). rewrite Htr, key_reads_app.
      change (key_reads (cursor_regs ?a ?b)) with 0%nat. rewrite Nat.add_0_r. exact Hr.
    + eapply touches_trans; [exact Hto|exact Hto'].
    + intros H0. destruct (Hecho H0) as [Hin He]. destruct (Hput Hin ltac:(lia)) as [K1 K2].
      split; [exact K1|]. intros _. rewrite K2, He by lia. unfold tty_print. by rewrite fold_left_app.
Qed.

Lemma typing_enter k0 l r k :
  typing k0 l r k -> entered k0 l (set_con k (putc 10 (con k))).
Proof.
  intros [Hc Hl Hf Hk Hr Hto Hrest Hecho].
  destruct (putc_newline (con k) 10 Hc (or_introl eq_refl)) as (Hs & Hl' & _ & Hf' & Hc' & Ht' & _).
  split; cbn [con set_con]; [done|by rewrite Hl'|done| |exact Hrest|].
  - eapply touches_trans; [exact Hto|exact Ht'].
  - intros H0. destruct (Hecho H0) as [[Im Ix Iy] He]. split.
    + destruct Hc' as [Cm _ Cy _ _].
      split; [exact Cm|rewrite (newline_x _ 10 Im Iy (or_introl eq_refl)); lia|exact Cy].
    + intros Hlen. rewrite tty_print_app, <-He by done.
      rewrite <-(row_of_cursor (con k) Ix) in Hs. exact Hs.
Qed.

Lemma entered_set_if k0 l k f :
  entered k0 l k -> entered k0 l (set_kmach k (set_if (kmach k) f)).
Proof.
  intros [Hc Hl Hf Ht Hrest Hecho]. pose proof (quiet_set_if (kmach k) f) as Hq.
  split; [by eapply quiet_con_ok| |done| |exact Hrest|].
  - rewrite <-Hl. by eapply quiet_line.
  - rewrite kmach_set_kmach. eapply touches_trans; [done|by eapply quiet_touches].
  - intros H0. destruct (Hecho H0) as [Hin He]. destruct (quiet_inside 0 _ (con k) Hq Hin) as [Hin' Hsc].
    split; [exact Hin'|]. intros Hlen. rewrite <-He by done. exact Hsc.
Qed.

End typing_facts.

(** ** Waiting for the line *)

Section waiting_facts.
Context {L : Layout} {LOK : LayoutOk} {D : Device} {FR : Frames}.
Context (zs : list Z) {TY : Types zs}.
Implicit Types (m : machine) (k : kernel).

Definition kb (i : irq) : bool := match i with irq_keyboard => true | _ => false end.

(** The characters of [keys] under the flags of [k]. *)
Definition typed k (keys : list Z) : list Z :=
  map (key_spec (truth (shift_flag (kkeys k))) (truth (caps_lock (kkeys k)))) keys.

Definition typeable k (z : Z) : Prop :=
  char_key z = true /\ plain (key_spec (truth (shift_flag (kkeys k))) (truth (caps_lock (kkeys k))) z).

(** The next scancode is at the head of what is left. *)
Lemma next_key k r z more :
  key_reads (trace (kmach k)) = r -> drop r zs = z :: more ->
  dev_in (trace (kmach k)) keyboard_port = z /\ drop (S r) zs = more.
Proof.
  intros Hr Hd. rewrite types, Hr. split.
  - rewrite <-(take_drop r zs), Hd. rewrite app_nth2; rewrite length_take;
      (assert (r < length zs)%nat by (apply (f_equal length) in Hd; rewrite length_drop in Hd; simpl in Hd; lia));
      rewrite Nat.min_l by lia; [|lia]. by rewrite Nat.sub_diag.
  - replace (S r) with (r + 1)%nat by lia. by rewrite <-drop_drop, Hd.
Qed.

Lemma quiet_acknowledged k : quiet 1 (kmach k) (kmach (acknowledged k)).
Proof.
  change 1%nat with (1 + 0)%nat. eapply quiet_trans; [apply (quiet_inb (kmach k) keyboard_port)|].
  apply quiet_send_eoi.
Qed.

Lemma keyboard_char base k z c :
  dev_in (trace (kmach k)) keyboard_port = z -> char_key z = true -> truth (ctrl_flag (kkeys k)) = false ->
  c = key_spec (truth (shift_flag (kkeys k))) (truth (caps_lock (kkeys k))) z ->
  keyboard_handler base k = Ret tt (set_con (acknowledged k) (putc c (con (acknowledged k)))).
Proof.
  intros Hz Hc Hctrl ->. pose proof (char_key_range z Hc) as Hr.
  rewrite keyboard_handler_eq. unfold inb. cbn [fst]. change (u16 keyboard_port) with keyboard_port.
  rewrite Hz, u8_small by lia. assert (s8 z = z) as -> by (unfold s8; dlia). rewrite down_test by lia.
  pose proof Hc as Ha. unfold char_key in Ha. apply andb_prop in Ha as [-> _].
  rewrite key_down_char by (done || by left). by rewrite key_char_spec by lia.
Qed.

(** One interrupt while a line is being typed. *)
Lemma interrupt_key base k0 l r k z more :
  typing k0 l r k -> drop r zs = z :: more -> typeable k0 z -> truth (ctrl_flag (kkeys k0)) = false ->
  exists k', interrupt base irq_keyboard k = Ret tt k' /\ typing k0 (l ++ typed k0 [z]) (S r) k' /\
    if_flag (kmach k') = if_flag (kmach k).
Proof.
  intros Ht Hd [Hc Hp] Hctrl.
  pose proof (typing_quiet 0 _ _ _ _ _ Ht (quiet_set_if (kmach k) false)) as H1.
  rewrite Nat.add_0_r in H1. set (k1 := set_kmach k (set_if (kmach k) false)) in *.
  destruct (next_key k1 r z more (ty_reads _ _ _ _ H1) Hd) as [Hz _].
  pose proof (typing_quiet 1 _ _ _ _ _ H1 (quiet_acknowledged k1)) as H2.
  change (set_kmach k1 (kmach (acknowledged k1))) with (acknowledged k1) in H2.
  pose proof (typing_putc _ _ _ _ _ H2 Hp) as H3.
  set (k3 := set_con (acknowledged k1) _) in H3.
  pose proof (typing_quiet 0 _ _ _ _ _ H3 (quiet_set_if (kmach k3) (if_flag (kmach k)))) as H4.
  eexists. split; [|split; [replace (S r) with (r + 1 + 0)%nat by lia; exact H4|done]].
  unfold interrupt, handler. erewrite c_bind_ret by reflexivity. erewrite c_bind_ret by reflexivity.
  erewrite c_bind_ret; [reflexivity|]. apply (keyboard_char base k1 z); [done|done| |].
  - by rewrite (ty_keys _ _ _ _ H1).
  - by rewrite (ty_keys _ _ _ _ H1).
Qed.

Lemma interrupt_enter base k0 l r k more :
  typing k0 l r k -> drop r zs = 28 :: more -> truth (ctrl_flag (kkeys k0)) = false ->
  exists k', interrupt base irq_keyboard k = Ret tt k' /\ entered k0 l k' /\
    if_flag (kmach k') = if_flag (kmach k).
Proof.
  intros Ht Hd Hctrl.
  pose proof (typing_quiet 0 _ _ _ _ _ Ht (quiet_set_if (kmach k) false)) as H1.
  rewrite Nat.add_0_r in H1. set (k1 := set_kmach k (set_if (kmach k) false)) in *.
  destruct (next_key k1 r 28 more (ty_reads _ _ _ _ H1) Hd) as [Hz _].
  pose proof (typing_quiet 1 _ _ _ _ _ H1 (quiet_acknowledged k1)) as H2.
  change (set_kmach k1 (kmach (acknowledged k1))) with (acknowledged k1) in H2.
  pose proof (typing_enter _ _ _ _ H2) as H3.
  eexists. split; [|split; [exact (entered_set_if _ _ _ (if_flag (kmach k)) H3)|done]].
  unfold interrupt, handler. erewrite c_bind_ret by reflexivity. erewrite c_bind_ret by reflexivity.
  erewrite c_bind_ret; [reflexivity|]. apply (keyboard_char base k1 28); [done|reflexivity| |].
  - by rewrite (ty_keys _ _ _ _ H1).
  - by destruct (truth (shift_flag _)), (truth (caps_lock _)).
Qed.

Lemma interrupt_other base k0 l r k i :
  typing k0 l r k -> kb i = false ->
  exists k', interrupt base i k = Ret tt k' /\ typing k0 l r k' /\ if_flag (kmach k') = if_flag (kmach k).
Proof.
  intros Ht Hi. unfold interrupt.
  assert (exists m' k2, handler base i (set_kmach k (cli (kmach k))) = Ret tt k2 /\
    quiet 0 (kmach k) m' /\ con k2 = set_mach (con k) m' /\ kkeys k2 = kkeys k /\ same_rest k k2)
    as (m' & k2 & Hh & Hq & Ec & Ek & Er).
  { destruct i; [|done|]; (eexists _, _; split; [reflexivity|]; split; [|split; [reflexivity|split; [reflexivity|by split]]]).
    - change 0%nat with (0 + 0)%nat. eapply quiet_trans; [apply quiet_set_if|apply quiet_send_eoi].
    - change 0%nat with (0 + (0 + (0 + 0)))%nat. eapply quiet_trans; [apply quiet_set_if|].
      eapply quiet_trans; [apply quiet_outb|]. eapply quiet_trans; [apply (quiet_inb _ Rtc.CMOS_PORT)|].
      apply quiet_send_eoi. }
  exists (set_kmach k2 (set_if (kmach k2) (if_flag (kmach k)))).
  split; [|split; [|done]].
  - erewrite c_bind_ret by reflexivity. erewrite c_bind_ret by reflexivity. by rewrite (c_bind_ret _ _ _ _ _ Hh).
  - pose proof (typing_quiet 0 _ _ _ _ _ Ht Hq) as H1. rewrite Nat.add_0_r in H1.
    pose proof (typing_quiet 0 _ _ _ _ _ H1 (quiet_set_if m' (if_flag (kmach k)))) as H2.
    rewrite Nat.add_0_r in H2. destruct H2 as [C1 C2 C3 C4 C5 C6 C7 C8].
    assert (kmach k2 = m') as Em by (unfold kmach; by rewrite Ec).
    split; cbn [con set_kmach set_con kkeys kmach] in *; rewrite ?Ec, ?Em, ?Ek; try done.
    destruct C7 as (S1 & S2 & S3 & S4), Er as (R1 & R2 & R3 & R4). unfold same_rest in *.
    cbn [kfiles ksched kprocs FSYSTEM set_kmach set_con] in *. by rewrite R1, R2, R3, R4.
Qed.

(** The wait, over any mixture of interrupts with the right keys. *)
Lemma wait_typing base pre rest keys more k0 l r k :
  typing k0 l r k -> if_flag (kmach k) = true -> truth (ctrl_flag (kkeys k0)) = false ->
  drop r zs = keys ++ 28 :: more -> Forall (typeable k0) keys ->
  length (List.filter kb pre) = length keys ->
  exists k', wait_while base (fun k => Some (truth (tflag (con k)))) (pre ++ irq_keyboard :: rest) k = Ret rest k' /\
    entered k0 (l ++ typed k0 keys) k'.
Proof.
  revert keys l r k. induction pre as [|i pre IH]; intros keys l r k Ht Hif Hctrl Hd Hkeys Hcount.
  - destruct keys; [|done]. cbn [app] in *. rewrite app_nil_r.
    destruct (interrupt_enter base _ _ _ _ _ Ht Hd Hctrl) as (k' & Hi & He & _). exists k'. split; [|done].
    cbn [wait_while]. unfold c_bind at 1, c_some. rewrite (ty_tflag _ _ _ _ Ht). cbn [truth Z.eqb negb].
    erewrite c_bind_ret by reflexivity. rewrite Hif. cbn [negb]. rewrite (c_bind_ret _ _ _ _ _ Hi).
    destruct rest; cbn [wait_while]; unfold c_bind at 1, c_some; by rewrite (et_tflag _ _ _ He).
  - assert (forall k1 keys1 l1 r1, interrupt base i k = Ret tt k1 -> typing k0 l1 r1 k1 ->
      if_flag (kmach k1) = if_flag (kmach k) -> drop r1 zs = keys1 ++ 28 :: more -> Forall (typeable k0) keys1 ->
      length (List.filter kb pre) = length keys1 ->
      exists k', wait_while base (fun k => Some (truth (tflag (con k)))) (i :: pre ++ irq_keyboard :: rest) k = Ret rest k' /\
        entered k0 (l1 ++ typed k0 keys1) k') as Hnext.
    { intros k1 keys1 l1 r1 Hi Ht1 Hif1 Hd1 Hk1 Hc1.
      destruct (IH keys1 l1 r1 k1) as (k' & Hw & He); try done; [by rewrite Hif1|]. exists k'. split; [|done].
      cbn [wait_while]. unfold c_bind at 1, c_some. rewrite (ty_tflag _ _ _ _ Ht). cbn [truth Z.eqb negb].
      erewrite c_bind_ret by reflexivity. rewrite Hif. cbn [negb]. by rewrite (c_bind_ret _ _ _ _ _ Hi). }
    cbn [app]. destruct (kb i) eqn:Ei.
    + destruct i; try done. cbn [List.filter kb length] in Hcount. destruct keys as [|z keys]; [done|].
      inversion Hkeys as [|? ? Hz Hkeys']; subst.
      destruct (interrupt_key base _ _ _ _ z (keys ++ 28 :: more) Ht Hd Hz Hctrl) as (k1 & Hi & Ht1 & Hif1).
      destruct (next_key k r z (keys ++ 28 :: more) (ty_reads _ _ _ _ Ht) Hd) as [_ Hd1].
      destruct (Hnext k1 keys _ _ Hi Ht1 Hif1 Hd1 Hkeys') as (k' & Hw & He); [simpl in Hcount; lia|].
      exists k'. split; [done|]. by rewrite <-app_assoc in He.
    + destruct (interrupt_other base _ _ _ _ i Ht Ei) as (k1 & Hi & Ht1 & Hif1).
      apply (Hnext k1 keys l r); try done. simpl in Hcount. by rewrite Ei in Hcount.
Qed.

(** What a read of the line [l] leaves. *)
Record line_read k (l : list Z) (buf n : Z) k' : Prop := {
  lr_bytes : load_bytes (kmach k') buf 129 = delivered n l ++ replicate (129 - length (delivered n l)) 0;
  lr_paging : same_paging (kmach k) (kmach k');
  lr_rest : same_rest k k';
  lr_same : forall a, outside (kmach k) buf 129 a -> ~ console_bytes (cell (kmach k) a) ->
    cell (kmach k) a <> tbuffer_at + 128 -> ld (kmach k') a = ld (kmach k) a;
  lr_tflag : tflag (con k') = 0;
  lr_tbuf : 0 <= tbuf (con k') < 128;
  lr_echo : inside (con k) -> steady (kmach k) buf 129 -> inside (con k') /\
    ((length l <= 128)%nat -> on_screen (con k') = tty_print (l ++ [10]) (on_screen (con k)));
}.

Lemma copied_line k l k1 buf n k2 :
  entered (set_con k (set_tflag (set_tbuf (con k) 0) 1)) l k1 ->
  inj_on (kmach k) buf 129 -> apart (kmach k) buf 129 tbuffer_at 129 -> 0 <= n ->
  copy_line buf n k1 = (read_length n (line (con k1)), k2) -> line_read k l buf n k2.
Proof.
  intros [Hc Hl Hf Ht Hrest Hecho] Hinj Hap Hn Hcopy.
  change (kmach (set_con k (set_tflag (set_tbuf (con k) 0) 1))) with (kmach k) in Ht.
  assert (same_paging (kmach k) (kmach k1)) as Hs by apply Ht.
  assert (forall a, cell (kmach k1) a = cell (kmach k) a) as Hcell by (intros a; by apply same_paging_cell).
  destruct (copy_line_spec buf n k1 Hc Hn) as (k2' & Hcopy' & Hb & Hram & Hrest2 & Hout & Hx & Hy & Hfl & Htb).
  { intros i j Hi Hj. rewrite !Hcell. by apply Hinj. }
  { intros j Hj i Hi. rewrite !Hcell. by apply Hap. }
  rewrite Hcopy in Hcopy'. injection Hcopy' as <-. destruct (ram_only_fields _ _ Hram) as (Hs2 & _).
  pose proof (ok_tbuf _ Hc) as Htb1. pose proof (ok_mapped _ Hc) as Hm1. pose proof tbuffer_place as Htp.
  assert (cell (kmach k1) (tbuffer_at + tbuf (con k1)) = tbuffer_at + tbuf (con k1)) as Etb
    by (apply cell_kernel; [done|unfold KERNEL; lia]).
  split; [| | | |by rewrite Hfl|done|].
  - assert (delivered n (line (con k1)) = delivered n l) as <-; [|exact Hb].
    rewrite Hl. unfold delivered. by rewrite (take_take l 127 128).
  - destruct Hs as (A1 & A2 & A3 & A4), Hs2 as (B1 & B2 & B3 & B4).
    unfold same_paging. by rewrite B1, B2, B3, B4.
  - destruct Hrest as (R1 & R2 & R3 & R4), Hrest2 as (S1 & S2 & S3 & S4).
    unfold same_rest. by rewrite S1, S2, S3, S4.
  - intros a Ha Hca Hne. rewrite Hout.
    + by apply Ht.
    + intros i Hi. rewrite !Hcell. by apply Ha.
    + rewrite Etb, Hcell. intros E. destruct (decide (tbuf (con k1) = 128)) as [E128|].
      * apply Hne. by rewrite <-E, E128.
      * apply Hca. right. lia.
  - intros Hin Hst. destruct Hecho as [Hin1 He]; [by destruct Hin|]. destruct Hin1 as [Im Ix Iy].
    assert (Console.screen (con k2) = Console.screen (con k1)) as Hscr.
    { unfold Console.screen. apply map_ext_in. intros x Hxx%list_elem_of_In%elem_of_seqZ.
      assert (cell (kmach k1) (VIDEO + 2 * x) = VIDEO + 2 * x) as Ev by (apply (cell_video (kmach k1) _); [done|lia]).
      change (mach (con k2)) with (kmach k2). rewrite Hout; [done| |].
      - intros i Hi. rewrite Ev, Hcell. intros E. apply (Hst i ltac:(lia)). rewrite E. left. lia.
      - rewrite Etb, Ev. unfold VIDEO. lia. }
    split; [split|].
    + by apply (same_paging_mapped (kmach k1)).
    + by rewrite Hx.
    + by rewrite Hy.
    + intros Hlen. unfold on_screen, cursor at 1. rewrite Hscr, Hx, Hy. exact (He Hlen).
Qed.

(** [terminal_read], from the first key to the caller's buffer. *)
Lemma terminal_read_line base pre rest keys more fd buf n k :
  con_ok (con k) -> if_flag (kmach k) = true -> truth (ctrl_flag (kkeys k)) = false ->
  drop (key_reads (trace (kmach k))) zs = keys ++ 28 :: more -> Forall (typeable k) keys ->
  length (List.filter kb pre) = length keys ->
  0 <= n -> inj_on (kmach k) buf 129 -> apart (kmach k) buf 129 tbuffer_at 129 ->
  exists k', terminal_read base (pre ++ irq_keyboard :: rest) fd buf n k
    = Ret (read_length n (typed k keys), rest) k' /\ line_read k (typed k keys) buf n k'.
Proof.
  intros Hc Hif Hctrl Hd Hkeys Hcount Hn Hinj Hap.
  set (k0 := set_con k (set_tflag (set_tbuf (con k) 0) 1)).
  assert (typing k0 [] (key_reads (trace (kmach k))) k0) as Ht.
  { destruct Hc as [Hm Hx Hy Hcu Htb].
    split; [split; try done; simpl; lia|done|done|done|done|apply touches_refl|by split_and!|done]. }
  destruct (wait_typing base pre rest keys more k0 [] _ k0 Ht) as (k1 & Hw & He); try done.
  cbn [app] in He. change (typed k0 keys) with (typed k keys) in He.
  destruct (copy_line buf n k1) as [r k2] eqn:Hcopy.
  assert (r = read_length n (line (con k1))) as ->.
  { pose proof He as [Hc1 _ _ Ht1 _ _]. assert (same_paging (kmach k) (kmach k1)) as Hs by apply Ht1.
    destruct (copy_line_spec buf n k1 Hc1 Hn) as (k2' & Hcopy' & _); [| |congruence].
    - intros i j Hi Hj. rewrite !(same_paging_cell (kmach k) (kmach k1) _ Hs). by apply Hinj.
    - intros j Hj i Hi. rewrite !(same_paging_cell (kmach k) (kmach k1) _ Hs). by apply Hap. }
  exists k2. split; [|exact (copied_line k _ k1 buf n k2 He Hinj Hap Hn Hcopy)].
  assert (read_length n (line (con k1)) = read_length n (typed k keys)) as <-.
  { rewrite (et_line _ _ _ He). unfold read_length. by rewrite (take_take _ 127 128). }
  unfold terminal_read. erewrite c_bind_ret by reflexivity. rewrite (c_bind_ret _ _ _ _ _ Hw).
  unfold c_bind. by rewrite Hcopy.
Qed.

End waiting_facts.

Section output_facts.
Context {L : Layout} {LOK : LayoutOk}.
Implicit Type k : kernel.

(** What decides about the keys to come. *)
Definition same_input k k' : Prop :=
  kkeys k' = kkeys k /\ if_flag (kmach k') = if_flag (kmach k) /\
  key_reads (trace (kmach k')) = key_reads (trace (kmach k)).

Lemma same_input_trans k1 k2 k3 : same_input k1 k2 -> same_input k2 k3 -> same_input k1 k3.
Proof. intros (A1 & A2 & A3) (B1 & B2 & B3). unfold same_input. by rewrite B1, B2, B3. Qed.

(** Drawing takes no key and leaves the interrupt flag. *)
Lemma print_input lo hi f k :
  same_input k (set_con k (for_range lo hi (fun i s => putc (f i s) s) (con k))).
Proof.
  split; [done|]. refine (for_putc_closed (fun m =>
    if_flag m = if_flag (kmach k) /\ key_reads (trace m) = key_reads (trace (kmach k))) _ _ lo hi f (con k) _).
  - intros m m' Hr. by destruct (ram_only_fields _ _ Hr) as (_ & -> & -> & _).
  - intros m r c [H1 H2]. split; [exact H1|]. rewrite <-H2.
    destruct (quiet_trans 0 0 _ _ _ (quiet_outb m 14 0x3D4)
      (quiet_outb _ (Z.shiftr (u32 (c * 80 + r)) 8) 0x3D5)) as (_ & _ & E1).
    destruct (quiet_trans 0 0 _ _ _ (quiet_outb (outb (Z.shiftr (u32 (c * 80 + r)) 8) 0x3D5 (outb 14 0x3D4 m)) 15 0x3D4)
      (quiet_outb _ (u32 (c * 80 + r)) 0x3D5)) as (_ & _ & E2).
    unfold update_cursor. cbv zeta. rewrite E2, E1. lia.
  - by split.
Qed.

(** The program's terminal is the one on the screen. *)
Definition in_view k : Prop := not_in_view k = Some false.

Lemma wait_while_done `{Device} `{Frames} base test irqs k :
  test k = Some false -> wait_while base test irqs k = Ret irqs k.
Proof. intros Ht. destruct irqs; cbn [wait_while]; unfold c_bind at 1, c_some; by rewrite Ht. Qed.

Lemma terminal_write_prints `{Device} `{Frames} base irqs fd buf l k :
  in_view k -> at_ease (con k) ->
  bytes_at (kmach k) buf l -> steady (kmach k) buf (length l) -> Forall printable l ->
  exists s', terminal_write base irqs fd buf (Z.of_nat (length l)) k = Ret (0, irqs) (set_con k s') /\
    at_ease s' /\ on_screen s' = tty_print l (on_screen (con k)) /\
    touches console_bytes (kmach k) (mach s') /\ same_input k (set_con k s').
Proof.
  intros Hv He Hb Hst Hp. destruct (print_loop (con k) buf l He Hb Hst Hp) as (K1 & K2 & K3).
  eexists. split; [|split; [exact K1|split; [exact K2|split; [exact K3|by apply print_input]]]].
  unfold terminal_write. rewrite (c_bind_ret _ _ _ _ _ (wait_while_done base _ irqs k Hv)).
  reflexivity.
Qed.

End output_facts.

Section contract.
Context {L : Layout} {LOK : LayoutOk} {D : Device} {FR : Frames}.
Implicit Type k : kernel.


End contract.

(** *** Example: typing "hi" with a clock tick in between *)

#[local] Existing Instance demo_layout.
#[local] Existing Instance demo_layout_ok.
#[local] Existing Instance demo_frames_0.

Definition typist (zs : list Z) : Device := fun tr port =>
  if port =? keyboard_port then nth (key_reads tr) zs 0 else 0.

Lemma typist_types zs : @Types (typist zs) zs.
Proof. intros tr. reflexivity. Qed.

Definition hi_device : Device := typist [35; 23; 28].
#[local] Existing Instance hi_device.

Lemma sti_kernel_mapped m : kernel_mapped m -> kernel_mapped (sti m).
Proof. by intros []. Qed.

Lemma display_base_con_ok m : kernel_mapped m -> con_ok (con (display_base m)).
Proof. intros Hm. split; [exact Hm|simpl; lia|simpl; lia|unfold cursor; simpl; lia|simpl; lia]. Qed.

