(* ===== verification/Syscall.v ===== *)
(** * The system calls: read and write (syscall.c) and the dispatch (wrappers.S)

    [read] and [write] call the driver of the descriptor through its table;
    [syscall_link] takes the number in eax to the handler, which pushes ebx, ecx
    and edx. *)
From Stdlib Require Import ZArith Lia String.
From stdpp Require Import base list gmap numbers.
From S2P Require Import Prelude ByteMem LibString Machine Paging Devices Console Filesystem Kernel FileTable Process Scheduling Keyboard Terminal.

#[local] Open Scope c_scope.

Section syscall.
Context {L : Layout} {D : Device} {FR : Frames}.

(** A driver that does not wait leaves the interrupts to come alone. *)
Definition no_wait (irqs : list irq) (x : C Z) : C (Z * list irq) :=
  r <- x ;; c_ret (r, irqs).

(** [fotp.read(fdr, buf, nbytes)]: a function that is not a read is outside the
    model. *)
Definition call_read (base : Z) (irqs : list irq) (f : cfun) (fdr buf nbytes : Z) : C (Z * list irq) :=
  match f with
  | fn_terminal_read => terminal_read base irqs fdr buf nbytes
  | fn_terminal_invalid_read => no_wait irqs (c_ret (terminal_invalid_read fdr buf nbytes))
  | fn_rtc_read => rtc_read base irqs fdr buf nbytes
  | fn_file_read => no_wait irqs (file_read fdr buf nbytes)
  | fn_directory_read => no_wait irqs (directory_read fdr buf nbytes)
  | _ => c_undef
  end.

(** [fotp.write(inode, buf, nbytes)]: the first argument is the inode. *)
Definition call_write (base : Z) (irqs : list irq) (f : cfun) (inode buf nbytes : Z) : C (Z * list irq) :=
  match f with
  | fn_terminal_write => terminal_write base irqs inode buf nbytes
  | fn_terminal_invalid_write => no_wait irqs (c_ret (terminal_invalid_write inode buf nbytes))
  | fn_rtc_write => no_wait irqs (fun k =>
      let '(r, m) := Rtc.rtc_write inode buf nbytes (kmach k) in Ret r (set_kmach k m))
  | fn_file_write => no_wait irqs (c_ret (file_write inode buf nbytes))
  | _ => c_undef
  end.

Definition read (base : Z) (irqs : list irq) (fdr buf nbytes : Z) : C (Z * list irq) :=
  if (buf =? 0) || (fdr <? 0) || (7 <? fdr) then c_ret (-1, irqs)
  else
    f <- get_fd fdr ;;
    if truth (flags f) then call_read base irqs (f_read (fotp f)) fdr buf nbytes
    else c_ret (-1, irqs).

Definition write (base : Z) (irqs : list irq) (fdr buf nbytes : Z) : C (Z * list irq) :=
  if (buf =? 0) || (fdr <? 0) || (7 <? fdr) then c_ret (-1, irqs)
  else
    f <- get_fd fdr ;;
    if truth (flags f) then call_write base irqs (f_write (fotp f)) (f_inode f) buf nbytes
    else c_ret (-1, irqs).

(** [decl eax; cmpl $10, eax; jae err; call *jump_table(, eax, 4)]: the registers
    are the arguments, as the handlers push them.  The status of halt and the
    other integers are read from them at their width. *)
Definition syscall_link (irqs : list irq) (eax ebx ecx edx : Z) : C (Z * list irq) :=
  let n := u32 (eax - 1) in
  esp0 <- c_get (fun k => esp0 (kprocs k)) ;;
  let base := syscall_esp esp0 in
  if 10 <=? n then c_ret (-1, irqs)
  else if n =? 0 then no_wait irqs (halt base (u8 ebx))
  else if n =? 1 then no_wait irqs (execute base (u32 ebx))
  else if n =? 2 then read base irqs (s32 ebx) (u32 ecx) (s32 edx)
  else if n =? 3 then write base irqs (s32 ebx) (u32 ecx) (s32 edx)
  else if n =? 4 then no_wait irqs (open (u32 ebx))
  else if n =? 5 then no_wait irqs (close (s32 ebx))
  else if n =? 6 then no_wait irqs (getargs (u32 ebx) (s32 ecx))
  else if n =? 7 then no_wait irqs (vidmap (u32 ebx))
  else if n =? 8 then no_wait irqs (set_handler (s32 ebx) (u32 ecx))
  else no_wait irqs sigreturn.

End syscall.

(** ** The calls the kernel refuses *)

(** A descriptor that the call [eax] cannot use: out of the table, free, or an end
    of the terminal that goes the other way. *)
Definition bad_descriptor (eax fdr : Z) (k : kernel) : Prop :=
  fdr < 0 \/ 7 < fdr \/
  exists f, lookupZ (fd (kfiles k)) fdr = Some f /\
    (flags f = 0 \/ (eax = 3 /\ f_read (fotp f) = fn_terminal_invalid_read) \/
     (eax = 4 /\ f_write (fotp f) = fn_terminal_invalid_write)).

Inductive rejected (eax ebx ecx : Z) (k : kernel) : Prop :=
  | rejected_number : 10 <= u32 (eax - 1) -> rejected eax ebx ecx k
  | rejected_signal : eax = 9 \/ eax = 10 -> rejected eax ebx ecx k
  | rejected_buffer : eax = 3 \/ eax = 4 -> u32 ecx = 0 -> rejected eax ebx ecx k
  | rejected_descriptor : eax = 3 \/ eax = 4 -> bad_descriptor eax (s32 ebx) k -> rejected eax ebx ecx k
  | rejected_close : eax = 6 -> s32 ebx < 2 \/ 8 < s32 ebx -> rejected eax ebx ecx k
  | rejected_closed f : eax = 6 -> lookupZ (fd (kfiles k)) (s32 ebx) = Some f -> flags f = 0 ->
      rejected eax ebx ecx k.

Section facts.
Context {L : Layout} {D : Device} {FR : Frames}.
Implicit Type k : kernel.

Lemma get_fd_at fdr f k : lookupZ (fd (kfiles k)) fdr = Some f -> get_fd fdr k = Ret f k.
Proof. intros Hf. unfold get_fd. by rewrite Hf. Qed.

Lemma read_rejected base irqs fdr buf n k :
  buf = 0 \/ bad_descriptor 3 fdr k -> read base irqs fdr buf n k = Ret (-1, irqs) k.
Proof.
  intros Hb. unfold read. destruct ((buf =? 0) || (fdr <? 0) || (7 <? fdr)) eqn:E; [done|].
  rewrite !orb_false_iff, Z.eqb_neq, !Z.ltb_ge in E.
  destruct Hb as [Hb|[Hb|[Hb|(f & Hf & Hc)]]]; [lia..|].
  rewrite (c_bind_ret _ _ _ _ _ (get_fd_at _ _ _ Hf)). unfold truth.
  destruct (Z.eqb_spec (flags f) 0); [done|]. cbn [negb].
  destruct Hc as [Hc|[(_ & ->)|[Hc _]]]; done.
Qed.

Lemma write_rejected base irqs fdr buf n k :
  buf = 0 \/ bad_descriptor 4 fdr k -> write base irqs fdr buf n k = Ret (-1, irqs) k.
Proof.
  intros Hb. unfold write. destruct ((buf =? 0) || (fdr <? 0) || (7 <? fdr)) eqn:E; [done|].
  rewrite !orb_false_iff, Z.eqb_neq, !Z.ltb_ge in E.
  destruct Hb as [Hb|[Hb|[Hb|(f & Hf & Hc)]]]; [lia..|].
  rewrite (c_bind_ret _ _ _ _ _ (get_fd_at _ _ _ Hf)). unfold truth.
  destruct (Z.eqb_spec (flags f) 0); [done|]. cbn [negb].
  destruct Hc as [Hc|[[Hc _]|(_ & ->)]]; done.
Qed.

Lemma close_rejected fdr k :
  fdr < 2 \/ 8 < fdr \/ (exists f, lookupZ (fd (kfiles k)) fdr = Some f /\ flags f = 0) ->
  close fdr k = Ret (-1) k.
Proof.
  intros Hc. unfold close. destruct ((2 <=? fdr) && (fdr <=? 8)) eqn:E; [|done].
  rewrite andb_true_iff, !Z.leb_le in E. destruct Hc as [Hc|[Hc|(f & Hf & Hz)]]; [lia..|].
  rewrite (c_bind_ret _ _ _ _ _ (get_fd_at _ _ _ Hf)). by rewrite Hz.
Qed.

(** C14: the calls the kernel refuses answer -1 and change nothing: the numbers other
    than 1 to 10, the two signal calls, reads and writes with a null buffer, on a
    descriptor out of the table or not in use, from the output or to the input of
    the terminal, and the close of what is not open or may not be closed. *)
Theorem syscall_errors irqs eax ebx ecx edx k :
  rejected eax ebx ecx k -> syscall_link irqs eax ebx ecx edx k = Ret (-1, irqs) k.
Proof.
  intros Hr. unfold syscall_link. cbv zeta. unfold c_bind at 1, c_get.
  destruct Hr as [Hn|[->| ->]|[->| ->] Hb|[->| ->] Hb|He Hb|f He Hf Hz]; try subst eax.
  - by rewrite (proj2 (Z.leb_le _ _)).
  - done.
  - done.
  - apply read_rejected. by left.
  - apply write_rejected. by left.
  - apply read_rejected. by right.
  - apply write_rejected. by right.
  - change (no_wait irqs (close (s32 ebx)) k = Ret (-1, irqs) k). unfold no_wait.
    assert (close (s32 ebx) k = Ret (-1) k) as E by (apply close_rejected; lia).
    by rewrite (c_bind_ret _ _ _ _ _ E).
  - change (no_wait irqs (close (s32 ebx)) k = Ret (-1, irqs) k). unfold no_wait.
    assert (close (s32 ebx) k = Ret (-1) k) as E by (apply close_rejected; right; right; by exists f).
    by rewrite (c_bind_ret _ _ _ _ _ E).
Qed.

End facts.

(** *** Example: writing to the standard input *)

#[local] Existing Instance demo_layout.
#[local] Existing Instance demo_frames_0.
#[local] Existing Instance key_a_device.

Lemma syscall_errors_witness :
  syscall_link [] 4 0 0x8000000 5 display_kernel = Ret (-1, []) display_kernel.
Proof.
  apply syscall_errors. apply rejected_descriptor; [by right|]. right. right.
  exists (File stdin_fops 0 0 1). split; [reflexivity|]. right. right. split; reflexivity.
Defined.
