(* ===== verification/Idt.v ===== *)
(** * The interrupt descriptor table (student-distrib/idt.c, x86_desc.h)

    [idt_init] fills the 256 gates; an exception prints its name and ends the
    process.  The addresses of the handlers are the linker's: the parameter
    [Handlers].  [gate] is what the processor reads in a gate's two words. *)
From Stdlib Require Import ZArith Lia String.
From stdpp Require Import base list gmap numbers.
From S2P Require Import Prelude ByteMem LibString Machine Paging Devices Console Filesystem Kernel FileTable Process Execute.

#[local] Open Scope c_scope.

Definition KERNEL_CS : Z := 0x10.
Definition NUM_VEC : Z := 256.

(** The functions the gates point to. *)
Inductive entry_point :=
  | e_divide_error
  | e_debug
  | e_NMI
  | e_breakpoint
  | e_overflow
  | e_BOUND_range_exceeded
  | e_invalid_opcode
  | e_device_not_available
  | e_double_fault
  | e_coprocessor_segment_overrun
  | e_invalid_TSS
  | e_segment_not_present
  | e_stack_fault
  | e_general_protection
  | e_page_fault
  | e_x87_FPU_floatingpoint
  | e_alignment_check
  | e_machine_check
  | e_SIMD_floatingpoint
  | e_keyboard_wrapper
  | e_pit_wrapper
  | e_rtc_wrapper
  | e_syscall_link.

#[export] Instance entry_point_eq_dec : EqDecision entry_point.
Proof. solve_decision. Defined.

(** The union [idt_desc_t], as its bit fields. *)
Record idt_desc_t := IdtDesc {
  offset_15_00 : Z;
  seg_selector : Z;
  reserved4 : Z;
  reserved3 : Z;
  reserved2 : Z;
  reserved1 : Z;
  size : Z;
  reserved0 : Z;
  dpl : Z;
  present : Z;
  offset_31_16 : Z;
}.

Definition null_gate : idt_desc_t := IdtDesc 0 0 0 0 0 0 0 0 0 0 0.

(** Where the handlers are linked. *)
Class Handlers := handler_at : entry_point -> Z.

Section idt.
Context {L : Layout} {H : Handlers}.

(** The body of the loop for gate [i]. *)
Definition init_gate (i : Z) (g : idt_desc_t) : idt_desc_t :=
  let present :=
    if (i <? 15) || ((15 <? i) && (i <? 20)) || (i =? 33) || (i =? 0x80) || (i =? 0x28) || (i =? 0x20)
    then 1 else 0 in
  let '(dpl, reserved3) := if i <? 45 then (0, 0) else (3, 1) in
  IdtDesc (offset_15_00 g) KERNEL_CS 0 reserved3 1 1 1 0 dpl present (offset_31_16 g).

(** [SET_IDT_ENTRY(idt[i], handler)]: the two halves of the address. *)
Definition SET_IDT_ENTRY (i : Z) (e : entry_point) (idt : list idt_desc_t) : list idt_desc_t :=
  alter (fun g => IdtDesc (Z.land (handler_at e) 0xFFFF) (seg_selector g) (reserved4 g) (reserved3 g)
      (reserved2 g) (reserved1 g) (size g) (reserved0 g) (dpl g) (present g)
      (Z.shiftr (Z.land (handler_at e) 0xFFFF0000) 16)) (Z.to_nat i) idt.

Definition idt_init (idt : list idt_desc_t) : list idt_desc_t :=
  let idt := for_range 0 NUM_VEC (fun i idt => alter (init_gate i) (Z.to_nat i) idt) idt in
  let idt := SET_IDT_ENTRY 0 e_divide_error idt in
  let idt := SET_IDT_ENTRY 1 e_debug idt in
  let idt := SET_IDT_ENTRY 2 e_NMI idt in
  let idt := SET_IDT_ENTRY 3 e_breakpoint idt in
  let idt := SET_IDT_ENTRY 4 e_overflow idt in
  let idt := SET_IDT_ENTRY 5 e_BOUND_range_exceeded idt in
  let idt := SET_IDT_ENTRY 6 e_invalid_opcode idt in
  let idt := SET_IDT_ENTRY 7 e_device_not_available idt in
  let idt := SET_IDT_ENTRY 8 e_double_fault idt in
  let idt := SET_IDT_ENTRY 9 e_coprocessor_segment_overrun idt in
  let idt := SET_IDT_ENTRY 10 e_invalid_TSS idt in
  let idt := SET_IDT_ENTRY 11 e_segment_not_present idt in
  let idt := SET_IDT_ENTRY 12 e_stack_fault idt in
  let idt := SET_IDT_ENTRY 13 e_general_protection idt in
  let idt := SET_IDT_ENTRY 14 e_page_fault idt in
  let idt := SET_IDT_ENTRY 16 e_x87_FPU_floatingpoint idt in
  let idt := SET_IDT_ENTRY 17 e_alignment_check idt in
  let idt := SET_IDT_ENTRY 18 e_machine_check idt in
  let idt := SET_IDT_ENTRY 19 e_SIMD_floatingpoint idt in
  let idt := SET_IDT_ENTRY 33 e_keyboard_wrapper idt in
  let idt := SET_IDT_ENTRY 0x20 e_pit_wrapper idt in
  let idt := SET_IDT_ENTRY 0x28 e_rtc_wrapper idt in
  SET_IDT_ENTRY 0x80 e_syscall_link idt.

End idt.

(** ** The exceptions *)

Section exceptions.
Context {L : Layout} {FR : Frames}.

(** [printf("...\n"); halt(0);]: what every handler of an exception does. *)
Definition die (base : Z) (msg : string) : C unit :=
  print msg ;;;
  c_console (putcs [10]) ;;;
  _ <- halt base 0 ;;
  c_ret tt.

Definition divide_error (base : Z) : C unit := die base "Divide by 0 Error?".
Definition debug (base : Z) : C unit := die base "Debug Exception?".
Definition NMI (base : Z) : C unit := die base "NMI Interrupt?".
Definition breakpoint (base : Z) : C unit := die base "Breakpoint Exception?".
Definition overflow (base : Z) : C unit := die base "Overflow Exception?".
Definition BOUND_range_exceeded (base : Z) : C unit := die base "BOUND Range Exceeded Exception?".
Definition invalid_opcode (base : Z) : C unit := die base "Invalid Opcode Exception?".
Definition device_not_available (base : Z) : C unit := die base "Device Not Available Exception?".
Definition double_fault (base : Z) : C unit := die base "Double Fault Exception?".
Definition coprocessor_segment_overrun (base : Z) : C unit := die base "Coprocessor Segment Overrun?".
Definition invalid_TSS (base : Z) : C unit := die base "Invalid TSS Exception?".
Definition segment_not_present (base : Z) : C unit := die base "Segment Not Present?".
Definition stack_fault (base : Z) : C unit := die base "Stack Fault Exception?".
Definition general_protection (base : Z) : C unit := die base "General Protection Exception?".
Definition page_fault (base : Z) : C unit := die base "Page-Fault Exception?".
Definition x87_FPU_floatingpoint (base : Z) : C unit := die base "Floating Point Error".
Definition alignment_check (base : Z) : C unit := die base "Alignment Check Exception?".
Definition machine_check (base : Z) : C unit := die base "Machine Check Exception?".
Definition SIMD_floatingpoint (base : Z) : C unit := die base "Floating Point Exception?".

(** What the gate of an exception runs. *)
Definition exception (e : entry_point) (base : Z) : C unit :=
  match e with
  | e_divide_error => divide_error base
  | e_debug => debug base
  | e_NMI => NMI base
  | e_breakpoint => breakpoint base
  | e_overflow => overflow base
  | e_BOUND_range_exceeded => BOUND_range_exceeded base
  | e_invalid_opcode => invalid_opcode base
  | e_device_not_available => device_not_available base
  | e_double_fault => double_fault base
  | e_coprocessor_segment_overrun => coprocessor_segment_overrun base
  | e_invalid_TSS => invalid_TSS base
  | e_segment_not_present => segment_not_present base
  | e_stack_fault => stack_fault base
  | e_general_protection => general_protection base
  | e_page_fault => page_fault base
  | e_x87_FPU_floatingpoint => x87_FPU_floatingpoint base
  | e_alignment_check => alignment_check base
  | e_machine_check => machine_check base
  | e_SIMD_floatingpoint => SIMD_floatingpoint base
  | _ => c_ret tt
  end.

End exceptions.

(** ** The gates as the processor reads them *)

(** The two words of a gate. *)
Definition gate_low (g : idt_desc_t) : Z := offset_15_00 g + 65536 * seg_selector g.
Definition gate_high (g : idt_desc_t) : Z :=
  reserved4 g + 256 * reserved3 g + 512 * reserved2 g + 1024 * reserved1 g + 2048 * size g
  + 4096 * reserved0 g + 8192 * dpl g + 32768 * present g + 65536 * offset_31_16 g.

(** An interrupt gate clears the interrupt flag, a trap gate does not. *)
Inductive gate_kind := interrupt_gate | trap_gate.

Record gate_t := Gate {
  g_kind : gate_kind;
  g_privilege : Z;     (* the least privileged ring that may use it with int *)
  g_selector : Z;
  g_target : Z;
}.

(** The processor's view: no gate when the present bit is clear or the type is
    not that of a 32-bit gate. *)
Definition gate (low high : Z) : option gate_t :=
  if negb (Z.testbit high 15) then None
  else
    let target := high / 65536 * 65536 + low mod 65536 in
    let type := high / 256 mod 32 in
    let privilege := high / 8192 mod 4 in
    if type =? 0xE then Some (Gate interrupt_gate privilege (low / 65536) target)
    else if type =? 0xF then Some (Gate trap_gate privilege (low / 65536) target)
    else None.

(** Which function answers which vector. *)
Definition vector_entry (v : Z) : option entry_point :=
  if v =? 0 then Some e_divide_error
  else if v =? 1 then Some e_debug
  else if v =? 2 then Some e_NMI
  else if v =? 3 then Some e_breakpoint
  else if v =? 4 then Some e_overflow
  else if v =? 5 then Some e_BOUND_range_exceeded
  else if v =? 6 then Some e_invalid_opcode
  else if v =? 7 then Some e_device_not_available
  else if v =? 8 then Some e_double_fault
  else if v =? 9 then Some e_coprocessor_segment_overrun
  else if v =? 10 then Some e_invalid_TSS
  else if v =? 11 then Some e_segment_not_present
  else if v =? 12 then Some e_stack_fault
  else if v =? 13 then Some e_general_protection
  else if v =? 14 then Some e_page_fault
  else if v =? 16 then Some e_x87_FPU_floatingpoint
  else if v =? 17 then Some e_alignment_check
  else if v =? 18 then Some e_machine_check
  else if v =? 19 then Some e_SIMD_floatingpoint
  else if v =? 33 then Some e_keyboard_wrapper
  else if v =? 32 then Some e_pit_wrapper
  else if v =? 40 then Some e_rtc_wrapper
  else if v =? 128 then Some e_syscall_link
  else None.

(** What the table should hold: interrupt gates of the kernel's ring, but for the
    system calls, a trap gate that user programs may use. *)
Definition gate_spec `{Handlers} (v : Z) : option gate_t :=
  e ← vector_entry v;
  Some (if v =? 0x80 then Gate trap_gate 3 KERNEL_CS (handler_at e)
        else Gate interrupt_gate 0 KERNEL_CS (handler_at e)).

(** The line each exception writes. *)
Definition exception_names : list string :=
  ["Divide by 0 Error?"; "Debug Exception?"; "NMI Interrupt?"; "Breakpoint Exception?"; "Overflow Exception?";
   "BOUND Range Exceeded Exception?"; "Invalid Opcode Exception?"; "Device Not Available Exception?";
   "Double Fault Exception?"; "Coprocessor Segment Overrun?"; "Invalid TSS Exception?"; "Segment Not Present?";
   "Stack Fault Exception?"; "General Protection Exception?"; "Page-Fault Exception?"; "";
   "Floating Point Error"; "Alignment Check Exception?"; "Machine Check Exception?";
   "Floating Point Exception?"]%string.

Definition exception_text (v : Z) : list Z := chars (default ""%string (lookupZ exception_names v)) ++ [10].

(** Addresses have 32 bits. *)
Class HandlersOk `{Handlers} := handler_range : forall e, 0 <= handler_at e < 4294967296.

Section facts.
Context {L : Layout} {H : Handlers} {HOK : HandlersOk}.

Definition set_target (e : entry_point) (g : idt_desc_t) : idt_desc_t :=
  IdtDesc (Z.land (handler_at e) 0xFFFF) (seg_selector g) (reserved4 g) (reserved3 g)
    (reserved2 g) (reserved1 g) (size g) (reserved0 g) (dpl g) (present g)
    (Z.shiftr (Z.land (handler_at e) 0xFFFF0000) 16).

Lemma lookup_set_entry i e t v :
  0 <= i -> 0 <= v ->
  SET_IDT_ENTRY i e t !! Z.to_nat v = (if v =? i then set_target e else id) <$> t !! Z.to_nat v.
Proof.
  intros Hi Hv. unfold SET_IDT_ENTRY. destruct (Z.eqb_spec v i) as [->|Hne].
  - by rewrite list_lookup_alter_eq.
  - rewrite list_lookup_alter_ne by lia. by destruct (t !! Z.to_nat v).
Qed.

(** The loop. *)
Lemma init_gates_lookup t :
  length t = 256%nat ->
  forall v g, 0 <= v < 256 -> t !! Z.to_nat v = Some g ->
  for_range 0 NUM_VEC (fun i idt => alter (init_gate i) (Z.to_nat i) idt) t !! Z.to_nat v
  = Some (init_gate v g).
Proof.
  intros Hl v g Hv Hg.
  pose proof (for_range_ind (fun i t' => t' !! Z.to_nat v = Some (if v <? i then init_gate v g else g))
    0 NUM_VEC (fun i idt => alter (init_gate i) (Z.to_nat i) idt) t) as Hind.
  rewrite Hind; unfold NUM_VEC in *; [|lia| |].
  - by rewrite (proj2 (Z.ltb_lt v 256)) by lia.
  - by rewrite (proj2 (Z.ltb_ge v 0)) by lia.
  - intros i t' Hi Ht. destruct (decide (i = v)) as [->|Hne].
    + rewrite list_lookup_alter_eq, Ht. simpl.
      by rewrite Z.ltb_irrefl, (proj2 (Z.ltb_lt v (v + 1))) by lia.
    + rewrite list_lookup_alter_ne, Ht by lia.
      destruct (Z.ltb_spec v i), (Z.ltb_spec v (i + 1)); done || lia.
Qed.

Lemma idt_init_lookup t v g :
  length t = 256%nat -> 0 <= v < 256 -> t !! Z.to_nat v = Some g ->
  idt_init t !! Z.to_nat v
  = Some (match vector_entry v with Some e => set_target e (init_gate v g) | None => init_gate v g end).
Proof.
  intros Hl Hv Hg. pose proof (init_gates_lookup t Hl v g Hv Hg) as Hloop.
  unfold idt_init. generalize dependent (for_range 0 NUM_VEC (fun i idt => alter (init_gate i) (Z.to_nat i) idt) t).
  intros t' Ht. cbv zeta. rewrite !lookup_set_entry by lia. rewrite Ht. cbn [fmap option_fmap option_map].
  unfold vector_entry, id.
  repeat match goal with |- context [v =? ?n] => destruct (Z.eqb_spec v n) as [->|_]; [reflexivity|] end.
  reflexivity.
Qed.

(** The address a gate keeps in two halves. *)
Lemma target_halves a :
  0 <= a < 4294967296 ->
  Z.land a 0xFFFF = a mod 65536 /\ Z.shiftr (Z.land a 0xFFFF0000) 16 = a / 65536.
Proof.
  intros Ha. split.
  - change 0xFFFF with (Z.ones 16). by rewrite Z.land_ones.
  - rewrite Z.shiftr_land. change (Z.shiftr 0xFFFF0000 16) with (Z.ones 16).
    rewrite Z.land_ones, Z.shiftr_div_pow2 by lia. change (2 ^ 16) with 65536.
    apply Z.mod_small. dlia.
Qed.

(** The three shapes of gate that the loop makes. *)
Lemma gate_shape lo hi k :
  0 <= lo < 65536 -> 0 <= k < 65536 -> 0 <= hi ->
  gate (lo + 65536 * KERNEL_CS) (k + 65536 * hi)
  = if negb (Z.testbit k 15) then None
    else if k / 256 mod 32 =? 0xE then Some (Gate interrupt_gate (k / 8192 mod 4) KERNEL_CS (65536 * hi + lo))
    else if k / 256 mod 32 =? 0xF then Some (Gate trap_gate (k / 8192 mod 4) KERNEL_CS (65536 * hi + lo))
    else None.
Proof.
  intros Hl Hk Hh. unfold gate, KERNEL_CS.
  assert (Z.testbit (k + 65536 * hi) 15 = Z.testbit k 15) as ->.
  { rewrite !Z.testbit_odd, !Z.shiftr_div_pow2 by lia. change (2 ^ 15) with 32768.
    replace ((k + 65536 * hi) / 32768) with (k / 32768 + 2 * hi) by dlia.
    by rewrite Z.odd_add_mul_2. }
  replace ((k + 65536 * hi) / 256 mod 32) with (k / 256 mod 32) by dlia.
  replace ((k + 65536 * hi) / 8192 mod 4) with (k / 8192 mod 4) by dlia.
  replace ((k + 65536 * hi) / 65536 * 65536 + (lo + 65536 * 16) mod 65536) with (65536 * hi + lo) by dlia.
  replace ((lo + 65536 * 16) / 65536) with 16 by dlia. done.
Qed.

Lemma init_gate_spec v g :
  0 <= v < 256 ->
  (present (init_gate v g) = 0 /\ vector_entry v = None) \/
  (exists e, vector_entry v = Some e /\
     let g' := set_target e (init_gate v g) in
     gate (gate_low g') (gate_high g') = gate_spec v).
Proof.
  intros Hv.
  assert (forall e, vector_entry v = Some e -> v < 45 \/ v = 0x80 ->
    present (init_gate v g) = 1 ->
    gate (gate_low (set_target e (init_gate v g))) (gate_high (set_target e (init_gate v g))) = gate_spec v) as Hgate.
  { intros e He Hdpl Hp. unfold gate_spec. rewrite He. cbn [mbind option_bind].
    destruct (target_halves (handler_at e) (handler_range e)) as [T1 T2].
    pose proof (handler_range e) as Hr. unfold gate_low, gate_high, set_target, init_gate in *.
    destruct (Z.ltb_spec v 45) as [Hlt|Hge]; cbn [offset_15_00 seg_selector reserved4 reserved3 reserved2
      reserved1 size reserved0 dpl present offset_31_16] in *; rewrite Hp, T1, T2.
    - rewrite (proj2 (Z.eqb_neq v 0x80)) by lia.
      change (0 + 256 * 0 + 512 * 1 + 1024 * 1 + 2048 * 1 + 4096 * 0 + 8192 * 0 + 32768 * 1) with 0x8E00.
      rewrite gate_shape by dlia. cbn [negb Z.testbit Z.eqb Pos.eqb].
      change (0x8E00 / 256 mod 32) with 0xE. change (0x8E00 / 8192 mod 4) with 0. simpl.
      do 2 f_equal. dlia.
    - assert (v = 0x80) as -> by lia. rewrite Z.eqb_refl.
      change (0 + 256 * 1 + 512 * 1 + 1024 * 1 + 2048 * 1 + 4096 * 0 + 8192 * 3 + 32768 * 1) with 0xEF00.
      rewrite gate_shape by dlia.
      change (0xEF00 / 256 mod 32) with 0xF. change (0xEF00 / 8192 mod 4) with 3. simpl.
      do 2 f_equal. dlia. }
  destruct (vector_entry v) as [e|] eqn:Ev.
  - right. exists e. split; [done|]. apply Hgate; [done| |]; unfold vector_entry in Ev;
      repeat match type of Ev with context [v =? ?n] =>
        destruct (Z.eqb_spec v n) as [->|_]; [lia || reflexivity|] end; done.
  - left. split; [|done]. unfold vector_entry in Ev.
    repeat match type of Ev with context [v =? ?n] => destruct (Z.eqb_spec v n); [done|] end.
    unfold init_gate. destruct (Z.ltb_spec v 15); [lia|].
    destruct (Z.ltb_spec 15 v), (Z.ltb_spec v 20); try lia.
    all: rewrite !(proj2 (Z.eqb_neq v _)) by lia; simpl; by destruct (v <? 45).
Qed.

(** A gate that is not present is none. *)
Lemma absent_gate v g : present (init_gate v g) = 0 -> gate (gate_low (init_gate v g)) (gate_high (init_gate v g)) = None.
Proof.
  intros Hp. unfold gate.
  assert (Z.testbit (gate_high (init_gate v g)) 15 = false) as ->; [|done].
  unfold gate_high. rewrite Hp.
  rewrite Z.testbit_odd, Z.shiftr_div_pow2 by lia. change (2 ^ 15) with 32768.
  unfold init_gate. destruct (v <? 45);
    cbn [offset_15_00 seg_selector reserved4 reserved3 reserved2 reserved1 size reserved0 dpl present offset_31_16];
    match goal with |- Z.odd (?x / 32768) = false =>
      replace (x / 32768) with (0 + 2 * offset_31_16 g) by dlia end;
    by rewrite Z.odd_add_mul_2.
Qed.

End facts.

Section contract.
Context {L : Layout} {LOK : LayoutOk} {FR : Frames} {H : Handlers} {HOK : HandlersOk}.
Implicit Type k : kernel.

(** C29: after [idt_init] the processor finds, for each of the 256 vectors, the
    gate of its handler and no other: interrupt gates of ring 0 for the
    exceptions 0 to 19 but 15 and for the three devices, a trap gate that ring 3
    may use for 0x80 alone, and no gate elsewhere, whatever the table held. *)
Theorem idt_init_correct t v :
  length t = 256%nat -> 0 <= v < 256 ->
  exists g, idt_init t !! Z.to_nat v = Some g /\ gate (gate_low g) (gate_high g) = gate_spec v.
Proof.
  intros Hl Hv. destruct (lookup_lt_is_Some_2 t (Z.to_nat v)) as [g Hg]; [lia|].
  eexists. split; [exact (idt_init_lookup t v g Hl Hv Hg)|].
  destruct (init_gate_spec v g Hv) as [[Hp Hn]|(e & He & Hgate)].
  - rewrite Hn. unfold gate_spec. rewrite Hn. by apply absent_gate.
  - by rewrite He.
Qed.

Lemma die_spec msg k c p base :
  ending k c p ->
  die base msg k = Leave (ToFrame (haltesp c) (haltebp c) 0)
    (halt_state (set_con k (putcs (chars msg ++ [10]) (con k))) c p).
Proof.
  intros [E1 E2 E3 E4 E5]. unfold die. do 2 erewrite c_bind_ret by reflexivity.
  set (k1 := set_con _ _). assert (k1 = set_con k (putcs (chars msg ++ [10]) (con k))) as <-.
  { unfold k1. rewrite putcs_app. reflexivity. }
  apply c_bind_leave. apply (halt_spec k1 c p base 0). by split.
Qed.

(** C30: an exception in a program ends it and nothing else: its name is written
    on the screen, and the parent gets control at the frame saved when the
    program was started, with status 0, as after a halt. *)
Theorem exception_correct v e k c p base :
  vector_entry v = Some e -> 0 <= v < 20 -> con_ok (con k) -> ending k c p ->
  0 <= pid p < 6 -> Forall word_byte (pcb_filename p) -> Z.of_nat (length (pcb_filename p)) < 32 ->
  exists k', let kp := set_con k (putcs (exception_text v) (con k)) in
    exception e base k = Leave (ToFrame (haltesp c) (haltebp c) 0) k' /\ ended kp c p k' /\
    con_ok (con kp) /\ touches console_bytes (kmach k) (kmach kp).
Proof.
  intros Hv Hr Hc He Hp Hw Hl.
  assert (exists msg, exception e base = die base msg /\ exception_text v = chars msg ++ [10] /\
    text_ok (chars msg ++ [10])) as (msg & Hx & Htx & Ht).
  { unfold vector_entry in Hv.
    repeat match type of Hv with (if v =? ?n then _ else _) = _ =>
      destruct (Z.eqb_spec v n) as [->|_];
      [first [lia | (injection Hv as <-; eexists; split_and!;
        [reflexivity|reflexivity|apply (bool_decide_unpack _); vm_compute; exact I])]|] end. done. }
  eexists. cbv zeta. rewrite Hx, Htx, (die_spec msg k c p base He).
  destruct (putcs_ok (chars msg ++ [10]) (con k) Hc Ht) as [Hok Hto].
  split_and!; [reflexivity| |exact Hok|exact Hto].
  apply halt_ended; [by destruct He|apply Hok|done|done|done].
Qed.

End contract.

(** *** Examples *)

#[local] Existing Instance demo_layout.
#[local] Existing Instance demo_layout_ok.
#[local] Existing Instance demo_frames.

(** Handlers one page apart from 0x401000 on. *)
Definition demo_handlers : Handlers := fun e =>
  match e with
  | e_syscall_link => 0x401234
  | e_page_fault => 0x402000
  | _ => 0x403000
  end.

Lemma demo_handlers_ok : @HandlersOk demo_handlers.
Proof. intros e. unfold handler_at, demo_handlers. destruct e; lia. Qed.

#[local] Existing Instance demo_handlers.
#[local] Existing Instance demo_handlers_ok.

Lemma idt_init_correct_witness :
  exists g, idt_init (replicate 256 null_gate) !! 128%nat = Some g /\
    gate (gate_low g) (gate_high g) = Some (Gate trap_gate 3 KERNEL_CS 0x401234).
Proof.
  destruct (idt_init_correct (replicate 256 null_gate) 128) as (g & Hg & Hs); [reflexivity|lia|].
  exists g. split; [exact Hg|exact Hs].
Defined.

Lemma exception_correct_witness :
  exists k', exception e_page_fault 0 child_system = Leave (ToFrame 0x7FEF00 0x7FEF40 0) k' /\
    curr_pcb (kprocs k') = pcb_at 0.
Proof.
  destruct (exception_correct 14 e_page_fault child_system child_pcb (shell_pcb 0 0) 0)
    as (k' & Hx & [_ [Hc _] _ _ _ _ _ _ _] & _).
  - reflexivity.
  - lia.
  - split; [exact shell_mapped|simpl; lia|simpl; lia|unfold cursor; simpl; lia|simpl; lia].
  - split; [done|exact started_files_ok| |done|done].
    apply (so_ring _ _ (shell_system_ok [1; 0; 0; 1; 0; 0] eq_refl)).
  - simpl. lia.
  - apply (bool_decide_unpack _). vm_compute. exact I.
  - simpl. lia.
  - exists k'. split; [exact Hx|exact Hc].
Defined.
