(* ===== verification/System.v ===== *)
(** * The kernel as a transition system

    A running kernel takes system calls, exceptions and interrupts in any order.
    [step] is one of them, [reachable] what they lead to from a machine that has
    just booted; [state_ok] is the invariant of the process table, the
    descriptors, the ring and the address space that every step keeps.  A step is a
    call or handler that ends, with arguments that are [arguments_safe]: what the
    kernel does not check itself. *)
From Stdlib Require Import ZArith Lia String.
From stdpp Require Import base list gmap numbers.
From S2P Require Import Prelude ByteMem LibString Machine Paging Devices Console Filesystem Kernel Logic FileTable Process Execute Scheduling Keyboard Terminal Syscall Idt.

#[local] Open Scope c_scope.

Section defs.
Context {L : Layout}.

(** The eight descriptors of a process. *)
Definition fds_ok (l : list file_t) : Prop :=
  length l = 8%nat /\ forall i e, l !! i = Some e -> fd_entry_ok i e.

(** A PCB: at the bottom of the stack of its slot, with a parent that has one too,
    but for the first process of all. *)
Record pcb_ok (k : kernel) (a : Z) (p : pcb_t) : Prop := {
  pk_pid : 0 <= pid p < 6;
  pk_at : a = pcb_at (pid p);
  pk_fds : fds_ok (pcb_fd p);
  pk_parent : is_Some (get_pcb k (parent p)) \/ (parent p = 0 /\ pid p < 3);
}.

Record base_ok (k : kernel) : Prop := {
  bs_slots : length (pnumarr (kprocs k)) = 6%nat;
  bs_ring : ring_ok (ksched k);
  bs_fds : fds_ok (fd (kfiles k));
  bs_pcbs : forall a p, get_pcb k a = Some p -> pcb_ok k a p;
  bs_mapped : kernel_mapped (kmach k);
}.

(** Before the first program. *)
Record cold (k : kernel) : Prop := {
  co_slots : pnumarr (kprocs k) = replicate 6 0;
  co_current : curr_pcb (kprocs k) = 0;
  co_pcbs : pcbs (kprocs k) = ∅;
}.

Definition tables_set (f : files) : Prop :=
  rfotp f = rtc_fops /\ dfotp f = directory_fops /\ ffotp f = file_fops.

(** A program runs: the current PCB is that of the current slot, and the user page
    shows the frame of that slot. *)
Record live (k : kernel) : Prop := {
  li_pnum : 0 <= pnum (kprocs k) < 6;
  li_current : curr_pcb (kprocs k) = pcb_at (pnum (kprocs k));
  li_pcb : is_Some (get_pcb k (curr_pcb (kprocs k)));
  li_tables : tables_set (kfiles k);
  li_page : forall va, user_base <= va < user_base + 4194304 ->
    translate (kmach k) va = Some (user_frame (pnum (kprocs k)) + (va - user_base));
}.

Definition live_ok (k : kernel) : Prop := base_ok k /\ live k.
Definition state_ok (k : kernel) : Prop := base_ok k /\ (cold k \/ live k).

(** What the kernel's services other than execute, halt and the descriptors leave
    alone. *)
Record frame (k k' : kernel) : Prop := {
  fr_fd : fd (kfiles k') = fd (kfiles k);
  fr_tables : rfotp (kfiles k') = rfotp (kfiles k) /\ dfotp (kfiles k') = dfotp (kfiles k) /\
    ffotp (kfiles k') = ffotp (kfiles k);
  fr_procs : pnum (kprocs k') = pnum (kprocs k) /\ pnumarr (kprocs k') = pnumarr (kprocs k) /\
    curr_pcb (kprocs k') = curr_pcb (kprocs k) /\ pcbs (kprocs k') = pcbs (kprocs k);
  fr_sched : active (ksched k') = active (ksched k) /\ head (ksched k') = head (ksched k) /\
    ring (ksched k') = ring (ksched k);
  fr_indicator : 1 <= indicator (ksched k) <= 3 -> 1 <= indicator (ksched k') <= 3;
  fr_space : same_space (kmach k) (kmach k');
}.

End defs.

Section frames.
Context {L : Layout} {LOK : LayoutOk}.
Implicit Type k : kernel.

(** The user page is one large page: it depends on the directory alone. *)
Lemma same_space_user m m' va :
  same_space m m' -> kernel_mapped m -> user_base <= va < user_base + 4194304 ->
  translate m' va = translate m va.
Proof.
  intros (H1 & H2 & _) Hm Hva. unfold translate. rewrite H1, H2, (km_paging _ Hm). cbn [negb].
  unfold user_base in Hva. replace (va / 4194304) with 32 by dlia.
  destruct (km_large _ Hm 32) as [Hp|Hl]; [lia..| |]; [by rewrite Hp|].
  destruct (negb _); [done|]. by rewrite Hl.
Qed.

#[export] Instance frame_preorder : PreOrder frame.
Proof.
  split; [by split|]. intros k1 k2 k3 [A1 A2 A3 A4 A5 A6] [B1 B2 B3 B4 B5 B6].
  split.
  - by rewrite B1.
  - destruct A2 as (-> & -> & ->) in B2. done.
  - destruct A3 as (E1 & E2 & E3 & E4), B3 as (-> & -> & -> & ->). done.
  - destruct A4 as (E1 & E2 & E3), B4 as (-> & -> & ->). done.
  - auto.
  - by etrans.
Qed.

Lemma frame_base k k' : frame k k' -> base_ok k -> base_ok k'.
Proof.
  intros [F1 F2 (P1 & P2 & P3 & P4) (S1 & S2 & S3) F5 F6] [B1 [R1 R2 R3 R4] B3 B4 B5]. split.
  - by rewrite P2.
  - split; rewrite ?S1, ?S2, ?S3; auto.
  - by rewrite F1.
  - unfold get_pcb in *. rewrite P4. intros a p Hp. destruct (B4 a p Hp) as [? ? ? Hpar].
    split; [done..|]. unfold get_pcb in *. by rewrite P4.
  - by eapply same_space_mapped.
Qed.

Lemma frame_live k k' : frame k k' -> base_ok k -> live k -> live k'.
Proof.
  intros [F1 (T1 & T2 & T3) (P1 & P2 & P3 & P4) _ _ F6] [_ _ _ _ B5] [V1 V2 V3 V4 V5].
  unfold get_pcb in *. split; unfold get_pcb, tables_set in *; rewrite ?P1, ?P3, ?P4, ?T1, ?T2, ?T3; auto.
  intros va Hva. rewrite (same_space_user (kmach k)) by done. by apply V5.
Qed.

Lemma frame_cold k k' : frame k k' -> cold k -> cold k'.
Proof. intros [_ _ (P1 & P2 & P3 & P4) _ _ _] [C1 C2 C3]. split; by rewrite ?P2, ?P3, ?P4. Qed.

Lemma frame_ok k k' : frame k k' -> state_ok k -> state_ok k'.
Proof.
  intros Hf [Hb Hs]. split; [by eapply frame_base|].
  destruct Hs; [left; by eapply frame_cold|right; by eapply frame_live].
Qed.

Lemma frame_live_ok k k' : frame k k' -> live_ok k -> live_ok k'.
Proof. intros Hf [Hb Hl]. split; [by eapply frame_base|by eapply frame_live]. Qed.

Lemma live_state k : live_ok k -> state_ok k.
Proof. intros [Hb Hl]. split; [done|by right]. Qed.

(** *** Steps that stay within the frame *)

Lemma frame_con k c : same_space (kmach k) (mach c) -> frame k (set_con k c).
Proof. by split. Qed.

Lemma frame_mach k m : same_space (kmach k) m -> frame k (set_kmach k m).
Proof. by split. Qed.

Lemma frame_put_saved k i s : frame k (put_saved k i s).
Proof. by split. Qed.

Lemma frame_indicator k n : 1 <= n <= 3 -> frame k (set_indicator k n).
Proof. by split. Qed.

Lemma frame_keys k f : frame k (set_kkeys k f).
Proof. by split. Qed.

Lemma frame_window k a v i : frame k (set_kmach k (setupPagingDirectoryTable a v i (kmach k))).
Proof. by split. Qed.

(** ** Invariants

    What an invariant needs for the services to keep it: [state_ok] and [live_ok]
    are the two instances. *)
Lemma set_fd_base k l : fds_ok l -> base_ok k -> base_ok (set_fd k l).
Proof.
  intros Hl [? ? ? Hp ?]. split; [done..| |done]. intros a p Ha. by destruct (Hp a p Ha); split.
Qed.

Lemma set_fd_live k l : live k -> live (set_fd k l).
Proof. by intros [? ? ? ? ?]; split. Qed.

End frames.

Class KernelInv `{Layout} (I : kernel -> Prop) := {
  inv_frame : forall k k', frame k k' -> I k -> I k';
  inv_fd : forall k l, fds_ok l -> I k -> I (set_fd k l);
  inv_base : forall k, I k -> base_ok k;
}.

#[export] Instance state_ok_inv `{LayoutOk} : KernelInv state_ok.
Proof.
  split.
  - apply frame_ok.
  - intros k l Hl [Hb Hs]. split; [by apply set_fd_base|].
    destruct Hs as [[? ? ?]|Hs]; [left; by split|right; by apply set_fd_live].
  - by intros k [Hb _].
Qed.

#[export] Instance live_ok_inv `{LayoutOk} : KernelInv live_ok.
Proof.
  split.
  - apply frame_live_ok.
  - intros k l Hl [Hb Hs]. split; [by apply set_fd_base|by apply set_fd_live].
  - by intros k [Hb _].
Qed.

Section services.
Context {L : Layout} {LOK : LayoutOk} {D : Device} (I : kernel -> Prop) {KI : KernelInv I}.
Implicit Type k : kernel.

Lemma keeps_frame f : (forall k, frame k (f k)) -> keeps I (c_mod f).
Proof. intros Hf. apply keeps_mod. intros k. by apply inv_frame. Qed.

Lemma keeps_con f : (forall s, same_space (mach s) (mach (f s))) -> keeps I (c_console f).
Proof. intros Hf. apply keeps_frame. intros k. apply frame_con, Hf. Qed.

Lemma keeps_mach f : (forall m, same_space m (f m)) -> keeps I (c_mach f).
Proof. intros Hf. apply keeps_frame. intros k. apply frame_mach, Hf. Qed.

Lemma keeps_frame_at {A} (f : kernel -> A * kernel) :
  (forall k, frame k (snd (f k))) -> keeps I (fun k => let '(a, k') := f k in Ret a k').
Proof. intros Hf. apply keeps_pair. intros k. by apply inv_frame. Qed.

(** *** Descriptors *)

Lemma fds_ok_put l i e : fds_ok l -> fd_entry_ok i e -> fds_ok (<[i := e]> l).
Proof.
  intros [Hl He] Hi. split; [by rewrite length_insert|].
  intros j g Hg. apply list_lookup_insert_Some in Hg as [(-> & -> & _)|[_ Hg]]; eauto.
Qed.

(** What [get_fd] answers. *)
Lemma hoare_get_fd i :
  hoare I (get_fd i) (fun f k => I k /\ 0 <= i /\ fd (kfiles k) !! Z.to_nat i = Some f) I.
Proof.
  intros k Hk. unfold get_fd, c_some, lookupZ. destruct (Z.ltb_spec i 0); [done|].
  destruct (fd (kfiles k) !! Z.to_nat i) eqn:E; [|exact Logic.I]. by split_and!.
Qed.

Lemma keeps_put_fd i e : fd_entry_ok (Z.to_nat i) e -> keeps I (put_fd i e).
Proof.
  intros He. apply keeps_mod. intros k Hk. apply inv_fd; [|done].
  apply fds_ok_put; [by apply inv_base|done].
Qed.

Lemma fd_entry_get k i f :
  I k -> fd (kfiles k) !! i = Some f -> fd_entry_ok i f.
Proof. intros Hk Hf. by eapply (bs_fds _ (inv_base k Hk)). Qed.

(** Changing the inode or the position of a descriptor, or freeing it. *)
Lemma fd_entry_same i f ino pos v :
  fd_entry_ok i f -> v = flags f \/ v = 0 -> fd_entry_ok i (File (fotp f) ino pos v).
Proof.
  intros [H1 H2] [-> | ->]; split; cbn [flags fotp]; [done|done|by left|lia].
Qed.

Lemma keeps_with_fd {A} i (g : file_t -> C A) :
  (forall f, fd_entry_ok (Z.to_nat i) f -> keeps I (g f)) -> keeps I (c_bind (get_fd i) g).
Proof.
  intros Hg. eapply hoare_bind; [apply hoare_get_fd|].
  intros f k (Hk & _ & Hf). apply (Hg f); [by eapply fd_entry_get|done].
Qed.

Lemma keeps_call_close f fdr : keeps I (call_close f fdr).
Proof. unfold call_close. keeps. Qed.

Lemma keeps_close fdr : keeps I (close fdr).
Proof.
  unfold close. destruct (_ && _); [|keeps]. apply keeps_with_fd. intros f Hf.
  destruct (_ =? 0); [keeps|]. apply keeps_bind; [|intros; apply keeps_call_close].
  apply keeps_put_fd, fd_entry_same; [done|by right].
Qed.

Lemma keeps_add_position fdr tmp : keeps I (add_position fdr tmp).
Proof.
  unfold add_position. apply keeps_with_fd. intros f Hf.
  apply keeps_put_fd, fd_entry_same; [done|by left].
Qed.

Lemma keeps_file_read fdr buf n : keeps I (file_read fdr buf n).
Proof.
  unfold file_read. apply keeps_with_fd. intros f Hf. apply keeps_bind.
  - intros k Hk. destruct (read_data _ _ _ _ _ _) as [r m] eqn:E.
    eapply inv_frame; [|exact Hk]. apply frame_mach.
    pose proof (space_read_data (kmach k) (FSYSTEM k) (f_inode f) (fposition f) buf (u32 n) (kmach k)) as Hs.
    rewrite E in Hs. by apply Hs.
  - intros tmp. apply keeps_bind; [apply keeps_add_position|intros; keeps].
Qed.

Lemma keeps_directory_read fdr buf n : keeps I (directory_read fdr buf n).
Proof.
  unfold directory_read. apply keeps_with_fd. intros f Hf. apply keeps_bind; [keeps|]. intros k.
  destruct (read_dentry_by_index _ _ _ _) as [r cur]. destruct (truth r); [keeps|].
  apply keeps_bind; [apply keeps_mach; intros; by apply space_strncpy|].
  intros _. apply keeps_bind; [apply keeps_add_position|intros; keeps].
Qed.

(** *** The calls that only look at the process *)

Lemma keeps_getargs buf n : keeps I (getargs buf n).
Proof.
  intros k Hk. unfold getargs. destruct (_ || _); [done|]. unfold copy_arg.
  destruct (strcpy _ _ _) as [m|] eqn:E; [|done]. eapply inv_frame; [|exact Hk].
  apply frame_mach. by eapply space_strcpy.
Qed.

Lemma keeps_vidmap p : keeps I (vidmap p).
Proof.
  intros k Hk. unfold vidmap. destruct (_ || _); [done|]. eapply inv_frame; [|exact Hk]. by split.
Qed.

(** *** Output *)

Lemma keeps_print msg : keeps I (print msg).
Proof. apply keeps_con. intros s. by apply space_putcs. Qed.

Lemma keeps_rtc_write inode buf n :
  keeps I (fun k => let '(r, m) := Rtc.rtc_write inode buf n (kmach k) in Ret r (set_kmach k m)).
Proof.
  intros k Hk. pose proof (inv_frame k (set_kmach k (snd (Rtc.rtc_write inode buf n (kmach k))))) as Hf.
  destruct (Rtc.rtc_write _ _ _ _) as [r m] eqn:E. apply Hf; [|done]. apply frame_mach.
  cbn [snd]. unfold Rtc.rtc_write in E. by destruct (Rtc.rtc_rate _); simplify_eq.
Qed.

End services.

(** ** open *)

Section programs.
Context {L : Layout} {LOK : LayoutOk} {D : Device} {FR : Frames}.
Implicit Type k : kernel.

Lemma live_files_ok k : live_ok k -> files_ok (kfiles k).
Proof. intros [[_ _ [Hl He] _ _] [_ _ _ Ht _]]. by split. Qed.

Lemma files_fds_ok f : files_ok f -> fds_ok (fd f).
Proof. by intros [Hl He _]; split. Qed.

Lemma keeps_lookup_dt fname : keeps live_ok (lookup_dt fname).
Proof.
  intros k Hk. unfold lookup_dt. destruct (read_dentry_by_name _ _ _ _) as [r d].
  eapply inv_frame; [|exact Hk]. by split.
Qed.

Lemma keeps_createFD d : keeps live_ok (createFD d).
Proof.
  intros k Hk. pose proof (live_files_ok k Hk) as Hf.
  destruct (createFD_spec d k Hf) as [(j & Hj & ->)|[-> _]]; [|done].
  apply inv_fd; [|done].
  apply fds_ok_put; [by apply files_fds_ok|by apply new_file_ok].
Qed.

Lemma keeps_open fname : keeps live_ok (open fname).
Proof.
  unfold open. apply keeps_bind; [apply keeps_lookup_dt|]. intros r.
  destruct (r =? -1); [keeps|]. apply keeps_bind; [keeps|]. apply keeps_createFD.
Qed.

(** ** execute *)

Lemma copy_word_space m0 buf curr i c m r :
  same_space m0 m -> copy_word buf curr i c m = Some r -> same_space m0 (snd r).
Proof.
  intros Hm. unfold copy_word.
  match goal with |- while ?f ?a = _ -> _ =>
    pose proof (fun H => while_closed f (fun '(_, _, m1) => same_space m0 m1) (fun r => same_space m0 (snd r)) a r H Hm)
      as Hc; generalize dependent (while f a) end.
  intros w Hc Hw. apply Hc; [|exact Hw]. intros [[i1 c1] m1] H1. cbv beta iota zeta.
  destruct ((ld m1 (buf + c1) =? 0) || (ld m1 (buf + c1) =? 32)); exact H1.
Qed.

Lemma parse_step_space m0 buf x :
  (let '(_, _, _, m1) := x in same_space m0 m1) ->
  match parse_step buf x with
  | inl (_, _, _, m1) => same_space m0 m1
  | inr r => match r with Some m1 => same_space m0 m1 | None => True end
  end.
Proof.
  destruct x as [[[i c] curr] m1]. intros H1. unfold parse_step. destruct (i <? 32); [|done].
  destruct (copy_word buf curr i c m1) as [[[i2 c2] m2]|] eqn:Ew; [|done].
  pose proof (copy_word_space m0 _ _ _ _ _ _ H1 Ew) as H2. cbn [snd] in H2.
  destruct (_ =? 32); [done|]. by destruct (_ =? _).
Qed.

Lemma parse_arg_space buf m m' : parse_arg buf m = Some m' -> same_space m m'.
Proof.
  unfold parse_arg.
  pose proof (while_closed (parse_step buf) (fun '(_, _, _, m1) => same_space m m1)
    (fun r => match r with Some m1 => same_space m m1 | None => True end) (0, 0, filename_at, m)) as Hc.
  generalize dependent (while (parse_step buf) (0, 0, filename_at, m)). intros [r|] Hc; [|done].
  intros Hr. simpl in Hr. subst r. apply (Hc (Some m')); [|done|done].
  intros x Hx. pose proof (parse_step_space m buf x Hx) as Hs.
  destruct (parse_step buf x) as [[[[? ?] ?] ?]|?]; exact Hs.
Qed.

Lemma keeps_checkFile I {KI : KernelInv I} fname : keeps I (checkFile fname).
Proof.
  intros k Hk. unfold checkFile. destruct (read_dentry_by_name _ _ _ _) as [r d].
  destruct (truth r); [eapply inv_frame; [|exact Hk]; by split|].
  match goal with |- context [read_data ?a ?b ?c ?e ?f ?m] =>
    pose proof (space_read_data m a b c e f m (same_space_refl m)) as Hs;
    destruct (read_data a b c e f m) as [n m1] end.
  cbn [snd] in Hs.
  assert (frame k (set_kmach (set_dentry k d) m1)) as Hf by (by split).
  destruct (_ && _ && _ && _); by eapply inv_frame.
Qed.

(** The process table once [setPnum] has given out slot [i]: the current process
    is still the one that called execute. *)
Record launching (i : Z) (k : kernel) : Prop := {
  lc_base : base_ok k;
  lc_slot : pnum (kprocs k) = i /\ 0 <= i < 6;
  lc_caller : is_Some (get_pcb k (curr_pcb (kprocs k))) \/ (curr_pcb (kprocs k) = 0 /\ i < 3);
}.

Lemma setPnum_state k :
  state_ok k -> setPnum k = (-1, k) \/ (fst (setPnum k) = 0 /\ exists i, launching i (snd (setPnum k))).
Proof.
  intros Hk. pose proof (inv_base k Hk) as Hb. destruct (setPnum_spec k (ring_indicator _ (bs_ring _ Hb)))
    as [(i & Hi & ->)|(_ & _ & ->)]; [right|by left].
  split; [done|]. exists i. cbn [snd].
  pose proof (slot_given_range k i (ring_indicator _ (bs_ring _ Hb)) Hi) as Hr.
  destruct Hk as [[B1 B2 B3 B4 B5] Hs]. split.
  - split; [cbn; by rewrite length_insert|done|done| |done].
    intros a p Hp. destruct (B4 a p Hp). by split.
  - done.
  - destruct Hs as [[C1 C2 C3]|[_ _ Hp _ _]]; [right|by left]. split; [done|].
    destruct Hi as [_ [->|(Ho & _)]]; [|].
    + pose proof (ring_indicator _ B2). unfold own_slot. lia.
    + unfold slot_free, own_slot in Ho. rewrite C1 in Ho.
      pose proof (ring_indicator _ B2) as Hn.
      by assert (indicator (ksched k) - 1 = 0 \/ indicator (ksched k) - 1 = 1 \/ indicator (ksched k) - 1 = 2)
        as [E|[E|E]] by lia; rewrite E in Ho.
Qed.

(** The page, the files and the ring of a process about to run. *)
Definition paged k : Prop := forall va, user_base <= va < user_base + 4194304 ->
  translate (kmach k) va = Some (user_frame (pnum (kprocs k)) + (va - user_base)).

Definition ready (i : Z) k : Prop := launching i k /\ paged k /\ tables_set (kfiles k).

Lemma frame_launching i k k' : frame k k' -> launching i k -> launching i k'.
Proof.
  intros Hf [Hb Hs Hc]. pose proof Hf as [_ _ (P1 & _ & P3 & P4) _ _ _].
  split; [by eapply frame_base|by rewrite P1|]. unfold get_pcb in *. by rewrite P3, P4.
Qed.

Lemma frame_paged k k' : frame k k' -> base_ok k -> paged k -> paged k'.
Proof.
  intros [_ _ (P1 & _) _ _ F6] Hb Hp va Hva. rewrite P1, (same_space_user (kmach k)) by (done || apply Hb).
  by apply Hp.
Qed.

Lemma set_mach_base k m : kernel_mapped m -> base_ok k -> base_ok (set_kmach k m).
Proof.
  intros Hm [B1 B2 B3 B4 B5]. split; [done..| |exact Hm].
  intros a p Hp. by destruct (B4 a p Hp); split.
Qed.

Lemma set_addr_base k v : base_ok k -> base_ok (set_addrPage k v).
Proof. intros [B1 B2 B3 B4 B5]. split; [done..| |done]. intros a p Hp. by destruct (B4 a p Hp); split. Qed.

(** [setupPage] and [parentPage]: the user page goes to the frame of the slot. *)
Lemma setupPage_base k i :
  base_ok k -> pnum (kprocs k) = i -> 0 <= i < 6 -> base_ok (setupPage k) /\ paged (setupPage k).
Proof.
  intros Hb Hi Hr. pose proof (bs_mapped _ Hb) as Hm. rewrite (setupPage_spec k i Hi). split.
  - apply set_mach_base; [by apply user_page_mapped|by apply set_addr_base].
  - intros va Hva. change (kmach (set_kmach (set_addrPage k (user_frame i)) (user_page (kmach k) i)))
      with (user_page (kmach k) i).
    rewrite user_page_translate by (done || (unfold user_base in Hva; lia)).
    rewrite decide_True by done. by rewrite <-Hi.
Qed.

Lemma launching_paged k i : launching i k -> launching i (setupPage k) /\ paged (setupPage k).
Proof.
  intros [Hb (Hi & Hr) Hc]. destruct (setupPage_base k i Hb Hi Hr) as [Hb' Hp]. split; [|done].
  by rewrite (setupPage_spec k i Hi) in *.
Qed.

Lemma hoare_initFOTP i k R :
  launching i k -> paged k ->
  match initFOTP k with Ret _ k' => ready i k' | Leave _ k' => R k' | _ => True end.
Proof.
  intros [[B1 B2 B3 B4 B5] Hs Hc] Hp. unfold initFOTP, c_mod. split; [|split; [exact Hp|done]].
  split; [|exact Hs|exact Hc]. split; [done|done| | |done].
  - apply fds_ok_put; [apply fds_ok_put; [done|]|]; (split; [by right|intros; lia]).
  - intros a p Ha. by destruct (B4 a p Ha); split.
Qed.

(** ** createPCB *)

Lemma hoare_fill_pcb i :
  hoare (ready i) fill_pcb (fun a k => live_ok (set_curr_pcb k a)) live_ok.
Proof.
  intros k (Hl & Hp & Ht). unfold fill_pcb, c_bind, c_get, c_some.
  destruct (read_cstr _ _) as [name|]; [|exact Logic.I].
  destruct (_ <=? _); [exact Logic.I|]. unfold c_mod, c_ret.
  destruct Hl as [[B1 B2 B3 B4 B5] (Hi & Hr) Hc].
  set (q := Pcb _ _ _ _ _ _ _ _ _).
  set (k' := set_curr_pcb _ _).
  assert (forall x, get_pcb k' x = if decide (x = pcb_at i) then Some q else get_pcb k x) as Hg.
  { intros x. unfold get_pcb. cbn. rewrite Hi. case_decide as Hd; [subst; by rewrite lookup_insert_eq|].
    by rewrite lookup_insert_ne. }
  assert (forall x, is_Some (get_pcb k x) -> is_Some (get_pcb k' x)) as Hmono.
  { intros x Hx. rewrite Hg. by case_decide. }
  split.
  - split; [done|done|done| |done]. intros a p. rewrite Hg. case_decide as Hd.
    + intros [= <-]. split; unfold q; cbn [pid pcb_fd parent]; rewrite ?Hi; try done.
      destruct Hc as [Hc|[Hc Hlt]]; [left; by apply Hmono|by right].
    + intros Ha. destruct (B4 a p Ha) as [? ? ? Hpar]. split; [done..|].
      destruct Hpar; [left; by apply Hmono|by right].
  - assert (pnum (kprocs k') = i) as Ei by exact Hi.
    assert (curr_pcb (kprocs k') = pcb_at i) as Ec by (by rewrite <-Hi).
    split; rewrite ?Ei, ?Ec; [done|done| |done|].
    + rewrite Hg. by rewrite decide_True.
    + intros va Hva. rewrite <-Hi. by apply Hp.
Qed.

Lemma set_sched_live k s : ring_ok s -> live_ok k -> live_ok (set_ksched k s).
Proof.
  intros Hs [[B1 B2 B3 B4 B5] [V1 V2 V3 V4 V5]]. split; [|by split].
  split; [done..| |done]. intros a p Ha. by destruct (B4 a p Ha); split.
Qed.

Lemma hoare_screen_process :
  hoare live_ok screen_process (fun found k => live_ok k /\ (found = None \/ (found = Some 1 /\ running k))) live_ok.
Proof.
  intros k Hk. rewrite (screen_process_spec k (bs_ring _ (inv_base k Hk))).
  destruct (decide (running k)); auto.
Qed.

Lemma ring_ok_process s q :
  ring_ok s -> next q = 1 -> ring_ok (Sched (indicator s) (active s) (terminals s) 1 (<[0%nat := q]> (ring s))).
Proof.
  intros [R1 R2 R3 R4] Hq. split; cbn [active ring head indicator]; [done|by rewrite length_insert| |done].
  right. split; [done|]. exists q. rewrite list_lookup_insert_eq by lia. done.
Qed.

Lemma hoare_enter_ring found :
  hoare (fun k => live_ok k /\ (found = None \/ (found = Some 1 /\ running k))) (enter_ring found)
    (fun _ => live_ok) live_ok.
Proof.
  intros k (Hk & Hf). pose proof (bs_ring _ (inv_base k Hk)) as Hr.
  destruct Hf as [->|[-> (Hh & q & Hq & _)]]; unfold enter_ring, c_bind, c_get.
  - rewrite (ring_active _ Hr). apply (set_sched_live k (Sched (indicator (ksched k)) (active (ksched k))
      (terminals (ksched k)) 1 (<[0%nat := _]> (ring (ksched k))))); [|done]. by apply ring_ok_process.
  - assert (get_process k 1 = Some q) as Hg by (unfold get_process; simpl; by rewrite <-Hq).
    unfold c_some. rewrite Hg. apply (set_sched_live k (Sched (indicator (ksched k)) (active (ksched k))
      (terminals (ksched k)) 1 (<[0%nat := _]> (ring (ksched k))))); [|done].
    apply ring_ok_process; [done|]. cbn [next].
    destruct Hr as [_ _ Hhead _]. destruct Hhead as [Hz|(_ & q' & Hq' & Hn)]; [congruence|]. by simplify_eq.
Qed.

(** The stores of the frame leave the invariant's fields alone. *)
Lemma keeps_update_pcb save f :
  (forall p, pid (f p) = pid p /\ pcb_fd (f p) = pcb_fd p /\ parent (f p) = parent p) ->
  keeps live_ok (update_pcb save f).
Proof.
  intros Hf k [[B1 B2 B3 B4 B5] [V1 V2 V3 V4 V5]]. unfold update_pcb.
  destruct (get_process k save) as [q|]; [|exact Logic.I].
  destruct (get_pcb k (pcb q)) as [p|] eqn:Ep; [|exact Logic.I].
  set (k' := put_pcb _ _ _).
  assert (forall x, get_pcb k' x = if decide (x = pcb q) then Some (f p) else get_pcb k x) as Hg.
  { intros x. unfold get_pcb. cbn. case_decide as Hd; [subst; by rewrite lookup_insert_eq|].
    by rewrite lookup_insert_ne. }
  assert (forall x, is_Some (get_pcb k x) -> is_Some (get_pcb k' x)) as Hmono.
  { intros x Hx. rewrite Hg. by case_decide. }
  destruct (Hf p) as (F1 & F2 & F3).
  split.
  - split; [done..| |done]. intros a r. rewrite Hg. case_decide as Hd.
    + intros [= <-]. subst a. destruct (B4 _ _ Ep) as [? ? ? Hpar].
      split; rewrite ?F1, ?F2, ?F3; [done..|]. destruct Hpar; [left; by apply Hmono|by right].
    + intros Ha. destruct (B4 a r Ha) as [? ? ? Hpar]. split; [done..|].
      destruct Hpar; [left; by apply Hmono|by right].
  - split; try done. apply Hmono. exact V3.
Qed.

Lemma hoare_createPCB i base : hoare (ready i) (createPCB base) (fun _ => live_ok) live_ok.
Proof.
  unfold createPCB. eapply hoare_bind; [apply hoare_fill_pcb|]. intros a.
  eapply hoare_bind; [by apply (hoare_mod _ _ (fun _ => live_ok))|]. intros ?.
  eapply hoare_bind; [apply (keeps_frame live_ok); by split|]. intros ?.
  eapply hoare_bind; [apply hoare_screen_process|]. intros found.
  eapply hoare_bind; [apply hoare_enter_ring|]. intros save.
  eapply hoare_bind; [apply (keeps_get live_ok)|]. intros entry.
  destruct found; repeat (eapply hoare_bind; [by apply keeps_update_pcb|intros ?]); by apply hoare_leave.
Qed.

Lemma keeps_loadFile i k : launching i k -> paged k -> launching i (loadFile k) /\ paged (loadFile k).
Proof.
  intros Hl Hp. assert (frame k (loadFile k)) as Hf by (apply frame_mach, space_read_data, same_space_refl).
  split; [by eapply frame_launching|]. eapply frame_paged; [done|apply Hl|done].
Qed.

(** [execute] returns without a trace in the process table, or leaves with the new
    program running. *)

Lemma live_mono {A} P (x : C A) :
  hoare P x (fun _ => live_ok) live_ok -> hoare P x (fun _ => state_ok) state_ok.
Proof. intros Hx. eapply hoare_mono; [exact Hx|done|intros ? ?; apply live_state|exact live_state]. Qed.

(** [execute] either returns without a trace in the process table or leaves with the
    new program running. *)
Lemma keeps_execute base buf : keeps state_ok (execute base buf).
Proof.
  unfold execute.
  eapply (hoare_bind _ _ _ (fun m k => state_ok k /\ same_space (kmach k) m)).
  { intros k Hk. unfold c_some. destruct (parse_arg buf (kmach k)) as [m|] eqn:E; [|exact Logic.I].
    split; [done|by eapply parse_arg_space]. }
  intros m. eapply (hoare_bind _ _ _ (fun _ => state_ok)).
  { apply hoare_mod. intros k [Hk Hm]. eapply inv_frame; [by apply frame_mach|done]. }
  intros _. apply keeps_bind; [by apply keeps_checkFile; apply _|]. intros r.
  destruct (truth r); [keeps|].
  eapply (hoare_bind _ _ _ (fun r k => (truth r = true /\ state_ok k) \/ (truth r = false /\ exists i, launching i k))).
  { intros k Hk. destruct (setPnum_state k Hk) as [->|(H0 & i & Hl)]; [left; by split|].
    destruct (setPnum k) as [r' k']. cbn [fst snd] in *. subst r'. right. split; [done|by exists i]. }
  clear r. intros r. destruct (truth r) eqn:Er.
  - apply (hoare_mono _ state_ok _ _ (fun _ => state_ok) _ state_ok);
      [|intros k [[_ Hk]|[? _]]; [exact Hk|done]|done|done].
    apply keeps_bind; [apply keeps_print; apply _|intros _].
    apply keeps_bind; [apply keeps_con; [apply _|intros; by apply space_putcs]|intros _]. keeps.
  - intros k [[? _]|[_ (i & Hl)]]; [done|].
    unfold c_bind at 1, c_mod at 1. destruct (launching_paged k i Hl) as [Hl1 Hp1].
    unfold c_bind at 1, c_mod at 1. destruct (keeps_loadFile i _ Hl1 Hp1) as [Hl2 Hp2].
    pose proof (hoare_initFOTP i _ state_ok Hl2 Hp2) as Hr. unfold c_bind at 1.
    destruct (initFOTP _) as [[] k'| | |]; [|done..].
    exact (live_mono _ _ (hoare_createPCB i base) k' Hr).
Qed.

(** ** halt *)

Lemma keeps_close_from I {KI : KernelInv I} n j : keeps I (close_from n j).
Proof.
  revert j. induction n as [|n IH]; intros j; simpl; [keeps|].
  apply keeps_bind; [by apply keeps_close|]. intros _. apply IH.
Qed.

Lemma free_slot_ok k i : state_ok k -> state_ok (set_pnumarr k (<[i := 0]> (pnumarr (kprocs k)))).
Proof.
  intros [[B1 B2 B3 B4 B5] Hs]. split.
  - split; [cbn; by rewrite length_insert|done|done| |done].
    intros a p Ha. by destruct (B4 a p Ha); split.
  - destruct Hs as [[C1 C2 C3]|[]]; [left|right; by split]. split; [|done|done].
    cbn. rewrite C1. do 6 (destruct i as [|i]; [done|]). by rewrite list_insert_ge by (simpl; lia).
Qed.

(** What is left of [live] while halt goes from the child to its parent. *)
Definition detached k : Prop := base_ok k /\ tables_set (kfiles k).
Definition attached k : Prop := detached k /\ 0 <= pnum (kprocs k) < 6 /\
  curr_pcb (kprocs k) = pcb_at (pnum (kprocs k)) /\ is_Some (get_pcb k (curr_pcb (kprocs k))).

Lemma frame_attached k k' : frame k k' -> attached k -> attached k'.
Proof.
  intros Hf [[Hb Ht] Ha]. pose proof Hf as [_ (T1 & T2 & T3) (P1 & _ & P3 & P4) _ _ _].
  unfold attached, detached, tables_set, get_pcb in *. rewrite P1, P3, P4, T1, T2, T3.
  split; [|done]. split; [by eapply frame_base|done].
Qed.

Lemma parentPage_live k : attached k -> live_ok (parentPage k).
Proof.
  intros [[Hb Ht] (Hr & Hc & Hp)]. destruct (setupPage_base k _ Hb eq_refl Hr) as [Hb' Hpg].
  rewrite parentPage_setupPage. split; [done|].
  rewrite (setupPage_spec k _ eq_refl) in *. by split.
Qed.

Lemma keeps_leave_ring found :
  hoare (fun k => live_ok k /\ (found = None \/ (found = Some 1 /\ running k))) (leave_ring found)
    (fun _ => live_ok) live_ok.
Proof.
  intros k (Hk & Hf). pose proof (bs_ring _ (inv_base k Hk)) as Hr.
  destruct Hf as [->|[-> (Hh & q & Hq & _)]]; unfold leave_ring.
  - unfold c_bind, c_get. rewrite (ring_active _ Hr). cbn [Z.eqb Pos.eqb]. unfold set_next.
    destruct (get_process k 1) as [q|] eqn:Eq; [|exact Logic.I].
    apply (set_sched_live k (Sched (indicator (ksched k)) (active (ksched k))
      (terminals (ksched k)) (head (ksched k)) (<[0%nat := _]> (ring (ksched k))))); [|done].
    destruct Hr as [R1 R2 R3 R4]. split; cbn [active ring head indicator];
      [done|by rewrite length_insert| |done].
    destruct R3 as [?|[? _]]; [by left|right]. split; [done|]. eexists.
    by rewrite list_lookup_insert_eq by lia.
  - assert (get_process k 1 = Some q) as Hg by (unfold get_process; simpl; by rewrite <-Hq). rewrite Hg.
    apply (set_sched_live k (Sched (indicator (ksched k)) (active (ksched k))
      (terminals (ksched k)) (head (ksched k)) (<[0%nat := _]> (ring (ksched k))))); [|done].
    destruct Hr as [R1 R2 R3 R4]. split; cbn [active ring head indicator];
      [done|by rewrite length_insert| |done].
    destruct R3 as [?|(? & q' & Hq' & Hn)]; [by left|right]. split; [done|]. eexists.
    rewrite list_lookup_insert_eq by lia. split; [done|]. simplify_eq. exact Hn.
Qed.

Lemma keeps_halt base status : keeps state_ok (halt base status).
Proof.
  unfold halt. apply keeps_bind; [apply keeps_mod; intros; by apply free_slot_ok|]. intros _.
  apply keeps_bind; [keeps|]. intros n.
  apply keeps_bind.
  { destruct (n <? 3); [|keeps]. apply keeps_bind; [apply keeps_execute|intros; keeps]. }
  intros _. eapply (hoare_bind _ _ _ (fun _ => live_ok)).
  { intros k Hk. unfold current_pcb, c_some. destruct (get_pcb k _) as [c|] eqn:E; [|exact Logic.I].
    destruct Hk as [Hb [[_ _ Hn]|Hl]]; [|by split]. unfold get_pcb in E. rewrite Hn, lookup_empty in E. done. }
  intros child. apply live_mono.
  eapply hoare_bind; [apply (keeps_frame live_ok); by split|]. intros ?.
  eapply hoare_bind; [by apply (keeps_close_from live_ok); apply _|]. intros ?.
  eapply (hoare_bind _ _ _ (fun _ => detached)).
  { apply hoare_mod. intros k [[B1 B2 B3 B4 B5] [_ _ _ Ht _]]. split; [|done].
    split; [done..| |done]. intros x p Ha. by destruct (B4 x p Ha); split. }
  intros _. eapply (hoare_bind _ _ _ (fun p k => detached k /\ get_pcb k (curr_pcb (kprocs k)) = Some p)).
  { intros k Hk. unfold current_pcb, c_some. by destruct (get_pcb k _) as [c|] eqn:E. }
  intros p. eapply (hoare_bind _ _ _ (fun _ k => attached k /\ fds_ok (pcb_fd p))).
  { apply hoare_mod. intros k [[Hb Ht] Hp]. destruct (bs_pcbs _ Hb _ _ Hp) as [K1 K2 K3 K4].
    destruct Hb as [B1 B2 B3 B4 B5]. split; [|done]. split; [split; [|done]|].
    - split; [done..| |done]. intros x q Ha. by destruct (B4 x q Ha); split.
    - split; [done|]. split; [done|]. by exists p. }
  intros _. eapply (hoare_bind _ _ _ (fun _ => attached)).
  { apply hoare_mod. intros k [[[Hb Ht] Ha] Hf]. split; [|exact Ha].
    split; [by apply set_fd_base|exact Ht]. }
  intros _. eapply (hoare_bind _ _ _ (fun _ => attached)).
  { apply hoare_mod. intros k Hk. eapply frame_attached; [|exact Hk]. by apply frame_mach, space_store_bytes. }
  intros _. eapply (hoare_bind _ _ _ (fun _ => live_ok)).
  { apply hoare_mod. apply parentPage_live. }
  intros _. eapply hoare_bind; [apply hoare_screen_process|]. intros found.
  eapply hoare_bind; [apply keeps_leave_ring|]. intros ?. by apply hoare_leave.
Qed.

(** ** Terminals, interrupts and waits *)

Lemma frame_save k : frame k (getCursorandBuffer k).
Proof.
  unfold getCursorandBuffer, save_cursor.
  destruct (_ =? 1); [|destruct (_ =? 2); [|destruct (_ =? 3); [|done]]];
    (etrans; [apply frame_put_saved|apply frame_mach, space_memcpy, same_space_refl]).
Qed.

Lemma frame_load k : frame k (setCursorandBuffer k).
Proof.
  unfold setCursorandBuffer, load_cursor.
  destruct (_ =? 1); [|destruct (_ =? 2); [|destruct (_ =? 3); [|done]]];
    (etrans; [|apply frame_mach, space_memcpy, same_space_refl]); by apply frame_con.
Qed.

Lemma frame_from_video k : frame k (copyFromVideo k).
Proof.
  unfold copyFromVideo, from_video.
  destruct (_ =? 1); [|destruct (_ =? 2); [|destruct (_ =? 3); [|done]]];
    (etrans; [apply frame_window|apply frame_mach, space_memcpy, same_space_refl]).
Qed.

Lemma frame_to_video k : frame k (copyToVideo k).
Proof.
  unfold copyToVideo. apply frame_mach.
  assert (forall m m' a v i, same_space m m' -> same_space m (setupPagingDirectoryTable a v i m')) as Hw by done.
  apply Hw. repeat (destruct (_ =? _); [apply space_memcpy, same_space_refl|]). done.
Qed.

Lemma frame_switch k n : 1 <= n <= 3 -> frame k (set_indicator k n).
Proof. by split. Qed.

(** The steps of the handlers, for [state_ok]. *)
Lemma ok_con f : (forall s, same_space (mach s) (mach (f s))) -> keeps state_ok (c_console f).
Proof. apply keeps_con, _. Qed.

Lemma ok_mach f : (forall m, same_space m (f m)) -> keeps state_ok (c_mach f).
Proof. apply keeps_mach, _. Qed.

Lemma ok_frame f : (forall k, frame k (f k)) -> keeps state_ok (c_mod f).
Proof. apply keeps_frame, _. Qed.

Lemma frame_read_flag k v : frame k (set_read_flag k v).
Proof. by split. Qed.

Hint Resolve ok_con ok_mach ok_frame keeps_execute keeps_halt frame_save frame_load frame_from_video
  frame_to_video frame_switch frame_put_saved frame_window frame_keys frame_read_flag frame_mach : keeps.
Hint Resolve space_putc space_putcs space_reset_screen : keeps.
Hint Extern 1 (same_space _ _) => done : keeps.

Lemma keeps_switch_screen n base : 1 <= n <= 3 -> keeps state_ok (switch_screen n base).
Proof. intros Hn. unfold switch_screen. keeps. Qed.


Lemma keeps_putc_table t z : keeps state_ok (putc_table t z).
Proof. unfold putc_table. keeps. Qed.

Lemma keeps_key_char z : keeps state_ok (key_char z).
Proof. unfold key_char. apply keeps_bind; [keeps|intros f]. keeps; apply keeps_putc_table. Qed.

Hint Resolve keeps_switch_screen keeps_key_char : keeps.
Hint Extern 1 (_ <= _ <= _) => lia : keeps.

Lemma keeps_keyboard_handler base : keeps state_ok (keyboard_handler base).
Proof.
  unfold keyboard_handler. apply keeps_bind.
  { intros k Hk. unfold getScancode. destruct (inb _ _) as [v m] eqn:E.
    eapply inv_frame; [|exact Hk]. apply frame_mach. unfold inb in E. by simplify_eq. }
  intros z. apply keeps_bind; [keeps|intros _].
  destruct (truth _); [unfold key_up; keeps; apply ok_frame; by split|].
  destruct (key_accepted z); [|keeps].
  unfold key_down, screen1, screen2, screen3. keeps; apply ok_frame; by split.
Qed.

Lemma keeps_interrupt base i : keeps state_ok (interrupt base i).
Proof.
  unfold interrupt. apply keeps_bind; [keeps|intros f]. apply keeps_bind; [keeps|intros _].
  apply keeps_bind; [|intros; keeps].
  destruct i; cbn [handler]; [apply ok_frame; by split|apply keeps_keyboard_handler|apply ok_frame; by split].
Qed.

Lemma keeps_wait_while base test irqs : keeps state_ok (wait_while base test irqs).
Proof.
  revert irqs. induction irqs as [|i irqs IH]; simpl; keeps; apply keeps_interrupt || exact IH.
Qed.

Lemma copy_line_space buf n k : frame k (snd (copy_line buf n k)).
Proof.
  unfold copy_line. set (k1 := set_kmach k _).
  assert (frame k k1) as H1.
  { apply frame_mach. apply space_for; [|done]. intros. by apply space_st. }
  clearbody k1.
  set (k2 := if tbuf (con k1) <? 128 then _ else _).
  assert (frame k1 k2) as H2.
  { unfold k2. destruct (_ <? _); [by apply frame_mach|]. by split. }
  clearbody k2. etrans; [exact H1|]. etrans; [exact H2|].
  destruct (n <? _); cbn [snd]; apply frame_mach, space_st, space_for; try done; intros; by apply space_st.
Qed.

Lemma keeps_terminal_read base irqs fd buf n : keeps state_ok (terminal_read base irqs fd buf n).
Proof.
  unfold terminal_read. apply keeps_bind; [keeps|intros _].
  apply keeps_bind; [apply keeps_wait_while|intros irqs'].
  apply keeps_bind; [|intros; keeps].
  apply (keeps_frame_at state_ok (copy_line buf n)). apply copy_line_space.
Qed.

Lemma keeps_terminal_write base irqs fd buf n : keeps state_ok (terminal_write base irqs fd buf n).
Proof.
  unfold terminal_write. apply keeps_bind; [apply keeps_wait_while|intros irqs'].
  apply keeps_bind; [|intros; keeps]. apply ok_con. intros s.
  apply space_for_console; [|done]. intros. by apply space_putc.
Qed.

Lemma keeps_rtc_read base irqs fd buf n : keeps state_ok (rtc_read base irqs fd buf n).
Proof.
  unfold rtc_read. apply keeps_bind; [apply ok_frame; by split|intros _].
  apply keeps_bind; [keeps|intros _]. apply keeps_bind; [apply keeps_wait_while|intros; keeps].
Qed.

(** ** The system calls *)

Lemma keeps_no_wait I irqs (x : C Z) : keeps I x -> keeps I (no_wait irqs x).
Proof. intros Hx. unfold no_wait. apply keeps_bind; [done|intros; keeps]. Qed.

Lemma keeps_read base irqs fdr buf n : keeps state_ok (read base irqs fdr buf n).
Proof.
  unfold read. destruct (_ || _); [keeps|]. apply keeps_with_fd; [apply _|]. intros f _.
  destruct (truth _); [|keeps]. unfold call_read.
  destruct (f_read (fotp f)); try keeps; auto using keeps_terminal_read, keeps_rtc_read;
    apply keeps_no_wait; keeps; apply keeps_file_read || apply keeps_directory_read; apply _.
Qed.

Lemma keeps_write base irqs fdr buf n : keeps state_ok (write base irqs fdr buf n).
Proof.
  unfold write. destruct (_ || _); [keeps|]. apply keeps_with_fd; [apply _|]. intros f _.
  destruct (truth _); [|keeps]. unfold call_write.
  destruct (f_write (fotp f)); try keeps; auto using keeps_terminal_write;
    apply keeps_no_wait; keeps. apply keeps_rtc_write, _.
Qed.

Hint Resolve keeps_no_wait keeps_read keeps_write : keeps.

(** A call made by a running program. *)
Lemma hoare_syscall irqs eax ebx ecx edx :
  hoare live_ok (syscall_link irqs eax ebx ecx edx) (fun _ => state_ok) state_ok.
Proof.
  unfold syscall_link. cbv zeta.
  apply (hoare_bind _ _ _ (fun _ => live_ok)); [by apply hoare_get|]. intros esp.
  assert (forall A (x : C A), keeps state_ok x -> hoare live_ok x (fun _ => state_ok) state_ok) as Hok
    by (intros A x Hx; eapply hoare_mono; [exact Hx|exact live_state|done|done]).
  destruct (10 <=? _); [apply Hok; keeps|].
  destruct (_ =? 0); [apply Hok; keeps|]. destruct (_ =? 1); [apply Hok; keeps|].
  destruct (_ =? 2); [apply Hok; keeps|]. destruct (_ =? 3); [apply Hok; keeps|].
  destruct (_ =? 4); [by apply live_mono, keeps_no_wait, keeps_open|].
  destruct (_ =? 5); [apply Hok, keeps_no_wait, keeps_close, _|].
  destruct (_ =? 6); [apply Hok, keeps_no_wait, keeps_getargs, _|].
  destruct (_ =? 7); [apply Hok, keeps_no_wait, keeps_vidmap, _|].
  destruct (_ =? 8); apply Hok; unfold set_handler, sigreturn; keeps.
Qed.

Lemma keeps_exception e base : keeps state_ok (exception e base).
Proof.
  assert (forall msg, keeps state_ok (die base msg)) as Hd.
  { intros msg. unfold die. apply keeps_bind; [apply keeps_print, _|intros _].
    apply keeps_bind; [|intros; keeps]. apply ok_con. intros s. by apply space_putcs. }
  destruct e; cbn [exception]; apply Hd || keeps.
Qed.

(** ** Steps *)

(** What a call may be given: the buffers the kernel writes through lie in the user
    page, a count to read is not negative, and the words of a command fit the two
    name arrays of the kernel.  The kernel does not look: a program that breaks this
    can have the kernel's own variables or page tables overwritten, which the model
    keeps apart from the memory. *)
Definition user_range (a n : Z) : Prop := user_base <= a /\ a + n <= user_base + 4194304.

Definition arguments_safe k (eax ebx ecx edx : Z) : Prop :=
  (eax = 2 -> forall m, parse_arg (u32 ebx) (kmach k) = Some m -> touches names_bytes (kmach k) m) /\
  (eax = 3 -> 0 <= s32 edx /\ user_range (u32 ecx) (Z.max 129 (s32 edx + 1))) /\
  (eax = 7 -> user_range (u32 ebx) (Z.max 33 (s32 ecx))) /\
  (eax = 8 -> user_range (u32 ebx) 4).

(** How a handler ends, as the rest of the kernel sees it: it returns or it leaves.
    One that never returns, or whose behaviour C leaves undefined, does not end. *)
Definition ends {A} (x : C A) (k k' : kernel) : Prop :=
  (exists a, x k = Ret a k') \/ (exists l, x k = Leave l k').

Lemma keeps_ends {A} P (x : C A) (Q : kernel -> Prop) k k' :
  hoare P x (fun _ => Q) Q -> P k -> ends x k k' -> Q k'.
Proof. intros Hx Hk [[a E]|[l E]]; specialize (Hx k Hk); by rewrite E in Hx. Qed.

(** One event: the boot goes on to the first shell, the running program makes a
    system call or writes its own page, it faults, or a device interrupts. *)
Inductive step (k : kernel) : kernel -> Prop :=
  | step_start base k' : cold k -> ends (init_screen_memory base) k k' -> step k k'
  | step_syscall irqs eax ebx ecx edx k' :
      live k -> arguments_safe k eax ebx ecx edx -> ends (syscall_link irqs eax ebx ecx edx) k k' -> step k k'
  | step_exception e base k' : live k -> ends (exception e base) k k' -> step k k'
  | step_interrupt base i k' : ends (interrupt base i) k k' -> step k k'
  | step_user a v : live k -> user_range a 1 -> step k (set_kmach k (st (kmach k) a v)).

(** The kernel as the boot leaves it: no program yet, the kernel mapped, the three
    terminals still to be set up. *)
Record booted (k : kernel) : Prop := {
  bt_base : base_ok k;
  bt_cold : cold k;
}.

Inductive reachable : kernel -> Prop :=
  | reachable_boot k : booted k -> reachable k
  | reachable_step k k' : reachable k -> step k k' -> reachable k'.

Lemma keeps_init_screen_memory base : keeps state_ok (init_screen_memory base).
Proof. unfold init_screen_memory, screen1. keeps. Qed.

Lemma step_ok k k' : state_ok k -> step k k' -> state_ok k'.
Proof.
  intros Hk Hs. destruct Hs as [base k' Hc He|irqs eax ebx ecx edx k' Hl Hp He|e base k' Hl He|base i k' He|a v Hl Ha].
  - by eapply keeps_ends; [apply keeps_init_screen_memory| |exact He].
  - eapply keeps_ends; [apply hoare_syscall| |exact He]. split; [apply Hk|done].
  - by eapply keeps_ends; [apply keeps_exception| |exact He].
  - by eapply keeps_ends; [apply keeps_interrupt| |exact He].
  - eapply inv_frame; [|exact Hk]. by apply frame_mach, space_st.
Qed.

Lemma reachable_ok k : reachable k -> state_ok k.
Proof.
  induction 1 as [k [Hb Hc]|k k' _ IH Hs]; [|by eapply step_ok]. split; [done|by left].
Qed.

Lemma pcb_at_inj i j : pcb_at i = pcb_at j -> i = j.
Proof. unfold pcb_at, KERNELBOT, STACKSIZE. lia. Qed.

(** The current process of a live state in a shared slot may end. *)
Lemma live_ending k :
  live_ok k -> 3 <= pnum (kprocs k) ->
  exists c p, ending k c p /\ pid c = pnum (kprocs k) /\ 0 <= pid p < 6 /\ parent c = pcb_at (pid p) /\
    fds_ok (pcb_fd p).
Proof.
  intros Hk Hn. pose proof (live_files_ok k Hk) as Hf. destruct Hk as [Hb [V1 V2 [c Hc] V4 V5]].
  destruct (bs_pcbs _ Hb _ _ Hc) as [K1 K2 K3 [[p Hp]|[_ Hlt]]].
  - destruct (bs_pcbs _ Hb _ _ Hp) as [Q1 Q2 Q3 Q4]. exists c, p.
    assert (pid c = pnum (kprocs k)) as E by (apply pcb_at_inj; congruence).
    split; [|done]. split; [done|done|apply Hb|done|done].
  - assert (pid c = pnum (kprocs k)) as E by (apply pcb_at_inj; congruence). lia.
Qed.

End programs.

Section contract.
Context {L : Layout} {LOK : LayoutOk} {D : Device} {FR : Frames}.
Implicit Type k : kernel.


(** C4: what the end of a program gives back.  In a state of the invariant, [halt]
    of the program running in a shared slot is defined; it makes the parent the
    running program again: its PCB current, its slot, its descriptors, its page, with
    every PCB and the invariant kept; and it leaves through the frame that the
    program's PCB records.  That this frame is the one of the program's own start is
    not claimed: [createPCB] records it only when process1 is of the terminal in view
    (see [execute_halt_roundtrip] and [execute_loses_halt_frame]). *)
Theorem halt_restores_parent k base status :
  state_ok k -> live k -> 3 <= pnum (kprocs k) ->
  exists c p k',
    get_pcb k (curr_pcb (kprocs k)) = Some c /\ get_pcb k (parent c) = Some p /\
    halt base status k = Leave (ToFrame (haltesp c) (haltebp c) (u8 status)) k' /\
    curr_pcb (kprocs k') = parent c /\ pnum (kprocs k') = pid p /\ fd (kfiles k') = pcb_fd p /\
    (forall x, get_pcb k' x = get_pcb k x) /\ state_ok k' /\ live k'.
Proof.
  intros Hk Hl Hn. assert (live_ok k) as Hlk by (split; [apply Hk|done]).
  destruct (live_ending k Hlk Hn) as (c & p & He & Hid & Hp & Hpar & Hfd).
  pose proof (halt_spec k c p base status He) as Hh.
  assert (state_ok (halt_state k c p)) as Hok.
  { pose proof (keeps_halt base status k Hk) as H. by rewrite Hh in H. }
  exists c, p, (halt_state k c p). destruct He as [E1 E2 E3 E4 E5].
  split_and!; [done|done|done| | | | |done|]; try by (unfold halt_state; destruct (left_ring _)).
  destruct Hok as [_ [Hc|Hlive]]; [|done].
  pose proof (co_pcbs _ Hc) as Hz. change (pcbs (kprocs (halt_state k c p))) with (pcbs (kprocs k)) in Hz.
  unfold get_pcb in E4. by rewrite Hz, lookup_empty in E4.
Qed.

End contract.

(** *** Examples *)

#[local] Existing Instance demo_layout.
#[local] Existing Instance demo_layout_ok.
#[local] Existing Instance demo_frames.

Definition quiet_device : Device := fun _ _ => 0.
#[local] Existing Instance quiet_device.

(** A machine that has just booted, with [m] as its memory. *)
Definition boot_kernel (m : machine) : kernel :=
  Kernel (Console m 0 0 0 0) 0 (Files (replicate 8 null_file) (Dentry 0 0 0) null_fops null_fops null_fops null_fops null_fops)
    (Procs 0 (replicate 6 0) 0 (Dentry 0 0 0) 0 ∅ 0x800000)
    (Sched 1 1 (replicate 3 (Saved 0 0 0 0)) 0 (replicate 3 null_process)) (Keys 0 0 0 0) 0 0.

Lemma null_fds_ok : fds_ok (replicate 8 null_file).
Proof.
  split; [done|]. intros i e He. apply lookup_replicate in He as [-> _]. split; [by left|done].
Qed.

Lemma boot_kernel_ok m : kernel_mapped m -> booted (boot_kernel m).
Proof.
  intros Hm. split; [|by split]. split; [done| |exact null_fds_ok|done|exact Hm].
  split; [done|done|by left|simpl; lia].
Qed.


(** A child in slot 3, with the shell as its parent and its own page. *)
Definition child_running : kernel := set_kmach child_system (user_page shell_machine 3).

Lemma child_running_live : live_ok child_running.
Proof.
  pose proof (user_page_mapped shell_machine 3 shell_mapped ltac:(lia)) as Hm.
  pose proof (fun va => user_page_translate shell_machine 3 va shell_mapped ltac:(lia)) as Hpage.
  unfold child_running. generalize dependent (user_page shell_machine 3). intros m Hm Hpage.
  assert (forall x, get_pcb (set_kmach child_system m) x
    = if decide (x = pcb_at 3) then Some child_pcb else if decide (x = pcb_at 0) then Some (shell_pcb 0 0) else None)
    as Hg.
  { intros x. unfold get_pcb. change (pcbs (kprocs (set_kmach child_system m)))
      with (<[pcb_at 3 := child_pcb]> ({[pcb_at 0 := shell_pcb 0 0]} : gmap Z pcb_t)).
    case_decide as H3; [subst; by rewrite lookup_insert_eq|]. rewrite lookup_insert_ne by done.
    case_decide as H0; [subst; by rewrite lookup_singleton_eq|by rewrite lookup_singleton_ne]. }
  assert (fds_ok (fd started_files)) as Hf by (apply files_fds_ok, started_files_ok).
  split; split.
  - reflexivity.
  - exact (so_ring _ _ (shell_system_ok [1; 0; 0; 1; 0; 0] eq_refl)).
  - exact Hf.
  - intros a p. rewrite Hg. case_decide as H3; [|case_decide as H0; [|done]]; intros [= <-]; subst a.
    + split; [simpl; lia|done|exact Hf|]. left. rewrite Hg. by exists (shell_pcb 0 0).
    + split; [simpl; lia|done|exact Hf|]. right. by split.
  - exact Hm.
  - simpl. lia.
  - done.
  - change (curr_pcb (kprocs (set_kmach child_system m))) with (pcb_at 3). rewrite Hg. by exists child_pcb.
  - by split_and!.
  - intros va Hva. change (translate m va = Some (user_frame 3 + (va - user_base))).
    unfold user_base in *. rewrite Hpage by lia. by rewrite decide_True.
Qed.

Lemma halt_restores_parent_witness :
  exists k', halt 0 7 child_running = Leave (ToFrame 0x7FEF00 0x7FEF40 7) k' /\
    curr_pcb (kprocs k') = pcb_at 0 /\ live k'.
Proof.
  destruct child_running_live as [Hb Hl].
  destruct (halt_restores_parent child_running 0 7) as (c & p & k' & Hc & _ & Hh & Hcur & _ & _ & _ & _ & Hl').
  - split; [exact Hb|right; exact Hl].
  - exact Hl.
  - change (pnum (kprocs child_running)) with 3. lia.
  - unfold get_pcb in Hc. change (curr_pcb (kprocs child_running)) with (pcb_at 3) in Hc.
    change (pcbs (kprocs child_running))
      with (<[pcb_at 3 := child_pcb]> ({[pcb_at 0 := shell_pcb 0 0]} : gmap Z pcb_t)) in Hc.
    rewrite lookup_insert_eq in Hc. injection Hc as <-.
    exists k'. split; [exact Hh|split; [exact Hcur|exact Hl']].
Defined.
