(* ===== verification/Boot.v ===== *)
(** * The boot (student-distrib/kernel.c, multiboot.h, x86_desc.h)

    [entry]: the report on what the boot loader passed, with the module that becomes
    the file system, the descriptors of the LDT and the TSS, and the devices, up to
    the first shell.  [base] is the stack pointer at the call of
    init_screen_memory; where the linker puts the LDT and the TSS is the parameter
    [Segments].  The endless [hlt] that follows the call is not modelled. *)
From Stdlib Require Import ZArith Lia String.
From stdpp Require Import base list gmap numbers.
From S2P Require Import Prelude ByteMem LibString Machine Paging Devices Console Filesystem Kernel Logic FileTable Process Execute Scheduling Keyboard Terminal Syscall Idt System.

#[local] Open Scope c_scope.

Definition MULTIBOOT_BOOTLOADER_MAGIC : Z := 0x2BADB002.
Definition KERNEL_DS : Z := 0x0018.
Definition KERNEL_TSS : Z := 0x0030.
Definition KERNEL_LDT : Z := 0x0038.
Definition TSS_SIZE : Z := 104.

(** The members of [multiboot_info_t], [module_t] and [memory_map_t], as offsets. *)
Definition mbi_flags : Z := 0.
Definition mbi_mem_lower : Z := 4.
Definition mbi_mem_upper : Z := 8.
Definition mbi_boot_device : Z := 12.
Definition mbi_cmdline : Z := 16.
Definition mbi_mods_count : Z := 20.
Definition mbi_mods_addr : Z := 24.
Definition mbi_elf_num : Z := 28.
Definition mbi_elf_size : Z := 32.
Definition mbi_elf_addr : Z := 36.
Definition mbi_elf_shndx : Z := 40.
Definition mbi_mmap_length : Z := 44.
Definition mbi_mmap_addr : Z := 48.

Definition mod_start : Z := 0.
Definition mod_end : Z := 4.
Definition sizeof_module_t : Z := 16.

Definition map_size : Z := 0.
Definition map_base_low : Z := 4.
Definition map_base_high : Z := 8.
Definition map_length_low : Z := 12.
Definition map_length_high : Z := 16.
Definition map_type : Z := 20.

Definition CHECK_FLAG (flags bit : Z) : bool := truth (Z.land flags (Z.shiftl 1 bit)).

Section report.
Context {L : Layout}.

(** [printf] of a literal: the text of the format, as [printf_correct] has it; a [%s]
    that is not a string is outside the model. *)
Definition printk (fmt : list Z) (args : list Z) : C unit := fun k =>
  match format_text (read_cstr (kmach k)) None fmt args with
  | Some text => Ret tt (set_con k (putcs text (con k)))
  | None => Undef
  end.

Definition ln (s : string) : list Z := chars s ++ [10].

(** [p->member] *)
Definition member (p offset : Z) : C Z := c_get (fun k => ld32 (kmach k) (p + offset)).

(** The loop over the first sixteen bytes. *)
Fixpoint module_bytes (n : nat) (md i : Z) : C unit :=
  match n with
  | O => c_ret tt
  | S n =>
      (start <- member md mod_start ;;
       b <- c_get (fun k => s8 (ld (kmach k) (u32 (start + i)))) ;;
       printk (chars "0x%x ") [b] ;;;
       module_bytes n md (i + 1))
  end.

(** One turn of the loop over the modules: the last one stays in [FSYSTEM]. *)
Definition boot_module (mod_count md : Z) : C unit :=
  start <- member md mod_start ;;
  printk (ln "Module %d loaded at address: 0x%#x") [mod_count; start] ;;;
  last <- member md mod_end ;;
  printk (ln "Module %d ends at address: 0x%#x") [mod_count; last] ;;;
  printk (ln "First few bytes of module:") [] ;;;
  module_bytes 16 md 0 ;;;
  printk [10] [] ;;;
  start <- member md mod_start ;;
  c_mod (fun k => set_FSYSTEM k start).

(** A loop whose turns run in the monad; [None] leaves it. *)
Definition c_while {A} (turn : A -> C (option A)) (a : A) : C unit := fun k =>
  match while (fun '(a, k) =>
    match turn a k with
    | Ret (Some a) k => inl (a, k)
    | Ret None k => inr (Ret tt k)
    | Leave l k => inr (Leave l k)
    | Undef => inr Undef
    | Hang => inr Hang
    end) (a, k) with
  | Some r => r
  | None => Hang
  end.

(** [while (mod_count < mbi->mods_count)], an unsigned comparison. *)
Definition boot_modules (mbi : Z) : C unit :=
  mods <- member mbi mbi_mods_addr ;;
  c_while (fun '(mod_count, md) =>
    n <- member mbi mbi_mods_count ;;
    if u32 mod_count <? n then
      boot_module mod_count md ;;;
      c_ret (Some (s32 (mod_count + 1), u32 (md + sizeof_module_t)))
    else c_ret None) (0, mods).

Definition boot_mmap (mbi : Z) : C unit :=
  addr <- member mbi mbi_mmap_addr ;;
  length <- member mbi mbi_mmap_length ;;
  printk (ln "mmap_addr = 0x%#x, mmap_length = 0x%x") [addr; length] ;;;
  addr <- member mbi mbi_mmap_addr ;;
  c_while (fun mmap =>
    addr <- member mbi mbi_mmap_addr ;;
    length <- member mbi mbi_mmap_length ;;
    if mmap <? u32 (addr + length) then
      size <- member mmap map_size ;;
      bh <- member mmap map_base_high ;;
      bl <- member mmap map_base_low ;;
      type <- member mmap map_type ;;
      lh <- member mmap map_length_high ;;
      ll <- member mmap map_length_low ;;
      printk (ln " size = 0x%x,     base_addr = 0x%#x%#x" ++ ln "     type = 0x%x,  length    = 0x%#x%#x")
        [size; bh; bl; type; lh; ll] ;;;
      size <- member mmap map_size ;;
      c_ret (Some (u32 (mmap + size + 4)))
    else c_ret None) addr.

(** The report, up to the modules. *)
Definition boot_report (mbi : Z) : C unit :=
  flags <- member mbi mbi_flags ;;
  printk (ln "flags = 0x%#x") [flags] ;;;
  flags <- member mbi mbi_flags ;;
  (if CHECK_FLAG flags 0 then
     lower <- member mbi mbi_mem_lower ;;
     upper <- member mbi mbi_mem_upper ;;
     printk (ln "mem_lower = %uKB, mem_upper = %uKB") [lower; upper]
   else c_ret tt) ;;;
  flags <- member mbi mbi_flags ;;
  (if CHECK_FLAG flags 1 then
     device <- member mbi mbi_boot_device ;;
     printk (ln "boot_device = 0x%#x") [device]
   else c_ret tt) ;;;
  flags <- member mbi mbi_flags ;;
  (if CHECK_FLAG flags 2 then
     cmdline <- member mbi mbi_cmdline ;;
     printk (ln "cmdline = %s") [cmdline]
   else c_ret tt) ;;;
  flags <- member mbi mbi_flags ;;
  if CHECK_FLAG flags 3 then boot_modules mbi else c_ret tt.

(** The rest of it: the section header table and the memory map. *)
Definition boot_symbols (mbi : Z) : C unit :=
  flags <- member mbi mbi_flags ;;
  (if CHECK_FLAG flags 5 then
     num <- member mbi mbi_elf_num ;;
     size <- member mbi mbi_elf_size ;;
     addr <- member mbi mbi_elf_addr ;;
     shndx <- member mbi mbi_elf_shndx ;;
     printk (ln "elf_sec: num = %u, size = 0x%#x, addr = 0x%#x, shndx = 0x%#x") [num; size; addr; shndx]
   else c_ret tt) ;;;
  flags <- member mbi mbi_flags ;;
  if CHECK_FLAG flags 6 then boot_mmap mbi else c_ret tt.

(** [false] when the boot gives up. *)
Definition boot_info (mbi : Z) : C bool :=
  boot_report mbi ;;;
  flags <- member mbi mbi_flags ;;
  if CHECK_FLAG flags 4 && CHECK_FLAG flags 5 then
    printk (ln "Both bits 4 and 5 are set.") [] ;;;
    c_ret false
  else
    boot_symbols mbi ;;;
    c_ret true.

End report.

(** ** Segments *)

(** The union [seg_desc_t], as its bit fields. *)
Record seg_desc_t := SegDesc {
  seg_lim_15_00 : Z;
  base_15_00 : Z;
  base_23_16 : Z;
  seg_type : Z;
  seg_sys : Z;
  seg_dpl : Z;
  seg_present : Z;
  seg_lim_19_16 : Z;
  seg_avail : Z;
  seg_reserved : Z;
  seg_opsize : Z;
  seg_granularity : Z;
  base_31_24 : Z;
}.

(** The macros [SET_LDT_PARAMS] and [SET_TSS_PARAMS], which are the same text. *)
Definition SET_LDT_PARAMS (addr lim : Z) (d : seg_desc_t) : seg_desc_t :=
  SegDesc (Z.land lim 0x0000FFFF) (Z.land addr 0x0000FFFF) (Z.shiftr (Z.land addr 0x00FF0000) 16)
    (seg_type d) (seg_sys d) (seg_dpl d) (seg_present d) (Z.shiftr (Z.land lim 0x000F0000) 16)
    (seg_avail d) (seg_reserved d) (seg_opsize d) (seg_granularity d) (Z.shiftr (Z.land addr 0xFF000000) 24).

Definition SET_TSS_PARAMS : Z -> Z -> seg_desc_t -> seg_desc_t := SET_LDT_PARAMS.

(** Where x86_desc.S puts the two segments, and their sizes less one. *)
Class Segments := {
  ldt_at : Z;
  ldt_size : Z;
  tss_at : Z;
  tss_size : Z;
}.

(** The tables of the processor; [tss.esp0] is in the kernel's state. *)
Record cpu_tables := Tables {
  idt : list idt_desc_t;
  ldt_desc_ptr : seg_desc_t;
  tss_desc_ptr : seg_desc_t;
  ldt_segment_selector : Z;
  ss0 : Z;
}.

Section entry.
Context {L : Layout} {D : Device} {FR : Frames} {H : Handlers} {SG : Segments}.

(** A local variable whose fields are all assigned but those of the macros, which
    come next. *)
Definition boot_ldt : seg_desc_t :=
  SET_LDT_PARAMS ldt_at ldt_size (SegDesc 0 0 0 2 0 0 1 0 0 0 1 0 0).

Definition boot_tss : seg_desc_t :=
  SET_TSS_PARAMS tss_at tss_size
    (SegDesc (Z.land TSS_SIZE 0x0000FFFF) 0 0 9 0 0 1 (Z.land TSS_SIZE 0x000F0000) 0 0 0 0 0).

Definition boot_tables (t : cpu_tables) : cpu_tables :=
  Tables (idt_init (idt t)) boot_ldt boot_tss KERNEL_LDT KERNEL_DS.

(** From [tss.esp0 = 0x800000] to [sti]. *)
Definition boot_devices : C unit :=
  c_mod (fun k => set_esp0 k 0x800000) ;;;
  c_console reset_screen ;;;
  c_mach initPaging ;;;
  c_mach I8259.i8259_init ;;;
  c_mod keyboard_init ;;;
  c_mach (update_cursor 0 0) ;;;
  c_mach Rtc.rtc_init ;;;
  c_mach Pit.pit_init ;;;
  m <- (fun k => c_some (Pit.pit_write 40 (kmach k)) k) ;;
  c_mod (fun k => set_kmach k m) ;;;
  c_mach sti.

Definition entry (magic addr base : Z) (t : cpu_tables) (k : kernel) : outcome unit * cpu_tables :=
  let k := set_con k (clear (con k)) in
  if negb (magic =? MULTIBOOT_BOOTLOADER_MAGIC) then
    (printk (ln "Invalid magic number: 0x%#x") [magic] k, t)
  else
    match boot_info addr k with
    | Ret false k => (Ret tt k, t)
    | Ret true k => ((boot_devices ;;; init_screen_memory base) k, boot_tables t)
    | Leave l k => (Leave l k, t)
    | Undef => (Undef, t)
    | Hang => (Hang, t)
    end.

End entry.

(** ** What the processor and the devices hold *)

(** The base and the limit that the processor puts together from a descriptor. *)
Definition segment_base (d : seg_desc_t) : Z :=
  base_15_00 d + 65536 * base_23_16 d + 16777216 * base_31_24 d.
Definition segment_limit (d : seg_desc_t) : Z := seg_lim_15_00 d + 65536 * seg_lim_19_16 d.

(** The mask registers of the interrupt controllers answer the byte last written. *)
Class MaskLatch `{Device} :=
  mask_latch : forall tr port, port = 0x21 \/ port = 0xA1 -> dev_in tr port = default 0 (last_out tr port None).

Definition irq_mask (m : machine) (port : Z) : option Z := last_out (trace m) port None.

(** Line [irq] is enabled. *)
Definition unmasked (m : machine) (irq : Z) : Prop :=
  exists v, irq_mask m (irq_port irq) = Some v /\ Z.testbit v (irq_bit irq) = false.

(** What the report may do: characters in memory, the registers of the cursor, and
    the address of the file system.  No other port is written and none is read, the
    page tables and the interrupt flag stay as they were, and of the kernel's
    variables only those of the console and [FSYSTEM] change. *)
Definition cursor_event (e : ioev) : Prop :=
  match e with Out port _ => port = 0x3D4 \/ port = 0x3D5 | In _ _ => False end.

Definition drawn_only `{Layout} (m m' : machine) : Prop :=
  same_space m m' /\ if_flag m' = if_flag m /\
  exists l, trace m' = trace m ++ l /\ Forall cursor_event l.

Definition reported `{Layout} (k k' : kernel) : Prop :=
  exists s fs, k' = set_FSYSTEM (set_con k s) fs /\ drawn_only (kmach k) (mach s).

(** The variables of the kernel as the loader leaves them. *)
Record bss (k : kernel) : Prop := {
  bss_ring : ring_ok (ksched k);
  bss_fds : fds_ok (fd (kfiles k));
  bss_cold : cold k;
}.

Section facts.
Context {L : Layout} {LOK : LayoutOk} {D : Device} {FR : Frames}.
Implicit Types (m : machine) (k : kernel).

Lemma frame_bss k k' : frame k k' -> bss k -> bss k'.
Proof.
  intros Hf [[R1 R2 R3 R4] H2 H3]. pose proof Hf as [F1 _ _ (S1 & S2 & S3) F5 _]. split.
  - split; rewrite ?S1, ?S2, ?S3; auto.
  - by rewrite F1.
  - by eapply frame_cold.
Qed.

(** Drawing. *)
Lemma drawn_refl m : drawn_only m m.
Proof. split; [apply same_space_refl|]. split; [done|]. exists []. by rewrite app_nil_r. Qed.

Lemma drawn_ram m0 m m' : ram_only m m' -> drawn_only m0 m -> drawn_only m0 m'.
Proof.
  intros Hr (Hs & Hi & l & Ht & Hl). destruct (ram_only_fields m m' Hr) as (_ & Et & Ei & _).
  split; [by eapply space_ram_only|]. split; [congruence|]. exists l. split; [congruence|done].
Qed.

Lemma drawn_cursor m0 m r c : drawn_only m0 m -> drawn_only m0 (update_cursor r c m).
Proof.
  intros (Hs & Hi & l & Ht & Hl). split; [by apply space_update_cursor|]. split; [done|].
  unfold update_cursor. cbv zeta. rewrite !trace_outb, Ht, <-!app_assoc. eexists. split; [reflexivity|].
  apply Forall_app. split; [done|].
  repeat (constructor; [first [left; reflexivity|right; reflexivity]|]). constructor.
Qed.

Lemma drawn_putcs m0 l s : drawn_only m0 (mach s) -> drawn_only m0 (mach (putcs l s)).
Proof.
  revert s. induction l as [|c l IH]; intros s Hs; [done|]. apply IH.
  apply putc_closed; [exact (drawn_ram m0)|exact (drawn_cursor m0)|exact Hs].
Qed.

Lemma drawn_clear m0 s : drawn_only m0 (mach s) -> drawn_only m0 (mach (clear s)).
Proof.
  intros Hs. eapply drawn_ram; [|exact Hs]. unfold clear. cbn [mach set_mach].
  apply (for_range_ind (fun _ m => ram_only (mach s) m)); [by vm_compute|apply ram_only_refl|].
  intros i m _ Hm. by do 2 apply ram_only_st.
Qed.

Lemma reported_clear k : reported k (set_con k (clear (con k))).
Proof. exists (clear (con k)), (FSYSTEM k). split; [done|]. apply drawn_clear, drawn_refl. Qed.

Lemma reported_frame k k' : reported k k' -> frame k k'.
Proof. intros (s & fs & -> & Hs & _). by split. Qed.

Lemma reported_bss k k' : reported k k' -> bss k -> bss k'.
Proof. intros Hr. by apply frame_bss, reported_frame. Qed.

Section report.
Variable k0 : kernel.
#[local] Abbreviation I := (reported k0).

Lemma keeps_printk fmt args : keeps I (printk fmt args).
Proof.
  intros k (s & fs & -> & Hs). unfold printk. destruct (format_text _ _ _ _) as [text|]; [|done].
  exists (putcs text s), fs. split; [done|]. by apply drawn_putcs.
Qed.

Lemma keeps_member p o : keeps I (member p o).
Proof. apply keeps_get. Qed.

Lemma keeps_c_while {A} (turn : A -> C (option A)) a :
  (forall a, keeps I (turn a)) -> keeps I (c_while turn a).
Proof.
  intros Ht k Hk. unfold c_while.
  match goal with |- context [while ?f ?x] =>
    pose proof (fun b => while_closed f (fun '(_, k) => I k)
      (fun o => match o with Ret _ k | Leave _ k => I k | Undef | Hang => True end) x b) as Hc;
    generalize dependent (while f x) end.
  intros [r|] Hc; [|done]. apply (Hc r); [|exact Hk|done].
  intros [a' k'] Hk'. specialize (Ht a' k' Hk'). by destruct (turn a' k') as [[a2|] k2| | |].
Qed.

Hint Resolve keeps_printk keeps_member : keeps.

Lemma keeps_module_bytes n md i : keeps I (module_bytes n md i).
Proof. revert i. induction n as [|n IH]; intros i; simpl; keeps. Qed.

Lemma keeps_boot_module n md : keeps I (boot_module n md).
Proof.
  unfold boot_module. keeps; [apply keeps_module_bytes|].
  apply keeps_mod. intros k (s & fs & -> & Hs). exists s. by eexists.
Qed.

Lemma keeps_boot_modules mbi : keeps I (boot_modules mbi).
Proof.
  unfold boot_modules. apply keeps_bind; [keeps|intros mods]. apply keeps_c_while. intros [c md].
  apply keeps_bind; [keeps|intros n]. destruct (_ <? _); [|keeps].
  apply keeps_bind; [apply keeps_boot_module|intros; keeps].
Qed.

Lemma keeps_boot_mmap mbi : keeps I (boot_mmap mbi).
Proof.
  unfold boot_mmap. do 4 (apply keeps_bind; [keeps|intros ?]). apply keeps_c_while. intros p.
  do 2 (apply keeps_bind; [keeps|intros ?]). destruct (_ <? _); keeps.
Qed.

Hint Resolve keeps_boot_modules keeps_boot_mmap : keeps.

Lemma keeps_boot_report mbi : keeps I (boot_report mbi).
Proof. unfold boot_report. keeps. Qed.

Lemma keeps_boot_symbols mbi : keeps I (boot_symbols mbi).
Proof. unfold boot_symbols. keeps. Qed.

End report.

Lemma CHECK_FLAG_bit flags bit : 0 <= bit -> CHECK_FLAG flags bit = Z.testbit flags bit.
Proof.
  intros Hb. unfold CHECK_FLAG, truth. rewrite Z.shiftl_1_l.
  assert (Z.land flags (2 ^ bit) = if Z.testbit flags bit then 2 ^ bit else 0) as ->.
  { apply Z.bits_inj'. intros n Hn. rewrite Z.land_spec, Z.pow2_bits_eqb by done.
    destruct (Z.eqb_spec bit n) as [->|Hne].
    - rewrite andb_true_r. destruct (Z.testbit flags n); [by rewrite Z.pow2_bits_true|by rewrite Z.bits_0].
    - rewrite andb_false_r. destruct (Z.testbit flags bit); [by rewrite Z.pow2_bits_false|by rewrite Z.bits_0]. }
  destruct (Z.testbit flags bit); [|done]. by rewrite (proj2 (Z.eqb_neq _ _)) by lia.
Qed.

(** What the two bits decide. *)
Lemma boot_info_refused mbi k k3 :
  boot_report mbi k = Ret tt k3 -> Z.testbit (ld32 (kmach k3) mbi) 4 = true ->
  Z.testbit (ld32 (kmach k3) mbi) 5 = true ->
  exists k', boot_info mbi k = Ret false k' /\ reported k3 k'.
Proof.
  intros Hr H4 H5.
  assert (reported k3 k3) as Hrefl by (exists (con k3), (FSYSTEM k3); split; [by destruct k3|apply drawn_refl]).
  pose proof (keeps_printk k3 (ln "Both bits 4 and 5 are set.") [] k3 Hrefl) as Hp.
  unfold boot_info. rewrite (c_bind_ret _ _ _ _ _ Hr). erewrite c_bind_ret by reflexivity.
  unfold mbi_flags. rewrite Z.add_0_r, !CHECK_FLAG_bit, H4, H5 by done. cbn [andb].
  unfold c_bind. destruct (printk _ _ k3) as [[] k'|l k'| |] eqn:E.
  - by exists k'.
  - unfold printk in E. by destruct (format_text _ _ _ _).
  - exfalso. discriminate E.
  - unfold printk in E. by destruct (format_text _ _ _ _).
Qed.

Lemma boot_info_accepted mbi k k3 k1 :
  boot_report mbi k = Ret tt k3 ->
  Z.testbit (ld32 (kmach k3) mbi) 4 && Z.testbit (ld32 (kmach k3) mbi) 5 = false ->
  boot_symbols mbi k3 = Ret tt k1 -> boot_info mbi k = Ret true k1.
Proof.
  intros Hr Hf Hs. unfold boot_info. rewrite (c_bind_ret _ _ _ _ _ Hr). erewrite c_bind_ret by reflexivity.
  unfold mbi_flags. rewrite Z.add_0_r, !CHECK_FLAG_bit, Hf by done. by rewrite (c_bind_ret _ _ _ _ _ Hs).
Qed.

End facts.

(** ** The devices *)

Section devices.
Context {L : Layout} {LOK : LayoutOk} {D : Device} {ML : MaskLatch} {FR : Frames}.
Implicit Types (m : machine) (k : kernel).

Lemma irq_mask_outb d p m port :
  irq_mask (outb d p m) port = if u16 p =? port then Some (u8 d) else irq_mask m port.
Proof. unfold irq_mask. by rewrite trace_outb, last_out_app. Qed.

Lemma irq_mask_inb p m port : irq_mask (snd (inb p m)) port = irq_mask m port.
Proof. unfold irq_mask. by rewrite trace_inb, last_out_app. Qed.

(** [enable_irq] on the mask that is in the register. *)
Lemma irq_mask_enable irq m port v :
  port = 0x21 \/ port = 0xA1 -> irq_mask m port = Some v -> 0 <= v < 256 ->
  irq_mask (I8259.enable_irq irq m) port
  = Some (if irq_port irq =? port then u8 (Z.lxor v (Z.shiftl 1 (irq_bit irq))) else v).
Proof.
  intros Hp Hv Hr. unfold I8259.enable_irq, irq_port, irq_bit.
  assert (forall q b, q = 0x21 \/ q = 0xA1 ->
    irq_mask (outb (u8 (Z.lxor (fst (inb q m)) (Z.shiftl 1 b))) q (snd (inb q m))) port
    = Some (if q =? port then u8 (Z.lxor v (Z.shiftl 1 b)) else v)) as Hq.
  { intros q b Hq. rewrite irq_mask_outb, irq_mask_inb, Hv.
    replace (u16 q) with q by (unfold u16; destruct Hq as [->| ->]; reflexivity).
    destruct (Z.eqb_spec q port) as [->|]; [|done]. rewrite u8_u8. do 3 f_equal.
    unfold inb. cbn [fst]. replace (u16 port) with port by (unfold u16; destruct Hp as [->| ->]; reflexivity).
    rewrite (mask_latch _ _ Hp). unfold irq_mask in Hv. rewrite Hv. by apply u8_small. }
  destruct (irq <? 8).
  - exact (Hq 0x21 irq (or_introl eq_refl)).
  - exact (Hq 0xA1 (irq - 8) (or_intror eq_refl)).
Qed.

Lemma i8259_init_mask m :
  irq_mask (I8259.i8259_init m) 0x21 = Some 0xFB /\ irq_mask (I8259.i8259_init m) 0xA1 = Some 0xFF.
Proof.
  unfold I8259.i8259_init. cbv zeta.
  split; (rewrite (irq_mask_enable I8259.ICW3_SLAVE _ _ 0xFF);
    [reflexivity|by (left + right)|rewrite !irq_mask_outb; reflexivity|lia]).
Qed.

(** The clock's ports are not the controllers'. *)
Lemma irq_mask_cmos d p m port :
  port = 0x21 \/ port = 0xA1 -> p = Rtc.RTC_PORT \/ p = Rtc.CMOS_PORT ->
  irq_mask (outb d p m) port = irq_mask m port.
Proof. intros Hp Hq. rewrite irq_mask_outb. destruct Hp as [->| ->], Hq as [->| ->]; reflexivity. Qed.

Lemma set_rate_mask r m port :
  port = 0x21 \/ port = 0xA1 -> irq_mask (Rtc.set_rate r m) port = irq_mask m port.
Proof.
  intros Hp. unfold Rtc.set_rate. destruct (inb Rtc.CMOS_PORT _) as [v1 m1] eqn:E.
  apply (f_equal snd) in E. cbn [snd] in E. subst m1.
  rewrite !irq_mask_cmos, irq_mask_inb, irq_mask_cmos by (done || by (left + right)). done.
Qed.

Lemma rtc_init_mask m port v :
  port = 0x21 \/ port = 0xA1 -> irq_mask m port = Some v -> 0 <= v < 256 ->
  irq_mask (Rtc.rtc_init m) port = Some (if 0xA1 =? port then u8 (Z.lxor v 1) else v).
Proof.
  intros Hp Hv Hr. unfold Rtc.rtc_init. rewrite <-(set_rate_mask (Z.land Rtc.RTC_RATE_1024 Rtc.DEFAULT_RATE)) in Hv by done.
  generalize dependent (Rtc.set_rate (Z.land Rtc.RTC_RATE_1024 Rtc.DEFAULT_RATE) m). intros m0 Hv.
  destruct (inb Rtc.CMOS_PORT _) as [v2 m2] eqn:E. apply (f_equal snd) in E. cbn [snd] in E. subst m2. cbv zeta.
  rewrite (irq_mask_enable Rtc.RTC_VEC _ _ v); [done|done| |done]. unfold Rtc.read_register_c.
  rewrite irq_mask_inb, !irq_mask_cmos by (done || by (left + right)).
  by rewrite irq_mask_inb, irq_mask_cmos by (done || by left).
Qed.

Lemma pit_write_machine m :
  exists m', Pit.pit_write 40 m = Some m' /\ same_space m m' /\ irq_mask m' 0x21 = irq_mask m 0x21 /\
    irq_mask m' 0xA1 = irq_mask m 0xA1.
Proof. unfold Pit.pit_write. eexists. split; [reflexivity|]. split; [done|]. by rewrite !irq_mask_outb. Qed.

Lemma enable_irq_space irq m : same_space m (I8259.enable_irq irq m).
Proof. unfold I8259.enable_irq, inb. by destruct (irq <? 8). Qed.

Lemma rtc_init_space m : same_space m (Rtc.rtc_init m).
Proof. unfold Rtc.rtc_init. etrans; [|apply enable_irq_space]. done. Qed.

(** The state the boot hands to init_screen_memory. *)
Record devices_up k k' : Prop := {
  du_booted : booted k';
  du_interrupts : if_flag (kmach k') = true;
  du_stack : esp0 (kprocs k') = 0x800000;
  du_cursor : screen_x (con k') = 0 /\ screen_y (con k') = 0;
  du_files : FSYSTEM k' = FSYSTEM k;
  du_keys : kkeys k' = Keys 0 0 0 0;
  du_masks : irq_mask (kmach k') 0x21 = Some 0xF8 /\ irq_mask (kmach k') 0xA1 = Some 0xFE;
}.

(** What happens to the machine, from the new page tables on. *)
Definition wired m : machine :=
  Pit.pit_init (Rtc.rtc_init (update_cursor 0 0 (I8259.enable_irq 1 (I8259.i8259_init m)))).

Lemma wired_space m : same_space m (wired m).
Proof.
  unfold wired, Pit.pit_init. etrans; [|apply enable_irq_space]. etrans; [|apply rtc_init_space].
  apply space_update_cursor. etrans; [|apply enable_irq_space]. unfold I8259.i8259_init.
  etrans; [|apply enable_irq_space]. done.
Qed.

Lemma wired_masks m : irq_mask (wired m) 0x21 = Some 0xF8 /\ irq_mask (wired m) 0xA1 = Some 0xFE.
Proof.
  unfold wired, Pit.pit_init. destruct (i8259_init_mask m) as [M1 M2].
  generalize dependent (I8259.i8259_init m). intros m0 M1 M2.
  pose proof (irq_mask_enable 1 m0 0x21 0xFB ltac:(by left) M1 ltac:(lia)) as K1.
  pose proof (irq_mask_enable 1 m0 0xA1 0xFF ltac:(by right) M2 ltac:(lia)) as K2.
  generalize dependent (I8259.enable_irq 1 m0). intros m1 K1 K2.
  assert (forall port, port = 0x21 \/ port = 0xA1 -> irq_mask (update_cursor 0 0 m1) port = irq_mask m1 port) as Hc.
  { intros port Hp. unfold update_cursor. cbv zeta. rewrite !irq_mask_outb.
    destruct Hp as [->| ->]; reflexivity. }
  rewrite <-Hc in K1, K2 by (by (left + right)). generalize dependent (update_cursor 0 0 m1). intros m2 K1 K2.
  pose proof (rtc_init_mask m2 0x21 0xF9 ltac:(by left) K1 ltac:(lia)) as R1.
  pose proof (rtc_init_mask m2 0xA1 0xFF ltac:(by right) K2 ltac:(lia)) as R2.
  generalize dependent (Rtc.rtc_init m2). intros m3 R1 R2. split.
  - rewrite (irq_mask_enable 0 m3 0x21 0xF9 ltac:(by left) R1 ltac:(lia)). reflexivity.
  - rewrite (irq_mask_enable 0 m3 0xA1 0xFE ltac:(by right) R2 ltac:(lia)). reflexivity.
Qed.

Lemma frame_keyboard_init k : frame k (keyboard_init k).
Proof. unfold keyboard_init. etrans; [apply frame_mach, enable_irq_space|]. by split. Qed.

Lemma keyboard_init_mach k : kmach (keyboard_init k) = I8259.enable_irq 1 (kmach k).
Proof. done. Qed.

Lemma set_kmach_bss k m : bss k -> kernel_mapped m -> booted (set_kmach k m).
Proof.
  intros [Hr Hf [C1 C2 C3]] Hm. split; [|by split].
  split; [by cbn; rewrite C1|done|done| |exact Hm].
  intros a p Ha. unfold get_pcb in Ha. cbn in Ha. by rewrite C3, lookup_empty in Ha.
Qed.

Lemma c_mach_next {A} (x : C A) f k : (c_mach f ;;; x) k = x (set_kmach k (f (kmach k))).
Proof. done. Qed.

Lemma set_kmach_id k : set_kmach k (kmach k) = k.
Proof. by destruct k as [[] ? ? ? ? ? ? ?]. Qed.

(** From the new page tables on. *)
Lemma devices_tail k m m3 :
  Pit.pit_write 40 (wired m) = Some m3 ->
  (c_mach I8259.i8259_init ;;;
   c_mod keyboard_init ;;;
   c_mach (update_cursor 0 0) ;;;
   c_mach Rtc.rtc_init ;;;
   c_mach Pit.pit_init ;;;
   m <- (fun k => c_some (Pit.pit_write 40 (kmach k)) k) ;;
   c_mod (fun k => set_kmach k m) ;;;
   c_mach sti) (set_kmach k m)
  = Ret tt (set_kmach (set_kkeys k (Keys 0 0 0 0)) (sti m3)).
Proof.
  intros Hw. rewrite c_bind_mach, c_bind_mod.
  change (keyboard_init (set_kmach k (I8259.i8259_init m)))
    with (set_kmach (set_kkeys k (Keys 0 0 0 0)) (I8259.enable_irq 1 (I8259.i8259_init m))).
  rewrite !c_bind_mach. fold (wired m). unfold c_bind at 1. rewrite kmach_set_kmach, Hw. cbn [c_some].
  rewrite c_bind_mod, set_kmach_twice. unfold c_mach, c_mod. by rewrite set_kmach_twice, kmach_set_kmach.
Qed.

Lemma devices_tail_up k m m3 :
  bss k -> esp0 (kprocs k) = 0x800000 -> screen_x (con k) = 0 -> screen_y (con k) = 0 ->
  kernel_mapped m -> Pit.pit_write 40 (wired m) = Some m3 ->
  same_space (wired m) m3 -> irq_mask m3 0x21 = irq_mask (wired m) 0x21 ->
  irq_mask m3 0xA1 = irq_mask (wired m) 0xA1 ->
  devices_up k (set_kmach (set_kkeys k (Keys 0 0 0 0)) (sti m3)).
Proof.
  intros Hb Hs Hx Hy Hm Hw Hsp Hk1 Hk2.
  assert (kernel_mapped (sti m3)) as Hm3.
  { assert (kernel_mapped m3) as Hm3; [|by destruct Hm3].
    eapply same_space_mapped; [|exact Hm]. etrans; [apply wired_space|exact Hsp]. }
  destruct (wired_masks m) as [W1 W2]. rewrite <-Hk1 in W1. rewrite <-Hk2 in W2.
  split; [|done|exact Hs|by split|done|done|by split].
  apply set_kmach_bss; [|exact Hm3]. destruct Hb as [? ? [? ? ?]]. by split; [| |split].
Qed.

Definition boot_screen k : kernel :=
  let k := set_esp0 k 0x800000 in set_con k (reset_screen (con k)).

Lemma boot_screen_bss k : bss k -> bss (boot_screen k).
Proof.
  intros Hb. eapply frame_bss; [|exact Hb]. unfold boot_screen.
  etrans; [|apply frame_con, space_reset_screen, same_space_refl]. by split.
Qed.

Lemma boot_devices_eq k m3 :
  Pit.pit_write 40 (wired (initPaging (kmach (boot_screen k)))) = Some m3 ->
  boot_devices k = Ret tt (set_kmach (set_kkeys (boot_screen k) (Keys 0 0 0 0)) (sti m3)).
Proof.
  intros Hw. etrans; [|exact (devices_tail (boot_screen k) _ m3 Hw)]. clear Hw.
  unfold boot_devices. etrans; [exact (c_bind_mod (fun k => set_esp0 k 0x800000) _ k)|].
  etrans; [exact (c_bind_mod (fun k => set_con k (reset_screen (con k))) _ _)|]. fold (boot_screen k).
  exact (c_mach_next _ initPaging (boot_screen k)).
Qed.

Lemma boot_devices_up k : bss k -> exists k', boot_devices k = Ret tt k' /\ devices_up k k'.
Proof.
  intros Hb. destruct (pit_write_machine (wired (initPaging (kmach (boot_screen k))))) as (m3 & Hw & Hsp & Hk1 & Hk2).
  eexists. split; [exact (boot_devices_eq k m3 Hw)|].
  destruct (devices_tail_up (boot_screen k) _ m3 (boot_screen_bss k Hb) eq_refl eq_refl eq_refl
    (initPaging_kernel_mapped _) Hw Hsp Hk1 Hk2). by split.
Qed.

End devices.

(** ** The segments *)

Lemma split_address a :
  0 <= a < 4294967296 ->
  Z.land a 0x0000FFFF + 65536 * Z.shiftr (Z.land a 0x00FF0000) 16 + 16777216 * Z.shiftr (Z.land a 0xFF000000) 24 = a.
Proof.
  intros Ha. rewrite !Z.shiftr_land.
  change (Z.shiftr 0x00FF0000 16) with (Z.ones 8). change (Z.shiftr 0xFF000000 24) with (Z.ones 8).
  change 0x0000FFFF with (Z.ones 16). rewrite !Z.land_ones, !Z.shiftr_div_pow2 by lia.
  change (2 ^ 16) with 65536. change (2 ^ 8) with 256. change (2 ^ 24) with 16777216. dlia.
Qed.

Lemma set_params_base a n d : 0 <= a < 4294967296 -> segment_base (SET_LDT_PARAMS a n d) = a.
Proof. intros Ha. by apply split_address. Qed.

Lemma set_params_limit a n d : 0 <= n < 1048576 -> segment_limit (SET_LDT_PARAMS a n d) = n.
Proof.
  intros Hn. unfold segment_limit, SET_LDT_PARAMS. cbn [seg_lim_15_00 seg_lim_19_16].
  rewrite Z.shiftr_land. change (Z.shiftr 0x000F0000 16) with (Z.ones 4).
  change 0x0000FFFF with (Z.ones 16). rewrite !Z.land_ones, !Z.shiftr_div_pow2 by lia.
  change (2 ^ 16) with 65536. change (2 ^ 4) with 16. dlia.
Qed.

Lemma unmasked_lines m irq :
  irq_mask m 0x21 = Some 0xF8 -> irq_mask m 0xA1 = Some 0xFE -> 0 <= irq < 16 ->
  unmasked m irq <-> irq = 0 \/ irq = 1 \/ irq = 2 \/ irq = 8.
Proof.
  intros M1 M2 Hr.
  assert (irq_mask m (irq_port irq) = Some (if irq <? 8 then 0xF8 else 0xFE)) as Hm
    by (unfold irq_port; destruct (irq <? 8); [exact M1|exact M2]).
  unfold unmasked. rewrite Hm.
  assert (forallb (fun irq => Bool.eqb (negb (Z.testbit (if irq <? 8 then 0xF8 else 0xFE) (irq_bit irq)))
    ((irq =? 0) || (irq =? 1) || (irq =? 2) || (irq =? 8))) (seqZ 0 16) = true) as Hall by reflexivity.
  rewrite forallb_forall in Hall. specialize (Hall irq).
  rewrite <-list_elem_of_In, elem_of_seqZ in Hall. specialize (Hall ltac:(lia)).
  apply Bool.eqb_prop in Hall. split.
  - intros (v & [= <-] & Hv). rewrite Hv in Hall. cbn [negb] in Hall. symmetry in Hall.
    rewrite !orb_true_iff, !Z.eqb_eq in Hall. tauto.
  - intros Hi. eexists. split; [reflexivity|].
    assert ((irq =? 0) || (irq =? 1) || (irq =? 2) || (irq =? 8) = true) as Ht
      by (rewrite !orb_true_iff, !Z.eqb_eq; tauto).
    rewrite Ht in Hall. by apply negb_true_iff.
Qed.

(** Addresses have 32 bits, limits 20. *)
Class SegmentsOk `{Segments} := {
  segments_at : 0 <= ldt_at < 4294967296 /\ 0 <= tss_at < 4294967296;
  segments_size : 0 <= ldt_size < 1048576 /\ 0 <= tss_size < 1048576;
}.

Section contract.
Context {L : Layout} {LOK : LayoutOk} {D : Device} {ML : MaskLatch} {FR : Frames} {H : Handlers}
  {SG : Segments} {SOK : SegmentsOk}.
Implicit Types (m : machine) (k : kernel).

Lemma reported_trans k1 k2 k3 : reported k1 k2 -> reported k2 k3 -> reported k1 k3.
Proof.
  intros (s & fs & -> & Hs1 & Hi1 & l1 & Ht1 & Hl1) (s' & fs' & -> & Hs2 & Hi2 & l2 & Ht2 & Hl2).
  change (kmach (set_FSYSTEM (set_con k1 s) fs)) with (mach s) in *.
  exists s', fs'. split; [done|]. split; [by eapply same_space_trans|]. split; [congruence|].
  exists (l1 ++ l2). rewrite Ht2, Ht1, <-app_assoc. split; [done|]. by apply Forall_app.
Qed.

Lemma report_reported {A} (x : C A) k k3 a k' :
  (forall k0, keeps (reported k0) x) -> reported k k3 -> x k3 = Ret a k' -> reported k k'.
Proof. intros Hx Hr E. specialize (Hx k k3 Hr). by rewrite E in Hx. Qed.

Lemma wrong_magic magic addr base t k :
  magic <> MULTIBOOT_BOOTLOADER_MAGIC ->
  exists k', entry magic addr base t k = (Ret tt k', t) /\ reported k k' /\ FSYSTEM k' = FSYSTEM k.
Proof.
  intros Hm. unfold entry. rewrite (proj2 (Z.eqb_neq _ _)) by done. cbn [negb].
  pose proof (reported_clear k) as Hr. set (k0 := set_con k (clear (con k))) in *.
  pose proof (keeps_printk k (ln "Invalid magic number: 0x%#x") [magic] k0 Hr) as Hp.
  unfold printk in *. destruct (format_text _ _ _ _) as [text|] eqn:E; [|done].
  eexists. split; [reflexivity|]. by split.
Qed.

(** The devices, from a report that was accepted. *)
Lemma entry_goes_on addr base t k k1 :
  bss k1 -> boot_info addr (set_con k (clear (con k))) = Ret true k1 ->
  exists k2, devices_up k1 k2 /\
    entry MULTIBOOT_BOOTLOADER_MAGIC addr base t k = (init_screen_memory base k2, boot_tables t) /\
    (forall irq, 0 <= irq < 16 -> unmasked (kmach k2) irq <-> irq = 0 \/ irq = 1 \/ irq = 2 \/ irq = 8) /\
    (forall k', ends (init_screen_memory base) k2 k' -> state_ok k').
Proof.
  intros Hb Hi. unfold entry. rewrite Z.eqb_refl. cbn [negb]. rewrite Hi.
  destruct (boot_devices_up k1 Hb) as (k2 & Hd & Hup). exists k2.
  rewrite (c_bind_ret _ _ _ _ _ Hd). split_and!; [done|done| |].
  - intros irq Hr. destruct Hup as [_ _ _ _ _ _ [M1 M2]]. by apply unmasked_lines.
  - intros k' He. eapply keeps_ends; [apply keeps_init_screen_memory| |exact He].
    destruct Hup as [[Hbo Hco] _ _ _ _ _ _]. split; [done|by left].
Qed.

(** C5: the boot.  With a wrong magic number it returns with the tables of the
    processor as they were, having only drawn ([reported]: characters in memory and
    the cursor's registers; no other port is written or read, and interrupts and
    paging stay as they were).  With the right one, what decides is the flags as they
    are after the report [boot_report]: if bits 4 and 5 are both set it returns in
    the same way; if not, and the rest of the report [boot_symbols] ends, nothing but
    the report has happened yet, and the machine that then starts the first shell is
    in the initial state of the kernel's invariant, with the paging on, interrupts
    on, exactly the lines 0, 1, 2 and 8 unmasked, the kernel stack in the TSS, the
    modifier keys up, the descriptors of the LDT and the TSS pointing at them and the
    interrupt gates set; whatever then ends the boot's last call leaves a state of
    the invariant. *)
Theorem entry_correct magic addr base t k :
  bss k ->
  (magic <> MULTIBOOT_BOOTLOADER_MAGIC ->
     exists k', entry magic addr base t k = (Ret tt k', t) /\ reported k k' /\ FSYSTEM k' = FSYSTEM k) /\
  (forall k3, magic = MULTIBOOT_BOOTLOADER_MAGIC -> boot_report addr (set_con k (clear (con k))) = Ret tt k3 ->
     let flags := ld32 (kmach k3) addr in
     (Z.testbit flags 4 = true -> Z.testbit flags 5 = true ->
        exists k', entry magic addr base t k = (Ret tt k', t) /\ reported k k') /\
     (Z.testbit flags 4 && Z.testbit flags 5 = false -> forall k1, boot_symbols addr k3 = Ret tt k1 ->
        reported k k1 /\
        exists k2, devices_up k1 k2 /\
          entry magic addr base t k = (init_screen_memory base k2, boot_tables t) /\
          (forall irq, 0 <= irq < 16 -> unmasked (kmach k2) irq <-> irq = 0 \/ irq = 1 \/ irq = 2 \/ irq = 8) /\
          (forall k', ends (init_screen_memory base) k2 k' -> state_ok k'))) /\
  segment_base (ldt_desc_ptr (boot_tables t)) = ldt_at /\ segment_limit (ldt_desc_ptr (boot_tables t)) = ldt_size /\
  segment_base (tss_desc_ptr (boot_tables t)) = tss_at /\ segment_limit (tss_desc_ptr (boot_tables t)) = tss_size.
Proof.
  intros Hb. split_and!.
  - apply wrong_magic.
  - intros k3 -> Hrep flags.
    assert (reported k k3) as Hr3
      by (eapply report_reported; [intros; apply keeps_boot_report|apply reported_clear|exact Hrep]).
    split.
    + intros H4 H5. destruct (boot_info_refused addr _ k3 Hrep H4 H5) as (k' & Hi & Hr).
      exists k'. split; [|by eapply reported_trans].
      unfold entry. rewrite Z.eqb_refl. cbn [negb]. by rewrite Hi.
    + intros Hf k1 Hsym.
      assert (reported k k1) as Hr1
        by (eapply report_reported; [intros; apply keeps_boot_symbols|exact Hr3|exact Hsym]).
      split; [exact Hr1|]. apply entry_goes_on; [by eapply reported_bss|].
      by eapply boot_info_accepted.
  - apply set_params_base, segments_at.
  - apply set_params_limit, segments_size.
  - apply set_params_base, segments_at.
  - apply set_params_limit, segments_size.
Qed.

End contract.

(** *** Example: one module, as GRUB loads the kernel with its file system *)

#[local] Existing Instance demo_layout.
#[local] Existing Instance demo_layout_ok.
#[local] Existing Instance demo_frames.
#[local] Existing Instance latch_device.
#[local] Existing Instance demo_handlers.

Lemma latch_device_masks : @MaskLatch latch_device.
Proof. intros tr port _. reflexivity. Qed.

#[local] Existing Instance latch_device_masks.

Definition demo_segments : Segments := Build_Segments 0x402100 31 0x402000 103.
#[local] Existing Instance demo_segments.

Lemma demo_segments_ok : SegmentsOk.
Proof. split; cbn; lia. Qed.

#[local] Existing Instance demo_segments_ok.

(** At 0x9000 the flags and one module, described at 0x9100: loaded at 0x410000. *)
Definition grub_machine (flags : Z) : machine :=
  let m := st32 blank_machine 0x9000 flags in
  let m := st32 m 0x9014 1 in
  let m := st32 m 0x9018 0x9100 in
  let m := st32 m 0x9100 0x410000 in
  st32 m 0x9104 0x410400.

Definition grub_kernel (flags : Z) : kernel := boot_kernel (grub_machine flags).

Lemma boot_kernel_bss m : bss (boot_kernel m).
Proof. split; [|exact null_fds_ok|by split]. split; [done|done|by left|simpl; lia]. Qed.

Definition boot_answer (o : outcome unit) : option (Z * Z) :=
  match o with Ret _ k => Some (FSYSTEM k, ld32 (kmach k) 0x9000) | _ => None end.

Lemma grub_report flags : flags = 0x08 \/ flags = 0x38 ->
  boot_answer (boot_report 0x9000 (set_con (grub_kernel flags) (clear (con (grub_kernel flags)))))
  = Some (0x410000, flags).
Proof. intros [->| ->]; vm_compute; reflexivity. Qed.

Definition blank_segment : seg_desc_t := SegDesc 0 0 0 0 0 0 0 0 0 0 0 0 0.
Definition blank_tables : cpu_tables := Tables (replicate 256 null_gate) blank_segment blank_segment 0 0.

(** With the flag of the modules the kernel starts; with the two symbol tables as
    well it returns. *)
Lemma entry_correct_witness :
  (exists k2, entry 0x2BADB002 0x9000 0x7FFF00 blank_tables (grub_kernel 0x08)
      = (init_screen_memory 0x7FFF00 k2, boot_tables blank_tables) /\
    FSYSTEM k2 = 0x410000 /\ booted k2 /\ unmasked (kmach k2) 8 /\ ~ unmasked (kmach k2) 14) /\
  (exists k', entry 0x2BADB002 0x9000 0x7FFF00 blank_tables (grub_kernel 0x38) = (Ret tt k', blank_tables)).
Proof.
  split.
  - pose proof (grub_report 0x08 (or_introl eq_refl)) as Hr.
    destruct (entry_correct 0x2BADB002 0x9000 0x7FFF00 blank_tables (grub_kernel 0x08) (boot_kernel_bss _)) as (_ & Hgo & _).
    destruct (boot_report 0x9000 _) as [[] k3| | |]; try discriminate Hr.
    injection Hr as Hfs Hfl. destruct (Hgo k3 eq_refl eq_refl) as [_ Hgo2]. rewrite Hfl in Hgo2.
    destruct (Hgo2 eq_refl k3) as (_ & k2 & Hup & He & Hm & _).
    { unfold boot_symbols. do 2 (erewrite c_bind_ret by reflexivity; unfold mbi_flags; rewrite Z.add_0_r, Hfl;
        change (CHECK_FLAG 8 ?b) with false; cbv iota; try (erewrite c_bind_ret by reflexivity)). reflexivity. }
    exists k2. split; [exact He|]. split; [rewrite (du_files _ _ Hup); exact Hfs|].
    split; [exact (du_booted _ _ Hup)|]. split; [apply (Hm 8); lia|]. intros Hu. apply (Hm 14) in Hu; lia.
  - pose proof (grub_report 0x38 (or_intror eq_refl)) as Hr.
    destruct (entry_correct 0x2BADB002 0x9000 0x7FFF00 blank_tables (grub_kernel 0x38) (boot_kernel_bss _)) as (_ & Hgo & _).
    destruct (boot_report 0x9000 _) as [[] k3| | |]; try discriminate Hr.
    injection Hr as _ Hfl. destruct (Hgo k3 eq_refl eq_refl) as [Hno _]. rewrite Hfl in Hno.
    destruct (Hno eq_refl eq_refl) as (k' & He & _). by exists k'.
Defined.
