(* ===== verification/Support.v ===== *)
(** * The string routines of the user programs (syscalls/ece391support.c)

    [ece391_strlen], [ece391_strcpy], [ece391_strcmp], [ece391_strncmp],
    [ece391_strrev] and [ece391_itoa], over any memory of the [ByteMem] interface,
    with the pointers the C code advances as loop variables; the characters are
    unsigned here.  The facts state them against the routines of lib.c and the
    order of byte strings.  [ece391_fdputs], which makes a system call, is in
    Programs.v. *)
From Stdlib Require Import ZArith Lia String.
From stdpp Require Import base list gmap numbers.
From S2P Require Import Prelude ByteMem LibString.

Section support.
Context {M : Type} `{ByteMem M}.

(** [for (len = 0; '\0' != *s; s++, len++);] *)
Definition ece391_strlen (m : M) (s : Z) : option Z :=
  while (fun '(s, len) =>
    if negb (0 =? ld m s) then inl (s + 1, u32 (len + 1)) else inr len) (s, 0).

(** [while ('\0' != ( *dst++ = *src++));] *)
Definition ece391_strcpy (m : M) (dst src : Z) : option M :=
  while (fun '(dst, src, m) =>
    let c := ld m src in
    let m := st m dst c in
    if negb (0 =? c) then inl (dst + 1, src + 1, m) else inr m) (dst, src, m).

Definition ece391_strcmp (m : M) (s1 s2 : Z) : option Z :=
  while (fun '(s1, s2) =>
    if ld m s1 =? ld m s2 then
      if ld m s1 =? 0 then inr 0 else inl (s1 + 1, s2 + 1)
    else inr (ld m s1 - ld m s2)) (s1, s2).

Definition ece391_strncmp (m : M) (s1 s2 n : Z) : option Z :=
  if 0 =? n then Some 0
  else
    while (fun '(s1, s2, n) =>
      if ld m s1 =? ld m s2 then
        if ld m s1 =? 0 then inr 0
        else
          let n := u32 (n - 1) in
          if n =? 0 then inr 0 else inl (s1 + 1, s2 + 1, n)
      else inr (ld m s1 - ld m s2)) (s1, s2, n).

Definition ece391_strrev (m : M) (s : Z) : option M :=
  len ← ece391_strlen m s;
  let end_ := s32 (len - 1) in
  if end_ <=? 0 then Some m
  else
    while (fun '(beg, end_, m) =>
      if beg <? end_ then
        let tmp := ld m (s + end_) in
        let m := st m (s + end_) (ld m (s + beg)) in
        let m := st m (s + beg) tmp in
        inl (beg + 1, end_ - 1, m)
      else inr m) (0, end_, m).

(** [None] also stands for the undefined cases: a radix of 0, or a digit past the
    table. *)
Definition ece391_itoa (m : M) (value buf radix : Z) : option M :=
  let radix := u32 radix in
  if value =? 0 then Some (st (st m buf 48) (buf + 1) 0)
  else if radix =? 0 then None
  else
    r ← while (fun '(newval, newbuf, m) =>
          if 0 <? newval then
            match lookupZ digit_lookup (newval mod radix) with
            | None => inr None
            | Some d => inl (newval / radix, newbuf + 1, st m newbuf d)
            end
          else inr (Some (newbuf, m))) (value, buf, m);
    '(newbuf, m) ← r;
    ece391_strrev (st m newbuf 0) buf.

End support.

(** The difference at the first place where two strings differ, each followed by
    zeros. *)
Fixpoint lex (l1 l2 : list Z) : Z :=
  match l1, l2 with
  | [], [] => 0
  | [], b :: _ => - b
  | a :: _, [] => a
  | a :: l1, b :: l2 => if a =? b then lex l1 l2 else a - b
  end.

(** ** Facts *)

(** The answer is the difference of the first two bytes that differ, when they are
    among the first [n]. *)
Lemma lex_first_take n p l1 l2 a b t1 t2 :
  l1 ++ [0] = p ++ a :: t1 -> l2 ++ [0] = p ++ b :: t2 -> a <> b -> Forall (fun c => c <> 0) l1 ->
  (length p < n)%nat -> lex (take n l1) (take n l2) = a - b.
Proof.
  revert n l1 l2. induction p as [|c p IH]; intros n l1 l2 H1 H2 Hab Hnz Hn;
    (destruct n as [|n]; [simpl in Hn; lia|]).
  - destruct l1 as [|x l1], l2 as [|y l2]; simplify_eq/=; try lia.
    by rewrite (proj2 (Z.eqb_neq _ _)).
  - destruct Hnz as [|x l1 Hx Hnz]; simplify_eq/=; [by destruct p|].
    destruct l2 as [|y l2]; simplify_eq/=. rewrite Z.eqb_refl. apply IH; (done || lia).
Qed.

Lemma lex_first p l1 l2 a b t1 t2 :
  l1 ++ [0] = p ++ a :: t1 -> l2 ++ [0] = p ++ b :: t2 -> a <> b -> Forall (fun c => c <> 0) l1 ->
  lex l1 l2 = a - b.
Proof.
  intros H1 H2 Hab Hnz.
  rewrite <-(lex_first_take (S (length p + length l1 + length l2)) p l1 l2 a b t1 t2) by (done || lia).
  by rewrite !take_ge by lia.
Qed.

Lemma lex_zero l1 l2 :
  Forall (fun b => b <> 0) l1 -> Forall (fun b => b <> 0) l2 -> lex l1 l2 = 0 <-> l1 = l2.
Proof.
  intros H1. revert l2. induction H1 as [|a l1 Ha H1 IH]; intros l2 H2; destruct H2 as [|b l2 Hb H2];
    simpl; try (split; [lia|done]); [done|].
  destruct (Z.eqb_spec a b) as [->|Hab].
  - rewrite IH by done. split; [by intros ->|by injection 1].
  - split; [lia|]. injection 1 as ->. done.
Qed.

Section facts.
Context {M : Type} `{ByteMemOk M}.
Implicit Type m : M.

Lemma ece391_strlen_cstr m s l :
  cstr m s l -> Z.of_nat (length l) < 4294967295 -> ece391_strlen m s = Some (Z.of_nat (length l)).
Proof.
  intros Hs Hlen. unfold ece391_strlen.
  edestruct (while_total (A := Z * Z) (B := Z)
    (fun '(s, len) => if negb (0 =? ld m s) then inl (s + 1, u32 (len + 1)) else inr len)
    (fun '(p, len) => exists l', cstr m p l' /\ len + Z.of_nat (length l') = Z.of_nat (length l) /\ 0 <= len)
    (fun '(_, len) => Z.of_nat (length l) - len)
    (fun b => b = Z.of_nat (length l)) (s, 0)) as (b & Hb & ->); [| |lia|exact Hb].
  - intros [p len] ([|c l'] & Hl & Hsum & Hle).
    + apply cstr_nil in Hl. rewrite Hl. cbn [Z.eqb negb length] in *. lia.
    + apply cstr_cons in Hl as (Hc & Hnz & Hl). rewrite Hc, (proj2 (Z.eqb_neq 0 c)) by lia.
      cbn [negb length] in *. rewrite u32_small by lia. split; [|lia]. exists l'. split; [done|lia].
  - exists l. split; [done|lia].
Qed.

Lemma ece391_strcmp_lex m s1 s2 l1 l2 :
  cstr m s1 l1 -> cstr m s2 l2 -> Z.of_nat (length l1) < 4294967295 ->
  ece391_strcmp m s1 s2 = Some (lex l1 l2).
Proof.
  intros H1 H2 Hlen. unfold ece391_strcmp.
  edestruct (while_total (A := Z * Z) (B := Z)
    (fun '(s1, s2) =>
      if ld m s1 =? ld m s2 then
        if ld m s1 =? 0 then inr 0 else inl (s1 + 1, s2 + 1)
      else inr (ld m s1 - ld m s2))
    (fun '(p1, p2) => exists k1 k2, cstr m p1 k1 /\ cstr m p2 k2 /\ lex k1 k2 = lex l1 l2 /\
       p1 + Z.of_nat (length k1) = s1 + Z.of_nat (length l1) /\ p1 <= s1 + Z.of_nat (length l1))
    (fun '(p1, _) => s1 + Z.of_nat (length l1) - p1)
    (fun b => b = lex l1 l2) (s1, s2)) as (b & Hb & ->); [| |lia|exact Hb].
  - intros [p1 p2] ([|a k1] & [|b k2] & K1 & K2 & Hlex & Hp & Hle).
    all: rewrite ?cstr_nil, ?cstr_cons in K1; rewrite ?cstr_nil, ?cstr_cons in K2.
    + by rewrite K1, K2.
    + destruct K2 as (E2 & Hb & _). by rewrite K1, E2, (proj2 (Z.eqb_neq 0 b)) by lia.
    + destruct K1 as (E1 & Ha & _). rewrite K2, E1, (proj2 (Z.eqb_neq a 0)) by lia.
      rewrite Z.sub_0_r. exact Hlex.
    + destruct K1 as (E1 & Ha & K1), K2 as (E2 & Hb & K2). rewrite E1, E2. cbn [lex] in Hlex.
      destruct (Z.eqb_spec a b) as [->|]; [|done]. rewrite (proj2 (Z.eqb_neq b 0)) by done.
      cbn [length] in Hp. split; [|lia]. exists k1, k2. split_and!; [done..|lia|lia].
  - exists l1, l2. split_and!; [done..|lia].
Qed.

(** At most [n] characters. *)
Lemma ece391_strncmp_lex m s1 s2 l1 l2 n :
  cstr m s1 l1 -> cstr m s2 l2 -> 0 <= n < 4294967296 ->
  ece391_strncmp m s1 s2 n = Some (lex (take (Z.to_nat n) l1) (take (Z.to_nat n) l2)).
Proof.
  intros H1 H2 Hn. unfold ece391_strncmp. destruct (Z.eqb_spec 0 n) as [<-|Hnz]; [done|].
  edestruct (while_total (A := Z * Z * Z) (B := Z)
    (fun '(s1, s2, n) =>
      if ld m s1 =? ld m s2 then
        if ld m s1 =? 0 then inr 0
        else
          let n := u32 (n - 1) in
          if n =? 0 then inr 0 else inl (s1 + 1, s2 + 1, n)
      else inr (ld m s1 - ld m s2))
    (fun '(p1, p2, i) => exists k1 k2, cstr m p1 k1 /\ cstr m p2 k2 /\ 0 < i < 4294967296 /\
       lex (take (Z.to_nat i) k1) (take (Z.to_nat i) k2)
       = lex (take (Z.to_nat n) l1) (take (Z.to_nat n) l2))
    (fun '(_, _, i) => i)
    (fun b => b = lex (take (Z.to_nat n) l1) (take (Z.to_nat n) l2)) (s1, s2, n))
    as (b & Hb & ->); [| |lia|exact Hb].
  - intros [[p1 p2] i] (k1 & k2 & K1 & K2 & Hi & Hlex).
    destruct (Z.to_nat i) as [|j] eqn:Ej; [lia|].
    destruct k1 as [|a k1], k2 as [|b k2]; cbn [take lex] in Hlex.
    all: rewrite ?cstr_nil, ?cstr_cons in K1; rewrite ?cstr_nil, ?cstr_cons in K2.
    + by rewrite K1, K2.
    + destruct K2 as (E2 & Hb & _). by rewrite K1, E2, (proj2 (Z.eqb_neq 0 b)) by lia.
    + destruct K1 as (E1 & Ha & _). rewrite K2, E1, (proj2 (Z.eqb_neq a 0)) by lia.
      rewrite Z.sub_0_r. exact Hlex.
    + destruct K1 as (E1 & Ha & K1), K2 as (E2 & Hb & K2). rewrite E1, E2.
      destruct (Z.eqb_spec a b) as [->|]; [|done]. rewrite (proj2 (Z.eqb_neq b 0)) by done.
      cbv zeta. rewrite u32_small by lia. destruct (Z.eqb_spec (i - 1) 0) as [Ez|].
      * assert (j = O) as -> by lia. exact Hlex.
      * split; [|lia]. exists k1, k2. replace (Z.to_nat (i - 1)) with j by lia.
        split_and!; [done|done|lia|lia|exact Hlex].
  - exists l1, l2. split_and!; [done|done|lia|lia|done].
Qed.

(** A string moved down over itself: every byte is read before it is overwritten. *)
Lemma ece391_strcpy_down m dst src l :
  cstr m src l -> dst < src -> inj_on m dst (src - dst + Z.of_nat (length l) + 1) ->
  Z.of_nat (length l) < 4294967295 -> ece391_strcpy m dst src = Some (store_bytes m dst (l ++ [0])).
Proof.
  intros Hs Hlt Hinj Hlen. unfold ece391_strcpy. apply (while_loopn (S (length l))); [|lia]. clear Hlen.
  revert m dst src Hs Hlt Hinj. induction l as [|c l IH]; intros m dst src Hs Hlt Hinj.
  - apply cstr_nil in Hs. cbn [length loopn app store_bytes]. rewrite Hs. done.
  - apply cstr_cons in Hs as (Hc & Hnz & Hs). remember (S (length l)) as j eqn:Ej.
    cbn [length loopn app store_bytes] in *. rewrite Hc, (proj2 (Z.eqb_neq 0 c)) by lia. subst j.
    apply IH; [|lia|].
    + destruct Hs as [Hb Hz]. split; [|done]. intros i b Hi. rewrite <-(Hb i b Hi).
      apply ld_st_other. intros Heq. apply lookup_lt_Some in Hi. rewrite length_app in Hi. cbn [length] in Hi.
      assert (src + 1 + Z.of_nat i - dst = 0); [|lia]. apply Hinj; [lia..|].
      rewrite Z.add_0_r, Heq. f_equal. lia.
    + intros x y Hx Hy. rewrite !cell_st, <-!Z.add_assoc. intros Heq. apply Hinj in Heq; lia.
Qed.

(** The early exit of [ece391_strrev] is the loop taking no turn. *)
Lemma ece391_strrev_strrev m s l :
  cstr m s l -> Z.of_nat (length l) < 2147483648 -> ece391_strrev m s = strrev m s.
Proof.
  intros Hs Hlen. unfold ece391_strrev, strrev.
  rewrite (ece391_strlen_cstr m s l Hs), (strlen_cstr m s l Hs) by lia. cbn [mbind option_bind].
  rewrite s32_small by lia. destruct (Z.leb_spec (Z.of_nat (length l) - 1) 0) as [Hle|]; [|done].
  symmetry. apply (while_loopn 1); [|lia]. cbn [loopn]. by rewrite (proj2 (Z.ltb_ge _ _)) by lia.
Qed.

Lemma ece391_itoa_itoa m value buf radix :
  2 <= radix <= 36 -> 0 <= value < 4294967296 -> inj_on m buf 33 ->
  ece391_itoa m value buf radix = itoa m value buf radix.
Proof.
  intros Hr Hv Hinj. unfold ece391_itoa, itoa. rewrite u32_small by lia.
  destruct (value =? 0); [done|]. rewrite (proj2 (Z.eqb_neq radix 0)) by lia.
  rewrite itoa_loop by done. cbv zeta. cbn [mbind option_bind].
  pose proof (digits_rev_length 32 radix value) as Hlen.
  assert (Forall (fun d => 0 <= d < 36) (digits_rev 32 radix value)) as Hl.
  { eapply Forall_impl; [|apply digits_rev_range; lia]. simpl. lia. }
  set (l := digits_rev 32 radix value) in *. rewrite length_map.
  apply (ece391_strrev_strrev _ _ (map digit_char l)); [|rewrite length_map; lia].
  assert (st (store_bytes m buf (map digit_char l)) (buf + Z.of_nat (length l)) 0
          = store_bytes m buf (map digit_char l ++ [0])) as ->
    by (by rewrite store_bytes_app, length_map).
  apply digit_chars_cstr; [|done]. intros i j Hi Hj. apply Hinj; lia.
Qed.

End facts.

Section contract.
Context {M : Type} `{ByteMemOk M}.
Implicit Type m : M.

(** C37: the order of strings in the user library.  [ece391_strcmp] and
    [ece391_strncmp] end; they answer 0 exactly for equal strings, respectively
    strings equal in their first [n] characters, and otherwise both answer the
    difference, first string less second, of the first two bytes that differ, the
    terminator counted as a byte; for [ece391_strncmp] that place is among the first
    [n]. *)
Theorem ece391_strcmp_correct m s1 s2 l1 l2 n :
  cstr m s1 l1 -> cstr m s2 l2 -> Z.of_nat (length l1) < 4294967295 -> 0 <= n < 4294967296 ->
  exists r rn, ece391_strcmp m s1 s2 = Some r /\ ece391_strncmp m s1 s2 n = Some rn /\
    (r = 0 <-> l1 = l2) /\ (rn = 0 <-> take (Z.to_nat n) l1 = take (Z.to_nat n) l2) /\
    (forall p a b t1 t2, l1 ++ [0] = p ++ a :: t1 -> l2 ++ [0] = p ++ b :: t2 -> a <> b ->
       r = a - b /\ (Z.of_nat (length p) < n -> rn = a - b)).
Proof.
  intros H1 H2 Hl Hn. pose proof H1 as [_ Z1]. pose proof H2 as [_ Z2].
  do 2 eexists. split; [by apply ece391_strcmp_lex|]. split; [by apply ece391_strncmp_lex|].
  split; [by apply lex_zero|]. split; [by apply lex_zero; apply Forall_take|].
  intros p a b t1 t2 E1 E2 Hab. split; [by apply (lex_first p l1 l2 a b t1 t2)|].
  intros Hp. apply (lex_first_take _ p l1 l2 a b t1 t2); (done || lia).
Qed.

End contract.

(** *** Example: "fish" against "file" *)

Lemma ece391_strcmp_correct_witness :
  exists m : flat, ece391_strcmp m 0x100 0x200 = Some 7 /\ ece391_strncmp m 0x100 0x200 2 = Some 0 /\
    ece391_strncmp m 0x100 0x200 3 = Some 7.
Proof.
  exists (store_bytes (store_bytes (∅ : flat) 0x100 (chars "fish"%string ++ [0])) 0x200 (chars "file"%string ++ [0])).
  set (m := store_bytes _ _ _).
  assert (cstr m 0x100 (chars "fish"%string)) as H1
    by (split; [apply bytes_at_load; vm_compute; reflexivity|by repeat constructor]).
  assert (cstr m 0x200 (chars "file"%string)) as H2
    by (split; [apply bytes_at_load; vm_compute; reflexivity|by repeat constructor]).
  destruct (ece391_strcmp_correct m 0x100 0x200 (chars "fish"%string) (chars "file"%string) 2 H1 H2)
    as (r & rn & _ & -> & _ & [_ Hn] & _); [simpl; lia..|].
  destruct (ece391_strcmp_correct m 0x100 0x200 (chars "fish"%string) (chars "file"%string) 3 H1 H2)
    as (r' & rn' & -> & -> & _ & _ & Hd); [simpl; lia..|].
  destruct (Hd [102; 105] 115 108 [104; 0] [101; 0]) as [-> Hrn]; [done..|].
  by rewrite Hn, Hrn by (done || (simpl; lia)).
Defined.
