(* ===== verification/Programs.v ===== *)
(** * The user programs (syscalls/)

    The mains of cat, ls, shell, hello, counter and testprint, over an
    interface: a state that is a byte memory, and the system calls as functions of
    it.  The kernel is one implementation (UserKernel.v).  A call that does not
    come back answers [None].  The addresses of the local arrays are parameters, as
    are those of the string literals. *)
From Stdlib Require Import ZArith Lia String Ascii.
From stdpp Require Import base list gmap numbers.
From S2P Require Import Prelude ByteMem LibString Support.

(** The calls the programs make (ece391syscall.h). *)
Class Calls (K : Type) := {
  sys_execute : Z -> K -> option (Z * K);
  sys_read : Z -> Z -> Z -> K -> option (Z * K);
  sys_write : Z -> Z -> Z -> K -> option (Z * K);
  sys_open : Z -> K -> option (Z * K);
  sys_close : Z -> K -> option (Z * K);
  sys_getargs : Z -> Z -> K -> option (Z * K);
  sys_vidmap : Z -> K -> option (Z * K);
  sys_number : Z -> K -> option (Z * K);   (* int 0x80 with any number in eax *)
}.

(** Where the program's string literals are. *)
Class Literals := lit : string -> Z.

Definition nl : string := String "010" EmptyString.

(** ** The programs' monad *)

Section monad.
Context {K : Type}.

Definition U (A : Type) : Type := K -> option (A * K).

Definition u_ret {A} (a : A) : U A := fun k => Some (a, k).
Definition u_bind {A B} (x : U A) (f : A -> U B) : U B := fun k =>
  match x k with
  | Some (a, k) => f a k
  | None => None
  end.

(** Reading the state, and changing it. *)
Definition u_get {A} (f : K -> option A) : U A := fun k => a ← f k; Some (a, k).
Definition u_put (f : K -> option K) : U unit := fun k => k ← f k; Some (tt, k).

(** [while (1) body]: the body answers [Some] of the result to leave the loop. *)
Definition u_while {B} (body : U (option B)) : U B := fun k =>
  r ← while (fun k =>
    match body k with
    | Some (None, k) => inl k
    | Some (Some b, k) => inr (Some (b, k))
    | None => inr None
    end) k;
  r.

End monad.

Arguments U K A : clear implicits.

Declare Scope u_scope.
Delimit Scope u_scope with u.
Notation "x <- e ;; f" := (u_bind e (fun x => f)) (at level 100, e at next level, right associativity) : u_scope.
Notation "e ;;; f" := (u_bind e (fun _ => f)) (at level 100, right associativity) : u_scope.

#[local] Open Scope u_scope.

Section programs.
Context {K : Type} `{ByteMem K} {CL : Calls K} {LI : Literals}.

Definition store (a v : Z) : U K unit := u_put (fun k => Some (st k a v)).
Definition load (a : Z) : U K Z := u_get (fun k => Some (ld k a)).

Definition ece391_fdputs (fd s : Z) : U K unit :=
  n <- u_get (fun k => ece391_strlen k s) ;;
  _ <- sys_write fd s n ;;
  u_ret tt.

Definition puts_ret {A} (s : string) (a : A) : U K A := ece391_fdputs 1 (lit s) ;;; u_ret a.

(** *** ece391cat.c *)

(** The loop [while (0 != (cnt = ece391_read (fd, buf, 1024)))], one turn. *)
Definition cat_turn (buf fd : Z) : U K (option Z) :=
  cnt <- sys_read fd buf 1024 ;;
  if 0 =? cnt then u_ret (Some 0)
  else if -1 =? cnt then puts_ret ("file read failed" ++ nl) (Some 3)
  else
    r <- sys_write 1 buf cnt ;;
    if -1 =? r then u_ret (Some 3) else u_ret None.

Definition cat_main (buf : Z) : U K Z :=
  r <- sys_getargs buf 1024 ;;
  if negb (0 =? r) then puts_ret ("could not read arguments" ++ nl) 3
  else
    fd <- sys_open buf ;;
    if -1 =? fd then puts_ret ("file not found" ++ nl) 2
    else u_while (cat_turn buf fd).

(** *** ece391ls.c *)

Definition ls_turn (buf fd : Z) : U K (option Z) :=
  cnt <- sys_read fd buf 32 ;;
  if 0 =? cnt then u_ret (Some 0)
  else if -1 =? cnt then puts_ret ("directory entry read failed" ++ nl) (Some 3)
  else
    store (buf + cnt) 10 ;;;
    r <- sys_write 1 buf (cnt + 1) ;;
    if -1 =? r then u_ret (Some 3) else u_ret None.

Definition ls_main (buf : Z) : U K Z :=
  fd <- sys_open (lit ".") ;;
  if -1 =? fd then puts_ret ("directory open failed" ++ nl) 2
  else u_while (ls_turn buf fd).

(** *** ece391testprint.c, ece391hello.c *)

Definition testprint_main : U K Z :=
  puts_ret ("Hello, if this ran, the program was correct. Yay!" ++ nl) 0.

Definition hello_main (buf : Z) : U K Z :=
  ece391_fdputs 1 (lit "Hi, what's your name? ") ;;;
  cnt <- sys_read 0 buf 1023 ;;
  if -1 =? cnt then puts_ret ("Can't read name from keyboard." ++ nl) 3
  else
    store (buf + cnt) 0 ;;;
    ece391_fdputs 1 (lit "Hello, ") ;;;
    ece391_fdputs 1 buf ;;;
    u_ret 0.

(** *** ece391counter.c *)

(** [for (i = 0; i < max; i++)]: [n] turns are left. *)
Fixpoint counter_from (n : nat) (buf i : Z) : U K unit :=
  match n with
  | O => u_ret tt
  | S n =>
      (u_put (fun k => ece391_itoa k (i + 1) buf 10) ;;;
       ece391_fdputs 1 buf ;;;
       ece391_fdputs 1 (lit nl) ;;;
       counter_from n buf (i + 1))
  end.

Definition counter_max (c : Z) : Z :=
  if c =? 48 then 100 else if c =? 49 then 10000 else if c =? 50 then 100000 else 0.

Definition counter_main (buf : Z) : U K Z :=
  ece391_fdputs 1 (lit ("Enter the Test Number: (0): 100, (1): 10000, (2): 100000" ++ nl)) ;;;
  cnt <- sys_read 0 buf 1023 ;;
  if -1 =? cnt then puts_ret ("Can't read the number from keyboard." ++ nl) 3
  else
    store (buf + cnt) 0 ;;;
    len <- u_get (fun k => ece391_strlen k buf) ;;
    c <- load buf ;;
    if (1 <? len) || ((len =? 1) && ((c <? 48) || (50 <? c))) then puts_ret ("Wrong Choice!" ++ nl) 0
    else counter_from (Z.to_nat (counter_max c)) buf 0 ;;; u_ret 0.

(** *** ece391shell.c *)

(** [cnt > 0 && '\n' == buf[cnt - 1]] *)
Definition shell_trim (buf cnt : Z) : U K Z :=
  if 0 <? cnt then
    c <- load (buf + (cnt - 1)) ;;
    u_ret (if 10 =? c then cnt - 1 else cnt)
  else u_ret cnt.

Definition shell_run (buf : Z) : U K (option Z) :=
  rval <- sys_execute buf ;;
  if -1 =? rval then puts_ret ("no such command" ++ nl) None
  else if 256 =? rval then puts_ret ("program terminated by exception" ++ nl) None
  else if negb (0 =? rval) then puts_ret ("program terminated abnormally" ++ nl) None
  else u_ret None.

Definition shell_turn (buf : Z) : U K (option Z) :=
  ece391_fdputs 1 (lit "391OS> ") ;;;
  cnt <- sys_read 0 buf 1023 ;;
  if -1 =? cnt then puts_ret ("read from keyboard failed" ++ nl) (Some 3)
  else
    cnt <- shell_trim buf cnt ;;
    store (buf + cnt) 0 ;;;
    r <- u_get (fun k => ece391_strcmp k buf (lit "exit")) ;;
    if 0 =? r then u_ret (Some 0)
    else
      c <- load buf ;;
      if 0 =? c then u_ret None else shell_run buf.

Definition shell_main (buf : Z) : U K Z :=
  ece391_fdputs 1 (lit ("Starting 391 Shell" ++ nl)) ;;;
  u_while (shell_turn buf).

End programs.

(** ** What the loops rely on

    [stream cs out k]: reading descriptor [fd] into the [n] bytes at [buf] delivers
    the chunks [cs], one a call, and then 0; [out] is what the program has written
    to its output so far, of the bytes [shows] the output accepts.  Reading does not
    write, writing does not read, and the program may change the [n + 1] bytes of
    its array. *)
Class Stream (K : Type) `{ByteMem K} {CL : Calls K} (fd buf n : Z) := {
  stream : list (list Z) -> list Z -> K -> Prop;
  shows : Z -> Prop;
  stream_inj : forall cs out k, stream cs out k -> inj_on k buf (n + 1);
  stream_read : forall c cs out k, stream (c :: cs) out k ->
    0 < Z.of_nat (length c) <= n /\ Forall shows c /\
    exists k', sys_read fd buf n k = Some (Z.of_nat (length c), k') /\
      bytes_at k' buf c /\ stream cs out k';
  stream_end : forall out k, stream [] out k ->
    exists k', sys_read fd buf n k = Some (0, k') /\ stream [] out k';
  stream_write : forall l cs out k, stream cs out k ->
    Z.of_nat (length l) <= n + 1 -> bytes_at k buf l -> Forall shows l ->
    exists r k', sys_write 1 buf (Z.of_nat (length l)) k = Some (r, k') /\ r <> -1 /\
      stream cs (out ++ l) k';
  stream_store : forall cs out k i v, stream cs out k -> 0 <= i <= n ->
    stream cs out (st k (buf + i) v);
}.

Section loops.
Context {K : Type} `{ByteMemOk K} {CL : Calls K} {LI : Literals}.

Lemma u_while_loopn {B} (body : U K (option B)) (b : B) k k' n :
  loopn n (fun k => match body k with
      | Some (None, k) => inl k
      | Some (Some b, k) => inr (Some (b, k))
      | None => inr None
      end) k = inr (Some (b, k')) ->
  Z.of_nat n <= 4294967296 -> u_while body k = Some (b, k').
Proof. intros Hl Hn. unfold u_while. by rewrite (while_loopn n _ _ _ Hl Hn). Qed.

Section one_stream.
Context (fd buf n : Z) {ST : Stream K fd buf n}.

(** A loop that uses up one chunk a turn ends, and shows all of them. *)
Lemma stream_loop (turn : U K (option Z)) (shown : list Z -> list Z) cs out k :
  (forall c cs out k, stream (c :: cs) out k ->
     exists k', turn k = Some (None, k') /\ stream cs (out ++ shown c) k') ->
  (forall out k, stream [] out k -> exists k', turn k = Some (Some 0, k') /\ stream [] out k') ->
  stream cs out k -> Z.of_nat (length cs) < 4294967296 ->
  exists k', u_while turn k = Some (0, k') /\ stream [] (out ++ concat (map shown cs)) k'.
Proof.
  intros Hturn Hend Hs Hlen.
  assert (exists k', loopn (S (length cs)) (fun k => match turn k with
      | Some (None, k) => inl k
      | Some (Some b, k) => inr (Some (b, k))
      | None => inr None
      end) k = inr (Some (0, k')) /\ stream [] (out ++ concat (map shown cs)) k') as (k' & Hl & Hk').
  { clear Hlen. revert out k Hs. induction cs as [|c cs IH]; intros out k Hs.
    - destruct (Hend out k Hs) as (k' & Ht & Hk'). exists k'. cbn [loopn length]. rewrite Ht.
      split; [done|]. by rewrite app_nil_r.
    - destruct (Hturn c cs out k Hs) as (k1 & Ht & Hk1). destruct (IH _ _ Hk1) as (k' & Hl & Hk').
      exists k'. rewrite <-app_assoc in Hk'. split; [|exact Hk'].
      cbn [length]. remember (S (length cs)) as j. cbn [loopn]. rewrite Ht. exact Hl. }
  exists k'. split; [|exact Hk']. apply (u_while_loopn _ _ _ _ _ Hl). lia.
Qed.

Lemma u_bind_some {A B} (x : U K A) (f : A -> U K B) k a k' :
  x k = Some (a, k') -> u_bind x f k = f a k'.
Proof. unfold u_bind. by intros ->. Qed.

Lemma chunk_tests (c : list Z) :
  0 < Z.of_nat (length c) <= n -> (0 =? Z.of_nat (length c)) = false /\ (-1 =? Z.of_nat (length c)) = false.
Proof. intros Hc. split; apply Z.eqb_neq; lia. Qed.

Lemma stream_show l cs out k :
  stream cs out k -> Z.of_nat (length l) <= n + 1 -> bytes_at k buf l -> Forall shows l ->
  exists k', (r <- sys_write 1 buf (Z.of_nat (length l)) ;;
      if -1 =? r then u_ret (Some 3) else u_ret None)%u k = Some (None, k') /\ stream cs (out ++ l) k'.
Proof.
  intros Hs Hl Hb Hr. destruct (stream_write l cs out k Hs Hl Hb Hr) as (r & k' & Hw & Hne & Hk').
  exists k'. split; [|exact Hk']. rewrite (u_bind_some _ _ _ _ _ Hw).
  by rewrite (proj2 (Z.eqb_neq _ _)) by congruence.
Qed.

End one_stream.

(** cat copies the file to its output. *)
Lemma cat_loop fd buf `{!Stream K fd buf 1024} cs out k :
  stream cs out k -> Z.of_nat (length cs) < 4294967296 ->
  exists k', u_while (cat_turn buf fd) k = Some (0, k') /\ stream [] (out ++ concat cs) k'.
Proof.
  intros Hs Hlen. replace (concat cs) with (concat (map (fun c => c) cs)) by (by rewrite map_id).
  apply stream_loop; try done; clear cs out k Hs Hlen.
  - intros c cs out k Hs. destruct (stream_read c cs out k Hs) as (Hc & Hb & k1 & Hr & Hk & Hs1).
    unfold cat_turn. destruct (chunk_tests 1024 c Hc) as [E0 E1].
    destruct (stream_show fd buf 1024 c cs out k1 Hs1 ltac:(lia) Hk Hb) as (k' & Hw & Hs').
    exists k'. split; [|exact Hs']. rewrite (u_bind_some _ _ _ _ _ Hr). by rewrite E0, E1.
  - intros out k Hs. destruct (stream_end out k Hs) as (k' & Hr & Hs'). exists k'.
    split; [|exact Hs']. unfold cat_turn. by rewrite (u_bind_some _ _ _ _ _ Hr).
Qed.

(** ls writes each name on a line. *)
Lemma ls_loop fd buf `{!Stream K fd buf 32} cs out k :
  shows 10 -> stream cs out k -> Z.of_nat (length cs) < 4294967296 ->
  exists k', u_while (ls_turn buf fd) k = Some (0, k') /\
    stream [] (out ++ concat (map (fun c => c ++ [10]) cs)) k'.
Proof.
  intros Hnl Hs Hlen. apply stream_loop; try done; clear cs out k Hs Hlen.
  - intros c cs out k Hs. destruct (stream_read c cs out k Hs) as (Hc & Hb & k1 & Hr & Hk & Hs1).
    unfold ls_turn. destruct (chunk_tests 32 c Hc) as [E0 E1].
    pose proof (stream_store cs out k1 (Z.of_nat (length c)) 10 Hs1 ltac:(lia)) as Hs2.
    destruct (stream_show fd buf 32 (c ++ [10]) cs out _ Hs2) as (k' & Hw & Hs').
    + rewrite length_app. simpl. lia.
    + apply bytes_at_app. split.
      * intros i b Hi. apply lookup_lt_Some in Hi as Hlt. rewrite ld_st_other; [by apply Hk|].
        intros Heq. apply (stream_inj _ _ _ Hs1) in Heq; lia.
      * apply bytes_at_load. cbn [length load_bytes]. by rewrite ld_st_same.
    + apply Forall_app. split; [done|]. constructor; [exact Hnl|constructor].
    + exists k'. split; [|exact Hs']. rewrite (u_bind_some _ _ _ _ _ Hr). rewrite E0, E1.
      erewrite u_bind_some by reflexivity. rewrite length_app in Hw. cbn [length] in Hw.
      rewrite Nat2Z.inj_add in Hw. exact Hw.
  - intros out k Hs. destruct (stream_end out k Hs) as (k' & Hr & Hs'). exists k'.
    split; [|exact Hs']. unfold ls_turn. by rewrite (u_bind_some _ _ _ _ _ Hr).
Qed.

End loops.
