(* ===== verification/UserKernel.v ===== *)
(** * The user programs on this kernel

    [int80] is the call gate of ece391syscall.S over [syscall_link]: with it the
    kernel and the interrupts still to come implement the interface [Calls], and an
    open file or directory implements [Stream].  The theorems follow a program from
    its main through the system calls to the screen. *)
From Stdlib Require Import ZArith Lia String.
From stdpp Require Import base list gmap numbers.
From S2P Require Import Prelude ByteMem LibString Machine Paging Devices Console Screen Filesystem Kernel FileTable Process Logic Scheduling Keyboard Terminal Syscall Support Programs.

#[local] Open Scope c_scope.

(** The kernel while a program runs, and the interrupts to come. *)
Definition task : Type := kernel * list irq.

Section calls.
Context {L : Layout} {D : Device} {FR : Frames}.

(** The program's loads and stores go through the page tables of the moment. *)
#[export] Instance task_mem : ByteMem task := {
  ld t a := ld (kmach (fst t)) a;
  st t a v := (set_kmach (fst t) (st (kmach (fst t)) a v), snd t);
  cell t a := cell (kmach (fst t)) a;
}.

(** [movl $number, %eax; movl 8(%esp), %ebx; ...; int $0x80] *)
Definition int80 (number ebx ecx edx : Z) : U task Z := fun '(k, irqs) =>
  match syscall_link irqs number ebx ecx edx k with
  | Ret (r, irqs) k => Some (r, (k, irqs))
  | _ => None
  end.

(** The numbers of ece391sysnum.h.  The registers of the arguments a call does not
    have hold what is on the stack: the kernel does not read them, nor those of the
    numbers it refuses. *)
#[export] Instance kernel_calls : Calls task := {
  sys_execute command := int80 2 command 0 0;
  sys_read fd buf nbytes := int80 3 fd buf nbytes;
  sys_write fd buf nbytes := int80 4 fd buf nbytes;
  sys_open filename := int80 5 filename 0 0;
  sys_close fd := int80 6 fd 0 0;
  sys_getargs buf nbytes := int80 7 buf nbytes 0;
  sys_vidmap screen_start := int80 8 screen_start 0 0;
  sys_number number := int80 number 0 0 0;
}.

End calls.

(** A list cut into pieces of [n]. *)
Fixpoint chunked (n : nat) (cs : list (list Z)) (l : list Z) : Prop :=
  match cs with
  | [] => l = []
  | c :: cs => l <> [] /\ c = take n l /\ chunked n cs (drop n l)
  end.

Lemma chunked_concat n cs l : chunked n cs l -> concat cs = l.
Proof.
  revert l. induction cs as [|c cs IH]; intros l; simpl; [done|].
  intros (_ & -> & Hc). by rewrite (IH _ Hc), take_drop.
Qed.

Lemma chunked_exists n l : (0 < n)%nat -> exists cs, chunked n cs l /\ (length cs <= length l)%nat.
Proof.
  intros Hn. remember (length l) as j eqn:Hj. revert l Hj.
  induction j as [j IH] using lt_wf_ind; intros l ->. destruct l as [|b l]; [by exists []|].
  destruct (IH (length (drop n (b :: l)))) with (l := drop n (b :: l)) as (cs & Hc & Hl);
    [rewrite length_drop; simpl; lia|done|].
  exists (take n (b :: l) :: cs). split; [by split_and!|]. rewrite length_drop in Hl. simpl in *. lia.
Qed.

Section facts.
Context {L : Layout} {LOK : LayoutOk} {D : Device} {FR : Frames}.
Implicit Types (m : machine) (k : kernel).

#[export] Instance task_mem_ok : ByteMemOk task.
Proof.
  split; intros; unfold ld, st, cell; cbn [task_mem fst snd].
  - apply ld_range.
  - apply ld_st.
  - by rewrite st_u8.
  - by apply ld_cell.
  - apply cell_st.
Qed.

(** *** What a program with an array of [n + 1] bytes relies on

    [m0] is the machine at its start, [tty] what its terminal shows. *)
Context (fs size buf n : Z) (m0 : machine).

Record desk (t : list Z * Z) k : Prop := {
  dk_out : exists g, fd (kfiles k) !! 1%nat = Some g /\ flags g = 1 /\ f_write (fotp g) = fn_terminal_write;
  dk_fs : FSYSTEM k = fs;
  dk_same : image_same fs m0 (kmach k) size;
  dk_cells : forall a, cell (kmach k) a = cell m0 a;
  dk_view : in_view k;
  dk_ease : at_ease (con k);
  dk_screen : on_screen (con k) = t;
}.

(** Where things are. *)
Record placed : Prop := {
  pl_image : image_within fs m0 size;
  pl_image_steady : forall a, fs <= a < fs + size -> ~ console_bytes (cell m0 a);
  pl_buf : 0 < buf < 4294967296;
  pl_n : 0 < n < 2147483647;
  pl_off : off_image fs m0 size buf (n + 1);
  pl_inj : inj_on m0 buf (n + 1);
  pl_steady : steady m0 buf (Z.to_nat (n + 1));
  pl_line : apart m0 buf (n + 1) tbuffer_at 129;
  pl_image_line : forall a, fs <= a < fs + size -> cell m0 a <> tbuffer_at + 128;
}.

Hypothesis PL : placed.

Lemma desk_store_bytes t k i l :
  desk t k -> 0 <= i -> i + Z.of_nat (length l) <= n + 1 ->
  desk t (set_kmach k (store_bytes (kmach k) (buf + i) l)).
Proof using LOK PL.
  intros [Ho Hf Hs Hc Hv He Ht] Hi Hl. pose proof PL as [P1 P2 P3 P4 P5 P6 P7 P8 P9].
  pose proof (store_ram_only (kmach k) (buf + i) l) as Hr.
  destruct He as [[E1 E2 E3] E4 E5].
  split; [done|done| | |done| |].
  - eapply image_same_trans; [exact Hs|]. apply image_same_store.
    eapply off_image_sub; [exact Hc|exact P5|lia|lia].
  - intros a. rewrite kmach_set_kmach, cell_store_bytes. apply Hc.
  - split; [split|done|done]; try done. by eapply ram_only_mapped.
  - rewrite <-Ht. unfold on_screen. f_equal. apply screen_same.
    intros a Ha. apply store_bytes_outside. intros j Hj Heq.
    apply (P7 (i + j)); [lia|]. rewrite Z.add_assoc, <-Hc. change (kmach k) with (mach (con k)).
    rewrite Heq, cell_video by (done || lia). left. lia.
Qed.

Lemma desk_put_fd t k i f :
  (2 <= i)%nat -> desk t k -> desk t (set_fd k (<[i := f]> (fd (kfiles k)))).
Proof.
  intros Hi [(g & Hg & Ho) Hf Hs Hc Hv He Ht]. split; try done. exists g. split; [|done].
  cbn [kfiles set_fd set_kfiles fd]. by rewrite list_lookup_insert_ne by lia.
Qed.

(** Any text in memory, drawn. *)
Lemma desk_print t k irqs p l :
  desk t k -> 0 < p < 4294967296 -> Z.of_nat (length l) < 2147483648 ->
  bytes_at (kmach k) p l -> steady (kmach k) p (length l) -> Forall printable l ->
  exists k', sys_write 1 p (Z.of_nat (length l)) (k, irqs) = Some (0, (k', irqs)) /\
    desk (tty_print l t) k' /\ kfiles k' = kfiles k /\ touches console_bytes (kmach k) (kmach k') /\
    same_input k k'.
Proof using LOK PL.
  intros [(g & Hg & Hg1 & Hgw) Hf Hs Hc Hv He Ht] Hp Hl Hb Hst Hpr.
  pose proof PL as [P1 P2 P3 P4 P5 P6 P7 P8 P9].
  destruct (terminal_write_prints (syscall_esp (esp0 (kprocs k))) irqs (f_inode g) p l k Hv He Hb Hst Hpr)
    as (s' & Hw & He' & Ht' & Hto & Hin).
  exists (set_con k s'). split; [|split; [|split; [done|split; [exact Hto|exact Hin]]]].
  - cbn [sys_write kernel_calls]. unfold int80.
    assert (syscall_link irqs 4 1 p (Z.of_nat (length l)) k = Ret (0, irqs) (set_con k s')) as ->; [|done].
    change (syscall_link irqs 4 1 p (Z.of_nat (length l)) k)
      with (write (syscall_esp (esp0 (kprocs k))) irqs (s32 1) (u32 p) (s32 (Z.of_nat (length l))) k).
    rewrite u32_small, (s32_small 1), s32_small by lia. unfold write.
    rewrite (proj2 (Z.eqb_neq p 0)) by lia. cbn [orb Z.ltb Z.compare Pos.compare Pos.compare_cont].
    rewrite (c_bind_ret _ _ _ _ _ (get_fd_some k 1 g Hg)), Hg1. cbn [truth Z.eqb negb].
    rewrite Hgw. exact Hw.
  - split; try done.
    + by exists g.
    + intros a Ha. change (kmach (set_con k s')) with (mach s'). destruct Hto as [_ Hto]. rewrite Hto by (rewrite Hc; by apply P2).
      by apply Hs.
    + intros a. change (kmach (set_con k s')) with (mach s'). rewrite (touches_cell console_bytes (kmach k)) by done. apply Hc.
    + change (con (set_con k s')) with s'. by rewrite Ht', Ht.
Qed.

Lemma sys_read_link fd' p b k irqs :
  0 <= fd' < 8 -> 0 < p < 4294967296 -> 0 <= b < 2147483648 ->
  sys_read fd' p b (k, irqs)
  = match read (syscall_esp (esp0 (kprocs k))) irqs fd' p b k with
    | Ret (r, irqs) k => Some (r, (k, irqs))
    | _ => None
    end.
Proof.
  intros H1 H2 H3. cbn [sys_read kernel_calls]. unfold int80.
  change (syscall_link irqs 3 fd' p b k)
    with (read (syscall_esp (esp0 (kprocs k))) irqs (s32 fd') (u32 p) (s32 b) k).
  by rewrite u32_small, !s32_small by lia.
Qed.

(** A read through a descriptor in use. *)
Lemma read_fd base irqs i f p b k :
  (i < 8)%nat -> p <> 0 -> fd (kfiles k) !! i = Some f -> flags f = 1 ->
  read base irqs (Z.of_nat i) p b k = call_read base irqs (f_read (fotp f)) (Z.of_nat i) p b k.
Proof.
  intros Hi Hp Hf Hfl. unfold read.
  rewrite (proj2 (Z.eqb_neq p 0)), (proj2 (Z.ltb_ge _ _)), (proj2 (Z.ltb_ge _ _)) by lia. cbn [orb].
  rewrite (c_bind_ret _ _ _ _ _ (get_fd_some k i f Hf)), Hfl. done.
Qed.

(** What both kinds of descriptor share: the output and the program's array. *)
Lemma desk_write t k irqs l :
  desk t k -> Z.of_nat (length l) <= n + 1 -> bytes_at (kmach k) buf l -> Forall printable l ->
  exists k', sys_write 1 buf (Z.of_nat (length l)) (k, irqs) = Some (0, (k', irqs)) /\
    desk (tty_print l t) k' /\ kfiles k' = kfiles k.
Proof using LOK PL.
  intros Hd Hl Hb Hp. pose proof PL as [P1 P2 P3 P4 P5 P6 P7 P8 P9].
  destruct (desk_print t k irqs buf l Hd) as (k' & Hw & Hd' & Hf & _); [done|lia|done| |done|by exists k'].
  intros j Hj. rewrite (dk_cells _ _ Hd). apply P7. lia.
Qed.

Lemma desk_inj t k : desk t k -> inj_on (kmach k) buf (n + 1).
Proof using PL. intros Hd a b Ha Hb. rewrite !(dk_cells _ _ Hd). by apply (pl_inj PL). Qed.

Lemma desk_st t k j v :
  desk t k -> 0 <= j <= n -> desk t (set_kmach k (st (kmach k) (buf + j) v)).
Proof using LOK PL. intros Hd Hj. apply (desk_store_bytes t k j [v] Hd); simpl; lia. Qed.

Lemma bytes_at_stored t k c :
  desk t k -> Z.of_nat (length c) <= n + 1 -> Forall (fun b => 0 <= b < 256) c ->
  bytes_at (store_bytes (kmach k) (buf + 0) c) buf c.
Proof using PL.
  intros Hd Hl Hc. rewrite Z.add_0_r. apply bytes_at_load. rewrite store_bytes_load.
  - by apply map_u8_id.
  - intros x y Hx Hy. apply (desk_inj t k Hd); lia.
Qed.

Lemma text_bytes l : Forall printable l -> Forall (fun b => 0 <= b < 256) l.
Proof. apply Forall_impl. by intros b [Hb _]. Qed.

(** *** A descriptor as a stream

    [rest p cs]: the descriptor at position [p] has the chunks [cs] left, and
    [delivers] is what its driver does with a read. *)

Section descriptor.
Context (i : nat) (fops : fops_t) (ino : Z) (irqs : list irq) (t0 : list Z * Z).
Context (rest : Z -> list (list Z) -> Prop).
Hypothesis rest_chunk : forall p c cs, rest p (c :: cs) ->
  0 < Z.of_nat (length c) <= n /\ Forall printable c.
Hypothesis delivers : forall t k p cs,
  desk t k -> fd (kfiles k) !! i = Some (File fops ino p 1) -> rest p cs ->
  let c := hd [] cs in
  exists k' p', sys_read (Z.of_nat i) buf n (k, irqs) = Some (Z.of_nat (length c), (k', irqs)) /\
    kmach k' = store_bytes (kmach k) (buf + 0) c /\ desk t k' /\
    fd (kfiles k') !! i = Some (File fops ino p' 1) /\ rest p' (tl cs).

Definition fd_stream (cs : list (list Z)) (out : list Z) (t : task) : Prop :=
  snd t = irqs /\ desk (tty_print out t0) (fst t) /\
  exists p, fd (kfiles (fst t)) !! i = Some (File fops ino p 1) /\ rest p cs.

Lemma fd_stream_next c cs out t :
  fd_stream (c :: cs) out t ->
  0 < Z.of_nat (length c) <= n /\ Forall printable c /\
  exists t', sys_read (Z.of_nat i) buf n t = Some (Z.of_nat (length c), t') /\
    bytes_at t' buf c /\ fd_stream cs out t'.
Proof using LOK PL rest_chunk delivers.
  destruct t as [k irqs']. intros (Hirqs & Hd & p & Hf & Hcs). cbn [fst snd] in *. subst irqs'.
  destruct (rest_chunk _ _ _ Hcs) as [Hlen Hpr].
  destruct (delivers _ _ _ _ Hd Hf Hcs) as (k' & p' & Hr & Hm & Hd' & Hf' & Hcs').
  cbn [hd tl] in *. split; [done|]. split; [done|]. exists (k', irqs). split; [exact Hr|]. split.
  - change (bytes_at (kmach k') buf c). rewrite Hm.
    apply (bytes_at_stored _ _ _ Hd); [lia|by apply text_bytes].
  - split; [done|]. split; [exact Hd'|]. by exists p'.
Qed.

Lemma fd_stream_end out t :
  fd_stream [] out t ->
  exists t', sys_read (Z.of_nat i) buf n t = Some (0, t') /\ fd_stream [] out t'.
Proof using delivers.
  destruct t as [k irqs']. intros (Hirqs & Hd & p & Hf & Hcs). cbn [fst snd] in *. subst irqs'.
  destruct (delivers _ _ _ _ Hd Hf Hcs) as (k' & p' & Hr & _ & Hd' & Hf' & Hcs').
  exists (k', irqs). split; [exact Hr|]. split; [done|]. split; [exact Hd'|]. by exists p'.
Qed.

Lemma fd_stream_write l cs out t :
  fd_stream cs out t -> Z.of_nat (length l) <= n + 1 -> bytes_at t buf l -> Forall printable l ->
  exists r t', sys_write 1 buf (Z.of_nat (length l)) t = Some (r, t') /\ r <> -1 /\
    fd_stream cs (out ++ l) t'.
Proof using LOK PL.
  destruct t as [k irqs']. intros (Hirqs & Hd & p & Hf & Hcs) Hl Hb Hpr. cbn [fst snd] in *. subst irqs'.
  destruct (desk_write _ _ irqs l Hd Hl Hb Hpr) as (k' & Hw & Hd' & Hk').
  exists 0, (k', irqs). split; [exact Hw|]. split; [done|]. split; [done|]. split.
  - unfold tty_print. by rewrite fold_left_app.
  - exists p. cbn [fst]. by rewrite Hk'.
Qed.

Lemma fd_stream_st cs out t j v :
  fd_stream cs out t -> 0 <= j <= n -> fd_stream cs out (st t (buf + j) v).
Proof using LOK PL.
  intros (Hirqs & Hd & Hf) Hj. split; [done|]. split; [by apply (desk_st _ _ _ _ Hd)|exact Hf].
Qed.

Lemma fd_stream_inj cs out t : fd_stream cs out t -> inj_on t buf (n + 1).
Proof using PL. intros (_ & Hd & _). exact (desk_inj _ _ Hd). Qed.

Definition fd_streams : Stream task (Z.of_nat i) buf n := {|
  stream := fd_stream;
  shows := printable;
  stream_inj := fd_stream_inj;
  stream_read := fd_stream_next;
  stream_end := fd_stream_end;
  stream_write := fd_stream_write;
  stream_store := fd_stream_st;
|}.

End descriptor.

(** *** A file *)

Section file.
Context (i : nat) (ino : Z).
Let content := file_content fs m0 ino.
Definition file_rest (p : Z) (cs : list (list Z)) : Prop :=
  0 <= p <= Z.of_nat (length content) /\ chunked (Z.to_nat n) cs (drop (Z.to_nat p) content).

Lemma file_rest_chunk p c cs :
  Forall printable content -> file_rest p (c :: cs) ->
  0 < Z.of_nat (length c) <= n /\ Forall printable c.
Proof using PL.
  intros Htext (Hp & Hne & -> & _). pose proof (pl_n PL). split.
  - rewrite length_take. destruct (drop (Z.to_nat p) content); [done|]. simpl. lia.
  - by apply Forall_take, Forall_drop.
Qed.

Lemma file_rest_hd p cs :
  file_rest p cs -> hd [] cs = take (Z.to_nat n) (drop (Z.to_nat p) content).
Proof.
  intros (_ & Hc). destruct cs as [|c cs]; simpl in *; [by rewrite Hc, take_nil|]. by destruct Hc as (_ & -> & _).
Qed.

Lemma file_rest_tl p cs :
  file_rest p cs -> file_rest (p + Z.of_nat (length (hd [] cs))) (tl cs).
Proof.
  intros Hr. pose proof (file_rest_hd p cs Hr) as Hhd. destruct Hr as [Hp Hc]. rewrite Hhd.
  rewrite length_take, length_drop. split; [lia|].
  rewrite Z2Nat.inj_add, Nat2Z.id, <-drop_drop by lia.
  destruct cs as [|c cs]; simpl in *; [by rewrite Hc, drop_nil|]. destruct Hc as (_ & _ & Hc).
  destruct (decide (Z.to_nat n <= length content - Z.to_nat p)%nat).
  - by rewrite Nat.min_l by lia.
  - rewrite Nat.min_r by lia. rewrite drop_ge in Hc by (rewrite length_drop; lia).
    by rewrite drop_ge by (rewrite length_drop; lia).
Qed.

Lemma file_start t k irqs :
  desk t k -> fd (kfiles k) !! i = Some (File file_fops ino 0 1) ->
  exists cs, concat cs = content /\ (length cs <= length content)%nat /\
    fd_stream i file_fops ino irqs t file_rest cs [] (k, irqs).
Proof using PL.
  intros Hd Hf. pose proof (pl_n PL) as Hn.
  destruct (chunked_exists (Z.to_nat n) content ltac:(lia)) as (cs & Hcs & Hl).
  exists cs. split; [by eapply chunked_concat|]. split; [done|]. split; [done|]. split; [exact Hd|].
  exists 0. split; [exact Hf|]. split; [lia|]. exact Hcs.
Qed.

Hypothesis Hi : (2 <= i < 8)%nat.
Hypothesis Hino : 0 <= ino < boot_inodes fs m0.

Lemma file_delivers t k irqs p cs :
  desk t k -> fd (kfiles k) !! i = Some (File file_fops ino p 1) -> file_rest p cs ->
  let c := hd [] cs in
  exists k' p', sys_read (Z.of_nat i) buf n (k, irqs) = Some (Z.of_nat (length c), (k', irqs)) /\
    kmach k' = store_bytes (kmach k) (buf + 0) c /\ desk t k' /\
    fd (kfiles k') !! i = Some (File file_fops ino p' 1) /\ file_rest p' (tl cs).
Proof using LOK PL Hi Hino.
  intros Hd Hf Hrest c. pose proof (file_rest_tl p cs Hrest) as Htl. fold c in Htl.
  pose proof (file_rest_hd p cs Hrest) as Hhd. fold c in Hhd. destruct Hrest as [Hp _].
  pose proof PL as [P1 P2 P3 P4 P5 P6 P7 P8 P9]. pose proof Hd as [_ Hfs Hs Hc _ _ _].
  assert (file_content fs (kmach k) ino = content) as Hcont by (by apply (image_same_content fs m0 size)).
  assert (boot_inodes fs (kmach k) = boot_inodes fs m0) as Hbi
    by (eapply image_same_inodes; [exact Hs|by apply (image_size_boot fs m0)]).
  pose proof (file_content_length fs (kmach k) ino) as Hlen. rewrite Hcont in Hlen.
  pose proof (ld32_range (kmach k) (inode_at fs ino)) as Hsz.
  change (ld32 (kmach k) (inode_at fs ino)) with (file_size fs (kmach k) ino) in Hsz.
  destruct (file_read_spec i _ buf n size k Hf) as (m' & Hr & Hm'); cbn [f_inode fposition fotp flags];
    rewrite ?Hfs; [by apply (image_same_within fs m0)|by rewrite Hbi|lia|lia|lia| | |].
  { eapply off_image_sub; [exact Hc|exact P5|lia|lia]. }
  { intros a b Ha Hb. rewrite !Hc. apply P6; lia. }
  cbn [f_inode fposition fotp flags] in *. rewrite Hfs, Hcont in Hm'. rewrite Hfs in Hr.
  set (r := Z.max 0 _) in *.
  assert (r = Z.of_nat (length c)) as Er by (unfold r; rewrite Hhd, length_take, length_drop; lia).
  assert (take (Z.to_nat r) (drop (Z.to_nat p) content) = c) as Ec.
  { rewrite Er, Nat2Z.id, Hhd, length_take. apply take_same. lia. }
  rewrite Ec in Hm'. rewrite Er in Hr. clearbody r. subst m'.
  assert (0 + Z.of_nat (length c) <= n + 1) as Hlc by (rewrite Hhd, length_take; lia).
  pose proof (desk_store_bytes t k 0 c Hd ltac:(lia) Hlc) as Hd'. rewrite Z.add_0_r in *.
  assert (i < 8)%nat as Hi' by lia.
  rewrite u32_small in Hr by (rewrite Hhd, length_take, length_drop; lia).
  eexists _, _. split; [|split; [|split; [|split; [|exact Htl]]]].
  - rewrite sys_read_link by lia.
    rewrite (read_fd _ irqs i _ buf n k Hi' ltac:(lia) Hf eq_refl). cbn [f_read fotp file_fops call_read].
    unfold no_wait. rewrite (c_bind_ret _ _ _ _ _ Hr). reflexivity.
  - reflexivity.
  - by apply (desk_put_fd _ (set_kmach k (store_bytes (kmach k) buf c))); [lia|].
  - cbn [kfiles set_fd set_kfiles fd]. by rewrite list_lookup_insert_eq by (by eapply lookup_lt_Some).
Qed.

Definition file_streams (irqs : list irq) (t0 : list Z * Z) (Htext : Forall printable content) :
    Stream task (Z.of_nat i) buf n :=
  fd_streams i file_fops ino irqs t0 file_rest (fun p c cs => file_rest_chunk p c cs Htext)
    (fun t k p cs => file_delivers t k irqs p cs).

End file.

(** *** The directory *)

Section directory.
Context (i : nat).

(** What a read answers for entry [j]: its name, padded to 32 bytes. *)
Definition dir_chunk (j : Z) : list Z := resize 32 0 (dentry_name fs m0 j).

Definition dir_rest (p : Z) (cs : list (list Z)) : Prop :=
  0 <= p <= num_dentries fs m0 /\ cs = map dir_chunk (seqZ p (num_dentries fs m0 - p)).

Hypothesis Hn : 32 <= n.

Lemma dir_rest_chunk p c cs :
  (forall j, 0 <= j < num_dentries fs m0 -> Forall printable (dentry_name fs m0 j)) ->
  dir_rest p (c :: cs) -> 0 < Z.of_nat (length c) <= n /\ Forall printable c.
Proof using Hn.
  intros Htext (Hp & Hcs). destruct (decide (p < num_dentries fs m0)) as [Hlt|Hge].
  - rewrite seqZ_cons in Hcs by lia. injection Hcs as -> _. unfold dir_chunk.
    rewrite length_resize. split; [lia|]. apply Forall_resize; [by split|]. apply Htext. lia.
  - by rewrite seqZ_nil in Hcs by lia.
Qed.

Hypothesis Hi : (2 <= i < 8)%nat.

Lemma directory_read_entry k p b :
  image_within fs (kmach k) size -> FSYSTEM k = fs -> 0 <= p < 4294967296 ->
  fd (kfiles k) !! i = Some (File directory_fops 0 p 1) ->
  directory_read (Z.of_nat i) buf b k
  = if p <? num_dentries fs (kmach k) then
      Ret 32 (set_fd (set_kmach k (strncpy (kmach k) buf (dentry_at fs p) 32))
        (<[i := File directory_fops 0 (u32 (p + 1)) 1]> (fd (kfiles k))))
    else Ret 0 k.
Proof.
  intros Hiw Hfs Hp Hf. unfold directory_read.
  rewrite (c_bind_ret _ _ _ _ _ (get_fd_some k i _ Hf)). unfold c_bind at 1, c_get. cbn [fposition].
  rewrite Hfs, (read_dentry_by_index_entry fs (kmach k) p) by (assumption || apply (iw_dentries _ _ _ Hiw)).
  destruct (p <? num_dentries fs (kmach k)); [|done]. cbn [truth Z.eqb negb]. cbv zeta.
  unfold c_mach. rewrite c_bind_mod. unfold add_position, c_bind.
  rewrite (get_fd_some _ i (File directory_fops 0 p 1)) by exact Hf.
  unfold put_fd, c_mod, c_ret. by rewrite Nat2Z.id.
Qed.

Lemma dir_delivers t k irqs p cs :
  desk t k -> fd (kfiles k) !! i = Some (File directory_fops 0 p 1) -> dir_rest p cs ->
  let c := hd [] cs in
  exists k' p', sys_read (Z.of_nat i) buf n (k, irqs) = Some (Z.of_nat (length c), (k', irqs)) /\
    kmach k' = store_bytes (kmach k) (buf + 0) c /\ desk t k' /\
    fd (kfiles k') !! i = Some (File directory_fops 0 p' 1) /\ dir_rest p' (tl cs).
Proof using LOK PL Hi Hn.
  intros Hd Hf [Hp Hcs] c. pose proof PL as [P1 P2 P3 P4 P5 P6 P7 P8 P9]. pose proof Hd as [_ Hfs Hs Hc _ _ _].
  pose proof (iw_dentries _ _ _ P1) as Hnd. assert (i < 8)%nat as Hi' by lia.
  assert (image_within fs (kmach k) size) as Hiw by (by apply (image_same_within fs m0)).
  assert (num_dentries fs (kmach k) = num_dentries fs m0) as Hnum by (by apply (image_same_dentries fs m0 size)).
  pose proof (directory_read_entry k p n Hiw Hfs ltac:(lia) Hf) as Hr. rewrite Hnum in Hr.
  assert (sys_read (Z.of_nat i) buf n (k, irqs)
    = match directory_read (Z.of_nat i) buf n k with Ret r k' => Some (r, (k', irqs)) | _ => None end) as Hsys.
  { rewrite sys_read_link by lia. rewrite (read_fd _ irqs i _ buf n k Hi' ltac:(lia) Hf eq_refl).
    cbn [f_read fotp directory_fops call_read]. unfold no_wait, c_bind, c_ret.
    by destruct (directory_read _ _ _ _). }
  rewrite Hr in Hsys. destruct (Z.ltb_spec p (num_dentries fs m0)) as [Hlt|Hge].
  - rewrite seqZ_cons in Hcs by lia.
    assert (c = dir_chunk p) as Ec by (unfold c; by rewrite Hcs). clearbody c. subst cs.
    assert (strncpy (kmach k) buf (dentry_at fs p) 32 = store_bytes (kmach k) (buf + 0) c) as Est.
    { rewrite Z.add_0_r, strncpy_bytes.
      - rewrite Ec. unfold dir_chunk.
        destruct (image_same_dentry fs m0 size P1 (kmach k) p Hs) as [<- _]; [lia|]. done.
      - pose proof (image_size_boot fs m0 size P1) as Hz. unfold sizeof_boot_t in Hz.
        intros x y Hx Hy. rewrite !Hc. unfold dentry_at.
        replace (fs + 64 + 64 * p + y) with (fs + (64 + 64 * p + y)) by lia. apply P5; lia. }
    rewrite Est in Hsys.
    assert (length c = 32%nat) as Hlen by (rewrite Ec; apply length_resize).
    pose proof (desk_store_bytes t k 0 c Hd ltac:(lia) ltac:(lia)) as Hd'.
    eexists _, _. split; [|split; [|split; [|split]]].
    + rewrite Hsys, Hlen. reflexivity.
    + reflexivity.
    + by apply (desk_put_fd _ (set_kmach k (store_bytes (kmach k) (buf + 0) c))); [lia|].
    + cbn [kfiles set_fd set_kfiles fd]. by rewrite list_lookup_insert_eq by (by eapply lookup_lt_Some).
    + rewrite u32_small by lia. split; [lia|]. cbn [map tl]. unfold Z.succ. do 2 f_equal. lia.
  - rewrite seqZ_nil in Hcs by lia.
    assert (c = []) as Ec by (unfold c; by rewrite Hcs). clearbody c. subst cs c.
    exists k, p. split; [exact Hsys|]. split; [by destruct k as [[]]|]. split; [done|]. split; [done|].
    split; [lia|]. by rewrite seqZ_nil by lia.
Qed.

Definition dir_streams (irqs : list irq) (t0 : list Z * Z)
    (Htext : forall j, 0 <= j < num_dentries fs m0 -> Forall printable (dentry_name fs m0 j)) :
    Stream task (Z.of_nat i) buf n :=
  fd_streams i directory_fops 0 irqs t0 dir_rest (fun p c cs => dir_rest_chunk p c cs Htext)
    (fun t k p cs => dir_delivers t k irqs p cs).

End directory.

(** *** Opening, and the arguments *)

(** [open] changes the descriptors only. *)
Definition files_only k k' : Prop :=
  con k' = con k /\ FSYSTEM k' = FSYSTEM k /\ ksched k' = ksched k.

Lemma keeps_files_only_createFD k0 c i d f : keeps (files_only k0) (createFD_from c i d f).
Proof.
  revert i. induction c as [|c IH]; intros i; cbn [createFD_from]; [keeps|].
  apply keeps_bind; [apply (keeps_some_at _ (fun k => lookupZ (fd (kfiles k)) i))|]. intros x.
  destruct (flags x =? 0); [|apply IH].
  apply keeps_bind; [keeps|]. intros y. apply keeps_bind; [by apply keeps_mod|]. intros _. keeps.
Qed.

Lemma keeps_files_only_open k0 fname : keeps (files_only k0) (open fname).
Proof.
  unfold open. apply keeps_bind.
  - intros k Hk. unfold lookup_dt. by destruct (read_dentry_by_name _ _ _ _).
  - intros r. destruct (r =? -1); [keeps|]. apply keeps_bind; [keeps|]. intros ft.
    unfold createFD. apply keeps_bind; [keeps|]. intros fl. apply keeps_files_only_createFD.
Qed.

Lemma desk_files_only t k k' :
  files_only k k' -> fd (kfiles k') !! 1%nat = fd (kfiles k) !! 1%nat -> desk t k -> desk t k'.
Proof.
  intros (Ec & Ef & Es) E1 [Ho Hf Hs Hc Hv He Ht].
  assert (kmach k' = kmach k) as Em by (unfold kmach; by rewrite Ec).
  split; rewrite ?Em, ?Ec; try done; [by rewrite E1|by rewrite Ef|].
  revert Hv. unfold in_view, not_in_view, get_process. by rewrite Es.
Qed.

(** What opening the name [nm] answers. *)
Lemma desk_open t k irqs p name :
  desk t k -> files_ok (kfiles k) -> 0 < p < 4294967296 -> cstr (kmach k) p name ->
  (exists j f, (2 <= j)%nat /\ fd (kfiles k) !! j = Some f /\ flags f = 0) ->
  exists r k', sys_open p (k, irqs) = Some (r, (k', irqs)) /\ desk t k' /\ kmach k' = kmach k /\
    ((r = -1 /\ forall x, 0 <= x < num_dentries fs m0 -> dentry_name fs m0 x <> take 32 name) \/
     (exists d j, found fs m0 (take 32 name) (dt (kfiles k)) d 0 /\ r = Z.of_nat j /\ (2 <= j < 8)%nat /\
        fd (kfiles k') !! j = Some (File (if ftype d =? 0 then rtc_fops else if ftype d =? 1 then directory_fops else file_fops)
          (if ftype d =? 2 then inode d else 0) 0 1))).
Proof using LOK PL.
  intros Hd Hok Hp Hc (jf & f & Hj & Hf & Hfree). pose proof PL as [P1 P2 P3 P4 P5 P6 P7 P8 P9].
  destruct (open_spec p name k Hok Hc ltac:(lia)) as (r & k' & Ho & Hok' & Hm & Hr).
  pose proof (keeps_files_only_open k p k) as Hfo. rewrite Ho in Hfo.
  specialize (Hfo ltac:(by split_and!)).
  pose proof Hd as [Hout Hfs Hs Hcell _ _ _]. rewrite Hfs in Hr.
  exists r, k'. split; [|split; [|split; [exact Hm|]]].
  - cbn [sys_open kernel_calls]. unfold int80.
    change (syscall_link irqs 5 p 0 0 k) with (no_wait irqs (open (u32 p)) k).
    unfold no_wait. rewrite u32_small by lia. by rewrite (c_bind_ret _ _ _ _ _ Ho).
  - apply (desk_files_only t k); [exact Hfo| |exact Hd].
    destruct Hr as [(_ & -> & _)|(d & _ & [(j & _ & (_ & Hj2 & _) & ->)|(_ & -> & _)])]; [done| |done].
    by rewrite list_lookup_insert_ne by lia.
  - destruct Hr as [(-> & _ & Hno)|(d & Hfd & [(j & -> & ((g & Hg & _) & Hj2 & _) & Hfdk)|(_ & _ & Hall)])].
    + left. split; [done|]. intros x Hx. pose proof (iw_dentries _ _ _ P1) as Hnd.
      rewrite <-(proj1 (image_same_dentry fs m0 size P1 (kmach k) x Hs ltac:(lia))). apply Hno.
      by rewrite (image_same_dentries fs m0 size P1 (kmach k) Hs).
    + right. exists d, j. split; [|split; [done|split]].
      * assert (image_same fs (kmach k) m0 size) as Hsym by (intros a Ha; symmetry; by apply Hs).
        apply (image_same_found fs (kmach k) size); [|exact Hsym|exact Hfd].
        by apply (image_same_within fs m0).
      * pose proof (lookup_lt_Some _ _ _ Hg). rewrite (fd_length _ Hok) in *. lia.
      * rewrite Hfdk, list_lookup_insert_eq by (by eapply lookup_lt_Some). do 2 f_equal.
        destruct (fd_tables _ Hok) as (T1 & T2 & T3). unfold new_file. cbn. by rewrite T1, T2, T3.
    + exfalso. by apply (Hall jf f).
Qed.

(** [getargs] brings the argument into the program's array. *)
Lemma desk_getargs t k irqs b name :
  desk t k -> 32 < b < 2147483648 -> cstr (kmach k) arg_at name -> name <> [] ->
  Z.of_nat (length name) < 32 <= n -> apart m0 buf (n + 1) arg_at 32 ->
  exists k', sys_getargs buf b (k, irqs) = Some (0, (k', irqs)) /\ desk t k' /\
    kfiles k' = kfiles k /\ cstr (kmach k') buf name /\
    k' = set_kmach k (store_bytes (kmach k) (buf + 0) (name ++ [0])).
Proof using LOK PL.
  intros Hd Hb Hc Hne Hl Hap. pose proof PL as [P1 P2 P3 P4 P5 P6 P7 P8 P9].
  assert (strcpy (kmach k) buf arg_at = Some (store_bytes (kmach k) (buf + 0) (name ++ [0]))) as Hcpy.
  { rewrite Z.add_0_r. apply strcpy_cstr; [done| |lia].
    intros x y Hx Hy. rewrite !(dk_cells _ _ Hd). apply Hap; lia. }
  exists (set_kmach k (store_bytes (kmach k) (buf + 0) (name ++ [0]))). split; [|split; [|split; [done|split; [|done]]]].
  - cbn [sys_getargs kernel_calls]. unfold int80.
    change (syscall_link irqs 7 buf b 0 k) with (no_wait irqs (getargs (u32 buf) (s32 b)) k).
    rewrite u32_small, s32_small by lia. unfold no_wait, c_bind, getargs. rewrite u32_small by lia.
    rewrite (proj2 (Z.leb_gt b 32)) by lia. destruct name as [|c name]; [done|].
    apply cstr_cons in Hc as (Ec & Hnz & _). rewrite Ec, (proj2 (Z.eqb_neq c 0)) by done.
    cbn [orb]. unfold copy_arg. rewrite Hcpy. reflexivity.
  - apply desk_store_bytes; [done|lia|]. rewrite length_app. simpl. lia.
  - change (cstr (store_bytes (kmach k) (buf + 0) (name ++ [0])) buf name). rewrite Z.add_0_r.
    pose proof (cstr_range _ _ _ Hc) as Hcr. destruct Hc as [_ Hcz]. apply cstr_store.
    + intros x y Hx Hy. rewrite !(dk_cells _ _ Hd). apply P6; lia.
    + by apply Forall_and.
Qed.

(** Without an argument it refuses. *)
Lemma desk_getargs_none k irqs b :
  ld (kmach k) arg_at = 0 -> sys_getargs buf b (k, irqs) = Some (-1, (k, irqs)).
Proof.
  intros Hz. cbn [sys_getargs kernel_calls]. unfold int80.
  change (syscall_link irqs 7 buf b 0 k) with (no_wait irqs (getargs (u32 buf) (s32 b)) k).
  unfold no_wait, c_bind, getargs. rewrite Hz. by rewrite orb_true_r.
Qed.

(** *** Strings of the program *)

Context {LI : Literals}.

(** The string [l] at [p], out of the way of the program's array and of what the
    kernel writes. *)
Record text_at k (p : Z) (l : list Z) : Prop := {
  lt_cstr : cstr (kmach k) p l;
  lt_range : 0 < p < 4294967296;
  lt_steady : steady m0 p (length l + 1);
  lt_apart : apart m0 buf (n + 1) p (Z.of_nat (length l + 1));
  lt_line : forall i, 0 <= i <= Z.of_nat (length l) -> cell m0 (p + i) <> tbuffer_at + 128;
}.

Definition literal k (s : string) : Prop := text_at k (lit s) (chars s).

Definition shown (s : string) : Prop :=
  Forall printable (chars s) /\ Z.of_nat (length (chars s)) < 2147483648.

Lemma literal_same k k' p l :
  (forall i, 0 <= i <= Z.of_nat (length l) -> ld (kmach k') (p + i) = ld (kmach k) (p + i)) ->
  text_at k p l -> text_at k' p l.
Proof.
  intros Hl [[Hb Hz] Hr Hst Hap Hln]. split; [split; [|done]|done|done|done|done].
  intros i b Hi. rewrite <-(Hb i b Hi). apply Hl. apply lookup_lt_Some in Hi.
  rewrite length_app in Hi. simpl in Hi. lia.
Qed.

(** A string stays under what the program and the kernel do to memory. *)
Lemma literal_stored t k j c p l :
  desk t k -> 0 <= j -> j + Z.of_nat (length c) <= n + 1 ->
  text_at k p l -> text_at (set_kmach k (store_bytes (kmach k) (buf + j) c)) p l.
Proof.
  intros Hd Hj Hl Hlit. apply (literal_same k); [|done]. intros i Hi.
  apply store_bytes_outside. intros x Hx. rewrite !(dk_cells _ _ Hd), <-Z.add_assoc.
  apply (lt_apart _ _ _ Hlit); lia.
Qed.

Lemma literal_drawn t k k' p l :
  desk t k -> touches console_bytes (kmach k) (kmach k') -> text_at k p l -> text_at k' p l.
Proof.
  intros Hd [_ Ht] Hlit. apply (literal_same k); [|done]. intros i Hi. apply Ht.
  rewrite (dk_cells _ _ Hd). apply (lt_steady _ _ _ Hlit). lia.
Qed.

(** [ece391_fdputs(1, s)] of any string of the program. *)
Lemma desk_fdputs t k irqs p l :
  desk t k -> cstr (kmach k) p l -> 0 < p < 4294967296 -> Z.of_nat (length l) < 2147483648 ->
  steady m0 p (length l) -> Forall printable l ->
  exists k', ece391_fdputs 1 p (k, irqs) = Some (tt, (k', irqs)) /\ desk (tty_print l t) k' /\
    kfiles k' = kfiles k /\ touches console_bytes (kmach k) (kmach k') /\ same_input k k'.
Proof using LOK PL.
  intros Hd Hc Hp Hl Hst Hpr.
  destruct (desk_print t k irqs p l Hd Hp Hl) as (k' & Hw & Hk'); [| |done|].
  - by destruct Hc as [[Hb _]%bytes_at_app _].
  - intros j Hj. rewrite (dk_cells _ _ Hd). by apply Hst.
  - exists k'. split; [|exact Hk']. unfold ece391_fdputs, u_get.
    assert (ece391_strlen (k, irqs) p = Some (Z.of_nat (length l))) as Hlen
      by (apply ece391_strlen_cstr; [exact Hc|lia]).
    unfold u_bind at 1 2. rewrite Hlen. cbn [mbind option_bind]. by rewrite Hw.
Qed.

Lemma desk_lit t k irqs s :
  desk t k -> literal k s -> shown s ->
  exists k', ece391_fdputs 1 (lit s) (k, irqs) = Some (tt, (k', irqs)) /\ desk (tty_print (chars s) t) k' /\
    kfiles k' = kfiles k /\ touches console_bytes (kmach k) (kmach k') /\ same_input k k'.
Proof using LOK PL.
  intros Hd [Hc Hr Hst _ _] [Hp Hl]. apply desk_fdputs; try done. intros j Hj. apply Hst. lia.
Qed.

Lemma desk_puts {A} t k irqs s (a : A) :
  desk t k -> literal k s -> shown s ->
  exists k', puts_ret s a (k, irqs) = Some (a, (k', irqs)) /\ desk (tty_print (chars s) t) k'.
Proof using LOK PL.
  intros Hd Hlit Hs. destruct (desk_lit t k irqs s Hd Hlit Hs) as (k' & Hw & Hd' & _).
  exists k'. split; [|done]. unfold puts_ret. by rewrite (u_bind_some _ _ _ _ _ Hw).
Qed.

(** *** Reading a line *)

Context (zs : list Z) {TY : Types zs}.

(** The interrupts to come bring the keys [keys] and Enter, and leave [rest]. *)
Definition will_type k (irqs : list irq) (keys : list Z) (rest : list irq) (more : list Z) : Prop :=
  if_flag (kmach k) = true /\ truth (ctrl_flag (kkeys k)) = false /\
  Forall (typeable k) keys /\ drop (key_reads (trace (kmach k))) zs = keys ++ 28 :: more /\
  exists pre, irqs = pre ++ irq_keyboard :: rest /\ length (List.filter kb pre) = length keys.

Lemma will_type_same k k' irqs keys rest more :
  same_input k k' -> will_type k irqs keys rest more ->
  will_type k' irqs keys rest more /\ typed k' keys = typed k keys.
Proof.
  intros (Ek & Ei & Er) (H1 & H2 & H3 & H4 & H5). unfold will_type, typed, typeable in *.
  by rewrite Ek, Ei, Er.
Qed.

Definition stdin_open k : Prop :=
  exists g, fd (kfiles k) !! 0%nat = Some g /\ flags g = 1 /\ f_read (fotp g) = fn_terminal_read.

Hypothesis Hn : 128 <= n.

Lemma desk_apart t k (q len : Z) :
  desk t k -> len <= n + 1 -> apart m0 buf (n + 1) q 129 -> apart (kmach k) buf len q 129.
Proof. intros Hd Hl Ha x Hx y Hy. rewrite !(dk_cells _ _ Hd). apply Ha; lia. Qed.

(** The line, in the program's array and on its screen. *)
Lemma desk_read_line t k irqs keys rest more b :
  desk t k -> stdin_open k -> will_type k irqs keys rest more -> (length keys <= 127)%nat ->
  127 <= b < 2147483648 ->
  let l := typed k keys in
  exists k', sys_read 0 buf b (k, irqs) = Some (Z.of_nat (length l) + 1, (k', rest)) /\
    desk (tty_print (l ++ [10]) t) k' /\ kfiles k' = kfiles k /\
    bytes_at (kmach k') buf (l ++ [10]) /\ (forall s, literal k s -> literal k' s).
Proof using LOK PL TY Hn.
  intros Hd (g & Hg & Hg1 & Hgr) (Hif & Hctrl & Hkeys & Hdrop & pre & -> & Hcount) Hlen Hb l.
  pose proof PL as [P1 P2 P3 P4 P5 P6 P7 P8 P9]. pose proof Hd as [Hout Hfs Hs Hc Hv He Ht].
  pose proof He as [Hin Htb Hfl].
  assert (inj_on (kmach k) buf 129) as Hinj.
  { intros x y Hx Hy. rewrite !Hc. apply P6; lia. }
  assert (steady (kmach k) buf 129) as Hst.
  { intros x Hx. rewrite Hc. apply P7. lia. }
  assert (length l = length keys) as Hll by apply length_map.
  destruct (terminal_read_line zs (syscall_esp (esp0 (kprocs k))) pre rest keys more 0 buf b k
    (inside_ok _ Hin ltac:(lia)) Hif Hctrl Hdrop Hkeys Hcount ltac:(lia) Hinj (desk_apart t k _ 129 Hd ltac:(lia) P8))
    as (k' & Hr & [Lb Lp Lr Ls Lf Lt Le]). fold l in Hr, Lb, Le.
  assert (take 127 l = l) as Etake by (apply take_ge; lia).
  assert (read_length b l = Z.of_nat (length l) + 1) as Elen.
  { unfold read_length. rewrite Etake. by rewrite (proj2 (Z.ltb_ge _ _)) by lia. }
  assert (delivered b l = l ++ [10]) as Edel.
  { unfold delivered. rewrite Etake, take_ge by lia. done. }
  rewrite Elen in Hr. rewrite Edel in Lb. destruct Lr as (R1 & R2 & R3 & R4).
  assert (forall a, cell (kmach k') a = cell (kmach k) a) as Hcell by (intros a; by apply same_paging_cell).
  destruct (Le Hin Hst) as [Hin' Hscr].
  exists k'. split; [|split; [|split; [exact R1|split]]].
  - rewrite sys_read_link by lia. change 0 with (Z.of_nat 0).
    rewrite (read_fd _ _ 0 g buf b k) by (done || lia). rewrite Hgr. cbn [call_read].
    change (Z.of_nat 0) with 0. by rewrite Hr.
  - split.
    + by rewrite R1.
    + by rewrite R4.
    + intros a Ha. rewrite Ls; [by apply Hs| | |]; rewrite ?Hc.
      * intros x Hx. rewrite !Hc. replace a with (fs + (a - fs)) by lia. apply P5; lia.
      * by apply P2.
      * by apply P9.
    + intros a. by rewrite Hcell.
    + revert Hv. unfold in_view, not_in_view, get_process. by rewrite R2.
    + by split.
    + by rewrite Hscr, Ht by lia.
  - apply bytes_at_load. rewrite (load_bytes_take _ _ 129 (length (l ++ [10]))) by (rewrite length_app; simpl; lia).
    by rewrite Lb, take_app_length.
  - intros s Hlit. apply (literal_same k); [|done]. intros i Hi. apply Ls; rewrite ?Hc.
    + intros x Hx. rewrite !Hc. apply (lt_apart _ _ _ Hlit); lia.
    + apply (lt_steady _ _ _ Hlit). lia.
    + by apply (lt_line _ _ _ Hlit).
Qed.

(** A prompt, and the answer. *)
Lemma desk_ask t k irqs s keys rest more b :
  desk t k -> literal k s -> shown s -> stdin_open k -> will_type k irqs keys rest more ->
  (length keys <= 127)%nat -> 127 <= b < 2147483648 ->
  let l := typed k keys in
  exists k1 k2, ece391_fdputs 1 (lit s) (k, irqs) = Some (tt, (k1, irqs)) /\
    sys_read 0 buf b (k1, irqs) = Some (Z.of_nat (length l) + 1, (k2, rest)) /\
    desk (tty_print (chars s ++ l ++ [10]) t) k2 /\ bytes_at (kmach k2) buf (l ++ [10]) /\
    (forall s', literal k s' -> literal k2 s') /\ kfiles k2 = kfiles k.
Proof using LOK PL TY Hn.
  intros Hd Hlit Hs (g & Hg) Hw Hlen Hb l.
  destruct (desk_lit t k irqs s Hd Hlit Hs) as (k1 & Hp & Hd1 & Hf1 & Ht1 & Hi1).
  destruct (will_type_same _ _ _ _ _ _ Hi1 Hw) as [Hw1 El].
  destruct (desk_read_line _ k1 irqs keys rest more b Hd1) as (k2 & Hr & Hd2 & Hf2 & Hb2 & Hl2);
    [exists g; by rewrite Hf1|exact Hw1|done|done|]. rewrite El in Hr, Hd2, Hb2.
  exists k1, k2. split; [exact Hp|]. split; [exact Hr|]. split; [|split; [exact Hb2|split; [|by rewrite Hf2]]].
  - by rewrite tty_print_app.
  - intros s' Hs'. apply Hl2. by apply (literal_drawn t k).
Qed.

(** [buf[i] = '\0'] *)
Lemma desk_terminate t k l l' :
  desk t k -> bytes_at (kmach k) buf (l ++ l') -> Z.of_nat (length l) <= n ->
  Forall (fun b => b <> 0) l ->
  let k' := set_kmach k (st (kmach k) (buf + Z.of_nat (length l)) 0) in
  desk t k' /\ cstr (kmach k') buf l /\ forall s, literal k s -> literal k' s.
Proof using LOK PL.
  intros Hd Hb Hl Hz k'. split; [|split].
  - apply desk_st; [done|lia].
  - split; [|done]. apply bytes_at_app in Hb as [Hb _].
    change (kmach k') with (st (kmach k) (buf + Z.of_nat (length l)) 0). apply bytes_at_app. split.
    + intros i b Hi. apply lookup_lt_Some in Hi as Hlt. rewrite <-(Hb i b Hi). apply ld_st_other.
      intros Heq. apply (desk_inj t k Hd) in Heq; lia.
    + apply bytes_at_load. cbn [length load_bytes]. by rewrite ld_st_same.
  - intros s. apply (literal_stored t k _ [0] _ _ Hd); simpl; lia.
Qed.

End facts.

(** The keys type no zero and no backspace. *)
Lemma key_spec_nonzero shift caps z : char_key z = true -> key_spec shift caps z <> 0.
Proof.
  intros Hz. pose proof (char_key_range z Hz) as Hr.
  assert (forallb (fun z => negb (char_key z) ||
    forallb (fun '(a, b) => negb (key_spec a b z =? 0)) [(true, true); (true, false); (false, true); (false, false)])
    (seqZ 2 77) = true) as Hall by (vm_compute; reflexivity).
  rewrite forallb_forall in Hall. specialize (Hall z).
  rewrite Hz in Hall. cbn [negb orb] in Hall. rewrite forallb_forall in Hall.
  assert (List.In (shift, caps) [(true, true); (true, false); (false, true); (false, false)]) as Hin
    by (destruct shift, caps; simpl; auto).
  specialize (Hall ltac:(apply list_elem_of_In, elem_of_seqZ; lia) _ Hin). cbv beta iota in Hall. lia.
Qed.

Lemma typed_text k keys :
  Forall (typeable k) keys ->
  Forall (fun b => b <> 0) (typed k keys) /\ Forall printable (typed k keys).
Proof.
  intros Hk. unfold typed. rewrite !Forall_map. split; (eapply Forall_impl; [|exact Hk]);
    intros z [Hz Hp]; [by apply key_spec_nonzero|]. destruct Hp as (H1 & H2 & _). by split.
Qed.

(** ** The programs *)

Section contract.
Context {L : Layout} {LOK : LayoutOk} {D : Device} {FR : Frames} {LI : Literals}.
Implicit Type k : kernel.

(** A program with an array of [n + 1] bytes at [buf] can start: its output goes to
    the terminal in view, a descriptor is free, its array is clear of the image of
    [size] bytes, of the screen, of the line buffer and of the saved argument. *)
Record ready (size buf n : Z) k : Prop := {
  ry_placed : placed (FSYSTEM k) size buf n (kmach k);
  ry_out : exists g, fd (kfiles k) !! 1%nat = Some g /\ flags g = 1 /\ f_write (fotp g) = fn_terminal_write;
  ry_view : in_view k;
  ry_ease : at_ease (con k);
  ry_files : files_ok (kfiles k);
  ry_free : exists j f, (2 <= j)%nat /\ fd (kfiles k) !! j = Some f /\ flags f = 0;
  ry_arg : apart (kmach k) buf (n + 1) arg_at 32;
}.

Lemma ready_desk size buf n k :
  ready size buf n k -> desk (FSYSTEM k) size (kmach k) (on_screen (con k)) k.
Proof. intros [H1 H2 H3 H4 H5 H6 H7]. by split. Qed.

Lemma found_inode fs (m : machine) nm d0 d : found fs m nm d0 d 0 -> 0 <= inode d.
Proof. intros [(_ & i & _ & _ & _ & ->)|(Hr & _)]; [apply ld_range|done]. Qed.

(** What cat does with the descriptor of a file. *)
Lemma cat_copies size buf k irqs j ino t k1 :
  placed (FSYSTEM k) size buf 1024 (kmach k) -> desk (FSYSTEM k) size (kmach k) t k1 ->
  (2 <= j < 8)%nat -> 0 <= ino < boot_inodes (FSYSTEM k) (kmach k) ->
  let content := file_content (FSYSTEM k) (kmach k) ino in
  Forall printable content ->
  fd (kfiles k1) !! j = Some (File file_fops ino 0 1) ->
  exists k', u_while (cat_turn buf (Z.of_nat j)) (k1, irqs) = Some (0, (k', irqs)) /\
    on_screen (con k') = tty_print content t.
Proof.
  intros Hpl Hd Hj Hino content Htext Hf.
  destruct (file_start _ size _ _ _ Hpl j ino t k1 irqs Hd Hf) as (cs & Hcs & Hlen & Hs).
  pose proof (file_content_length (FSYSTEM k) (kmach k) ino) as Hcl.
  pose proof (ld32_range (kmach k) (inode_at (FSYSTEM k) ino)) as Hsz.
  change (ld32 (kmach k) (inode_at (FSYSTEM k) ino)) with (file_size (FSYSTEM k) (kmach k) ino) in Hsz.
  destruct (@cat_loop task _ _ _ (Z.of_nat j) buf
    (file_streams _ _ _ _ _ Hpl j ino Hj Hino irqs t Htext) cs [] (k1, irqs) Hs) as ([k' irqs'] & Hw & Hs'); [lia|].
  destruct Hs' as (Hirqs & Hd' & _). cbn [fst snd app] in *. subst irqs'.
  rewrite Hcs in Hd'. exists k'. split; [exact Hw|]. exact (dk_screen _ _ _ _ _ Hd').
Qed.

(** The errors cat and ls report. *)
Definition cat_no_args : string := "could not read arguments" ++ nl.
Definition cat_not_found : string := "file not found" ++ nl.
Definition ls_failed : string := "directory open failed" ++ nl.

Ltac by_shown := split; [apply (bool_decide_unpack _); vm_compute; exact I|vm_compute; reflexivity].

Lemma cat_found size buf k irqs name d :
  ready size buf 1024 k -> cstr (kmach k) arg_at name -> name <> [] -> Z.of_nat (length name) < 32 ->
  found (FSYSTEM k) (kmach k) (take 32 name) (dt (kfiles k)) d 0 -> ftype d = 2 ->
  inode d < boot_inodes (FSYSTEM k) (kmach k) ->
  let content := file_content (FSYSTEM k) (kmach k) (inode d) in
  Forall printable content ->
  exists k', cat_main buf (k, irqs) = Some (0, (k', irqs)) /\
    on_screen (con k') = tty_print content (on_screen (con k)).
Proof.
  intros Hry Hc Hne Hlen Hfd Hft Hino content Htext. pose proof (ready_desk _ _ _ _ Hry) as Hd.
  destruct Hry as [Hpl _ _ _ Hok Hfree Hap]. pose proof (pl_buf _ _ _ _ _ Hpl) as Hbuf.
  destruct (desk_getargs _ _ _ _ _ Hpl _ k irqs 1024 name Hd) as (k1 & Hg & Hd1 & Hk1 & Hc1 & _);
    [lia|done|done|lia|done|].
  destruct (desk_open _ _ _ _ _ Hpl _ k1 irqs buf name Hd1) as (r & k2 & Ho & Hd2 & _ & Hr);
    [by rewrite Hk1|done|done|by rewrite Hk1|].
  rewrite Hk1 in Hr. unfold cat_main. rewrite (u_bind_some _ _ _ _ _ Hg). change (negb (0 =? 0)) with false. cbv iota.
  rewrite (u_bind_some _ _ _ _ _ Ho).
  destruct Hr as [(-> & Hno)|(d' & j & Hfd' & -> & Hj & Hf)].
  - exfalso. destruct Hfd as [(_ & x & Hx & Hnm & _)|(Hr & _)]; [by apply (Hno x)|done].
  - destruct (found_unique _ _ _ _ _ _ _ _ Hfd Hfd') as [_ <-]. rewrite Hft in Hf. cbn [Z.eqb Pos.eqb] in Hf.
    rewrite (proj2 (Z.eqb_neq _ _)) by lia.
    apply (cat_copies size buf k irqs j (inode d) _ k2 Hpl Hd2 Hj); [|exact Htext|exact Hf].
    split; [exact (found_inode _ _ _ _ _ Hfd)|exact Hino].
Qed.

(** C7: cat, from its main through the system calls to the screen.  Given the name
    of a file, it returns 0 with the text of the file printed at the cursor of its
    terminal: every byte once, in order, with the scrolling the text asks for.
    Without an argument it prints that it could not read it and returns 3; for a
    name that no directory entry has, it prints so and returns 2. *)
Theorem cat_correct size buf k irqs :
  ready size buf 1024 k ->
  (forall name d, cstr (kmach k) arg_at name -> name <> [] -> Z.of_nat (length name) < 32 ->
     found (FSYSTEM k) (kmach k) (take 32 name) (dt (kfiles k)) d 0 -> ftype d = 2 ->
     inode d < boot_inodes (FSYSTEM k) (kmach k) ->
     Forall printable (file_content (FSYSTEM k) (kmach k) (inode d)) ->
     exists k', cat_main buf (k, irqs) = Some (0, (k', irqs)) /\
       on_screen (con k')
       = tty_print (file_content (FSYSTEM k) (kmach k) (inode d)) (on_screen (con k))) /\
  (ld (kmach k) arg_at = 0 -> literal buf 1024 (kmach k) k cat_no_args ->
     exists k', cat_main buf (k, irqs) = Some (3, (k', irqs)) /\
       on_screen (con k') = tty_print (chars cat_no_args) (on_screen (con k))) /\
  (forall name, cstr (kmach k) arg_at name -> name <> [] -> Z.of_nat (length name) < 32 ->
     (forall x, 0 <= x < num_dentries (FSYSTEM k) (kmach k) -> dentry_name (FSYSTEM k) (kmach k) x <> name) ->
     literal buf 1024 (kmach k) k cat_not_found ->
     exists k', cat_main buf (k, irqs) = Some (2, (k', irqs)) /\
       on_screen (con k') = tty_print (chars cat_not_found) (on_screen (con k))).
Proof.
  intros Hry. split_and!.
  - intros name d Hc Hne Hlen Hfd Hft Hino Htext. by apply (cat_found size buf k irqs name d).
  - intros Hz Hlit. pose proof (ready_desk _ _ _ _ Hry) as Hd. destruct Hry as [Hpl _ _ _ _ _ _].
    destruct (desk_puts _ _ _ _ _ Hpl _ k irqs cat_no_args 3 Hd Hlit) as (k' & Hp & Hd'); [by_shown|].
    exists k'. split; [|exact (dk_screen _ _ _ _ _ Hd')]. unfold cat_main.
    by rewrite (u_bind_some _ _ _ _ _ (desk_getargs_none buf k irqs 1024 Hz)).
  - intros name Hc Hne Hlen Hno Hlit. pose proof (ready_desk _ _ _ _ Hry) as Hd.
    destruct Hry as [Hpl _ _ _ Hok Hfree Hap]. pose proof (pl_buf _ _ _ _ _ Hpl) as Hbuf.
    destruct (desk_getargs _ _ _ _ _ Hpl _ k irqs 1024 name Hd) as (k1 & Hg & Hd1 & Hk1 & Hc1 & Ek1);
      [lia|done|done|lia|done|].
    destruct (desk_open _ _ _ _ _ Hpl _ k1 irqs buf name Hd1) as (r & k2 & Ho & Hd2 & Hm2 & Hr);
      [by rewrite Hk1|done|done|by rewrite Hk1|].
    unfold cat_main. rewrite (u_bind_some _ _ _ _ _ Hg). change (negb (0 =? 0)) with false. cbv iota.
    rewrite (u_bind_some _ _ _ _ _ Ho). destruct Hr as [(-> & _)|(d' & j & Hfd' & _)].
    + cbn [Z.eqb Pos.eqb].
      assert (literal buf 1024 (kmach k) k1 cat_not_found) as Hl1.
      { rewrite Ek1. apply (literal_stored (FSYSTEM k) size buf 1024 (kmach k) _ k 0 _ _ _ Hd); [lia| |exact Hlit].
        rewrite length_app. simpl. lia. }
      assert (literal buf 1024 (kmach k) k2 cat_not_found) as Hl2
        by (apply (literal_same _ _ _ k1); [by rewrite Hm2|exact Hl1]).
      destruct (desk_puts _ _ _ _ _ Hpl _ k2 irqs cat_not_found 2 Hd2 Hl2) as (k' & Hp & Hd'); [by_shown|].
      exists k'. split; [exact Hp|exact (dk_screen _ _ _ _ _ Hd')].
    + exfalso. destruct Hfd' as [(_ & x & Hx & Hnm & _)|(Hr & _)]; [|done].
      apply (Hno x Hx). rewrite Hnm. apply take_ge. lia.
Qed.

(** What ls writes for a directory: the names in their order, each padded to 32
    cells and followed by a newline. *)
Definition listing (fs : Z) (m : machine) : list Z :=
  concat (map (fun j => dir_chunk fs m j ++ [10]) (seqZ 0 (num_dentries fs m))).

Lemma ls_lists size buf k irqs j t k1 :
  placed (FSYSTEM k) size buf 32 (kmach k) -> desk (FSYSTEM k) size (kmach k) t k1 ->
  (2 <= j < 8)%nat ->
  (forall x, 0 <= x < num_dentries (FSYSTEM k) (kmach k) ->
     Forall printable (dentry_name (FSYSTEM k) (kmach k) x)) ->
  fd (kfiles k1) !! j = Some (File directory_fops 0 0 1) ->
  exists k', u_while (ls_turn buf (Z.of_nat j)) (k1, irqs) = Some (0, (k', irqs)) /\
    on_screen (con k') = tty_print (listing (FSYSTEM k) (kmach k)) t.
Proof.
  intros Hpl Hd Hj Htext Hf. pose proof (iw_dentries _ _ _ (pl_image _ _ _ _ _ Hpl)) as Hn.
  set (cs := map (dir_chunk (FSYSTEM k) (kmach k)) (seqZ 0 (num_dentries (FSYSTEM k) (kmach k)))).
  assert (fd_stream (FSYSTEM k) size (kmach k) j directory_fops 0 irqs t (dir_rest (FSYSTEM k) (kmach k)) cs [] (k1, irqs)) as Hs.
  { split; [done|]. split; [exact Hd|]. exists 0. split; [exact Hf|]. split; [lia|]. by rewrite Z.sub_0_r. }
  destruct (@ls_loop task _ _ _ _ (Z.of_nat j) buf
    (dir_streams _ _ _ _ _ Hpl j (Z.le_refl 32) Hj irqs t Htext) cs [] (k1, irqs)) as ([k' irqs'] & Hw & Hs');
    [split; lia|exact Hs|unfold cs; rewrite length_map, length_seqZ; lia|].
  destruct Hs' as (Hirqs & Hd' & _). cbn [fst snd app] in *. subst irqs'.
  exists k'. split; [exact Hw|]. rewrite (dk_screen _ _ _ _ _ Hd'). unfold listing, cs. by rewrite map_map.
Qed.

(** C17: ls, from its main to the screen.  When the name of one dot is a directory,
    it returns 0 with the name of every entry printed, in the order of the image,
    each in 32 cells of its own row; when there is none, it prints that the
    directory could not be opened and returns 2. *)
Theorem ls_correct size buf k irqs d r :
  ready size buf 32 k -> literal buf 32 (kmach k) k "." -> found (FSYSTEM k) (kmach k) [46] (dt (kfiles k)) d r ->
  (r = 0 -> ftype d = 1 ->
     (forall x, 0 <= x < num_dentries (FSYSTEM k) (kmach k) ->
        Forall printable (dentry_name (FSYSTEM k) (kmach k) x)) ->
     exists k', ls_main buf (k, irqs) = Some (0, (k', irqs)) /\
       on_screen (con k') = tty_print (listing (FSYSTEM k) (kmach k)) (on_screen (con k))) /\
  (r = -1 -> literal buf 32 (kmach k) k ls_failed ->
     exists k', ls_main buf (k, irqs) = Some (2, (k', irqs)) /\
       on_screen (con k') = tty_print (chars ls_failed) (on_screen (con k))).
Proof.
  intros Hry [Hdot Hrange _ _ _] Hfd. pose proof (ready_desk _ _ _ _ Hry) as Hd.
  destruct Hry as [Hpl _ _ _ Hok Hfree _].
  destruct (desk_open _ _ _ _ _ Hpl _ k irqs (lit ".") (chars ".") Hd Hok Hrange Hdot Hfree)
    as (a & k1 & Ho & Hd1 & Hm1 & Hr).
  change (take 32 (chars ".")) with [46] in Hr. unfold ls_main. split.
  - intros -> Hft Htext. rewrite (u_bind_some _ _ _ _ _ Ho).
    destruct Hr as [(_ & Hno)|(d' & j & Hfd' & -> & Hj & Hf)].
    + exfalso. destruct Hfd as [(_ & x & Hx & Hnm & _)|(Hr & _)]; [by apply (Hno x)|done].
    + destruct (found_unique _ _ _ _ _ _ _ _ Hfd Hfd') as [_ <-]. rewrite Hft in Hf. cbn [Z.eqb Pos.eqb] in Hf.
      rewrite (proj2 (Z.eqb_neq _ _)) by lia. by apply (ls_lists size buf k irqs j _ k1 Hpl Hd1 Hj Htext).
  - intros -> Hlit. rewrite (u_bind_some _ _ _ _ _ Ho).
    destruct Hr as [(-> & _)|(d' & j & Hfd' & _)].
    + cbn [Z.eqb Pos.eqb]. assert (literal buf 32 (kmach k) k1 ls_failed) as Hl1
        by (apply (literal_same _ _ _ k); [by rewrite Hm1|exact Hlit]).
      destruct (desk_puts _ _ _ _ _ Hpl _ k1 irqs ls_failed 2 Hd1 Hl1) as (k' & Hp & Hd'); [by_shown|].
      exists k'. split; [exact Hp|exact (dk_screen _ _ _ _ _ Hd')].
    + exfalso. destruct (found_unique _ _ _ _ _ _ _ _ Hfd Hfd') as [Hrr _]. done.
Qed.

(** *** Programs that read a line *)

Definition hello_ask : string := "Hi, what's your name? ".
Definition hello_greeting : string := "Hello, ".
Definition counter_ask : string := "Enter the Test Number: (0): 100, (1): 10000, (2): 100000" ++ nl.
Definition counter_wrong : string := "Wrong Choice!" ++ nl.
Definition shell_prompt : string := "391OS> ".
Definition shell_start : string := "Starting 391 Shell" ++ nl.

(** The keys of a line that fits, then Enter, to come. *)
Record line_ahead zs `{!Types zs} k irqs keys rest more : Prop := {
  la_stdin : stdin_open k;
  la_keys : will_type zs k irqs keys rest more;
  la_length : (length keys <= 127)%nat;
}.

Lemma line_ends_nz l : Forall (fun b => b <> 0) l -> Forall (fun b => b <> 0) (l ++ [10]).
Proof. intros Hl. apply Forall_app. split; [done|]. by repeat constructor. Qed.

Lemma line_prints l : Forall printable l -> Forall printable (l ++ [10]).
Proof. intros Hl. apply Forall_app. split; [done|]. by repeat constructor. Qed.


(** C28: counter never counts on this kernel.  Its choice must be a string of one
    digit, but a read of the terminal delivers the newline with the line, so that
    whatever is typed, the digits 0, 1 and 2 included, it answers that the choice
    is wrong and returns 0. *)
Theorem counter_refuses zs `{!Types zs} size buf k irqs keys rest more :
  ready size buf 1023 k -> line_ahead zs k irqs keys rest more ->
  literal buf 1023 (kmach k) k counter_ask -> literal buf 1023 (kmach k) k counter_wrong ->
  exists k', counter_main buf (k, irqs) = Some (0, (k', rest)) /\
    on_screen (con k')
    = tty_print (chars counter_ask ++ typed k keys ++ [10] ++ chars counter_wrong) (on_screen (con k)).
Proof.
  intros Hry [Hin Hw Hlen] Hl1 Hl2. pose proof (ready_desk _ _ _ _ Hry) as Hd.
  destruct Hry as [Hpl _ _ _ _ _ _].
  destruct (typed_text k keys) as [Hnz _]; [apply Hw|].
  assert (length (typed k keys) = length keys) as Hll by apply length_map.
  destruct (desk_ask _ _ _ _ _ Hpl zs ltac:(lia) _ k irqs counter_ask keys rest more 1023 Hd Hl1)
    as (k1 & k2 & Ha & Hr & Hd2 & Hb2 & Hlit2 & _); [by_shown|done|done|done|lia|].
  set (l := typed k keys) in *.
  assert (Z.of_nat (length (l ++ [10])) = Z.of_nat (length l) + 1) as El by (rewrite length_app; simpl; lia).
  destruct (desk_terminate _ _ _ _ _ Hpl _ k2 (l ++ [10]) [] Hd2) as (Hd3 & Hc3 & Hlit3);
    [by rewrite app_nil_r|lia|by apply line_ends_nz|]. rewrite El in Hd3, Hc3, Hlit3.
  set (k3 := set_kmach k2 _) in *.
  destruct (desk_puts _ _ _ _ _ Hpl _ k3 rest counter_wrong 0 Hd3) as (k4 & Hp & Hd4); [auto|by_shown|].
  assert (ece391_strlen (k3, rest) buf = Some (Z.of_nat (length l) + 1)) as Hsl.
  { rewrite <-El. apply ece391_strlen_cstr; [exact Hc3|lia]. }
  assert ((1 <? Z.of_nat (length l) + 1) || ((Z.of_nat (length l) + 1 =? 1)
    && ((ld (k3, rest) buf <? 48) || (50 <? ld (k3, rest) buf))) = true) as Hbad.
  { destruct l as [|c l']; [|by rewrite (proj2 (Z.ltb_lt _ _)) by (cbn [length]; lia)].
    assert (ld (k3, rest) buf = 10) as ->; [|done]. apply cstr_cons in Hc3. apply Hc3. }
  exists k4. split.
  - unfold counter_main. rewrite (u_bind_some _ _ _ _ _ Ha), (u_bind_some _ _ _ _ _ Hr).
    rewrite (proj2 (Z.eqb_neq _ _)) by lia. erewrite u_bind_some by reflexivity.
    change (st (k2, rest) (buf + (Z.of_nat (length l) + 1)) 0) with (k3, rest).
    erewrite u_bind_some by (unfold u_get; rewrite Hsl; reflexivity).
    erewrite u_bind_some by reflexivity. by rewrite Hbad.
  - rewrite (dk_screen _ _ _ _ _ Hd4). by rewrite <-!tty_print_app, <-!app_assoc.
Qed.

(** What one turn of the shell does with the line [l]: it ends, goes on, or runs the
    line as a command. *)
Definition shell_answer (buf : Z) (l : list Z) (t : task) : option (option Z * task) :=
  if decide (l = chars "exit") then Some (Some 0, t)
  else if decide (l = []) then Some (None, t)
  else shell_run buf t.

(** C8: one turn of the shell.  It prints its prompt and reads a line, and leaves the
    line without its newline as a string in its array: the line "exit" ends the
    shell with 0, an empty line starts the next turn, and every other line is
    handed to execute. *)
Theorem shell_turn_correct zs `{!Types zs} size buf k irqs keys rest more :
  ready size buf 1023 k -> line_ahead zs k irqs keys rest more ->
  literal buf 1023 (kmach k) k shell_prompt -> literal buf 1023 (kmach k) k "exit" ->
  let l := typed k keys in
  exists k', shell_turn buf (k, irqs) = shell_answer buf l (k', rest) /\
    cstr (kmach k') buf l /\
    on_screen (con k') = tty_print (chars shell_prompt ++ l ++ [10]) (on_screen (con k)).
Proof.
  intros Hry [Hin Hw Hlen] Hl1 Hl2 l. pose proof (ready_desk _ _ _ _ Hry) as Hd.
  destruct Hry as [Hpl _ _ _ _ _ _].
  destruct (typed_text k keys) as [Hnz _]; [apply Hw|]. fold l in Hnz.
  assert (length l = length keys) as Hll by apply length_map.
  destruct (desk_ask _ _ _ _ _ Hpl zs ltac:(lia) _ k irqs shell_prompt keys rest more 1023 Hd Hl1)
    as (k1 & k2 & Ha & Hr & Hd2 & Hb2 & Hlit2 & _); [by_shown|done|done|done|lia|]. fold l in Hr, Hd2, Hb2.
  destruct (desk_terminate _ _ _ _ _ Hpl _ k2 l [10] Hd2 Hb2 ltac:(lia) Hnz) as (Hd3 & Hc3 & Hlit3).
  set (k3 := set_kmach k2 _) in *. exists k3. split; [|split; [exact Hc3|exact (dk_screen _ _ _ _ _ Hd3)]].
  assert (shell_trim buf (Z.of_nat (length l) + 1) (k2, rest) = Some (Z.of_nat (length l), (k2, rest))) as Htrim.
  { unfold shell_trim. rewrite (proj2 (Z.ltb_lt _ _)) by lia. unfold load, u_bind, u_get. cbn [mbind option_bind].
    replace (buf + (Z.of_nat (length l) + 1 - 1)) with (buf + Z.of_nat (length l)) by lia.
    assert (ld (k2, rest) (buf + Z.of_nat (length l)) = 10) as -> by (apply Hb2; by rewrite list_lookup_middle).
    unfold u_ret. cbn [Z.eqb Pos.eqb]. do 2 f_equal. lia. }
  assert (ece391_strcmp (k3, rest) buf (lit "exit") = Some (lex l (chars "exit"))) as Hcmp.
  { apply ece391_strcmp_lex; [exact Hc3|exact (lt_cstr _ _ _ _ _ _ (Hlit3 _ (Hlit2 _ Hl2)))|lia]. }
  assert (lex l (chars "exit") = 0 <-> l = chars "exit") as Hlex
    by (apply lex_zero; [done|by repeat constructor]).
  unfold shell_turn. rewrite (u_bind_some _ _ _ _ _ Ha), (u_bind_some _ _ _ _ _ Hr).
  rewrite (proj2 (Z.eqb_neq _ _)) by lia. rewrite (u_bind_some _ _ _ _ _ Htrim).
  erewrite u_bind_some by reflexivity. change (st (k2, rest) (buf + Z.of_nat (length l)) 0) with (k3, rest).
  erewrite u_bind_some by (unfold u_get; rewrite Hcmp; reflexivity). unfold shell_answer.
  destruct (Z.eqb_spec 0 (lex l (chars "exit"))) as [E|E].
  - by rewrite decide_True by (by apply Hlex).
  - rewrite decide_False by (intros ->; apply E; symmetry; by apply Hlex).
    assert (exists c, ld (k3, rest) buf = c /\ ((l = [] /\ c = 0) \/ (l <> [] /\ c <> 0))) as (c & Hc & Hcl).
    { destruct l as [|c l']; [exists 0|exists c].
      - apply cstr_nil in Hc3. split; [exact Hc3|by left].
      - apply cstr_cons in Hc3 as (Hc & Hcz & _). split; [exact Hc|by right]. }
    assert (load buf (k3, rest) = Some (c, (k3, rest))) as Hload by (rewrite <-Hc; exact eq_refl).
    rewrite (u_bind_some _ _ _ _ _ Hload). clear Hload Hcmp Htrim.
    destruct Hcl as [(El & ->)|[El Hcz]].
    + rewrite decide_True by exact El. exact eq_refl.
    + rewrite decide_False by exact El. rewrite (proj2 (Z.eqb_neq 0 c)) by lia. exact eq_refl.
Qed.

End contract.
