(* ===== verification/Syserr.v ===== *)
(** * The error tests of the system calls (syscalls/ece391syserr.c)

    The eight tests and the menu, over the interface of Programs.v, and the theorem
    that this kernel passes them.  The array [buf[128]] of the menu is one byte
    shorter than what a read of the terminal clears: the byte after it is taken to
    be none of the program's variables. *)
From Stdlib Require Import ZArith Lia String Ascii.
From stdpp Require Import base list gmap numbers.
From S2P Require Import Prelude ByteMem LibString Machine Console Screen Filesystem Kernel Logic FileTable Process Scheduling Keyboard Terminal Syscall Support Programs UserKernel.

#[local] Open Scope u_scope.

Definition NEG_FD : Z := -1073741823.
Definition BIG_FD : Z := 1073741823.
Definition BIG_NUM : Z := 1073741823.
Definition NEG_NUM : Z := -1073741823.

Section tests.
Context {K : Type} `{ByteMem K} {CL : Calls K} {LI : Literals}.

(** [if (-1 != call) { fail = 2; ece391_fdputs (1, s); }] *)
Definition expect_error (call : U K Z) (s : string) (fail : Z) : U K Z :=
  r <- call ;;
  if negb (-1 =? r) then puts_ret (s ++ nl) 2 else u_ret fail.

(** [if (fail) ... FAIL else ... PASS; return fail;] *)
Definition verdict (test : string) (fail : Z) : U K Z :=
  if truth fail then puts_ret (test ++ ": FAIL" ++ nl) fail
  else puts_ret (test ++ ": PASS" ++ nl) fail.

(** [for (i = lo; i < hi; i++)] over the flag [fail], [n] turns left. *)
Fixpoint u_for (n : nat) (i : Z) (body : Z -> Z -> U K Z) (fail : Z) : U K Z :=
  match n with
  | O => u_ret fail
  | S n =>
      fail <- body i fail ;;
      u_for n (i + 1) body fail
  end.

Definition call_sys (num : Z) : U K Z := sys_number num.

Definition err_fd (test : string) (fd buf : Z) : U K Z :=
  fail <- expect_error (sys_read fd buf 31) "read fail" 0 ;;
  fail <- expect_error (sys_write fd buf 31) "write fail" fail ;;
  fail <- expect_error (sys_close fd) "close fail" fail ;;
  verdict test fail.

Definition err_neg_fd (buf : Z) : U K Z := err_fd "err_neg_fd" NEG_FD buf.
Definition err_big_fd (buf : Z) : U K Z := err_fd "err_big_fd" BIG_FD buf.

Definition err_open_lots : U K Z :=
  cnt <- u_for 7 0 (fun _ cnt =>
    r <- sys_open (lit ".") ;;
    u_ret (if -1 =? r then cnt + 1 else cnt)) 0 ;;
  _ <- u_for 6 2 (fun i _ => sys_close i) 0 ;;
  if cnt =? 1 then puts_ret ("err_open_lots: PASS" ++ nl) 0
  else puts_ret ("err_open_lots: FAIL" ++ nl) 2.

Definition err_open : U K Z :=
  fail <- expect_error (sys_open (lit "helloo")) "'helloo' fail" 0 ;;
  fail <- expect_error (sys_open (lit "shel")) "'shel' fail" fail ;;
  fail <- expect_error (sys_open (lit "")) "empty string fail" fail ;;
  verdict "err_open" fail.

Definition err_unopened (buf : Z) : U K Z :=
  fail <- u_for 8 0 (fun i => expect_error (sys_close i) "close unopened or invalid fd fail") 0 ;;
  fail <- u_for 6 2 (fun i => expect_error (sys_read i buf 31) "read from unopened fd fail") fail ;;
  fail <- u_for 6 2 (fun i => expect_error (sys_write i buf 31) "write to unopened fd fail") fail ;;
  verdict "err_unopened" fail.

Definition err_vidmap : U K Z :=
  fail <- expect_error (sys_vidmap 0) "Null pointer fail" 0 ;;
  fail <- expect_error (sys_vidmap 0x400000) "Kernel pointer fail fail" fail ;;
  verdict "err_vidmap" fail.

Definition err_stdin_out (buf : Z) : U K Z :=
  fail <- expect_error (sys_write 0 buf 31) "write to stdin fail" 0 ;;
  fail <- expect_error (sys_read 1 buf 31) "read from stdout fail" fail ;;
  verdict "err_stdin_out" fail.

Definition err_syscall_num : U K Z :=
  fail <- expect_error (call_sys BIG_NUM) "syscall 0 fail" 0 ;;
  fail <- expect_error (call_sys NEG_NUM) "big num syscall fail" fail ;;
  fail <- expect_error (call_sys 0) "neg num syscall fail" fail ;;
  verdict "err_syscall_num" fail.

(** [fail += test();] *)
Definition add_test (test : U K Z) (fail : Z) : U K Z :=
  r <- test ;;
  u_ret (fail + r).

(** [tests]: the local arrays of the tests. *)
Definition run_all (tests : Z) : U K Z :=
  fail <- add_test (err_neg_fd tests) 0 ;;
  fail <- add_test (err_big_fd tests) fail ;;
  fail <- add_test err_open_lots fail ;;
  fail <- add_test err_open fail ;;
  fail <- add_test (err_unopened tests) fail ;;
  fail <- add_test err_vidmap fail ;;
  fail <- add_test (err_stdin_out tests) fail ;;
  fail <- add_test err_syscall_num fail ;;
  if truth fail then puts_ret (nl ++ "Overall Tests: FAIL" ++ nl) fail
  else puts_ret (nl ++ "Overall Tests: PASS" ++ nl) fail.

(** The switch of main. *)
Definition run_choice (select tests : Z) : U K Z :=
  if select =? 0 then run_all tests
  else if select =? 1 then err_neg_fd tests
  else if select =? 2 then err_big_fd tests
  else if select =? 3 then err_open_lots
  else if select =? 4 then err_open
  else if select =? 5 then err_unopened tests
  else if select =? 6 then err_vidmap
  else if select =? 7 then err_stdin_out tests
  else if select =? 8 then err_syscall_num
  else puts_ret "Invalid test number. Choose from tests 1-8 or 0" 0.

Definition syserr_main (buf tests : Z) : U K Z :=
  ece391_fdputs 1 (lit "Choose from tests 1-8. 0 to run all: ") ;;;
  cnt <- sys_read 0 buf 127 ;;
  if -1 =? cnt then puts_ret ("Can't read test #" ++ nl) 2
  else
    c <- load buf ;;
    run_choice (c - 48) tests.

End tests.

(** ** The kernel passes them *)

Definition test_names : list string :=
  ["err_neg_fd"; "err_big_fd"; "err_open_lots"; "err_open"; "err_unopened"; "err_vidmap"; "err_stdin_out";
   "err_syscall_num"]%string.

Definition pass_line (test : string) : string := test ++ ": PASS" ++ nl.
Definition syserr_ask : string := "Choose from tests 1-8. 0 to run all: ".
Definition overall_pass : string := nl ++ "Overall Tests: PASS" ++ nl.

(** What the choice [c] prints: one test, or all and the summary. *)
Definition report (c : Z) : list string :=
  if c =? 0 then map pass_line test_names ++ [overall_pass]
  else match lookupZ test_names (c - 1) with Some s => [pass_line s] | None => [] end.

(** The strings of the program that a passing run uses. *)
Definition syserr_texts : list string :=
  overall_pass :: map pass_line test_names ++ ["."; "helloo"; "shel"; ""; syserr_ask]%string.

Section facts.
Context {L : Layout} {LOK : LayoutOk} {D : Device} {FR : Frames} {LI : Literals}.
Implicit Type k : kernel.

(** A call that answers -1 keeps the flag. *)
Lemma expect_refused {K} `{ByteMem K} {CL : Calls K} (call : U K Z) s fail (t t' : K) :
  call t = Some (-1, t') -> expect_error call s fail t = Some (fail, t').
Proof. intros Hc. unfold expect_error. by rewrite (u_bind_some _ _ _ _ _ Hc). Qed.

Lemma u_for_same {K} c i (body : Z -> Z -> U K Z) fail t :
  (forall j, i <= j < i + Z.of_nat c -> body j fail t = Some (fail, t)) -> u_for c i body fail t = Some (fail, t).
Proof.
  revert i. induction c as [|c IH]; intros i Hb; [done|]. cbn [u_for].
  rewrite (u_bind_some _ _ _ _ _ (Hb i ltac:(lia))). apply IH. intros j Hj. apply Hb. lia.
Qed.

Lemma read_refused fd' p b k irqs :
  bad_descriptor 3 (s32 fd') k -> sys_read fd' p b (k, irqs) = Some (-1, (k, irqs)).
Proof.
  intros Hb. cbn [sys_read kernel_calls]. unfold int80.
  change (syscall_link irqs 3 fd' p b k)
    with (read (syscall_esp (esp0 (kprocs k))) irqs (s32 fd') (u32 p) (s32 b) k).
  by rewrite read_rejected by (by right).
Qed.

Lemma write_refused fd' p b k irqs :
  bad_descriptor 4 (s32 fd') k -> sys_write fd' p b (k, irqs) = Some (-1, (k, irqs)).
Proof.
  intros Hb. cbn [sys_write kernel_calls]. unfold int80.
  change (syscall_link irqs 4 fd' p b k)
    with (write (syscall_esp (esp0 (kprocs k))) irqs (s32 fd') (u32 p) (s32 b) k).
  by rewrite write_rejected by (by right).
Qed.

Lemma close_link fd' k irqs :
  sys_close fd' (k, irqs)
  = match close (s32 fd') k with Ret r k' => Some (r, (k', irqs)) | _ => None end.
Proof.
  cbn [sys_close kernel_calls]. unfold int80.
  change (syscall_link irqs 6 fd' 0 0 k) with (no_wait irqs (close (s32 fd')) k).
  unfold no_wait, c_bind, c_ret. by destruct (close _ k).
Qed.

Lemma close_refused fd' k irqs :
  s32 fd' < 2 \/ 8 < s32 fd' \/ (exists f, lookupZ (fd (kfiles k)) (s32 fd') = Some f /\ flags f = 0) ->
  sys_close fd' (k, irqs) = Some (-1, (k, irqs)).
Proof. intros Hc. rewrite close_link. by rewrite close_rejected. Qed.

Lemma vidmap_refused p k irqs : 0 <= p < 0x2000000 -> sys_vidmap p (k, irqs) = Some (-1, (k, irqs)).
Proof.
  intros Hp. cbn [sys_vidmap kernel_calls]. unfold int80.
  change (syscall_link irqs 8 p 0 0 k) with (no_wait irqs (vidmap (u32 p)) k).
  unfold no_wait, c_bind, vidmap. rewrite u32_small by lia.
  assert ((p <? Z.quot EXEC_LOCATION 4) = true) as -> by (apply Z.ltb_lt; change (Z.quot EXEC_LOCATION 4) with 0x2012000; lia).
  by rewrite orb_true_r.
Qed.

Lemma number_refused number k irqs :
  10 <= u32 (number - 1) -> sys_number number (k, irqs) = Some (-1, (k, irqs)).
Proof.
  intros Hn. cbn [sys_number kernel_calls]. unfold int80, syscall_link. cbv zeta. unfold c_bind, c_get.
  by rewrite (proj2 (Z.leb_le _ _)).
Qed.

Lemma open_link p k irqs :
  0 < p < 4294967296 ->
  sys_open p (k, irqs) = match open p k with Ret r k' => Some (r, (k', irqs)) | _ => None end.
Proof.
  intros Hp. cbn [sys_open kernel_calls]. unfold int80.
  change (syscall_link irqs 5 p 0 0 k) with (no_wait irqs (open (u32 p)) k).
  rewrite u32_small by lia. unfold no_wait, c_bind, c_ret. by destruct (open p k).
Qed.

Lemma texts_shown s : s ∈ syserr_texts -> shown s.
Proof.
  assert (Forall (fun s => bool_decide (Forall printable (chars s)) &&
    (Z.of_nat (length (chars s)) <? 2147483648) = true) syserr_texts) as Hall
    by (repeat constructor; vm_compute; reflexivity).
  intros Hs. rewrite list.Forall_forall in Hall. specialize (Hall s Hs).
  apply andb_prop in Hall as [H1%bool_decide_eq_true H2%Z.ltb_lt]. by split.
Qed.

Lemma text_of_test test : test ∈ test_names -> pass_line test ∈ syserr_texts.
Proof. intros Ht. right. apply elem_of_app. left. by apply list_elem_of_fmap_2. Qed.

Lemma text_of_name s : s ∈ ["."; "helloo"; "shel"; ""; syserr_ask]%string -> s ∈ syserr_texts.
Proof. intros Hs. right. apply elem_of_app. by right. Qed.

Lemma absent_name s :
  s ∈ ["helloo"; "shel"; ""]%string -> s ∈ ["."; "helloo"; "shel"; ""; syserr_ask]%string.
Proof. rewrite !elem_of_cons. tauto. Qed.

Section passing.
Context (fs size buf n : Z) (m0 : machine) (PL : placed fs size buf n m0).

(** The program's descriptors: the two of the terminal, and of the others those
    from [lo] to [hi - 1]. *)
Record fresh (lo hi : nat) (t : list Z * Z) k : Prop := {
  fr_desk : desk fs size m0 t k;
  fr_files : files_ok (kfiles k);
  fr_stdin : exists g, fd (kfiles k) !! 0%nat = Some g /\ flags g = 1 /\
    f_read (fotp g) = fn_terminal_read /\ f_write (fotp g) = fn_terminal_invalid_write;
  fr_stdout : exists g, fd (kfiles k) !! 1%nat = Some g /\ flags g = 1 /\
    f_read (fotp g) = fn_terminal_invalid_read /\ f_write (fotp g) = fn_terminal_write;
  fr_used : forall i f, (2 <= i)%nat -> fd (kfiles k) !! i = Some f ->
    flags f = if decide (lo <= i < hi)%nat then 1 else 0;
  fr_lits : forall s, s ∈ syserr_texts -> literal buf n m0 k s;
}.

(** The directory has the entry "." and none of the names the fourth test tries. *)
Record test_dir : Prop := {
  td_dot : exists x, 0 <= x < num_dentries fs m0 /\ dentry_name fs m0 x = chars ".";
  td_none : forall s x, s ∈ ["helloo"; "shel"; ""]%string -> 0 <= x < num_dentries fs m0 ->
    dentry_name fs m0 x <> chars s;
}.

Lemma fresh_fd lo hi t k i :
  fresh lo hi t k -> (2 <= i < 8)%nat ->
  exists f, fd (kfiles k) !! i = Some f /\ flags f = if decide (lo <= i < hi)%nat then 1 else 0.
Proof.
  intros Hf Hi. destruct (lookup_lt_is_Some_2 (fd (kfiles k)) i) as [f Hl];
    [rewrite (fd_length _ (fr_files _ _ _ _ Hf)); lia|].
  exists f. split; [done|]. apply (fr_used _ _ _ _ Hf); [lia|done].
Qed.

Lemma fresh_puts {A} lo hi t k irqs s (a : A) :
  fresh lo hi t k -> s ∈ syserr_texts ->
  exists k', puts_ret s a (k, irqs) = Some (a, (k', irqs)) /\ fresh lo hi (tty_print (chars s) t) k'.
Proof using LOK PL.
  intros [F1 F2 F3 F4 F5 F6] Hs.
  destruct (desk_lit _ _ _ _ _ PL t k irqs s F1 (F6 s Hs) (texts_shown s Hs)) as (k' & Hw & Hd & Hf & Ht & _).
  exists k'. split; [unfold puts_ret; by rewrite (u_bind_some _ _ _ _ _ Hw)|].
  split; rewrite ?Hf; try done. intros s' Hs'. apply (literal_drawn fs size _ _ _ t k); [done|done|by apply F6].
Qed.

(** A change of the descriptors from 2 on. *)
Lemma fresh_change lo hi lo' hi' t k k' :
  fresh lo hi t k -> files_only k k' -> files_ok (kfiles k') ->
  (forall i, (i < 2)%nat -> fd (kfiles k') !! i = fd (kfiles k) !! i) ->
  (forall i f, (2 <= i)%nat -> fd (kfiles k') !! i = Some f ->
     flags f = if decide (lo' <= i < hi')%nat then 1 else 0) ->
  fresh lo' hi' t k'.
Proof.
  intros [F1 F2 F3 F4 F5 F6] Hfo Hok H01 Hu.
  split; [|exact Hok|by rewrite H01 by lia|by rewrite H01 by lia|exact Hu|].
  - apply (desk_files_only fs size m0 t k); [exact Hfo|by rewrite H01 by lia|exact F1].
  - intros s Hs. apply (literal_same _ _ _ k); [|by apply F6]. intros i _.
    unfold kmach. by destruct Hfo as (-> & _).
Qed.

Lemma fresh_open hi t k irqs :
  test_dir -> (2 <= hi <= 8)%nat -> fresh 2 hi t k ->
  exists k', sys_open (lit ".") (k, irqs)
    = Some (if decide (hi < 8)%nat then Z.of_nat hi else -1, (k', irqs)) /\
    fresh 2 (Nat.min 8 (S hi)) t k'.
Proof using LOK PL.
  intros [(x & Hx & Hnm) _] Hhi Hf. pose proof Hf as [F1 F2 _ _ F5 F6].
  destruct (F6 "."%string) as [Hc Hr _ _ _]; [apply text_of_name; by left|].
  destruct (open_spec (lit ".") (chars ".") k F2 Hc ltac:(lia)) as (r & k' & Ho & Hok & Hm & Hcase).
  pose proof (keeps_files_only_open k (lit ".") k) as Hfo. rewrite Ho in Hfo. specialize (Hfo ltac:(by split_and!)).
  exists k'. rewrite open_link, Ho by done. change (take 32 (chars ".")) with (chars ".") in Hcase.
  pose proof (dk_fs _ _ _ _ _ F1) as Hfs. pose proof (dk_same _ _ _ _ _ F1) as Hs.
  pose proof (iw_dentries _ _ _ (pl_image _ _ _ _ _ PL)) as Hnd. rewrite Hfs in Hcase.
  destruct Hcase as [(-> & _ & Hno)|(d & _ & [(j & -> & ((f & Hj & Hz) & Hj2 & Hmin) & Hfd)|(-> & Hfd & Hall)])].
  - exfalso. apply (Hno x).
    + by rewrite (image_same_dentries fs m0 size (pl_image _ _ _ _ _ PL) (kmach k) Hs).
    + rewrite <-Hnm. by apply (image_same_dentry fs m0 size (pl_image _ _ _ _ _ PL) (kmach k) x Hs ltac:(lia)).
  - pose proof (lookup_lt_Some _ _ _ Hj) as Hj8. rewrite (fd_length _ F2) in Hj8.
    pose proof (F5 j f Hj2 Hj) as Hjf. case_decide as D1; [lia|].
    assert (j = hi) as ->.
    { destruct (decide (hi < j)%nat) as [D2|D2]; [|lia]. exfalso.
      destruct (fresh_fd _ _ _ _ hi Hf ltac:(lia)) as (g & Hg & Hgf). rewrite decide_False in Hgf by lia.
      apply (Hmin hi g); [lia|done..]. }
    rewrite decide_True by lia. split; [done|].
    apply (fresh_change _ _ _ _ t k k' Hf Hfo Hok); rewrite Hfd.
    + intros i Hi. by rewrite list_lookup_insert_ne by lia.
    + intros i g Hi Hg. destruct (decide (i = hi)) as [->|Hne].
      * rewrite list_lookup_insert_eq in Hg by (by eapply lookup_lt_Some). injection Hg as <-.
        by rewrite decide_True by lia.
      * rewrite list_lookup_insert_ne in Hg by done. rewrite (F5 i g Hi Hg).
        pose proof (lookup_lt_Some _ _ _ Hg). rewrite (fd_length _ F2) in *.
        by destruct (decide (2 <= i < hi)%nat), (decide (2 <= i < _)%nat); try lia.
  - assert (hi = 8)%nat as ->.
    { destruct (decide (hi < 8)%nat) as [D2|D2]; [|lia]. exfalso.
      destruct (fresh_fd _ _ _ _ hi Hf ltac:(lia)) as (g & Hg & Hgf). rewrite decide_False in Hgf by lia.
      by apply (Hall hi g); [lia|..]. }
    split; [done|]. apply (fresh_change _ _ _ _ t k k' Hf Hfo Hok); rewrite Hfd; [done|exact F5].
Qed.

Lemma fresh_close lo t k irqs :
  (2 <= lo < 8)%nat -> fresh lo 8 t k ->
  exists k', sys_close (Z.of_nat lo) (k, irqs) = Some (0, (k', irqs)) /\ fresh (S lo) 8 t k'.
Proof.
  intros Hlo Hf. destruct (fresh_fd _ _ _ _ lo Hf Hlo) as (f & Hl & Hfl). rewrite decide_True in Hfl by lia.
  pose proof (fr_files _ _ _ _ Hf) as Hok. pose proof (fr_used _ _ _ _ Hf) as Hu.
  set (k' := set_fd k (<[lo := File (fotp f) (f_inode f) (fposition f) 0]> (fd (kfiles k)))).
  exists k'. split.
  - rewrite close_link, s32_small by lia. rewrite (close_spec lo f k Hok Hlo Hl), Hfl. exact eq_refl.
  - apply (fresh_change lo 8 _ _ t k k' Hf); [by split_and!| | |].
    + apply files_ok_put; [done|]. split; [by left|done].
    + intros i Hi. cbn [k' kfiles set_fd set_kfiles fd]. by rewrite list_lookup_insert_ne by lia.
    + intros i g Hi Hg. cbn [k' kfiles set_fd set_kfiles fd] in Hg. destruct (decide (i = lo)) as [->|Hne].
      * rewrite list_lookup_insert_eq in Hg by (by eapply lookup_lt_Some). injection Hg as <-.
        by rewrite decide_False by lia.
      * rewrite list_lookup_insert_ne in Hg by done. rewrite (Hu i g Hi Hg).
        by destruct (decide (lo <= i < 8)%nat), (decide (S lo <= i < 8)%nat); try lia.
Qed.

(** [c] opens after those that left [hi] descriptors in use: the ones beyond the
    table are counted. *)
Lemma open_many c i hi cnt t k irqs :
  test_dir -> (2 <= hi <= 8)%nat -> fresh 2 hi t k ->
  exists k', u_for c i (fun _ cnt =>
      r <- sys_open (lit ".") ;; u_ret (if -1 =? r then cnt + 1 else cnt)) cnt (k, irqs)
    = Some (cnt + Z.of_nat (c - (8 - hi)), (k', irqs)) /\ fresh 2 (Nat.min 8 (hi + c)) t k'.
Proof using LOK PL.
  intros Hdir. revert i hi cnt k. induction c as [|c IH]; intros i hi cnt k Hhi Hf.
  - exists k. rewrite Nat.add_0_r, Nat.min_r by lia. split; [|done]. cbn [u_for]. unfold u_ret. do 2 f_equal. lia.
  - destruct (fresh_open hi t k irqs Hdir Hhi Hf) as (k1 & Ho & Hf1). cbn [u_for].
    destruct (IH (i + 1) (Nat.min 8 (S hi)) (if decide (hi < 8)%nat then cnt else cnt + 1) k1) as (k' & Hl & Hf');
      [lia|exact Hf1|]. exists k'. split.
    + erewrite u_bind_some by (rewrite (u_bind_some _ _ _ _ _ Ho); reflexivity).
      destruct (decide (hi < 8)%nat).
      * rewrite (proj2 (Z.eqb_neq _ _)), Hl by lia. do 2 f_equal. lia.
      * change (-1 =? -1) with true. cbv iota. rewrite Hl. do 2 f_equal. lia.
    + by replace (Nat.min 8 (hi + S c)) with (Nat.min 8 (Nat.min 8 (S hi) + c)) by lia.
Qed.

Lemma close_all c lo t k irqs :
  (2 <= lo)%nat -> (lo + c = 8)%nat -> fresh lo 8 t k ->
  exists k', u_for c (Z.of_nat lo) (fun i _ => sys_close i) 0 (k, irqs) = Some (0, (k', irqs)) /\
    fresh 8 8 t k'.
Proof.
  revert lo k. induction c as [|c IH]; intros lo k Hlo Hc Hf.
  - exists k. split; [done|]. by replace lo with 8%nat in Hf by lia.
  - destruct (fresh_close lo t k irqs ltac:(lia) Hf) as (k1 & Hcl & Hf1). cbn [u_for].
    rewrite (u_bind_some _ _ _ _ _ Hcl). replace (Z.of_nat lo + 1) with (Z.of_nat (S lo)) by lia.
    by apply IH; [lia..|].
Qed.

(** A test that passes: it returns 0 and prints its line, and every descriptor is
    closed again. *)
Definition passes (test : U task Z) (text : string) : Prop :=
  forall t k irqs, fresh 2 2 t k ->
    exists k', test (k, irqs) = Some (0, (k', irqs)) /\ fresh 2 2 (tty_print (chars text) t) k'.

Lemma err_open_lots_passes : test_dir -> passes err_open_lots (pass_line "err_open_lots").
Proof using LOK PL.
  intros Hdir t k irqs Hf. unfold err_open_lots.
  destruct (open_many 7 0 2 0 t k irqs Hdir ltac:(lia) Hf) as (k1 & Ho & Hf1).
  destruct (close_all 6 2 t k1 irqs ltac:(lia) eq_refl Hf1) as (k2 & Hc & Hf2).
  assert (fresh 2 2 t k2) as Hf3.
  { destruct Hf2 as [F1 F2 F3 F4 F5 F6]. split; try done. intros i f Hi Hl. rewrite (F5 i f Hi Hl).
    by rewrite !decide_False by lia. }
  destruct (fresh_puts 2 2 t k2 irqs (pass_line "err_open_lots") 0 Hf3) as (k3 & Hp & Hf4);
    [apply text_of_test; unfold test_names; set_solver|].
  exists k3. split; [|exact Hf4]. rewrite (u_bind_some _ _ _ _ _ Ho).
  change 2 with (Z.of_nat 2) at 1. by rewrite (u_bind_some _ _ _ _ _ Hc).
Qed.

(** The other tests make calls that are refused. *)
Lemma verdict_passes test t k irqs :
  fresh 2 2 t k -> test ∈ test_names ->
  exists k', verdict test 0 (k, irqs) = Some (0, (k', irqs)) /\
    fresh 2 2 (tty_print (chars (pass_line test)) t) k'.
Proof using LOK PL. intros Hf Ht. apply fresh_puts; [done|by apply text_of_test]. Qed.

Lemma err_fd_passes test fd' p :
  test ∈ test_names -> s32 fd' < 0 \/ 8 < s32 fd' -> passes (err_fd test fd' p) (pass_line test).
Proof using LOK PL.
  intros Ht Hfd t k irqs Hf. unfold err_fd.
  assert (forall e, bad_descriptor e (s32 fd') k) as Hb by (intros e; destruct Hfd; [by left|right; left; lia]).
  rewrite (u_bind_some _ _ _ _ _ (expect_refused _ _ 0 _ _ (read_refused fd' p 31 k irqs (Hb 3)))).
  rewrite (u_bind_some _ _ _ _ _ (expect_refused _ _ 0 _ _ (write_refused fd' p 31 k irqs (Hb 4)))).
  rewrite (u_bind_some _ _ _ _ _ (expect_refused _ _ 0 _ _ (close_refused fd' k irqs ltac:(lia)))).
  by apply verdict_passes.
Qed.

Lemma err_neg_fd_passes p : passes (err_neg_fd p) (pass_line "err_neg_fd").
Proof using LOK PL. apply err_fd_passes; [unfold test_names; set_solver|vm_compute; by left]. Qed.

Lemma err_big_fd_passes p : passes (err_big_fd p) (pass_line "err_big_fd").
Proof using LOK PL. apply err_fd_passes; [unfold test_names; set_solver|vm_compute; by right]. Qed.

Lemma absent_refused lo hi t k irqs s :
  test_dir -> fresh lo hi t k -> s ∈ ["helloo"; "shel"; ""]%string -> length (take 32 (chars s)) = length (chars s) ->
  exists k', sys_open (lit s) (k, irqs) = Some (-1, (k', irqs)) /\ fresh lo hi t k'.
Proof using LOK PL.
  intros [_ Hno] Hf Hs Hlen. pose proof Hf as [F1 F2 _ _ F5 F6].
  destruct (F6 s) as [Hc Hr _ _ _]; [by apply text_of_name, absent_name|].
  destruct (open_spec (lit s) (chars s) k F2 Hc ltac:(lia)) as (r & k' & Ho & Hok & Hm & Hcase).
  pose proof (keeps_files_only_open k (lit s) k) as Hfo. rewrite Ho in Hfo. specialize (Hfo ltac:(by split_and!)).
  assert (r = -1 /\ fd (kfiles k') = fd (kfiles k)) as [-> Hfd].
  { destruct Hcase as [(-> & Hfd & _)|(d & Hfd & _)]; [done|exfalso].
    rewrite (dk_fs _ _ _ _ _ F1) in Hfd. pose proof (dk_same _ _ _ _ _ F1) as Hsame.
    destruct Hfd as [(_ & x & Hx & Hnm & _)|(Hr0 & _)]; [|done].
    pose proof (iw_dentries _ _ _ (pl_image _ _ _ _ _ PL)) as Hnd.
    rewrite (image_same_dentries fs m0 size (pl_image _ _ _ _ _ PL) (kmach k) Hsame) in Hx.
    apply (Hno s x Hs Hx). destruct (image_same_dentry fs m0 size (pl_image _ _ _ _ _ PL) (kmach k) x Hsame) as [E _]; [lia|].
    rewrite <-E, Hnm. apply take_ge. rewrite length_take in Hlen. lia. }
  exists k'. rewrite open_link, Ho by done. split; [done|].
  by apply (fresh_change lo hi lo hi t k k' Hf Hfo Hok); rewrite Hfd.
Qed.

Lemma err_open_passes : test_dir -> passes err_open (pass_line "err_open").
Proof using LOK PL.
  intros Hdir t k irqs Hf. unfold err_open.
  destruct (absent_refused 2 2 t k irqs "helloo" Hdir Hf) as (k1 & H1 & F1); [set_solver|done|].
  destruct (absent_refused 2 2 t k1 irqs "shel" Hdir F1) as (k2 & H2 & F2); [set_solver|done|].
  destruct (absent_refused 2 2 t k2 irqs "" Hdir F2) as (k3 & H3 & F3); [set_solver|done|].
  rewrite (u_bind_some _ _ _ _ _ (expect_refused _ _ 0 _ _ H1)).
  rewrite (u_bind_some _ _ _ _ _ (expect_refused _ _ 0 _ _ H2)).
  rewrite (u_bind_some _ _ _ _ _ (expect_refused _ _ 0 _ _ H3)).
  apply verdict_passes; [done|]. unfold test_names. set_solver.
Qed.

(** A number from 2 to 7 is not open. *)
Lemma closed_fd t k i :
  fresh 2 2 t k -> 2 <= i < 8 -> exists f, lookupZ (fd (kfiles k)) (s32 i) = Some f /\ flags f = 0.
Proof.
  intros Hf Hi. destruct (fresh_fd 2 2 t k (Z.to_nat i) Hf) as (f & Hl & Hfl); [lia|].
  rewrite decide_False in Hfl by lia. exists f. split; [|done].
  rewrite s32_small by lia. rewrite <-(Z2Nat.id i) by lia. by rewrite lookupZ_nat.
Qed.

Lemma err_unopened_passes p : passes (err_unopened p) (pass_line "err_unopened").
Proof using LOK PL.
  intros t k irqs Hf. unfold err_unopened.
  assert (forall e i, 2 <= i < 8 -> bad_descriptor e (s32 i) k) as Hb.
  { intros e i Hi. destruct (closed_fd t k i Hf Hi) as (f & Hl & Hz). right. right. exists f. auto. }
  erewrite u_bind_some by (apply u_for_same; intros j Hj; apply expect_refused, close_refused;
    destruct (decide (j < 2)); [left; rewrite s32_small; lia|right; right; apply (closed_fd t k j Hf); lia]).
  erewrite u_bind_some by (apply u_for_same; intros j Hj; apply expect_refused, read_refused, Hb; lia).
  erewrite u_bind_some by (apply u_for_same; intros j Hj; apply expect_refused, write_refused, Hb; lia).
  apply verdict_passes; [done|]. unfold test_names. set_solver.
Qed.

Lemma err_vidmap_passes : passes err_vidmap (pass_line "err_vidmap").
Proof using LOK PL.
  intros t k irqs Hf. unfold err_vidmap.
  rewrite (u_bind_some _ _ _ _ _ (expect_refused _ _ 0 _ _ (vidmap_refused 0 k irqs ltac:(lia)))).
  rewrite (u_bind_some _ _ _ _ _ (expect_refused _ _ 0 _ _ (vidmap_refused 0x400000 k irqs ltac:(lia)))).
  apply verdict_passes; [done|]. unfold test_names. set_solver.
Qed.

Lemma err_stdin_out_passes p : passes (err_stdin_out p) (pass_line "err_stdin_out").
Proof using LOK PL.
  intros t k irqs Hf. unfold err_stdin_out. pose proof Hf as [_ _ (g0 & G0 & _ & _ & W0) (g1 & G1 & _ & R1 & _) _ _].
  rewrite (u_bind_some _ _ _ _ _ (expect_refused _ _ 0 _ _ (write_refused 0 p 31 k irqs
    (or_intror (or_intror (ex_intro _ g0 (conj G0 (or_intror (or_intror (conj eq_refl W0)))))))))).
  rewrite (u_bind_some _ _ _ _ _ (expect_refused _ _ 0 _ _ (read_refused 1 p 31 k irqs
    (or_intror (or_intror (ex_intro _ g1 (conj G1 (or_intror (or_introl (conj eq_refl R1)))))))))).
  apply verdict_passes; [done|]. unfold test_names. set_solver.
Qed.

Lemma err_syscall_num_passes : passes err_syscall_num (pass_line "err_syscall_num").
Proof using LOK PL.
  intros t k irqs Hf. unfold err_syscall_num, call_sys.
  rewrite (u_bind_some _ _ _ _ _ (expect_refused _ _ 0 _ _ (number_refused BIG_NUM k irqs ltac:(vm_compute; discriminate)))).
  rewrite (u_bind_some _ _ _ _ _ (expect_refused _ _ 0 _ _ (number_refused NEG_NUM k irqs ltac:(vm_compute; discriminate)))).
  rewrite (u_bind_some _ _ _ _ _ (expect_refused _ _ 0 _ _ (number_refused 0 k irqs ltac:(vm_compute; discriminate)))).
  apply verdict_passes; [done|]. unfold test_names. set_solver.
Qed.

Lemma add_passes test text t k irqs :
  passes test text -> fresh 2 2 t k ->
  exists k', add_test test 0 (k, irqs) = Some (0, (k', irqs)) /\ fresh 2 2 (tty_print (chars text) t) k'.
Proof.
  intros Hp Hf. destruct (Hp t k irqs Hf) as (k' & Ht & Hf'). exists k'. split; [|done].
  unfold add_test. by rewrite (u_bind_some _ _ _ _ _ Ht).
Qed.

Lemma run_all_passes p t k irqs :
  test_dir -> fresh 2 2 t k ->
  exists k', run_all p (k, irqs) = Some (0, (k', irqs)) /\
    fresh 2 2 (tty_print (concat (map chars (report 0))) t) k'.
Proof using LOK PL.
  intros Hdir F0. unfold run_all.
  destruct (add_passes _ _ t k irqs (err_neg_fd_passes p) F0) as (k1 & H1 & F1).
  destruct (add_passes _ _ _ k1 irqs (err_big_fd_passes p) F1) as (k2 & H2 & F2).
  destruct (add_passes _ _ _ k2 irqs (err_open_lots_passes Hdir) F2) as (k3 & H3 & F3).
  destruct (add_passes _ _ _ k3 irqs (err_open_passes Hdir) F3) as (k4 & H4 & F4).
  destruct (add_passes _ _ _ k4 irqs (err_unopened_passes p) F4) as (k5 & H5 & F5).
  destruct (add_passes _ _ _ k5 irqs err_vidmap_passes F5) as (k6 & H6 & F6).
  destruct (add_passes _ _ _ k6 irqs (err_stdin_out_passes p) F6) as (k7 & H7 & F7).
  destruct (add_passes _ _ _ k7 irqs err_syscall_num_passes F7) as (k8 & H8 & F8).
  destruct (fresh_puts 2 2 _ k8 irqs overall_pass 0 F8) as (k9 & H9 & F9); [by left|].
  exists k9. split.
  - rewrite (u_bind_some _ _ _ _ _ H1), (u_bind_some _ _ _ _ _ H2), (u_bind_some _ _ _ _ _ H3).
    rewrite (u_bind_some _ _ _ _ _ H4), (u_bind_some _ _ _ _ _ H5), (u_bind_some _ _ _ _ _ H6).
    rewrite (u_bind_some _ _ _ _ _ H7), (u_bind_some _ _ _ _ _ H8).
    assert (truth 0 = false) as -> by exact eq_refl. exact H9.
  - rewrite tty_print_concat. unfold report. change (0 =? 0) with true. cbv iota.
    unfold test_names. cbn [map app fold_left]. exact F9.
Qed.

(** One choice of the menu. *)
Lemma choice_passes p c t k irqs :
  test_dir -> 0 <= c <= 8 -> fresh 2 2 t k ->
  exists k', run_choice c p (k, irqs) = Some (0, (k', irqs)) /\
    fresh 2 2 (tty_print (concat (map chars (report c))) t) k'.
Proof using LOK PL.
  intros Hdir Hc Hf. destruct (decide (c = 0)) as [->|Hne]; [by apply run_all_passes|].
  assert (exists test s, run_choice (K := task) c p = test /\ report c = [pass_line s] /\ passes test (pass_line s))
    as (test & s & Ht & -> & Hp).
  { assert (c = 1 \/ c = 2 \/ c = 3 \/ c = 4 \/ c = 5 \/ c = 6 \/ c = 7 \/ c = 8) as Hcs by lia.
    destruct Hcs as [->|[->|[->|[->|[->|[->|[->| ->]]]]]]];
      (eexists _, _; split; [exact eq_refl|split; [exact eq_refl|]]).
    - apply err_neg_fd_passes.
    - apply err_big_fd_passes.
    - by apply err_open_lots_passes.
    - by apply err_open_passes.
    - apply err_unopened_passes.
    - apply err_vidmap_passes.
    - apply err_stdin_out_passes.
    - apply err_syscall_num_passes. }
  cbn [map concat]. rewrite app_nil_r. destruct (Hp t k irqs Hf) as (k' & Hk & Hf').
  rewrite <-Ht in Hk. by exists k'.
Qed.

End passing.

End facts.

Section contract.
Context {L : Layout} {LOK : LayoutOk} {D : Device} {FR : Frames} {LI : Literals}.
Implicit Type k : kernel.

(** C15: the kernel passes its own error tests.  Started with its two descriptors of
    the terminal and the others closed, in a directory with "." and without
    "helloo", "shel" and the empty name, syserr returns 0 for each choice of its
    menu, and the screen shows the prompt, the line typed and the line PASS of the
    test chosen; for 0, those of the eight tests and of the summary. *)
Theorem syserr_passes zs `{!Types zs} size buf p k irqs keys rest more c :
  placed (FSYSTEM k) size buf 128 (kmach k) ->
  fresh (FSYSTEM k) size buf 128 (kmach k) 2 2 (on_screen (con k)) k ->
  test_dir (FSYSTEM k) (kmach k) ->
  line_ahead zs k irqs keys rest more -> 0 <= c <= 8 -> hd 0 (typed k keys) = 48 + c ->
  exists k', syserr_main buf p (k, irqs) = Some (0, (k', rest)) /\
    on_screen (con k')
    = tty_print (chars syserr_ask ++ typed k keys ++ [10] ++ concat (map chars (report c))) (on_screen (con k)).
Proof.
  intros Hpl Hf Hdir [Hin Hw Hlen] Hc Hhd. set (fs := FSYSTEM k) in *. set (m0 := kmach k) in *.
  pose proof Hf as [F1 F2 F3 F4 F5 F6].
  assert (syserr_ask ∈ syserr_texts) as Hask by (apply text_of_name; rewrite !elem_of_cons; tauto).
  destruct (desk_ask fs size buf 128 m0 Hpl zs ltac:(lia) _ k irqs syserr_ask keys rest more 127 F1
    (F6 _ Hask) (texts_shown _ Hask) Hin Hw Hlen ltac:(lia)) as (k1 & k2 & Ha & Hr & Hd2 & Hb2 & Hlit2 & Hk2).
  set (l := typed k keys) in *.
  assert (fresh fs size buf 128 m0 2 2 (tty_print (chars syserr_ask ++ l ++ [10]) (on_screen (con k))) k2) as Hf2
    by (split; rewrite ?Hk2; auto).
  assert (load buf (k2, rest) = Some (48 + c, (k2, rest))) as Hload.
  { assert (ld (k2, rest) buf = 48 + c) as <-; [|exact eq_refl].
    destruct l as [|b l']; [simpl in Hhd; lia|]. simpl in Hhd. subst b.
    rewrite <-(Z.add_0_r buf) at 1. by apply (Hb2 0%nat). }
  destruct (choice_passes fs size buf 128 m0 Hpl p c _ k2 rest Hdir Hc Hf2) as (k' & Ht & Hf').
  exists k'. split.
  - unfold syserr_main. rewrite (u_bind_some _ _ _ _ _ Ha), (u_bind_some _ _ _ _ _ Hr).
    rewrite (proj2 (Z.eqb_neq _ _)) by lia. rewrite (u_bind_some _ _ _ _ _ Hload).
    replace (48 + c - 48) with c by lia. exact Ht.
  - rewrite (dk_screen _ _ _ _ _ (fr_desk _ _ _ _ _ _ _ _ _ Hf')). by rewrite <-tty_print_app, <-!app_assoc.
Qed.

End contract.
