(* ===== verification/Grep.v ===== *)
(** * grep (syscalls/ece391grep.c)

    [do_one_file] and the main over the interface of Programs.v, and what
    [do_one_file] prints on this kernel for a file of text whose lines fit its array:
    every line that contains the text, after the name of the file, through as many
    reads as the file takes. *)
From Stdlib Require Import ZArith Lia String.
From stdpp Require Import base list gmap numbers.
From S2P Require Import Prelude ByteMem LibString Machine Console Screen Filesystem Kernel Logic FileTable Process Scheduling Terminal Syscall Support Programs UserKernel Syserr.

#[local] Open Scope u_scope.

(** A loop with local variables: [inl] goes on with their new values. *)
Definition u_step {K A B : Type} (body : A -> U K (A + B)) : A * K -> A * K + option (B * K) := fun '(a, k) =>
  match body a k with
  | Some (inl a, k) => inl (a, k)
  | Some (inr b, k) => inr (Some (b, k))
  | None => inr None
  end.

Definition u_loop {K A B : Type} (body : A -> U K (A + B)) (a : A) : U K B := fun k =>
  r ← while (u_step body) (a, k);
  r.

Lemma u_loop_turns {K A B : Type} (body : A -> U K (A + B)) n a k r :
  loopn n (u_step body) (a, k) = inr (Some r) -> Z.of_nat n <= 4294967296 -> u_loop body a k = Some r.
Proof. intros Hl Hn. unfold u_loop. by rewrite (while_loopn n _ _ _ Hl). Qed.

Section grep.
Context {K : Type} `{ByteMem K} {CL : Calls K} {LI : Literals}.

(** [while (line_end < last && '\n' != data[line_end]) line_end++;] *)
Definition find_line_end (k : K) (data last line_start : Z) : option Z :=
  while (fun line_end =>
    if (line_end <? last) && negb (10 =? ld k (data + line_end)) then inl (line_end + 1) else inr line_end)
    line_start.

(** The for loop over [check], up to its break: whether the text is in the line. *)
Definition search_line (k : K) (s s_len data line_start line_end : Z) : option bool :=
  r ← while (fun check =>
    if check <? line_end then
      if ld k s =? ld k (data + check) then
        match ece391_strncmp k (data + check) s (u32 s_len) with
        | Some r => if 0 =? r then inr (Some true) else inl (check + 1)
        | None => inr None
        end
      else inl (check + 1)
    else inr (Some false)) line_start;
  r.

Definition show_line (fname data line_start : Z) : U K unit :=
  ece391_fdputs 1 fname ;;;
  ece391_fdputs 1 (lit ":") ;;;
  ece391_fdputs 1 (data + line_start) ;;;
  ece391_fdputs 1 (lit nl).

(** One turn of the inner loop: [inr] of the new [last] leaves it. *)
Definition line_turn (s s_len fname data last cnt line_start : Z) : U K (Z + Z) :=
  line_end <- u_get (fun k => find_line_end k data last line_start) ;;
  c <- load (data + line_end) ;;
  if negb (10 =? c) && negb (0 =? cnt) && negb (line_start =? 0) then
    store (data + line_end) 0 ;;;
    u_put (fun k => ece391_strcpy k data (data + line_start)) ;;;
    u_ret (inr (last - line_start))
  else
    store (data + line_end) 0 ;;;
    found <- u_get (fun k => search_line k s s_len data line_start line_end) ;;
    (if (found : bool) then show_line fname data line_start else u_ret tt) ;;;
    let line_start := line_end + 1 in
    u_ret (if last <=? line_start then inr 0 else inl line_start).

(** One turn of the outer loop: [inr] leaves it, [Some] with the value to return. *)
Definition read_turn (s s_len fname data fd last : Z) : U K (Z + option Z) :=
  cnt <- sys_read fd (data + last) (1024 - last) ;;
  if -1 =? cnt then puts_ret ("file read failed" ++ nl) (inr (Some (-1)))
  else
    let last := last + cnt in
    last <- u_loop (line_turn s s_len fname data last cnt) 0 ;;
    u_ret (if 0 =? cnt then inr None else inl last).

Definition do_one_file (s fname data : Z) : U K Z :=
  s_len <- u_get (fun k => l ← ece391_strlen k s; Some (s32 l)) ;;
  fd <- sys_open fname ;;
  if -1 =? fd then puts_ret ("file open failed" ++ nl) (-1)
  else
    r <- u_loop (read_turn s s_len fname data fd) 0 ;;
    match r with
    | Some r => u_ret r
    | None =>
        (r <- sys_close fd ;;
         if -1 =? r then puts_ret ("file close failed" ++ nl) (-1) else u_ret 0)
    end.

Definition grep_turn (fd buf search data : Z) : U K (option Z) :=
  cnt <- sys_read fd buf 32 ;;
  if 0 =? cnt then u_ret (Some 0)
  else if -1 =? cnt then puts_ret ("directory entry read failed" ++ nl) (Some 3)
  else
    c <- load buf ;;
    if 46 =? c then u_ret None
    else
      store (buf + cnt) 0 ;;;
      r <- do_one_file search buf data ;;
      u_ret (if negb (0 =? r) then Some 3 else None).

Definition grep_main (buf search data : Z) : U K Z :=
  r <- sys_getargs search 1024 ;;
  if negb (0 =? r) then puts_ret ("could not read argument" ++ nl) 3
  else
    fd <- sys_open (lit ".") ;;
    if -1 =? fd then puts_ret ("directory open failed" ++ nl) 2
    else u_while (grep_turn fd buf search data).

End grep.

(** ** What it prints *)

(** [s] begins somewhere in [l]. *)
Fixpoint occurs (s l : list Z) : bool :=
  match l with
  | [] => false
  | _ :: l' => bool_decide (take (length s) l = s) || occurs s l'
  end.

(** The line, after the name of the file. *)
Definition answer (s fname l : list Z) : list Z :=
  if occurs s l then fname ++ [58] ++ l ++ [10] else [].

(** The lines of a text: what its newlines end, and what follows the last of them
    unless that is empty. *)
Fixpoint lines_of (l : list Z) : list (list Z) :=
  match l with
  | [] => []
  | b :: l' =>
      if b =? 10 then [] :: lines_of l'
      else match lines_of l' with
           | [] => [[b]]
           | x :: xs => (b :: x) :: xs
           end
  end.

(** Lines, each ended by a newline. *)
Definition unlines (ls : list (list Z)) : list Z := concat (map (fun l => l ++ [10]) ls).

(** The characters of a text file, and of a line of it. *)
Definition text_ok (l : list Z) : Prop := Forall (fun b => printable b /\ b <> 0) l.
Definition line_ok (l : list Z) : Prop := Forall (fun b => printable b /\ b <> 10 /\ b <> 0) l.

(** A line that fits grep's array together with what ends it. *)
Definition short (l : list Z) : Prop := Z.of_nat (length l) < 1024.

(** ** Texts and their lines *)

Lemma lines_of_line l r : line_ok l -> lines_of (l ++ 10 :: r) = l :: lines_of r.
Proof.
  induction 1 as [|b l (_ & Hb & _) Hl IH]; [done|]. cbn [app lines_of].
  by rewrite (proj2 (Z.eqb_neq b 10)), IH.
Qed.

Lemma lines_of_unlines ls r : Forall line_ok ls -> lines_of (unlines ls ++ r) = ls ++ lines_of r.
Proof.
  induction 1 as [|l ls Hl Hls IH]; [done|]. change (unlines (l :: ls)) with ((l ++ [10]) ++ unlines ls).
  rewrite <-!app_assoc. cbn [app]. by rewrite lines_of_line, IH.
Qed.

(** What follows a beginning of a line belongs to its first line. *)
Lemma lines_of_open tl r :
  line_ok tl -> tl <> [] -> exists x xs, lines_of (tl ++ r) = (tl ++ x) :: xs /\ (r = [] -> x = [] /\ xs = []).
Proof.
  induction 1 as [|b tl (_ & Hb & _) Htl IH]; [done|intros _]. cbn [app lines_of].
  rewrite (proj2 (Z.eqb_neq b 10)) by done. destruct tl as [|c tl].
  - cbn [app]. destruct (lines_of r) as [|x xs] eqn:Er; [by exists [], []|].
    exists x, xs. split; [done|]. intros ->. discriminate Er.
  - destruct IH as (x & xs & -> & Hr); [done|]. by exists x, xs.
Qed.

Lemma text_ok_app l r : text_ok (l ++ r) <-> text_ok l /\ text_ok r.
Proof. apply Forall_app. Qed.

Lemma line_text l : line_ok l -> text_ok l.
Proof. apply Forall_impl. by intros b (? & _ & ?). Qed.

Lemma text_bytes_ok l : text_ok l -> Forall (fun b => 0 <= b < 256) l.
Proof. apply Forall_impl. by intros b ((? & _) & _). Qed.

(** Any text is complete lines and the beginning of one more. *)
Lemma text_split l : text_ok l -> exists ls tl, l = unlines ls ++ tl /\ Forall line_ok ls /\ line_ok tl.
Proof.
  induction 1 as [|b l (Hp & Hz) Hl IH]; [by exists [], []; split_and!; constructor|]. destruct IH as (ls & tl & -> & Hls & Htl).
  destruct (decide (b = 10)) as [->|Hb].
  - exists ([] :: ls), tl. split_and!; [done|by constructor; [constructor|]|done].
  - destruct ls as [|x ls].
    + exists [], (b :: tl). split_and!; [done|done|]. by constructor.
    + inversion Hls as [|? ? Hx Hls']; subst. exists ((b :: x) :: ls), tl.
      split_and!; [done| |done]. constructor; [by constructor|done].
Qed.

Lemma unlines_nil ls : unlines ls = [] -> ls = [].
Proof. by destruct ls as [|[|b l] ls]. Qed.

Section search.
Context {M : Type} `{ByteMemOk M}.
Implicit Type m : M.

Lemma find_line_end_at m data last beg l :
  bytes_at m (data + beg) l -> line_ok l -> 0 <= beg ->
  beg + Z.of_nat (length l) <= last < 4294967296 ->
  (beg + Z.of_nat (length l) < last -> ld m (data + (beg + Z.of_nat (length l))) = 10) ->
  find_line_end m data last beg = Some (beg + Z.of_nat (length l)).
Proof.
  intros Hb Hl Hbeg Hlast Hend. unfold find_line_end.
  edestruct (while_total (fun e => if (e <? last) && negb (10 =? ld m (data + e)) then inl (e + 1) else inr e)
    (fun e => beg <= e <= beg + Z.of_nat (length l)) (fun e => beg + Z.of_nat (length l) - e)
    (fun e => e = beg + Z.of_nat (length l)) beg) as (b & Hw & ->); [|lia|lia|exact Hw].
  intros e He. destruct (decide (e = beg + Z.of_nat (length l))) as [->|Hne].
  - destruct (Z.ltb_spec (beg + Z.of_nat (length l)) last) as [Hlt|]; [|done]. by rewrite Hend.
  - rewrite (proj2 (Z.ltb_lt e last)) by lia. cbn [andb].
    destruct (lookup_lt_is_Some_2 l (Z.to_nat (e - beg))) as [b Hi]; [lia|].
    assert (ld m (data + e) = b) as -> by (rewrite <-(Hb _ _ Hi); f_equal; lia).
    destruct (proj1 (Forall_lookup _ _) Hl _ _ Hi) as (_ & Hb10 & _).
    rewrite (proj2 (Z.eqb_neq 10 b)) by lia. cbn [negb]. lia.
Qed.

Lemma occurs_short s l : (length l < length s)%nat -> occurs s l = false.
Proof.
  induction l as [|b l IH]; intros Hl; [done|]. cbn [occurs]. rewrite bool_decide_eq_false_2.
  - apply IH. simpl in Hl. lia.
  - intros E. apply (f_equal length) in E. rewrite length_take in E. lia.
Qed.

Lemma search_line_occurs m s sl data ls l :
  cstr m s sl -> sl <> [] -> Z.of_nat (length sl) < 2147483648 ->
  cstr m (data + ls) l -> Z.of_nat (length l) < 4294967296 ->
  search_line m s (Z.of_nat (length sl)) data ls (ls + Z.of_nat (length l)) = Some (occurs sl l).
Proof.
  intros Hs Hne Hsl Hl Hll. unfold search_line. rewrite u32_small by lia.
  edestruct (while_total (fun check =>
    if check <? ls + Z.of_nat (length l) then
      if ld m s =? ld m (data + check) then
        match ece391_strncmp m (data + check) s (Z.of_nat (length sl)) with
        | Some r => if 0 =? r then inr (Some true) else inl (check + 1)
        | None => inr None
        end
      else inl (check + 1)
    else inr (Some false))
    (fun check => exists k, cstr m (data + check) k /\ check + Z.of_nat (length k) = ls + Z.of_nat (length l) /\
       occurs sl k = occurs sl l)
    (fun check => ls + Z.of_nat (length l) - check) (fun b => b = Some (occurs sl l)) ls) as (b & Hw & ->);
    [| |lia|by rewrite Hw].
  - intros check (k & Hk & Hlen & Ho). destruct k as [|c k].
    + rewrite (proj2 (Z.ltb_ge _ _)) by (cbn [length] in Hlen; lia). by rewrite <-Ho.
    + cbn [length] in Hlen. rewrite (proj2 (Z.ltb_lt _ _)) by lia.
      rewrite (ece391_strncmp_lex m (data + check) s (c :: k) sl) by (done || lia). rewrite Nat2Z.id.
      pose proof (proj1 (cstr_cons _ _ _ _) Hk) as (Hc & Hcz & Hk').
      rewrite Hc. cbn [occurs] in Ho. rewrite firstn_all.
      assert (lex (take (length sl) (c :: k)) sl = 0 <-> take (length sl) (c :: k) = sl) as Hlex.
      { apply lex_zero; [apply Forall_take, Hk|apply Hs]. }
      assert (exists k0, cstr m (data + (check + 1)) k0 /\ check + 1 + Z.of_nat (length k0) = ls + Z.of_nat (length l) /\
        occurs sl k0 = occurs sl k) as Hnext.
      { exists k. rewrite Z.add_assoc. split_and!; [done|lia|done]. }
      destruct (decide (take (length sl) (c :: k) = sl)) as [E|E].
      * rewrite bool_decide_eq_true_2 in Ho by done. cbn [orb] in Ho.
        rewrite (proj2 Hlex E). rewrite <-Ho.
        destruct sl as [|a sl]; [done|]. apply cstr_cons in Hs as (Ha & _). rewrite Ha.
        cbn [length take] in E. injection E as -> _. by rewrite Z.eqb_refl.
      * rewrite bool_decide_eq_false_2 in Ho by done. cbn [orb] in Ho. rewrite <-Ho.
        destruct (_ =? c); [|split; [exact Hnext|lia]].
        destruct (Z.eqb_spec 0 (lex (take (length sl) (c :: k)) sl)) as [Ez|Ez];
          [by destruct E; apply Hlex|split; [exact Hnext|lia]].
  - exists l. done.
Qed.

End search.

Lemma task_store `{Layout} `{Device} `{Frames} (k : kernel) irqs a l :
  store_bytes (M := task) (k, irqs) a l = (set_kmach k (store_bytes (kmach k) a l), irqs).
Proof.
  revert k a. induction l as [|b l IH]; intros k a; [by destruct k as [[]]|].
  cbn [store_bytes]. change (st (k, irqs) a b) with (set_kmach k (st (kmach k) a b), irqs). by rewrite IH.
Qed.

Lemma load_task `{Layout} `{Device} `{Frames} (k : kernel) irqs a :
  load (K := task) a (k, irqs) = Some (ld (kmach k) a, (k, irqs)).
Proof. done. Qed.

(** Closing a file. *)
Lemma file_closes `{Layout} `{Device} `{Frames} (k : kernel) irqs i f ino p :
  (2 <= i < 8)%nat -> fd (kfiles k) !! i = Some (File f ino p 1) -> f_close f = fn_file_close ->
  sys_close (Z.of_nat i) (k, irqs)
  = Some (0, (set_fd k (<[i := File f ino p 0]> (fd (kfiles k))), irqs)).
Proof.
  intros Hi Hf Hc. rewrite close_link, s32_small by lia. unfold close.
  rewrite !(proj2 (Z.leb_le _ _)) by lia. cbn [andb]. unfold c_bind.
  rewrite (get_fd_some _ _ _ Hf). cbn [flags Z.eqb Pos.eqb]. unfold put_fd, c_mod. rewrite Nat2Z.id.
  cbn [fotp]. rewrite Hc. exact eq_refl.
Qed.

Section facts.
Context {L : Layout} {LOK : LayoutOk} {D : Device} {FR : Frames} {LI : Literals}.
Implicit Type k : kernel.
Context (fs size data : Z) (m0 : machine) (PL : placed fs size data 1024 m0).
Context (s fname : Z) (sl fl : list Z).
Hypothesis Hdata : 0 < data /\ data + 1025 <= 4294967296.
Hypothesis Hsl : sl <> [] /\ Z.of_nat (length sl) < 2147483648.
Hypothesis Hfl : Forall printable fl /\ Z.of_nat (length fl) < 2147483648.

(** The strings grep works with, and its descriptors. *)
Record tools (t : list Z * Z) (f : files) k : Prop := {
  gt_desk : desk fs size m0 t k;
  gt_files : kfiles k = f;
  gt_text : text_at data 1024 m0 k s sl;
  gt_name : text_at data 1024 m0 k fname fl;
  gt_colon : literal data 1024 m0 k ":";
  gt_nl : literal data 1024 m0 k nl;
  gt_end : ld (kmach k) (data + 1024) <> 10;
}.

Lemma tools_same t t' f f' k k' :
  desk fs size m0 t' k' -> kfiles k' = f' -> ld (kmach k') (data + 1024) <> 10 ->
  (forall p l, text_at data 1024 m0 k p l -> text_at data 1024 m0 k' p l) -> tools t f k -> tools t' f' k'.
Proof. intros Hd Hf He Hl [_ _ T1 T2 T3 T4 _]. split; unfold literal in *; auto. Qed.

(** Bytes stored in the array, its last one not becoming a newline. *)
Lemma tools_stored t f k i c :
  tools t f k -> 0 <= i <= 1024 -> i + Z.of_nat (length c) <= 1025 ->
  (forall b, c !! Z.to_nat (1024 - i) = Some b -> u8 b <> 10) ->
  tools t f (set_kmach k (store_bytes (kmach k) (data + i) c)).
Proof using LOK PL.
  intros T Hi Hc Hl. pose proof (gt_desk _ _ _ T) as Hd.
  apply (tools_same t t f _ k); [|exact (gt_files _ _ _ T)| | |exact T].
  - apply (desk_store_bytes fs size data 1024 m0 PL); [exact Hd|lia|lia].
  - change (ld (store_bytes (kmach k) (data + i) c) (data + 1024) <> 10).
    pose proof (desk_inj fs size data 1024 m0 PL t k Hd) as Hinj.
    destruct (c !! Z.to_nat (1024 - i)) as [b|] eqn:Eb.
    + replace (data + 1024) with (data + i + Z.of_nat (Z.to_nat (1024 - i))) by lia.
      rewrite (store_bytes_inside _ _ _ _ b); [by apply Hl| |done].
      intros x y Hx Hy. rewrite <-!Z.add_assoc. intros E. apply Hinj in E; lia.
    + rewrite store_bytes_outside; [exact (gt_end _ _ _ T)|]. intros j Hj E.
      apply lookup_ge_None in Eb. rewrite <-Z.add_assoc in E. apply Hinj in E; lia.
  - intros p l. apply (literal_stored fs size data 1024 m0 t k); [exact Hd|lia|lia].
Qed.

Lemma tools_st_zero t f k i :
  tools t f k -> 0 <= i <= 1024 -> tools t f (set_kmach k (st (kmach k) (data + i) 0)).
Proof using LOK PL.
  intros T Hi. apply (tools_stored t f k i [0] T); [lia|simpl; lia|].
  intros b Hb. apply list_lookup_singleton_Some in Hb as [_ <-]. done.
Qed.

(** Printing keeps the strings and what is in the array. *)
Lemma tools_puts t f k irqs p l :
  tools t f k -> cstr (kmach k) p l -> 0 < p < 4294967296 -> Z.of_nat (length l) < 2147483648 ->
  steady m0 p (length l) -> Forall printable l ->
  exists k', ece391_fdputs 1 p (k, irqs) = Some (tt, (k', irqs)) /\ tools (tty_print l t) f k' /\
    forall i c, 0 <= i -> i + Z.of_nat (length c) <= 1025 ->
      bytes_at (kmach k) (data + i) c -> bytes_at (kmach k') (data + i) c.
Proof using LOK PL.
  intros T Hc Hp Hl Hst Hpr. pose proof (gt_desk _ _ _ T) as Hd.
  destruct (desk_fdputs fs size data 1024 m0 PL t k irqs p l Hd Hc Hp Hl Hst Hpr)
    as (k' & Hw & Hd' & Hf' & Ht & _).
  assert (forall i, 0 <= i <= 1024 -> ld (kmach k') (data + i) = ld (kmach k) (data + i)) as Hkeep.
  { intros i Hi. apply Ht. rewrite (dk_cells _ _ _ _ _ Hd). apply (pl_steady _ _ _ _ _ PL). lia. }
  exists k'. split; [exact Hw|]. split.
  - apply (tools_same t _ f _ k); [exact Hd'|by rewrite Hf', (gt_files _ _ _ T)| | |exact T].
    + rewrite Hkeep by lia. exact (gt_end _ _ _ T).
    + intros q c. by apply (literal_drawn fs size data 1024 m0 t k).
  - intros i c Hi Hc1 Hb j b Hj. rewrite <-(Hb j b Hj), <-Z.add_assoc. apply Hkeep.
    apply lookup_lt_Some in Hj. lia.
Qed.

Lemma tools_lit t f k irqs q :
  tools t f k -> literal data 1024 m0 k q -> shown q ->
  exists k', ece391_fdputs 1 (lit q) (k, irqs) = Some (tt, (k', irqs)) /\ tools (tty_print (chars q) t) f k' /\
    forall i c, 0 <= i -> i + Z.of_nat (length c) <= 1025 ->
      bytes_at (kmach k) (data + i) c -> bytes_at (kmach k') (data + i) c.
Proof using LOK PL.
  intros T [Hc Hr Hst _ _] [Hp Hl]. apply tools_puts; try done. intros j Hj. apply Hst. lia.
Qed.

(** The name, the line and the newline. *)
Lemma show_line_prints t f k irqs ls l rest :
  tools t f k -> cstr (kmach k) (data + ls) l -> bytes_at (kmach k) (data + (ls + Z.of_nat (length l) + 1)) rest ->
  line_ok l -> 0 <= ls -> ls + Z.of_nat (length l) + 1 + Z.of_nat (length rest) <= 1025 ->
  exists k', show_line fname data ls (k, irqs) = Some (tt, (k', irqs)) /\
    tools (tty_print (fl ++ [58] ++ l ++ [10]) t) f k' /\
    bytes_at (kmach k') (data + (ls + Z.of_nat (length l) + 1)) rest.
Proof using LOK PL Hfl Hdata.
  intros T Hc Hb Hl Hls Hlen. pose proof (gt_name _ _ _ T) as [N1 N2 N3 _ _].
  assert (Forall printable l) as Hlp by (eapply Forall_impl; [|exact Hl]; by intros b (? & _)).
  assert (Forall (fun b => b <> 0) l) as Hlz by (eapply Forall_impl; [|exact Hl]; by intros b (_ & _ & ?)).
  assert (shown ":" /\ shown nl) as [Hs1 Hs2] by (split; split;
    [apply (bool_decide_unpack _); vm_compute; exact I|vm_compute; reflexivity
    |apply (bool_decide_unpack _); vm_compute; exact I|vm_compute; reflexivity]).
  destruct (tools_puts t f k irqs fname fl T N1 N2) as (k1 & P1 & T1 & B1);
    [apply Hfl|intros j Hj; apply N3; lia|apply Hfl|].
  destruct (tools_lit _ f k1 irqs ":" T1 (gt_colon _ _ _ T1) Hs1) as (k2 & P2 & T2 & B2).
  assert (bytes_at (kmach k2) (data + ls) (l ++ [0])) as Hc2
    by (apply B2, B1; [lia|rewrite length_app; simpl; lia|lia|rewrite length_app; simpl; lia|apply Hc]).
  destruct (tools_puts _ f k2 irqs (data + ls) l T2) as (k3 & P3 & T3 & B3);
    [by split|lia|lia| |exact Hlp|].
  { intros j Hj. rewrite <-Z.add_assoc. apply (pl_steady _ _ _ _ _ PL). lia. }
  destruct (tools_lit _ f k3 irqs nl T3 (gt_nl _ _ _ T3) Hs2) as (k4 & P4 & T4 & B4).
  exists k4. split; [|split].
  - unfold show_line. by rewrite (u_bind_some _ _ _ _ _ P1), (u_bind_some _ _ _ _ _ P2), (u_bind_some _ _ _ _ _ P3).
  - by rewrite !tty_print_app.
  - apply B4, B3, B2, B1; (lia || exact Hb).
Qed.

(** The byte behind a line becomes its terminator. *)
Lemma end_line t f k beg l rest :
  tools t f k -> line_ok l -> bytes_at (kmach k) (data + beg) l ->
  bytes_at (kmach k) (data + (beg + Z.of_nat (length l) + 1)) rest -> 0 <= beg ->
  beg + Z.of_nat (length l) + 1 + Z.of_nat (length rest) <= 1025 ->
  let k' := set_kmach k (st (kmach k) (data + (beg + Z.of_nat (length l))) 0) in
  tools t f k' /\ cstr (kmach k') (data + beg) l /\
  bytes_at (kmach k') (data + (beg + Z.of_nat (length l) + 1)) rest.
Proof using LOK PL.
  intros T Hl Hb Hr Hbeg Hlen k'. pose proof (gt_desk _ _ _ T) as Hd.
  assert (forall i, 0 <= i < 1025 -> i <> beg + Z.of_nat (length l) -> ld (kmach k') (data + i) = ld (kmach k) (data + i)) as Hother.
  { intros i Hi Hne. apply ld_st_other. intros Heq.
    apply (desk_inj fs size data 1024 m0 PL t k Hd) in Heq; lia. }
  split; [|split].
  - apply tools_st_zero; [done|lia].
  - split; [|eapply Forall_impl; [|exact Hl]; by intros b (_ & _ & ?)]. apply bytes_at_app. split.
    + intros i b Hi. apply lookup_lt_Some in Hi as Hlt. rewrite <-Z.add_assoc, Hother by lia.
      rewrite Z.add_assoc. by apply Hb.
    + apply bytes_at_load. cbn [length load_bytes]. rewrite <-Z.add_assoc.
      change (kmach k') with (st (kmach k) (data + (beg + Z.of_nat (length l))) 0). by rewrite ld_st_same.
  - intros i b Hi. apply lookup_lt_Some in Hi as Hlt. rewrite <-Z.add_assoc, Hother by lia.
    rewrite Z.add_assoc. by apply Hr.
Qed.

(** A turn over a line: it is shown if it holds the text. *)
Lemma search_turn t f k irqs beg l rest last cnt :
  let e := beg + Z.of_nat (length l) in
  tools t f k -> line_ok l -> bytes_at (kmach k) (data + beg) l -> bytes_at (kmach k) (data + (e + 1)) rest ->
  0 <= beg -> e + 1 + Z.of_nat (length rest) <= 1025 -> e <= last <= 1024 ->
  (e < last -> ld (kmach k) (data + e) = 10) ->
  negb (10 =? ld (kmach k) (data + e)) && negb (0 =? cnt) && negb (beg =? 0) = false ->
  exists k', line_turn s (Z.of_nat (length sl)) fname data last cnt beg (k, irqs)
    = Some (if last <=? e + 1 then inr 0 else inl (e + 1), (k', irqs)) /\
    tools (tty_print (answer sl fl l) t) f k' /\ bytes_at (kmach k') (data + (e + 1)) rest.
Proof using LOK PL Hsl Hfl Hdata.
  intros e T Hl Hb Hr Hbeg Hlen Hlast Hend Htest. destruct Hsl as [Hne Hslen].
  assert (find_line_end (k, irqs) data last beg = Some e) as Hfind
    by (apply (find_line_end_at (k, irqs) data last beg l); [exact Hb|done|done|unfold e in *; lia|exact Hend]).
  destruct (end_line t f k beg l rest T Hl Hb Hr Hbeg ltac:(unfold e in *; lia)) as (T1 & Hc1 & B1). fold e in T1, Hc1, B1.
  set (k1 := set_kmach k _) in *.
  assert (search_line (k1, irqs) s (Z.of_nat (length sl)) data beg e = Some (occurs sl l)) as Hsearch.
  { apply search_line_occurs; [exact (lt_cstr _ _ _ _ _ _ (gt_text _ _ _ T1))|done|lia|exact Hc1|unfold e in *; lia]. }
  assert (exists k', (if occurs sl l then show_line fname data beg else u_ret tt) (k1, irqs) = Some (tt, (k', irqs)) /\
    tools (tty_print (answer sl fl l) t) f k' /\ bytes_at (kmach k') (data + (e + 1)) rest) as (k' & Hp & T' & B').
  { unfold answer. destruct (occurs sl l); [|exists k1; by split].
    apply (show_line_prints t f k1 irqs beg l rest); [exact T1|exact Hc1|exact B1|done|done|unfold e in *; lia]. }
  exists k'. split; [|by split].
  unfold line_turn. erewrite u_bind_some by (unfold u_get; rewrite Hfind; reflexivity).
  rewrite (u_bind_some _ _ _ _ _ (load_task k irqs (data + e))).
  rewrite Htest. erewrite u_bind_some by reflexivity. change (st (k, irqs) (data + e) 0) with (k1, irqs).
  erewrite u_bind_some by (unfold u_get; rewrite Hsearch; reflexivity).
  by rewrite (u_bind_some _ _ _ _ _ Hp).
Qed.

(** The turn over the beginning of a line that the read cut: it moves to the front
    of the array. *)
Lemma shift_turn t f k irqs beg tl last cnt :
  tools t f k -> line_ok tl -> bytes_at (kmach k) (data + beg) tl -> 0 < beg ->
  beg + Z.of_nat (length tl) = last -> last <= 1024 -> ld (kmach k) (data + last) <> 10 -> cnt <> 0 ->
  exists k', line_turn s (Z.of_nat (length sl)) fname data last cnt beg (k, irqs)
    = Some (inr (Z.of_nat (length tl)), (k', irqs)) /\ tools t f k' /\ bytes_at (kmach k') data tl.
Proof using LOK PL Hsl Hfl Hdata.
  intros T Hl Hb Hbeg <- Hlast Hend Hcnt. set (e := beg + Z.of_nat (length tl)) in *.
  pose proof (desk_inj fs size data 1024 m0 PL t k (gt_desk _ _ _ T)) as Hinj.
  destruct (end_line t f k beg tl [] T Hl Hb) as (T1 & Hc1 & _); [by intros ? ?|lia|simpl; unfold e in *; lia|].
  fold e in T1, Hc1. set (k1 := set_kmach k _) in *.
  assert (inj_on (kmach k1) data 1025) as Hinj1 by (intros x y Hx Hy; exact (Hinj x y Hx Hy)).
  assert (ece391_strcpy (M := task) (k1, irqs) data (data + beg)
    = Some (store_bytes (M := task) (k1, irqs) data (tl ++ [0]))) as Hcpy.
  { apply ece391_strcpy_down; [exact Hc1|lia| |unfold e in *; lia].
    intros x y Hx Hy. apply Hinj1; unfold e in *; lia. }
  exists (set_kmach k1 (store_bytes (kmach k1) (data + 0) (tl ++ [0]))). split; [|split].
  - assert (find_line_end (k, irqs) data e beg = Some e) as Hfind
      by (apply (find_line_end_at (k, irqs) data e beg tl); [exact Hb|done|lia|unfold e in *; lia|unfold e in *; lia]).
    unfold line_turn. erewrite u_bind_some by (unfold u_get; rewrite Hfind; reflexivity).
    rewrite (u_bind_some _ _ _ _ _ (load_task k irqs (data + e))).
    rewrite (proj2 (Z.eqb_neq 10 _)), (proj2 (Z.eqb_neq 0 cnt)), (proj2 (Z.eqb_neq beg 0)) by lia. cbn [negb andb].
    erewrite u_bind_some by reflexivity. change (st (k, irqs) (data + e) 0) with (k1, irqs).
    erewrite u_bind_some by (unfold u_put; change (kernel * list irq)%type with task; rewrite Hcpy; reflexivity).
    rewrite Z.add_0_r, task_store. unfold u_ret. do 3 f_equal. unfold e. lia.
  - apply (tools_stored t f k1 0 _ T1); [lia|rewrite length_app; simpl; unfold e in *; lia|].
    intros b Hbt. apply lookup_lt_Some in Hbt. rewrite length_app in Hbt. simpl in Hbt. unfold e in *. lia.
  - change (bytes_at (store_bytes (kmach k1) (data + 0) (tl ++ [0])) data tl).
    assert (bytes_at (store_bytes (kmach k1) (data + 0) (tl ++ [0])) data (tl ++ [0])) as [? _]%bytes_at_app; [|done].
    apply (bytes_at_stored fs size data 1024 m0 PL t k1); [exact (gt_desk _ _ _ T1)|
      rewrite length_app; simpl; unfold e in *; lia|].
    apply Forall_app. split; [by apply text_bytes_ok, line_text|by repeat constructor].
Qed.

(** What is left of the array when the inner loop ends: the beginning of a line if
    the read cut it, and nothing if that line was searched, or if there was none. *)
Definition left_over (lines : list (list Z)) (tl : list Z) (last cnt : Z) (shown : list (list Z)) (pend : list Z) : Prop :=
  (shown = lines /\ pend = tl /\ (tl <> [] -> cnt <> 0)) \/
  (shown = lines ++ [tl] /\ pend = [] /\ tl <> [] /\ (cnt = 0 \/ last < 1024)).

Lemma open_turn t f k irqs beg tl last cnt :
  tools t f k -> line_ok tl -> tl <> [] -> bytes_at (kmach k) (data + beg) tl -> 0 <= beg ->
  beg + Z.of_nat (length tl) = last -> last <= 1024 -> (beg = 0 -> cnt = 0 \/ last < 1024) ->
  exists shown pend k', line_turn s (Z.of_nat (length sl)) fname data last cnt beg (k, irqs)
    = Some (inr (Z.of_nat (length pend)), (k', irqs)) /\
    tools (tty_print (concat (map (answer sl fl) shown)) t) f k' /\ bytes_at (kmach k') data pend /\
    left_over [] tl last cnt shown pend.
Proof using LOK PL Hsl Hfl Hdata.
  intros T Hl Hne Hb Hbeg He Hlast H0.
  destruct (negb (10 =? ld (kmach k) (data + last)) && negb (0 =? cnt) && negb (beg =? 0)) eqn:Et.
  - apply andb_prop in Et as [Et1 Et3]. apply andb_prop in Et1 as [Et1 Et2].
    rewrite negb_true_iff, Z.eqb_neq in Et1, Et2, Et3.
    destruct (shift_turn t f k irqs beg tl last cnt T Hl Hb) as (k' & Ht & T' & B'); [lia|done|done|lia|lia|].
    exists [], tl, k'. split_and!; [exact Ht|exact T'|exact B'|]. left. split_and!; [done|done|lia].
  - assert (cnt = 0 \/ last < 1024) as Hcase.
    { destruct (decide (last < 1024)) as [|Hge]; [by right|left]. assert (last = 1024) as E by lia.
      rewrite E in Et. rewrite (proj2 (Z.eqb_neq 10 _)) in Et by (intros Ez; exact (gt_end _ _ _ T (eq_sym Ez))).
      destruct (Z.eqb_spec 0 cnt) as [|Hc]; [done|]. destruct (Z.eqb_spec beg 0) as [Hz|]; [|done].
      destruct (H0 Hz); lia. }
    subst last. destruct (search_turn t f k irqs beg tl [] (beg + Z.of_nat (length tl)) cnt T Hl Hb) as (k' & Ht & T' & _);
      [by intros ? ?|lia|simpl; lia|lia|lia|exact Et|].
    exists [tl], [], k'. rewrite (proj2 (Z.leb_le _ _)) in Ht by lia.
    split_and!; [exact Ht|cbn [map concat]; by rewrite app_nil_r|by intros ? ?|]. right. by split_and!.
Qed.

(** The inner loop, from the line at [beg] on. *)
Lemma lines_turns lines tl t f k irqs beg last cnt :
  lines <> [] \/ tl <> [] -> tools t f k -> Forall line_ok lines -> line_ok tl ->
  bytes_at (kmach k) (data + beg) (unlines lines ++ tl) -> 0 <= beg ->
  beg + Z.of_nat (length (unlines lines ++ tl)) = last -> last <= 1024 ->
  (beg = 0 -> lines = [] -> cnt = 0 \/ last < 1024) ->
  exists shown pend k', loopn (S (length lines)) (u_step (line_turn s (Z.of_nat (length sl)) fname data last cnt)) (beg, (k, irqs))
      = inr (Some (Z.of_nat (length pend), (k', irqs))) /\
    tools (tty_print (concat (map (answer sl fl) shown)) t) f k' /\ bytes_at (kmach k') data pend /\
    left_over lines tl last cnt shown pend.
Proof using LOK PL Hsl Hfl Hdata.
  revert t k beg. induction lines as [|l lines IH]; intros t k beg Hne T Hok Htl Hb Hbeg Hlen Hlast H0.
  - destruct (open_turn t f k irqs beg tl last cnt T Htl) as (shown & pend & k' & Ht & Hk');
      [by destruct Hne|exact Hb|done|exact Hlen|done|by intros E; apply H0|].
    exists shown, pend, k'. split; [|exact Hk']. cbn [length loopn u_step]. by rewrite Ht.
  - inversion Hok as [|? ? Hl Hok']; subst x l0.
    change (unlines (l :: lines)) with ((l ++ [10]) ++ unlines lines) in Hb, Hlen.
    rewrite <-!app_assoc in Hb, Hlen. set (rest := unlines lines ++ tl) in *.
    apply bytes_at_app in Hb as [Hb1 Hb2]. apply bytes_at_app in Hb2 as [Hb2 Hb3].
    rewrite !length_app in Hlen. cbn [length] in Hlen, Hb3. change (Z.of_nat 1) with 1 in Hb3. rewrite <-!Z.add_assoc in Hb3.
    destruct (search_turn t f k irqs beg l rest last cnt T Hl Hb1) as (k1 & Ht & T1 & B1); [by rewrite <-Z.add_assoc|done|lia|lia| |  |].
    { intros _. rewrite Z.add_assoc. specialize (Hb2 0%nat 10 eq_refl). by rewrite Z.add_0_r in Hb2. }
    { specialize (Hb2 0%nat 10 eq_refl). rewrite Z.add_0_r, <-Z.add_assoc in Hb2. by rewrite Hb2. }
    remember (S (length lines)) as n eqn:En. cbn [length]. rewrite <-En. cbn [loopn u_step]. rewrite Ht.
    destruct (Z.leb_spec last (beg + Z.of_nat (length l) + 1)) as [Hend|Hgo].
    + assert (rest = []) as Er by (apply length_zero_iff_nil; lia). unfold rest in Er.
      apply app_eq_nil in Er as [Eu%unlines_nil ->]. subst lines.
      exists [l], [], k1. split; [done|]. split; [cbn [map concat]; by rewrite app_nil_r|]. split; [by intros ? ?|].
      left. by split_and!.
    + destruct (IH (tty_print (answer sl fl l) t) k1 (beg + Z.of_nat (length l) + 1)) as (shown & pend & k' & Hn & T' & B' & Hcase);
        [|exact T1|done|done|exact B1|lia|fold rest; lia|done|lia|].
      { destruct lines; [right|by left]. intros ->. unfold rest in *. simpl in *. lia. }
      exists (l :: shown), pend, k'. split; [exact Hn|]. split; [cbn [map concat]; by rewrite tty_print_app|]. split; [exact B'|].
      destruct Hcase as [(-> & -> & Hc)|(-> & -> & Hc)]; [left; by split_and!|right; split; [done|split; [done|exact Hc]]].
Qed.

Section file.
Context (i : nat) (ino : Z) (Hi : (2 <= i < 8)%nat) (Hino : 0 <= ino < boot_inodes fs m0).
Let content := file_content fs m0 ino.

(** The descriptor stands before [rest]. *)
Definition before k (rest : list Z) : Prop :=
  exists p, fd (kfiles k) !! i = Some (File file_fops ino p 1) /\
    0 <= p <= Z.of_nat (length content) /\ drop (Z.to_nat p) content = rest.

Lemma placed_from j : 0 <= j < 1024 -> placed fs size (data + j) (1024 - j) m0.
Proof using PL Hdata.
  clear Hi Hsl Hfl. intros Hj. destruct PL as [P1 P2 P3 P4 P5 P6 P7 P8 P9].
  replace (1024 - j + 1) with (1025 - j) by lia. split; try done; try lia.
  - replace (1024 - j + 1) with (1025 - j) by lia. eapply off_image_sub; [done|exact P5|lia|lia].
  - intros x y Hx Hy. rewrite <-!Z.add_assoc. intros E. apply P6 in E; lia.
  - intros x Hx. rewrite <-Z.add_assoc. apply P7. lia.
  - intros x Hx y Hy. rewrite <-Z.add_assoc. apply P8; lia.
Qed.

(** A read behind what is in the array. *)
Lemma read_more t f k irqs pend rest :
  tools t f k -> before k rest -> Forall (fun b => 0 <= b < 256) rest -> bytes_at (kmach k) data pend ->
  let n := 1024 - Z.of_nat (length pend) in 0 < n -> let c := take (Z.to_nat n) rest in
  exists k', sys_read (Z.of_nat i) (data + Z.of_nat (length pend)) n (k, irqs) = Some (Z.of_nat (length c), (k', irqs)) /\
    tools t (kfiles k') k' /\ bytes_at (kmach k') data (pend ++ c) /\ before k' (drop (Z.to_nat n) rest).
Proof using LOK PL Hi Hino Hdata.
  intros T (p & Hf & Hp & Hrest) Hbytes Hb n Hn c. pose proof (gt_desk _ _ _ T) as Hd.
  set (j := Z.of_nat (length pend)) in *. pose proof (placed_from j ltac:(lia)) as PL'. fold n in PL'.
  assert (length c <= Z.to_nat n)%nat as Hc by (unfold c; rewrite length_take; lia).
  destruct (chunked_exists (Z.to_nat n) rest) as (cs & Hcs & _); [lia|].
  assert (file_rest fs n m0 ino p cs) as Hfr
    by (split; [exact Hp|fold content; by rewrite Hrest]).
  destruct (file_delivers fs size (data + j) n m0 PL' i ino Hi Hino t k irqs p cs Hd Hf Hfr)
    as (k' & p' & Hr & Hm & Hd' & Hf' & Hp' & Hcs').
  rewrite (file_rest_hd fs n m0 ino p cs Hfr) in Hr, Hm. fold content in Hr, Hm, Hp', Hcs'. rewrite Hrest in Hr, Hm.
  fold c in Hr, Hm. exists k'. split; [exact Hr|]. split; [|split].
  - assert (tools t f (set_kmach k (store_bytes (kmach k) (data + j) c))) as T1.
    { apply (tools_stored t f k j c T); [lia|lia|]. intros b Hlt. apply lookup_lt_Some in Hlt. lia. }
    rewrite Z.add_0_r in Hm. apply (tools_same t t f _ (set_kmach k (store_bytes (kmach k) (data + j) c)) k'); [exact Hd'|done| | |exact T1].
    + rewrite Hm. exact (gt_end _ _ _ T1).
    + intros q l. apply (literal_same data 1024 m0). intros x _. by rewrite Hm.
  - apply bytes_at_app. split.
    + intros x b Hx. rewrite <-(Hb x b Hx), Hm. apply store_bytes_outside. intros y Hy E. apply lookup_lt_Some in Hx.
      rewrite Z.add_0_r, <-Z.add_assoc in E. apply (desk_inj fs size data 1024 m0 PL t k Hd) in E; lia.
    + rewrite Hm. apply (bytes_at_stored fs size (data + j) n m0 PL' t k c Hd); [lia|by apply Forall_take].
  - exists p'. split; [exact Hf'|]. split; [exact Hp'|]. rewrite <-(chunked_concat _ _ _ Hcs').
    destruct cs as [|c0 cs]; [by rewrite Hcs, drop_nil|]. destruct Hcs as (_ & _ & Hcs). by apply (chunked_concat (Z.to_nat n)).
Qed.

(** The last turn: the end of the file was found. *)
Lemma end_turn t f k irqs pend :
  tools t f k -> before k [] -> line_ok pend -> short pend -> bytes_at (kmach k) data pend ->
  exists k', read_turn s (Z.of_nat (length sl)) fname data (Z.of_nat i) (Z.of_nat (length pend)) (k, irqs)
      = Some (inr None, (k', irqs)) /\
    tools (tty_print (concat (map (answer sl fl) (lines_of pend))) t) (kfiles k') k' /\ before k' [].
Proof using LOK PL Hi Hino Hsl Hfl Hdata.
  intros T Hbf Hl Hsh Hb. unfold short in Hsh.
  destruct (read_more t f k irqs pend [] T Hbf (Forall_nil _) Hb) as (k1 & Hr & T1 & B1 & Hbf1); [lia|].
  rewrite take_nil in Hr, B1. rewrite drop_nil in Hbf1. rewrite app_nil_r in B1.
  assert (exists k2 r, u_loop (line_turn s (Z.of_nat (length sl)) fname data (Z.of_nat (length pend)) 0) 0 (k1, irqs)
      = Some (r, (k2, irqs)) /\ tools (tty_print (concat (map (answer sl fl) (lines_of pend))) t) (kfiles k1) k2)
    as (k2 & r & Hl2 & T2).
  { destruct (decide (pend = [])) as [->|Hne].
    - destruct (search_turn t (kfiles k1) k1 irqs 0 [] [] 0 0 T1) as (k2 & Ht & T2 & _);
        [constructor|by intros ? ?|by intros ? ?|done|simpl; lia|simpl; lia|simpl; lia|apply andb_false_r|].
      exists k2, 0. split; [|exact T2]. change (Z.of_nat (length (@nil Z))) with 0.
      apply (u_loop_turns _ 1); [|lia]. cbn [loopn u_step]. by rewrite Ht.
    - destruct (lines_turns [] pend t (kfiles k1) k1 irqs 0 (Z.of_nat (length pend)) 0) as (shown & pend' & k2 & Hn & T2 & _ & Hc);
        [by right|exact T1|constructor|done|by rewrite Z.add_0_r|done|done|lia|by left|].
      destruct Hc as [(_ & _ & Hc)|(-> & -> & _)]; [by destruct (Hc Hne)|].
      destruct (lines_of_open pend [] Hl Hne) as (x & xs & E & Hx). destruct (Hx eq_refl) as [-> ->].
      rewrite !app_nil_r in E. rewrite E. exists k2, 0. split; [|exact T2]. by apply (u_loop_turns _ 1). }
  exists k2. rewrite (gt_files _ _ _ T2). split; [|split].
  - unfold read_turn. rewrite (u_bind_some _ _ _ _ _ Hr). change (Z.of_nat (length (@nil Z))) with 0.
    change (-1 =? 0) with false. cbv iota zeta. rewrite Z.add_0_r. by rewrite (u_bind_some _ _ _ _ _ Hl2).
  - exact T2.
  - unfold before. by rewrite (gt_files _ _ _ T2).
Qed.

(** What the inner loop leaves, against the lines of the whole text. *)
Lemma left_over_lines lines tl last cnt shown pend rest' :
  left_over lines tl last cnt shown pend -> Forall line_ok lines -> line_ok tl -> cnt <> 0 ->
  (last < 1024 -> rest' = []) -> Forall short (lines_of (unlines lines ++ tl ++ rest')) ->
  lines_of (unlines lines ++ tl ++ rest') = shown ++ lines_of (pend ++ rest') /\ line_ok pend /\ short pend.
Proof.
  intros Hlo Hok Htl Hcnt Hend Hsh. rewrite lines_of_unlines in * by done.
  destruct Hlo as [(-> & -> & _)|(-> & -> & Hne & Hc)].
  - split; [done|]. split; [done|]. destruct (decide (tl = [])) as [->|Hne]; [done|].
    destruct (lines_of_open tl rest' Htl Hne) as (x & xs & E & _). rewrite E in Hsh.
    apply Forall_app in Hsh as [_ Hsh]. inversion Hsh as [|? ? Hx _]; subst. unfold short in *.
    rewrite length_app in Hx. lia.
  - destruct Hc as [Hc|Hc]; [done|]. rewrite (Hend Hc), !app_nil_r. split; [|by split; [constructor|]].
    destruct (lines_of_open tl [] Htl Hne) as (x & xs & E & Hx). destruct (Hx eq_refl) as [-> ->].
    by rewrite !app_nil_r in E; rewrite E.
Qed.

(** A turn that reads something. *)
Lemma middle_turn t f k irqs pend rest :
  let n := 1024 - Z.of_nat (length pend) in let rest' := drop (Z.to_nat n) rest in
  tools t f k -> before k rest -> rest <> [] -> text_ok rest -> line_ok pend -> short pend ->
  Forall short (lines_of (pend ++ rest)) -> bytes_at (kmach k) data pend ->
  exists shown pend' k', read_turn s (Z.of_nat (length sl)) fname data (Z.of_nat i) (Z.of_nat (length pend)) (k, irqs)
      = Some (inl (Z.of_nat (length pend')), (k', irqs)) /\
    tools (tty_print (concat (map (answer sl fl) shown)) t) (kfiles k') k' /\ before k' rest' /\
    bytes_at (kmach k') data pend' /\ line_ok pend' /\ short pend' /\
    lines_of (pend ++ rest) = shown ++ lines_of (pend' ++ rest').
Proof using LOK PL Hi Hino Hsl Hfl Hdata.
  intros n rest' T Hbf Hne Htext Hl Hsh Hshort Hb. unfold short in Hsh.
  destruct (read_more t f k irqs pend rest T Hbf (text_bytes_ok _ Htext) Hb) as (k1 & Hr & T1 & B1 & Hbf1); [lia|].
  fold n in Hr, B1, Hbf1. fold rest' in Hbf1. set (c := take (Z.to_nat n) rest) in *.
  assert (c ++ rest' = rest) as Ecut by apply take_drop.
  assert (length c = Nat.min (Z.to_nat n) (length rest)) as Hlc by apply length_take.
  assert (length rest <> 0)%nat as Hlr by (by destruct rest).
  assert (text_ok c) as Htc by (by apply Forall_take).
  destruct (text_split (pend ++ c)) as (lines & tl & Eb & Hok & Htl); [by apply text_ok_app; split; [apply line_text|]|].
  assert (pend ++ rest = unlines lines ++ tl ++ rest') as Eall by (by rewrite <-Ecut, !app_assoc, Eb).
  set (last := Z.of_nat (length pend) + Z.of_nat (length c)).
  assert (length (pend ++ c) = length (unlines lines ++ tl)) as Elen by (by rewrite Eb). rewrite !length_app in Elen.
  assert (last < 1024 -> rest' = []) as Hend.
  { intros Hlast. unfold last in Hlast. apply length_zero_iff_nil. unfold rest'. rewrite length_drop. lia. }
  rewrite Eall in *. rewrite Eb in B1. rewrite <-(Z.add_0_r data) in B1.
  destruct (lines_turns lines tl t (kfiles k1) k1 irqs 0 last (Z.of_nat (length c))) as (shown & pend' & k2 & Hn & T2 & B2 & Hlo);
    [|exact T1|done|done|exact B1|done|rewrite length_app; unfold last; lia|unfold last; lia| |].
  { destruct lines; [right|by left]. intros ->. simpl in Elen. lia. }
  { intros _ ->. destruct (decide (last < 1024)); [by right|exfalso]. simpl in Elen, Hshort. unfold last in *.
    destruct (lines_of_open tl rest' Htl) as (x & xs & E & _); [intros ->; simpl in Elen; lia|].
    rewrite E in Hshort. apply Forall_cons_iff in Hshort as [Hx _]. unfold short in Hx. rewrite length_app in Hx. lia. }
  destruct (left_over_lines _ _ _ _ _ _ rest' Hlo Hok Htl ltac:(lia) Hend Hshort) as (Elines & Hl' & Hsh').
  exists shown, pend', k2. rewrite (gt_files _ _ _ T2). split_and!; [|exact T2| |exact B2|done|done|done].
  - assert (u_loop (line_turn s (Z.of_nat (length sl)) fname data last (Z.of_nat (length c))) 0 (k1, irqs)
      = Some (Z.of_nat (length pend'), (k2, irqs))) as Hloop.
    { apply (u_loop_turns _ _ _ _ _ Hn). assert (length lines <= length (unlines lines))%nat; [|lia].
      clear. induction lines as [|l ls IH]; [done|]. change (unlines (l :: ls)) with ((l ++ [10]) ++ unlines ls).
      rewrite !length_app. simpl. lia. }
    unfold read_turn. rewrite (u_bind_some _ _ _ _ _ Hr). rewrite (proj2 (Z.eqb_neq _ _)) by lia.
    fold last. rewrite (u_bind_some _ _ _ _ _ Hloop). by rewrite (proj2 (Z.eqb_neq _ _)) by lia.
  - unfold before. by rewrite (gt_files _ _ _ T2).
Qed.

(** The reads, to the end of the file. *)
Lemma read_turns j t f k irqs pend rest :
  (length rest <= j)%nat -> tools t f k -> before k rest -> text_ok rest -> line_ok pend -> short pend ->
  Forall short (lines_of (pend ++ rest)) -> bytes_at (kmach k) data pend ->
  exists k', loopn (S j) (u_step (read_turn s (Z.of_nat (length sl)) fname data (Z.of_nat i)))
      (Z.of_nat (length pend), (k, irqs)) = inr (Some (None, (k', irqs))) /\
    tools (tty_print (concat (map (answer sl fl) (lines_of (pend ++ rest)))) t) (kfiles k') k' /\ before k' [].
Proof using LOK PL Hi Hino Hsl Hfl Hdata.
  revert t f k pend rest. induction j as [|j IH]; intros t f k pend rest Hj T Hbf Htext Hl Hsh Hshort Hb;
    (destruct (decide (rest = [])) as [->|Hne];
      [destruct (end_turn t f k irqs pend T Hbf Hl Hsh Hb) as (k' & Ht & T' & Hbf');
       exists k'; rewrite app_nil_r; split; [cbn [loopn u_step]; by rewrite Ht|by split]|]).
  - by destruct rest; [|simpl in Hj; lia].
  - destruct (middle_turn t f k irqs pend rest T Hbf Hne Htext Hl Hsh Hshort Hb)
      as (shown & pend' & k1 & Ht & T1 & Hbf1 & B1 & Hl1 & Hsh1 & Elines).
    rewrite Elines in *. apply Forall_app in Hshort as [_ Hshort].
    assert (length rest <> 0)%nat as Hlr by (by destruct rest).
    set (rest' := drop _ rest) in *.
    assert (length rest' <= j)%nat as Hj' by (unfold rest', short in *; rewrite length_drop; lia).
    destruct (IH _ _ k1 pend' rest' Hj' T1 Hbf1 ltac:(by apply Forall_drop) Hl1 Hsh1 Hshort B1) as (k2 & Hn & T2 & Hbf2).
    exists k2. split; [|split; [|exact Hbf2]].
    + remember (S j) as j'. cbn [loopn u_step]. rewrite Ht. exact Hn.
    + by rewrite map_app, concat_app, tty_print_app.
Qed.

Hypothesis Htext : text_ok content.
Hypothesis Hshort : Forall short (lines_of content).

Lemma read_loop t f k irqs :
  tools t f k -> fd (kfiles k) !! i = Some (File file_fops ino 0 1) ->
  exists k' p', u_loop (read_turn s (Z.of_nat (length sl)) fname data (Z.of_nat i)) 0 (k, irqs)
      = Some (None, (k', irqs)) /\
    tools (tty_print (concat (map (answer sl fl) (lines_of content))) t) (kfiles k') k' /\
    fd (kfiles k') !! i = Some (File file_fops ino p' 1).
Proof using LOK PL Hsl Hfl Hdata Hi Hino Htext Hshort.
  intros T Hf. assert (before k content) as Hbf by (exists 0; split; [done|split; [lia|done]]).
  destruct (read_turns (length content) t f k irqs [] content) as (k' & Hn & T' & (p' & Hf' & _));
    [done|done|done|done|constructor|done|done|by intros ? ?|].
  exists k', p'. split; [|by split]. apply (u_loop_turns _ _ _ _ _ Hn).
  pose proof (file_content_length fs m0 ino) as Hlen. pose proof (ld32_range m0 (inode_at fs ino)) as Hsz.
  change (ld32 m0 (inode_at fs ino)) with (file_size fs m0 ino) in Hsz. unfold content. lia.
Qed.

End file.

End facts.

Section contract.
Context {L : Layout} {LOK : LayoutOk} {D : Device} {FR : Frames} {LI : Literals}.
Implicit Type k : kernel.

Definition grep_no_file : string := "file open failed" ++ nl.

(** What [do_one_file] is started with: its array, the text [sl] to look for and the
    name [fl] of a file in memory.  The last byte of the array, which the program
    reads before it ever writes it when the array is full, is not a newline. *)
Record grep_ready (size data s fname : Z) (sl fl : list Z) k : Prop := {
  gr_ready : ready size data 1024 k;
  gr_data : 0 < data /\ data + 1025 <= 4294967296;
  gr_sl : sl <> [] /\ Z.of_nat (length sl) < 2147483648;
  gr_fl : Forall printable fl /\ Z.of_nat (length fl) < 2147483648;
  gr_text : text_at data 1024 (kmach k) k s sl;
  gr_name : text_at data 1024 (kmach k) k fname fl;
  gr_colon : literal data 1024 (kmach k) k ":";
  gr_nl : literal data 1024 (kmach k) k nl;
  gr_end : ld (kmach k) (data + 1024) <> 10;
}.

(** A descriptor for the next file. *)
Definition free_fd k : Prop := exists j f, (2 <= j)%nat /\ fd (kfiles k) !! j = Some f /\ flags f = 0.

Lemma do_one_file_found size data s fname sl fl k irqs d :
  grep_ready size data s fname sl fl k ->
  found (FSYSTEM k) (kmach k) (take 32 fl) (dt (kfiles k)) d 0 -> ftype d = 2 ->
  inode d < boot_inodes (FSYSTEM k) (kmach k) ->
  let content := file_content (FSYSTEM k) (kmach k) (inode d) in
  text_ok content -> Forall short (lines_of content) ->
  exists k', do_one_file s fname data (k, irqs) = Some (0, (k', irqs)) /\
    on_screen (con k') = tty_print (concat (map (answer sl fl) (lines_of content))) (on_screen (con k)) /\ free_fd k'.
Proof.
  intros [Hry Hdata Hsl Hfl Hs Hn Hcol Hnl Hend] Hfd Hft Hino content Htext Hshort.
  pose proof (ready_desk _ _ _ _ Hry) as Hd. destruct Hry as [Hpl _ _ _ Hok Hfree _].
  destruct (desk_open _ _ _ _ _ Hpl _ k irqs fname fl Hd Hok (lt_range _ _ _ _ _ _ Hn) (lt_cstr _ _ _ _ _ _ Hn) Hfree)
    as (r & k1 & Ho & Hd1 & Hm1 & Hr).
  assert (forall p l, text_at data 1024 (kmach k) k p l -> text_at data 1024 (kmach k) k1 p l) as Hkeep
    by (intros p l; apply (literal_same data 1024 (kmach k) k k1 p l); intros j _; by rewrite Hm1).
  destruct Hr as [(_ & Hno)|(d' & j & Hfd' & -> & Hj & Hf)].
  { exfalso. destruct Hfd as [(_ & x & Hx & Hnm & _)|(Hr & _)]; [by apply (Hno x)|done]. }
  destruct (found_unique _ _ _ _ _ _ _ _ Hfd Hfd') as [_ <-]. rewrite Hft in Hf. cbn [Z.eqb Pos.eqb] in Hf.
  assert (tools (FSYSTEM k) size data (kmach k) s fname sl fl (on_screen (con k)) (kfiles k1) k1) as T
    by (split; [exact Hd1|done|by apply Hkeep..|by rewrite Hm1]).
  destruct (read_loop (FSYSTEM k) size data (kmach k) Hpl s fname sl fl Hdata Hsl Hfl j (inode d) Hj
    (conj (found_inode _ _ _ _ _ Hfd) Hino) Htext Hshort _ _ k1 irqs T Hf) as (k2 & p & Hl & T2 & Hf2).
  eexists. split.
  - unfold do_one_file. erewrite u_bind_some by (unfold u_get;
      rewrite (ece391_strlen_cstr (k, irqs) s sl) by (exact (lt_cstr _ _ _ _ _ _ Hs) || lia); reflexivity).
    rewrite s32_small by lia. rewrite (u_bind_some _ _ _ _ _ Ho). rewrite (proj2 (Z.eqb_neq _ _)) by lia.
    rewrite (u_bind_some _ _ _ _ _ Hl).
    by rewrite (u_bind_some _ _ _ _ _ (file_closes k2 irqs j file_fops (inode d) p Hj Hf2 eq_refl)).
  - split; [exact (dk_screen _ _ _ _ _ (gt_desk _ _ _ _ _ _ _ _ _ _ _ T2))|].
    exists j. eexists. split; [lia|]. split; [apply list_lookup_insert_eq; by eapply lookup_lt_Some|done].
Qed.

(** C16: grep in one file.  For a file of text (no NUL, no backspace) of any length
    whose lines have at most 1023 characters, the last one with or without its
    newline, [do_one_file] ends, answers 0 and has printed exactly the lines in which
    the text occurs, in order and each after the name of the file and a colon, however
    the reads of the array cut them; and a descriptor is free for the next file.  For
    a name that is not in the directory it says so and answers -1.  Longer lines,
    which the program searches in pieces, are not covered. *)
Theorem do_one_file_correct size data s fname sl fl k irqs :
  grep_ready size data s fname sl fl k ->
  (forall d, found (FSYSTEM k) (kmach k) (take 32 fl) (dt (kfiles k)) d 0 -> ftype d = 2 ->
     inode d < boot_inodes (FSYSTEM k) (kmach k) ->
     let content := file_content (FSYSTEM k) (kmach k) (inode d) in
     text_ok content -> Forall short (lines_of content) ->
     exists k', do_one_file s fname data (k, irqs) = Some (0, (k', irqs)) /\
       on_screen (con k') = tty_print (concat (map (answer sl fl) (lines_of content))) (on_screen (con k)) /\
       free_fd k') /\
  ((forall x, 0 <= x < num_dentries (FSYSTEM k) (kmach k) -> dentry_name (FSYSTEM k) (kmach k) x <> take 32 fl) ->
     literal data 1024 (kmach k) k grep_no_file ->
     exists k', do_one_file s fname data (k, irqs) = Some (-1, (k', irqs)) /\
       on_screen (con k') = tty_print (chars grep_no_file) (on_screen (con k))).
Proof.
  intros Hgr. split; [intros d; by apply (do_one_file_found size)|]. intros Hno Hlit.
  destruct Hgr as [Hry _ [_ Hsl] _ Hs Hn _ _ _].
  pose proof (ready_desk _ _ _ _ Hry) as Hd. destruct Hry as [Hpl _ _ _ Hok Hfree _].
  destruct (desk_open _ _ _ _ _ Hpl _ k irqs fname fl Hd Hok (lt_range _ _ _ _ _ _ Hn) (lt_cstr _ _ _ _ _ _ Hn) Hfree)
    as (r & k1 & Ho & Hd1 & Hm1 & [(-> & _)|(d & j & Hfd & _)]).
  - assert (literal data 1024 (kmach k) k1 grep_no_file) as Hlit1
      by (apply (literal_same data 1024 (kmach k) k k1); [intros j _; by rewrite Hm1|exact Hlit]).
    destruct (desk_puts _ _ _ _ _ Hpl _ k1 irqs grep_no_file (-1) Hd1 Hlit1) as (k' & Hp & Hd');
      [split; [apply (bool_decide_unpack _); vm_compute; exact I|vm_compute; reflexivity]|].
    exists k'. split; [|exact (dk_screen _ _ _ _ _ Hd')].
    unfold do_one_file. assert (exists n, ece391_strlen (k, irqs) s = Some n) as (n & Hlen).
    { exists (Z.of_nat (length sl)). apply ece391_strlen_cstr; [exact (lt_cstr _ _ _ _ _ _ Hs)|lia]. }
    erewrite u_bind_some by (unfold u_get; rewrite Hlen; reflexivity).
    rewrite (u_bind_some _ _ _ _ _ Ho). exact Hp.
  - exfalso. destruct Hfd as [(_ & x & Hx & Hnm & _)|(Hr & _)]; [by apply (Hno x)|done].
Qed.

End contract.
