(* ===== verification/Examples.v ===== *)
(** * The user programs on one concrete kernel

    The hypotheses of UserKernel.v, Syserr.v and Grep.v hold at the state built here: paging
    on, an image with the directory "." and the file "note", a program in the page
    of process 3 with its strings and its array in that page, its output on the
    screen and a keyboard that types a given line. *)
From Stdlib Require Import ZArith Lia String.
From stdpp Require Import base list gmap numbers.
From S2P Require Import Prelude ByteMem LibString Machine Paging Devices Console Screen Filesystem Kernel Logic FileTable Process Execute Scheduling Keyboard Terminal Syscall Support Programs UserKernel Syserr Grep.

#[local] Existing Instance demo_layout.
#[local] Existing Instance demo_layout_ok.
#[local] Existing Instance demo_frames.

Definition desk_fs : Z := 0x450000.

(** The strings of the programs, one to a slot of 256 bytes. *)
Definition desk_texts : list string :=
  [cat_no_args; cat_not_found; ls_failed; hello_ask; hello_greeting; counter_ask; counter_wrong; shell_prompt; "exit"%string;
   "fi"%string; "note"%string; ":"%string; nl; grep_no_file]
  ++ syserr_texts.

Definition desk_slot (s : string) : nat :=
  match list_find (eq s) desk_texts with
  | Some (i, _) => i
  | None => length desk_texts
  end.

#[local] Instance desk_literals : Literals := fun s => user_base + (0x100000 + 256 * Z.of_nat (desk_slot s)).

Definition desk_image (m : machine) : machine :=
  let m := st32 m desk_fs 2 in
  let m := st32 m (desk_fs + 4) 1 in
  let m := store_bytes m (desk_fs + 64) (chars "."%string) in
  let m := st32 m (desk_fs + 64 + 32) 1 in
  let m := store_bytes m (desk_fs + 128) (chars "note"%string) in
  let m := st32 m (desk_fs + 128 + 32) 2 in
  let m := st32 m (desk_fs + 4096) 8 in
  store_bytes m (desk_fs + 8192) [72; 105; 10; 102; 105; 115; 104; 10].

(** [arg]: what the program was started with. *)
Definition desk_start (arg : string) : machine :=
  user_page (store_bytes (desk_image (initPaging blank_machine)) arg_at (chars arg ++ [0])) 3.

Definition desk_machine (arg : string) : machine :=
  sti (fold_left (fun m s => store_bytes m (lit s) (chars s ++ [0])) desk_texts (desk_start arg)).

Definition desk_kernel (m : machine) : kernel :=
  Kernel (Console m 3 20 0 0) desk_fs started_files blank_procs
    (Sched 1 1 (replicate 3 (Saved 0 0 0 0)) 1 [Process 0 1 0 0 1; null_process; null_process])
    (Keys 0 0 0 0) 0 0.

(** The program's array. *)
Definition desk_array : Z := user_base + 0x2000.

Lemma desk_image_mapped arg :
  kernel_mapped (store_bytes (desk_image (initPaging blank_machine)) arg_at (chars arg ++ [0])).
Proof.
  apply (ram_only_mapped (initPaging blank_machine)); [|apply initPaging_kernel_mapped].
  eapply ram_only_trans; [|apply store_ram_only]. unfold desk_image, st32.
  eapply ram_only_trans; [|apply store_ram_only]. do 8 apply ram_only_st.
  eapply ram_only_trans; [|apply store_ram_only]. do 4 apply ram_only_st.
  eapply ram_only_trans; [|apply store_ram_only]. do 8 apply ram_only_st.
  apply ram_only_refl.
Qed.

Lemma desk_start_mapped arg : kernel_mapped (desk_start arg).
Proof. apply user_page_mapped; [apply desk_image_mapped|lia]. Qed.

(** What the examples need of the machine. *)
Record desk_ready (m : machine) : Prop := {
  dr_mapped : kernel_mapped m;
  dr_user : forall j, 0 <= j < 4194304 -> cell m (user_base + j) = user_frame 3 + j;
  dr_if : if_flag m = true;
  dr_keys : key_reads (trace m) = 0%nat;
}.

Lemma texts_ram_only (ts : list string) m :
  ram_only m (fold_left (fun m s => store_bytes m (lit s) (chars s ++ [0])) ts m).
Proof.
  revert m. induction ts as [|s ts IH]; intros m; cbn [fold_left]; [apply ram_only_refl|].
  eapply ram_only_trans; [apply store_ram_only|apply IH].
Qed.

Lemma texts_cell (ts : list string) (m : machine) a :
  cell (fold_left (fun m s => store_bytes m (lit s) (chars s ++ [0])) ts m) a = cell m a.
Proof. revert m. induction ts as [|s ts IH]; intros m; cbn [fold_left]; [done|]. by rewrite IH, cell_store_bytes. Qed.

Lemma desk_start_cell arg j : 0 <= j < 4194304 -> cell (desk_start arg) (user_base + j) = user_frame 3 + j.
Proof. intros Hj. apply user_page_cell; [apply desk_image_mapped|lia|done]. Qed.

Lemma sti_cell m a : cell (sti m) a = cell m a.
Proof. exact eq_refl. Qed.

Lemma desk_machine_ready arg :
  key_reads (trace (desk_machine arg)) = 0%nat -> desk_ready (desk_machine arg).
Proof.
  intros Hk. split; [| |exact eq_refl|exact Hk].
  - apply sti_kernel_mapped, (ram_only_mapped (desk_start arg)); [apply texts_ram_only|apply desk_start_mapped].
  - intros j Hj. unfold desk_machine. rewrite sti_cell, texts_cell. by apply desk_start_cell.
Qed.

Section at_desk.
Context (m : machine) (R : desk_ready m) (IW : image_within desk_fs m 12288).

Lemma desk_user_cell j : 0 <= j < 4194304 -> cell m (user_base + j) = 20971520 + j.
Proof using R. intros Hj. by rewrite (dr_user _ R) by lia. Qed.

Lemma desk_kernel_cell a : KERNEL <= a < 2 * KERNEL -> cell m a = a.
Proof using R. apply cell_kernel, R. Qed.

(** An array of the program, anywhere in the first megabyte of its page. *)
Lemma desk_placed off n :
  0 <= off -> 0 < n -> off + n + 1 <= 0x100000 -> placed desk_fs 12288 (user_base + off) n m.
Proof using R IW.
  intros Ho Hn Hl. split.
  - exact IW.
  - intros a Ha. unfold desk_fs in Ha. rewrite desk_kernel_cell by (unfold KERNEL; lia).
    unfold console_bytes, VIDEO, tbuffer_at, demo_layout. lia.
  - unfold user_base. lia.
  - lia.
  - intros j Hj i Hi. rewrite <-Z.add_assoc, desk_user_cell by lia. unfold desk_fs in *.
    rewrite desk_kernel_cell by (unfold KERNEL; lia). lia.
  - intros i j Hi Hj. rewrite <-!Z.add_assoc, !desk_user_cell by lia. lia.
  - intros i Hi. rewrite <-Z.add_assoc, desk_user_cell by lia.
    unfold console_bytes, VIDEO, tbuffer_at, demo_layout. lia.
  - intros j Hj i Hi. rewrite <-Z.add_assoc, desk_user_cell by lia. unfold tbuffer_at, demo_layout.
    rewrite desk_kernel_cell by (unfold KERNEL; lia). lia.
  - intros a Ha. unfold desk_fs in Ha. rewrite desk_kernel_cell by (unfold KERNEL; lia).
    unfold tbuffer_at, demo_layout. lia.
Qed.

Lemma desk_at_ease : at_ease (con (desk_kernel m)).
Proof using R. split; [split; [exact (dr_mapped _ R)|simpl; lia..]|simpl; lia|exact eq_refl]. Qed.

Lemma desk_in_view : in_view (desk_kernel m).
Proof. exact eq_refl. Qed.

Lemma desk_is_ready off n :
  0 <= off -> 0 < n -> off + n + 1 <= 0x100000 -> ready 12288 (user_base + off) n (desk_kernel m).
Proof using R IW.
  intros Ho Hn Hl. split.
  - by apply desk_placed.
  - by eexists.
  - exact desk_in_view.
  - exact desk_at_ease.
  - exact started_files_ok.
  - exists 2%nat. eexists. split; [lia|]. split; exact eq_refl.
  - intros j Hj i Hi. change (kmach (desk_kernel m)) with m. rewrite <-Z.add_assoc, desk_user_cell by lia.
    unfold arg_at, demo_layout. rewrite desk_kernel_cell by (unfold KERNEL; lia). lia.
Qed.

Lemma desk_slot_lt s : s ∈ desk_texts -> (desk_slot s < length desk_texts)%nat.
Proof.
  intros Hs. unfold desk_slot. destruct (list_find (eq s) desk_texts) as [[i s']|] eqn:E.
  - apply list_find_Some in E as (Hi & _). by eapply lookup_lt_Some.
  - apply list_find_None in E. rewrite list.Forall_forall in E. by destruct (E s Hs).
Qed.

(** The strings are in memory. *)
Context (TX : forallb (fun s => bool_decide (load_bytes m (lit s) (length (chars s ++ [0])) = chars s ++ [0] /\
  Forall (fun b => b <> 0) (chars s) /\ (length (chars s) < 256)%nat)) desk_texts = true).

Lemma desk_literal off n s :
  0 <= off -> 0 < n -> off + n + 1 <= 0x100000 -> s ∈ desk_texts ->
  literal (user_base + off) n m (desk_kernel m) s.
Proof using R TX.
  intros Ho Hn Hl Hs. rewrite forallb_forall in TX.
  specialize (TX s ltac:(by apply list_elem_of_In)). apply bool_decide_eq_true in TX as (Hb & Hz & Hlen).
  pose proof (desk_slot_lt s Hs) as Hslot. change (length desk_texts) with 28%nat in Hslot.
  set (k := Z.of_nat (desk_slot s)) in *. assert (0 <= k < 28) as Hk by lia.
  assert (forall i, 0 <= i <= Z.of_nat (length (chars s)) ->
    cell m (lit s + i) = 20971520 + (0x100000 + 256 * k + i)) as Hcell.
  { intros i Hi. unfold lit, desk_literals. fold k. rewrite <-Z.add_assoc. apply desk_user_cell. lia. }
  split.
  - split; [by apply bytes_at_load|exact Hz].
  - unfold lit, desk_literals, user_base. fold k. lia.
  - intros i Hi. rewrite Hcell by lia. unfold console_bytes, VIDEO, tbuffer_at, demo_layout. lia.
  - intros j Hj i Hi. rewrite Hcell by lia. rewrite <-Z.add_assoc, desk_user_cell by lia. lia.
  - intros i Hi. rewrite Hcell by lia. unfold tbuffer_at, demo_layout. lia.
Qed.

End at_desk.

(** The machine of the examples, started with the argument "note". *)
Lemma note_ready : desk_ready (desk_machine "note").
Proof. apply desk_machine_ready. vm_compute. reflexivity. Qed.

Lemma note_image : image_within desk_fs (desk_machine "note") 12288.
Proof.
  assert (boot_inodes desk_fs (desk_machine "note") = 1) as Hb by (vm_compute; reflexivity).
  assert (file_size desk_fs (desk_machine "note") 0 = 8) as Hs by (vm_compute; reflexivity).
  split.
  - vm_compute. split; discriminate.
  - rewrite Hb. done.
  - intros ino k Hi Hk. rewrite Hb in Hi. assert (ino = 0) as -> by lia. rewrite Hs in Hk.
    unfold blocks_at. rewrite Hb. assert (k / 4096 = 0) as -> by dlia.
    vm_compute. split; [reflexivity|discriminate].
Qed.

Lemma note_texts :
  forallb (fun s => bool_decide (load_bytes (desk_machine "note") (lit s) (length (chars s ++ [0])) = chars s ++ [0] /\
    Forall (fun b => b <> 0) (chars s) /\ (length (chars s) < 256)%nat)) desk_texts = true.
Proof. vm_compute. reflexivity. Qed.

Lemma note_argument : load_bytes (desk_machine "note") arg_at 5 = chars "note" ++ [0].
Proof. vm_compute. reflexivity. Qed.

Definition note_text : list Z := [72; 105; 10; 102; 105; 115; 104; 10].

Lemma note_content : file_content desk_fs (desk_machine "note") 0 = note_text.
Proof. vm_compute. reflexivity. Qed.

Lemma note_found :
  found desk_fs (desk_machine "note") (chars "note") (Dentry 0 0 0) (Dentry (desk_fs + 128) 2 0) 0.
Proof.
  left. split; [done|]. exists 1. split_and!; [vm_compute; discriminate|vm_compute; reflexivity..| |].
  - intros j Hj. assert (j = 0) as -> by lia. vm_compute. discriminate.
  - vm_compute. reflexivity.
Qed.

Lemma dot_found :
  found desk_fs (desk_machine "note") [46] (Dentry 0 0 0) (Dentry (desk_fs + 64) 1 0) 0.
Proof.
  left. split; [done|]. exists 0. split_and!; [vm_compute; discriminate|vm_compute; reflexivity..| |].
  - intros j Hj. lia.
  - vm_compute. reflexivity.
Qed.

Lemma note_names : map (dentry_name desk_fs (desk_machine "note")) (seqZ 0 2) = [chars "."; chars "note"].
Proof. vm_compute. reflexivity. Qed.

Lemma note_dentries : num_dentries desk_fs (desk_machine "note") = 2.
Proof. vm_compute. reflexivity. Qed.

Lemma note_listing :
  listing desk_fs (desk_machine "note") = resize 32 0 (chars ".") ++ [10] ++ resize 32 0 (chars "note") ++ [10].
Proof. vm_compute. reflexivity. Qed.

Ltac by_decide := apply (bool_decide_unpack _); vm_compute; exact I.

Definition silent : Device := typist [].

Lemma cat_correct_witness :
  exists k', @cat_main task task_mem (@kernel_calls demo_layout silent demo_frames) desk_literals (user_base + 0x2000)
      (desk_kernel (desk_machine "note"), []) = Some (0, (k', [])) /\
    on_screen (con k') = tty_print note_text (on_screen (con (desk_kernel (desk_machine "note")))).
Proof.
  pose proof note_ready as R. pose proof note_image as IW. pose proof note_found as F.
  pose proof note_content as C. pose proof note_argument as A.
  assert (boot_inodes desk_fs (desk_machine "note") = 1) as B by (vm_compute; reflexivity).
  generalize dependent (desk_machine "note"). intros m R IW F C A B.
  destruct (@cat_correct demo_layout demo_layout_ok silent demo_frames desk_literals 12288 (user_base + 0x2000)
    (desk_kernel m) []) as (H & _); [by apply desk_is_ready; [..|lia|lia|lia]|].
  specialize (H (chars "note") (Dentry (desk_fs + 128) 2 0)).
  change (FSYSTEM (desk_kernel m)) with desk_fs in H. change (kmach (desk_kernel m)) with m in H.
  change (inode (Dentry (desk_fs + 128) 2 0)) with 0 in H. rewrite C in H. apply H; clear H.
  - split; [by apply bytes_at_load|]. by repeat constructor.
  - done.
  - simpl. lia.
  - exact F.
  - done.
  - rewrite B. simpl. lia.
  - repeat constructor; unfold printable; lia.
Defined.

Lemma ls_correct_witness :
  exists k', @ls_main task task_mem (@kernel_calls demo_layout silent demo_frames) desk_literals (user_base + 0x2000)
      (desk_kernel (desk_machine "note"), []) = Some (0, (k', [])) /\
    on_screen (con k') = tty_print (resize 32 0 (chars ".") ++ [10] ++ resize 32 0 (chars "note") ++ [10])
      (on_screen (con (desk_kernel (desk_machine "note")))).
Proof.
  pose proof note_ready as R. pose proof note_image as IW. pose proof dot_found as F.
  pose proof note_texts as TX. pose proof note_listing as E. pose proof note_dentries as Nd. pose proof note_names as Nm.
  generalize dependent (desk_machine "note"). intros m R IW F TX E Nd Nm.
  destruct (@ls_correct demo_layout demo_layout_ok silent demo_frames desk_literals 12288 (user_base + 0x2000)
    (desk_kernel m) [] (Dentry (desk_fs + 64) 1 0) 0) as (H & _).
  - by apply desk_is_ready; [..|lia|lia|lia].
  - apply desk_literal; [done|done|lia|lia|lia|by_decide].
  - exact F.
  - rewrite <-E. apply H; [done|done|]. intros x Hx.
    change (FSYSTEM (desk_kernel m)) with desk_fs in *. change (kmach (desk_kernel m)) with m in *.
    rewrite Nd in Hx. change (seqZ 0 2) with [0; 1] in Nm. cbn [map] in Nm. injection Nm as E0 E1.
    assert (x = 0 \/ x = 1) as [-> | ->] by lia; [rewrite E0|rewrite E1]; by_decide.
Defined.

(** A line to be typed at the desk, with nothing in between. *)
Lemma desk_line `{Device} (m : machine) keys zs `{!Types zs} rest more :
  desk_ready m -> zs = keys ++ 28 :: more -> Forall (typeable (desk_kernel m)) keys -> (length keys <= 127)%nat ->
  line_ahead zs (desk_kernel m) (replicate (length keys) irq_keyboard ++ irq_keyboard :: rest) keys rest more.
Proof.
  intros R Hz Hk Hl. split; [by eexists| |exact Hl].
  split; [exact (dr_if _ R)|]. split; [exact eq_refl|]. split; [exact Hk|]. split.
  - change (kmach (desk_kernel m)) with m. rewrite (dr_keys _ R). exact Hz.
  - exists (replicate (length keys) irq_keyboard). split; [done|]. clear. induction keys; [done|]. simpl. by f_equal.
Qed.

Lemma desk_typeable (m : machine) keys :
  forallb (fun z => char_key z && bool_decide (plain (key_spec false false z))) keys = true ->
  Forall (typeable (desk_kernel m)) keys.
Proof.
  intros Hk. rewrite forallb_forall in Hk. apply list.Forall_forall. intros z Hz%list_elem_of_In.
  specialize (Hk z Hz). apply andb_prop in Hk as [H1 H2%bool_decide_eq_true]. by split.
Qed.

(** "me" and Enter. *)
Definition me_device : Device := typist [50; 18; 28].


(** "1" and Enter. *)
Definition one_device : Device := typist [2; 28].

Lemma one_line (m : machine) :
  desk_ready m -> @line_ahead one_device [2; 28] (typist_types _) (desk_kernel m) [irq_keyboard; irq_keyboard] [2] [] [].
Proof.
  intros R. apply (@desk_line one_device m [2] [2; 28] (typist_types _) [] []); [done|done| |simpl; lia].
  apply desk_typeable. vm_compute. reflexivity.
Qed.

Lemma counter_refuses_witness :
  exists k', @counter_main task task_mem (@kernel_calls demo_layout one_device demo_frames) desk_literals (user_base + 0x2000)
      (desk_kernel (desk_machine "note"), [irq_keyboard; irq_keyboard]) = Some (0, (k', [])) /\
    on_screen (con k') = tty_print (chars counter_ask ++ [49] ++ [10] ++ chars counter_wrong)
      (on_screen (con (desk_kernel (desk_machine "note")))).
Proof.
  pose proof note_ready as R. pose proof note_image as IW. pose proof note_texts as TX.
  generalize dependent (desk_machine "note"). intros m R IW TX.
  apply (@counter_refuses demo_layout demo_layout_ok one_device demo_frames desk_literals [2; 28]
    (typist_types _) 12288 (user_base + 0x2000) (desk_kernel m) [irq_keyboard; irq_keyboard] [2] [] []).
  - by apply desk_is_ready; [..|lia|lia|lia].
  - by apply one_line.
  - apply desk_literal; [done|done|lia|lia|lia|by_decide].
  - apply desk_literal; [done|done|lia|lia|lia|by_decide].
Defined.

(** "exit" and Enter. *)
Definition exit_device : Device := typist [18; 45; 23; 20; 28].

Lemma shell_turn_correct_witness :
  exists k', @shell_turn task task_mem (@kernel_calls demo_layout exit_device demo_frames) desk_literals (user_base + 0x2000)
      (desk_kernel (desk_machine "note"), replicate 5 irq_keyboard) = Some (Some 0, (k', [])) /\
    on_screen (con k') = tty_print (chars ("391OS> exit" ++ nl))
      (on_screen (con (desk_kernel (desk_machine "note")))).
Proof.
  pose proof note_ready as R. pose proof note_image as IW. pose proof note_texts as TX.
  generalize dependent (desk_machine "note"). intros m R IW TX.
  destruct (@shell_turn_correct demo_layout demo_layout_ok exit_device demo_frames desk_literals [18; 45; 23; 20; 28]
    (typist_types _) 12288 (user_base + 0x2000) (desk_kernel m) (replicate 5 irq_keyboard) [18; 45; 23; 20] [] [])
    as (k' & Hk & _ & Hs).
  - by apply desk_is_ready; [..|lia|lia|lia].
  - apply (@desk_line exit_device m [18; 45; 23; 20] [18; 45; 23; 20; 28] (typist_types _) [] []); [done|done| |simpl; lia].
    apply desk_typeable. vm_compute. reflexivity.
  - apply desk_literal; [done|done|lia|lia|lia|by_decide].
  - apply desk_literal; [done|done|lia|lia|lia|by_decide].
  - exists k'. split; [exact Hk|exact Hs].
Defined.

Lemma started_free i f : (2 <= i)%nat -> fd started_files !! i = Some f -> flags f = 0.
Proof.
  intros Hi Hf. destruct i as [|[|i]]; [lia|lia|]. cbn [started_files fd app lookup list_lookup] in Hf.
  change (replicate 6 null_file !! i = Some f) in Hf. by apply lookup_replicate in Hf as [-> _].
Qed.

Lemma syserr_passes_witness :
  exists k', @syserr_main task task_mem (@kernel_calls demo_layout one_device demo_frames) desk_literals
      (user_base + 0x2000) (user_base + 0x3000)
      (desk_kernel (desk_machine "note"), [irq_keyboard; irq_keyboard]) = Some (0, (k', [])) /\
    on_screen (con k') = tty_print (chars syserr_ask ++ [49] ++ [10] ++ chars ("err_neg_fd: PASS" ++ nl))
      (on_screen (con (desk_kernel (desk_machine "note")))).
Proof.
  pose proof note_ready as R. pose proof note_image as IW. pose proof note_texts as TX.
  pose proof note_dentries as Nd. pose proof note_names as Nm.
  generalize dependent (desk_machine "note"). intros m R IW TX Nd Nm.
  change (seqZ 0 2) with [0; 1] in Nm. cbn [map] in Nm. injection Nm as E0 E1.
  apply (@syserr_passes demo_layout demo_layout_ok one_device demo_frames desk_literals [2; 28]
    (typist_types _) 12288 (user_base + 0x2000) (user_base + 0x3000) (desk_kernel m)
    [irq_keyboard; irq_keyboard] [2] [] [] 1).
  - by apply desk_placed; [..|lia|lia|lia].
  - pose proof (desk_is_ready m R IW 0x2000 128 ltac:(lia) ltac:(lia) ltac:(lia)) as Hry.
    split; [exact (ready_desk _ _ _ _ Hry)|exact started_files_ok|by eexists|by eexists| |].
    + intros i f Hi Hf. rewrite decide_False by lia. exact (started_free i f Hi Hf).
    + intros s Hs. apply desk_literal; [done|done|lia|lia|lia|]. apply elem_of_app. by right.
  - split.
    + exists 0. split; [|exact E0]. change (0 <= 0 < num_dentries desk_fs m). rewrite Nd. lia.
    + intros s x Hs Hx. change (0 <= x < num_dentries desk_fs m) in Hx. rewrite Nd in Hx.
      change (dentry_name desk_fs m x <> chars s).
      assert (x = 0 \/ x = 1) as [-> | ->] by lia; [rewrite E0|rewrite E1];
        rewrite !elem_of_cons, elem_of_nil in Hs; destruct Hs as [->|[->|[->|[]]]]; discriminate.
  - by apply one_line.
  - lia.
  - exact eq_refl.
Defined.

Lemma do_one_file_correct_witness :
  exists k', @do_one_file task task_mem (@kernel_calls demo_layout silent demo_frames) desk_literals
      (lit "fi") (lit "note") (user_base + 0x2000) (desk_kernel (desk_machine "note"), []) = Some (0, (k', [])) /\
    on_screen (con k') = tty_print (chars ("note:fish" ++ nl)) (on_screen (con (desk_kernel (desk_machine "note")))).
Proof.
  pose proof note_ready as R. pose proof note_image as IW. pose proof note_found as F.
  pose proof note_content as C. pose proof note_texts as TX.
  assert (boot_inodes desk_fs (desk_machine "note") = 1) as B by (vm_compute; reflexivity).
  assert (ld (desk_machine "note") (user_base + 0x2000 + 1024) <> 10) as N by (vm_compute; discriminate).
  generalize dependent (desk_machine "note"). intros m R IW F C TX B N.
  destruct (@do_one_file_correct demo_layout demo_layout_ok silent demo_frames desk_literals 12288 (user_base + 0x2000)
    (lit "fi") (lit "note") (chars "fi") (chars "note") (desk_kernel m) []) as (H & _).
  - split; [by apply desk_is_ready; [..|lia|lia|lia]|unfold user_base; lia|split; [done|simpl; lia]
      |split; [by_decide|simpl; lia]|..]; try (apply desk_literal; [done|done|lia|lia|lia|by_decide]). exact N.
  - specialize (H (Dentry (desk_fs + 128) 2 0)).
    change (file_content _ _ _) with (file_content desk_fs m 0) in H. rewrite C in H.
    destruct H as (k' & Hk & Hs & _);
      [exact F|done|change (0 < boot_inodes desk_fs m); lia|apply (bool_decide_unpack _); vm_compute; exact I
      |change (Forall short [[72; 105]; [102; 105; 115; 104]]); repeat constructor; unfold short; simpl; lia|].
    exists k'. split; [exact Hk|exact Hs].
Defined.
